(* ===== verification/_CoqProject ===== *)
-Q . S2P
Prelude.v
Types.v
Text.v
Metrics.v
Session.v
Attestation.v
Handshake.v
Liveness.v
Fs.v
Json.v
Policy.v
Resource.v
Token.v
Jwe.v
ApiServer.v
Access.v
TcgEvents.v
DevicePaths.v
EventParsers.v
EventLog.v
EventLogProofs.v
EventLogFormat.v
Rvps.v
RvpsProofs.v
RvpsServer.v
AsPolicy.v
Brokers.v
BrokersProofs.v
Verifier.v
Spdm.v
SpdmProofs.v
Nvidia.v
NvidiaProofs.v
IntelDcap.v
TdxQuote.v
TdxQuoteProofs.v
Tdx.v
TdxProofs.v
Sgx.v
SgxProofs.v
Snp.v
SnpProofs.v
ShippedPolicies.v
ShippedProofs.v
AzVtpm.v
AzVtpmProofs.v
Tpm.v
TpmProofs.v
Hygon.v
HygonProofs.v
Cca.v
CcaProofs.v
Se.v
SeProofs.v
AsService.v
AsServiceProofs.v
ShippedService.v
Verifiers.v
RemoteStores.v
Pkcs11.v
Pkcs11Proofs.v
NebulaCa.v
NebulaCaProofs.v
InToto.v
InTotoProofs.v
Ita.v
ItaProofs.v
AsFrontends.v
AsFrontendsProofs.v
Plugins.v
HttpServer.v
Config.v
StartUp.v
StartUpProofs.v
KbsClient.v
KbsClientProofs.v
TrusteeCli.v
TrusteeRun.v
