(* ===== verification/Prelude.v ===== *)
(** * Trustee: a verification development

    Trustee releases secrets to trusted execution environments.  Its parts are
    the key broker service (KBS, [kbs/src]), the attestation service (AS,
    [attestation-service/src]), the reference value provider service (RVPS,
    [rvps/src]), the verifiers ([deps/verifier/src]) and the event log library
    ([deps/eventlog/src]), with the command-line tools [kbs-client] and [trustee]
    ([tools]).  A guest opens a session with the KBS, answers its
    challenge with hardware evidence, receives a token from the AS, and exchanges
    the token for a resource encrypted to its key.  The AS checks evidence with
    the verifier of the TEE, takes reference values from the RVPS, and lets
    policies decide what the token says.

    ** How the code is modelled

    The definitions are a shallow embedding, executable throughout.  A call that
    may fail or panic returns an [outcome] ([Ok], [Err] or [Panic]); stateful
    code is a state-passing computation [st S E A], which keeps the state reached
    on every ending, because Rust does not roll back effects.  Machine integers
    are in [Z] at their width; arithmetic that overflows follows the [Profile]
    (overflow checks or wrap-around).  Strings are byte strings in UTF-8; files
    are a map from path components to contents ([Fs]), and any file operation may
    fail for reasons of its own ([Disk]): a write that cannot open its file changes
    nothing, but one that fails later has truncated the file and leaves a proper
    part of the new contents in it, and a failed creation of directories leaves
    those already made.  Third-party crates (JSON, JWT, OpenSSL,
    Rego, base64, time, XML, sled, EAR) are parameters, as type classes of
    operations with classes of the documented laws a proof relies on; each such
    class has a concrete instance beside the proofs that use it, on which the
    witnesses evaluate.  Clock readings, random values and fresh identifiers are
    arguments.

    ** The files

    - [Prelude]: outcomes, the state monad, machine integers, slices, tactics and
      hints.
    - [Types], [Text], [Fs], [Json]: JSON values and protocol types; UTF-8,
      UTF-16 and formatting; paths and files; JSON pointers.
    - [Metrics], [Session], [Attestation]: counters ([kbs/src/prometheus]), RCAR
      sessions ([attestation/session.rs]) and the handlers [auth], [attest] and
      the sweep ([attestation/backend.rs]) over the interface [Attest].
    - [Handshake]: the service as a step relation in which the two halves of
      [attest] of several requests interleave; invariants of every run.
    - [Policy], [Resource], [Token], [Jwe]: the resource policy engine
      ([policy_engine]), resource storage ([plugins/implementations/resource]),
      token and admin verification ([token], [admin]) and response encryption
      ([jwe.rs]).
    - [ApiServer], [Access]: the plugin manager, the API handler and the
      middleware ([api_server.rs], [error.rs], [plugin_manager.rs]); end-to-end
      access control.
    - [TcgEvents], [DevicePaths], [EventParsers], [EventLog]: the event log
      parser; [EventLogProofs] and [EventLogFormat]: its termination, its
      relation to a reference encoder, and the replay of registers.
    - [Rvps], [RvpsProofs]: reference values, extractors, both storage backends
      behind the interface [ReferenceValueStorage], and the service.
    - [RvpsServer]: the gRPC server of the RVPS ([rvps/src/server]) as a step
      relation: tasks that interleave at their await points, are dropped with
      their clients, and share the service through a lock ([RwLock]).
    - [AsPolicy], [Brokers], [BrokersProofs]: the policy engine and the token
      brokers of the attestation service ([policy_engine], [token]).
    - [ShippedPolicies], [ShippedProofs]: the Rego policies in the repository
      ([token/ear_default_policy_*.rego], [opa/default_policy.rego],
      [sample_policies/affirming.rego]) as functions of the claims and the
      reference values, and what their decisions say of SNP and TDX guests.
    - [Liveness]: what an honest client obtains from the handlers of [Handshake].
    - [Verifier], [AsService], [AsServiceProofs]: the verifier interface with the
      sample verifiers, the service ([lib.rs]) and its use by the KBS
      ([kbs/src/attestation/coco/builtin.rs]).  [ShippedService] follows an
      attestation through all of it, up to the policy of the broker.
    - The hardware verifiers, one file of definitions and one of proofs each:
      [Spdm] (the SPDM messages) and [Nvidia] ([nvidia/*.rs]); [IntelDcap],
      [TdxQuote], [Tdx] ([intel_dcap], [tdx/*.rs]); [Sgx]; [Snp]; [AzVtpm] (the
      two Azure vTPM verifiers); [Tpm]; [Hygon] ([csv], [hygon_dcu]); [Cca]; [Se].
      [Verifiers] collects them behind the interface of [Verifier].
    - [AsFrontends]: the gRPC and RESTful front-ends of the attestation service
      and the gRPC client of the KBS ([bin], [coco/grpc.rs]).
    - [Ita]: the client of the Intel Trust Authority.
    - [RemoteStores], [Pkcs11], [NebulaCa]: the Vault and Aliyun backends of
      resource storage and the two optional plugins.
    - [InToto]: the in-toto extractor of the RVPS with the Go function it calls
      ([extractors/in_toto], [rvps/cgo/intoto.go]).
    - [Plugins], [HttpServer]: the plugin manager with all features
      ([plugin_manager.rs], [resource/backend.rs]); routes, size limit, metrics
      page and sockets of the KBS ([ApiServer::server], [http.rs]).
    - [Config], [StartUp], [StartUpProofs]: the configuration records with their
      defaults, and the services put together from them: the RVPS
      ([rvps/src/lib.rs], [bin/rvps.rs]) with its client ([client],
      [bin/rvps-tool.rs]), the AS ([bin/grpc], [bin/restful-as.rs]) and the KBS
      ([ApiServer::new], [bin/kbs.rs]).  Components modelled over a state of
      their own are lifted into the state of the whole ([storage_on] and its
      siblings).
    - [KbsClient], [KbsClientProofs]: the requests and the command line of
      [tools/kbs-client], and the client composed with the server.
    - [TrusteeCli], [TrusteeRun]: [tools/trustee], and the server [trustee run]
      starts.

    ** What the theorems show

    - Release of secrets ([Access]): a resource is returned only for a verified
      token whose claims the policy in force accepts for that path, and encrypted
      to the key in those claims; nothing protected changes without admin
      authorization.
    - Attestation ([Handshake], [AsServiceProofs], [Liveness]): in every
      interleaving an attested session's token stems from evidence of that
      session; through the built-in service that evidence was verified for the
      digest of the session's nonce and public key; under the shipped policy the
      token of an SNP session is affirming exactly when the RVPS knows the
      measurement and the firmware in the verified report
      ([snp_session_affirmed]); attested sessions are stable
      until they expire; a client that follows the protocol is served.
    - Verifiers: claims are returned only for evidence whose signature chain was
      checked and whose report data and initial data hash are the expected ones,
      and the claims are fields of the signed evidence ([tdx_evaluate_sound],
      [snp_evaluate_sound], [az_snp_evaluate_sound]; [nvidia_local_sound], where
      the architecture and the UUID come from unsigned text,
      [nvidia_uuid_unsigned]); the
      Secure Execution verifier compares neither ([se_evaluate_sound]); the parsers agree with a specification of the wire
      format ([tdx_quote_parse_spec], [response_roundtrip],
      [response_decode_equiv]); evidence accepted for one report data is refused
      for another by every verifier that compares it, so that evidence accepted
      for two sessions means two documents with one digest
      ([evidence_not_reusable]).
    - Policies and resources ([Policy], [Resource], [AsPolicy]): updates are
      confined to their files and either succeed or fail, with what a failed one
      may leave behind; what was stored is what is served, until the administrator
      overwrites it ([client_secret_reaches_guest]).  The Vault backend is an instance of the same contract ([vault_correct]); keys
      wrapped by the HSM plugin unwrap to themselves; a credential request to the
      Nebula plugin leaves no file behind.
    - Tokens ([Token], [Jwe], [BrokersProofs], [Ita]): accepted tokens are signed
      by trusted keys; responses can be opened by the intended key; brokers sign
      only what the policies decided, with one appraisal per device; what an
      affirming appraisal under the shipped policy amounts to
      ([shipped_policy_affirming], [affirming_policy_spec]); the Trust
      Authority is asked about the session's nonce and key and its token is
      verified before it is returned.
    - Plugins ([Plugins]): no plugin, optional or not, is called for a request
      that was not authorised the way it demands; which plugin answers to a name;
      with the default features the manager is that of [ApiServer].
    - Start-up ([StartUpProofs], [HttpServer]): whatever storage is configured,
      the RVPS that starts is the specified one; a KBS that starts is guarded the
      way its configuration says (TLS, admin key, policy, plugins); when the two
      servers open plain sockets; the routes and the size limit.
    - Tools ([KbsClientProofs], [StartUpProofs], [TrusteeCli], [TrusteeRun]): what
      the KBS client reports as stored, set or registered is what guests are
      later served, and [rvps-tool] prints what it registered, end to end through
      client, routes, handler and service; [trustee keygen] destroys nothing;
      [trustee run] starts a server that is locked by default.
    - Front-ends ([AsFrontends]): over a transport that delivers messages, the
      gRPC client and server together behave as the built-in service, for evidence
      of every TEE but the sample device, whose name the server does not know.
    - Event logs ([EventLogProofs], [EventLogFormat], [DevicePaths]): parsing
      ends, inverts a reference encoder, and accepts only encodings of the log it
      returns; replay matches exactly when the registers fold to the expected
      values, and two logs with one register value have the same digests unless
      the hash breaks on the very messages these replays hash; the inputs on
      which the code panics.
    - Reference values ([RvpsProofs], [RvpsServer], [InTotoProofs]): both backends
      implement one map; the service over that interface registers and reports;
      concurrent clients see a sequential service and some task can always go on,
      unless a client leaves during a write, and until a write fails halfway,
      which leaves the JSON file unreadable; extraction ends; the in-toto
      extractor itself works in its own directory, unless a file name of the
      provenance leads out of it, and leaves behind only what the inspection
      commands of the layout did.
    - Defects ([concurrent_attest_can_crash], [concurrent_set_loses_update],
      [malformed_log_panics], [device_path_parse_panics], [sev_evidence_panics],
      [aliyun_write_panics], [pkcs11_update_not_seen], [in_toto_escapes],
      [middleware_records], [payload_limit_spec], [restart_resets_policy],
      [half_written_key], [keygen_pub_name], [relocate_leaves],
      [abandoned_write_loses_update], [local_gpu_unrecognised],
      [failed_update_loses_policy], [in_toto_runs_inspections]) are proved of the
      code as it is.

    ** Fuel

    Recursion that is not structural has fuel, and is proved to have enough: one
    step per byte for the event log and its nested device paths (each iteration
    consumes input), one step more than an element has attributes for the hash
    loop of the SWID extractor (attribute names are distinct), the length of the
    text for decoders and for splitting, the length of the message for the SPDM
    records.

    ** Not modelled

    Generated code ([rvps_api/reference.rs]), the set-up of the integration
    tests, and the table of error texts of the DCAP library
    ([intel_dcap/error.rs]).  The deserialization of configuration files and of
    command lines, the web frameworks, OpenSSL, the gRPC transport with its
    connection pool, and the guest's protocol library of the KBS client are
    parameters, being third-party code; of the web framework the meaning of the
    routes is written out.  File modes are not part of the file system model, and
    logging has no effect in it.  The KBS and the AS of one process work on
    separate file maps: what is shown of them together ([StartUpProofs],
    [ShippedService], [TrusteeRun]) is about configurations that give them
    separate directories, as the defaults and [trustee run] do, and says nothing
    of one where, say, the work directory of the AS holds the resources of the
    KBS.  The in-toto library for Go is a parameter that may do anything to the
    process and its files.  What is
    left of the source beyond that are texts for logs ([Display] of quotes,
    reports and SPDM messages), the declarations of metrics for the exposition
    format, and plumbing around parameters.  The policy fragment of
    [ShippedPolicies] is the one the shipped policies use; other policies enter
    through the Rego parameter.  The queue of [tokio::sync::RwLock] is not
    modelled: any waiting task may be next, so what is shown is that some task
    can go on, not that each one is served. *)
From Stdlib Require Export ZArith Lia Bool String Ascii.
From stdpp Require Export base tactics option list strings gmap numbers.
From coqutil Require Export Byte Word.LittleEndianList.

#[global] Open Scope Z_scope.

(** ** Outcomes of Rust code

    A Rust call ends in one of three ways: it returns [Ok], it returns [Err],
    or it panics.  [anyhow] errors are represented by the literal text of
    their message (values interpolated into the text are dropped). *)
Inductive outcome (E A : Type) : Type :=
| Ok (a : A)
| Err (e : E)
| Panic.
Arguments Ok {E A} _.
Arguments Err {E A} _.
Arguments Panic {E A}.

Abbreviation anyhow := string.

#[global] Instance outcome_ret {E} : MRet (outcome E) := fun A a => Ok a.
#[global] Instance outcome_bind {E} : MBind (outcome E) := fun A B f m =>
  match m with
  | Ok a => f a
  | Err e => Err e
  | Panic => Panic
  end.
#[global] Instance outcome_fmap {E} : FMap (outcome E) := fun A B f m =>
  match m with
  | Ok a => Ok (f a)
  | Err e => Err e
  | Panic => Panic
  end.

#[global] Instance outcome_eq_dec {E A} `{EqDecision E, EqDecision A} :
  EqDecision (outcome E A).
Proof. solve_decision. Defined.

(** [Result::map_err]. *)
Definition map_err {E F A} (f : E -> F) (m : outcome E A) : outcome F A :=
  match m with
  | Ok a => Ok a
  | Err e => Err (f e)
  | Panic => Panic
  end.

(** [Option::ok_or], which is also how a failing crate call is reported. *)
Definition ok_or {E A} (e : E) (o : option A) : outcome E A :=
  match o with
  | Some a => Ok a
  | None => Err e
  end.

(** [Option::unwrap] and [expect]. *)
Definition unwrap {E A} (o : option A) : outcome E A :=
  match o with
  | Some a => Ok a
  | None => Panic
  end.

Definition is_ok {E A} (m : outcome E A) : bool :=
  match m with
  | Ok _ => true
  | _ => false
  end.

Definition is_panic {E A} (m : outcome E A) : bool :=
  match m with
  | Panic => true
  | _ => false
  end.

Section OutcomeLemmas.
Context {E F A B : Type}.
Implicit Types (m : outcome E A).

Lemma bind_Ok m (f : A -> outcome E B) b :
  m ≫= f = Ok b <-> exists a, m = Ok a /\ f a = Ok b.
Proof. destruct m; cbn; naive_solver. Qed.

Lemma bind_Err m (f : A -> outcome E B) e :
  m ≫= f = Err e <-> m = Err e \/ exists a, m = Ok a /\ f a = Err e.
Proof. destruct m; cbn; naive_solver. Qed.

Lemma bind_Panic m (f : A -> outcome E B) :
  m ≫= f = Panic <-> m = Panic \/ exists a, m = Ok a /\ f a = Panic.
Proof. destruct m; cbn; naive_solver. Qed.

Lemma map_err_Ok (g : E -> F) m a : map_err g m = Ok a <-> m = Ok a.
Proof. destruct m; cbn; naive_solver. Qed.

Lemma map_err_Panic (g : E -> F) m : map_err g m = Panic <-> m = Panic.
Proof. destruct m; cbn; naive_solver. Qed.

Lemma ok_or_Ok (e : E) (o : option A) a : ok_or e o = Ok a <-> o = Some a.
Proof. destruct o; cbn; naive_solver. Qed.

Lemma ok_or_Panic (e : E) (o : option A) : ~ ok_or e o = Panic.
Proof. destruct o; discriminate. Qed.
End OutcomeLemmas.

(** Break a successful monadic computation into its successful steps. *)
Ltac inv_ok :=
  repeat match goal with
    | H : _ ≫= _ = Ok _ |- _ =>
        apply bind_Ok in H;
        let a := fresh "a" in let Ha := fresh "Hok" in
        destruct H as (a & Ha & H)
    | H : map_err _ _ = Ok _ |- _ => apply map_err_Ok in H
    | H : ok_or _ _ = Ok _ |- _ => apply ok_or_Ok in H
    | H : mret _ = Ok _ |- _ => injection H as H
    | H : Ok _ = Ok _ |- _ => injection H as H
    | H : Err _ = Ok _ |- _ => discriminate H
    | H : Panic = Ok _ |- _ => discriminate H
    end; try subst.

(** ** State-passing computations

    [st S E A] threads a state through fallible code.  The state reached is
    kept on every ending, because Rust does not roll back effects on [Err] or
    on a panic. *)
Definition st (S E A : Type) : Type := S -> S * outcome E A.

#[global] Instance st_ret {S E} : MRet (st S E) := fun A a s => (s, Ok a).
#[global] Instance st_bind {S E} : MBind (st S E) := fun A B f m s =>
  match m s with
  | (s', Ok a) => f a s'
  | (s', Err e) => (s', Err e)
  | (s', Panic) => (s', Panic)
  end.

Definition st_get {S E} : st S E S := fun s => (s, Ok s).
Definition st_gets {S E A} (f : S -> A) : st S E A := fun s => (s, Ok (f s)).
Definition st_modify {S E} (f : S -> S) : st S E unit := fun s => (f s, Ok tt).
Definition st_lift {S E A} (m : outcome E A) : st S E A := fun s => (s, m).
Definition st_err {S E A} (e : E) : st S E A := fun s => (s, Err e).

(** [Result::inspect_err]: an effect run only when the computation fails. *)
Definition inspect_err {S E A} (f : S -> S) (m : st S E A) : st S E A := fun s =>
  match m s with
  | (s', Err e) => (f s', Err e)
  | r => r
  end.

Definition st_map_err {S E F A} (f : E -> F) (m : st S E A) : st S F A := fun s =>
  let '(s', r) := m s in (s', map_err f r).

(** Run a computation on a component of the state. *)
Definition st_on {S T E A} (get : S -> T) (set : T -> S -> S) (m : st T E A) : st S E A :=
  fun s => let '(t, r) := m (get s) in (set t s, r).

Section StateLemmas.
Context {S E A B : Type}.
Implicit Types (m : st S E A).

Lemma st_bind_Ok m (f : A -> st S E B) s s' b :
  (m ≫= f) s = (s', Ok b) <->
  exists s1 a, m s = (s1, Ok a) /\ f a s1 = (s', Ok b).
Proof.
  unfold mbind, st_bind.
  destruct (m s) as [s1 [a|e|]]; naive_solver.
Qed.

Lemma st_bind_Panic m (f : A -> st S E B) s s' :
  (m ≫= f) s = (s', Panic) <->
  m s = (s', Panic) \/ exists s1 a, m s = (s1, Ok a) /\ f a s1 = (s', Panic).
Proof.
  unfold mbind, st_bind.
  destruct (m s) as [s1 [a|e|]]; naive_solver.
Qed.

Lemma st_map_err_Ok {F} (f : E -> F) m s s' a :
  st_map_err f m s = (s', Ok a) <-> m s = (s', Ok a).
Proof. unfold st_map_err. destruct (m s) as [s1 []]; cbn; naive_solver. Qed.

Lemma inspect_err_Ok f m s s' a : inspect_err f m s = (s', Ok a) <-> m s = (s', Ok a).
Proof. unfold inspect_err. destruct (m s) as [s1 []]; cbn; naive_solver. Qed.

Lemma st_on_Ok {W} (get : W -> S) (set : S -> W -> W) m w w' a :
  st_on get set m w = (w', Ok a) <-> exists s', m (get w) = (s', Ok a) /\ w' = set s' w.
Proof. unfold st_on. destruct (m (get w)) as [s1 r]. naive_solver. Qed.
End StateLemmas.

Ltac inv_st :=
  repeat match goal with
    | H : (_ ≫= _) _ = (_, Ok _) |- _ =>
        apply st_bind_Ok in H;
        let s := fresh "s" in let a := fresh "a" in let Ha := fresh "Hst" in
        destruct H as (s & a & Ha & H)
    | H : mret _ _ = (_, Ok _) |- _ => injection H as H
    | H : st_gets _ _ = (_, Ok _) |- _ => injection H as H
    | H : st_get _ = (_, Ok _) |- _ => injection H as H
    | H : st_modify _ _ = (_, Ok _) |- _ => injection H as H
    | H : st_lift _ _ = (_, Ok _) |- _ => injection H as H
    | H : st_err _ _ = (_, Ok _) |- _ => discriminate H
    | H : st_map_err _ _ _ = (_, Ok _) |- _ => apply st_map_err_Ok in H
    | H : inspect_err _ _ _ = (_, Ok _) |- _ => apply inspect_err_Ok in H
    | H : st_on _ _ _ _ = (_, Ok _) |- _ =>
        apply st_on_Ok in H;
        let s := fresh "s" in let Ha := fresh "Hst" in let Hs := fresh "Hs" in
        destruct H as (s & Ha & Hs)
    end; try subst.

(** ** Machine integers

    [usize] is 64 bits wide.  Arithmetic that overflows panics when the crate
    is built with overflow checks (the debug profile) and wraps otherwise (the
    release profile): the profile is a parameter of the code that computes. *)
Class Profile := overflow_checks : bool.

Section MachineInts.
Context {P : Profile} {E : Type}.

Definition uint (w z : Z) : outcome E Z :=
  if (0 <=? z) && (z <? 2 ^ w) then Ok z
  else if overflow_checks then Panic
  else Ok (z mod 2 ^ w).

Definition usize_add (a b : Z) : outcome E Z := uint 64 (a + b).
Definition usize_sub (a b : Z) : outcome E Z := uint 64 (a - b).

Lemma uint_small w z : 0 <= z < 2 ^ w -> uint w z = Ok z.
Proof.
  intros [Hl Hu]. unfold uint.
  rewrite (proj2 (Z.leb_le 0 z) Hl), (proj2 (Z.ltb_lt z _) Hu). reflexivity.
Qed.

Lemma usize_add_small a b : 0 <= a -> 0 <= b -> a + b < 2 ^ 64 -> usize_add a b = Ok (a + b).
Proof. intros. apply uint_small. lia. Qed.

Lemma usize_sub_small a b : 0 <= b <= a -> a < 2 ^ 64 -> usize_sub a b = Ok (a - b).
Proof. intros. apply uint_small. lia. Qed.
End MachineInts.

(** ** Bytes and slices *)
#[global] Instance byte_eq_dec : EqDecision Init.Byte.byte := Byte.byte_eq_dec.

Abbreviation bytes := (list Init.Byte.byte).

Definition len {A} (l : list A) : Z := Z.of_nat (length l).

Definition u8 (b : Init.Byte.byte) : Z := byte.unsigned b.

(** The bytes of [data] at positions [a, b), with no bounds check of its own. *)
Definition range {A} (data : list A) (a b : Z) : list A :=
  take (Z.to_nat (b - a)) (drop (Z.to_nat a) data).

(** [data.get(a..b)]. *)
Definition get_range {A} (data : list A) (a b : Z) : option (list A) :=
  if (a <=? b) && (b <=? len data) then Some (range data a b) else None.

(** [&data[a..b]], which panics out of range. *)
Definition slice {E A} (data : list A) (a b : Z) : outcome E (list A) :=
  unwrap (get_range data a b).

(** [data[i]], which panics out of range. *)
Definition index {E A} (data : list A) (i : Z) : outcome E A :=
  unwrap (if 0 <=? i then data !! Z.to_nat i else None).

Lemma len_nonneg {A} (l : list A) : 0 <= len l.
Proof. unfold len. lia. Qed.

Lemma to_nat_len {A} (l : list A) : Z.to_nat (len l) = length l.
Proof. apply Nat2Z.id. Qed.

Lemma len_nil {A} : len (@nil A) = 0.
Proof. reflexivity. Qed.

Lemma len_cons {A} (x : A) l : len (x :: l) = 1 + len l.
Proof. unfold len. rewrite length_cons. lia. Qed.

Lemma len_app {A} (l k : list A) : len (l ++ k) = len l + len k.
Proof. unfold len. rewrite length_app. lia. Qed.

Lemma len_range {A} (l : list A) a b :
  0 <= a <= b -> b <= len l -> len (range l a b) = b - a.
Proof. unfold len, range. intros. rewrite length_take, length_drop. lia. Qed.

Lemma len_le_split n z : len (le_split n z) = Z.of_nat n.
Proof. unfold len. now rewrite length_le_split. Qed.

(** A range that starts where a prefix ends. *)
Lemma range_app_at {A} (pre mid post : list A) a b :
  a = len pre -> b = len pre + len mid -> range (pre ++ mid ++ post) a b = mid.
Proof.
  unfold range, len. intros -> ->.
  rewrite Nat2Z.id, drop_app_length.
  replace (Z.to_nat _) with (length mid) by lia.
  apply take_app_length.
Qed.

Lemma get_range_app_at {A} (pre mid post : list A) a b :
  a = len pre -> b = len pre + len mid -> get_range (pre ++ mid ++ post) a b = Some mid.
Proof.
  intros Ha Hb. unfold get_range.
  rewrite (range_app_at pre mid post a b Ha Hb).
  rewrite !len_app. pose proof (len_nonneg mid); pose proof (len_nonneg post).
  destruct (Z.leb_spec a b), (Z.leb_spec b (len pre + (len mid + len post)));
    cbn; reflexivity || lia.
Qed.

Lemma slice_app_at {E A} (pre mid post : list A) a b :
  a = len pre -> b = len pre + len mid ->
  slice (E := E) (pre ++ mid ++ post) a b = Ok mid.
Proof. intros. unfold slice. now rewrite (get_range_app_at pre mid post). Qed.

Lemma get_range_Some {A} (l : list A) a b r :
  get_range l a b = Some r -> a <= b <= len l /\ r = range l a b.
Proof.
  unfold get_range.
  destruct (Z.leb_spec a b), (Z.leb_spec b (len l)); cbn; naive_solver lia.
Qed.

Lemma slice_Ok {E A} (l : list A) a b r :
  slice (E := E) l a b = Ok r -> a <= b <= len l /\ r = range l a b.
Proof.
  unfold slice, unwrap. destruct (get_range l a b) eqn:G; [|discriminate].
  intros [= <-]. now apply get_range_Some.
Qed.

Lemma slice_not_Err {E A} (l : list A) a b (e : E) : slice l a b <> Err e.
Proof. unfold slice, unwrap. now case_match. Qed.

Lemma slice_total {E A} (l : list A) a b :
  a <= b <= len l -> slice (E := E) l a b = Ok (range l a b).
Proof.
  intros []. unfold slice, get_range.
  now rewrite (proj2 (Z.leb_le a b)), (proj2 (Z.leb_le b (len l))).
Qed.

Lemma index_Ok {E A} (l : list A) i x : index (E := E) l i = Ok x -> 0 <= i < len l.
Proof.
  unfold index, unwrap, len. destruct (Z.leb_spec 0 i); cbn; [|discriminate].
  destruct (l !! Z.to_nat i) eqn:L; [|discriminate].
  intros _. apply lookup_lt_Some in L. lia.
Qed.

Lemma index_app_at {E A} (pre : list A) x post i :
  i = len pre -> index (E := E) (pre ++ x :: post) i = Ok x.
Proof.
  intros ->. unfold index, len.
  rewrite (proj2 (Z.leb_le 0 _)) by lia.
  rewrite Nat2Z.id, list_lookup_middle; reflexivity.
Qed.

Lemma index_total {E A} (l : list A) i :
  0 <= i < len l -> exists x, index (E := E) l i = Ok x.
Proof.
  unfold index, len. intros [Hl Hu].
  rewrite (proj2 (Z.leb_le 0 i)) by lia.
  destruct (lookup_lt_is_Some_2 l (Z.to_nat i)) as [x Hx]; [lia|].
  exists x. now rewrite Hx.
Qed.

Lemma u8_range b : 0 <= u8 b < 256.
Proof. apply byte.unsigned_range. Qed.

Create HintDb trustee.
#[export] Hint Resolve len_nonneg u8_range : trustee.
#[export] Hint Rewrite @len_nil @len_cons @len_app len_le_split : trustee.

(** Normalise lengths and close linear goals about them. *)
Ltac len_lia := autorewrite with trustee in *;
  repeat match goal with
    | |- context [len ?l] => match goal with
        | _ : 0 <= len l |- _ => fail 1
        | _ => pose proof (len_nonneg l) end
    end; lia.

(** ** Monadic loops over lists *)
Fixpoint mfold {E A S} (f : S -> A -> outcome E S) (s : S) (l : list A) : outcome E S :=
  match l with
  | [] => Ok s
  | x :: l => s' ← f s x; mfold f s' l
  end.

Lemma mfold_app {E A S} (f : S -> A -> outcome E S) s l k :
  mfold f s (l ++ k) = s' ← mfold f s l; mfold f s' k.
Proof.
  revert s. induction l as [|x l IH]; intros s; [reflexivity|].
  cbn. destruct (f s x); cbn; auto.
Qed.

(** What every iteration preserves holds at the end. *)
Lemma mfold_inv {E A S} (f : S -> A -> outcome E S) (I : S -> Prop) l s s' :
  (forall s x s', I s -> f s x = Ok s' -> I s') -> I s -> mfold f s l = Ok s' -> I s'.
Proof.
  intros Hf. revert s. induction l as [|x l IH]; intros s Hs H; cbn [mfold] in H; [congruence|].
  apply bind_Ok in H as (s1 & H1 & H). eauto.
Qed.

(** A loop that appends one result per element. *)
Lemma mfold_collect {E A B} (f : A -> outcome E B) l acc r :
  mfold (fun acc x => y ← f x; Ok (acc ++ [y])) acc l = Ok r <->
  exists ys, r = acc ++ ys /\ Forall2 (fun x y => f x = Ok y) l ys.
Proof.
  revert acc. induction l as [|x l IH]; intros acc; cbn [mfold].
  - split.
    + intros [= <-]. exists []. now rewrite app_nil_r.
    + intros (ys & -> & ->%Forall2_nil_inv_l). now rewrite app_nil_r.
  - rewrite bind_Ok. split.
    + intros (a & Ha & H). apply bind_Ok in Ha as (y & Hy & [= <-]).
      apply IH in H as (ys & -> & H). exists (y :: ys). rewrite <- app_assoc. auto.
    + intros (ys & -> & H). apply Forall2_cons_inv_l in H as (y & ys' & Hy & H & ->).
      exists (acc ++ [y]). rewrite Hy. split; [done|]. apply IH. exists ys'. now rewrite <- app_assoc.
Qed.

(** ** Symbolic execution

    Destruct a scrutinee of [H] that contains no further [match]. *)
Ltac case_inner H :=
  match type of H with
  | context [match ?x with _ => _ end] =>
      lazymatch x with
      | context [match _ with _ => _ end] => fail
      | _ => let E := fresh "Eq" in destruct x eqn:E
      end
  end.

(** Run a stateful computation in [H] through all its branches. *)
Ltac run_st H :=
  unfold st_on, inspect_err, st_lift, st_gets, st_modify, st_err, st_map_err,
    ok_or, unwrap, mret, st_ret, mbind, st_bind, outcome_bind in H;
  cbn in H;
  repeat (case_inner H; simplify_eq; try (cbn in H));
  simplify_eq.

(** Unfold a stateful computation in the goal. *)
Ltac exec :=
  unfold st_on, inspect_err, st_lift, st_gets, st_modify, st_err, st_map_err,
    ok_or, unwrap, mret, st_ret, mbind, st_bind, outcome_bind; cbn.

(** ** Panics *)
Lemma slice_len {E A} (l : list A) a b r :
  slice (E := E) l a b = Ok r -> 0 <= a -> len r = b - a.
Proof. intros [H ->]%slice_Ok Ha. apply len_range; lia. Qed.

Lemma slice_Panic {E A} (l : list A) a b :
  slice (E := E) l a b = Panic <-> ~ (a <= b <= len l).
Proof.
  split.
  - intros H Hab. now rewrite slice_total in H.
  - intros H. destruct (slice l a b) as [r|e|] eqn:Hs; [|now apply slice_not_Err in Hs|done].
    now apply slice_Ok in Hs as [? _].
Qed.

Lemma index_Panic {E A} (l : list A) i : index (E := E) l i = Panic <-> ~ (0 <= i < len l).
Proof.
  split.
  - intros H Hi. destruct (index_total (E := E) l i Hi) as [x Hx]. congruence.
  - intros H. unfold index, unwrap. destruct (Z.leb_spec 0 i); [|done].
    rewrite lookup_ge_None_2; [done|]. unfold len in H. lia.
Qed.

(** Follow a computation that panics to the operation that does. *)
Ltac inv_panic :=
  repeat match goal with
    | H : Ok _ = Panic |- _ => discriminate H
    | H : Err _ = Panic |- _ => discriminate H
    | H : ok_or _ _ = Panic |- _ => exfalso; exact (ok_or_Panic _ _ H)
    | H : map_err _ _ = Panic |- _ => apply map_err_Panic in H
    | H : slice _ _ _ = Panic |- _ => apply slice_Panic in H
    | H : index _ _ = Panic |- _ => apply index_Panic in H
    | H : slice _ _ _ = Ok ?r |- _ =>
        pose proof (slice_len _ _ _ _ H ltac:(lia)); apply slice_Ok in H as [H _]
    | H : index _ _ = Ok _ |- _ => apply index_Ok in H
    | H : _ ≫= _ = Panic |- _ =>
        apply bind_Panic in H;
        let a := fresh "a" in let Ha := fresh "Hok" in
        destruct H as [H|(a & Ha & H)]
    | H : (if ?b then _ else _) = Panic |- _ => let Hb := fresh "Hb" in destruct b eqn:Hb
    | H : (let '(_, _) := ?p in _) = Panic |- _ => destruct p
    end.
