(* ===== verification/Types.v ===== *)
(** * Data exchanged between the components

    The public data types of the crates the program is built on
    ([serde_json::Value], the KBS protocol types of [kbs_types], HTTP requests
    and responses as the handlers use them), and the KBS error type. *)
From S2P Require Import Prelude.

(** ** JSON values ([serde_json], built with insertion-ordered objects) *)
Inductive Number :=
| PosInt (n : Z)
| NegInt (n : Z)
| Float (bits : Z).

Inductive Value :=
| VNull
| VBool (b : bool)
| VNumber (n : Number)
| VString (s : string)
| VArray (l : list Value)
| VObject (m : list (string * Value)).

(** The map operations of an object: look a key up, insert (replacing in
    place, or appending), remove. *)
Section JsonMap.
Context {A : Type}.

Fixpoint obj_get (k : string) (m : list (string * A)) : option A :=
  match m with
  | [] => None
  | (k', v) :: m => if decide (k = k') then Some v else obj_get k m
  end.

Fixpoint obj_insert (k : string) (v : A) (m : list (string * A)) : list (string * A) :=
  match m with
  | [] => [(k, v)]
  | (k', v') :: m =>
      if decide (k = k') then (k, v) :: m else (k', v') :: obj_insert k v m
  end.

Lemma obj_get_insert_eq k v m : obj_get k (obj_insert k v m) = Some v.
Proof.
  induction m as [|[k' v'] m IH]; cbn; [now rewrite decide_True|].
  case_decide; cbn; [now rewrite decide_True|now rewrite decide_False].
Qed.

Lemma obj_get_insert_ne k k' v m :
  k <> k' -> obj_get k' (obj_insert k v m) = obj_get k' m.
Proof.
  intros Hne. induction m as [|[k1 v1] m IH]; cbn; [now rewrite decide_False|].
  case_decide; subst; cbn; [now rewrite !decide_False|].
  case_decide; auto.
Qed.
Lemma obj_get_elem k m v : NoDup (map fst m) -> obj_get k m = Some v <-> (k, v) ∈ m.
Proof.
  induction m as [|[k' v'] m IH]; cbn; intros Hn.
  - split; [done|]. now intros H%elem_of_nil.
  - apply list.NoDup_cons in Hn as [Hni Hn]. rewrite elem_of_cons. case_decide; subst.
    + split; [intros [= ->]; now left|]. intros [[= ->]|Hin]; [done|]. destruct Hni.
      apply list_elem_of_fmap. now exists (k', v).
    + rewrite IH by done. naive_solver.
Qed.
End JsonMap.

Definition as_str (v : Value) : option string :=
  match v with
  | VString s => Some s
  | _ => None
  end.

Definition as_object (v : Value) : option (list (string * Value)) :=
  match v with
  | VObject m => Some m
  | _ => None
  end.

Definition as_array (v : Value) : option (list Value) :=
  match v with
  | VArray l => Some l
  | _ => None
  end.

(** ** KBS protocol types ([kbs_types]) *)
Inductive Tee :=
| Sev | AzSnpVtpm | AzTdxVtpm | Tdx | Snp | Sample | SampleDevice | Sgx
| Csv | Cca | Se | HygonDcu | Nvidia | Tpm.

#[global] Instance Tee_eq_dec : EqDecision Tee.
Proof. solve_decision. Defined.

Record Request := {
  req_version : string;
  req_tee : Tee;
  req_extra_params : Value;
}.

Record Challenge := {
  nonce : string;
  ch_extra_params : Value;
}.

Inductive TeePubKey :=
| RSA (alg k_mod k_exp : string)
| EC (crv alg x y : string).

Record InitData := {
  format : string;
  body : string;
}.

Record RuntimeData := {
  rt_nonce : string;
  rt_tee_pubkey : TeePubKey;
}.

Record CompositeEvidence := {
  primary_evidence : Value;
  additional_evidence : string;
}.

Record Attestation := {
  at_init_data : option InitData;
  at_runtime_data : RuntimeData;
  at_tee_evidence : CompositeEvidence;
}.

(** ** HTTP as the handlers see it ([actix_web]) *)
Inductive Method := GET | POST | OtherMethod (name : string).

#[global] Instance Method_eq_dec : EqDecision Method.
Proof. solve_decision. Defined.

(** [Method::as_str]. *)
Definition method_str (m : Method) : string :=
  match m with
  | GET => "GET"
  | POST => "POST"
  | OtherMethod n => n
  end.

Record HttpRequest := {
  http_method : Method;
  http_path : string;
  query_string : string;
  match_info : string -> option string;
  cookie : string -> option string;
  headers : string -> option string;
}.

Record Cookie := {
  cookie_name : string;
  cookie_value : string;
  cookie_expires : Z;
}.

Record HttpResponse := {
  status : Z;
  set_cookie : option Cookie;
  content_type : option string;
  res_body : bytes;
}.

(** The bytes of a string: a Rust [String] is its UTF-8 encoding. *)
Definition str_bytes (s : string) : bytes := list_byte_of_string s.

Lemma str_bytes_inj s t : str_bytes s = str_bytes t -> s = t.
Proof.
  intros H. rewrite <- (string_of_list_byte_of_string s), <- (string_of_list_byte_of_string t).
  unfold str_bytes in H. now rewrite H.
Qed.

(** [HttpResponse::Ok().finish()] and the builders used by the handlers. *)
Definition ok_empty : HttpResponse :=
  {| status := 200; set_cookie := None; content_type := None; res_body := [] |}.

Definition ok_body (ct : string) (b : bytes) : HttpResponse :=
  {| status := 200; set_cookie := None; content_type := Some ct; res_body := b |}.

Definition with_cookie (c : Cookie) (r : HttpResponse) : HttpResponse :=
  {| status := status r; set_cookie := Some c;
     content_type := content_type r; res_body := res_body r |}.
