(* ===== verification/Text.v ===== *)
(** * Text handling of the Rust standard library

    UTF-8 and UTF-16 decoding ([String::from_utf8], [from_utf8_lossy],
    [from_utf16], [from_utf16_lossy]) and the [format!] directives the program
    uses.  A Rust string is the byte string of its UTF-8 encoding; a [char] is
    its code point. *)
From S2P Require Import Prelude.

(** ** UTF-8 *)
Definition scalar (c : Z) : Prop := 0 <= c < 0xD800 \/ 0xE000 <= c <= 0x10FFFF.

Definition between (lo hi x : Z) : bool := (lo <=? x) && (x <=? hi).

Definition cont (b : Init.Byte.byte) : bool := between 0x80 0xBF (u8 b).

(** The range of the second byte after a three- or four-byte lead. *)
Definition second3 (lead : Z) (b : Init.Byte.byte) : bool :=
  if lead =? 0xE0 then between 0xA0 0xBF (u8 b)
  else if lead =? 0xED then between 0x80 0x9F (u8 b)
  else cont b.

Definition second4 (lead : Z) (b : Init.Byte.byte) : bool :=
  if lead =? 0xF0 then between 0x90 0xBF (u8 b)
  else if lead =? 0xF4 then between 0x80 0x8F (u8 b)
  else cont b.

(** Decode one character: either the code point with the bytes after it, or
    the number of bytes of the invalid sequence. *)
Definition utf8_next (b0 : Init.Byte.byte) (r : bytes) : (Z * bytes) + nat :=
  let x := u8 b0 in
  if x <? 0x80 then inl (x, r)
  else if between 0xC2 0xDF x then
    match r with
    | b1 :: r1 => if cont b1 then inl ((x - 0xC0) * 64 + (u8 b1 - 0x80), r1) else inr 1%nat
    | [] => inr 1%nat
    end
  else if between 0xE0 0xEF x then
    match r with
    | b1 :: r1 =>
        if second3 x b1 then
          match r1 with
          | b2 :: r2 =>
              if cont b2 then
                inl ((x - 0xE0) * 4096 + (u8 b1 - 0x80) * 64 + (u8 b2 - 0x80), r2)
              else inr 2%nat
          | [] => inr 2%nat
          end
        else inr 1%nat
    | [] => inr 1%nat
    end
  else if between 0xF0 0xF4 x then
    match r with
    | b1 :: r1 =>
        if second4 x b1 then
          match r1 with
          | b2 :: r2 =>
              if cont b2 then
                match r2 with
                | b3 :: r3 =>
                    if cont b3 then
                      inl ((x - 0xF0) * 262144 + (u8 b1 - 0x80) * 4096 +
                           (u8 b2 - 0x80) * 64 + (u8 b3 - 0x80), r3)
                    else inr 3%nat
                | [] => inr 3%nat
                end
              else inr 2%nat
          | [] => inr 2%nat
          end
        else inr 1%nat
    | [] => inr 1%nat
    end
  else inr 1%nat.

(** The characters of a byte string, if it is valid UTF-8.  Every character
    takes at least one byte, so the length of the input is enough fuel. *)
Fixpoint utf8_chars_fuel (n : nat) (l : bytes) : option (list Z) :=
  match n, l with
  | _, [] => Some []
  | O, _ => None
  | S n, b :: r =>
      match utf8_next b r with
      | inl (c, r') => c' ← utf8_chars_fuel n r'; Some (c :: c')
      | inr _ => None
      end
  end.

Definition utf8_chars (l : bytes) : option (list Z) := utf8_chars_fuel (length l) l.

Definition utf8_valid (l : bytes) : bool :=
  match utf8_chars l with
  | Some _ => true
  | None => false
  end.

(** [String::from_utf8] and [str::from_utf8]. *)
Definition from_utf8 (l : bytes) : option string :=
  if utf8_valid l then Some (string_of_list_byte l) else None.

(** The UTF-8 encoding of a character. *)
Definition utf8_encode (c : Z) : bytes :=
  if c <? 0x80 then [byte.of_Z c]
  else if c <? 0x800 then [byte.of_Z (0xC0 + c / 64); byte.of_Z (0x80 + c mod 64)]
  else if c <? 0x10000 then
    [byte.of_Z (0xE0 + c / 4096); byte.of_Z (0x80 + (c / 64) mod 64); byte.of_Z (0x80 + c mod 64)]
  else
    [byte.of_Z (0xF0 + c / 262144); byte.of_Z (0x80 + (c / 4096) mod 64);
     byte.of_Z (0x80 + (c / 64) mod 64); byte.of_Z (0x80 + c mod 64)].

Definition string_of_chars (cs : list Z) : string :=
  string_of_list_byte (concat (map utf8_encode cs)).

Definition REPLACEMENT_CHARACTER : Z := 0xFFFD.

(** [String::from_utf8_lossy]: each maximal invalid prefix becomes U+FFFD. *)
Fixpoint utf8_lossy_fuel (n : nat) (l : bytes) : list Z :=
  match n, l with
  | S n, b :: r =>
      match utf8_next b r with
      | inl (c, r') => c :: utf8_lossy_fuel n r'
      | inr k => REPLACEMENT_CHARACTER :: utf8_lossy_fuel n (drop k (b :: r))
      end
  | _, _ => []
  end.

Definition utf8_lossy (l : bytes) : list Z := utf8_lossy_fuel (length l) l.

(** ** UTF-16 *)
Definition is_high (w : Z) : bool := between 0xD800 0xDBFF w.
Definition is_low (w : Z) : bool := between 0xDC00 0xDFFF w.

Definition surrogate_pair (h l : Z) : Z := 0x10000 + (h - 0xD800) * 1024 + (l - 0xDC00).

(** [char::decode_utf16]: characters, and [None] for an unpaired surrogate. *)
Fixpoint decode_utf16 (ws : list Z) : list (option Z) :=
  match ws with
  | [] => []
  | w :: ws' =>
      if is_high w then
        match ws' with
        | l :: ws'' =>
            if is_low l then Some (surrogate_pair w l) :: decode_utf16 ws''
            else None :: decode_utf16 ws'
        | [] => [None]
        end
      else if is_low w then None :: decode_utf16 ws'
      else Some w :: decode_utf16 ws'
  end.

(** [String::from_utf16] and [from_utf16_lossy]. *)
Definition from_utf16 (ws : list Z) : option string :=
  cs ← mapM id (decode_utf16 ws); Some (string_of_chars cs).

Definition from_utf16_lossy (ws : list Z) : string :=
  string_of_chars (map (default REPLACEMENT_CHARACTER) (decode_utf16 ws)).

(** [char::is_control]: the category Cc. *)
Definition is_control (c : Z) : bool := between 0 0x1F c || between 0x7F 0x9F c.

(** [chunks_exact(2).map(LittleEndian::read_u16)]. *)
Fixpoint words16 (l : bytes) : list Z :=
  match l with
  | a :: b :: l => le_combine [a; b] :: words16 l
  | _ => []
  end.

(** ** Formatting integers *)
Definition digit_char (upper : bool) (d : Z) : ascii :=
  ascii_of_N (Z.to_N (if d <? 10 then 48 + d else (if upper then 55 else 87) + d)).

(** The digits of [n] in a base, most significant first; a 64-bit number has
    at most 64 of them. *)
Fixpoint digits (fuel : nat) (upper : bool) (base n : Z) (acc : string) : string :=
  match fuel with
  | O => acc
  | S fuel =>
      let acc := String.String (digit_char upper (n mod base)) acc in
      if n / base =? 0 then acc else digits fuel upper base (n / base) acc
  end.

(** [{}] at an unsigned integer type. *)
Definition fmt_dec (n : Z) : string := digits 64 false 10 n "".

Fixpoint repeat_char (c : ascii) (n : nat) : string :=
  match n with
  | O => ""
  | S n => String.String c (repeat_char c n)
  end.

(** Pad on the left with zeros to a width. *)
Definition pad_zero (w : nat) (s : string) : string :=
  repeat_char "0" (w - String.length s) +:+ s.

(** [{:0wX}]: upper-case hexadecimal, padded to [w]. *)
Definition fmt_upper_hex (w : nat) (n : Z) : string := pad_zero w (digits 64 true 16 n "").

(** [{:#0wx}]: lower-case hexadecimal with prefix, padded to [w] in all. *)
Definition fmt_hex_prefixed (w : nat) (n : Z) : string :=
  "0x" +:+ pad_zero (w - 2) (digits 64 false 16 n "").

(** [hex::encode]: two lower-case digits for each byte. *)
Definition hex_encode (b : bytes) : string :=
  fold_right (fun x s => String.String (digit_char false (u8 x / 16))
                           (String.String (digit_char false (u8 x mod 16)) s)) EmptyString b.

(** [str::to_uppercase] on ASCII text. *)
Definition upper_char (c : ascii) : ascii :=
  let n := N_of_ascii c in
  if ((97 <=? n) && (n <=? 122))%N then ascii_of_N (n - 32)%N else c.

Fixpoint to_uppercase (s : string) : string :=
  match s with
  | EmptyString => ""
  | String.String c s => String.String (upper_char c) (to_uppercase s)
  end.

(** [str::to_lowercase] on ASCII text. *)
Definition lower_char (c : ascii) : ascii :=
  let n := N_of_ascii c in
  if ((65 <=? n) && (n <=? 90))%N then ascii_of_N (n + 32)%N else c.

Fixpoint to_lowercase (s : string) : string :=
  match s with
  | EmptyString => ""
  | String.String c s => String.String (lower_char c) (to_lowercase s)
  end.

(** [str::replace] of one character by another, and its removal. *)
Fixpoint replace_char (c : ascii) (t s : string) : string :=
  match s with
  | EmptyString => ""
  | String.String c' s =>
      if Ascii.eqb c c' then t +:+ replace_char c t s
      else String.String c' (replace_char c t s)
  end.

(** [slice.iter().position(|&b| b == x)]. *)
Fixpoint position (x : Init.Byte.byte) (l : bytes) : option nat :=
  match l with
  | [] => None
  | y :: l => if decide (x = y) then Some O else S <$> position x l
  end.

(** [str::find] of a character: its byte index. *)
Fixpoint find_char (c : ascii) (s : string) : option nat :=
  match s with
  | EmptyString => None
  | String.String c' s => if Ascii.eqb c c' then Some O else S <$> find_char c s
  end.

(** ** Lemmas *)
Lemma u8_of_Z z : 0 <= z < 256 -> u8 (byte.of_Z z) = z.
Proof. intros. unfold u8. rewrite byte.unsigned_of_Z. now apply Z.mod_small. Qed.

Lemma between_spec lo hi x : between lo hi x = true <-> lo <= x <= hi.
Proof. unfold between. rewrite andb_true_iff, !Z.leb_le. tauto. Qed.

(** Decide the comparisons of a goal whose operands are bounded. *)
Ltac zbool :=
  repeat match goal with
    | |- context [?a <? ?b] => destruct (Z.ltb_spec a b); try lia
    | |- context [?a =? ?b] => destruct (Z.eqb_spec a b); try lia
    | |- context [?a <=? ?b] => destruct (Z.leb_spec a b); try lia
    end.

Lemma utf8_next_encode c r :
  scalar c ->
  match utf8_encode c with
  | b :: l => utf8_next b (l ++ r) = inl (c, r)
  | [] => False
  end.
Proof.
  intros Hc. unfold utf8_encode.
  assert (c / 4096 = c / 64 / 64) as -> by now rewrite Z.div_div.
  assert (c / 262144 = c / 64 / 64 / 64) as -> by now rewrite !Z.div_div.
  pose proof (Z.div_mod c 64 ltac:(lia)). pose proof (Z.mod_pos_bound c 64 ltac:(lia)).
  pose proof (Z.div_mod (c / 64) 64 ltac:(lia)). pose proof (Z.mod_pos_bound (c / 64) 64 ltac:(lia)).
  pose proof (Z.div_mod (c / 64 / 64) 64 ltac:(lia)). pose proof (Z.mod_pos_bound (c / 64 / 64) 64 ltac:(lia)).
  set (q := c / 64) in *. set (r0 := c mod 64) in *.
  set (q1 := q / 64) in *. set (r1 := q mod 64) in *.
  set (q2 := q1 / 64) in *. set (r2 := q1 mod 64) in *. clearbody q r0 q1 r1 q2 r2.
  destruct Hc; zbool; cbn [app];
    unfold utf8_next, second3, second4, cont, between;
    rewrite !u8_of_Z by lia; zbool; cbn [andb]; do 2 f_equal; lia.
Qed.

Lemma utf8_encode_cons c : exists b l, utf8_encode c = b :: l.
Proof. unfold utf8_encode. repeat case_match; eauto. Qed.

Lemma utf8_chars_fuel_mono n m l cs :
  utf8_chars_fuel n l = Some cs -> (n <= m)%nat -> utf8_chars_fuel m l = Some cs.
Proof.
  revert m l cs. induction n as [|n IH]; intros [|m] [|b r] cs H Hm; cbn in *; try done; try lia.
  destruct (utf8_next b r) as [[c r']|]; [|done].
  destruct (utf8_chars_fuel n r') as [cs'|] eqn:E; [|done].
  now rewrite (IH m r' cs' E) by lia.
Qed.

(** Encoding a string of characters and decoding it again. *)
Lemma utf8_chars_encode cs :
  Forall scalar cs -> utf8_chars (concat (map utf8_encode cs)) = Some cs.
Proof.
  unfold utf8_chars. induction 1 as [|c cs Hc _ IH]; cbn; [done|].
  pose proof (utf8_next_encode c (concat (map utf8_encode cs)) Hc) as Hn.
  destruct (utf8_encode c) as [|b l]; [done|]. cbn. rewrite Hn. cbn.
  erewrite utf8_chars_fuel_mono; [done|exact IH|]. rewrite length_app. lia.
Qed.

Lemma string_of_chars_valid cs :
  Forall scalar cs -> utf8_valid (list_byte_of_string (string_of_chars cs)) = true.
Proof.
  intros H. unfold string_of_chars, utf8_valid.
  rewrite list_byte_of_string_of_list_byte. now rewrite utf8_chars_encode.
Qed.
