(* ===== verification/Metrics.v ===== *)
(** * Prometheus metrics of the KBS ([kbs/src/prometheus/mod.rs])

    The registry is a global mutable state: plain counters and gauges, counter
    families keyed by a label value, and histograms, which are kept as the
    list of their observations.  Metrics are named by the name they are
    exported under. *)
From S2P Require Import Prelude.

Record Metrics := {
  counters : gmap string Z;
  counter_vecs : gmap (string * string) Z;
  histograms : gmap string (list Z);
}.

Definition no_metrics : Metrics :=
  {| counters := ∅; counter_vecs := ∅; histograms := ∅ |}.

Definition RESOURCE_READS_TOTAL := "kbs_resource_reads_total".
Definition RESOURCE_WRITES_TOTAL := "kbs_resource_writes_total".
Definition REQUEST_TOTAL := "kbs_http_requests_total".
Definition REQUEST_DURATION := "kbs_http_request_duration_seconds".
Definition REQUEST_SIZES := "kbs_http_request_size_bytes".
Definition RESPONSE_SIZES := "kbs_http_response_size_bytes".
Definition KBS_POLICY_EVALS := "kbs_policy_evaluations_total".
Definition KBS_POLICY_APPROVALS := "kbs_policy_approvals_total".
Definition KBS_POLICY_VIOLATIONS := "kbs_policy_violations_total".
Definition KBS_POLICY_ERRORS := "kbs_policy_errors_total".
Definition ATTESTATION_REQUESTS := "kbs_attestation_requests_total".
Definition ATTESTATION_SUCCESSES := "kbs_attestation_successes_total".
Definition ATTESTATION_FAILURES := "kbs_attestation_failures_total".
Definition ATTESTATION_ERRORS := "kbs_attestation_errors_total".
Definition AUTH_REQUESTS := "kbs_auth_requests_total".
Definition AUTH_SUCCESSES := "kbs_auth_successes_total".
Definition AUTH_ERRORS := "kbs_auth_errors_total".
Definition ACTIVE_CONNECTIONS := "kbs_http_active_connections".
Definition BUILD_INFO := "kbs_build_info".

(** The value of a counter or gauge, zero until it is first touched. *)
Definition count (c : string) (m : Metrics) : Z := default 0 (counters m !! c).

Definition count_vec (c l : string) (m : Metrics) : Z :=
  default 0 (counter_vecs m !! (c, l)).

Definition observations (h : string) (m : Metrics) : list Z :=
  default [] (histograms m !! h).

Definition add (c : string) (d : Z) (m : Metrics) : Metrics :=
  {| counters := <[c := count c m + d]> (counters m);
     counter_vecs := counter_vecs m; histograms := histograms m |}.

(** [.inc()] and [.dec()]. *)
Definition inc (c : string) : Metrics -> Metrics := add c 1.
Definition dec (c : string) : Metrics -> Metrics := add c (-1).

(** [.with_label_values(&[l]).inc()]. *)
Definition inc_vec (c l : string) (m : Metrics) : Metrics :=
  {| counters := counters m;
     counter_vecs := <[(c, l) := count_vec c l m + 1]> (counter_vecs m);
     histograms := histograms m |}.

(** [.observe(x)]. *)
Definition observe (h : string) (x : Z) (m : Metrics) : Metrics :=
  {| counters := counters m; counter_vecs := counter_vecs m;
     histograms := <[h := observations h m ++ [x]]> (histograms m) |}.

Lemma count_add c c' d m :
  count c (add c' d m) = count c m + (if decide (c' = c) then d else 0).
Proof.
  unfold count at 1, add. cbn. rewrite lookup_insert.
  case_decide; subst; cbn; [lia|]. unfold count. lia.
Qed.

Lemma count_inc c c' m :
  count c (inc c' m) = count c m + (if decide (c' = c) then 1 else 0).
Proof. apply count_add. Qed.

Lemma count_dec c c' m :
  count c (dec c' m) = count c m - (if decide (c' = c) then 1 else 0).
Proof. unfold dec. rewrite count_add. case_decide; lia. Qed.

Lemma count_inc_vec c c' l m : count c (inc_vec c' l m) = count c m.
Proof. reflexivity. Qed.

Lemma count_observe c h x m : count c (observe h x m) = count c m.
Proof. reflexivity. Qed.

Lemma count_vec_inc c l c' m : count_vec c l (inc c' m) = count_vec c l m.
Proof. reflexivity. Qed.

Lemma observations_observe h h' x m :
  observations h (observe h' x m) =
  observations h m ++ (if decide (h' = h) then [x] else []).
Proof.
  unfold observations at 1, observe. cbn. rewrite lookup_insert.
  case_decide; subst; cbn; [reflexivity|]. now rewrite app_nil_r.
Qed.

Lemma observations_inc h c m : observations h (inc c m) = observations h m.
Proof. reflexivity. Qed.

Lemma observations_dec h c m : observations h (dec c m) = observations h m.
Proof. reflexivity. Qed.

#[export] Hint Rewrite count_inc count_dec count_inc_vec count_observe
  observations_observe observations_inc observations_dec : metrics.

(** Evaluate counters after a sequence of increments. *)
Ltac metrics_simpl := autorewrite with metrics;
  repeat match goal with
    | |- context [decide (?a = ?b)] =>
        first [ rewrite (decide_True (P := (a = b))) by reflexivity
              | rewrite (decide_False (P := (a = b))) by (vm_compute; discriminate) ]
    end.

Ltac count_lia := metrics_simpl; lia.
