(* ===== verification/Session.v ===== *)
(** * RCAR sessions ([kbs/src/attestation/session.rs])

    A session is the state of one request/challenge/attestation handshake.
    Times are instants in nanoseconds. *)
From S2P Require Import Prelude Types.

Definition KBS_SESSION_ID : string := "kbs-session-id".

Inductive SessionStatus :=
| Authed (request : Request) (challenge : Challenge) (id : string) (timeout : Z)
| Attested (token : string) (id : string) (timeout : Z).

(** The [time] crate: adding a number of minutes to an instant, which panics
    ([None]) when the result is not representable. *)
Class TimeCrate := add_minutes : Z -> Z -> option Z.

Definition nanos_per_minute : Z := 60 * 1000000000.

Class TimeCrateSpec (T : TimeCrate) : Prop :=
  add_minutes_spec : forall now m later,
    add_minutes now m = Some later -> later = now + m * nanos_per_minute.

(** The accessors of the [impl_member!] macro.  Those of a field that only one
    variant has panic on the other variant. *)
Definition session_id (s : SessionStatus) : string :=
  match s with
  | Authed _ _ id _ => id
  | Attested _ id _ => id
  end.

Definition session_timeout (s : SessionStatus) : Z :=
  match s with
  | Authed _ _ _ t => t
  | Attested _ _ t => t
  end.

Definition session_request (s : SessionStatus) : outcome anyhow Request :=
  match s with
  | Authed r _ _ _ => Ok r
  | Attested _ _ _ => Panic
  end.

Definition session_challenge (s : SessionStatus) : outcome anyhow Challenge :=
  match s with
  | Authed _ c _ _ => Ok c
  | Attested _ _ _ => Panic
  end.

(** [SessionStatus::auth], with the fresh UUID and the clock as arguments. *)
Definition session_auth `{TimeCrate} (uuid : string) (now : Z)
    (request : Request) (timeout : Z) (challenge : Challenge) : outcome anyhow SessionStatus :=
  t ← unwrap (add_minutes now timeout);
  Ok (Authed request challenge uuid t).

(** [SessionStatus::cookie]. *)
Definition session_cookie (s : SessionStatus) : Cookie :=
  match s with
  | Authed _ _ id t => {| cookie_name := KBS_SESSION_ID; cookie_value := id; cookie_expires := t |}
  | Attested _ id t => {| cookie_name := KBS_SESSION_ID; cookie_value := id; cookie_expires := t |}
  end.

(** [SessionStatus::is_expired]. *)
Definition is_expired (now : Z) (s : SessionStatus) : bool := session_timeout s <? now.

(** [SessionStatus::attest]. *)
Definition session_attest (token : string) (s : SessionStatus) : SessionStatus :=
  match s with
  | Authed _ _ id t => Attested token id t
  | Attested _ _ _ => s
  end.

(** [SessionMap::new]. *)
Definition session_map_new : gmap string SessionStatus := ∅.

(** [SessionMap::insert]: an existing entry of the concurrent map is kept. *)
Definition session_map_insert (s : SessionStatus) (m : gmap string SessionStatus) :
    gmap string SessionStatus :=
  match m !! session_id s with
  | Some _ => m
  | None => <[session_id s := s]> m
  end.

(** The periodic sweep: [sessions.retain(|_, v| !v.is_expired())]. *)
Definition session_map_retain (now : Z) (m : gmap string SessionStatus) :
    gmap string SessionStatus :=
  filter (fun kv => is_expired now kv.2 = false) m.

(** ** Well-formedness: every entry is stored under its own id. *)
Definition session_map_wf (m : gmap string SessionStatus) : Prop :=
  forall k s, m !! k = Some s -> session_id s = k.

Lemma session_map_wf_empty : session_map_wf session_map_new.
Proof. intros k s H. unfold session_map_new in H. now rewrite lookup_empty in H. Qed.

Lemma session_map_wf_insert s m : session_map_wf m -> session_map_wf (session_map_insert s m).
Proof.
  intros Hwf k s'. unfold session_map_insert. case_match; [apply Hwf|].
  rewrite lookup_insert. case_decide; [naive_solver|apply Hwf].
Qed.

Lemma session_map_retain_Some now m k s :
  session_map_retain now m !! k = Some s <-> m !! k = Some s /\ is_expired now s = false.
Proof. unfold session_map_retain. apply map_lookup_filter_Some. Qed.

Lemma session_map_wf_retain now m : session_map_wf m -> session_map_wf (session_map_retain now m).
Proof. intros Hwf k s [H _]%session_map_retain_Some. now apply Hwf. Qed.

Lemma session_attest_id tok s : session_id (session_attest tok s) = session_id s.
Proof. now destruct s. Qed.

Lemma session_attest_timeout tok s : session_timeout (session_attest tok s) = session_timeout s.
Proof. now destruct s. Qed.

Lemma session_cookie_eq s :
  session_cookie s = {| cookie_name := KBS_SESSION_ID;
                        cookie_value := session_id s;
                        cookie_expires := session_timeout s |}.
Proof. now destruct s. Qed.

Lemma session_map_wf_attest tok k s m :
  session_map_wf m -> m !! k = Some s ->
  session_map_wf (<[k := session_attest tok s]> m).
Proof.
  intros Hwf Hs k' s'. rewrite lookup_insert. case_decide; [|apply Hwf].
  intros [= <-]. subst. rewrite session_attest_id. now apply Hwf.
Qed.

#[export] Hint Resolve session_map_wf_empty session_map_wf_insert session_map_wf_retain
  session_map_wf_attest : trustee.
