(* ===== verification/Attestation.v ===== *)
(** * The KBS attestation service ([kbs/src/attestation/backend.rs])

    The RCAR handshake: [auth] opens a session and hands out a challenge,
    [attest] checks the evidence of that session and turns it into an attested
    one, [get_attest_token_from_session] reads the token back.  The
    attestation module behind the service is the trait [Attest]; here it is a
    class over the type of that module's own state. *)
From S2P Require Import Prelude Types Metrics Session.

(** ** Constants and data *)
Definition KBS_MAJOR_VERSION : Z := 0.
Definition KBS_MINOR_VERSION : Z := 4.
Definition KBS_PATCH_VERSION : Z := 0.

Definition NONCE_SIZE_BYTES : nat := 32.

(** One set of evidence from one attester. *)
Record IndependentEvidence := {
  tee : Tee;
  tee_evidence : Value;
  runtime_data : Value;
  init_data : option InitData;
}.

Record SetPolicyInput := {
  policy_id : string;
  policy : string;
}.

(** The [semver] crate. *)
Record Version := {
  major : Z;
  minor : Z;
  patch : Z;
  pre : string;
  build : string;
}.

(** ** The crates the service calls *)
Class KbsCrates := {
  (** [serde_json::from_slice] and [from_str] at the types used *)
  parse_request : bytes -> option Request;
  parse_attestation : bytes -> option Attestation;
  parse_set_policy_input : bytes -> option SetPolicyInput;
  parse_additional_evidence : string -> option (list (Tee * Value));
  (** [serde_json::to_string] and [to_string_pretty] *)
  value_to_string : Value -> option string;
  tee_to_string : Tee -> option string;
  attestation_to_string_pretty : Attestation -> option string;
  (** the body built by [HttpResponseBuilder::json] *)
  challenge_json : Challenge -> bytes;
  (** the value the [json!] macro makes of a public key *)
  pubkey_value : TeePubKey -> Value;
  (** [semver::Version::parse] and [VersionReq::matches] for the
      requirement [=major.minor.patch] *)
  version_parse : string -> option Version;
  version_req_matches : Z * Z * Z -> Version -> bool;
  (** [base64], standard alphabet with padding *)
  base64_standard_encode : bytes -> string;
}.

(** What the crates promise. *)
Class KbsCratesSpec (C : KbsCrates) : Prop := {
  (** an exact requirement only matches the same release, never a pre-release *)
  version_req_matches_spec : forall req v,
    version_req_matches req v = true <->
    req = (major v, minor v, patch v) /\ pre v = "";
}.

(** [VERSION_REQ]. *)
Definition VERSION_REQ : Z * Z * Z := (KBS_MAJOR_VERSION, KBS_MINOR_VERSION, KBS_PATCH_VERSION).

(** [make_nonce]: the random source either fails or fills the buffer. *)
Definition make_nonce `{KbsCrates} (rng : nat -> option bytes) : outcome anyhow string :=
  nonce ← ok_or "rng" (rng NONCE_SIZE_BYTES);
  Ok (base64_standard_encode nonce).

(** [generic_generate_challenge]. *)
Definition generic_generate_challenge `{KbsCrates} (rng : nat -> option bytes)
    (_tee : Tee) (_tee_parameters : Value) : outcome anyhow Challenge :=
  nonce ← make_nonce rng;
  Ok {| nonce := nonce; ch_extra_params := VString "" |}.

(** ** The trait [Attest] *)
Class Attest (I : Type) := {
  attest_set_policy : string -> string -> st I anyhow unit;
  attest_verify : list IndependentEvidence -> st I anyhow string;
  attest_generate_challenge : Tee -> Value -> st I anyhow Challenge;
  attest_register_reference_value : string -> st I anyhow unit;
  attest_query_reference_values : st I anyhow (list (string * Value));
}.

(** The default methods of the trait. *)
Definition default_set_policy {I} (_policy_id _policy : string) : st I anyhow unit :=
  st_err "Set Policy API is unimplemented".
Definition default_generate_challenge {I} `{KbsCrates} (rng : nat -> option bytes)
    (t : Tee) (params : Value) : st I anyhow Challenge :=
  st_lift (generic_generate_challenge rng t params).
Definition default_register_reference_value {I} (_message : string) : st I anyhow unit :=
  st_err "Attestation Service does not support reference value configuration.".
Definition default_query_reference_values {I} : st I anyhow (list (string * Value)) :=
  st_err "Attestation Service does not support reference value configuration.".

(** ** The service *)
Record AttestationService (I : Type) := {
  inner : I;
  session_map : gmap string SessionStatus;
  timeout : Z;
  metrics : Metrics;
}.
Arguments inner {I} _.
Arguments session_map {I} _.
Arguments timeout {I} _.
Arguments metrics {I} _.

(** The error type of the module ([attestation/error.rs]). *)
Inductive AttestationError :=
| AttestationServiceInitialization (source : anyhow)
| ExtractTeePubKeyFailed (source : anyhow)
| RcarAuthFailed (source : anyhow)
| RcarAttestFailed (source : anyhow)
| SetPolicy (source : anyhow).

Definition double_quote : ascii := "034"%char.

(** [str::trim_start_matches] and [trim_end_matches] with a one-character pattern. *)
Fixpoint trim_start_matches (c : ascii) (s : string) : string :=
  match s with
  | String.String c' s' => if Ascii.eqb c c' then trim_start_matches c s' else s
  | EmptyString => EmptyString
  end.

Fixpoint trim_end_matches (c : ascii) (s : string) : string :=
  match s with
  | String.String c' s' =>
      match trim_end_matches c s' with
      | EmptyString => if Ascii.eqb c c' then EmptyString else String.String c' EmptyString
      | t => String.String c' t
      end
  | EmptyString => EmptyString
  end.

Section Service.
Context {I : Type} `{A : Attest I} `{T : TimeCrate} `{C : KbsCrates}.
Abbreviation service := (AttestationService I).

Definition set_inner (i : I) (s : service) : service :=
  {| inner := i; session_map := session_map s; timeout := timeout s; metrics := metrics s |}.
Definition set_sessions (m : gmap string SessionStatus) (s : service) : service :=
  {| inner := inner s; session_map := m; timeout := timeout s; metrics := metrics s |}.
Definition on_metrics (f : Metrics -> Metrics) (s : service) : service :=
  {| inner := inner s; session_map := session_map s; timeout := timeout s; metrics := f (metrics s) |}.

(** A call to the attestation module. *)
Definition call_inner {A} : st I anyhow A -> st service anyhow A := st_on inner set_inner.

(** The state built by [AttestationService::new]. *)
Definition service_new (i : I) (t : Z) (m : Metrics) : service :=
  {| inner := i; session_map := session_map_new; timeout := t; metrics := m |}.

(** One round of the sweeping task spawned by [new]. *)
Definition sweep (now : Z) (s : service) : service :=
  set_sessions (session_map_retain now (session_map s)) s.

(** [__set_policy] and [set_policy]. *)
Definition __set_policy (request : bytes) : st service anyhow unit :=
  input ← st_lift (ok_or "parse set policy request" (parse_set_policy_input request));
  call_inner (attest_set_policy (policy_id input) (policy input)).

Definition set_policy (request : bytes) : st service AttestationError unit :=
  st_map_err SetPolicy (__set_policy request).

(** [__auth] and [auth]. *)
Definition __auth (uuid : string) (now : Z) (body : bytes) : st service anyhow HttpResponse :=
  st_modify (on_metrics (inc AUTH_REQUESTS));;
  request ← inspect_err (on_metrics (inc AUTH_ERRORS))
              (st_lift (ok_or "deserialize Request" (parse_request body)));
  version ← inspect_err (on_metrics (inc AUTH_ERRORS))
              (st_lift (ok_or "failed to parse KBS version" (version_parse (req_version request))));
  if negb (version_req_matches VERSION_REQ version) then
    st_modify (on_metrics (inc AUTH_ERRORS));;
    st_err "KBS Client Protocol Version Mismatch"
  else
    challenge ← inspect_err (on_metrics (inc AUTH_ERRORS))
      (call_inner (attest_generate_challenge (req_tee request) (req_extra_params request)));
    t ← st_gets timeout;
    session ← st_lift (session_auth uuid now request t challenge);
    st_modify (on_metrics (inc AUTH_SUCCESSES));;
    ch ← st_lift (session_challenge session);
    let response :=
      with_cookie (session_cookie session) (ok_body "application/json" (challenge_json ch)) in
    st_modify (fun s => set_sessions (session_map_insert session (session_map s)) s);;
    mret response.

Definition auth (uuid : string) (now : Z) (body : bytes) : st service AttestationError HttpResponse :=
  st_map_err RcarAuthFailed (__auth uuid now body).

(** [json!({"token": token})]. *)
Definition token_json (token : string) : Value := VObject [("token", VString token)].

(** What [__attest] keeps in local variables between its two lookups of the session. *)
Record PendingAttest := {
  pa_session_id : string;
  pa_attestation : Attestation;
  pa_tee : Tee;
  pa_nonce : string;
}.

(** [__attest], up to the end of the block that holds the first session
    guard: either the answer (an already attested session) or the data the
    rest of the handler works on. *)
Definition attest_lookup (now : Z) (body : bytes) (request : HttpRequest) :
    st service anyhow (HttpResponse + PendingAttest) :=
  st_modify (on_metrics (inc ATTESTATION_REQUESTS));;
  session_id ← inspect_err (on_metrics (inc ATTESTATION_ERRORS))
    (st_lift (ok_or "cookie not found" (cookie request KBS_SESSION_ID)));
  attestation ← inspect_err (on_metrics (inc ATTESTATION_ERRORS))
    (st_lift (ok_or "deserialize Attestation" (parse_attestation body)));
  sessions ← st_gets session_map;
  session ← inspect_err (on_metrics (inc ATTESTATION_ERRORS))
    (st_lift (ok_or "No cookie found" (sessions !! session_id)));
  if is_expired now session then st_err "session expired."
  else match session with
  | Attested token _ _ =>
      body ← inspect_err (on_metrics (inc ATTESTATION_ERRORS))
        (st_lift (ok_or "Serialize token failed" (value_to_string (token_json token))));
      mret (inl (with_cookie (session_cookie session)
                   (ok_body "application/json" (str_bytes body))))
  | Authed _ _ _ _ =>
      _ ← inspect_err (on_metrics (inc ATTESTATION_ERRORS))
        (st_lift (ok_or "Failed to serialize Attestation" (attestation_to_string_pretty attestation)));
      r ← st_lift (session_request session);
      c ← st_lift (session_challenge session);
      mret (inr {| pa_session_id := session_id; pa_attestation := attestation;
                   pa_tee := req_tee r; pa_nonce := nonce c |})
  end.

(** The runtime data of the additional evidence, and that of the primary one. *)
Definition kbs_evidence_runtime_data (p : PendingAttest) : Value :=
  VObject [("tee-pubkey", pubkey_value (rt_tee_pubkey (at_runtime_data (pa_attestation p))));
           ("nonce", VString (pa_nonce p))].

Definition primary_runtime_data (p : PendingAttest) : Value :=
  VObject [("tee-pubkey", pubkey_value (rt_tee_pubkey (at_runtime_data (pa_attestation p))));
           ("nonce", VString (pa_nonce p));
           ("additional-evidence",
            VString (additional_evidence (at_tee_evidence (pa_attestation p))))].

(** [__attest], from the nonce check to the second lookup: the evidence to verify. *)
Definition attest_evidence (p : PendingAttest) : st service anyhow (list IndependentEvidence) :=
  let attestation := pa_attestation p in
  if negb (String.eqb (pa_nonce p) (rt_nonce (at_runtime_data attestation))) then
    st_err "the nonce in the handshake session is different from the client side in KBS protocol's Attestation message"
  else
    let primary := {|
      tee := pa_tee p;
      tee_evidence := primary_evidence (at_tee_evidence attestation);
      runtime_data := primary_runtime_data p;
      init_data := at_init_data attestation |} in
    if String.eqb (additional_evidence (at_tee_evidence attestation)) "" then mret [primary]
    else
      extra ← inspect_err (on_metrics (inc ATTESTATION_ERRORS))
        (st_lift (ok_or "additional evidence"
           (parse_additional_evidence (additional_evidence (at_tee_evidence attestation)))));
      mret (primary :: map (fun te => {|
        tee := te.1; tee_evidence := te.2;
        runtime_data := kbs_evidence_runtime_data p; init_data := None |}) extra).

(** [__attest], from the second lookup to the end: the guard of the session
    entry is held throughout, the verification included. *)
Definition attest_finish (p : PendingAttest) (evidence : list IndependentEvidence) :
    st service anyhow HttpResponse :=
  sessions ← st_gets session_map;
  session ← inspect_err (on_metrics (inc ATTESTATION_ERRORS))
    (st_lift (ok_or "session not found" (sessions !! pa_session_id p)));
  r ← st_lift (session_request session);
  label ← st_lift (ok_or "serialize tee" (tee_to_string (req_tee r)));
  let tee_type_label := trim_end_matches double_quote (trim_start_matches double_quote label) in
  token ← inspect_err (on_metrics (inc_vec ATTESTATION_FAILURES tee_type_label))
    (call_inner (attest_verify evidence));
  st_modify (on_metrics (inc_vec ATTESTATION_SUCCESSES tee_type_label));;
  body ← inspect_err (on_metrics (inc ATTESTATION_ERRORS))
    (st_lift (ok_or "Serialize token failed" (value_to_string (token_json token))));
  let session := session_attest token session in
  st_modify (fun s => set_sessions (<[pa_session_id p := session]> (session_map s)) s);;
  mret (with_cookie (session_cookie session) (ok_body "application/json" (str_bytes body))).

(** [__attest] and [attest], run with no other request in between. *)
Definition __attest (now : Z) (body : bytes) (request : HttpRequest) : st service anyhow HttpResponse :=
  r ← attest_lookup now body request;
  match r with
  | inl response => mret response
  | inr p => evidence ← attest_evidence p; attest_finish p evidence
  end.

Definition attest (now : Z) (body : bytes) (request : HttpRequest) :
    st service AttestationError HttpResponse :=
  st_map_err RcarAttestFailed (__attest now body request).

(** [get_attest_token_from_session]. *)
Definition get_attest_token_from_session (now : Z) (request : HttpRequest) : st service anyhow string :=
  session_id ← st_lift (ok_or "KBS session cookie not found" (cookie request KBS_SESSION_ID));
  sessions ← st_gets session_map;
  session ← st_lift (ok_or "session not found" (sessions !! session_id));
  if is_expired now session then st_err "The session is expired"
  else match session with
  | Attested token _ _ => mret token
  | Authed _ _ _ _ => st_err "The session is not authorized"
  end.

Definition register_reference_value (message : string) : st service anyhow unit :=
  call_inner (attest_register_reference_value message).

Definition query_reference_values : st service anyhow (list (string * Value)) :=
  call_inner attest_query_reference_values.
End Service.

(** ** Lemmas *)

Section ServiceLemmas.
Context {I : Type} `{A : Attest I} `{T : TimeCrate} `{C : KbsCrates}.
Implicit Types (s : AttestationService I).

(** Two states that differ at most in their metrics. *)
Definition same_but_metrics s s' : Prop :=
  inner s' = inner s /\ session_map s' = session_map s /\ timeout s' = timeout s.

#[global] Instance same_but_metrics_refl : Reflexive same_but_metrics.
Proof. intros s. now repeat split. Qed.

Lemma attest_lookup_same now b rq s s' r :
  attest_lookup now b rq s = (s', r) -> same_but_metrics s s'.
Proof. intros H. unfold attest_lookup, session_request, session_challenge in H. run_st H; now repeat split. Qed.

(** A first lookup that goes on to verification found an unexpired session
    waiting for attestation, and took tee and nonce from it. *)
Lemma attest_lookup_pending now b rq s s' p :
  attest_lookup now b rq s = (s', Ok (inr p)) ->
  exists r c id t, session_map s !! pa_session_id p = Some (Authed r c id t) /\
    cookie rq KBS_SESSION_ID = Some (pa_session_id p) /\
    now <= t /\ pa_tee p = req_tee r /\ pa_nonce p = nonce c /\
    parse_attestation b = Some (pa_attestation p).
Proof.
  intros H. unfold attest_lookup, session_request, session_challenge in H.
  run_st H. unfold is_expired in *. cbn in *.
  match goal with E : (_ <? _) = false |- _ => apply Z.ltb_ge in E end.
  do 4 eexists. naive_solver.
Qed.

Lemma attest_evidence_same p s s' r :
  attest_evidence p s = (s', r) -> same_but_metrics s s'.
Proof. intros H. unfold attest_evidence in H. run_st H; now repeat split. Qed.

Lemma attest_evidence_not_panic p s s' : attest_evidence p s <> (s', Panic).
Proof. intros H. unfold attest_evidence in H. run_st H. Qed.

Lemma attest_finish_Ok p ev s s' resp :
  attest_finish p ev s = (s', Ok resp) ->
  exists r c id t tok i',
    session_map s !! pa_session_id p = Some (Authed r c id t) /\
    attest_verify ev (inner s) = (i', Ok tok) /\
    inner s' = i' /\ timeout s' = timeout s /\
    session_map s' = <[pa_session_id p := Attested tok id t]> (session_map s).
Proof.
  intros H. unfold attest_finish, session_request, call_inner in H. run_st H.
  do 6 eexists. naive_solver.
Qed.

(** A failed or panicked second half leaves every session as it was. *)
Lemma attest_finish_not_Ok p ev s s' r :
  attest_finish p ev s = (s', r) -> is_ok r = false -> session_map s' = session_map s.
Proof.
  intros H Hr. unfold attest_finish, session_request, call_inner in H. run_st H; reflexivity || discriminate.
Qed.

(** A successful [auth] checked the protocol version and stored a session
    waiting for attestation, unless the id was taken. *)
Lemma __auth_Ok uuid now b s s' resp :
  __auth uuid now b s = (s', Ok resp) ->
  exists rq v ch t i',
    parse_request b = Some rq /\ version_parse (req_version rq) = Some v /\
    version_req_matches VERSION_REQ v = true /\
    attest_generate_challenge (req_tee rq) (req_extra_params rq) (inner s) = (i', Ok ch) /\
    add_minutes now (timeout s) = Some t /\
    inner s' = i' /\ timeout s' = timeout s /\
    session_map s' = session_map_insert (Authed rq ch uuid t) (session_map s) /\
    resp = with_cookie (session_cookie (Authed rq ch uuid t))
             (ok_body "application/json" (challenge_json ch)).
Proof.
  intros H. unfold __auth, session_auth, call_inner in H. run_st H.
  rewrite negb_false_iff in *. naive_solver.
Qed.

Lemma __auth_not_Ok uuid now b s s' r :
  __auth uuid now b s = (s', r) -> is_ok r = false -> session_map s' = session_map s.
Proof.
  intros H Hr. unfold __auth, session_auth, call_inner in H.
  run_st H; reflexivity || discriminate.
Qed.

(** The balance of the [auth] counters. *)
Definition auth_balance (m : Metrics) : Z :=
  count AUTH_REQUESTS m - count AUTH_ERRORS m - count AUTH_SUCCESSES m.

Lemma __auth_balance uuid now b s s' r :
  __auth uuid now b s = (s', r) ->
  auth_balance (metrics s') = auth_balance (metrics s) + (if is_panic r then 1 else 0).
Proof.
  intros H. unfold __auth, session_auth, call_inner in H.
  run_st H; unfold auth_balance; cbn; count_lia.
Qed.

Lemma get_token_same now rq s s' r :
  get_attest_token_from_session now rq s = (s', r) -> s' = s.
Proof. intros H. unfold get_attest_token_from_session in H. now run_st H. Qed.

Lemma get_token_Ok now rq s tok :
  (get_attest_token_from_session now rq s).2 = Ok tok <->
  exists id id' t, cookie rq KBS_SESSION_ID = Some id /\
    session_map s !! id = Some (Attested tok id' t) /\ now <= t.
Proof.
  split.
  - intros H. destruct (get_attest_token_from_session now rq s) as [s' r] eqn:Hg.
    cbn in H. subst r. unfold get_attest_token_from_session, is_expired in Hg. run_st Hg. match goal with E : (_ <? _) = false |- _ => apply Z.ltb_ge in E end.
    do 3 eexists. naive_solver.
  - intros (id & id' & t & Hc & Hs & Ht).
    unfold get_attest_token_from_session, is_expired.
    exec. rewrite Hc, Hs. cbn. rewrite (proj2 (Z.ltb_ge t now) Ht). reflexivity.
Qed.
End ServiceLemmas.
