(* ===== verification/Handshake.v ===== *)
(** * The handshake as a transition system

    Requests are served concurrently.  The only shared state of the handshake
    is the session map, and a handler touches a session only while it holds
    the guard of its entry, so a request to [attest] is two atomic steps: the
    first lookup ([Attestation.attest_lookup]) and, after the evidence has been
    assembled, the second lookup together with the verification
    ([Attestation.attest_finish]).  This file interleaves these steps with
    [auth] requests, the sweeping task and the clock, and proves what holds in
    every reachable state. *)
From S2P Require Import Prelude Types Metrics Session Attestation.

(** What an observer records of a step. *)
Inductive label :=
| Opened (id : string) (r : Request) (c : Challenge)
| Began (tid : nat) (p : PendingAttest)
| Verified (id : string) (ev : list IndependentEvidence) (tok : string)
| Crashed (tid : nat)
| Swept (now : Z)
| Quiet.

Section Handshake.
Context {I : Type} `{A : Attest I} `{T : TimeCrate} `{C : KbsCrates}.

Record system := {
  svc : AttestationService I;
  clock : Z;
  pending : gmap nat PendingAttest;
}.

Definition with_svc (x : AttestationService I) (s : system) : system :=
  {| svc := x; clock := clock s; pending := pending s |}.
Definition with_pending (x : gmap nat PendingAttest) (s : system) : system :=
  {| svc := svc s; clock := clock s; pending := x |}.

(** The part of [__attest] that follows the first lookup. *)
Definition attest_rest (p : PendingAttest) : st (AttestationService I) anyhow HttpResponse :=
  evidence ← attest_evidence p; attest_finish p evidence.

Inductive step (s : system) : label -> system -> Prop :=
| step_auth uuid body x resp r c t :
    __auth uuid (clock s) body (svc s) = (x, Ok resp) ->
    session_map x !! uuid = Some (Authed r c uuid t) ->
    step s (Opened uuid r c) (with_svc x s)
| step_auth_fail uuid body x r :
    __auth uuid (clock s) body (svc s) = (x, r) -> is_ok r = false ->
    step s Quiet (with_svc x s)
| step_lookup tid body rq x p :
    pending s !! tid = None ->
    attest_lookup (clock s) body rq (svc s) = (x, Ok (inr p)) ->
    step s (Began tid p) (with_pending (<[tid := p]> (pending s)) (with_svc x s))
| step_lookup_done body rq x r :
    attest_lookup (clock s) body rq (svc s) = (x, r) ->
    (forall p, r <> Ok (inr p)) ->
    step s Quiet (with_svc x s)
| step_finish tid p x y ev tok i resp :
    pending s !! tid = Some p ->
    attest_evidence p (svc s) = (x, Ok ev) ->
    attest_verify ev (inner x) = (i, Ok tok) ->
    attest_finish p ev x = (y, Ok resp) ->
    step s (Verified (pa_session_id p) ev tok)
      (with_pending (delete tid (pending s)) (with_svc y s))
| step_finish_fail tid p x e :
    pending s !! tid = Some p ->
    attest_rest p (svc s) = (x, Err e) ->
    step s Quiet (with_pending (delete tid (pending s)) (with_svc x s))
| step_finish_crash tid p x :
    pending s !! tid = Some p ->
    attest_rest p (svc s) = (x, Panic) ->
    step s (Crashed tid) (with_pending (delete tid (pending s)) (with_svc x s))
| step_sweep :
    step s (Swept (clock s)) (with_svc (sweep (clock s) (svc s)) s)
| step_tick now :
    clock s <= now ->
    step s Quiet {| svc := svc s; clock := now; pending := pending s |}
| step_other i m :
    step s Quiet (with_svc (set_inner i (on_metrics (fun _ => m) (svc s))) s).

(** Runs from a freshly started service.  Session ids are UUIDs: an id is
    never drawn twice. *)
Inductive run (i0 : I) (timeout0 : Z) (now0 : Z) (m0 : Metrics) : list label -> system -> Prop :=
| run_start :
    run i0 timeout0 now0 m0 []
      {| svc := service_new i0 timeout0 m0; clock := now0; pending := ∅ |}
| run_step h s l s' :
    run i0 timeout0 now0 m0 h s -> step s l s' ->
    (forall id r c, l = Opened id r c -> forall r' c', Opened id r' c' ∉ h) ->
    run i0 timeout0 now0 m0 (l :: h) s'.

(** ** What evidence may attest a session

    It is a non-empty list whose first element is of the TEE the client
    announced, and each element is bound to the nonce of the challenge. *)
Definition bound_to (n : string) (e : IndependentEvidence) : Prop :=
  exists o, runtime_data e = VObject o /\ obj_get "nonce" o = Some (VString n).

Definition evidence_for (r : Request) (c : Challenge) (ev : list IndependentEvidence) : Prop :=
  (exists p rest, ev = p :: rest /\ tee p = req_tee r) /\ Forall (bound_to (nonce c)) ev.

Lemma attest_evidence_for p (s s' : AttestationService I) ev r c :
  attest_evidence p s = (s', Ok ev) -> pa_tee p = req_tee r -> pa_nonce p = nonce c ->
  evidence_for r c ev /\ rt_nonce (at_runtime_data (pa_attestation p)) = nonce c.
Proof.
  intros H Ht Hn. unfold attest_evidence in H.
  destruct (String.eqb_spec (pa_nonce p) (rt_nonce (at_runtime_data (pa_attestation p))))
    as [He|]; [|discriminate H].
  split; [|congruence]. cbn in H. run_st H; split.
  - eauto.
  - constructor; [|constructor]. eexists. split; [reflexivity|]. cbn. now rewrite Hn.
  - eauto.
  - constructor; [eexists; split; [reflexivity|]; cbn; now rewrite Hn|].
    apply Forall_map, Forall_true. intros te. eexists. split; [reflexivity|].
    cbn. now rewrite Hn.
Qed.

(** ** The invariant *)
Definition session_ok (h : list label) (id : string) (se : SessionStatus) : Prop :=
  match se with
  | Authed r c _ _ => Opened id r c ∈ h
  | Attested tok _ _ =>
      exists r c ev, Opened id r c ∈ h /\ Verified id ev tok ∈ h /\ evidence_for r c ev
  end.

Definition pending_ok (h : list label) (p : PendingAttest) : Prop :=
  exists r c, Opened (pa_session_id p) r c ∈ h /\ pa_tee p = req_tee r /\ pa_nonce p = nonce c.

Record inv (h : list label) (s : system) : Prop := {
  inv_wf : session_map_wf (session_map (svc s));
  inv_sessions : map_Forall (session_ok h) (session_map (svc s));
  inv_pending : map_Forall (fun _ => pending_ok h) (pending s);
}.

Lemma session_ok_cons h l id se : session_ok h id se -> session_ok (l :: h) id se.
Proof.
  destruct se; cbn; [now right|].
  intros (r & c & ev & ? & ? & ?). exists r, c, ev. 
  split; [now right|split; [now right|assumption]].
Qed.

Lemma pending_ok_cons h l p : pending_ok h p -> pending_ok (l :: h) p.
Proof. intros (r & c & ? & ? & ?). exists r, c. repeat split; [now right|done..]. Qed.

(** The invariant does not depend on metrics, clock or the module's state. *)
Lemma inv_weaken h l s s' :
  inv h s -> session_map (svc s') = session_map (svc s) -> pending s' ⊆ pending s ->
  inv (l :: h) s'.
Proof.
  intros [W S P] Hs Hp. split; rewrite ?Hs; [done| |].
  - eapply map_Forall_impl; [exact S|]. eauto using session_ok_cons.
  - intros tid p Ht. eapply pending_ok_cons, P, lookup_weaken; eauto.
Qed.

Lemma inv_opened h s uuid body x resp r c t :
  inv h s -> __auth uuid (clock s) body (svc s) = (x, Ok resp) ->
  session_map x !! uuid = Some (Authed r c uuid t) ->
  inv (Opened uuid r c :: h) (with_svc x s).
Proof.
  intros [W S P] Ha Hx.
  destruct (__auth_Ok _ _ _ _ _ _ Ha) as (rq & v & ch & t' & i' & _ & _ & _ & _ & _ & _ & _ & Hm & _).
  split; cbn.
  - rewrite Hm. auto with trustee.
  - intros id se Hid. destruct (decide (id = uuid)) as [->|Hne].
    + rewrite Hx in Hid. injection Hid as <-. cbn. left.
    + apply session_ok_cons, S. rewrite Hm in Hid. unfold session_map_insert in Hid.
      case_match; [done|]. cbn in Hid. now rewrite lookup_insert_ne in Hid.
  - eapply map_Forall_impl; [exact P|]. eauto using pending_ok_cons.
Qed.

Lemma inv_began h s tid body rq x p :
  inv h s -> attest_lookup (clock s) body rq (svc s) = (x, Ok (inr p)) ->
  inv (Began tid p :: h) (with_pending (<[tid := p]> (pending s)) (with_svc x s)).
Proof.
  intros [W S P] Hl.
  destruct (attest_lookup_same _ _ _ _ _ _ Hl) as (_ & Hm & _).
  destruct (attest_lookup_pending _ _ _ _ _ _ Hl) as (r & c & id & t & Hs & _ & _ & Ht & Hn & _).
  split; cbn; rewrite ?Hm; [done| |].
  - eapply map_Forall_impl; [exact S|]. eauto using session_ok_cons.
  - apply map_Forall_insert_2.
    + exists r, c. split; [|done]. right. exact (S _ _ Hs).
    + eapply map_Forall_impl; [exact P|]. eauto using pending_ok_cons.
Qed.

Lemma inv_verified h s tid p x y ev tok i resp :
  inv h s -> pending s !! tid = Some p ->
  attest_evidence p (svc s) = (x, Ok ev) -> attest_verify ev (inner x) = (i, Ok tok) ->
  attest_finish p ev x = (y, Ok resp) ->
  inv (Verified (pa_session_id p) ev tok :: h)
    (with_pending (delete tid (pending s)) (with_svc y s)).
Proof.
  intros [W S P] Hp He Hv Hf.
  destruct (P _ _ Hp) as (r & c & Ho & Ht & Hn).
  destruct (attest_evidence_for _ _ _ _ _ _ He Ht Hn) as [Hev _].
  destruct (attest_evidence_same _ _ _ _ He) as (_ & Hm & _).
  destruct (attest_finish_Ok _ _ _ _ _ Hf)
    as (r' & c' & id & t & tok' & i' & Hs & Hv' & _ & _ & Hy).
  rewrite Hv in Hv'. injection Hv' as <- <-. rewrite Hm in Hs, Hy.
  split; cbn; rewrite ?Hy.
  - apply (session_map_wf_attest tok (pa_session_id p) (Authed r' c' id t)); done.
  - apply map_Forall_insert_2.
    + exists r, c, ev. split; [now right|split; [now left|exact Hev]].
    + eapply map_Forall_impl; [exact S|]. eauto using session_ok_cons.
  - apply map_Forall_delete.
    eapply map_Forall_impl; [exact P|]. eauto using pending_ok_cons.
Qed.

Lemma inv_swept h s :
  inv h s -> inv (Swept (clock s) :: h) (with_svc (sweep (clock s) (svc s)) s).
Proof.
  intros [W S P]. split; cbn; [auto with trustee| |].
  - intros id se [Hid _]%session_map_retain_Some. apply session_ok_cons. now apply S.
  - eapply map_Forall_impl; [exact P|]. eauto using pending_ok_cons.
Qed.

Lemma attest_rest_not_Ok p s s' r :
  attest_rest p s = (s', r) -> is_ok r = false -> session_map s' = session_map s.
Proof.
  unfold attest_rest, mbind, st_bind. intros H Hr.
  destruct (attest_evidence p s) as [s1 o] eqn:He.
  destruct (attest_evidence_same _ _ _ _ He) as (_ & Hm & _).
  destruct o; simplify_eq; [|done..].
  etransitivity; [eapply attest_finish_not_Ok; eauto|done].
Qed.

Lemma step_inv h s l s' : inv h s -> step s l s' -> inv (l :: h) s'.
Proof.
  intros Hi Hs. destruct Hs.
  - eapply inv_opened; eauto.
  - eapply inv_weaken; eauto. cbn. eapply __auth_not_Ok; eauto.
  - eapply inv_began; eauto.
  - eapply inv_weaken; eauto. cbn.
    match goal with H : attest_lookup _ _ _ _ = _ |- _ => apply attest_lookup_same in H as (_ & ? & _) end.
    done.
  - eapply inv_verified; eauto.
  - eapply inv_weaken; eauto; cbn; [eapply attest_rest_not_Ok; eauto|apply delete_subseteq].
  - eapply inv_weaken; eauto; cbn; [eapply attest_rest_not_Ok; eauto|apply delete_subseteq].
  - now apply inv_swept.
  - eapply inv_weaken; eauto.
  - eapply inv_weaken; eauto.
Qed.

Lemma run_inv i0 t0 now0 m0 h s : run i0 t0 now0 m0 h s -> inv h s.
Proof.
  induction 1; [|eauto using step_inv].
  split; cbn; [apply session_map_wf_empty|apply map_Forall_empty..].
Qed.

Lemma run_opened_unique i0 t0 now0 m0 h s id r c r' c' :
  run i0 t0 now0 m0 h s -> Opened id r c ∈ h -> Opened id r' c' ∈ h -> r' = r /\ c' = c.
Proof.
  induction 1 as [|h s l s' _ IH _ Hf]; [intros []%not_elem_of_nil|].
  rewrite !elem_of_cons. intros [<-|H1] [H2|H2].
  - now simplify_eq.
  - now destruct (Hf _ _ _ eq_refl _ _ H2).
  - subst l. now destruct (Hf _ _ _ eq_refl _ _ H1).
  - now apply IH.
Qed.
End Handshake.

(** ** Properties of every run *)
Section HandshakeProperties.
Context {I : Type} `{A : Attest I} `{T : TimeCrate} `{C : KbsCrates}.

(** C3: where attestation tokens come from.  In every reachable state, the
    token of an attested session was returned by the attestation module for
    evidence of that very session: the session was opened by exactly one
    [auth] request, the primary evidence is of the TEE announced there, and
    every piece of evidence carries the nonce of the challenge handed out
    there. *)
Theorem attested_token_provenance i0 t0 now0 m0 h (s : system) id tok id' t :
  run i0 t0 now0 m0 h s ->
  session_map (svc s) !! id = Some (Attested tok id' t) ->
  id' = id /\
  exists r c ev, Opened id r c ∈ h /\
    (forall r' c', Opened id r' c' ∈ h -> r' = r /\ c' = c) /\
    Verified id ev tok ∈ h /\ evidence_for r c ev.
Proof.
  intros Hr Hid. destruct (run_inv _ _ _ _ _ _ Hr) as [W S _].
  split; [exact (W _ _ Hid)|].
  destruct (S _ _ Hid) as (r & c & ev & Ho & Hv & He).
  exists r, c, ev. split; [exact Ho|]. split; [|now split].
  intros r' c'. now apply (run_opened_unique _ _ _ _ _ _ _ _ _ _ _ Hr).
Qed.

(** C29: an attested session is final.  No step replaces its token, turns it
    back into an unattested session or removes it, except the sweep, and the
    sweep only once the session's timeout has passed. *)
Theorem attested_session_stable (s : system) l s' id tok id' t :
  step s l s' ->
  session_map (svc s) !! id = Some (Attested tok id' t) ->
  session_map (svc s') !! id = Some (Attested tok id' t) \/
  (l = Swept (clock s) /\ t < clock s /\ session_map (svc s') !! id = None).
Proof.
  intros Hs Hid. destruct Hs; cbn; auto.
  - left. destruct (__auth_Ok _ _ _ _ _ _ H)
      as (rq & v & ch & t' & i' & _ & _ & _ & _ & _ & _ & _ & Hm & _).
    rewrite Hm. unfold session_map_insert. case_match; [done|].
    rewrite lookup_insert_ne; [done|]. cbn in *. intros ->. congruence.
  - left. now rewrite (__auth_not_Ok _ _ _ _ _ _ H H0).
  - left. destruct (attest_lookup_same _ _ _ _ _ _ H0) as (_ & -> & _). done.
  - left. destruct (attest_lookup_same _ _ _ _ _ _ H) as (_ & -> & _). done.
  - left. destruct (attest_evidence_same _ _ _ _ H0) as (_ & Hm & _).
    destruct (attest_finish_Ok _ _ _ _ _ H2) as (? & ? & ? & ? & ? & ? & Ha & _ & _ & _ & ->).
    rewrite Hm in *. rewrite lookup_insert_ne; [done|]. intros <-. congruence.
  - left. now rewrite (attest_rest_not_Ok _ _ _ _ H0).
  - left. now rewrite (attest_rest_not_Ok _ _ _ _ H0).
  - destruct (is_expired (clock s) (Attested tok id' t)) eqn:Ex.
    + right. unfold is_expired in Ex. cbn in Ex. apply Z.ltb_lt in Ex.
      repeat split; [done|]. apply eq_None_not_Some. intros [se Hse].
      apply session_map_retain_Some in Hse as [Hse Hn]. rewrite Hid in Hse.
      injection Hse as <-. unfold is_expired in Hn. cbn in Hn.
      apply Z.ltb_ge in Hn. lia.
    + left. now apply session_map_retain_Some.
Qed.

(** An attestation request that no other request interferes with never
    panics, whatever its body, its cookie and the state of the service, as
    long as the attestation module does not panic. *)
Theorem attest_alone_never_panics now body rq (s s' : AttestationService I) :
  (forall ev i i', attest_verify ev i <> (i', Panic)) ->
  __attest now body rq s <> (s', Panic).
Proof.
  intros Hv H. unfold __attest in H. apply st_bind_Panic in H as [H|(s1 & a & Hl & H)].
  { unfold attest_lookup, session_request, session_challenge in H. run_st H. }
  destruct a as [|p]; [discriminate H|].
  apply st_bind_Panic in H as [H|(s2 & ev & He & H)].
  { now apply attest_evidence_not_panic in H. }
  destruct (attest_lookup_pending _ _ _ _ _ _ Hl) as (r & c & id & t & Hs & _).
  destruct (attest_lookup_same _ _ _ _ _ _ Hl) as (_ & Hm1 & _).
  destruct (attest_evidence_same _ _ _ _ He) as (_ & Hm2 & _).
  unfold attest_finish, session_request, call_inner in H. run_st H.
  - match goal with E : attest_verify _ _ = (_, Panic) |- _ => now apply Hv in E end.
  - congruence.
Qed.

(** Two requests that passed the first lookup of the same session: once one
    of them has been served, the other one panics. *)
Lemma attest_second_crashes p1 p2 ev1 ev2 (s s1 : AttestationService I) resp :
  pa_session_id p1 = pa_session_id p2 ->
  attest_finish p1 ev1 s = (s1, Ok resp) ->
  attest_finish p2 ev2 s1 = (s1, Panic).
Proof.
  intros Hid H. destruct (attest_finish_Ok _ _ _ _ _ H)
    as (r & c & id & t & tok & i' & _ & _ & _ & _ & Hm).
  unfold attest_finish. exec. rewrite Hm, <- Hid, lookup_insert_eq. reflexivity.
Qed.

(** What a successful [auth] does.  The request named exactly protocol
    version 0.4.0; the session it opens is stored under the fresh id, waits
    for attestation, expires [timeout] minutes later, and its cookie and its
    challenge are what the client gets.  No other session changes. *)
Theorem auth_opens_session `{!KbsCratesSpec C} `{!TimeCrateSpec T}
    uuid now body (s s' : AttestationService I) resp :
  auth uuid now body s = (s', Ok resp) ->
  session_map s !! uuid = None ->
  exists rq v ch,
    parse_request body = Some rq /\ version_parse (req_version rq) = Some v /\
    (major v, minor v, patch v) = (0, 4, 0) /\ pre v = "" /\
    let se := Authed rq ch uuid (now + timeout s * nanos_per_minute) in
    session_map s' = <[uuid := se]> (session_map s) /\
    set_cookie resp = Some (session_cookie se) /\
    status resp = 200 /\ res_body resp = challenge_json ch.
Proof.
  unfold auth, st_map_err. intros H Hn.
  destruct (__auth uuid now body s) as [s1 r] eqn:Ha. injection H as <- H.
  apply map_err_Ok in H as ->.
  destruct (__auth_Ok _ _ _ _ _ _ Ha)
    as (rq & v & ch & t & i & Hp & Hv & Hm & _ & Ht & _ & _ & Hs & ->).
  apply version_req_matches_spec in Hm as [Hm Hpre].
  apply add_minutes_spec in Ht as ->.
  exists rq, v, ch. unfold session_map_insert in Hs. cbn in Hs. rewrite Hn in Hs.
  now repeat split.
Qed.

(** The [auth] counters add up.  Over any [auth] request that does not
    panic, the number of requests grows by as much as the number of errors
    plus the number of successes. *)
Theorem auth_counters_balance uuid now body (s s' : AttestationService I) r :
  auth uuid now body s = (s', r) -> is_panic r = false ->
  count AUTH_REQUESTS (metrics s') - count AUTH_REQUESTS (metrics s) =
  (count AUTH_ERRORS (metrics s') - count AUTH_ERRORS (metrics s)) +
  (count AUTH_SUCCESSES (metrics s') - count AUTH_SUCCESSES (metrics s)).
Proof.
  unfold auth, st_map_err. intros H Hp.
  destruct (__auth uuid now body s) as [s1 o] eqn:Ha. injection H as <- <-.
  pose proof (__auth_balance _ _ _ _ _ _ Ha) as B. unfold auth_balance in B.
  destruct o; cbn in *; try discriminate; lia.
Qed.
End HandshakeProperties.

(** ** A concrete service

    An attestation module whose state counts its verifications, with crates
    simple enough to evaluate: a request body is its version text, an
    attestation body is its nonce. *)
Module Demo.
#[export] Instance demo_attest : Attest nat := {
  attest_set_policy _ _ := mret tt;
  attest_verify _ := st_modify S;; mret "token";
  attest_generate_challenge _ _ := mret {| nonce := "n0"; ch_extra_params := VString "" |};
  attest_register_reference_value _ := mret tt;
  attest_query_reference_values := mret [];
}.

#[export] Instance demo_time : TimeCrate := fun now m => Some (now + m * nanos_per_minute).
#[export] Instance demo_time_spec : TimeCrateSpec demo_time.
Proof. intros now m later H. now injection H as <-. Qed.

Definition v040 : Version := {| major := 0; minor := 4; patch := 0; pre := ""; build := "" |}.

#[export] Instance demo_crates : KbsCrates := {
  parse_request b := Some {| req_version := string_of_list_byte b; req_tee := Sample;
                             req_extra_params := VNull |};
  parse_attestation b := Some {|
    at_init_data := None;
    at_runtime_data := {| rt_nonce := string_of_list_byte b; rt_tee_pubkey := RSA "" "" "" |};
    at_tee_evidence := {| primary_evidence := VNull; additional_evidence := "" |} |};
  parse_set_policy_input _ := None;
  parse_additional_evidence _ := None;
  value_to_string v :=
    match v with
    | VObject ((_, VString t) :: _) => Some t
    | _ => None
    end;
  tee_to_string _ := Some "sample";
  attestation_to_string_pretty _ := Some "";
  challenge_json c := str_bytes (nonce c);
  pubkey_value _ := VNull;
  version_parse s := if String.eqb s "0.4.0" then Some v040 else None;
  version_req_matches req v := bool_decide (req = (major v, minor v, patch v) /\ pre v = "");
  base64_standard_encode b := string_of_list_byte b;
}.

#[export] Instance demo_crates_spec : KbsCratesSpec demo_crates.
Proof. constructor. intros req v. cbn. now rewrite bool_decide_eq_true. Qed.

Definition no_cookie : string -> option string := fun _ => None.
Definition req_with (c : string -> option string) : HttpRequest :=
  {| http_method := POST; http_path := ""; query_string := "";
     match_info := no_cookie; cookie := c; headers := no_cookie |}.
Definition sid1 : HttpRequest :=
  req_with (fun k => if String.eqb k KBS_SESSION_ID then Some "id1" else None).

Definition svc0 : AttestationService nat := service_new 0%nat 5 no_metrics.
Definition sys0 : system := {| svc := svc0; clock := 0; pending := ∅ |}.

Definition svc1 : AttestationService nat := (__auth "id1" 0 (str_bytes "0.4.0") svc0).1.
Definition rq1 : Request :=
  {| req_version := "0.4.0"; req_tee := Sample; req_extra_params := VNull |}.
Definition ch1 : Challenge := {| nonce := "n0"; ch_extra_params := VString "" |}.
Definition p1 : PendingAttest := {|
  pa_session_id := "id1";
  pa_attestation := {|
    at_init_data := None;
    at_runtime_data := {| rt_nonce := "n0"; rt_tee_pubkey := RSA "" "" "" |};
    at_tee_evidence := {| primary_evidence := VNull; additional_evidence := "" |} |};
  pa_tee := Sample; pa_nonce := "n0" |}.
Definition ev1 : list IndependentEvidence :=
  [{| tee := Sample; tee_evidence := VNull;
      runtime_data := primary_runtime_data p1; init_data := None |}].

Definition svc2 : AttestationService nat := (attest_lookup 0 (str_bytes "n0") sid1 svc1).1.
Definition svc3 : AttestationService nat := (attest_lookup 0 (str_bytes "n0") sid1 svc2).1.
Definition svc4 : AttestationService nat := (attest_finish p1 ev1 svc3).1.

Definition resp4 : HttpResponse :=
  with_cookie (session_cookie (Attested "token" "id1" (5 * nanos_per_minute)))
    (ok_body "application/json" (str_bytes "token")).

Definition sys1 : system := with_svc svc1 sys0.
Definition sys2 : system := with_pending (<[0%nat := p1]> (pending sys1)) (with_svc svc2 sys1).
Definition sys3 : system := with_pending (<[1%nat := p1]> (pending sys2)) (with_svc svc3 sys2).
Definition sys4 : system := with_pending (delete 0%nat (pending sys3)) (with_svc svc4 sys3).
Definition sys5 : system := with_pending (delete 1%nat (pending sys4)) (with_svc svc4 sys4).

Definition trace1 := [Opened "id1" rq1 ch1].
Definition trace2 := Began 0 p1 :: trace1.
Definition trace3 := Began 1 p1 :: trace2.
Definition trace4 := Verified "id1" ev1 "token" :: trace3.
Definition trace5 := Crashed 1 :: trace4.

Abbreviation demo_run := (run 0%nat 5 0 no_metrics).

Lemma demo_run1 : demo_run trace1 sys1.
Proof.
  eapply run_step; [apply run_start| |set_solver].
  eapply (step_auth _ "id1" (str_bytes "0.4.0")); vm_compute; reflexivity.
Qed.

Lemma demo_run3 : demo_run trace3 sys3.
Proof.
  eapply run_step; [eapply run_step; [apply demo_run1| |discriminate]| |discriminate];
    eapply (step_lookup _ _ (str_bytes "n0") sid1); vm_compute; reflexivity.
Qed.

Lemma demo_run4 : demo_run trace4 sys4.
Proof.
  eapply run_step; [apply demo_run3| |discriminate].
  apply (step_finish sys3 0%nat p1 svc3 svc4 ev1 "token" 1%nat resp4); vm_compute; reflexivity.
Qed.
End Demo.

Import Demo.

(** C40: two concurrent attestation requests for one session can crash the
    server.  There is a run of the service, with an attestation module that
    never fails, in which a client opens a session and sends its attestation
    twice; both requests pass the first lookup, the first one is served, and
    the handler of the second one panics. *)
Theorem concurrent_attest_can_crash :
  exists h (s : @system nat),
    @run nat Demo.demo_attest Demo.demo_time Demo.demo_crates 0%nat 5 0 no_metrics h s /\
    Crashed 1 ∈ h /\ Opened "id1" Demo.rq1 Demo.ch1 ∈ h.
Proof.
  exists Demo.trace5, Demo.sys5. split; [|set_solver].
  eapply run_step; [apply Demo.demo_run4| |discriminate].
  apply (step_finish_crash _ 1%nat Demo.p1); vm_compute; reflexivity.
Qed.

(** Witnesses. *)
Lemma attested_token_provenance_witness :
  exists r c ev, Opened "id1" r c ∈ Demo.trace4 /\ evidence_for r c ev.
Proof.
  destruct (attested_token_provenance 0%nat 5 0 no_metrics Demo.trace4 Demo.sys4
    "id1" "token" "id1" (5 * nanos_per_minute) Demo.demo_run4) as (_ & r & c & ev & H & _ & _ & E).
  - vm_compute; reflexivity.
  - exists r, c, ev. split; [exact H | exact E].
Defined.

Lemma attested_session_stable_witness :
  session_map (svc Demo.sys4) !! "id1" = Some (Attested "token" "id1" (5 * nanos_per_minute)) /\
  session_map (svc Demo.sys5) !! "id1" = Some (Attested "token" "id1" (5 * nanos_per_minute)).
Proof.
  split; [vm_compute; reflexivity|].
  destruct (attested_session_stable Demo.sys4 (Crashed 1) Demo.sys5 "id1" "token" "id1"
    (5 * nanos_per_minute)) as [H|[H _]].
  - apply (step_finish_crash _ 1%nat Demo.p1); vm_compute; reflexivity.
  - vm_compute; reflexivity.
  - exact H.
  - discriminate H.
Defined.

Lemma attest_alone_never_panics_witness :
  __attest 0 (str_bytes "n0") Demo.sid1 Demo.svc1 <> (Demo.svc1, Panic).
Proof.
  apply (attest_alone_never_panics 0 (str_bytes "n0") Demo.sid1 Demo.svc1 Demo.svc1).
  intros ev i i' H. discriminate H.
Defined.

Lemma auth_opens_session_witness :
  session_map Demo.svc1 !! "id1" = Some (Authed Demo.rq1 Demo.ch1 "id1" (5 * nanos_per_minute)).
Proof.
  destruct (auth_opens_session "id1" 0 (str_bytes "0.4.0") Demo.svc0 Demo.svc1
    (with_cookie (session_cookie (Authed Demo.rq1 Demo.ch1 "id1" (5 * nanos_per_minute)))
       (ok_body "application/json" (str_bytes "n0")))) as (rq & v & ch & H & _).
  - vm_compute; reflexivity.
  - vm_compute; reflexivity.
  - vm_compute; reflexivity.
Defined.

Lemma auth_counters_balance_witness :
  count AUTH_REQUESTS (metrics Demo.svc1) = 1 /\
  1 - 0 = (count AUTH_ERRORS (metrics Demo.svc1) - 0) + (count AUTH_SUCCESSES (metrics Demo.svc1) - 0).
Proof.
  split; [vm_compute; reflexivity|].
  apply (auth_counters_balance "id1" 0 (str_bytes "0.4.0") Demo.svc0 Demo.svc1
    (Ok (with_cookie (session_cookie (Authed Demo.rq1 Demo.ch1 "id1" (5 * nanos_per_minute)))
       (ok_body "application/json" (str_bytes "n0"))))); vm_compute; reflexivity.
Defined.
