(* ===== verification/Liveness.v ===== *)
(** * Progress of the handshake

    What a client can count on while other requests, the sweep and the clock
    interleave with its own: the session it opened stays until its timeout, and
    an attestation that the attestation service accepts is answered with a
    token. *)
From S2P Require Import Prelude Types Metrics Session Attestation Handshake.

Section Liveness.
Context {I : Type} `{A : Attest I} `{T : TimeCrate} `{C : KbsCrates}.
Implicit Types s : system (I := I).

Definition some_step s s' : Prop := exists l, step s l s'.

(** A session that was opened for a request and a challenge: it waits for
    attestation or has been attested, with the same id and timeout. *)
Definition session_alive (id : string) (r : Request) (c : Challenge) (t : Z) (s : system (I := I)) : Prop :=
  session_map (svc s) !! id = Some (Authed r c id t) \/
  exists tok, session_map (svc s) !! id = Some (Attested tok id t).

Lemma session_alive_same id r c t s s' :
  session_map (svc s') = session_map (svc s) -> session_alive id r c t s -> session_alive id r c t s'.
Proof. unfold session_alive. now intros ->. Qed.

Lemma session_alive_insert id r c t s se :
  session_alive id r c t s ->
  session_map_insert se (session_map (svc s)) !! id = session_map (svc s) !! id.
Proof.
  intros Ha. unfold session_map_insert. case_match eqn:E; [done|]. apply lookup_insert_ne. intros <-.
  destruct Ha as [Ha|[tok Ha]]; congruence.
Qed.

Lemma step_clock s l s' : step s l s' -> clock s <= clock s'.
Proof. destruct 1; cbn; lia. Qed.

(** Before its timeout no step takes a session away. *)
Lemma step_alive s l s' id r c t :
  step s l s' -> clock s' <= t -> session_alive id r c t s -> session_alive id r c t s'.
Proof.
  intros Hs Ht Ha. destruct Hs; cbn in Ht.
  - destruct (__auth_Ok _ _ _ _ _ _ H) as (? & ? & ? & ? & ? & _ & _ & _ & _ & _ & _ & _ & Hm & _).
    unfold session_alive. cbn. rewrite Hm, (session_alive_insert _ _ _ _ _ _ Ha). exact Ha.
  - eapply session_alive_same; [|exact Ha]. cbn. eapply __auth_not_Ok; eauto.
  - eapply session_alive_same; [|exact Ha]. now apply attest_lookup_same in H0 as (_ & ? & _).
  - eapply session_alive_same; [|exact Ha]. now apply attest_lookup_same in H as (_ & ? & _).
  - apply attest_evidence_same in H0 as (_ & Hm & _).
    destruct (attest_finish_Ok _ _ _ _ _ H2) as (r' & c' & id' & t' & tok' & i' & Hs' & _ & _ & _ & Hy).
    unfold session_alive. cbn. rewrite Hy, Hm in *. destruct (decide (pa_session_id p = id)) as [<-|Hne].
    + right. rewrite lookup_insert_eq. destruct Ha as [Ha|[? Ha]]; [|congruence].
      rewrite Hs' in Ha. injection Ha as <- <- <- <-. eauto.
    + rewrite lookup_insert_ne by done. exact Ha.
  - eapply session_alive_same; [|exact Ha]. cbn. eapply attest_rest_not_Ok; eauto.
  - eapply session_alive_same; [|exact Ha]. cbn. eapply attest_rest_not_Ok; eauto.
  - unfold session_alive in *. cbn. rewrite !session_map_retain_Some. unfold is_expired.
    setoid_rewrite session_map_retain_Some. unfold is_expired. cbn. rewrite Z.ltb_ge. naive_solver lia.
  - eapply session_alive_same; [|exact Ha]. done.
  - eapply session_alive_same; [|exact Ha]. done.
Qed.

Lemma steps_alive s s' id r c t :
  rtc some_step s s' -> clock s' <= t -> session_alive id r c t s -> session_alive id r c t s'.
Proof.
  intros Hs Ht. revert s' Hs Ht. refine (rtc_ind_r (fun s' => clock s' <= t -> _) s _ _); [auto|].
  intros s1 s2 _ [l Hl] IH Ht Ha. apply (step_alive _ _ _ _ _ _ _ Hl Ht). apply IH; [|done].
  pose proof (step_clock _ _ _ Hl). lia.
Qed.

(** ** An honest client *)

(** The data an attestation request for this session starts from. *)
Definition pending_for (id : string) (r : Request) (c : Challenge) (att : Attestation) : PendingAttest :=
  {| pa_session_id := id; pa_attestation := att; pa_tee := req_tee r; pa_nonce := nonce c |}.

(** A request with the cookie and the nonce the client was given, whose parts can
    be read, and evidence that the attestation module accepts. *)
Record honest_request (id : string) (r : Request) (c : Challenge) (b : bytes) (rq : HttpRequest) (att : Attestation)
    (ev : list IndependentEvidence) : Prop := {
  hr_cookie : cookie rq KBS_SESSION_ID = Some id;
  hr_body : parse_attestation b = Some att;
  hr_text : is_Some (attestation_to_string_pretty att);
  hr_tee : is_Some (tee_to_string (req_tee r));
  hr_token : forall tok, is_Some (value_to_string (token_json tok));
  hr_evidence : forall x : AttestationService I, attest_evidence (pending_for id r c att) x = (x, Ok ev);
  hr_accepted : forall i, exists i' tok, attest_verify ev i = (i', Ok tok);
}.

(** The evidence of a request is there if the nonce is that of the challenge and
    the additional evidence, if any, can be parsed. *)
Lemma honest_evidence id r c att :
  rt_nonce (at_runtime_data att) = nonce c ->
  additional_evidence (at_tee_evidence att) = "" \/
    is_Some (parse_additional_evidence (additional_evidence (at_tee_evidence att))) ->
  exists ev, forall x : AttestationService I, attest_evidence (pending_for id r c att) x = (x, Ok ev).
Proof.
  intros Hn Ha. unfold attest_evidence. cbn [pa_nonce pa_attestation pending_for]. rewrite Hn, String.eqb_refl. cbn [negb].
  destruct (String.eqb_spec (additional_evidence (at_tee_evidence att)) "") as [|Hne]; [eexists; reflexivity|].
  destruct Ha as [?|[extra He]]; [done|]. rewrite He. eexists. intros x. reflexivity.
Qed.

Lemma finish_honest id r c t b rq att ev (x : AttestationService I) :
  honest_request id r c b rq att ev -> session_map x !! id = Some (Authed r c id t) ->
  exists y resp tok, attest_finish (pending_for id r c att) ev x = (y, Ok resp) /\ status resp = 200 /\
    session_map y !! id = Some (Attested tok id t).
Proof.
  intros H Hx. destruct (hr_tee _ _ _ _ _ _ _ H) as [label Hl].
  destruct (hr_accepted _ _ _ _ _ _ _ H (inner x)) as (i' & tok & Hv).
  destruct (hr_token _ _ _ _ _ _ _ H tok) as [text Htext].
  unfold attest_finish, call_inner. exec. rewrite Hx. cbn. rewrite Hl. cbn. rewrite Hv. cbn. rewrite Htext. cbn.
  do 3 eexists. split; [reflexivity|]. split; [done|]. cbn. rewrite lookup_insert_eq. reflexivity.
Qed.

Lemma attest_honest id r c t b rq att ev now (x : AttestationService I) :
  honest_request id r c b rq att ev -> now <= t ->
  session_map x !! id = Some (Authed r c id t) \/ (exists tok, session_map x !! id = Some (Attested tok id t)) ->
  exists y resp tok, __attest now b rq x = (y, Ok resp) /\ status resp = 200 /\
    session_map y !! id = Some (Attested tok id t).
Proof.
  intros H Ht Hx. unfold __attest, attest_lookup. exec. rewrite (hr_cookie _ _ _ _ _ _ _ H). cbn.
  rewrite (hr_body _ _ _ _ _ _ _ H). cbn. unfold is_expired.
  destruct (hr_text _ _ _ _ _ _ _ H) as [text Htext].
  destruct Hx as [Hx|[tok Hx]]; rewrite Hx; cbn; rewrite (proj2 (Z.ltb_ge t now) Ht).
  - cbn. rewrite Htext. cbn.
    match goal with |- context [attest_evidence _ ?st] => set (x1 := st) end.
    assert (Hp := hr_evidence _ _ _ _ _ _ _ H x1). unfold pending_for in Hp. rewrite Hp.
    exact (finish_honest _ _ _ t _ _ _ _ x1 H Hx).
  - destruct (hr_token _ _ _ _ _ _ _ H tok) as [s Hs]. rewrite Hs. cbn. do 3 eexists. split; [reflexivity|].
    split; [done|]. exact Hx.
Qed.

(** C19: an honest client is served.  Once a session is open, whatever requests of
    others, sweeps and interrupted attestations come in between: as long as its
    timeout has not passed, an attestation request with the session's cookie and
    nonce, whose evidence the attestation module accepts, succeeds; the session
    is then attested, and its token can be fetched until the timeout. *)
Theorem honest_client_served s s' id r c t b rq att ev :
  session_map (svc s) !! id = Some (Authed r c id t) -> rtc some_step s s' -> clock s' <= t ->
  honest_request id r c b rq att ev ->
  exists y resp tok, __attest (clock s') b rq (svc s') = (y, Ok resp) /\ status resp = 200 /\
    session_map y !! id = Some (Attested tok id t) /\
    forall now, now <= t -> (get_attest_token_from_session now rq y).2 = Ok tok.
Proof.
  intros Hs Hr Ht H.
  destruct (attest_honest _ _ _ t _ _ _ _ (clock s') (svc s') H Ht) as (y & resp & tok & Ha & Hst & Hy).
  { exact (steps_alive _ _ _ _ _ _ Hr Ht (or_introl Hs)). }
  exists y, resp, tok. do 3 (split; [done|]). intros now Hn. apply get_token_Ok.
  exists id, id, t. split; [exact (hr_cookie _ _ _ _ _ _ _ H)|]. done.
Qed.
End Liveness.

(** ** A concrete run: a sweep between [auth] and [attest]. *)
Import Handshake.Demo.

Definition opened : system := {| svc := svc1; clock := 0; pending := ∅ |}.
Definition swept : system := with_svc (sweep 0 svc1) opened.

Lemma honest_client_served_witness :
  exists y resp tok, __attest 0 (str_bytes "n0") sid1 (svc swept) = (y, Ok resp) /\ status resp = 200 /\
    session_map y !! "id1" = Some (Attested tok "id1" (5 * nanos_per_minute)) /\
    forall now, now <= 5 * nanos_per_minute -> (get_attest_token_from_session now sid1 y).2 = Ok tok.
Proof.
  apply (honest_client_served opened swept "id1" rq1 ch1 (5 * nanos_per_minute) (str_bytes "n0") sid1
    (pa_attestation p1) ev1).
  - vm_compute. reflexivity.
  - apply rtc_once. exists (Swept 0). exact (step_sweep opened).
  - vm_compute. discriminate.
  - constructor; try reflexivity; try (eexists; reflexivity).
    intros i. exists (S i), "token". reflexivity.
Defined.
