(* ===== verification/Fs.v ===== *)
(** * Paths and files of the standard library

    [std::path] as far as the program uses it ([PathBuf::push], [join],
    [parent]) and a file system for [std::fs] / [tokio::fs]: regular files and
    directories, named by the list of their path components.  Symbolic links
    are not modelled.  Any operation may also fail for a reason of its own (a
    full disk, missing permissions): [Disk] says which operations do. *)
From S2P Require Import Prelude.

#[local] Arguments String.append !_ _ / : simpl nomatch.

Definition slash : ascii := "/".

(** ** Strings *)

(** [str::split] with a one-character pattern. *)
Fixpoint split_on (c : ascii) (s : string) : list string :=
  match s with
  | EmptyString => [""]
  | String.String c' s' =>
      if Ascii.eqb c c' then "" :: split_on c s'
      else match split_on c s' with
           | x :: l => String.String c' x :: l
           | [] => [String.String c' ""]
           end
  end.

(** [str::strip_prefix] with a one-character pattern. *)
Definition strip_prefix (c : ascii) (s : string) : option string :=
  match s with
  | String.String c' s' => if Ascii.eqb c c' then Some s' else None
  | EmptyString => None
  end.

Fixpoint all_chars (f : ascii -> bool) (s : string) : bool :=
  match s with
  | EmptyString => true
  | String.String c s => f c && all_chars f s
  end.

Definition no_char (c : ascii) (s : string) : bool := all_chars (fun c' => negb (Ascii.eqb c c')) s.

Lemma app_string_assoc (s t u : string) : ((s +:+ t) +:+ u = s +:+ (t +:+ u))%string.
Proof. induction s as [|c s IH]; [done|]. cbn. f_equal. apply IH. Qed.

Lemma app_string_nil (s : string) : (s +:+ "")%string = s.
Proof. induction s as [|c s IH]; [done|]. cbn. f_equal. apply IH. Qed.

Lemma all_chars_app f s t : all_chars f (s +:+ t) = all_chars f s && all_chars f t.
Proof. induction s as [|c s IH]; cbn; [done|]. now rewrite IH, andb_assoc. Qed.

Lemma split_on_cons c s : exists x l, split_on c s = x :: l.
Proof.
  destruct s as [|c' s]; cbn; [eauto|].
  destruct (Ascii.eqb c c'); [eauto|]. destruct (split_on c s); eauto.
Qed.

Lemma split_on_none c s : no_char c s = true -> split_on c s = [s].
Proof.
  induction s as [|c' s IH]; cbn; [done|].
  intros [Hc Hs]%andb_prop. apply negb_true_iff in Hc. rewrite Hc, IH; done.
Qed.

Lemma split_on_app c s t :
  no_char c s = true -> split_on c (s +:+ String.String c t) = s :: split_on c t.
Proof.
  induction s as [|c' s IH]; cbn.
  - intros _. now rewrite Ascii.eqb_refl.
  - intros [Hc Hs]%andb_prop. apply negb_true_iff in Hc. now rewrite Hc, IH.
Qed.

(** Splitting is inverted by joining the pieces with the separator. *)
Fixpoint join_with (c : ascii) (l : list string) : string :=
  match l with
  | [] => ""
  | [x] => x
  | x :: l => x +:+ String.String c (join_with c l)
  end.

Lemma join_split c s : join_with c (split_on c s) = s.
Proof.
  induction s as [|c' s IH]; cbn; [done|].
  destruct (Ascii.eqb_spec c c') as [->|Hne].
  - destruct (split_on_cons c' s) as (x & l & E). rewrite E in *.
    change (join_with c' ("" :: x :: l)) with (String.String c' (join_with c' (x :: l))).
    now rewrite IH.
  - destruct (split_on_cons c s) as (x & l & E). rewrite E in *.
    destruct l; cbn in *; f_equal; exact IH.
Qed.

Lemma split_on_no_char c s : Forall (fun x => no_char c x = true) (split_on c s).
Proof.
  induction s as [|c' s IH]; cbn; [now repeat constructor|].
  destruct (Ascii.eqb c c') eqn:E; [now constructor|].
  destruct (split_on_cons c s) as (x & l & Es). rewrite Es in *.
  inversion IH; subst. constructor; [|done]. unfold no_char in *. cbn. rewrite E. done.
Qed.

(** ** Paths *)

(** [Path::is_absolute]. *)
Definition is_absolute (p : string) : bool :=
  match p with
  | String.String c _ => Ascii.eqb c slash
  | EmptyString => false
  end.

Fixpoint last_char (s : string) : option ascii :=
  match s with
  | EmptyString => None
  | String.String c EmptyString => Some c
  | String.String _ s => last_char s
  end.

(** [PathBuf::push]: an absolute argument replaces the path; otherwise a
    separator is added when the path does not end in one. *)
Definition path_push (p q : string) : string :=
  if is_absolute q then q
  else match last_char p with
       | None => q
       | Some c => if Ascii.eqb c slash then p +:+ q else p +:+ "/" +:+ q
       end.

(** The file a path names: its components, with [.] and empty components
    dropped and [..] leading to the parent. *)
Definition resolve_step (acc : list string) (c : string) : list string :=
  if String.eqb c "" then acc
  else if String.eqb c "." then acc
  else if String.eqb c ".." then take (pred (length acc)) acc
  else acc ++ [c].

Definition resolve (p : string) : list string := foldl resolve_step [] (split_on slash p).

(** A component that names an entry of the directory it is looked up in. *)
Definition plain_component (c : string) : bool :=
  negb (String.eqb c "") && negb (String.eqb c ".") && negb (String.eqb c "..") && no_char slash c.

Lemma resolve_step_plain acc c : plain_component c = true -> resolve_step acc c = acc ++ [c].
Proof.
  unfold plain_component, resolve_step. intros H.
  destruct (String.eqb c ""), (String.eqb c "."), (String.eqb c ".."); done.
Qed.

Lemma plain_no_slash c : plain_component c = true -> no_char slash c = true.
Proof. unfold plain_component. intros H. now apply andb_prop in H as [_ ?]. Qed.

Lemma plain_not_absolute c : plain_component c = true -> is_absolute c = false.
Proof.
  intros H%plain_no_slash. destruct c as [|a c]; cbn; [done|].
  unfold no_char in H. cbn in H. apply andb_prop in H as [H _].
  rewrite negb_true_iff in H. now rewrite Ascii.eqb_sym.
Qed.

Lemma split_on_snoc p c q :
  no_char c q = true ->
  exists l, split_on c (p +:+ String.String c q) = l ++ [q] /\
            foldl resolve_step [] l = foldl resolve_step [] (split_on c p).
Proof.
  intros Hq. enough (split_on c (p +:+ String.String c q) = split_on c p ++ [q]) as ->.
  { eexists. split; reflexivity. }
  induction p as [|a p IH]; cbn.
  - rewrite Ascii.eqb_refl. now rewrite split_on_none.
  - rewrite IH. destruct (Ascii.eqb c a); [done|].
    destruct (split_on_cons c p) as (x & l & ->). done.
Qed.

Lemma resolve_snoc p q :
  plain_component q = true -> resolve (p +:+ String.String slash q) = resolve p ++ [q].
Proof.
  intros Hq. unfold resolve.
  destruct (split_on_snoc p slash q (plain_no_slash _ Hq)) as (l & -> & Hl).
  rewrite foldl_app, Hl. cbn. now apply resolve_step_plain.
Qed.

Lemma last_char_snoc p c : last_char p = Some c -> exists p', p = p' +:+ String.String c "".
Proof.
  induction p as [|a p IH]; cbn; [done|]. destruct p as [|b p].
  - intros [= ->]. now exists "".
  - intros H. destruct (IH H) as (p' & Hp'). exists (String.String a p'). cbn. now rewrite Hp'.
Qed.

Lemma last_char_None p : last_char p = None -> p = "".
Proof.
  induction p as [|a p IH]; [done|]. destruct p as [|b p]; [done|].
  intros H. now specialize (IH H).
Qed.

Lemma resolve_trailing p : resolve (p +:+ "/") = resolve p.
Proof.
  unfold resolve. destruct (split_on_snoc p slash "" eq_refl) as (l & E & Hl).
  change (p +:+ "/")%string with (p +:+ String.String slash ""). rewrite E, foldl_app, Hl. done.
Qed.

(** Pushing a plain component goes one level down, whatever the path was. *)
Lemma resolve_push p q :
  plain_component q = true -> resolve (path_push p q) = resolve p ++ [q].
Proof.
  intros Hq. unfold path_push. rewrite (plain_not_absolute _ Hq).
  destruct (last_char p) as [c|] eqn:Hp.
  - destruct (Ascii.eqb_spec c slash) as [->|_]; [|apply (resolve_snoc p q Hq)].
    destruct (last_char_snoc _ _ Hp) as (p' & ->).
    rewrite app_string_assoc. cbn. rewrite (resolve_snoc p' q Hq).
    now rewrite <- (resolve_trailing p').
  - apply last_char_None in Hp as ->.
    unfold resolve at 1. rewrite (split_on_none _ _ (plain_no_slash _ Hq)). cbn.
    now apply resolve_step_plain.
Qed.

(** [Path::file_stem] and [Path::extension] of a file name: the parts around
    the last dot, unless that dot is the first character. *)
Fixpoint rsplit_dot (s : string) : option (string * string) :=
  match s with
  | EmptyString => None
  | String.String c r =>
      match rsplit_dot r with
      | Some (b, a) => Some (String.String c b, a)
      | None => if Ascii.eqb c "." then Some ("", r) else None
      end
  end.

Definition file_stem_extension (name : string) : string * option string :=
  match rsplit_dot name with
  | Some (String.String c b, a) => (String.String c b, Some a)
  | _ => (name, None)
  end.

Lemma rsplit_dot_none s : no_char "." s = true -> rsplit_dot s = None.
Proof.
  induction s as [|c s IH]; [done|]. unfold no_char in *. cbn [all_chars rsplit_dot].
  intros [Hc Hs]%andb_prop. rewrite (IH Hs), Ascii.eqb_sym. apply negb_true_iff in Hc. now rewrite Hc.
Qed.

Lemma rsplit_dot_app b a : no_char "." a = true -> rsplit_dot (b +:+ String.String "." a) = Some (b, a).
Proof.
  intros Ha. induction b as [|c b IH]; cbn [String.append rsplit_dot].
  - now rewrite rsplit_dot_none.
  - now rewrite IH.
Qed.

(** [Path::components]: empty components are dropped, and [.] too except as
    the first component of a relative path. *)
Definition path_components (p : string) : list string :=
  let keep c := negb (String.eqb c "") && negb (String.eqb c ".") in
  match split_on slash p with
  | c :: l => if String.eqb c "." then c :: base.filter keep l else base.filter keep (c :: l)
  | [] => []
  end.

(** [Path::parent]: nothing above the root or the empty path. *)
Definition path_parent (p : string) : option string :=
  match rev (path_components p) with
  | [] => None
  | _ :: l => Some ((if is_absolute p then "/" else "") +:+ join_with slash (rev l))
  end.

(** ** Files *)
Record Fs := {
  files : gmap (list string) bytes;
  dirs : gset (list string);
}.

#[global] Instance Fs_eq_dec : EqDecision Fs.
Proof. solve_decision. Defined.

(** What the disk does beyond the contents of its files: the operations that
    fail, where the creation of a chain of directories stops when it fails, and
    how many bytes reach a file when writing to it fails on the way ([None] if
    that write completes). *)
Class Disk := {
  disk_fault : string -> list string -> bool;
  made : list string -> nat;
  written : list string -> bytes -> option nat;
}.

Definition is_dir (fs : Fs) (p : list string) : bool := bool_decide (p = [] \/ p ∈ dirs fs).
Definition is_file (fs : Fs) (p : list string) : bool := bool_decide (is_Some (files fs !! p)).

(** The ancestors of a path, itself included. *)
Definition prefixes (p : list string) : list (list string) :=
  map (fun n => take n p) (seq 0 (S (length p))).
Arguments prefixes : simpl never.

Section FsOps.
Context `{D : Disk}.

(** [Path::exists]. *)
Definition path_exists (fs : Fs) (p : string) : bool :=
  is_dir fs (resolve p) || is_file fs (resolve p).

Definition add_dirs (q : list string) (fs : Fs) : Fs :=
  {| files := files fs; dirs := dirs fs ∪ list_to_set (prefixes q) |}.

(** [create_dir_all].  When it fails, some of the directories above the last one
    may have been created. *)
Definition create_dir_all (p : string) : st Fs anyhow unit := fun fs =>
  let q := resolve p in
  if existsb (is_file fs) (prefixes q) then (fs, Err "io")
  else if disk_fault "mkdir" q then (add_dirs (take (Nat.min (made q) (pred (length q))) q) fs, Err "io")
  else (add_dirs q fs, Ok tt).

(** The name of a path in a directory, when it is an entry of it. *)
Definition entry_of (d p : list string) : option string :=
  if decide (p <> [] /\ take (pred (length p)) p = d) then list.last p else None.

(** [fs::read_dir]: the names of the entries, in no particular order. *)
Definition fs_read_dir (p : string) : st Fs anyhow (list string) := fun fs =>
  let q := resolve p in
  if disk_fault "readdir" q then (fs, Err "io")
  else if negb (is_dir fs q) then (fs, Err "io")
  else (fs, Ok (omap (M := list) (entry_of q) (map fst (map_to_list (files fs)) ++ elements (dirs fs)))).

(** [fs::read]. *)
Definition fs_read (p : string) : st Fs anyhow bytes := fun fs =>
  let q := resolve p in
  if disk_fault "read" q then (fs, Err "io")
  else (fs, ok_or "io" (files fs !! q)).

Definition put (q : list string) (data : bytes) (fs : Fs) : Fs :=
  {| files := <[q := data]> (files fs); dirs := dirs fs |}.

(** [write_all] on an open file: the bytes that reach it if it fails, fewer than
    all. *)
Definition torn (q : list string) (data : bytes) : option bytes :=
  n ← written q data;
  if disk_fault "write_all" q && (n <? length data)%nat then Some (take n data) else None.

(** [fs::write]: the file, in an existing directory, is created or truncated
    and then written.  If opening it fails nothing has changed; if writing fails
    the old content is gone and only a part of the new one is there. *)
Definition fs_write (p : string) (data : bytes) : st Fs anyhow unit := fun fs =>
  let q := resolve p in
  if disk_fault "write" q then (fs, Err "io")
  else if is_dir fs q then (fs, Err "io")
  else if negb (is_dir fs (take (pred (length q)) q)) then (fs, Err "io")
  else match torn q data with
       | Some part => (put q part fs, Err "io")
       | None => (put q data fs, Ok tt)
       end.

(** [tempdir_in]: a new directory under a random name that is not taken. *)
Definition tempdir_in (dir name : string) : st Fs anyhow string := fun fs =>
  let p := path_push dir name in
  let q := resolve p in
  if disk_fault "mkdir" q || negb (is_dir fs (take (pred (length q)) q)) || path_exists fs p then (fs, Err "io")
  else ({| files := files fs; dirs := {[ q ]} ∪ dirs fs |}, Ok p).

(** Dropping a [TempDir] removes the directory and all below it, and ignores an
    error. *)
Definition drop_tempdir (p : string) (fs : Fs) : Fs :=
  let q := resolve p in
  if disk_fault "rmdir" q then fs
  else {| files := base.filter (fun kv => ~ take (length q) (fst kv) = q) (files fs);
          dirs := base.filter (fun d => ~ take (length q) d = q) (dirs fs) |}.

Definition with_tempdir {S A} (get : S -> Fs) (set : Fs -> S -> S) (dir name : string)
    (f : string -> st S anyhow A) : st S anyhow A := fun s =>
  match tempdir_in dir name (get s) with
  | (fs', Ok p) => let '(s', r) := f p (set fs' s) in (set (drop_tempdir p (get s')) s', r)
  | (fs', Err e) => (set fs' s, Err e)
  | (fs', Panic) => (set fs' s, Panic)
  end.
End FsOps.

Lemma is_dir_spec fs p : is_dir fs p = true <-> p = [] \/ p ∈ dirs fs.
Proof. unfold is_dir. now rewrite bool_decide_eq_true. Qed.

Lemma is_file_spec fs p : is_file fs p = true <-> is_Some (files fs !! p).
Proof. unfold is_file. now rewrite bool_decide_eq_true. Qed.

Lemma elem_of_prefixes p q : q ∈ prefixes p <-> exists n, q = take n p.
Proof.
  unfold prefixes. rewrite list_elem_of_fmap. setoid_rewrite elem_of_seq. split.
  - intros (n & -> & _). eauto.
  - intros (n & ->). destruct (decide (n <= length p)%nat).
    + exists n. split; [done|lia].
    + exists (length p). split; [|lia]. rewrite !take_ge; [done|lia..].
Qed.

Lemma pred_snoc {A} (l : list A) x : take (pred (length (l ++ [x]))) (l ++ [x]) = l.
Proof.
  rewrite length_app. cbn. replace (pred (length l + 1)) with (length l) by lia.
  apply take_app_length.
Qed.

Lemma prefixes_no_file fs p :
  (forall n, files fs !! take n p = None) -> existsb (is_file fs) (prefixes p) = false.
Proof.
  intros H. apply not_true_is_false. intros E. apply existsb_exists in E as (q & Hq & Hf).
  apply list_elem_of_In, elem_of_prefixes in Hq as (n & ->).
  apply is_file_spec in Hf as [b Hb]. now rewrite H in Hb.
Qed.

(** ** What a successful operation did *)
Section FsLemmas.
Context `{D : Disk}.

Lemma torn_Some q data part :
  torn q data = Some part -> exists n, (n < length data)%nat /\ part = take n data.
Proof.
  unfold torn. intros H. apply bind_Some in H as (n & _ & H).
  destruct (_ && _) eqn:E; [|done]. apply andb_prop in E as [_ E%Nat.ltb_lt].
  injection H as <-. eauto.
Qed.

Lemma torn_good q data : disk_fault "write_all" q = false -> torn q data = None.
Proof. unfold torn. intros ->. now destruct (written q data). Qed.

Lemma fs_write_Ok p data fs fs' u :
  fs_write p data fs = (fs', Ok u) -> fs' = put (resolve p) data fs.
Proof. unfold fs_write. intros H. repeat case_match; simplify_eq; done. Qed.

(** A write that failed changed nothing or left a proper part of the data. *)
Definition half_written (q : list string) (data : bytes) (fs fs' : Fs) : Prop :=
  exists n, (n < length data)%nat /\ fs' = put q (take n data) fs.

Lemma fs_write_fail p data fs fs' r :
  fs_write p data fs = (fs', r) -> is_ok r = false ->
  r <> Panic /\ (fs' = fs \/ half_written (resolve p) data fs fs').
Proof.
  unfold fs_write. intros H Hr. repeat case_match; simplify_eq; try (split; [done|now left]).
  split; [done|right]. match goal with E : torn _ _ = Some _ |- _ => apply torn_Some in E as (n & Hn & ->) end. now exists n.
Qed.

Lemma fs_write_error p data fs fs' e : fs_write p data fs = (fs', Err e) -> e = "io".
Proof. unfold fs_write. intros H. repeat case_match; simplify_eq; done. Qed.

(** Whatever its outcome, a write touches its file only. *)
Lemma fs_write_touches p data fs fs' r :
  fs_write p data fs = (fs', r) ->
  dirs fs' = dirs fs /\ forall q, q <> resolve p -> files fs' !! q = files fs !! q.
Proof.
  unfold fs_write. intros H. repeat case_match; simplify_eq; try done; (split; [done|]);
    intros q Hq; cbn; now rewrite lookup_insert_ne.
Qed.

Lemma fs_write_empty p fs fs' r :
  fs_write p [] fs = (fs', r) -> is_ok r = false -> fs' = fs /\ r <> Panic.
Proof. intros H Hr. destruct (fs_write_fail _ _ _ _ _ H Hr) as (Hp & [->|(n & Hn & _)]); [done|cbn in Hn; lia]. Qed.

Lemma fs_read_spec p fs :
  disk_fault "read" (resolve p) = false -> fs_read p fs = (fs, ok_or "io" (files fs !! resolve p)).
Proof. unfold fs_read. now intros ->. Qed.

Lemma fs_read_Ok p fs fs' data :
  fs_read p fs = (fs', Ok data) -> fs' = fs /\ files fs !! resolve p = Some data.
Proof. unfold fs_read, ok_or. repeat case_match; naive_solver. Qed.

Lemma fs_read_dir_Ok p fs fs' l :
  fs_read_dir p fs = (fs', Ok l) ->
  fs' = fs /\ (forall n data, files fs !! (resolve p ++ [n]) = Some data -> n ∈ l).
Proof.
  unfold fs_read_dir. repeat case_match; intros; simplify_eq. split; [done|].
  intros n data Hn. apply list_elem_of_omap. exists (resolve p ++ [n]). split.
  - apply elem_of_app. left. apply list_elem_of_fmap. exists (resolve p ++ [n], data).
    split; [done|]. now apply elem_of_map_to_list.
  - unfold entry_of. rewrite decide_True; [apply list.last_snoc|].
    split; [now destruct (resolve p)|apply pred_snoc].
Qed.

Lemma create_dir_all_files p fs fs' r :
  create_dir_all p fs = (fs', r) -> files fs' = files fs /\ r <> Panic.
Proof. unfold create_dir_all. intros H. repeat case_match; simplify_eq; done. Qed.

(** The directories that are added are above the named one. *)
Lemma create_dir_all_dirs p fs fs' r :
  create_dir_all p fs = (fs', r) ->
  exists n, dirs fs' = dirs fs \/ dirs fs' = dirs fs ∪ list_to_set (prefixes (take n (resolve p))).
Proof.
  unfold create_dir_all. intros H. repeat case_match; simplify_eq.
  - exists 0%nat. now left.
  - eexists. now right.
  - exists (length (resolve p)). right. cbn. now rewrite take_ge.
Qed.
End FsLemmas.

(** ** Temporary directories *)
(** Directories and files lie in directories. *)
Definition fs_tree (fs : Fs) : Prop :=
  forall q x, is_Some (files fs !! (q ++ [x])) \/ q ++ [x] ∈ dirs fs -> is_dir fs q = true.

Lemma nothing_below fs q p :
  fs_tree fs -> q <> [] -> is_dir fs q = false -> files fs !! q = None ->
  files fs !! (q ++ p) = None /\ q ++ p ∉ dirs fs.
Proof.
  intros Ht Hq Hd Hf. induction p as [|x p IH] using rev_ind.
  - rewrite app_nil_r. split; [done|]. intros Hin. apply not_true_iff_false in Hd. apply Hd, is_dir_spec. now right.
  - assert (Hn : is_dir fs (q ++ p) = false).
    { apply not_true_iff_false. intros [E|E]%is_dir_spec; [now apply app_eq_nil in E as []|now destruct IH]. }
    rewrite app_assoc. apply not_true_iff_false in Hn.
    split; [apply eq_None_not_Some; intros Hs|intros Hs]; apply Hn, (Ht _ x); auto.
Qed.

(** Two file systems with the same files and directories. *)
Definition fs_equiv (fs fs' : Fs) : Prop :=
  files fs' = files fs /\ forall p, is_dir fs' p = is_dir fs p.

#[global] Instance fs_equiv_equivalence : Equivalence fs_equiv.
Proof.
  unfold fs_equiv. split.
  - now intros fs.
  - intros fs fs' [Hf Hd]. split; [now symmetry|]. intros p. now rewrite Hd.
  - intros fs1 fs2 fs3 [Hf Hd] [Hf' Hd']. split; [congruence|]. intros p. now rewrite Hd', Hd.
Qed.

(** All changes are at or below a path. *)
Definition below (q p : list string) : Prop := take (length q) p = q.

#[global] Instance below_dec q p : Decision (below q p).
Proof. unfold below. apply _. Defined.

Definition changes_below (q : list string) (fs fs' : Fs) : Prop :=
  forall p, ~ below q p -> files fs' !! p = files fs !! p /\ is_dir fs' p = is_dir fs p.

Lemma changes_below_refl q fs : changes_below q fs fs.
Proof. now intros p. Qed.

Lemma changes_below_trans q fs1 fs2 fs3 :
  changes_below q fs1 fs2 -> changes_below q fs2 fs3 -> changes_below q fs1 fs3.
Proof. intros H1 H2 p Hp. destruct (H1 p Hp), (H2 p Hp). split; congruence. Qed.

Lemma below_app q p : below q (q ++ p).
Proof. unfold below. now rewrite take_app_length. Qed.

Section Tempdirs.
Context `{D : Disk}.

Lemma fs_read_same p fs fs' r : fs_read p fs = (fs', r) -> fs' = fs /\ r <> Panic.
Proof. unfold fs_read, ok_or. repeat case_match; intros; simplify_eq; done. Qed.

(** Dropping a temporary directory removes it with all below it, and nothing
    else. *)
Lemma drop_tempdir_spec fs q p :
  q <> [] -> resolve p = q -> disk_fault "rmdir" q = false ->
  changes_below q fs (drop_tempdir p fs) /\
  forall x, below q x -> files (drop_tempdir p fs) !! x = None /\ is_dir (drop_tempdir p fs) x = false.
Proof.
  intros Hq Hp Hr. unfold drop_tempdir, changes_below, below. rewrite Hp, Hr. cbn [files]. split; intros x Hx.
  - split.
    + rewrite map_lookup_filter. destruct (files fs !! x); [|done]. cbn. now rewrite option_guard_True.
    + apply eq_iff_eq_true. rewrite !is_dir_spec. cbn [dirs]. rewrite elem_of_filter. tauto.
  - split.
    + apply map_lookup_filter_None. right. intros d _. cbn. tauto.
    + apply not_true_iff_false. rewrite is_dir_spec. cbn [dirs]. rewrite elem_of_filter.
      intros [E|[H _]]; [|tauto]. rewrite E, take_nil in Hx. now symmetry in Hx.
Qed.

(** Dropping a temporary directory undoes all that happened below it. *)
Lemma drop_restores fs fs' q p :
  fs_tree fs -> q <> [] -> resolve p = q -> is_dir fs q = false -> files fs !! q = None ->
  disk_fault "rmdir" q = false -> changes_below q fs fs' -> fs_equiv fs (drop_tempdir p fs').
Proof.
  intros Ht Hq Hp Hd Hf Hr Hc. unfold drop_tempdir. rewrite Hp, Hr.
  assert (Hb : forall x, below q x -> files fs !! x = None /\ is_dir fs x = false).
  { intros x Hx. rewrite <- (take_drop (length q) x), Hx. destruct (nothing_below fs q (drop (length q) x)) as [H1 H2]; try done.
    split; [done|]. apply not_true_iff_false. intros [E|E]%is_dir_spec; [|done]. now apply app_eq_nil in E as []. }
  split; cbn [files].
  - apply map_eq. intros x. destruct (decide (take (length q) x = q)) as [Hx|Hx].
    + rewrite (proj1 (Hb x Hx)). apply map_lookup_filter_None. right. intros d _. cbn. tauto.
    + transitivity (files fs' !! x); [|now apply Hc]. rewrite map_lookup_filter.
      destruct (files fs' !! x); [|done]. cbn. now rewrite option_guard_True.
  - intros x. apply eq_iff_eq_true. rewrite !is_dir_spec. cbn [dirs]. rewrite elem_of_filter.
    destruct (decide (take (length q) x = q)) as [Hx|Hx].
    + destruct (Hb x Hx) as [_ Hnd]. apply not_true_iff_false in Hnd. rewrite is_dir_spec in Hnd. tauto.
    + destruct (Hc x Hx) as [_ Hdx]. apply eq_iff_eq_true in Hdx. rewrite !is_dir_spec in Hdx. tauto.
Qed.

Lemma tempdir_in_spec dir name fs fs' r :
  plain_component name = true -> tempdir_in dir name fs = (fs', r) ->
  let q := resolve dir ++ [name] in
  r <> Panic /\
  (forall p, r = Ok p -> resolve p = q /\ p = path_push dir name /\ is_dir fs (resolve dir) = true /\ is_dir fs q = false /\ files fs !! q = None /\
     fs' = {| files := files fs; dirs := {[ q ]} ∪ dirs fs |}) /\
  (is_ok r = false -> fs' = fs).
Proof.
  intros Hn Ht q. unfold tempdir_in in Ht. rewrite resolve_push in Ht by done. fold q in Ht.
  destruct (disk_fault "mkdir" q || _ || path_exists _ _) eqn:E; injection Ht as <- <-; [done|].
  split; [done|]. split; [|done]. intros p [= <-]. rewrite resolve_push by done.
  apply orb_false_iff in E as [E0 E]. apply orb_false_iff in E0 as [_ E0]. unfold q in E0. rewrite pred_snoc in E0.
  apply negb_false_iff in E0. unfold path_exists in E. rewrite resolve_push in E by done. fold q in E.
  apply orb_false_iff in E as [E1 E2]. split_and!; try done.
  apply eq_None_not_Some. intros Hs%is_file_spec. congruence.
Qed.

Lemma tempdir_changes q fs : changes_below q fs {| files := files fs; dirs := {[ q ]} ∪ dirs fs |}.
Proof.
  intros x Hx. split; [done|]. apply eq_iff_eq_true. rewrite !is_dir_spec. cbn [dirs].
  rewrite elem_of_union, elem_of_singleton. destruct (decide (x = q)) as [->|]; [|tauto].
  destruct Hx. rewrite <- (app_nil_r q) at 2. apply below_app.
Qed.

(** Work that stays below a temporary directory leaves no trace. *)
Lemma with_tempdir_restores {S A} (get : S -> Fs) (set : Fs -> S -> S) dir name (f : string -> st S anyhow A) s s' r :
  (forall fs s, get (set fs s) = fs) ->
  let q := resolve dir ++ [name] in
  let fs1 := {| files := files (get s); dirs := {[ q ]} ∪ dirs (get s) |} in
  fs_tree (get s) -> plain_component name = true -> (forall q, disk_fault "rmdir" q = false) ->
  (forall p s2 r, resolve p = q -> p = path_push dir name -> is_dir (get s) (resolve dir) = true ->
     f p (set fs1 s) = (s2, r) -> changes_below q fs1 (get s2) /\ r <> Panic) ->
  with_tempdir get set dir name f s = (s', r) -> fs_equiv (get s) (get s') /\ r <> Panic.
Proof.
  intros Hgs q fs1 Ht Hn Hr Hf. unfold with_tempdir. destruct (tempdir_in dir name (get s)) as [fs2 r1] eqn:E1.
  destruct (tempdir_in_spec _ _ _ _ _ Hn E1) as (Hp & Hok & Hfail).
  destruct r1 as [d|e|]; [|intros [= <- <-]; rewrite Hgs; now rewrite Hfail|done].
  destruct (Hok d eq_refl) as (Hd & Hdp & Hpar & Hnd & Hnf & ->). fold q fs1. destruct (f d _) as [s2 r2] eqn:E2.
  destruct (Hf _ _ _ Hd Hdp Hpar E2) as [Hc Hp2]. intros [= <- <-]. rewrite Hgs. split; [|done].
  apply (drop_restores (get s) (get s2) q); try done; [unfold q; now destruct (resolve dir)|].
  eapply changes_below_trans; [apply tempdir_changes|exact Hc].
Qed.
End Tempdirs.
