(* ===== verification/Json.v ===== *)
(** * Reading JSON documents

    [serde_json::Value::pointer] (RFC 6901) and [Index] by a key, as the
    policy engine, the token verifier and the brokers use them. *)
From S2P Require Import Prelude Types Text Fs.

(** A reference token of a pointer: [~1] stands for a slash, [~0] for a tilde.
    The source replaces all [~1] first, then all [~0]. *)
Fixpoint replace_tilde (d : ascii) (t s : string) : string :=
  match s with
  | String.String a ((String.String b s') as r) =>
      if Ascii.eqb a "~" && Ascii.eqb b d then t +:+ replace_tilde d t s'
      else String.String a (replace_tilde d t r)
  | _ => s
  end.

Definition unescape_token (s : string) : string :=
  replace_tilde "0" "~" (replace_tilde "1" "/" s).

(** [parse_index]: decimal digits, no leading zero, no sign. *)
Fixpoint decimal (acc : Z) (s : string) : option Z :=
  match s with
  | EmptyString => Some acc
  | String.String c s =>
      let d := Z.of_N (N_of_ascii c) - 48 in
      if between 0 9 d then decimal (acc * 10 + d) s else None
  end.

Definition parse_index (s : string) : option Z :=
  match s with
  | EmptyString => None
  | String.String c r =>
      if Ascii.eqb c "0" && negb (String.eqb r "") then None
      else i ← decimal 0 s; if i <? 2 ^ 64 then Some i else None
  end.

Definition pointer_step (v : Value) (tok : string) : option Value :=
  match v with
  | VObject m => obj_get tok m
  | VArray l => i ← parse_index tok; l !! Z.to_nat i
  | _ => None
  end.

Fixpoint pointer_walk (v : Value) (toks : list string) : option Value :=
  match toks with
  | [] => Some v
  | t :: toks => v' ← pointer_step v t; pointer_walk v' toks
  end.

(** [Value::pointer]. *)
Definition pointer (p : string) (v : Value) : option Value :=
  if String.eqb p "" then Some v
  else if negb (is_absolute p) then None
  else pointer_walk v (map unescape_token (tail (split_on slash p))).

(** [Value::get] with a key. *)
Definition value_get (key : string) (v : Value) : option Value :=
  match v with
  | VObject m => obj_get key m
  | _ => None
  end.

(** ** White space *)

(** [char::is_whitespace] and [str::trim]. *)
Definition is_whitespace (c : Z) : bool :=
  between 9 13 c || (c =? 32) || (c =? 0x85) || (c =? 0xA0) || (c =? 0x1680) ||
  between 0x2000 0x200A c || (c =? 0x2028) || (c =? 0x2029) || (c =? 0x202F) ||
  (c =? 0x205F) || (c =? 0x3000).
Fixpoint drop_while {A} (f : A -> bool) (l : list A) : list A :=
  match l with
  | x :: l' => if f x then drop_while f l' else l
  | [] => []
  end.
Definition trim (s : string) : string :=
  match utf8_chars (str_bytes s) with
  | Some cs => string_of_chars (rev (drop_while is_whitespace (rev (drop_while is_whitespace cs))))
  | None => s
  end.

(** [str::trim_end]. *)
Definition trim_end (s : string) : string :=
  match utf8_chars (str_bytes s) with
  | Some cs => string_of_chars (rev (drop_while is_whitespace (rev cs)))
  | None => s
  end.

(** ** Text is kept as it is read *)
Lemma from_utf8_bytes b text : from_utf8 b = Some text -> str_bytes text = b.
Proof.
  unfold from_utf8, str_bytes. destruct (utf8_valid b); [|done]. intros [= <-].
  apply list_byte_of_string_of_list_byte.
Qed.

(** ** Decimal numbers are read back *)
Lemma decimal_digit d s a :
  0 <= d < 10 -> decimal a (String.String (digit_char false d) s) = decimal (a * 10 + d) s.
Proof.
  intros Hd. cbn [decimal]. unfold digit_char. rewrite (proj2 (Z.ltb_lt d 10)) by lia.
  rewrite N_ascii_embedding by lia. rewrite Z2N.id by lia.
  replace (48 + d - 48) with d by lia. now rewrite (proj2 (between_spec 0 9 d)) by lia.
Qed.

Lemma decimal_digits fuel n s :
  0 <= n < 10 ^ Z.of_nat fuel -> (0 < fuel)%nat -> decimal 0 (digits fuel false 10 n s) = decimal n s.
Proof.
  revert n s. induction fuel as [|fuel IH]; intros n s Hn Hf; [lia|]. cbn [digits].
  pose proof (Z.mod_pos_bound n 10 ltac:(lia)). pose proof (Z.div_mod n 10 ltac:(lia)).
  destruct (Z.eqb_spec (n / 10) 0) as [Hz|Hz].
  - rewrite decimal_digit by lia. f_equal. lia.
  - assert (Hq : 0 < n / 10) by (pose proof (Z.div_pos n 10); lia).
    destruct fuel as [|fuel]; [cbn in Hn; lia|].
    rewrite IH; [|rewrite Nat2Z.inj_succ, Z.pow_succ_r in Hn by lia; lia|lia].
    rewrite decimal_digit by lia. f_equal. lia.
Qed.

Lemma fmt_dec_inj a b : 0 <= a < 2 ^ 63 -> 0 <= b < 2 ^ 63 -> fmt_dec a = fmt_dec b -> a = b.
Proof.
  intros Ha Hb E. apply (f_equal (decimal 0)) in E. unfold fmt_dec in E.
  rewrite !decimal_digits in E by (cbn; lia). cbn in E. now injection E.
Qed.
