(* ===== verification/Policy.v ===== *)
(** * The KBS resource policy engine ([kbs/src/policy_engine/])

    The engine keeps one Rego policy in a file.  [set_policy] validates and
    replaces it, [get_policy] reads it back, [evaluate] asks it whether the
    claims of a token give access to a path.  The Rego interpreter
    ([regorus]) and [base64] are parameters. *)
From S2P Require Import Prelude Types Text Fs Json.

#[local] Arguments String.append !_ _ / : simpl nomatch.

Definition DEFAULT_POLICY_PATH : string := "/opt/confidential-containers/kbs/policy.rego".

Inductive KbsPolicyEngineError :=
| EvaluationError (source : anyhow)
| DataLoadError
| ResourcePathError
| IOError (source : anyhow)
| DecodeError
| InputError
| PolicyLoadError
| IllegalSetPolicyRequest (reason : string)
| InvalidPolicy (source : anyhow).

Record PolicyEngineConfig := { policy_path : string }.

Definition policy_engine_config_default : PolicyEngineConfig :=
  {| policy_path := DEFAULT_POLICY_PATH |}.

(** ** The crates the engine calls *)
Class PolicyCrates := {
  (** a parsed Rego module *)
  rego_module : Type;
  (** [Engine::add_policy] on a new engine: the parsed text *)
  rego_parse : string -> option rego_module;
  (** [regorus::Value::from_json_str], also used by [set_input_json] *)
  rego_from_json : string -> option Value;
  (** [Engine::add_data] on an engine without data *)
  rego_add_data : Value -> bool;
  (** [Engine::eval_bool_query] for a module, its data and its input *)
  rego_eval_bool : rego_module -> Value -> Value -> string -> option bool;
  (** [serde_json::from_slice::<Value>] *)
  json_from_slice : bytes -> option Value;
  (** [base64], URL-safe alphabet without padding *)
  base64_url_decode : string -> option bytes;
  base64_url_encode : bytes -> string;
}.

(** What the crates promise. *)
Definition json_plain (c : ascii) : bool :=
  let n := N_of_ascii c in
  (32 <=? n)%N && (n <? 127)%N && negb (n =? 34)%N && negb (n =? 92)%N.

Definition dquote : string := String.String "034" "".

(** [format!("{{\"resource-path\":\"{}\"}}", resource_path)]. *)
Definition resource_path_json (resource_path : string) : string :=
  "{" +:+ dquote +:+ "resource-path" +:+ dquote +:+ ":" +:+ dquote +:+ resource_path +:+ dquote +:+ "}".

(** The data document that binds [resource-path] to a path. *)
Definition resource_path_data (resource_path : string) : Value :=
  VObject [("resource-path", VString resource_path)].

Class PolicyCratesSpec (C : PolicyCrates) : Prop := {
  (** the decoder accepts canonical encodings only, and inverts the encoder *)
  base64_url_canonical : forall s b, base64_url_decode s = Some b -> base64_url_encode b = s;
  base64_url_roundtrip : forall b, base64_url_decode (base64_url_encode b) = Some b;
  (** a JSON string of printable characters that need no escape denotes them *)
  rego_from_json_plain : forall p, all_chars json_plain p = true ->
    rego_from_json (resource_path_json p) = Some (resource_path_data p);
  (** an object can be added to an engine without data *)
  rego_add_data_object : forall m, rego_add_data (VObject m) = true;
}.

(** [include_str!("default_policy.rego")]; a caret stands for the double quote. *)
Definition default_policy : string := replace_char "^" dquote
"# Resource Policy
# ---------------
#
# The resource policy of KBS is to make a strategic decision on
# whether the requester has access to resources based on the
# input Attestation Claims (including tee-pubkey, tcb-status, and other information)
# and KBS Resource Path.
#
# The format of the resource path data is:
# ```
# {
# 	  ^resource-path^: <PATH>
# }
# ```
#
# The <PATH> variable is a KBS resource path,
# which is required to be a string in three segment path format:<TOP>/<MIDDLE>/<TAIL>,
# for example: ^repo/License/key^.
#
# The format of Attestation Claims Input is defined by the attestation service,
# and its format may look like the following:
# ```
# {
#     ^tee-pubkey^: ^^,
#     ^tcb-status^: {
#         ^productId^: “”,
#         ^svn^: “”,
# 		  ……
#     }
#	  ……
# }
# ```

package policy

default allow = false

allow {
	not input[^submods^][^cpu0^][^ear.veraison.annotated-evidence^][^sample^]
}

".

(** ** [opa::Opa] *)
Record Opa := { opa_policy_path : string }.

Section Engine.
Context `{D : Disk} `{C : PolicyCrates}.

Definition opa_new (policy_path : string) : st Fs KbsPolicyEngineError Opa :=
  parent ← st_lift (unwrap (path_parent policy_path));
  st_map_err IOError (create_dir_all parent);;
  there ← st_gets (fun fs => path_exists fs policy_path);
  (if there : bool then mret tt
   else st_map_err IOError (fs_write policy_path (str_bytes default_policy)));;
  mret {| opa_policy_path := policy_path |}.

(** [add_policy_from_file] reads the file as text and parses it; every way it
    fails is reported as [PolicyLoadError]. *)
Definition add_policy_from_file (path : string) : st Fs KbsPolicyEngineError rego_module :=
  content ← st_map_err (fun _ => PolicyLoadError) (fs_read path);
  text ← st_lift (ok_or PolicyLoadError (from_utf8 content));
  st_lift (ok_or PolicyLoadError (rego_parse text)).

Definition opa_evaluate (o : Opa) (resource_path input_claims : string) :
    st Fs KbsPolicyEngineError bool :=
  module ← add_policy_from_file (opa_policy_path o);
  resource_path_object ← st_lift
    (ok_or ResourcePathError (rego_from_json (resource_path_json resource_path)));
  (if rego_add_data resource_path_object then mret tt else st_err DataLoadError);;
  input ← st_lift (ok_or InputError (rego_from_json input_claims));
  st_lift (ok_or (EvaluationError "eval")
    (rego_eval_bool module resource_path_object input "data.policy.allow")).

Definition opa_set_policy (o : Opa) (policy : string) : st Fs KbsPolicyEngineError unit :=
  policy_bytes ← st_lift (ok_or DecodeError (base64_url_decode policy));
  policy_content ← st_lift (ok_or (InvalidPolicy "utf8") (from_utf8 policy_bytes));
  _ ← st_lift (ok_or (InvalidPolicy "parse") (rego_parse policy_content));
  st_map_err IOError (fs_write (opa_policy_path o) policy_bytes).

Definition opa_get_policy (o : Opa) : st Fs KbsPolicyEngineError string :=
  policy ← st_map_err IOError (fs_read (opa_policy_path o));
  mret (base64_url_encode policy).

(** ** [PolicyEngine]: the engine behind a mutex *)
Definition engine_new (config : PolicyEngineConfig) : st Fs KbsPolicyEngineError Opa :=
  opa_new (policy_path config).

Definition engine_evaluate (o : Opa) (request_path input_claims : string) :
    st Fs KbsPolicyEngineError bool :=
  opa_evaluate o request_path input_claims.

Definition engine_set_policy (o : Opa) (request : bytes) : st Fs KbsPolicyEngineError unit :=
  request ← st_lift (ok_or (IllegalSetPolicyRequest "Illegal SetPolicy Request Json")
                      (json_from_slice request));
  field ← st_lift (ok_or (IllegalSetPolicyRequest "No `policy` field inside SetPolicy Request Json")
                    (pointer "/policy" request));
  policy ← st_lift (ok_or (IllegalSetPolicyRequest "`policy` field is not a string in SetPolicy Request Json")
                     (as_str field));
  opa_set_policy o policy.

Definition engine_get_policy (o : Opa) : st Fs KbsPolicyEngineError string := opa_get_policy o.
End Engine.

(** ** Properties *)
Section PolicyProperties.
Context `{D : Disk} `{C : PolicyCrates}.

(** The policy in force: the module the file of the engine parses to. *)
Definition policy_in_force (o : Opa) (fs : Fs) : option rego_module :=
  content ← files fs !! resolve (opa_policy_path o);
  text ← from_utf8 content;
  rego_parse text.

Lemma add_policy_from_file_spec o fs :
  disk_fault "read" (resolve (opa_policy_path o)) = false ->
  add_policy_from_file (opa_policy_path o) fs =
  (fs, ok_or PolicyLoadError (policy_in_force o fs)).
Proof.
  intros Hd. unfold add_policy_from_file, policy_in_force, fs_read. exec. rewrite Hd.
  destruct (files fs !! _) as [c|]; cbn; [|done].
  destruct (from_utf8 c) as [t|]; cbn; [|done]. now destruct (rego_parse t).
Qed.

(** What a request to set the policy submits: the text, its bytes and the module
    they parse to. *)
Definition submitted (req : bytes) : option (string * bytes * rego_module) :=
  v ← json_from_slice req;
  field ← pointer "/policy" v;
  policy ← as_str field;
  b ← base64_url_decode policy;
  text ← from_utf8 b;
  m ← rego_parse text;
  Some (policy, b, m).

Lemma submitted_Some req policy b m :
  submitted req = Some (policy, b, m) <->
  exists v text, json_from_slice req = Some v /\ pointer "/policy" v = Some (VString policy) /\
    base64_url_decode policy = Some b /\ from_utf8 b = Some text /\ rego_parse text = Some m.
Proof.
  unfold submitted. split.
  - intros H. repeat (apply bind_Some in H as (? & ? & H)). injection H as -> -> ->.
    match goal with E : as_str ?f = Some _ |- _ => destruct f; cbn in E; simplify_eq end. eauto 10.
  - intros (v & t & Hv & Hf & Hb & Ht & Hm). cbv [mbind option_bind].
    rewrite Hv, Hf. cbn [as_str]. now rewrite Hb, Ht, Hm.
Qed.

(** The whole operation: what is refused has no effect, what is accepted is
    written. *)
Lemma engine_set_policy_submitted o req fs :
  match submitted req with
  | None => exists e, engine_set_policy o req fs = (fs, Err e) /\ e <> IOError "io"
  | Some (_, b, _) => engine_set_policy o req fs = st_map_err IOError (fs_write (opa_policy_path o) b) fs
  end.
Proof.
  unfold submitted, engine_set_policy, opa_set_policy, mbind, st_bind, option_bind, st_lift.
  destruct (json_from_slice req) as [v|]; [|now eexists]. cbn [ok_or].
  destruct (pointer "/policy" v) as [f|]; [|now eexists]. cbn [ok_or].
  destruct (as_str f) as [p|]; [|now eexists]. cbn [ok_or].
  destruct (base64_url_decode p) as [b|]; [|now eexists]. cbn [ok_or].
  destruct (from_utf8 b) as [t|]; [|now eexists]. cbn [ok_or].
  destruct (rego_parse t) as [m|]; [reflexivity|now eexists].
Qed.

(** Whatever its outcome, an update touches the policy file only. *)
Lemma engine_set_policy_touches o req fs fs' r q :
  engine_set_policy o req fs = (fs', r) -> q <> resolve (opa_policy_path o) -> files fs' !! q = files fs !! q.
Proof.
  intros H Hq. pose proof (engine_set_policy_submitted o req fs) as Hs. rewrite H in Hs.
  destruct (submitted req) as [[[p b] m]|]; [|now destruct Hs as (e & [= -> _] & _)].
  unfold st_map_err in Hs. destruct (fs_write _ b fs) as [fs1 r1] eqn:Ew. injection Hs as -> _.
  now apply (fs_write_touches _ _ _ _ _ Ew).
Qed.

Lemma engine_set_policy_Ok o req fs fs' u :
  engine_set_policy o req fs = (fs', Ok u) ->
  exists v policy b text m,
    json_from_slice req = Some v /\ pointer "/policy" v = Some (VString policy) /\
    base64_url_decode policy = Some b /\ from_utf8 b = Some text /\ rego_parse text = Some m /\
    fs' = put (resolve (opa_policy_path o)) b fs.
Proof.
  intros H. pose proof (engine_set_policy_submitted o req fs) as Hs. rewrite H in Hs.
  destruct (submitted req) as [[[policy b] m]|] eqn:Es; [|now destruct Hs as (e & ? & _)].
  apply submitted_Some in Es as (v & text & H1 & H2 & H3 & H4 & H5).
  symmetry in Hs. apply st_map_err_Ok, fs_write_Ok in Hs. naive_solver.
Qed.

(** C9: an update of the resource policy.  A request that is not acceptable
    (malformed JSON, missing or non-string field, bad base64, text that is not
    UTF-8 or not a Rego policy) is refused and has no effect.  For an acceptable
    one no file but the policy file changes, and either the update succeeds: the
    submitted policy is then the one in force, and with a readable disk
    [get_policy] returns the very string that was sent; or it fails with an I/O
    error: then either nothing has changed, because the file could not be
    opened, or the old policy is gone and the file holds a proper part of the
    new one, because writing it failed.  No update panics. *)
Theorem policy_update_spec (Spec : PolicyCratesSpec C) o req fs fs' r :
  engine_set_policy o req fs = (fs', r) ->
  match submitted req with
  | None => fs' = fs /\ exists e, r = Err e /\ e <> IOError "io"
  | Some (policy, b, m) =>
      (r = Ok tt /\ fs' = put (resolve (opa_policy_path o)) b fs /\ policy_in_force o fs' = Some m /\
       (disk_fault "read" (resolve (opa_policy_path o)) = false -> engine_get_policy o fs' = (fs', Ok policy))) \/
      (r = Err (IOError "io") /\ (fs' = fs \/ half_written (resolve (opa_policy_path o)) b fs fs'))
  end.
Proof.
  intros H. pose proof (engine_set_policy_submitted o req fs) as Hs.
  destruct (submitted req) as [[[policy b] m]|] eqn:Es.
  2: { destruct Hs as (e & He & Hn). rewrite H in He. injection He as -> ->. eauto. }
  apply submitted_Some in Es as (v & text & _ & _ & Hb & Ht & Hm).
  rewrite H in Hs. unfold st_map_err in Hs. destruct (fs_write _ b fs) as [fs1 r1] eqn:Ew. injection Hs as -> ->.
  destruct r1 as [[]|e|]; cbn [map_err].
  - left. apply fs_write_Ok in Ew as ->. do 2 (split; [done|]).
    split. { unfold policy_in_force. cbn [put files]. rewrite lookup_insert_eq. cbn. now rewrite Ht. }
    intros Hd. unfold engine_get_policy, opa_get_policy. exec.
    rewrite (fs_read_spec _ _ Hd). cbn. rewrite lookup_insert_eq. cbn. now rewrite (base64_url_canonical _ _ Hb).
  - right. rewrite (fs_write_error _ _ _ _ _ Ew). split; [done|]. now apply (fs_write_fail _ _ _ _ _ Ew).
  - now destruct (fs_write_fail _ _ _ _ _ Ew eq_refl).
Qed.

(** What a policy decision is made on.  For a path of printable characters
    that need no JSON escape, an evaluation with a readable policy file changes
    nothing and asks the policy in force the query [data.policy.allow], with
    exactly that path as its data and the claims as its input; each stage that
    fails is reported as its own error, and without a valid policy nothing is
    ever allowed. *)
Theorem policy_evaluate_spec (Spec : PolicyCratesSpec C) o path claims fs :
  disk_fault "read" (resolve (opa_policy_path o)) = false ->
  all_chars json_plain path = true ->
  engine_evaluate o path claims fs =
  (fs, match policy_in_force o fs, rego_from_json claims with
       | None, _ => Err PolicyLoadError
       | Some _, None => Err InputError
       | Some m, Some input =>
           ok_or (EvaluationError "eval")
             (rego_eval_bool m (resource_path_data path) input "data.policy.allow")
       end).
Proof.
  intros Hd Hp. unfold engine_evaluate, opa_evaluate. exec.
  rewrite (add_policy_from_file_spec _ _ Hd).
  destruct (policy_in_force o fs) as [m|]; cbn; [|done].
  rewrite (rego_from_json_plain _ Hp). cbn. unfold resource_path_data at 1.
  rewrite rego_add_data_object. cbn. now destruct (rego_from_json claims).
Qed.

(** Starting the engine never overwrites a policy.  If the policy file
    exists its content is kept; otherwise the built-in default policy is
    installed (unless the path is a directory); no other file changes; only a
    path without a parent directory panics. *)
Theorem policy_new_preserves path fs fs' r :
  opa_new path fs = (fs', r) ->
  (r = Panic <-> path_parent path = None) /\
  (forall o, r = Ok o ->
     opa_policy_path o = path /\
     (is_file fs (resolve path) = true -> files fs' = files fs) /\
     (is_file fs (resolve path) = false -> is_dir fs' (resolve path) = false ->
      files fs' = <[resolve path := str_bytes default_policy]> (files fs))).
Proof.
  unfold opa_new. destruct (path_parent path) as [parent|]; [|now intros [= <- <-]].
  exec. destruct (create_dir_all parent fs) as [fs1 r1] eqn:E1.
  destruct (create_dir_all_files _ _ _ _ E1) as [Hf Hn].
  destruct r1 as [[]|e|]; cbn; [|now intros [= <- <-]|done].
  assert (Hi : is_file fs1 (resolve path) = is_file fs (resolve path))
    by (unfold is_file; now rewrite Hf).
  unfold path_exists. rewrite Hi.
  destruct (is_dir fs1 (resolve path)) eqn:Hdir; cbn.
  { intros [= <- <-]. split; [done|]. intros o [= <-]. cbn. now rewrite Hdir. }
  destruct (is_file fs (resolve path)) eqn:Hfile.
  { intros [= <- <-]. split; [done|]. now intros o [= <-]. }
  destruct (fs_write path _ fs1) as [fs2 r2] eqn:E2.
  destruct r2 as [[]|e|]; cbn; intros [= <- <-].
  - apply fs_write_Ok in E2 as ->. split; [done|]. intros o [= <-]. cbn. now rewrite Hf.
  - done.
  - now destruct (fs_write_fail _ _ _ _ _ E2 eq_refl).
Qed.
End PolicyProperties.

(** ** Witnesses *)
Module PolicyDemo.
#[export] Instance good_disk : Disk := {| disk_fault _ _ := false; made _ := 0%nat; written _ _ := None |}.

Definition hex_nibble (n : Z) : ascii := ascii_of_N (Z.to_N (n + 97)).
Fixpoint enc (b : bytes) : string :=
  match b with
  | [] => ""
  | x :: b => String.String (hex_nibble (u8 x / 16)) (String.String (hex_nibble (u8 x mod 16)) (enc b))
  end.
Definition nibble (c : ascii) : option Z :=
  let n := Z.of_N (N_of_ascii c) - 97 in if between 0 15 n then Some n else None.
Fixpoint dec (s : string) : option bytes :=
  match s with
  | EmptyString => Some []
  | String.String a (String.String b r) =>
      x ← nibble a; y ← nibble b; l ← dec r; Some (byte.of_Z (x * 16 + y) :: l)
  | _ => None
  end.

(** A language of two policies, data documents of one key, and a JSON reader
    that takes any other text as a string. *)
Definition data_prefix : string :=
  "{" +:+ dquote +:+ "resource-path" +:+ dquote +:+ ":" +:+ dquote.
Fixpoint drop_last2 (s : string) : string :=
  match s with
  | String.String a ((String.String _ (String.String _ _)) as r) => String.String a (drop_last2 r)
  | _ => ""
  end.
Definition from_json (s : string) : option Value :=
  if String.prefix data_prefix s then
    Some (resource_path_data (drop_last2 (substring (String.length data_prefix) (String.length s) s)))
  else Some (VString s).

#[export] Instance crates : PolicyCrates := {|
  rego_module := bool;
  rego_parse s := if String.eqb s "allow" then Some true
                  else if String.eqb s "deny" then Some false else None;
  rego_from_json := from_json;
  rego_add_data v := match v with VObject _ => true | _ => false end;
  rego_eval_bool m _ _ _ := Some m;
  json_from_slice b := match from_utf8 b with
                       | Some s => Some (VObject [("policy", VString s)])
                       | None => None
                       end;
  base64_url_decode := dec;
  base64_url_encode := enc;
|}.

Lemma nibble_hex n : 0 <= n < 16 -> nibble (hex_nibble n) = Some n.
Proof.
  intros H. unfold nibble, hex_nibble. rewrite N_ascii_embedding by lia.
  rewrite Z2N.id by lia. replace (n + 97 - 97) with n by lia.
  now rewrite (proj2 (between_spec 0 15 n)) by lia.
Qed.

Lemma hex_of_nibble c n : nibble c = Some n -> hex_nibble n = c /\ 0 <= n < 16.
Proof.
  unfold nibble, hex_nibble. destruct (between _ _ _) eqn:E; [|done].
  apply between_spec in E. intros [= <-]. split; [|lia].
  replace (Z.to_N _) with (N_of_ascii c) by lia. apply ascii_N_embedding.
Qed.

Lemma dec_enc b : dec (enc b) = Some b.
Proof.
  induction b as [|x b IH]; [done|]. cbn [enc dec].
  pose proof (u8_range x). pose proof (Z.div_mod (u8 x) 16 ltac:(lia)).
  pose proof (Z.mod_pos_bound (u8 x) 16 ltac:(lia)).
  rewrite !nibble_hex by lia. cbn. rewrite IH. cbn. do 2 f_equal.
  replace (u8 x / 16 * 16 + u8 x mod 16) with (byte.unsigned x) by (unfold u8 in *; lia).
  apply byte.of_Z_unsigned.
Qed.

Lemma enc_dec s : forall b, dec s = Some b -> enc b = s.
Proof.
  induction s as [s IH] using (induction_ltof1 _ String.length).
  destruct s as [|a [|c s]]; cbn [dec]; [now intros b [= <-]|done|]. intros b.
  destruct (nibble a) as [x|] eqn:Ha; cbn; [|done].
  destruct (nibble c) as [y|] eqn:Hc; cbn; [|done].
  destruct (dec s) as [l|] eqn:Hs; cbn; [|done]. intros [= <-].
  apply hex_of_nibble in Ha as [Ha ?], Hc as [Hc ?]. cbn [enc].
  rewrite u8_of_Z by lia. rewrite Z.div_add_l, Z.div_small by lia.
  rewrite (Z.add_comm _ y), Z.mod_add, Z.mod_small by lia.
  rewrite Z.add_0_r, Ha, Hc. do 2 f_equal. apply IH; [unfold ltof; cbn; lia|done].
Qed.

Lemma drop_last2_app s a b : drop_last2 (s +:+ String.String a (String.String b "")) = s.
Proof.
  induction s as [|c s IH]; [done|]. cbn [String.append drop_last2].
  destruct (s +:+ String.String a (String.String b "")) as [|d [|e r]] eqn:E.
  - destruct s as [|? s]; [done|]; destruct s; done.
  - destruct s as [|? s]; [done|]; destruct s; done.
  - now rewrite IH.
Qed.

Lemma substring_app p s n :
  (String.length s <= n)%nat -> substring (String.length p) n (p +:+ s) = s.
Proof.
  intros Hn. induction p as [|c p IH]; [|exact IH].
  revert n Hn. induction s as [|c s IH]; intros [|n]; cbn; intros; try done; [lia|].
  f_equal. apply IH. lia.
Qed.

Lemma prefix_app p s : String.prefix p (p +:+ s) = true.
Proof. induction p as [|c p IH]; [now destruct s|]. cbn. now destruct (ascii_dec c c). Qed.

Lemma length_append s t : String.length (s +:+ t) = (String.length s + String.length t)%nat.
Proof. induction s as [|c s IH]; [done|]. cbn. now rewrite IH. Qed.

#[export] Instance crates_spec : PolicyCratesSpec crates.
Proof.
  constructor; cbn [base64_url_decode base64_url_encode rego_from_json rego_add_data crates].
  - intros s. apply enc_dec.
  - apply dec_enc.
  - intros p _. unfold from_json, resource_path_json.
    change ("{" +:+ _)%string with (data_prefix +:+ (p +:+ String.String "034" (String.String "125" "")))%string.
    rewrite prefix_app, substring_app by (rewrite !length_append; lia).
    now rewrite drop_last2_app.
  - done.
Qed.

Definition opa : Opa := {| opa_policy_path := "/p" |}.
Definition fs0 : Fs := {| files := ∅; dirs := ∅ |}.
Definition request : bytes := str_bytes (enc (str_bytes "allow")).
Definition fs1 : Fs := (engine_set_policy opa request fs0).1.
End PolicyDemo.

Import PolicyDemo.

Lemma policy_update_spec_witness :
  policy_in_force opa fs1 = Some true /\ engine_get_policy opa fs1 = (fs1, Ok (enc (str_bytes "allow"))).
Proof.
  assert (E : engine_set_policy opa request fs0 = (fs1, Ok tt)) by (vm_compute; reflexivity).
  pose proof (policy_update_spec crates_spec opa request fs0 fs1 (Ok tt) E) as H.
  change (submitted request) with (Some (enc (str_bytes "allow"), str_bytes "allow", true)) in H.
  destruct H as [(_ & _ & Hp & Hg)|(He & _)]; [|discriminate He]. split; [exact Hp|apply Hg; reflexivity].
Defined.

(** A failed update can destroy the policy in force: on a disk that is full after
    two bytes, the answer is an error, and no policy is left. *)
Theorem failed_update_loses_policy :
  let full := {| disk_fault op _ := String.eqb op "write_all"; made _ := 0%nat; written _ _ := Some 2%nat |} in
  policy_in_force opa fs1 = Some true /\
  exists fs2, engine_set_policy (D := full) opa request fs1 = (fs2, Err (IOError "io")) /\ policy_in_force opa fs2 = None.
Proof. split; [vm_compute; reflexivity|]. eexists. split; vm_compute; reflexivity. Qed.

Lemma policy_evaluate_spec_witness :
  engine_evaluate opa "resource/a/b/c" "{}" fs1 = (fs1, Ok true).
Proof.
  rewrite (policy_evaluate_spec crates_spec opa "resource/a/b/c" "{}" fs1);
    vm_compute; reflexivity.
Defined.

Lemma policy_new_preserves_witness :
  files (opa_new "/p" fs0).1 = <[["p"] := str_bytes default_policy]> (files fs0).
Proof.
  destruct (policy_new_preserves "/p" fs0 (opa_new "/p" fs0).1 (Ok opa)) as [_ H].
  - vm_compute; reflexivity.
  - destruct (H opa eq_refl) as (_ & _ & H'). apply H'; vm_compute; reflexivity.
Defined.
