(* ===== verification/Resource.v ===== *)
(** * The resource plugin ([kbs/src/plugins/implementations/resource/])

    Resource descriptions and their parsing ([backend.rs]), the storage
    interface and its local file system implementation ([local_fs.rs]), and
    the plugin that serves resources ([mod.rs]). *)
From S2P Require Import Prelude Types Metrics Fs.

#[local] Arguments String.append !_ _ / : simpl nomatch.

(** ** Resource descriptions *)
Record ResourceDesc := {
  repository_name : string;
  resource_type : string;
  resource_tag : string;
}.

#[global] Instance ResourceDesc_eq_dec : EqDecision ResourceDesc.
Proof. solve_decision. Defined.

#[global] Instance ResourceDesc_countable : Countable ResourceDesc.
Proof.
  refine (inj_countable' (fun d => (repository_name d, resource_type d, resource_tag d))
    (fun x => {| repository_name := x.1.1; resource_type := x.1.2; resource_tag := x.2 |}) _).
  now intros [].
Defined.

Definition in_range (lo hi c : ascii) : bool :=
  (nat_of_ascii lo <=? nat_of_ascii c)%nat && (nat_of_ascii c <=? nat_of_ascii hi)%nat.

(** The character classes [[a-zA-Z0-9_\-]] and [[a-zA-Z0-9_\-\.]] of the pattern. *)
Definition word_char (c : ascii) : bool :=
  in_range "a" "z" c || in_range "A" "Z" c || in_range "0" "9" c ||
  Ascii.eqb c "_" || Ascii.eqb c "-".

Definition word_dot_char (c : ascii) : bool := word_char c || Ascii.eqb c ".".

(** ** Regular expressions: the constructs the pattern uses, and what they match *)
Inductive regex :=
| Class (f : ascii -> bool)
| Concat (r1 r2 : regex)
| Star (r : regex).

Definition Plus (r : regex) : regex := Concat r (Star r).
Definition Lit (c : ascii) : regex := Class (Ascii.eqb c).

Inductive matches : regex -> string -> Prop :=
| m_class f c : f c = true -> matches (Class f) (String.String c "")
| m_concat r1 r2 s t : matches r1 s -> matches r2 t -> matches (Concat r1 r2) (s +:+ t)
| m_star_nil r : matches (Star r) ""
| m_star_cons r s t : matches r s -> matches (Star r) t -> matches (Star r) (s +:+ t).

(** One of the three named groups: [[a-zA-Z0-9_\-]+[a-zA-Z0-9_\-\.]*]. *)
Definition group : regex := Concat (Plus (Class word_char)) (Star (Class word_dot_char)).

(** The test for one group: a word character followed by word characters and dots. *)
Definition group_matches (s : string) : bool :=
  match s with
  | EmptyString => false
  | String.String c s => word_char c && all_chars word_dot_char s
  end.

(** [ResourceDesc::try_from]: the pattern is anchored at both ends and its
    three groups are separated by slashes, which no group can contain. *)
Definition resource_desc_try_from (value : string) : outcome anyhow ResourceDesc :=
  match split_on slash value with
  | [repo; typ; tag] =>
      if group_matches repo && group_matches typ && group_matches tag then
        Ok {| repository_name := repo; resource_type := typ; resource_tag := tag |}
      else Err "illegal ResourceDesc format."
  | _ => Err "illegal ResourceDesc format."
  end.

(** [fmt::Display for ResourceDesc]. *)
Definition resource_desc_display (d : ResourceDesc) : string :=
  repository_name d +:+ "/" +:+ resource_type d +:+ "/" +:+ resource_tag d.

Definition desc_ok (d : ResourceDesc) : Prop :=
  group_matches (repository_name d) = true /\
  group_matches (resource_type d) = true /\
  group_matches (resource_tag d) = true.

(** ** Storage backends *)

(** The trait [StorageBackend], over the state the backend works on. *)
Class StorageBackend (S : Type) := {
  read_secret_resource : ResourceDesc -> st S anyhow bytes;
  write_secret_resource : ResourceDesc -> bytes -> st S anyhow unit;
}.

(** What a backend promises: its state holds a finite map of resources; a
    write changes this map at most at one description and stores the data there
    if it succeeds, and otherwise possibly a part of them; a read that succeeds
    returns what is there. *)
Class StorageBackendSpec {S : Type} (B : StorageBackend S) (ok : S -> Prop)
    (stored : S -> ResourceDesc -> option bytes) : Prop := {
  write_ok : forall d data s s' r,
    ok s -> desc_ok d -> write_secret_resource d data s = (s', r) ->
    ok s' /\ r <> Panic /\ (is_ok r = true -> stored s' d = Some data) /\
    forall d', desc_ok d' -> stored s' d' = stored s d' \/ d' = d /\ exists n, stored s' d' = Some (take n data);
  read_ok : forall d s s' r,
    ok s -> desc_ok d -> read_secret_resource d s = (s', r) ->
    s' = s /\ r <> Panic /\ forall data, r = Ok data -> stored s d = Some data;
}.

(** ** The local file system backend *)
Definition DEFAULT_REPO_DIR_PATH : string := "/opt/confidential-containers/kbs/repository".

Record LocalFsRepoDesc := { dir_path : string }.

Definition local_fs_repo_desc_default : LocalFsRepoDesc := {| dir_path := DEFAULT_REPO_DIR_PATH |}.

Record LocalFs := { repo_dir_path : string }.

Section LocalFsOps.
Context `{D : Disk}.

(** [LocalFs::new]. *)
Definition local_fs_new (desc : LocalFsRepoDesc) : st Fs anyhow LocalFs :=
  there ← st_gets (fun fs => path_exists fs (dir_path desc));
  (if there : bool then mret tt else create_dir_all (dir_path desc));;
  let default := dir_path desc +:+ "/default" in
  there ← st_gets (fun fs => path_exists fs default);
  (if there : bool then mret tt else create_dir_all default);;
  mret {| repo_dir_path := dir_path desc |}.

Definition local_fs_read (l : LocalFs) (d : ResourceDesc) : st Fs anyhow bytes :=
  let ref_resource_path :=
    repository_name d +:+ "/" +:+ resource_type d +:+ "/" +:+ resource_tag d in
  let resource_path := path_push (repo_dir_path l) ref_resource_path in
  st_map_err (fun _ => "read resource from local fs") (fs_read resource_path).

Definition local_fs_write (l : LocalFs) (d : ResourceDesc) (data : bytes) : st Fs anyhow unit :=
  let resource_path := path_push (path_push (repo_dir_path l) (repository_name d)) (resource_type d) in
  there ← st_gets (fun fs => path_exists fs resource_path);
  (if there : bool then mret tt
   else st_map_err (fun _ => "create new resource path") (create_dir_all resource_path));;
  let resource_path := path_push resource_path (resource_tag d) in
  st_map_err (fun _ => "write local fs") (fs_write resource_path data).

Definition local_fs_backend (l : LocalFs) : StorageBackend Fs := {|
  read_secret_resource := local_fs_read l;
  write_secret_resource := local_fs_write l;
|}.
End LocalFsOps.

(** ** The plugin *)
Record ResourceStorage (S : Type) := {
  backend : S;
  resource_metrics : Metrics;
}.
Arguments backend {S} _.
Arguments resource_metrics {S} _.

Section Plugin.
Context {S : Type} `{B : StorageBackend S}.

Definition on_backend {A} (m : st S anyhow A) : st (ResourceStorage S) anyhow A :=
  st_on backend (fun b s => {| backend := b; resource_metrics := resource_metrics s |}) m.

Definition count_access (c : string) (d : ResourceDesc) (s : ResourceStorage S) : ResourceStorage S :=
  {| backend := backend s;
     resource_metrics := inc_vec c (resource_desc_display d) (resource_metrics s) |}.

Definition set_secret_resource (d : ResourceDesc) (data : bytes) : st (ResourceStorage S) anyhow unit :=
  st_modify (count_access RESOURCE_WRITES_TOTAL d);;
  on_backend (write_secret_resource d data).

Definition get_secret_resource (d : ResourceDesc) : st (ResourceStorage S) anyhow bytes :=
  st_modify (count_access RESOURCE_READS_TOTAL d);;
  on_backend (read_secret_resource d).

(** [ClientPlugin for ResourceStorage]. *)
Definition resource_handle (body : bytes) (_query path : string) (method : Method) :
    st (ResourceStorage S) anyhow bytes :=
  resource_desc ← st_lift (ok_or "accessed path is illegal, should start with `/`" (strip_prefix slash path));
  if String.eqb (method_str method) "POST" then
    d ← st_lift (resource_desc_try_from resource_desc);
    set_secret_resource d body;;
    mret []
  else if String.eqb (method_str method) "GET" then
    d ← st_lift (resource_desc_try_from resource_desc);
    get_secret_resource d
  else st_err "Illegal HTTP method. Only supports `GET` and `POST`".

Definition resource_validate_auth (_body : bytes) (_query _path : string) (method : Method) :
    outcome anyhow bool :=
  if String.eqb (method_str method) "POST" then Ok true else Ok false.

Definition resource_encrypted (_body : bytes) (_query _path : string) (method : Method) :
    outcome anyhow bool :=
  if String.eqb (method_str method) "GET" then Ok true else Ok false.
End Plugin.

(** ** Lemmas on descriptions *)
Lemma matches_star_class f s : matches (Star (Class f)) s <-> all_chars f s = true.
Proof.
  split.
  - intros H. remember (Star (Class f)) as r eqn:E. induction H; try discriminate; [done|].
    injection E as ->. inversion H; subst. cbn. rewrite IHmatches2 by done.
    now rewrite andb_true_r.
  - induction s as [|c s IH]; cbn; [constructor|]. intros [Hc Hs]%andb_prop.
    apply (m_star_cons _ (String.String c "") s); [now constructor|now apply IH].
Qed.

Lemma all_chars_impl (f g : ascii -> bool) s :
  (forall c, f c = true -> g c = true) -> all_chars f s = true -> all_chars g s = true.
Proof.
  intros Hfg. induction s as [|c s IH]; cbn; [done|].
  intros [Hc Hs]%andb_prop. now rewrite (Hfg _ Hc), IH.
Qed.

Lemma word_char_dot c : word_char c = true -> word_dot_char c = true.
Proof. unfold word_dot_char. now intros ->. Qed.

(** The test decides the group of the pattern. *)
Lemma group_matches_spec s : group_matches s = true <-> matches group s.
Proof.
  split.
  - destruct s as [|c s]; cbn; [done|]. intros [Hc Hs]%andb_prop.
    apply (m_concat _ _ (String.String c "") s); [|now apply matches_star_class].
    apply (m_concat _ _ (String.String c "") ""); [now constructor|constructor].
  - unfold group, Plus. intros H. inversion H as [|? ? x y Hx Hy| |]; subst.
    inversion Hx as [|? ? u v Hu Hv| |]; subst. inversion Hu; subst.
    apply matches_star_class in Hv, Hy. cbn.
    apply andb_true_intro. split; [done|].
    rewrite all_chars_app, Hy, andb_true_r. eauto using all_chars_impl, word_char_dot.
Qed.

Lemma group_no_slash s : group_matches s = true -> no_char slash s = true.
Proof.
  assert (H : forall c, word_dot_char c = true -> negb (Ascii.eqb slash c) = true).
  { intros c. unfold slash. destruct (Ascii.eqb_spec "/" c) as [<-|]; [|done]. discriminate. }
  destruct s as [|c s]; cbn; [done|]. intros [Hc Hs]%andb_prop.
  unfold no_char. cbn [all_chars]. apply andb_true_intro.
  split; [now apply H, word_char_dot|]. eauto using all_chars_impl.
Qed.

Lemma group_plain s : group_matches s = true -> plain_component s = true.
Proof.
  intros H. unfold plain_component. rewrite (group_no_slash _ H), andb_true_r.
  destruct (String.eqb_spec s ""), (String.eqb_spec s "."), (String.eqb_spec s ".."); subst; done.
Qed.

Lemma display_split d :
  desc_ok d -> split_on slash (resource_desc_display d) =
  [repository_name d; resource_type d; resource_tag d].
Proof.
  intros (H1 & H2 & H3). unfold resource_desc_display.
  change ("/" +:+ resource_type d +:+ "/" +:+ resource_tag d)%string with
    (String.String slash (resource_type d +:+ String.String slash (resource_tag d))).
  rewrite !split_on_app, split_on_none; auto using group_no_slash.
Qed.

Lemma try_from_Ok s d :
  resource_desc_try_from s = Ok d <-> s = resource_desc_display d /\ desc_ok d.
Proof.
  unfold resource_desc_try_from. split.
  - destruct (split_on slash s) as [|a [|b [|c [|]]]] eqn:E; try done.
    destruct (group_matches a) eqn:Ha, (group_matches b) eqn:Hb, (group_matches c) eqn:Hc;
      cbn; try done.
    intros [= <-]. split; [|done].
    rewrite <- (join_split slash s), E. reflexivity.
  - intros [-> H]. rewrite (display_split _ H). destruct H as (H1 & H2 & H3).
    rewrite H1, H2, H3. now destruct d.
Qed.

(** ** Where resources are stored *)
Definition desc_path (root : list string) (d : ResourceDesc) : list string :=
  root ++ [repository_name d; resource_type d; resource_tag d].

Lemma desc_path_inj root d d' : desc_path root d = desc_path root d' -> d = d'.
Proof.
  unfold desc_path. intros H%app_inv_head. destruct d, d'. cbn in H. now simplify_eq.
Qed.

Lemma path_push_app p q t :
  q <> "" -> path_push p (q +:+ t) = path_push p q +:+ t.
Proof.
  intros Hq. unfold path_push. destruct q as [|c q]; [done|]. cbn.
  destruct (Ascii.eqb c slash); [done|]. destruct (last_char p) as [c'|]; [|done].
  destruct (Ascii.eqb c' slash).
  - now rewrite app_string_assoc.
  - rewrite app_string_assoc. done.
Qed.

Lemma group_nonempty s : group_matches s = true -> s <> "".
Proof. now destruct s. Qed.

(** Both ways of building the path of a resource lead to the same file, three
    levels below the repository directory. *)
Lemma read_path root d :
  desc_ok d -> resolve (path_push root (resource_desc_display d)) = desc_path (resolve root) d.
Proof.
  intros (H1 & H2 & H3). unfold resource_desc_display, desc_path.
  rewrite path_push_app by now apply group_nonempty.
  change ("/" +:+ resource_type d +:+ "/" +:+ resource_tag d)%string with
    (String.String slash (resource_type d) +:+ String.String slash (resource_tag d)).
  rewrite <- app_string_assoc, !resolve_snoc, resolve_push by now apply group_plain.
  now rewrite <- !app_assoc.
Qed.

Lemma write_dir_path root d :
  desc_ok d ->
  resolve (path_push (path_push root (repository_name d)) (resource_type d)) =
  resolve root ++ [repository_name d; resource_type d].
Proof.
  intros (H1 & H2 & H3). rewrite !resolve_push by now apply group_plain.
  now rewrite <- app_assoc.
Qed.

Lemma write_path root d :
  desc_ok d ->
  resolve (path_push (path_push (path_push root (repository_name d)) (resource_type d)) (resource_tag d)) =
  desc_path (resolve root) d.
Proof.
  intros H. destruct (H) as (H1 & H2 & H3). rewrite resolve_push by now apply group_plain.
  rewrite write_dir_path by done. unfold desc_path. now rewrite <- app_assoc.
Qed.

(** The shape of a repository: below its root there are only directories of
    depth at most two, and files at depth three. *)
Record repo_ok (root : list string) (fs : Fs) : Prop := {
  ro_files : forall xs, is_Some (files fs !! (root ++ xs)) -> length xs = 3%nat;
  ro_prefix : forall n, files fs !! take n root = None;
  ro_dirs : forall xs, root ++ xs ∈ dirs fs -> (length xs <= 2)%nat;
}.

Definition local_stored (root : list string) (fs : Fs) (d : ResourceDesc) : option bytes :=
  files fs !! desc_path root d.

Lemma repo_no_file root fs ys n :
  repo_ok root fs -> (length ys <= 2)%nat -> files fs !! take n (root ++ ys) = None.
Proof.
  intros [Hf Hp _] Hys. rewrite take_app.
  destruct (decide (n <= length root)%nat).
  - replace (n - length root)%nat with 0%nat by lia. rewrite take_0, app_nil_r. apply Hp.
  - rewrite (take_ge root) by lia. apply eq_None_not_Some. intros Hs%Hf.
    rewrite length_take in Hs. lia.
Qed.

Section LocalFsCorrect.
Context `{D : Disk}.

Lemma add_dirs_repo root ys n fs :
  repo_ok root fs -> (length ys <= 2)%nat -> repo_ok root (add_dirs (take n (root ++ ys)) fs).
Proof.
  intros Hro Hys. constructor; cbn [add_dirs files dirs]; [apply Hro..|].
  intros xs [Hx|Hx]%elem_of_union; [now apply Hro|].
  apply elem_of_list_to_set, elem_of_prefixes in Hx as (k & Hx).
  apply (f_equal length) in Hx. rewrite !length_take, !length_app in Hx. lia.
Qed.

Lemma create_dir_all_repo root ys p fs fs' r :
  repo_ok root fs -> resolve p = root ++ ys -> (length ys <= 2)%nat ->
  create_dir_all p fs = (fs', r) ->
  repo_ok root fs' /\ files fs' = files fs /\ r <> Panic /\
  (r = Ok tt -> is_dir fs' (root ++ ys) = true) /\
  (disk_fault "mkdir" (root ++ ys) = false -> r = Ok tt).
Proof.
  intros Hro Hp Hys. unfold create_dir_all. rewrite Hp.
  rewrite (prefixes_no_file fs (root ++ ys)) by (intros; now apply repo_no_file).
  destruct (disk_fault "mkdir" (root ++ ys)); intros [= <- <-].
  { split; [now apply add_dirs_repo|done]. }
  split. { rewrite <- (take_ge (root ++ ys) (length (root ++ ys))) by done. now apply add_dirs_repo. }
  repeat split; try done. intros _. apply is_dir_spec. right. cbn. apply elem_of_union_r.
  apply elem_of_list_to_set, elem_of_prefixes. exists (length (root ++ ys)). now rewrite take_ge.
Qed.

(** Putting a file at a resource keeps the shape. *)
Lemma put_repo root d data fs : repo_ok root fs -> repo_ok root (put (desc_path root d) data fs).
Proof.
  intros Hro. constructor; cbn [put files dirs].
  - intros xs. unfold desc_path. rewrite lookup_insert. case_decide as E; [|apply Hro].
    now apply app_inv_head in E as <-.
  - intros n. rewrite lookup_insert. case_decide as E; [|apply Hro].
    apply (f_equal length) in E. unfold desc_path in E.
    rewrite length_app, length_take in E. cbn in E. lia.
  - apply Hro.
Qed.

(** The backend never panics, keeps the repository in shape, and a successful
    write stores exactly the given bytes. *)
Lemma local_fs_write_spec l d data fs fs' r :
  let root := resolve (repo_dir_path l) in
  repo_ok root fs -> desc_ok d -> local_fs_write l d data fs = (fs', r) ->
  repo_ok root fs' /\ r <> Panic /\
  (r = Ok tt -> files fs' = <[desc_path root d := data]> (files fs)) /\
  (files fs' = files fs \/ exists n, files fs' = <[desc_path root d := take n data]> (files fs)) /\
  ((forall op p, disk_fault op p = false) -> r = Ok tt).
Proof.
  intros root Hro Hd. unfold local_fs_write. exec.
  set (dir := path_push (path_push (repo_dir_path l) (repository_name d)) (resource_type d)).
  assert (Hdir : resolve dir = root ++ [repository_name d; resource_type d]) by now apply write_dir_path.
  assert (Hstep : exists fs1 r1,
    (if path_exists fs dir then mret tt
     else st_map_err (fun _ => "create new resource path") (create_dir_all dir)) fs = (fs1, r1) /\
    repo_ok root fs1 /\ files fs1 = files fs /\ r1 <> Panic /\
    (r1 = Ok tt -> is_dir fs1 (resolve dir) = true) /\
    ((forall op p, disk_fault op p = false) -> r1 = Ok tt)).
  { destruct (path_exists fs dir) eqn:He.
    - exists fs, (Ok tt). repeat split; try done; [apply Hro..|]. intros _.
      unfold path_exists in He. apply orb_true_iff in He as [He|He]; [done|].
      apply is_file_spec in He. rewrite Hdir in He. apply Hro in He. discriminate He.
    - unfold st_map_err. destruct (create_dir_all dir fs) as [fs1 r1] eqn:Hc.
      destruct (create_dir_all_repo root _ dir fs fs1 r1 Hro Hdir (le_n 2) Hc)
        as (H1 & H2 & H3 & H4 & H5).
      exists fs1, (map_err (fun _ => "create new resource path") r1).
      rewrite Hdir. repeat split; try done; [apply H1..| | |].
      + now destruct r1.
      + destruct r1 as [[]| |]; naive_solver.
      + intros Hf. now rewrite H5 by apply Hf. }
  destruct Hstep as (fs1 & r1 & Hs & Hro1 & Hf1 & Hp1 & Hd1 & Hn1).
  unfold mret, st_ret, st_map_err in Hs. rewrite Hs.
  destruct r1 as [[]|e|]; [|intros [= <- <-]; split; [done|]; split; [done|]; split; [done|]; split; [now left|];
    intros Hf; now specialize (Hn1 Hf)|done].
  unfold fs_write. unfold dir; rewrite !(write_path _ d Hd); fold root dir.
  assert (Hnd : is_dir fs1 (desc_path root d) = false).
  { apply not_true_is_false. intros [Hx|Hx]%is_dir_spec.
    - apply (f_equal length) in Hx. unfold desc_path in Hx. rewrite length_app in Hx. cbn in Hx. lia.
    - apply Hro1 in Hx. cbn in Hx. lia. }
  assert (Hpar : take (pred (length (desc_path root d))) (desc_path root d) =
                 root ++ [repository_name d; resource_type d]).
  { unfold desc_path. change (?r ++ [?a; ?b; ?c]) with (r ++ [a; b] ++ [c]).
    rewrite app_assoc. apply pred_snoc. }
  rewrite Hnd, Hpar, <- Hdir, Hd1 by done. cbn [negb].
  destruct (disk_fault "write" (desc_path root d)) eqn:Hw.
  { intros [= <- <-]. split; [done|]. split; [done|]. split; [done|]. split; [now left|].
    intros Hf. now rewrite Hf in Hw. }
  rewrite <- Hf1. destruct (torn _ data) as [part|] eqn:Et; intros [= <- <-].
  - split; [now apply put_repo|]. split; [done|]. split; [done|]. apply torn_Some in Et as Ht.
    destruct Ht as (n & _ & ->). split; [right; now exists n|]. intros Hf. now rewrite torn_good in Et.
  - split; [now apply put_repo|]. split; [done|]. split; [done|]. split; [|done].
    right. exists (length data). now rewrite firstn_all.
Qed.

Lemma local_fs_read_spec l d fs :
  desc_ok d ->
  let root := resolve (repo_dir_path l) in
  local_fs_read l d fs =
  (fs, if disk_fault "read" (desc_path root d) then Err "read resource from local fs"
       else ok_or "read resource from local fs" (local_stored root fs d)).
Proof.
  intros Hd root. unfold local_fs_read, st_map_err, fs_read.
  fold (resource_desc_display d).
  rewrite (read_path (repo_dir_path l) d Hd). fold root. unfold local_stored.
  destruct (disk_fault "read" _); [done|]. now destruct (files fs !! desc_path root d).
Qed.

(** The local file system backend keeps the promises of the interface. *)
#[global] Instance local_fs_correct l :
  StorageBackendSpec (local_fs_backend l) (repo_ok (resolve (repo_dir_path l)))
    (local_stored (resolve (repo_dir_path l))).
Proof.
  constructor; cbn.
  - intros d data fs fs' r Hro Hd H.
    destruct (local_fs_write_spec l d data fs fs' r Hro Hd H) as (H1 & H2 & H3 & H4 & _).
    unfold local_stored. split; [done|]. split; [done|]. split.
    { destruct r as [[]| |]; [|done..]. intros _. rewrite H3 by done. apply lookup_insert_eq. }
    intros d' Hd'. destruct H4 as [->|[n ->]]; [now left|].
    destruct (decide (d' = d)) as [->|Hne]; [right; split; [done|]; exists n; apply lookup_insert_eq|].
    left. apply lookup_insert_ne. intros E. apply Hne. symmetry. now apply desc_path_inj in E.
  - intros d fs fs' r Hro Hd. rewrite local_fs_read_spec by done.
    intros [= <- <-]. split; [done|].
    destruct (disk_fault _ _); [done|]. destruct (local_stored _ fs d); naive_solver.
Qed.

(** [LocalFs::new] on a directory that holds nothing yet, or a repository. *)
Lemma local_fs_new_repo desc fs fs' l :
  repo_ok (resolve (dir_path desc)) fs -> local_fs_new desc fs = (fs', Ok l) ->
  repo_ok (resolve (repo_dir_path l)) fs' /\ files fs' = files fs.
Proof.
  intros Hro H. unfold local_fs_new in H. set (root := resolve (dir_path desc)) in *.
  inv_st. change (repo_ok root fs' /\ files fs' = files s).
  assert (H1 : repo_ok root s1 /\ files s1 = files s).
  { destruct (path_exists s (dir_path desc)); [now inv_st|].
    destruct (create_dir_all_repo root [] _ _ _ _ Hro ltac:(now rewrite app_nil_r)
      ltac:(cbn; lia) Hst0) as (? & ? & _). done. }
  destruct H1 as [H1 H1f].
  destruct (path_exists s1 _); [now inv_st|].
  destruct (create_dir_all_repo root ["default"] _ _ _ _ H1 (resolve_snoc _ "default" eq_refl)
      ltac:(cbn; lia) Hst2) as (? & ? & _).
  split; [done|congruence].
Qed.
End LocalFsCorrect.

(** ** Properties *)

(** Resource descriptions are parsed as the pattern says.  A string is
    accepted exactly when it is three groups joined by slashes, each matching
    the regular expression of the source, and the fields are those groups; so
    parsing also inverts printing. *)
Theorem resource_desc_parse_spec s d :
  resource_desc_try_from s = Ok d <->
  s = resource_desc_display d /\
  matches group (repository_name d) /\ matches group (resource_type d) /\
  matches group (resource_tag d).
Proof. rewrite try_from_Ok. unfold desc_ok. now rewrite !group_matches_spec. Qed.

(** The successful paths of the plugin. *)
Section HandleLemmas.
Context {S : Type} `{B : StorageBackend S}.
Implicit Types (s : ResourceStorage S).

Lemma strip_prefix_slash path x : strip_prefix slash path = Some x -> path = String.String slash x.
Proof.
  destruct path as [|c p]; unfold strip_prefix; [done|].
  destruct (Ascii.eqb_spec slash c) as [<-|]; [now intros [= ->]|done].
Qed.

Lemma handle_POST_Ok body q path s s' r :
  resource_handle body q path POST s = (s', Ok r) ->
  r = [] /\ exists d, path = String.String slash (resource_desc_display d) /\ desc_ok d /\
    write_secret_resource d body (backend s) = (backend s', Ok tt).
Proof.
  intros H. unfold resource_handle, set_secret_resource, on_backend in H. cbn in H. run_st H.
  match goal with E : resource_desc_try_from _ = Ok _ |- _ => apply try_from_Ok in E as [-> ?] end.
  match goal with E : strip_prefix _ _ = Some _ |- _ => apply strip_prefix_slash in E as -> end.
  match goal with u : unit |- _ => destruct u end. eauto.
Qed.

Lemma handle_GET_Ok body q path s s' r :
  resource_handle body q path GET s = (s', Ok r) ->
  exists d, path = String.String slash (resource_desc_display d) /\ desc_ok d /\
    read_secret_resource d (backend s) = (backend s', Ok r).
Proof.
  intros H. unfold resource_handle, get_secret_resource, on_backend in H. cbn in H. run_st H.
  match goal with E : resource_desc_try_from _ = Ok _ |- _ => apply try_from_Ok in E as [-> ?] end.
  match goal with E : strip_prefix _ _ = Some _ |- _ => apply strip_prefix_slash in E as -> end.
  eauto.
Qed.

Lemma display_inj d d' :
  desc_ok d -> desc_ok d' -> resource_desc_display d = resource_desc_display d' -> d = d'.
Proof.
  intros H H' E. apply (f_equal (split_on slash)) in E.
  rewrite !display_split in E by done. destruct d, d'. cbn in E. now simplify_eq.
Qed.
End HandleLemmas.

(** ** What the plugin touches *)
Section Confined.
Context `{D : Disk} (l : LocalFs).
Abbreviation root := (resolve (repo_dir_path l)).

(** The resource a request path names. *)
Definition requested (path : string) : option ResourceDesc :=
  rest ← strip_prefix slash path;
  match resource_desc_try_from rest with
  | Ok d => Some d
  | _ => None
  end.

Lemma requested_Some path d :
  requested path = Some d <-> path = String.String slash (resource_desc_display d) /\ desc_ok d.
Proof.
  unfold requested. rewrite bind_Some. split.
  - intros (rest & ->%strip_prefix_slash & H). destruct (resource_desc_try_from rest) eqn:E; [|done..].
    injection H as ->. apply try_from_Ok in E as [-> Hd]. done.
  - intros [-> Hd]. exists (resource_desc_display d). split; [reflexivity|].
    now rewrite (proj2 (try_from_Ok (resource_desc_display d) d)).
Qed.

(** A write touches the file of its resource and the directories above it. *)
Lemma local_fs_write_touches d data fs fs' r :
  desc_ok d -> local_fs_write l d data fs = (fs', r) ->
  (forall p, p <> desc_path root d -> files fs' !! p = files fs !! p) /\
  (forall p, p ∈ dirs fs' -> p ∈ dirs fs \/ exists n, p = take n (root ++ [repository_name d; resource_type d])).
Proof.
  intros Hd. unfold local_fs_write, mbind, st_bind, st_gets.
  set (dir := path_push (path_push (repo_dir_path l) (repository_name d)) (resource_type d)).
  set (made := if path_exists fs dir then mret tt else st_map_err _ (create_dir_all dir)).
  destruct (made fs) as [fs1 r1] eqn:E1.
  assert (H1 : files fs1 = files fs /\
    forall p, p ∈ dirs fs1 -> p ∈ dirs fs \/ exists n, p = take n (root ++ [repository_name d; resource_type d])).
  { subst made. destruct (path_exists fs dir); [injection E1 as <- _; split; [done|now left]|].
    unfold st_map_err in E1. destruct (create_dir_all dir fs) as [fs2 r2] eqn:E2. injection E1 as <- _.
    destruct (create_dir_all_files _ _ _ _ E2) as [Hf _]. split; [done|].
    destruct (create_dir_all_dirs _ _ _ _ E2) as (n & [->|Hdirs]); [now left|].
    rewrite Hdirs. unfold dir. rewrite (write_dir_path _ d Hd). intros p [Hp|Hp]%elem_of_union; [now left|right].
    apply elem_of_list_to_set, elem_of_prefixes in Hp as (k & ->). rewrite take_take. eauto. }
  destruct H1 as [Hf Hdirs]. rewrite <- Hf. destruct r1; [|intros [= <- <-]; split; [done|exact Hdirs]..].
  unfold st_map_err. destruct (fs_write _ data fs1) as [fs2 r2] eqn:E2. intros [= <- <-].
  apply fs_write_touches in E2 as [-> Ht]. unfold dir in Ht. rewrite (write_path _ d Hd) in Ht. done.
Qed.

(** A request keeps every resource but the one it posts to. *)
Lemma resource_handle_keeps body q path m (s s' : ResourceStorage Fs) r d :
  resource_handle (B := local_fs_backend l) body q path m s = (s', r) -> desc_ok d ->
  (method_str m = "POST" -> path <> String.String slash (resource_desc_display d)) ->
  local_stored root (backend s') d = local_stored root (backend s) d.
Proof.
  intros H Hd Hne. unfold resource_handle, mbind, st_bind, st_lift, ok_or in H.
  destruct (strip_prefix slash path) as [rest|] eqn:Er; [|now injection H as <- _].
  apply strip_prefix_slash in Er as ->.
  destruct (String.eqb_spec (method_str m) "POST") as [Hm|_].
  - destruct (resource_desc_try_from rest) as [d'|e|] eqn:Et; [|now injection H as <- _..].
    apply try_from_Ok in Et as [-> Hd']. unfold set_secret_resource, on_backend, mbind, st_bind, st_modify, st_on in H.
    cbn [write_secret_resource local_fs_backend count_access backend] in H.
    destruct (local_fs_write l d' body (backend s)) as [fs1 r1] eqn:Ew.
    destruct (local_fs_write_touches _ _ _ _ _ Hd' Ew) as [Hf _].
    assert (Hs : backend s' = fs1) by (destruct r1; now injection H as <- _). rewrite Hs. apply Hf.
    intros E. apply desc_path_inj in E; [|done..]. subst d'. now apply Hne.
  - destruct (String.eqb (method_str m) "GET"); [|now injection H as <- _].
    destruct (resource_desc_try_from rest) as [d'|e|] eqn:Et; [|now injection H as <- _..].
    apply try_from_Ok in Et as [-> Hd']. unfold get_secret_resource, on_backend, mbind, st_bind, st_modify, st_on in H.
    cbn [read_secret_resource local_fs_backend count_access backend] in H.
    rewrite (local_fs_read_spec l d' (backend s) Hd') in H. now injection H as <- _.
Qed.

(** C10: no request escapes the repository.  A request whose path is not three
    plain names below the plugin touches no file.  Otherwise the three names are
    plain file names (never empty, [.] or [..]), the only file the request may
    change is the one below the repository directory with these names, whatever
    the outcome, and the only directories it may create lead there; a read
    changes nothing and its answer depends on that file alone; and different
    paths name different files. *)
Theorem resource_path_confined body q path m (s s' : ResourceStorage Fs) r :
  resource_handle (B := local_fs_backend l) body q path m s = (s', r) ->
  match requested path with
  | None => backend s' = backend s /\ is_ok r = false
  | Some d =>
      let file := root ++ [repository_name d; resource_type d; resource_tag d] in
      Forall (fun c => plain_component c = true) [repository_name d; resource_type d; resource_tag d] /\
      (forall p, p <> file -> files (backend s') !! p = files (backend s) !! p) /\
      (forall p, p ∈ dirs (backend s') ->
         p ∈ dirs (backend s) \/ exists n, p = take n (root ++ [repository_name d; resource_type d])) /\
      (method_str m <> "POST" -> backend s' = backend s /\
         forall s2, files (backend s2) !! file = files (backend s) !! file ->
           (resource_handle (B := local_fs_backend l) body q path m s2).2 = r) /\
      (forall path' d', requested path' = Some d' -> desc_path root d' = file -> path' = path)
  end.
Proof.
  intros H. destruct (requested path) as [d|] eqn:Er.
  - apply requested_Some in Er as [-> Hd]. assert (Hp := Hd). destruct Hp as (H1 & H2 & H3).
    split; [auto using group_plain|].
    assert (Ht : resource_desc_try_from (resource_desc_display d) = Ok d) by now apply try_from_Ok.
    assert (Hinj : forall path' d', requested path' = Some d' ->
      desc_path root d' = root ++ [repository_name d; resource_type d; resource_tag d] ->
      path' = String.String slash (resource_desc_display d)).
    { intros path' d' [-> Hd']%requested_Some E. change (desc_path root d' = desc_path root d) in E.
      now apply desc_path_inj in E as ->. }
    unfold resource_handle in *. cbn [strip_prefix] in *. rewrite Ascii.eqb_refl in *.
    unfold mbind, st_bind, st_lift, ok_or in *. rewrite Ht in *.
    destruct (String.eqb_spec (method_str m) "POST") as [Hm|Hm].
    + unfold set_secret_resource, on_backend, mbind, st_bind, st_modify, st_on in *.
      cbn [write_secret_resource local_fs_backend count_access backend] in *.
      destruct (local_fs_write l d body (backend s)) as [fs1 r1] eqn:Ew.
      destruct (local_fs_write_touches _ _ _ _ _ Hd Ew) as [Hf Hdirs].
      assert (Hs : backend s' = fs1) by (destruct r1; now injection H as <- _). rewrite Hs.
      split; [exact Hf|]. split; [exact Hdirs|]. split; [done|exact Hinj].
    + destruct (String.eqb (method_str m) "GET"); [|injection H as <- <-; split; [done|]; split; [now left|]; done].
      unfold get_secret_resource, on_backend, mbind, st_bind, st_modify, st_on in *.
      cbn [read_secret_resource local_fs_backend count_access backend] in *.
      rewrite (local_fs_read_spec l d (backend s) Hd) in H. injection H as <- <-. cbn [backend].
      split; [done|]. split; [now left|]. split; [|exact Hinj]. intros _. split; [done|].
      intros s2 E. rewrite (local_fs_read_spec l d (backend s2) Hd). cbn [snd]. unfold local_stored.
      change (desc_path root d) with (root ++ [repository_name d; resource_type d; resource_tag d]).
      now rewrite E.
  - assert (Hn : forall rest, strip_prefix slash path = Some rest -> is_ok (resource_desc_try_from rest) = false).
    { intros rest E. unfold requested in Er. rewrite E in Er. cbn in Er. now destruct (resource_desc_try_from rest). }
    unfold resource_handle, mbind, st_bind, st_lift, ok_or in H.
    destruct (strip_prefix slash path) as [rest|]; [|injection H as <- <-; done]. specialize (Hn _ eq_refl).
    destruct (String.eqb (method_str m) "POST"), (String.eqb (method_str m) "GET"); try (injection H as <- <-; done);
      destruct (resource_desc_try_from rest); try discriminate Hn; injection H as <- <-; done.
Qed.
End Confined.

(** A POST and a GET over a backend that keeps the promises. *)
Lemma post_get_spec {S} (B : StorageBackend S) ok stored
    (Spec : StorageBackendSpec B ok stored) (s s1 s2 : ResourceStorage S)
    path path' data b2 q q2 r1 r2 :
  ok (backend s) ->
  resource_handle data q path POST s = (s1, Ok r1) ->
  resource_handle b2 q2 path' GET s1 = (s2, Ok r2) ->
  r1 = [] /\ exists d', path' = String.String slash (resource_desc_display d') /\
    Some r2 = if decide (path' = path) then Some data else stored (backend s) d'.
Proof.
  intros Hok (-> & d & -> & Hd & Hw)%handle_POST_Ok (d' & -> & Hd' & Hr)%handle_GET_Ok.
  destruct (write_ok _ _ _ _ _ Hok Hd Hw) as (Hok1 & _ & Hsame & Hst).
  destruct (read_ok _ _ _ _ Hok1 Hd' Hr) as (_ & _ & Hrd).
  split; [done|]. exists d'. split; [done|]. rewrite <- (Hrd _ eq_refl).
  destruct (decide (d' = d)) as [->|Hne]; [rewrite decide_True by done; now apply Hsame|].
  rewrite decide_False; [|intros [= E]; apply Hne; now apply display_inj].
  destruct (Hst _ Hd') as [?|[? _]]; done.
Qed.

(** The resource plugin over any backend that keeps the promises of the
    storage interface.  After a successful POST, a successful GET returns the
    posted bytes for the same path, and for every other path the bytes that
    were stored before. *)
Theorem resource_post_get {S} (B : StorageBackend S) ok stored
    (Spec : StorageBackendSpec B ok stored) (s s1 s2 : ResourceStorage S)
    path path' data b2 q q2 r1 r2 :
  ok (backend s) ->
  resource_handle data q path POST s = (s1, Ok r1) ->
  resource_handle b2 q2 path' GET s1 = (s2, Ok r2) ->
  r1 = [] /\ exists d', path' = String.String slash (resource_desc_display d') /\
    Some r2 = if decide (path' = path) then Some data else stored (backend s) d'.
Proof. apply post_get_spec, Spec. Qed.

(** With a working disk, the local file system backend does store and
    return resources.  On a repository directory in shape, a POST to any valid
    path succeeds, and a GET of that path then returns the posted bytes. *)
Theorem local_fs_post_get `{D : Disk} l (s : ResourceStorage Fs) d data q :
  (forall op p, disk_fault op p = false) ->
  repo_ok (resolve (repo_dir_path l)) (backend s) -> desc_ok d ->
  let path := String.String slash (resource_desc_display d) in
  exists s1 s2,
    @resource_handle Fs (local_fs_backend l) data q path POST s = (s1, Ok []) /\
    @resource_handle Fs (local_fs_backend l) [] q path GET s1 = (s2, Ok data) /\
    repo_ok (resolve (repo_dir_path l)) (backend s2).
Proof.
  intros Hf Hro Hd path.
  assert (Ht : resource_desc_try_from (resource_desc_display d) = Ok d) by now apply try_from_Ok.
  destruct (local_fs_write l d data (backend s)) as [fs1 r] eqn:Hw.
  destruct (local_fs_write_spec l d data _ _ _ Hro Hd Hw) as (Hro1 & _ & Hfs & _ & Hok).
  rewrite (Hok Hf) in *. specialize (Hfs eq_refl).
  eexists _, _. split; [|split].
  - unfold resource_handle, path. cbn. exec. rewrite Ht. unfold set_secret_resource, on_backend.
    exec. rewrite Hw. reflexivity.
  - unfold resource_handle, path. cbn. exec. rewrite Ht. unfold get_secret_resource, on_backend.
    exec. rewrite (local_fs_read_spec l d fs1 Hd), Hf. unfold local_stored. rewrite Hfs.
    rewrite lookup_insert_eq. reflexivity.
  - exact Hro1.
Qed.

(** ** Witnesses *)
Module ResourceDemo.
#[export] Instance good_disk : Disk := {| disk_fault _ _ := false; made _ := 0%nat; written _ _ := None |}.
Definition repo : LocalFs := {| repo_dir_path := "/r" |}.
Definition empty_fs : Fs := {| files := ∅; dirs := {[ ["r"] ]} |}.
Definition st0 : ResourceStorage Fs := {| backend := empty_fs; resource_metrics := no_metrics |}.
Definition desc : ResourceDesc :=
  {| repository_name := "default"; resource_type := "key"; resource_tag := "1" |}.
Definition path : string := "/default/key/1".
Definition secret : bytes := str_bytes "s".
Definition st1 : ResourceStorage Fs :=
  (@resource_handle Fs (local_fs_backend repo) secret "" path POST st0).1.
Definition st2 : ResourceStorage Fs :=
  (@resource_handle Fs (local_fs_backend repo) [] "" path GET st1).1.

Lemma empty_repo_ok : repo_ok (resolve (repo_dir_path repo)) empty_fs.
Proof.
  constructor; cbn.
  - intros xs [b Hb]. now rewrite lookup_empty in Hb.
  - intros n. apply lookup_empty.
  - intros xs. change (foldl _ _ _ ++ xs) with ("r" :: xs). rewrite elem_of_singleton.
    intros [= ->]. cbn. lia.
Qed.
End ResourceDemo.

Import ResourceDemo.

Lemma resource_path_confined_witness :
  requested path = Some desc /\ files (backend st1) !! ["r"; "default"; "key"; "2"] = None.
Proof.
  split; [vm_compute; reflexivity|].
  assert (E : @resource_handle Fs (local_fs_backend repo) secret "" path POST st0 = (st1, Ok [])) by (vm_compute; reflexivity).
  pose proof (resource_path_confined repo secret "" path POST st0 st1 (Ok []) E) as H.
  change (requested path) with (Some desc) in H. destruct H as (_ & H & _).
  rewrite H; [vm_compute; reflexivity|]. vm_compute. discriminate.
Defined.

Lemma resource_post_get_witness :
  exists d', path = String.String slash (resource_desc_display d') /\
    Some secret = if decide (path = path) then Some secret else local_stored ["r"] empty_fs d'.
Proof.
  apply (resource_post_get (local_fs_backend repo) (repo_ok (resolve (repo_dir_path repo)))
    (local_stored (resolve (repo_dir_path repo))) (local_fs_correct repo)
    st0 st1 st2 path path secret [] "" "" [] secret empty_repo_ok);
    vm_compute; reflexivity.
Defined.

Lemma local_fs_post_get_witness :
  exists s1 s2, @resource_handle Fs (local_fs_backend repo) secret ""
      (String.String slash (resource_desc_display desc)) POST st0 = (s1, Ok []) /\
    @resource_handle Fs (local_fs_backend repo) [] ""
      (String.String slash (resource_desc_display desc)) GET s1 = (s2, Ok secret).
Proof.
  destruct (local_fs_post_get repo st0 desc secret "") as (s1 & s2 & H1 & H2 & _).
  - intros op p. reflexivity.
  - exact empty_repo_ok.
  - vm_compute. now repeat split.
  - exists s1, s2. split; [exact H1 | exact H2].
Defined.
