(* ===== verification/Token.v ===== *)
(** * Who may call: admin authentication and attestation tokens

    [kbs/src/admin/mod.rs] checks the bearer token of an administrator;
    [kbs/src/token/mod.rs] and [jwk.rs] verify attestation tokens and find the
    TEE public key in their claims.  JWT decoding, X.509 and the key types of
    OpenSSL, and the retrieval of JWK sets are parameters. *)
From S2P Require Import Prelude Types Text Fs Json.

(** [Authorization::<Bearer>::parse(request)?.into_scheme().token()]. *)
Class HttpAuth := bearer_token : HttpRequest -> option string.

(** ** Admin *)
Record AdminConfig := {
  auth_public_key : option string;
  insecure_api : bool;
}.

Definition DEFAULT_INSECURE_API : bool := false.

Definition admin_config_default : AdminConfig :=
  {| auth_public_key := None; insecure_api := DEFAULT_INSECURE_API |}.

Inductive AdminError :=
| JwtVerificationFailed (source : anyhow)
| NoPublicKeyGiven
| ParsePublicKey (source : anyhow)
| ParseAuthHeaderFailed
| ReadPublicKey (source : anyhow).

(** [jwt_simple]: Ed25519 public keys and the verification of a token, at a
    moment in time, with the default options. *)
Class JwtSimple := {
  ed25519_key : Type;
  ed25519_from_pem : string -> option ed25519_key;
  ed25519_verify_token : ed25519_key -> Z -> string -> bool;
}.

Section AdminOps.
Context `{D : Disk} `{HA : HttpAuth} `{J : JwtSimple}.

Record Admin := { public_key : option ed25519_key }.

Definition admin_default : Admin := {| public_key := None |}.

(** [Admin::try_from(AdminConfig)]; [read_to_string] fails on text that is not UTF-8. *)
Definition admin_try_from (value : AdminConfig) : st Fs AdminError Admin :=
  if insecure_api value then mret admin_default
  else
    key_path ← st_lift (ok_or NoPublicKeyGiven (auth_public_key value));
    content ← st_map_err ReadPublicKey (fs_read key_path);
    user_public_key_pem ← st_lift (ok_or (ReadPublicKey "utf8") (from_utf8 content));
    key ← st_lift (ok_or (ParsePublicKey "pem") (ed25519_from_pem user_public_key_pem));
    mret {| public_key := Some key |}.

(** [Admin::validate_auth]. *)
Definition validate_auth (a : Admin) (now : Z) (request : HttpRequest) : outcome AdminError unit :=
  match public_key a with
  | None => Ok tt
  | Some key =>
      token ← ok_or ParseAuthHeaderFailed (bearer_token request);
      if ed25519_verify_token key now token then Ok tt
      else Err (JwtVerificationFailed "verify")
  end.
End AdminOps.

(** ** JSON web keys *)
Inductive AlgorithmParameters :=
| AP_EllipticCurve (curve x y : string)
| AP_RSA (n e : string)
| AP_OctetKey (value : string)
| AP_OctetKeyPair (curve x : string).

Record Jwk := {
  key_id : option string;
  key_algorithm : option string;
  x509_chain : option (list string);
  algorithm : AlgorithmParameters;
}.

Record Header := {
  h_jwk : option Jwk;
  h_kid : option string;
}.

Record AttestationTokenVerifierConfig := {
  cfg_extra_teekey_paths : list string;
  trusted_certs_paths : list string;
  cfg_trusted_jwk_sets : list string;
  cfg_insecure_key : bool;
}.

Inductive JwksGetError :=
| InvalidSourcePath (reason : string)
| AccessFailed (reason : string)
| DeserializeSource (reason : string).

(** The error type of [token/error.rs]. *)
Inductive TokenError :=
| TokenVerificationFailed (source : anyhow)
| TokenVerifierInitialization (source : anyhow)
| NoTeePubKeyClaimFound
| TeePubKeyParseFailed.

(** The crates behind the verifier: [jsonwebtoken], [openssl], [base64], [url],
    [reqwest]. *)
Class TokenCrates := {
  (** [decode_header] *)
  decode_header : string -> option Header;
  (** [JwkSet::find] *)
  jwk_find : string -> list Jwk -> option Jwk;
  (** [Algorithm::from_str] and [DecodingKey::from_jwk] *)
  algorithm_from_str : string -> bool;
  decoding_key_ok : Jwk -> bool;
  (** [decode::<Value>(token, key, Validation::new(alg))] at a moment in time *)
  jwt_decode : Z -> string -> Jwk -> string -> option Value;
  (** [X509] and [PKey<Public>] *)
  x509 : Type;
  pkey : Type;
  tk_base64_url_decode : string -> option bytes;
  rsa_public_key : bytes -> bytes -> option pkey;
  p256_public_key : bytes -> bytes -> option pkey;
  x509_from_der : bytes -> option x509;
  x509_from_pem : bytes -> option x509;
  x509_public_key : x509 -> option pkey;
  public_eq : pkey -> pkey -> bool;
  (** [X509StoreContext::init] with [verify_cert]: trust store, leaf, chain *)
  verify_cert : list x509 -> x509 -> list x509 -> option bool;
  (** [Url::parse]: scheme and path *)
  url_parse : string -> option (string * string);
  (** the URL with its path replaced by the OpenID suffix, then [get] and the
      two documents: [jwks_uri] and the key set *)
  url_set_path : string -> string -> string;
  http_get : string -> option bytes;
  openid_jwks_uri : bytes -> option string;
  jwk_set_from_json : bytes -> option (list Jwk);
  (** [TeePubKey::deserialize] *)
  tee_pub_key_deserialize : Value -> option TeePubKey;
}.

Class TokenCratesSpec (C : TokenCrates) : Prop := {
  (** the key found is one of the set, and carries the identifier asked for *)
  jwk_find_spec : forall kid keys k, jwk_find kid keys = Some k -> k ∈ keys /\ key_id k = Some kid;
}.

Definition OPENID_CONFIG_URL_SUFFIX : string := ".well-known/openid-configuration".

Section Verifier.
Context `{D : Disk} `{C : TokenCrates}.

Record JwkAttestationTokenVerifier := {
  trusted_jwk_sets : list Jwk;
  trusted_certs : list x509;
  insecure_key : bool;
}.

(** [get_jwks_from_file_or_url]. *)
Definition get_jwks_from_file_or_url (p : string) : st Fs JwksGetError (list Jwk) :=
  url ← st_lift (ok_or (InvalidSourcePath "parse") (url_parse p));
  let '(scheme, path) := url in
  if String.eqb scheme "https" then
    doc ← st_lift (ok_or (AccessFailed "get") (http_get (url_set_path p OPENID_CONFIG_URL_SUFFIX)));
    jwks_uri ← st_lift (ok_or (DeserializeSource "openid") (openid_jwks_uri doc));
    doc ← st_lift (ok_or (AccessFailed "get") (http_get jwks_uri));
    st_lift (ok_or (DeserializeSource "jwks") (jwk_set_from_json doc))
  else if String.eqb scheme "file" then
    content ← st_map_err (fun _ => AccessFailed "open") (fs_read path);
    st_lift (ok_or (DeserializeSource "jwks") (jwk_set_from_json content))
  else st_err (InvalidSourcePath "unsupported scheme").

(** A loop that stops at the first failure and collects its results. *)
Fixpoint st_collect {S E A B} (f : A -> st S E B) (l : list A) : st S E (list B) :=
  match l with
  | [] => mret []
  | x :: l => y ← f x; ys ← st_collect f l; mret (y :: ys)
  end.

(** [JwkAttestationTokenVerifier::new]. *)
Definition jwk_verifier_new (config : AttestationTokenVerifierConfig) :
    st Fs anyhow JwkAttestationTokenVerifier :=
  sets ← st_collect
    (fun path => st_map_err (fun _ => "error getting JWKS") (get_jwks_from_file_or_url path))
    (cfg_trusted_jwk_sets config);
  certs ← st_collect
    (fun path =>
       cert_content ← st_map_err (fun _ => "failed to read certificate") (fs_read path);
       st_lift (ok_or "from_pem" (x509_from_pem cert_content)))
    (trusted_certs_paths config);
  mret {| trusted_jwk_sets := concat sets; trusted_certs := certs;
          insecure_key := cfg_insecure_key config |}.

(** The public key a JWK describes: the first part of [verify_jwk_endorsement]. *)
Definition jwk_public_key (key : Jwk) : outcome anyhow pkey :=
  match algorithm key with
  | AP_RSA n e =>
      n ← ok_or "decode RSA public key parameter n" (tk_base64_url_decode n);
      e ← ok_or "decode RSA public key parameter e" (tk_base64_url_decode e);
      ok_or "rsa" (rsa_public_key n e)
  | AP_EllipticCurve curve x y =>
      x ← ok_or "decode" (tk_base64_url_decode x);
      y ← ok_or "decode" (tk_base64_url_decode y);
      if String.eqb curve "P-256" then ok_or "ec" (p256_public_key x y)
      else Err "Unsupported elliptic curve"
  | _ => Err "Only RSA or EC JWKs are supported."
  end.

(** A certificate of the [x5c] header: the line breaks are removed, then it is
    decoded. *)
Definition x5c_cert (cert : string) : outcome anyhow x509 :=
  der ← ok_or "Illegal x5c cert" (tk_base64_url_decode (replace_char "010" "" cert));
  ok_or "Invalid x509 in x5c" (x509_from_der der).

Fixpoint out_collect {E A B} (f : A -> outcome E B) (l : list A) : outcome E (list B) :=
  match l with
  | [] => Ok []
  | x :: l => y ← f x; ys ← out_collect f l; Ok (y :: ys)
  end.

(** [verify_jwk_endorsement]. *)
Definition verify_jwk_endorsement (v : JwkAttestationTokenVerifier) (key : Jwk) : outcome anyhow unit :=
  public_key ← jwk_public_key key;
  match x509_chain key with
  | None => Err "No x5c extension inside JWK. Invalid public key."
  | Some [] => Err "Empty x5c extension inside JWK. Invalid public key."
  | Some (c0 :: rest) =>
      leaf_cert ← x5c_cert c0;
      leaf_key ← ok_or "public_key" (x509_public_key leaf_cert);
      if negb (public_eq public_key leaf_key) then Err "jwk does not match x5c"
      else
        cert_chain ← out_collect x5c_cert rest;
        valid ← ok_or "store" (verify_cert (trusted_certs v) leaf_cert cert_chain);
        if valid : bool then Ok tt else Err "JWK cannot be validated by trust anchor"
  end.

(** [get_verification_jwk]. *)
Definition get_verification_jwk (v : JwkAttestationTokenVerifier) (header : Header) :
    outcome anyhow Jwk :=
  match h_jwk header with
  | Some key =>
      if insecure_key v then Ok key
      else if bool_decide (length (trusted_certs v) = 0%nat) then
        Err "Cannot verify token since trusted cert is empty"
      else verify_jwk_endorsement v key;; Ok key
  | None =>
      if bool_decide (length (trusted_jwk_sets v) = 0%nat) then
        Err "Cannot verify token since trusted JWK Set is empty"
      else
        kid ← ok_or "Failed to decode kid in the token header" (h_kid header);
        ok_or "Failed to find Jwk with kid in JwkSet" (jwk_find kid (trusted_jwk_sets v))
  end.

(** [JwkAttestationTokenVerifier::verify]. *)
Definition jwk_verify (v : JwkAttestationTokenVerifier) (now : Z) (token : string) :
    outcome anyhow Value :=
  header ← ok_or "Failed to decode attestation token header" (decode_header token);
  key ← get_verification_jwk v header;
  key_alg ← ok_or "Failed to find key_algorithm in Jwk" (key_algorithm key);
  if negb (algorithm_from_str key_alg) then Err "algorithm"
  else if negb (decoding_key_ok key) then Err "decoding key"
  else ok_or "Failed to decode attestation token" (jwt_decode now token key key_alg).

(** ** [TokenVerifier] *)
Record TokenVerifier := {
  verifier : JwkAttestationTokenVerifier;
  extra_teekey_paths : list string;
}.

Definition TOKEN_TEE_PUBKEY_PATH_ITA : string := "/tdx/attester_runtime_data/tee-pubkey".
Definition TOKEN_TEE_PUBKEY_PATH_ITA_VTPM : string := "/tdx/attester_user_data/tee-pubkey".
Definition TOKEN_TEE_PUBKEY_PATH_COCO : string := "/customized_claims/runtime_data/tee-pubkey".
Definition TOKEN_TEE_PUBKEY_PATH_EAR : string :=
  "/submods/cpu0/ear.veraison.annotated-evidence/runtime_data_claims/tee-pubkey".
Definition TOKEN_TEE_PUBKEY_PATH_VALUE : string := "/tee-pubkey".

Definition builtin_teekey_paths : list string :=
  [TOKEN_TEE_PUBKEY_PATH_ITA; TOKEN_TEE_PUBKEY_PATH_ITA_VTPM; TOKEN_TEE_PUBKEY_PATH_COCO;
   TOKEN_TEE_PUBKEY_PATH_EAR; TOKEN_TEE_PUBKEY_PATH_VALUE].

Definition token_verify (t : TokenVerifier) (now : Z) (token : string) : outcome TokenError Value :=
  map_err TokenVerificationFailed (jwk_verify (verifier t) now token).

Definition token_verifier_from_config (config : AttestationTokenVerifierConfig) :
    st Fs TokenError TokenVerifier :=
  verifier ← st_map_err TokenVerifierInitialization (jwk_verifier_new config);
  mret {| verifier := verifier;
          extra_teekey_paths := cfg_extra_teekey_paths config ++ builtin_teekey_paths |}.

Fixpoint extract_from (paths : list string) (claim : Value) : outcome TokenError TeePubKey :=
  match paths with
  | [] => Err NoTeePubKeyClaimFound
  | path :: paths =>
      match pointer path claim with
      | Some pkey_value => ok_or TeePubKeyParseFailed (tee_pub_key_deserialize pkey_value)
      | None => extract_from paths claim
      end
  end.

Definition extract_tee_public_key (t : TokenVerifier) (claim : Value) : outcome TokenError TeePubKey :=
  extract_from (extra_teekey_paths t) claim.
End Verifier.

(** ** Lemmas *)
Section TokenLemmas.
Context `{D : Disk} `{HA : HttpAuth} `{J : JwtSimple} `{C : TokenCrates}.

(** What an endorsed key is: its public key is that of the leaf certificate
    of its own chain, and the chain leads to a configured certificate. *)
Definition endorsed (v : JwkAttestationTokenVerifier) (key : Jwk) : Prop :=
  exists pk c0 rest leaf leaf_key chain,
    jwk_public_key key = Ok pk /\ x509_chain key = Some (c0 :: rest) /\
    x5c_cert c0 = Ok leaf /\ x509_public_key leaf = Some leaf_key /\
    public_eq pk leaf_key = true /\
    out_collect x5c_cert rest = Ok chain /\
    verify_cert (trusted_certs v) leaf chain = Some true.

Lemma verify_jwk_endorsement_Ok v key u :
  verify_jwk_endorsement v key = Ok u <-> endorsed v key.
Proof.
  unfold verify_jwk_endorsement, endorsed. split.
  - intros H. inv_ok. destruct (x509_chain key) as [[|c0 rest]|]; try discriminate. inv_ok.
    destruct (public_eq a a1) eqn:E; cbn in H; [|discriminate]. inv_ok.
    destruct a3; [|discriminate]. eauto 20.
  - destruct u. intros (pk & c0 & rest & leaf & lk & chain & -> & -> & H1 & H2 & H3 & H4 & H5).
    cbn. rewrite H1. cbn. rewrite H2. cbn. rewrite H3. cbn. rewrite H4. cbn. now rewrite H5.
Qed.

(** The key a token is checked against is trusted. *)
Definition trusted_key (v : JwkAttestationTokenVerifier) (header : Header) (key : Jwk) : Prop :=
  match h_jwk header with
  | Some k => key = k /\ (insecure_key v = true \/ endorsed v key /\ trusted_certs v <> [])
  | None => exists kid, h_kid header = Some kid /\ key ∈ trusted_jwk_sets v /\ key_id key = Some kid
  end.

Lemma get_verification_jwk_Ok (Spec : TokenCratesSpec C) v header key :
  get_verification_jwk v header = Ok key -> trusted_key v header key.
Proof.
  unfold get_verification_jwk, trusted_key. destruct (h_jwk header) as [k|].
  - destruct (insecure_key v); [intros [= ->]; auto|].
    case_bool_decide as Hc; [discriminate|]. intros H. inv_ok.
    apply verify_jwk_endorsement_Ok in Hok. split; [done|]. right. split; [done|].
    intros E. now rewrite E in Hc.
  - case_bool_decide as Hc; [discriminate|]. intros H. inv_ok.
    exists a. split; [done|]. now apply jwk_find_spec.
Qed.

Lemma jwk_verify_Ok v now token claims :
  jwk_verify v now token = Ok claims <->
  exists header key alg,
    decode_header token = Some header /\ get_verification_jwk v header = Ok key /\
    key_algorithm key = Some alg /\ algorithm_from_str alg = true /\
    decoding_key_ok key = true /\ jwt_decode now token key alg = Some claims.
Proof.
  unfold jwk_verify. split.
  - intros H. inv_ok. destruct (algorithm_from_str a1) eqn:E1; [|discriminate].
    destruct (decoding_key_ok a0) eqn:E2; [|discriminate]. cbn in H. inv_ok. eauto 12.
  - intros (header & key & alg & -> & H1 & H2 & H3 & H4 & H5).
    cbn. rewrite H1. cbn. rewrite H2. cbn. rewrite H3, H4. cbn. now rewrite H5.
Qed.

Lemma extract_from_Ok paths claim k :
  extract_from paths claim = Ok k ->
  exists pre path post v, paths = pre ++ path :: post /\
    Forall (fun p => pointer p claim = None) pre /\ pointer path claim = Some v /\
    tee_pub_key_deserialize v = Some k.
Proof.
  induction paths as [|p paths IH]; cbn; [discriminate|].
  destruct (pointer p claim) as [v|] eqn:E.
  - intros H. inv_ok. exists [], p, paths, v. eauto.
  - intros (pre & path & post & v & -> & H1 & H2 & H3)%IH. exists (p :: pre), path, post, v. eauto.
Qed.

(** ** Properties *)

(** C8: a token is accepted only under a trusted key.  If the verifier returns
    claims, they are what the JWT library decodes from that token under some key
    and the algorithm that key declares, and the key is either carried in the
    header of the token and, unless key checking is switched off, endorsed (its
    public key equals that of the leaf of its [x5c] chain and the chain verifies
    against a non-empty list of configured certificates), or, when the header
    carries none, it is in a configured JWK set under the identifier of the
    header. *)
Theorem token_accepted_trusted (Spec : TokenCratesSpec C) t now token claims :
  token_verify t now token = Ok claims ->
  exists header key alg,
    decode_header token = Some header /\ trusted_key (verifier t) header key /\
    key_algorithm key = Some alg /\ jwt_decode now token key alg = Some claims.
Proof.
  unfold token_verify. rewrite map_err_Ok, jwk_verify_Ok.
  intros (header & key & alg & H1 & H2 & H3 & _ & _ & H4).
  eauto 8 using get_verification_jwk_Ok.
Qed.

(** The TEE key is looked up in a fixed order.  A verifier built from a
    configuration tries the configured paths first and then the five built-in
    ones; the first path present in the claims decides, and a key that does not
    parse there is an error, never a reason to look further. *)
Theorem tee_key_lookup_order config fs fs' t claim :
  token_verifier_from_config config fs = (fs', Ok t) ->
  let paths := cfg_extra_teekey_paths config ++ builtin_teekey_paths in
  (forall k, extract_tee_public_key t claim = Ok k ->
     exists pre path post v, paths = pre ++ path :: post /\
       Forall (fun p => pointer p claim = None) pre /\ pointer path claim = Some v /\
       tee_pub_key_deserialize v = Some k) /\
  (forall pre path post v, paths = pre ++ path :: post ->
     Forall (fun p => pointer p claim = None) pre -> pointer path claim = Some v ->
     extract_tee_public_key t claim = ok_or TeePubKeyParseFailed (tee_pub_key_deserialize v)) /\
  (Forall (fun p => pointer p claim = None) paths ->
     extract_tee_public_key t claim = Err NoTeePubKeyClaimFound).
Proof.
  intros H paths. assert (Hp : extra_teekey_paths t = paths).
  { unfold token_verifier_from_config in H. inv_st. reflexivity. }
  unfold extract_tee_public_key. rewrite Hp. split; [|split].
  - apply extract_from_Ok.
  - intros pre path post v -> Hpre Hv. clear Hp. induction Hpre as [|p pre E _ IH]; cbn; [now rewrite Hv|].
    rewrite E. exact IH.
  - clear Hp. induction 1 as [|p ps E _ IH]; cbn; [done|]. now rewrite E.
Qed.

(** Admin access fails closed.  An admin interface configured with
    [insecure_api] off has a key read from the configured file, and a request is
    let through only with a bearer token that verifies under that key; with no
    key configured there is no admin interface at all. *)
Theorem admin_requires_key config fs fs' a now request :
  insecure_api config = false ->
  admin_try_from config fs = (fs', Ok a) ->
  fs' = fs /\
  exists path content pem key,
    auth_public_key config = Some path /\ files fs !! resolve path = Some content /\
    from_utf8 content = Some pem /\ ed25519_from_pem pem = Some key /\
    (validate_auth a now request = Ok tt <->
     exists token, bearer_token request = Some token /\ ed25519_verify_token key now token = true).
Proof.
  intros Hi H. unfold admin_try_from in H. rewrite Hi in H. inv_st.
  inv_ok. apply fs_read_Ok in Hst0 as [-> E]. split; [done|].
  exists a0, a1, a2, a3. do 4 (split; [done|]). unfold validate_auth. cbn. split.
  - intros H. inv_ok. exists a. split; [done|]. now destruct (ed25519_verify_token _ _ _).
  - intros (token & -> & Hv). cbn. now rewrite Hv.
Qed.
End TokenLemmas.

(** ** Witnesses *)
Module TokenDemo.
#[export] Instance good_disk : Disk := {| disk_fault _ _ := false; made _ := 0%nat; written _ _ := None |}.
#[export] Instance http_auth : HttpAuth := fun r => headers r "Authorization".
#[export] Instance jwt_simple : JwtSimple :=
  {| ed25519_key := string; ed25519_from_pem := Some;
     ed25519_verify_token := fun k _ t => String.eqb k t |}.

Definition key : Jwk :=
  {| key_id := Some "k1"; key_algorithm := Some "ES256"; x509_chain := None;
     algorithm := AP_EllipticCurve "P-256" "x" "y" |}.
Definition claims : Value := VObject [("tee-pubkey", VString "pk")].

(** One valid token, signed by [key], which the header names by its identifier. *)
#[export] Instance crates : TokenCrates := {|
  decode_header t := if String.eqb t "good" then Some {| h_jwk := None; h_kid := Some "k1" |} else None;
  jwk_find kid keys := List.find (fun k => bool_decide (key_id k = Some kid)) keys;
  algorithm_from_str a := String.eqb a "ES256";
  decoding_key_ok _ := true;
  jwt_decode _ t _ _ := if String.eqb t "good" then Some claims else None;
  x509 := unit; pkey := unit;
  tk_base64_url_decode s := Some (str_bytes s);
  rsa_public_key _ _ := Some tt; p256_public_key _ _ := Some tt;
  x509_from_der _ := Some tt; x509_from_pem _ := Some tt; x509_public_key _ := Some tt;
  public_eq _ _ := true; verify_cert _ _ _ := Some true;
  url_parse s := Some ("file", s); url_set_path _ s := s; http_get _ := None;
  openid_jwks_uri _ := None; jwk_set_from_json _ := Some [key];
  tee_pub_key_deserialize v :=
    match v with VString s => Some (RSA "RSA-OAEP-256" s "AQAB") | _ => None end;
|}.

#[export] Instance crates_spec : TokenCratesSpec crates.
Proof.
  constructor. intros kid keys k H. apply List.find_some in H as [H1 H2].
  split; [now apply list_elem_of_In|]. now apply bool_decide_eq_true in H2.
Qed.

Definition config : AttestationTokenVerifierConfig :=
  {| cfg_extra_teekey_paths := ["/a"]; trusted_certs_paths := [];
     cfg_trusted_jwk_sets := ["/jwks"]; cfg_insecure_key := false |}.
Definition fs0 : Fs := {| files := {[ ["jwks"] := []; ["admin.pem"] := str_bytes "adm" ]}; dirs := ∅ |}.
Definition t0 : TokenVerifier :=
  {| verifier := {| trusted_jwk_sets := [key]; trusted_certs := []; insecure_key := false |};
     extra_teekey_paths := "/a" :: builtin_teekey_paths |}.
Definition admin_config : AdminConfig :=
  {| auth_public_key := Some "/admin.pem"; insecure_api := false |}.
Definition request : HttpRequest :=
  {| http_method := POST; http_path := ""; query_string := ""; match_info := fun _ => None;
     cookie := fun _ => None;
     headers := fun h => if String.eqb h "Authorization" then Some "adm" else None |}.
End TokenDemo.

Lemma token_accepted_trusted_witness :
  exists header key alg, @decode_header TokenDemo.crates "good" = Some header /\
    @trusted_key TokenDemo.crates (verifier TokenDemo.t0) header key /\
    key_algorithm key = Some alg /\
    @jwt_decode TokenDemo.crates 0 "good" key alg = Some TokenDemo.claims.
Proof.
  apply (@token_accepted_trusted TokenDemo.crates TokenDemo.crates_spec TokenDemo.t0 0 "good").
  vm_compute; reflexivity.
Defined.

Lemma tee_key_lookup_order_witness :
  @extract_tee_public_key TokenDemo.crates TokenDemo.t0 TokenDemo.claims =
  Ok (RSA "RSA-OAEP-256" "pk" "AQAB").
Proof.
  destruct (@tee_key_lookup_order TokenDemo.good_disk TokenDemo.crates TokenDemo.config
    TokenDemo.fs0 TokenDemo.fs0 TokenDemo.t0 TokenDemo.claims) as (_ & H & _).
  - vm_compute; reflexivity.
  - apply (H ["/a"; TOKEN_TEE_PUBKEY_PATH_ITA; TOKEN_TEE_PUBKEY_PATH_ITA_VTPM;
              TOKEN_TEE_PUBKEY_PATH_COCO; TOKEN_TEE_PUBKEY_PATH_EAR]
             TOKEN_TEE_PUBKEY_PATH_VALUE [] (VString "pk")).
    + reflexivity.
    + repeat constructor.
    + vm_compute; reflexivity.
Defined.

Lemma admin_requires_key_witness :
  exists token, @bearer_token TokenDemo.http_auth TokenDemo.request = Some token.
Proof.
  destruct (@admin_requires_key TokenDemo.good_disk TokenDemo.http_auth TokenDemo.jwt_simple
    TokenDemo.admin_config TokenDemo.fs0 TokenDemo.fs0
    (@Build_Admin TokenDemo.jwt_simple (Some "adm")) 0 TokenDemo.request) as (_ & p & c & pem & k & _ & _ & _ & _ & H).
  - reflexivity.
  - vm_compute; reflexivity.
  - destruct (proj1 H) as (t & Ht & _); [vm_compute; reflexivity|]. exists t. exact Ht.
Defined.
