(* ===== verification/Jwe.v ===== *)
(** * Encryption of responses to the TEE ([kbs/src/jwe.rs])

    A response is encrypted with a fresh AES-256-GCM key, which is wrapped
    for the public key of the TEE by RSA or by ECDH-ES.  The primitives are
    parameters; the random values a call draws are an argument of it. *)
From S2P Require Import Prelude Types Text.

Definition RSA1_5_ALGORITHM : string := "RSA1_5".
Definition RSA_OAEP256_ALGORITHM : string := "RSA-OAEP-256".
Definition ECDH_ES_A256KW : string := "ECDH-ES+A256KW".
Definition EC_KTY : string := "EC".
Definition P256_CURVE : string := "P-256".
Definition AES_GCM_256_ALGORITHM : string := "A256GCM".
Definition AES_GCM_256_KEY_BITS : Z := 256.

(** [kbs_types]. *)
Record ProtectedHeader := {
  ph_alg : string;
  ph_enc : string;
  other_fields : list (string * Value);
}.

Record Response := {
  protected : ProtectedHeader;
  encrypted_key : bytes;
  iv : bytes;
  ciphertext : bytes;
  aad : option bytes;
  tag : bytes;
}.

Inductive RsaPadding := Pkcs1v15Encrypt | Oaep_Sha256.

Class JweCrates := {
  jwe_base64_decode : string -> option bytes;
  jwe_base64_encode : bytes -> string;
  (** [ProtectedHeader::generate_aad] *)
  generate_aad : ProtectedHeader -> option bytes;
  (** AES-256-GCM: key, nonce, associated data, plain text; ciphertext and tag *)
  gcm_encrypt : bytes -> bytes -> bytes -> bytes -> option (bytes * bytes);
  (** [RsaPublicKey::new] and [encrypt] with a random seed *)
  rsa_public : Type;
  rsa_new : Z -> Z -> option rsa_public;
  rsa_encrypt : bytes -> RsaPadding -> rsa_public -> bytes -> option bytes;
  (** P-256: points, ephemeral secrets, Diffie-Hellman *)
  p256_point : Type;
  p256_secret : Type;
  p256_from_affine : bytes -> bytes -> option p256_point;
  p256_public : p256_secret -> p256_point;
  p256_x : p256_point -> option bytes;
  p256_y : p256_point -> option bytes;
  diffie_hellman : p256_secret -> p256_point -> bytes;
  (** [concat_kdf] with SHA-256, and AES key wrap *)
  concat_kdf : bytes -> bytes -> nat -> option bytes;
  aes_kw_wrap : bytes -> bytes -> option bytes;
}.

Definition be_bytes (n : nat) (z : Z) : bytes := rev (le_split n z).

(** [BigUint::from_bytes_be]. *)
Definition from_bytes_be (b : bytes) : Z := le_combine (rev b).

Section JweOps.
Context `{C : JweCrates}.

(** The random values of one call. *)
Record JweRandom := {
  rnd_key : bytes;
  rnd_iv : bytes;
  rnd_seed : bytes;
  rnd_secret : p256_secret;
}.

(** The body [rsa_1v15] and [rsa_oaep256] share but for algorithm and padding. *)
Definition rsa_with (alg : string) (padding : RsaPadding) (rnd : JweRandom)
    (k_mod k_exp : string) (payload_data : bytes) : outcome anyhow Response :=
  let protected := {| ph_alg := alg; ph_enc := AES_GCM_256_ALGORITHM; other_fields := [] |} in
  aad ← ok_or "Generate JWE AAD" (generate_aad protected);
  sealed ← ok_or "AES encrypt Resource payload failed"
    (gcm_encrypt (rnd_key rnd) (rnd_iv rnd) aad payload_data);
  let '(ciphertext, tag) := sealed in
  k_mod ← ok_or "base64 decode k_mod failed" (jwe_base64_decode k_mod);
  k_exp ← ok_or "base64 decode k_exp failed" (jwe_base64_decode k_exp);
  rsa_pub_key ← ok_or "Building RSA key from modulus and exponent failed"
    (rsa_new (from_bytes_be k_mod) (from_bytes_be k_exp));
  encrypted_key ← ok_or "RSA encrypt sym key failed"
    (rsa_encrypt (rnd_seed rnd) padding rsa_pub_key (rnd_key rnd));
  Ok {| protected := protected; encrypted_key := encrypted_key; iv := rnd_iv rnd;
        ciphertext := ciphertext; aad := None; tag := tag |}.

Definition rsa_1v15 (rnd : JweRandom) (k_mod k_exp : string) (payload_data : bytes) :
    outcome anyhow Response :=
  rsa_with RSA1_5_ALGORITHM Pkcs1v15Encrypt rnd k_mod k_exp payload_data.

Definition rsa_oaep256 (rnd : JweRandom) (k_mod k_exp : string) (payload_data : bytes) :
    outcome anyhow Response :=
  rsa_with RSA_OAEP256_ALGORITHM Oaep_Sha256 rnd k_mod k_exp payload_data.

(** The other information of the key derivation: algorithm, empty party
    information, key length. *)
Definition key_derivation_materials : bytes :=
  be_bytes 4 (Z.of_nat (String.length ECDH_ES_A256KW)) ++ str_bytes ECDH_ES_A256KW ++
  be_bytes 4 0 ++ be_bytes 4 0 ++ be_bytes 4 AES_GCM_256_KEY_BITS.

(** [try_into::<[u8; 32]>()]. *)
Definition array32 (e : anyhow) (b : bytes) : outcome anyhow bytes :=
  if bool_decide (length b = 32%nat) then Ok b else Err e.

Definition epk_fields (epk_x epk_y : string) : list (string * Value) :=
  [("epk", VObject [("crv", VString P256_CURVE); ("kty", VString EC_KTY);
                    ("x", VString epk_x); ("y", VString epk_y)])].

Definition ecdh_es_a256kw_p256 (rnd : JweRandom) (x y : string) (payload_data : bytes) :
    outcome anyhow Response :=
  x ← ok_or "base64 decode x failed" (jwe_base64_decode x);
  x ← array32 "invalid bytes length of coordinates X" x;
  y ← ok_or "base64 decode y failed" (jwe_base64_decode y);
  y ← array32 "invalid bytes length of coordinates Y" y;
  public_key ← ok_or "invalid TEE public key" (p256_from_affine x y);
  let z := diffie_hellman (rnd_secret rnd) public_key in
  wrapping_key ← ok_or "failed to do concat KDF" (concat_kdf z key_derivation_materials 32);
  wrapping_key ← array32 "invalid bytes length of AES wrapping key" wrapping_key;
  encrypted_key ← ok_or "failed to do AES wrapping" (aes_kw_wrap wrapping_key (rnd_key rnd));
  let point := p256_public (rnd_secret rnd) in
  epk_x ← ok_or "invalid public key: without coordinate X" (p256_x point);
  epk_y ← ok_or "invalid public key: without coordinate Y" (p256_y point);
  let protected := {|
    ph_alg := ECDH_ES_A256KW; ph_enc := AES_GCM_256_ALGORITHM;
    other_fields := epk_fields (jwe_base64_encode epk_x) (jwe_base64_encode epk_y) |} in
  aad ← ok_or "Generate JWE AAD" (generate_aad protected);
  sealed ← ok_or "AES encrypt Resource payload failed"
    (gcm_encrypt (rnd_key rnd) (rnd_iv rnd) aad payload_data);
  let '(ciphertext, tag) := sealed in
  Ok {| protected := protected; encrypted_key := encrypted_key; iv := rnd_iv rnd;
        ciphertext := ciphertext; aad := None; tag := tag |}.

(** [jwe]. *)
Definition jwe (rnd : JweRandom) (tee_pub_key : TeePubKey) (payload_data : bytes) :
    outcome anyhow Response :=
  match tee_pub_key with
  | RSA alg k_mod k_exp =>
      if String.eqb alg RSA1_5_ALGORITHM then rsa_1v15 rnd k_mod k_exp payload_data
      else if String.eqb alg RSA_OAEP256_ALGORITHM then rsa_oaep256 rnd k_mod k_exp payload_data
      else Err "algorithm is not supported"
  | EC crv alg x y =>
      if String.eqb crv P256_CURVE && String.eqb alg ECDH_ES_A256KW then
        ecdh_es_a256kw_p256 rnd x y payload_data
      else Err "curve and algorithm is not supported"
  end.
End JweOps.

(** ** The receiving side (RFC 7516, RFC 7518)

    What the TEE does with a response, over the inverse primitives. *)
Class JweReceiver (C : JweCrates) := {
  gcm_decrypt : bytes -> bytes -> bytes -> bytes -> bytes -> option bytes;
  rsa_private : Type;
  rsa_public_of : rsa_private -> Z * Z;
  rsa_decrypt : RsaPadding -> rsa_private -> bytes -> option bytes;
  aes_kw_unwrap : bytes -> bytes -> option bytes;
}.

Class JweReceiverSpec (C : JweCrates) (R : JweReceiver C) : Prop := {
  gcm_correct : forall k n a p c t,
    gcm_encrypt k n a p = Some (c, t) -> gcm_decrypt k n a c t = Some p;
  rsa_correct : forall sk pk seed pad m c,
    rsa_new (rsa_public_of sk).1 (rsa_public_of sk).2 = Some pk ->
    rsa_encrypt seed pad pk m = Some c -> rsa_decrypt pad sk c = Some m;
  dh_commutes : forall s s', diffie_hellman s (p256_public s') = diffie_hellman s' (p256_public s);
  p256_affine : forall p x y, p256_x p = Some x -> p256_y p = Some y ->
    p256_from_affine x y = Some p /\ length x = 32%nat /\ length y = 32%nat;
  aes_kw_correct : forall kek k c, aes_kw_wrap kek k = Some c -> aes_kw_unwrap kek c = Some k;
  jwe_base64_correct : forall b, jwe_base64_decode (jwe_base64_encode b) = Some b;
}.

Section Receiver.
Context `{C : JweCrates} {R : JweReceiver C}.

(** The private key of a TEE. *)
Inductive TeePrivKey :=
| PrivRSA (sk : rsa_private)
| PrivEC (sk : p256_secret).

(** A public key that publishes a private one. *)
Definition publishes (pub : TeePubKey) (priv : TeePrivKey) : Prop :=
  match pub, priv with
  | RSA _ k_mod k_exp, PrivRSA sk =>
      from_bytes_be <$> jwe_base64_decode k_mod = Some (rsa_public_of sk).1 /\
      from_bytes_be <$> jwe_base64_decode k_exp = Some (rsa_public_of sk).2
  | EC _ _ x y, PrivEC sk =>
      (bx ← jwe_base64_decode x; by_ ← jwe_base64_decode y; p256_from_affine bx by_)
      = Some (p256_public sk)
  | _, _ => False
  end.

Definition epk_point (fields : list (string * Value)) : option p256_point :=
  v ← obj_get "epk" fields; m ← as_object v;
  x ← obj_get "x" m; x ← as_str x; x ← jwe_base64_decode x;
  y ← obj_get "y" m; y ← as_str y; y ← jwe_base64_decode y;
  p256_from_affine x y.

(** The other information of the Concat KDF as RFC 7518 (4.6.2) lays it out for
    ECDH-ES+A256KW without party information, byte by byte: the length-prefixed
    algorithm id, two empty party fields, and the key length, 256 bits. *)
Definition rfc7518_other_info : bytes :=
  [Init.Byte.x00; Init.Byte.x00; Init.Byte.x00; Init.Byte.x0e] ++ str_bytes "ECDH-ES+A256KW" ++
  repeat Init.Byte.x00 4 ++ repeat Init.Byte.x00 4 ++ [Init.Byte.x00; Init.Byte.x00; Init.Byte.x01; Init.Byte.x00].

(** Unwrap the content key as the header says. *)
Definition unwrap_key (priv : TeePrivKey) (r : Response) : option bytes :=
  match priv with
  | PrivRSA sk =>
      if String.eqb (ph_alg (protected r)) RSA1_5_ALGORITHM then
        rsa_decrypt Pkcs1v15Encrypt sk (encrypted_key r)
      else if String.eqb (ph_alg (protected r)) RSA_OAEP256_ALGORITHM then
        rsa_decrypt Oaep_Sha256 sk (encrypted_key r)
      else None
  | PrivEC sk =>
      if String.eqb (ph_alg (protected r)) ECDH_ES_A256KW then
        p ← epk_point (other_fields (protected r));
        kek ← concat_kdf (diffie_hellman sk p) rfc7518_other_info 32;
        aes_kw_unwrap kek (encrypted_key r)
      else None
  end.

Definition open_response (priv : TeePrivKey) (r : Response) : option bytes :=
  k ← unwrap_key priv r;
  a ← generate_aad (protected r);
  gcm_decrypt k (iv r) a (ciphertext r) (tag r).

Lemma rsa_with_open (S : JweReceiverSpec C R) alg pad rnd n e payload r sk :
  rsa_with alg pad rnd n e payload = Ok r -> publishes (RSA alg n e) (PrivRSA sk) ->
  ph_alg (protected r) = alg /\ rsa_decrypt pad sk (encrypted_key r) = Some (rnd_key rnd) /\
  (a ← generate_aad (protected r); gcm_decrypt (rnd_key rnd) (iv r) a (ciphertext r) (tag r))
  = Some payload.
Proof.
  unfold rsa_with, publishes. intros H [Hn He]. inv_ok. destruct a0 as [ct tg]. inv_ok. cbn.
  rewrite Hok1 in Hn. rewrite Hok2 in He. cbn in Hn, He. simplify_eq.
  split; [done|]. rewrite Hn, He in Hok3. split; [exact (rsa_correct _ _ _ _ _ _ Hok3 Hok4)|].
  rewrite Hok. cbn. now apply (gcm_correct _ _ _ _ _ _ Hok0).
Qed.

Lemma epk_point_fields (S : JweReceiverSpec C R) x y :
  epk_point (epk_fields (jwe_base64_encode x) (jwe_base64_encode y)) = p256_from_affine x y.
Proof.
  transitivity (bx ← jwe_base64_decode (jwe_base64_encode x);
                by_ ← jwe_base64_decode (jwe_base64_encode y); p256_from_affine bx by_);
    [reflexivity|]. rewrite !jwe_base64_correct. reflexivity.
Qed.

Lemma other_info_rfc7518 : rfc7518_other_info = key_derivation_materials.
Proof. vm_compute. reflexivity. Qed.

Lemma ecdh_open (S : JweReceiverSpec C R) rnd crv alg x y payload r sk :
  ecdh_es_a256kw_p256 rnd x y payload = Ok r -> publishes (EC crv alg x y) (PrivEC sk) ->
  ph_alg (protected r) = ECDH_ES_A256KW /\ unwrap_key (PrivEC sk) r = Some (rnd_key rnd) /\
  (a ← generate_aad (protected r); gcm_decrypt (rnd_key rnd) (iv r) a (ciphertext r) (tag r))
  = Some payload.
Proof.
  unfold ecdh_es_a256kw_p256, publishes. intros H Hp. inv_ok. destruct a10 as [ct tg]. inv_ok.
  unfold array32 in *. repeat case_bool_decide; inv_ok.
  rewrite Hok in Hp. cbn in Hp. rewrite Hok1 in Hp. cbn in Hp. rewrite Hok3 in Hp. simplify_eq.
  split; [done|]. split.
  - unfold unwrap_key. cbn [protected ph_alg other_fields encrypted_key].
    rewrite String.eqb_refl, (epk_point_fields S), other_info_rfc7518.
    destruct (p256_affine _ _ _ Hok7 Hok8) as [-> _]. cbn.
    rewrite dh_commutes, Hok4. cbn. exact (aes_kw_correct _ _ _ Hok6).
  - cbn. rewrite Hok9. cbn. exact (gcm_correct _ _ _ _ _ _ Hok10).
Qed.

(** C30: only what the TEE can open is sent, and it opens to the secret.  If the
    encryption of a payload for a TEE public key succeeds, the key names one of
    the three supported algorithms, the header carries that algorithm and
    A256GCM, and the holder of the matching private key recovers exactly the
    payload. *)
Theorem jwe_opens (S : JweReceiverSpec C R) rnd pub priv payload r :
  jwe rnd pub payload = Ok r -> publishes pub priv ->
  ph_enc (protected r) = AES_GCM_256_ALGORITHM /\
  match pub with
  | RSA alg _ _ => ph_alg (protected r) = alg /\ alg ∈ [RSA1_5_ALGORITHM; RSA_OAEP256_ALGORITHM]
  | EC crv alg _ _ => ph_alg (protected r) = alg /\ crv = P256_CURVE /\ alg = ECDH_ES_A256KW
  end /\
  open_response priv r = Some payload.
Proof.
  intros H Hp. assert (He : ph_enc (protected r) = AES_GCM_256_ALGORITHM).
  { destruct pub; cbn in H; unfold rsa_1v15, rsa_oaep256, rsa_with, ecdh_es_a256kw_p256 in H;
      repeat (case_match; inv_ok); try done. }
  split; [done|]. unfold jwe in H.
  destruct pub as [alg n e|crv alg x y], priv as [sk|sk]; try done.
  - destruct (String.eqb_spec alg RSA1_5_ALGORITHM) as [->|];
      [|destruct (String.eqb_spec alg RSA_OAEP256_ALGORITHM) as [->|]; [|discriminate]];
      apply rsa_with_open with (1 := S) (sk := sk) in H as (Ha & Hk & Hg); try done;
      (split; [split; [done|set_solver]|]);
      unfold open_response, unwrap_key; rewrite Ha; cbn; rewrite Hk; exact Hg.
  - destruct (String.eqb_spec crv P256_CURVE) as [->|]; [|discriminate].
    destruct (String.eqb_spec alg ECDH_ES_A256KW) as [->|]; [|discriminate]. cbn in H.
    destruct (ecdh_open S _ _ _ _ _ _ _ _ H Hp) as (Ha & Hk & Hg).
    split; [done|]. unfold open_response. rewrite Hk. exact Hg.
Qed.
End Receiver.

(** ** Witnesses *)
Module JweDemo.
Definition coordinate : bytes := repeat Init.Byte.x01 32.
#[export] Instance crates : JweCrates := {|
  jwe_base64_decode s := Some (str_bytes s); jwe_base64_encode := string_of_list_byte;
  generate_aad h := Some (str_bytes (ph_alg h));
  gcm_encrypt k n a p := Some (p, k ++ n ++ a);
  rsa_public := Z * Z; rsa_new n e := Some (n, e);
  rsa_encrypt _ _ _ m := Some (rev m);
  p256_point := unit; p256_secret := unit;
  p256_from_affine _ _ := Some tt; p256_public s := s;
  p256_x _ := Some coordinate; p256_y _ := Some coordinate;
  diffie_hellman _ _ := []; concat_kdf _ _ n := Some (repeat Init.Byte.x02 n);
  aes_kw_wrap _ k := Some (rev k) |}.
#[export] Instance receiver : JweReceiver crates := {|
  gcm_decrypt k n a c t := if decide (t = k ++ n ++ a) then Some c else None;
  rsa_private := Z * Z; rsa_public_of k := k;
  rsa_decrypt _ _ c := Some (rev c); aes_kw_unwrap _ c := Some (rev c) |}.
#[export] Instance receiver_spec : JweReceiverSpec crates receiver.
Proof.
  constructor; cbn; intros; simplify_eq; rewrite ?rev_involutive, ?decide_True; try done.
  - now destruct p.
  - f_equal. apply list_byte_of_string_of_list_byte.
Qed.
Definition rnd : JweRandom :=
  {| rnd_key := str_bytes "key"; rnd_iv := str_bytes "iv"; rnd_seed := []; rnd_secret := tt |}.
Definition payload : bytes := str_bytes "secret".
Definition pub : TeePubKey := EC P256_CURVE ECDH_ES_A256KW (string_of_list_byte coordinate)
  (string_of_list_byte coordinate).
Definition priv : TeePrivKey := PrivEC (tt : @p256_secret crates).
Definition response : Response :=
  match jwe rnd pub payload with
  | Ok r => r
  | _ => {| protected := {| ph_alg := ""; ph_enc := ""; other_fields := [] |};
            encrypted_key := []; iv := []; ciphertext := []; aad := None; tag := [] |}
  end.
End JweDemo.

Lemma jwe_opens_witness :
  @open_response JweDemo.crates JweDemo.receiver JweDemo.priv JweDemo.response = Some JweDemo.payload.
Proof.
  refine (proj2 (proj2 (@jwe_opens JweDemo.crates JweDemo.receiver JweDemo.receiver_spec
    JweDemo.rnd JweDemo.pub JweDemo.priv JweDemo.payload JweDemo.response _ _)));
    vm_compute; reflexivity.
Defined.
