(* ===== verification/ApiServer.v ===== *)
(** * The KBS API server ([kbs/src/api_server.rs], [error.rs], [plugins/])

    Plugins and their manager, the request handler that dispatches to the
    attestation service, the policy engine and the plugins, the mapping of
    errors to HTTP responses, and the metrics middleware. *)
From S2P Require Import Prelude Types Text Metrics Session Attestation Fs Json Policy Resource Token Jwe.

(** ** Plugins ([plugins/plugin_manager.rs])

    The trait [ClientPlugin], over the state [W] a plugin works on. *)
Record ClientPlugin (W : Type) := {
  handle : bytes -> string -> string -> Method -> st W anyhow bytes;
  plugin_validate_auth : bytes -> string -> string -> Method -> outcome anyhow bool;
  encrypted : bytes -> string -> string -> Method -> outcome anyhow bool;
}.
Arguments handle {W} _ _ _ _ _.
Arguments plugin_validate_auth {W} _ _ _ _ _.
Arguments encrypted {W} _ _ _ _ _.

(** [plugins/implementations/sample.rs]. *)
Record SampleConfig := { item : string }.
Record SamplePlugin := { _item : string }.

Definition sample_try_from (value : SampleConfig) : outcome anyhow SamplePlugin :=
  Ok {| _item := item value |}.

Definition sample_handle {W} (_body : bytes) (_query _path : string) (_method : Method) :
    st W anyhow bytes := mret (str_bytes "sample plugin response").
Definition sample_validate_auth (_body : bytes) (_query _path : string) (_method : Method) :
    outcome anyhow bool := Ok true.
Definition sample_encrypted (_body : bytes) (_query _path : string) (_method : Method) :
    outcome anyhow bool := Ok false.

(** The backends and plugins of the default feature set. *)
Inductive RepositoryConfig := RC_LocalFs (desc : LocalFsRepoDesc).

Definition repository_config_default : RepositoryConfig := RC_LocalFs local_fs_repo_desc_default.

Inductive PluginsConfig :=
| PC_Sample (c : SampleConfig)
| PC_ResourceStorage (c : RepositoryConfig).

(** [Display for PluginsConfig]: the name a plugin is served under. *)
Definition plugins_config_display (c : PluginsConfig) : string :=
  match c with
  | PC_Sample _ => "sample"
  | PC_ResourceStorage _ => "resource"
  end.

(** ** Errors ([error.rs]) *)
Inductive Error :=
| AdminAuth (e : AdminError)
| E_AttestationError (e : AttestationError)
| HTTPFailed (source : anyhow)
| HTTPSFailed (source : anyhow)
| InvalidRequestPath (path : string)
| JweError (source : anyhow)
| PluginManagerInitialization (source : anyhow)
| PluginNotFound (plugin_name : string)
| PluginInternalError (source : anyhow)
| PolicyDeny
| E_PolicyEngine (e : KbsPolicyEngineError)
| RvpsError (message : string)
| SerdeError
| TokenNotFound
| TokenVerifierError (e : TokenError)
| PrometheusError.

(** [AsRefStr]: the name of the variant. *)
Definition error_as_ref (e : Error) : string :=
  match e with
  | AdminAuth _ => "AdminAuth"
  | E_AttestationError _ => "AttestationError"
  | HTTPFailed _ => "HTTPFailed"
  | HTTPSFailed _ => "HTTPSFailed"
  | InvalidRequestPath _ => "InvalidRequestPath"
  | JweError _ => "JweError"
  | PluginManagerInitialization _ => "PluginManagerInitialization"
  | PluginNotFound _ => "PluginNotFound"
  | PluginInternalError _ => "PluginInternalError"
  | PolicyDeny => "PolicyDeny"
  | E_PolicyEngine _ => "PolicyEngine"
  | RvpsError _ => "RvpsError"
  | SerdeError => "SerdeError"
  | TokenNotFound => "TokenNotFound"
  | TokenVerifierError _ => "TokenVerifierError"
  | PrometheusError => "PrometheusError"
  end.

Definition admin_error_display (e : AdminError) : string :=
  match e with
  | JwtVerificationFailed _ => "Admin Token verification failed"
  | NoPublicKeyGiven => "`auth_public_key` is not set in the config file"
  | ParsePublicKey _ => "Failed to parse admin public key"
  | ParseAuthHeaderFailed => "Failed to parse HTTP Auth Bearer header"
  | ReadPublicKey _ => "Read admin public key failed"
  end.

Definition attestation_error_display (e : AttestationError) : string :=
  match e with
  | AttestationServiceInitialization _ => "Failed to initialize attestation service"
  | ExtractTeePubKeyFailed _ => "Failed to extract Tee public key from claims"
  | RcarAuthFailed source => "RCAR handshake Auth failed: " +:+ source
  | RcarAttestFailed _ => "RCAR handshake Attest failed"
  | SetPolicy _ => "Set Attestation Policy failed"
  end.

(** [Display for Error]. *)
Definition error_display (e : Error) : string :=
  match e with
  | AdminAuth e => "Admin auth error: " +:+ admin_error_display e
  | E_AttestationError e => "Attestation error: " +:+ attestation_error_display e
  | HTTPFailed _ => "HTTP initialization failed"
  | HTTPSFailed _ => "HTTPS initialization failed"
  | InvalidRequestPath path => "Request path " +:+ path +:+ " is invalid"
  | JweError _ => "JWE failed"
  | PluginManagerInitialization _ => "PluginManager initialization failed"
  | PluginNotFound n => "Plugin " +:+ n +:+ " not found"
  | PluginInternalError _ => "Plugin internal error"
  | PolicyDeny => "Access denied by policy"
  | E_PolicyEngine _ => "Policy engine error"
  | RvpsError m => "RVPS configuration failed: " +:+ m
  | SerdeError => "Serialize/Deserialize failed"
  | TokenNotFound => "Attestation Token not found"
  | TokenVerifierError _ => "Token Verifier error"
  | PrometheusError => "Prometheus error"
  end.

Definition ERROR_TYPE_PREFIX : string := "https://github.com/confidential-containers/kbs/errors".

(** The serialisations of the handler ([serde_json::to_string]) and the text
    export of the metrics registry. *)
Class ApiCrates := {
  claims_to_string : Value -> option string;
  reference_values_to_string : list (string * Value) -> option string;
  response_to_string : Response -> option string;
  error_information_to_string : string -> string -> option string;
  export_metrics : Metrics -> option bytes;
}.

(** [error_response]. *)
Definition error_response `{ApiCrates} (e : Error) : outcome Error HttpResponse :=
  body ← unwrap (error_information_to_string
                   (ERROR_TYPE_PREFIX +:+ "/" +:+ error_as_ref e) (error_display e));
  let status := match e with
                | InvalidRequestPath _ | PluginNotFound _ => 404
                | _ => 401
                end in
  Ok {| status := status; set_cookie := None; content_type := None; res_body := str_bytes body |}.

(** ** The server *)
Section Server.
Context {I X : Type} `{A : Attest I} `{T : TimeCrate} `{KC : KbsCrates} `{D : Disk}
  `{PC : PolicyCrates} `{HA : HttpAuth} `{J : JwtSimple} `{TC : TokenCrates} `{JC : JweCrates}
  `{AC : ApiCrates}.

(** What requests share: the file system, the attestation service with its
    sessions, its attestation module and the metrics registry, and whatever the
    optional plugins work on (a key-value server, a security module). *)
Record World := {
  w_fs : Fs;
  w_as : AttestationService I;
  w_ext : X;
}.

Definition set_fs (fs : Fs) (w : World) : World := {| w_fs := fs; w_as := w_as w; w_ext := w_ext w |}.
Definition set_as (a : AttestationService I) (w : World) : World :=
  {| w_fs := w_fs w; w_as := a; w_ext := w_ext w |}.
Definition set_ext (x : X) (w : World) : World := {| w_fs := w_fs w; w_as := w_as w; w_ext := x |}.
Definition on_fs {E B} : st Fs E B -> st World E B := st_on w_fs set_fs.
Definition on_as {E B} : st (AttestationService I) E B -> st World E B := st_on w_as set_as.
Definition on_ext {E B} : st X E B -> st World E B := st_on w_ext set_ext.
Definition w_metrics (w : World) : Metrics := metrics (w_as w).
Definition count_in (f : Metrics -> Metrics) (w : World) : World := set_as (on_metrics f (w_as w)) w.

(** The resource plugin on the shared file system and metrics. *)
Definition resource_view (w : World) : ResourceStorage Fs :=
  {| backend := w_fs w; resource_metrics := w_metrics w |}.
Definition set_resource_view (s : ResourceStorage Fs) (w : World) : World :=
  {| w_fs := backend s; w_as := on_metrics (fun _ => resource_metrics s) (w_as w); w_ext := w_ext w |}.

Definition resource_plugin (l : LocalFs) : ClientPlugin World := {|
  handle body q p m :=
    st_on resource_view set_resource_view (@resource_handle Fs (local_fs_backend l) body q p m);
  plugin_validate_auth := resource_validate_auth;
  encrypted := resource_encrypted;
|}.

Definition sample_plugin : ClientPlugin World := {|
  handle := sample_handle;
  plugin_validate_auth := sample_validate_auth;
  encrypted := sample_encrypted;
|}.

(** [ResourceStorage::try_from], [TryInto<ClientPluginInstance>]. *)
Definition resource_storage_try_from (value : RepositoryConfig) : st World anyhow LocalFs :=
  match value with
  | RC_LocalFs desc =>
      st_map_err (fun _ => "Failed to initialize Resource Storage") (on_fs (local_fs_new desc))
  end.

Definition plugin_try_into (c : PluginsConfig) : st World anyhow (ClientPlugin World) :=
  match c with
  | PC_Sample cfg =>
      _ ← st_map_err (fun _ => "Initialize 'Sample' plugin failed") (st_lift (sample_try_from cfg));
      mret sample_plugin
  | PC_ResourceStorage repository_config =>
      l ← st_map_err (fun _ => "Initialize 'Resource' plugin failed")
            (resource_storage_try_from repository_config);
      mret (resource_plugin l)
  end.

Abbreviation PluginManager := (gmap string (ClientPlugin World)).

(** [PluginManager::try_from]: a later plugin replaces an earlier one of the same name. *)
Fixpoint plugin_manager_from (acc : PluginManager) (value : list PluginsConfig) :
    st World anyhow PluginManager :=
  match value with
  | [] => mret acc
  | cfg :: value =>
      plugin ← plugin_try_into cfg;
      plugin_manager_from (<[plugins_config_display cfg := plugin]> acc) value
  end.

Definition plugin_manager_try_from (value : list PluginsConfig) : st World anyhow PluginManager :=
  plugin_manager_from ∅ value.

Definition plugin_get (m : PluginManager) (name : string) : option (ClientPlugin World) := m !! name.

Record ApiServer := {
  plugin_manager : PluginManager;
  policy_engine : Opa;
  admin_auth : Admin;
  token_verifier : TokenVerifier;
}.

Record KbsConfig := {
  attestation_token : AttestationTokenVerifierConfig;
  admin : AdminConfig;
  policy_engine_config : PolicyEngineConfig;
  plugins : list PluginsConfig;
}.

(** [ApiServer::new], after the attestation service has been created. *)
Definition api_server_new (config : KbsConfig) : st World Error ApiServer :=
  plugin_manager ← st_map_err PluginManagerInitialization (plugin_manager_try_from (plugins config));
  token_verifier ← st_map_err TokenVerifierError
    (on_fs (token_verifier_from_config (attestation_token config)));
  policy_engine ← st_map_err E_PolicyEngine (on_fs (engine_new (policy_engine_config config)));
  admin_auth ← st_map_err AdminAuth (on_fs (admin_try_from (admin config)));
  st_modify (count_in (inc BUILD_INFO));;
  mret {| plugin_manager := plugin_manager; policy_engine := policy_engine;
          admin_auth := admin_auth; token_verifier := token_verifier |}.

(** What one request draws from outside: the clock, a fresh identifier, randomness. *)
Record CallEnv := {
  now : Z;
  uuid : string;
  rnd : JweRandom;
}.

(** [get_attestation_token]: the token of the session, else the bearer token. *)
Definition get_attestation_token (env : CallEnv) (request : HttpRequest) : st World anyhow string :=
  fun w =>
    match on_as (get_attest_token_from_session (now env) request) w with
    | (w', Ok token) => (w', Ok token)
    | (w', Err _) => (w', ok_or "parse Authorization header failed" (bearer_token request))
    | (w', Panic) => (w', Panic)
    end.

(** The two ways to serve a plugin request: for the administrator, and for the
    holder of an attestation token the policy lets through. *)
Definition serve_admin (env : CallEnv) (core : ApiServer) (plugin : ClientPlugin World)
    (request : HttpRequest) (body : bytes) (additional_path : string) : st World Error HttpResponse :=
  st_map_err AdminAuth (st_lift (validate_auth (admin_auth core) (now env) request));;
  response ← st_map_err PluginInternalError
    (handle plugin body (query_string request) additional_path (http_method request));
  mret (ok_body "text/xml" response).

Definition serve_token (env : CallEnv) (core : ApiServer) (plugin : ClientPlugin World)
    (request : HttpRequest) (body : bytes) (additional_path endpoint : string) :
    st World Error HttpResponse :=
  token ← st_map_err (fun _ => TokenNotFound) (get_attestation_token env request);
  claims ← st_map_err TokenVerifierError (st_lift (token_verify (token_verifier core) (now env) token));
  claim_str ← st_lift (ok_or SerdeError (claims_to_string claims));
  st_modify (count_in (inc KBS_POLICY_EVALS));;
  allowed ← st_map_err E_PolicyEngine
    (inspect_err (count_in (inc KBS_POLICY_ERRORS))
       (on_fs (engine_evaluate (policy_engine core) endpoint claim_str)));
  if negb allowed then
    st_modify (count_in (inc KBS_POLICY_VIOLATIONS));;
    st_err PolicyDeny
  else
    st_modify (count_in (inc KBS_POLICY_APPROVALS));;
    response ← st_map_err PluginInternalError
      (handle plugin body (query_string request) additional_path (http_method request));
    enc ← st_map_err PluginInternalError
      (st_lift (encrypted plugin body (query_string request) additional_path (http_method request)));
    if enc : bool then
      public_key ← st_map_err TokenVerifierError
        (st_lift (extract_tee_public_key (token_verifier core) claims));
      jwe ← st_map_err JweError (st_lift (jwe (rnd env) public_key response));
      res ← st_lift (ok_or SerdeError (response_to_string jwe));
      mret (ok_body "application/json" (str_bytes res))
    else mret (ok_body "text/xml" response).

(** [match base_path] of [api]: the built-in endpoints. *)
Inductive Route :=
| R_Auth | R_Attest | R_AttestationPolicy | R_GetReferenceValue | R_PostReferenceValue
| R_PostResourcePolicy | R_GetResourcePolicy | R_Plugin (name : string).

Definition route (base_path : string) (method : Method) : Route :=
  if String.eqb base_path "auth" && bool_decide (method = POST) then R_Auth
  else if String.eqb base_path "attest" && bool_decide (method = POST) then R_Attest
  else if String.eqb base_path "attestation-policy" && bool_decide (method = POST) then R_AttestationPolicy
  else if String.eqb base_path "reference-value" && bool_decide (method = GET) then R_GetReferenceValue
  else if String.eqb base_path "reference-value" && bool_decide (method = POST) then R_PostReferenceValue
  else if String.eqb base_path "resource-policy" && bool_decide (method = POST) then R_PostResourcePolicy
  else if String.eqb base_path "resource-policy" && bool_decide (method = GET) then R_GetResourcePolicy
  else R_Plugin base_path.

(** The [match base_path] of [api]. *)
Definition dispatch (env : CallEnv) (core : ApiServer) (request : HttpRequest) (body : bytes)
    (base_path additional_path : string) : st World Error HttpResponse :=
  let endpoint := base_path +:+ additional_path in
  let check_admin := st_map_err AdminAuth (st_lift (validate_auth (admin_auth core) (now env) request)) in
  match route base_path (http_method request) with
  | R_Auth => st_map_err E_AttestationError (on_as (auth (uuid env) (now env) body))
  | R_Attest => st_map_err E_AttestationError (on_as (attest (now env) body request))
  | R_AttestationPolicy =>
      check_admin;;
      st_map_err E_AttestationError (on_as (set_policy body));;
      mret ok_empty
  | R_GetReferenceValue =>
      check_admin;;
      reference_values ← st_map_err (fun e => RvpsError ("Failed to get reference_values: " +:+ e))
        (on_as query_reference_values);
      reference_values ← st_lift (ok_or SerdeError (reference_values_to_string reference_values));
      mret (ok_body "application/json" (str_bytes reference_values))
  | R_PostReferenceValue =>
      check_admin;;
      message ← st_lift (ok_or (RvpsError "Failed to parse reference value message") (from_utf8 body));
      st_map_err (fun e => RvpsError ("Failed to register reference value: " +:+ e))
        (on_as (register_reference_value message));;
      mret (ok_body "application/json" [])
  | R_PostResourcePolicy =>
      check_admin;;
      st_map_err E_PolicyEngine (on_fs (engine_set_policy (policy_engine core) body));;
      mret ok_empty
  | R_GetResourcePolicy =>
      check_admin;;
      policy ← st_map_err E_PolicyEngine (on_fs (engine_get_policy (policy_engine core)));
      mret (ok_body "text/xml" (str_bytes policy))
  | R_Plugin plugin_name =>
      plugin ← st_lift (ok_or (PluginNotFound plugin_name) (plugin_get (plugin_manager core) plugin_name));
      admin_only ← st_map_err PluginInternalError
        (st_lift (plugin_validate_auth plugin body (query_string request) additional_path
                    (http_method request)));
      if admin_only : bool then serve_admin env core plugin request body additional_path
      else serve_token env core plugin request body additional_path endpoint
  end.

(** [api]. *)
Definition api (env : CallEnv) (core : ApiServer) (request : HttpRequest) (body : bytes) :
    st World Error HttpResponse :=
  base_path ← st_lift (ok_or (InvalidRequestPath (http_path request)) (match_info request "base_path"));
  additional_path ← st_lift
    (ok_or (InvalidRequestPath (http_path request)) (match_info request "additional_path"));
  dispatch env core request body base_path additional_path.

(** What the framework sends for a handled request: the response, or the one
    [ResponseError] makes of the error. *)
Definition respond (env : CallEnv) (core : ApiServer) (request : HttpRequest) (body : bytes) :
    st World Error HttpResponse := fun w =>
  match api env core request body w with
  | (w', Err e) => (w', error_response e)
  | r => r
  end.

(** [prometheus_metrics_handler]. *)
Definition prometheus_metrics_handler : st World Error HttpResponse :=
  report ← st_gets (fun w => export_metrics (w_metrics w));
  report ← st_lift (ok_or PrometheusError report);
  mret {| status := 200; set_cookie := None; content_type := None; res_body := report |}.

(** [prometheus_metrics_middleware] around a service [next]: [content_length]
    is the parsed header ([None]: no header, [Some None]: not a number), and
    [elapsed] the duration of the call. *)
Definition prometheus_metrics_middleware (path : string) (content_length : option (option Z))
    (elapsed : Z) (next : st World Error HttpResponse) : st World Error HttpResponse :=
  let is_kbs_req := String.prefix "/kbs" path in
  (if is_kbs_req then
     st_modify (count_in (inc ACTIVE_CONNECTIONS));;
     st_modify (count_in (inc REQUEST_TOTAL));;
     match content_length with
     | Some (Some len) => st_modify (count_in (observe REQUEST_SIZES len))
     | Some None => mret tt
     | None => st_modify (count_in (observe REQUEST_SIZES 0))
     end
   else mret tt);;
  res ← next;
  (if is_kbs_req then
     st_modify (count_in (observe REQUEST_DURATION elapsed));;
     st_modify (count_in (observe REQUEST_SIZES (len (res_body res))));;
     st_modify (count_in (dec ACTIVE_CONNECTIONS))
   else mret tt);;
  mret res.
End Server.
