(* ===== verification/Access.v ===== *)
(** * What the API server guarantees

    Properties of the request handler of [ApiServer.v]: under which conditions
    secrets are released, state changes, and each HTTP status is sent; how the
    policy metrics add up; what the metrics middleware records. *)
From S2P Require Import Prelude Types Text Metrics Session Attestation Fs Json Policy Resource Token Jwe ApiServer Handshake.

#[local] Arguments String.append !_ _ / : simpl nomatch.

Section Access.
Context {I X : Type} `{A : Attest I} `{T : TimeCrate} `{KC : KbsCrates} `{D : Disk}
  `{PC : PolicyCrates} `{HA : HttpAuth} `{J : JwtSimple} `{TC : TokenCrates} `{JC : JweCrates}
  `{AC : ApiCrates}.
Abbreviation world := (World (I := I) (X := X)).
Implicit Types (w : world) (core : ApiServer (I := I) (X := X)).

(** Two worlds that differ at most in their metrics. *)
Definition same_world w w' : Prop :=
  w_fs w' = w_fs w /\ w_ext w' = w_ext w /\ same_but_metrics (w_as w) (w_as w').

#[global] Instance same_world_refl : Reflexive same_world.
Proof. intros w. now split. Qed.

#[global] Instance same_world_trans : Transitive same_world.
Proof.
  intros w1 w2 w3 (H1 & H2 & H3 & H4 & H5) (K1 & K2 & K3 & K4 & K5).
  repeat split; congruence.
Qed.

(** ** Components of the handler *)
Lemma engine_evaluate_Ok o p c fs fs' b :
  engine_evaluate o p c fs = (fs', Ok b) ->
  exists m data input, policy_in_force o fs = Some m /\
    rego_from_json (resource_path_json p) = Some data /\ rego_from_json c = Some input /\
    rego_eval_bool m data input "data.policy.allow" = Some b.
Proof.
  intros H. unfold engine_evaluate, opa_evaluate, add_policy_from_file in H. inv_st. inv_ok.
  match goal with E : fs_read _ _ = _ |- _ => apply fs_read_Ok in E as [-> E] end.
  destruct (rego_add_data _); inv_st. unfold policy_in_force.
  match goal with E : files _ !! _ = Some _ |- _ => rewrite E end. cbn.
  match goal with E : from_utf8 _ = Some _ |- _ => rewrite E end. cbn. eauto 8.
Qed.

Lemma engine_evaluate_same o p c fs fs' r : engine_evaluate o p c fs = (fs', r) -> fs' = fs.
Proof.
  intros H. unfold engine_evaluate, opa_evaluate, add_policy_from_file, fs_read in H.
  now run_st H.
Qed.

Lemma get_attestation_token_same env rq w w' r :
  get_attestation_token env rq w = (w', r) -> w' = w.
Proof.
  unfold get_attestation_token, on_as, st_on.
  destruct (get_attest_token_from_session _ _ _) as [a x] eqn:E.
  apply get_token_same in E as ->. destruct w, x; now intros [= <- _].
Qed.

(** Where a token comes from: an attested session that has not expired, named
    by the cookie, or the authorization header. *)
Definition token_source (at_ : Z) (rq : HttpRequest) w (token : string) : Prop :=
  (exists id id' t, cookie rq KBS_SESSION_ID = Some id /\
     session_map (w_as w) !! id = Some (Attested token id' t) /\ at_ <= t) \/
  bearer_token rq = Some token.

Lemma get_attestation_token_Ok env rq w w' token :
  get_attestation_token env rq w = (w', Ok token) -> token_source (now env) rq w token.
Proof.
  unfold get_attestation_token, on_as, st_on, token_source.
  destruct (get_attest_token_from_session (now env) rq (w_as w)) as [a x] eqn:E.
  destruct x as [tk|e|]; intros [= _ H].
  - subst. left. apply get_token_Ok. now rewrite E.
  - right. now apply ok_or_Ok in H.
Qed.

(** The token branch of the handler, when it serves. *)
Lemma serve_token_Ok env core p rq body ap ep w w' resp :
  serve_token env core p rq body ap ep w = (w', Ok resp) ->
  exists token claims cs m data input w1 response enc,
    token_source (now env) rq w token /\
    token_verify (token_verifier core) (now env) token = Ok claims /\
    claims_to_string claims = Some cs /\
    policy_in_force (policy_engine core) (w_fs w) = Some m /\
    rego_from_json (resource_path_json ep) = Some data /\ rego_from_json cs = Some input /\
    rego_eval_bool m data input "data.policy.allow" = Some true /\
    same_world w w1 /\
    handle p body (query_string rq) ap (http_method rq) w1 = (w', Ok response) /\
    encrypted p body (query_string rq) ap (http_method rq) = Ok enc /\
    if enc : bool then
      exists key jr out,
        extract_tee_public_key (token_verifier core) claims = Ok key /\
        jwe (rnd env) key response = Ok jr /\ response_to_string jr = Some out /\
        resp = ok_body "application/json" (str_bytes out)
    else resp = ok_body "text/xml" response.
Proof.
  intros H. unfold serve_token, on_fs in H. inv_st. inv_ok.
  pose proof (get_attestation_token_same _ _ _ _ _ Hst) as ->.
  apply get_attestation_token_Ok in Hst.
  match goal with E : engine_evaluate _ _ _ _ = _ |- _ =>
    pose proof (engine_evaluate_same _ _ _ _ _ _ E) as ->;
    apply engine_evaluate_Ok in E as (m & data & input & ? & ? & ? & Heval) end.
  destruct a3; cbn in H; [|now inv_st]. inv_st. inv_ok.
  change (w_fs (count_in _ w)) with (w_fs w) in *.
  assert (s1 = w') as -> by (destruct a4; now inv_st).
  do 9 eexists. do 7 (split; [eassumption|]).
  split; [|split; [eassumption|split; [eassumption|]]]; [now repeat split|].
  destruct a4; inv_st; inv_ok; eauto 8.
Qed.

Lemma json_plain_app s t :
  all_chars json_plain s = true -> all_chars json_plain t = true ->
  all_chars json_plain (s +:+ t) = true.
Proof. intros H1 H2. now rewrite all_chars_app, H1, H2. Qed.

Lemma word_dot_plain c : word_dot_char c = true -> json_plain c = true.
Proof.
  destruct c as [b0 b1 b2 b3 b4 b5 b6 b7].
  destruct b0, b1, b2, b3, b4, b5, b6, b7; vm_compute; congruence.
Qed.

Lemma group_json_plain s : group_matches s = true -> all_chars json_plain s = true.
Proof.
  destruct s as [|c s]; [done|]. cbn. intros [Hc Hs]%andb_prop.
  rewrite (word_dot_plain c) by now apply word_char_dot. cbn.
  eauto using all_chars_impl, word_dot_plain.
Qed.

(** An accepted resource path needs no JSON escape. *)
Lemma display_json_plain d :
  desc_ok d -> all_chars json_plain (resource_desc_display d) = true.
Proof.
  intros (H1 & H2 & H3). unfold resource_desc_display.
  repeat (apply json_plain_app; [auto using group_json_plain|]); auto using group_json_plain.
Qed.

Lemma api_plugin_Ok env core rq body w w' resp name :
  match_info rq "base_path" = Some name -> route name (http_method rq) = R_Plugin name ->
  api env core rq body w = (w', Ok resp) ->
  exists ap p b, match_info rq "additional_path" = Some ap /\
    plugin_get (plugin_manager core) name = Some p /\
    plugin_validate_auth p body (query_string rq) ap (http_method rq) = Ok b /\
    (if b : bool then serve_admin env core p rq body ap
     else serve_token env core p rq body ap (name +:+ ap)) w = (w', Ok resp).
Proof.
  intros Hm Hr H. unfold api, dispatch in H. rewrite Hm in H. inv_st. inv_ok.
  rewrite Hr in H. inv_st. inv_ok. destruct a1; eauto 8.
Qed.

(** An answered GET of the resource endpoint. *)
Lemma resource_get_Ok (PS : PolicyCratesSpec PC) env core rq body w w' resp l :
  plugin_get (plugin_manager core) "resource" = Some (resource_plugin l) ->
  match_info rq "base_path" = Some "resource" -> http_method rq = GET ->
  api env core rq body w = (w', Ok resp) ->
  exists d token claims cs m input secret key jr out,
    match_info rq "additional_path" = Some (String.String slash (resource_desc_display d)) /\
    desc_ok d /\
    token_source (now env) rq w token /\
    token_verify (token_verifier core) (now env) token = Ok claims /\
    claims_to_string claims = Some cs /\ rego_from_json cs = Some input /\
    policy_in_force (policy_engine core) (w_fs w) = Some m /\
    rego_eval_bool m (resource_path_data ("resource/" +:+ resource_desc_display d)) input
      "data.policy.allow" = Some true /\
    local_stored (resolve (repo_dir_path l)) (w_fs w) d = Some secret /\
    extract_tee_public_key (token_verifier core) claims = Ok key /\
    jwe (rnd env) key secret = Ok jr /\ response_to_string jr = Some out /\
    resp = ok_body "application/json" (str_bytes out) /\
    same_world w w'.
Proof.
  intros Hp Hb Hg H.
  destruct (api_plugin_Ok _ _ _ _ _ _ _ _ Hb ltac:(now rewrite Hg) H)
    as (ap & p & b & Hap & Hp' & Hv & Hs).
  rewrite Hp in Hp'. injection Hp' as <-. cbn in Hv. rewrite Hg in Hv. injection Hv as <-.
  apply serve_token_Ok in Hs
    as (tk & cl & cs & m & data & input & w1 & r & enc & H1 & H2 & H3 & H4 & H5 & H6 & H7 & Hw & Hh & He & Hr).
  cbn in He. rewrite Hg in He. injection He as <-.
  destruct Hr as (key & jr & out & K1 & K2 & K3 & ->).
  cbn in Hh. rewrite Hg in Hh. apply st_on_Ok in Hh as (s' & Hh & ->).
  apply handle_GET_Ok in Hh as (d & -> & Hd & Hrd).
  change (backend (resource_view w1)) with (w_fs w1) in Hrd.
  destruct (Hw) as [Hfs Has]. rewrite Hfs in Hrd.
  cbn in Hrd. rewrite (local_fs_read_spec l d _ Hd) in Hrd.
  destruct (disk_fault _ _); [discriminate|]. injection Hrd as Hb' Hrd. apply ok_or_Ok in Hrd.
  assert (Hpl : all_chars json_plain ("resource" +:+ String.String slash (resource_desc_display d)) = true).
  { apply json_plain_app; [reflexivity|]. exact (display_json_plain d Hd). }
  rewrite (rego_from_json_plain _ Hpl) in H5. injection H5 as <-.
  exists d, tk, cl, cs, m, input, r, key, jr, out.
  repeat (split; [first [eassumption | reflexivity]|]).
  split; [exact (eq_sym Hb')|exact Has].
Qed.

(** C1: secrets leave the server only for attested, authorised, intended
    recipients.  If a GET of the resource endpoint is answered, then: the token
    came from an attested unexpired session or from the authorization header; it
    verified; the policy in force, asked about exactly the path
    [resource/<repository>/<type>/<tag>] with the claims of the token as input,
    answered [true]; the secret is the one stored under that path; and the body
    is that secret encrypted to the TEE public key found in those same claims.
    Nothing but metrics changed. *)
Theorem resource_release_sound (PS : PolicyCratesSpec PC) env core rq body w w' resp l :
  plugin_get (plugin_manager core) "resource" = Some (resource_plugin l) ->
  match_info rq "base_path" = Some "resource" -> http_method rq = GET ->
  api env core rq body w = (w', Ok resp) ->
  exists d token claims cs m input secret key jr out,
    match_info rq "additional_path" = Some (String.String slash (resource_desc_display d)) /\
    desc_ok d /\
    token_source (now env) rq w token /\
    token_verify (token_verifier core) (now env) token = Ok claims /\
    claims_to_string claims = Some cs /\ rego_from_json cs = Some input /\
    policy_in_force (policy_engine core) (w_fs w) = Some m /\
    rego_eval_bool m (resource_path_data ("resource/" +:+ resource_desc_display d)) input
      "data.policy.allow" = Some true /\
    local_stored (resolve (repo_dir_path l)) (w_fs w) d = Some secret /\
    extract_tee_public_key (token_verifier core) claims = Ok key /\
    jwe (rnd env) key secret = Ok jr /\ response_to_string jr = Some out /\
    resp = ok_body "application/json" (str_bytes out) /\
    same_world w w'.
Proof. exact (resource_get_Ok PS env core rq body w w' resp l). Qed.

(** ** Plugins of the default feature set *)
Definition standard_plugin (p : ClientPlugin world) : Prop :=
  p = sample_plugin \/ exists l, p = resource_plugin l.

Lemma plugin_try_into_standard c w w' p :
  plugin_try_into c w = (w', Ok p) -> standard_plugin p.
Proof. unfold standard_plugin. destruct c; cbn; intros H; inv_st; eauto. Qed.

Lemma plugin_manager_standard cfgs w w' pm :
  plugin_manager_try_from cfgs w = (w', Ok pm) -> map_Forall (fun _ => standard_plugin) pm.
Proof.
  unfold plugin_manager_try_from.
  enough (Hgen : forall acc w, map_Forall (fun _ => standard_plugin) acc ->
            plugin_manager_from acc cfgs w = (w', Ok pm) -> map_Forall (fun _ => standard_plugin) pm)
    by (intros H; eapply Hgen; [|exact H]; intros k p Hk; now rewrite lookup_empty in Hk).
  clear w. induction cfgs as [|c cfgs IH]; cbn; intros acc v Hacc H; inv_st; [done|].
  eapply IH; [|exact H]. apply map_Forall_insert_2; [|done]. eauto using plugin_try_into_standard.
Qed.

(** Without admin authentication the standard plugins change nothing but
    metrics, and leave the policy counters alone. *)
Definition policy_balance (m : Metrics) : Z :=
  count KBS_POLICY_EVALS m - count KBS_POLICY_APPROVALS m - count KBS_POLICY_VIOLATIONS m
  - count KBS_POLICY_ERRORS m.

Lemma resource_handle_counts {S} `{B : StorageBackend S} body q path m (s s' : ResourceStorage S) r :
  resource_handle body q path m s = (s', r) ->
  policy_balance (resource_metrics s') = policy_balance (resource_metrics s).
Proof.
  intros H. unfold resource_handle, set_secret_resource, get_secret_resource, on_backend in H.
  run_st H; reflexivity.
Qed.

Lemma resource_handle_readonly l body q path m (s s' : ResourceStorage Fs) r :
  method_str m <> "POST" ->
  @resource_handle Fs (local_fs_backend l) body q path m s = (s', r) -> backend s' = backend s.
Proof.
  intros Hm H. unfold resource_handle, get_secret_resource, on_backend in H.
  apply String.eqb_neq in Hm. rewrite Hm in H.
  cbn [read_secret_resource local_fs_backend] in H.
  unfold local_fs_read, fs_read in H. run_st H; reflexivity.
Qed.

Lemma standard_handle p body q path m w w' r :
  standard_plugin p -> handle p body q path m w = (w', r) ->
  policy_balance (w_metrics w') = policy_balance (w_metrics w) /\
  (plugin_validate_auth p body q path m = Ok false -> same_world w w').
Proof.
  intros [->|[l ->]]; cbn; [now intros [= <- <-]|]. unfold st_on.
  destruct (resource_handle _ _ _ _ _) as [s x] eqn:E. intros [= <- <-]. split.
  - exact (resource_handle_counts _ _ _ _ _ _ _ E).
  - unfold resource_validate_auth. destruct (String.eqb_spec (method_str m) "POST"); [done|].
    intros _. apply resource_handle_readonly in E; [|done]. now repeat split.
Qed.

Lemma serve_token_effect env core p rq body ap ep w w' r :
  standard_plugin p ->
  plugin_validate_auth p body (query_string rq) ap (http_method rq) = Ok false ->
  serve_token env core p rq body ap ep w = (w', r) ->
  same_world w w' /\ (r <> Panic -> policy_balance (w_metrics w') = policy_balance (w_metrics w)).
Proof.
  intros Hp Hv H. unfold serve_token, on_fs in H. run_st H.
  all: repeat match goal with
    | E : get_attestation_token _ _ _ = _ |- _ => apply get_attestation_token_same in E; subst
    | E : engine_evaluate _ _ _ _ = _ |- _ => apply engine_evaluate_same in E; subst
    | E : handle _ _ _ _ _ _ = _ |- _ =>
        destruct (standard_handle _ _ _ _ _ _ _ _ Hp E) as [Hb Hs]; specialize (Hs Hv);
        unfold w_metrics in *; rewrite ?Hb; clear E Hb
    end.
  all: split; [try exact Hs; now repeat split|intros Hr].
  all: try done; unfold w_metrics, policy_balance; cbn; count_lia.
Qed.

Lemma policy_balance_as {E B} (m : st (AttestationService I) E B) w w' r :
  (forall s s' x, m s = (s', x) -> policy_balance (metrics s') = policy_balance (metrics s)) ->
  on_as m w = (w', r) ->
  w_fs w' = w_fs w /\ policy_balance (w_metrics w') = policy_balance (w_metrics w).
Proof.
  intros Hm H. unfold on_as, st_on in H. destruct (m (w_as w)) as [s x] eqn:Es.
  injection H as <- <-. split; [done|]. exact (Hm _ _ _ Es).
Qed.

Lemma auth_policy_balance u t b s s' (r : outcome AttestationError HttpResponse) :
  auth u t b s = (s', r) -> policy_balance (metrics s') = policy_balance (metrics s).
Proof.
  intros H. unfold auth, __auth, session_auth, call_inner in H.
  run_st H; unfold policy_balance; cbn; count_lia.
Qed.

Lemma attest_policy_balance t b rq s s' (r : outcome AttestationError HttpResponse) :
  attest t b rq s = (s', r) -> policy_balance (metrics s') = policy_balance (metrics s).
Proof.
  intros H. unfold attest, __attest in H. unfold st_map_err, mbind, st_bind in H.
  destruct (attest_lookup t b rq s) as [s1 r1] eqn:E1.
  assert (H1 : policy_balance (metrics s1) = policy_balance (metrics s)).
  { unfold attest_lookup, session_request, session_challenge in E1.
    run_st E1; unfold policy_balance; cbn; count_lia. }
  destruct r1 as [[resp|p]|e|]; cbn in H; simplify_eq; try done.
  destruct (attest_evidence p s1) as [s2 r2] eqn:E2.
  assert (H2 : policy_balance (metrics s2) = policy_balance (metrics s1)).
  { unfold attest_evidence in E2. run_st E2; unfold policy_balance; cbn; count_lia. }
  destruct r2 as [ev|e|]; cbn in H; simplify_eq; try congruence.
  destruct (attest_finish p ev s2) as [s3 r3] eqn:E3. simplify_eq.
  rewrite <- H1, <- H2. unfold attest_finish, session_request, call_inner in E3.
  run_st E3; unfold policy_balance; cbn; count_lia.
Qed.

(** A request either has no usable path or is dispatched. *)
Lemma api_dispatch env core rq body w :
  (api env core rq body w = (w, Err (InvalidRequestPath (http_path rq))) /\
   (match_info rq "base_path" = None \/ match_info rq "additional_path" = None)) \/
  exists bp ap, match_info rq "base_path" = Some bp /\ match_info rq "additional_path" = Some ap /\
    api env core rq body w = dispatch env core rq body bp ap w.
Proof.
  unfold api. exec. destruct (match_info rq "base_path") as [bp|]; [|eauto].
  destruct (match_info rq "additional_path") as [ap|]; eauto 6.
Qed.

(** A step that fails the admin check changes nothing. *)
Lemma admin_denied {B} env core rq (k : unit -> st world Error B) w w' r :
  validate_auth (admin_auth core) (now env) rq <> Ok tt ->
  (st_map_err AdminAuth (st_lift (validate_auth (admin_auth core) (now env) rq)) ≫= k) w = (w', r) ->
  w' = w /\ is_ok r = false.
Proof.
  intros Hn H. unfold mbind, st_bind, st_map_err, st_lift in H.
  destruct (validate_auth _ _ _) as [[]|e|]; cbn in H; simplify_eq; done.
Qed.

Lemma route_POST bp m :
  route bp m = R_Auth \/ route bp m = R_Attest -> m = POST /\ (bp = "auth" \/ bp = "attest").
Proof.
  unfold route. destruct (String.eqb_spec bp "auth"), (String.eqb_spec bp "attest");
    repeat case_bool_decide; subst; cbn; repeat case_match; naive_solver.
Qed.

Lemma on_as_fs {E B} (m : st (AttestationService I) E B) w w' r : on_as m w = (w', r) -> w_fs w' = w_fs w.
Proof. unfold on_as, st_on. destruct (m (w_as w)). now intros [= <- _]. Qed.

(** A plugin request either stops before the plugin runs, or runs it for the
    administrator or for a token. *)
Lemma dispatch_plugin env core rq body bp ap name w w' r :
  route bp (http_method rq) = R_Plugin name ->
  dispatch env core rq body bp ap w = (w', r) ->
  (w' = w /\ (plugin_get (plugin_manager core) name = None /\ r = Err (PluginNotFound name) \/
              r = Panic \/ exists e, r = Err (PluginInternalError e))) \/
  exists p b, plugin_get (plugin_manager core) name = Some p /\
    plugin_validate_auth p body (query_string rq) ap (http_method rq) = Ok b /\
    (if b : bool then serve_admin env core p rq body ap
     else serve_token env core p rq body ap (bp +:+ ap)) w = (w', r).
Proof.
  unfold dispatch. intros -> H.
  unfold mbind, st_bind at 1, st_lift at 1, ok_or in H.
  destruct (plugin_get _ name) as [p|] eqn:Hp; [|left; simplify_eq; split; [done|]; now left].
  unfold st_bind, st_map_err, st_lift at 1 in H.
  destruct (plugin_validate_auth _ _ _ _ _) as [b|e|] eqn:Hv; cbn in H; simplify_eq;
    [right; exists p, b; now destruct b|left; split; [done|]; eauto..].
Qed.

(** ** What happens to one resource *)

(** Which plugin a standard plugin manager has under a name. *)
Lemma plugin_manager_named cfgs w w' pm :
  plugin_manager_try_from cfgs w = (w', Ok pm) ->
  map_Forall (fun name p => p = sample_plugin \/ name = "resource") pm.
Proof.
  unfold plugin_manager_try_from.
  enough (Hgen : forall acc w, map_Forall (fun name p => p = sample_plugin \/ name = "resource") acc ->
            plugin_manager_from acc cfgs w = (w', Ok pm) -> map_Forall (fun name p => p = sample_plugin \/ name = "resource") pm)
    by (intros H; eapply Hgen; [|exact H]; intros k p Hk; now rewrite lookup_empty in Hk).
  clear w. induction cfgs as [|c cfgs IH]; cbn; intros acc v Hacc H; inv_st; [done|].
  eapply IH; [|exact H]. apply map_Forall_insert_2; [|done].
  destruct c; cbn in Hst |- *; inv_st; auto.
Qed.

(** The administrator posts to a resource. *)
Definition overwrites env core (d : ResourceDesc) (rq : HttpRequest) : Prop :=
  match_info rq "base_path" = Some "resource" /\
  match_info rq "additional_path" = Some (String.String slash (resource_desc_display d)) /\
  method_str (http_method rq) = "POST" /\
  validate_auth (admin_auth core) (now env) rq = Ok tt.

Lemma engine_get_policy_same o fs fs' (r : outcome KbsPolicyEngineError string) :
  engine_get_policy o fs = (fs', r) -> fs' = fs.
Proof.
  unfold engine_get_policy, opa_get_policy, mbind, st_bind, st_map_err. destruct (fs_read _ fs) as [fs1 x] eqn:E.
  apply fs_read_same in E as [-> _]. destruct x; now intros [= <- _].
Qed.

(** A request that fails the admin check. *)
Lemma changes_without_admin cfgs w0 w1 env core rq body w w' r :
  plugin_manager_try_from cfgs w0 = (w1, Ok (plugin_manager core)) ->
  validate_auth (admin_auth core) (now env) rq <> Ok tt ->
  api env core rq body w = (w', r) ->
  w_fs w' = w_fs w /\
  (same_world w w' \/
   http_method rq = POST /\
   (match_info rq "base_path" = Some "auth" \/ match_info rq "base_path" = Some "attest")).
Proof.
  intros Hpm%plugin_manager_standard Hn H.
  enough (same_world w w' \/ w_fs w' = w_fs w /\ http_method rq = POST /\
   (match_info rq "base_path" = Some "auth" \/ match_info rq "base_path" = Some "attest"))
    by (unfold same_world in *; naive_solver).
  destruct (api_dispatch env core rq body w) as [[He Hnone]|(bp & ap & Hbp & Hap & He)];
    rewrite He in H; clear He.
  { injection H as <- <-. now left. }
  pose proof H as H'. unfold dispatch in H. destruct (route bp (http_method rq)) eqn:Hr.
  3-7: left; apply admin_denied in H as [-> _]; done.
  1-2: right; destruct (route_POST bp (http_method rq)) as [Hm Hb]; [now auto|];
    unfold st_map_err in H; destruct (on_as _ _) as [w2 x] eqn:E in H; injection H as <- <-;
    apply on_as_fs in E; split; [done|]; split; [done|]; destruct Hb; subst; auto.
  left. apply (dispatch_plugin env core rq body bp ap name w w' r Hr) in H'
    as [[-> _]|(p & b & Hp & Hv & Hs)]; [done|].
  destruct b.
  - unfold serve_admin in Hs. apply admin_denied in Hs as [-> _]; done.
  - eapply serve_token_effect; eauto.
Qed.

(** The file of a resource and the file of the resource policy are apart. *)
Definition policy_apart core l (d : ResourceDesc) : Prop :=
  resolve (opa_policy_path (policy_engine core)) <> desc_path (resolve (repo_dir_path l)) d.

Lemma serve_admin_keeps cfgs w0 w1 env core p name rq body ap w w' r l d :
  plugin_manager_try_from cfgs w0 = (w1, Ok (plugin_manager core)) ->
  plugin_get (plugin_manager core) "resource" = Some (resource_plugin l) -> desc_ok d ->
  plugin_get (plugin_manager core) name = Some p ->
  (name = "resource" -> method_str (http_method rq) = "POST" ->
   ap <> String.String slash (resource_desc_display d)) ->
  serve_admin env core p rq body ap w = (w', r) ->
  local_stored (resolve (repo_dir_path l)) (w_fs w') d = local_stored (resolve (repo_dir_path l)) (w_fs w) d.
Proof.
  intros Hpm Hl Hd Hp Hne H. pose proof (plugin_manager_named _ _ _ _ Hpm _ _ Hp) as Hnm.
  unfold serve_admin, mbind, st_bind, st_map_err, st_lift in H.
  destruct (validate_auth _ _ _) as [[]|e|]; cbn [map_err] in H; [|now injection H as <- _..].
  destruct (handle _ _ _ _ _ w) as [w2 x] eqn:Eh. assert (w' = w2) as -> by (destruct x; now injection H as <- _).
  destruct Hnm as [->| ->]; [now injection Eh as <- _|].
  rewrite Hl in Hp. injection Hp as <-. cbn in Eh. unfold st_on in Eh.
  destruct (resource_handle _ _ _ _ _) as [s y] eqn:E. injection Eh as <- _.
  exact (resource_handle_keeps l _ _ _ _ _ _ _ d E Hd (Hne eq_refl)).
Qed.

(** Unless the administrator posts to it, a request leaves a resource as it is. *)
Lemma api_keeps_resource cfgs w0 w1 env core rq body w w' r l d :
  plugin_manager_try_from cfgs w0 = (w1, Ok (plugin_manager core)) ->
  plugin_get (plugin_manager core) "resource" = Some (resource_plugin l) -> desc_ok d ->
  policy_apart core l d -> ~ overwrites env core d rq -> api env core rq body w = (w', r) ->
  local_stored (resolve (repo_dir_path l)) (w_fs w') d = local_stored (resolve (repo_dir_path l)) (w_fs w) d.
Proof.
  intros Hpm Hl Hd Hpol Hno Hapi.
  destruct (validate_auth (admin_auth core) (now env) rq) as [[]|e|] eqn:Hv;
    [|destruct (changes_without_admin _ _ _ _ _ _ _ _ _ _ Hpm ltac:(now rewrite Hv) Hapi) as [-> _]; done..].
  destruct (api_dispatch env core rq body w) as [[He _]|(bp & ap & Hbp & Hap & He)]; rewrite He in Hapi; clear He.
  { now injection Hapi as <- _. }
  pose proof Hapi as H. unfold dispatch in H. destruct (route bp (http_method rq)) as [| | | | | | |name] eqn:Hr.
  8: { assert (Hbn : name = bp) by (unfold route in Hr; repeat case_match; congruence). subst name.
       apply (dispatch_plugin env core rq body bp ap bp w w' r Hr) in Hapi
         as [[-> _]|(p & [] & Hp & Hpv & Hs)]; [done| |].
       - apply (serve_admin_keeps _ _ _ _ _ _ _ _ _ _ _ _ _ _ _ Hpm Hl Hd Hp) in Hs; [done|].
         intros -> Hm ->. now apply Hno.
       - pose proof (plugin_manager_standard _ _ _ _ Hpm _ _ Hp) as Hst.
         now destruct (serve_token_effect _ _ _ _ _ _ _ _ _ _ Hst Hpv Hs) as [[-> _] _]. }
  7: { unfold on_fs in H. run_st H;
         repeat match goal with E : engine_get_policy _ _ = _ |- _ => apply engine_get_policy_same in E; subst end; done. }
  6: { unfold on_fs in H. run_st H; try done.
       all: match goal with E : engine_set_policy _ _ _ = _ |- _ =>
         exact (engine_set_policy_touches _ _ _ _ _ _ E (not_eq_sym Hpol)) end. }
  1-2: unfold st_map_err in H; destruct (on_as _ _) as [w2 x] eqn:E in H; injection H as <- _;
    now apply on_as_fs in E as ->.
  all: unfold on_as, set_policy, __set_policy, query_reference_values, register_reference_value, call_inner in H;
    now run_st H.
Qed.

(** C5: only the administrator changes what the server protects.  Whatever the
    request, if its admin authentication fails, the file system (the resource
    policy and all stored secrets) is left exactly as it was; and outside the
    two endpoints of the attestation handshake so are the sessions, the
    attestation policies and reference values: nothing but metrics changes. *)
Theorem changes_need_admin cfgs w0 w1 env core rq body w w' r :
  plugin_manager_try_from cfgs w0 = (w1, Ok (plugin_manager core)) ->
  validate_auth (admin_auth core) (now env) rq <> Ok tt ->
  api env core rq body w = (w', r) ->
  w_fs w' = w_fs w /\
  (same_world w w' \/
   http_method rq = POST /\
   (match_info rq "base_path" = Some "auth" \/ match_info rq "base_path" = Some "attest")).
Proof. exact (changes_without_admin cfgs w0 w1 env core rq body w w' r). Qed.

(** The policy counters add up.  Over any request that does not panic,
    evaluations go up by exactly as much as approvals, violations and errors
    together. *)
Theorem policy_counters_balance cfgs w0 w1 env core rq body w w' r :
  plugin_manager_try_from cfgs w0 = (w1, Ok (plugin_manager core)) ->
  api env core rq body w = (w', r) -> r <> Panic ->
  policy_balance (w_metrics w') = policy_balance (w_metrics w).
Proof.
  intros Hpm%plugin_manager_standard H Hr.
  destruct (api_dispatch env core rq body w) as [[He Hnone]|(bp & ap & Hbp & Hap & He)];
    rewrite He in H; clear He.
  { now injection H as <- <-. }
  pose proof H as H'. unfold dispatch in H. destruct (route bp (http_method rq)) eqn:Hrt.
  3-7: clear H'; unfold on_as, on_fs, set_policy, __set_policy, query_reference_values,
    register_reference_value, call_inner in H; run_st H; reflexivity.
  1-2: unfold st_map_err in H; destruct (on_as _ _) as [w2 x] eqn:E in H; injection H as <- <-;
    eapply policy_balance_as in E; [exact (proj2 E)|];
    eauto using auth_policy_balance, attest_policy_balance.
  apply (dispatch_plugin env core rq body bp ap name w w' r Hrt) in H'
    as [[-> _]|(p & b & Hp & Hv & Hs)]; [done|]. apply Hpm in Hp. destruct b.
  - unfold serve_admin in Hs. run_st Hs; try done;
      match goal with E : handle _ _ _ _ _ _ = _ |- _ => exact (proj1 (standard_handle _ _ _ _ _ _ _ _ Hp E)) end.
  - eapply serve_token_effect; eauto.
Qed.

(** ** HTTP status *)
Lemma auth_status u t b s s' resp : auth u t b s = (s', Ok resp) -> status resp = 200.
Proof.
  intros H. unfold auth in H. inv_st.
  apply __auth_Ok in H as (? & ? & ? & ? & ? & _ & _ & _ & _ & _ & _ & _ & _ & ->). done.
Qed.

Lemma attest_status t b rq s s' resp : attest t b rq s = (s', Ok resp) -> status resp = 200.
Proof.
  intros H. unfold attest, __attest in H. inv_st. destruct a as [r|p].
  - inv_st. unfold attest_lookup in Hst. run_st Hst. done.
  - inv_st. unfold attest_finish in H. run_st H. done.
Qed.

(** What an outcome of the handler says about the request. *)
Definition status_ok core rq (r : outcome Error HttpResponse) : Prop :=
  match r with
  | Ok resp => status resp = 200
  | Err (InvalidRequestPath p) =>
      p = http_path rq /\
      (match_info rq "base_path" = None \/ match_info rq "additional_path" = None)
  | Err (PluginNotFound name) =>
      match_info rq "base_path" = Some name /\ plugin_get (plugin_manager core) name = None
  | _ => True
  end.

Lemma serve_status env core p rq body ap ep w w' r :
  serve_admin env core p rq body ap w = (w', r) \/
  serve_token env core p rq body ap ep w = (w', r) -> status_ok core rq r.
Proof.
  intros [H|H].
  - unfold serve_admin in H. run_st H; unfold map_err in *; repeat (case_match; simplify_eq); done.
  - unfold serve_token in H. run_st H; unfold map_err in *; repeat (case_match; simplify_eq); done.
Qed.

Lemma api_status_ok env core rq body w w' r :
  api env core rq body w = (w', r) -> status_ok core rq r.
Proof.
  intros H. destruct (api_dispatch env core rq body w) as [[He Hnone]|(bp & ap & Hbp & Hap & He)].
  { rewrite He in H. injection H as <- <-. now split. }
  rewrite He in H. clear He. pose proof H as H'. unfold dispatch in H.
  destruct (route bp (http_method rq)) eqn:Hrt.
  8: { assert (name = bp) as ->.
       { unfold route in Hrt. repeat case_match; congruence. }
       apply (dispatch_plugin env core rq body bp ap bp w w' r Hrt) in H'
         as [[-> [[Hn ->]|[->|[e ->]]]]|(p & b & Hp & Hv & Hs)]; try done.
       destruct b; eapply (serve_status _ _ _ _ _ _ (bp +:+ ap)); eauto. }
  3-7: clear H'; unfold on_as, on_fs, set_policy, __set_policy, query_reference_values,
    register_reference_value, call_inner in H; run_st H; unfold map_err in *;
    repeat (case_match; simplify_eq); done.
  1-2: unfold st_map_err, on_as, st_on in H;
    match type of H with context [auth ?a ?b ?c ?d] => destruct (auth a b c d) as [s1 x] eqn:E
      | context [attest ?a ?b ?c ?d] => destruct (attest a b c d) as [s1 x] eqn:E end;
    injection H as <- <-; destruct x; cbn; eauto using auth_status, attest_status.
Qed.

(** Which HTTP status a request gets.  A response that is sent has status
    200, and is then the answer of the handler; or 404, and then the request
    path was not matched or names neither a built-in endpoint nor a plugin; or
    401, and then the handler failed for another reason. *)
Theorem respond_status env core rq body w w' resp :
  respond env core rq body w = (w', Ok resp) ->
  (status resp = 200 /\ api env core rq body w = (w', Ok resp)) \/
  (status resp = 404 /\
   (match_info rq "base_path" = None \/ match_info rq "additional_path" = None \/
    exists name, match_info rq "base_path" = Some name /\
      plugin_get (plugin_manager core) name = None)) \/
  (status resp = 401 /\ exists e, api env core rq body w = (w', Err e)).
Proof.
  unfold respond. destruct (api env core rq body w) as [w1 r] eqn:E.
  pose proof (api_status_ok _ _ _ _ _ _ _ E) as Hs.
  destruct r as [x|e|]; intros H; [injection H as <- <-; now left| |done].
  injection H as <- H. unfold error_response in H.
  destruct (error_information_to_string _ _); cbn in H; [|done]. injection H as <-. cbn.
  destruct e; cbn in Hs; try (right; right; now eauto); right; left; naive_solver.
Qed.

(** ** The metrics middleware *)

(** The state in which the wrapped service is called. *)
Definition middleware_before (content_length : option (option Z)) w : world :=
  let w := count_in (inc REQUEST_TOTAL) (count_in (inc ACTIVE_CONNECTIONS) w) in
  match content_length with
  | Some (Some n) => count_in (observe REQUEST_SIZES n) w
  | Some None => w
  | None => count_in (observe REQUEST_SIZES 0) w
  end.

(** What the metrics middleware records for a KBS request.  When the
    wrapped service answers, one duration is recorded, the open-connection gauge
    goes back down, and the size of the response body is added to the histogram
    of request sizes; the histogram of response sizes is never touched.  When the
    service returns an error, the gauge stays up. *)
Theorem middleware_records path cl elapsed (next : st world Error HttpResponse) w w2 r :
  String.prefix "/kbs" path = true ->
  next (middleware_before cl w) = (w2, r) ->
  let '(w', r') := prometheus_metrics_middleware path cl elapsed next w in
  r' = r /\
  match r with
  | Ok res =>
      observations REQUEST_SIZES (w_metrics w') =
        observations REQUEST_SIZES (w_metrics w2) ++ [len (res_body res)] /\
      observations RESPONSE_SIZES (w_metrics w') = observations RESPONSE_SIZES (w_metrics w2) /\
      observations REQUEST_DURATION (w_metrics w') =
        observations REQUEST_DURATION (w_metrics w2) ++ [elapsed] /\
      count ACTIVE_CONNECTIONS (w_metrics w') = count ACTIVE_CONNECTIONS (w_metrics w2) - 1
  | _ => w' = w2
  end.
Proof.
  intros Hp Hn. unfold prometheus_metrics_middleware. rewrite Hp.
  assert (Hb : (st_modify (count_in (inc ACTIVE_CONNECTIONS));;
     st_modify (count_in (inc REQUEST_TOTAL));;
     match cl with
     | Some (Some n) => st_modify (count_in (observe REQUEST_SIZES n))
     | Some None => mret tt
     | None => st_modify (count_in (observe REQUEST_SIZES 0))
     end : st world Error unit) w = (middleware_before cl w, Ok tt)).
  { exec. now destruct cl as [[]|]. }
  unfold mbind at 1, st_bind at 1. rewrite Hb.
  unfold mbind at 1, st_bind at 1. rewrite Hn.
  destruct r as [res|e|]; [|done..]. exec. split; [done|].
  unfold w_metrics. cbn. metrics_simpl. rewrite ?app_nil_r. repeat split; lia.
Qed.
End Access.

(** ** Witnesses *)
Module AccessDemo.
#[export] Existing Instances Handshake.Demo.demo_attest Handshake.Demo.demo_time
  Handshake.Demo.demo_crates PolicyDemo.good_disk PolicyDemo.crates TokenDemo.http_auth
  TokenDemo.jwt_simple TokenDemo.crates JweDemo.crates.

#[export] Instance api_crates : ApiCrates := {|
  claims_to_string _ := Some "{}";
  reference_values_to_string _ := Some "[]";
  response_to_string r := Some (string_of_list_byte (ciphertext r));
  error_information_to_string _ d := Some d;
  export_metrics _ := Some [] |}.

Definition fs0 : Fs := {|
  files := {[ ["p"] := str_bytes "allow"; ["r"; "default"; "key"; "1"] := str_bytes "secret" ]};
  dirs := {[ ["r"]; ["r"; "default"]; ["r"; "default"; "key"] ]} |}.
Definition w0 : World (I := nat) (X := unit) := {| w_fs := fs0; w_as := Handshake.Demo.svc0; w_ext := tt |}.
Definition repo : LocalFs := {| repo_dir_path := "/r" |}.
Definition configs : list PluginsConfig :=
  [PC_Sample {| item := "i" |}; PC_ResourceStorage (RC_LocalFs {| dir_path := "/r" |})].
Definition manager : gmap string (ClientPlugin (World (I := nat) (X := unit))) :=
  <["resource" := resource_plugin repo]> (<["sample" := sample_plugin]> ∅).
Definition core : ApiServer (I := nat) (X := unit) := {|
  plugin_manager := manager; policy_engine := {| opa_policy_path := "/p" |};
  admin_auth := @Build_Admin TokenDemo.jwt_simple (Some "adm"); token_verifier := TokenDemo.t0 |}.
Definition env : CallEnv := {| now := 0; uuid := "u"; rnd := JweDemo.rnd |}.

Definition request (base rest auth : string) (m : Method) : HttpRequest := {|
  http_method := m; http_path := "/kbs/v0/" +:+ base +:+ rest; query_string := "";
  match_info k := if String.eqb k "base_path" then Some base
                  else if String.eqb k "additional_path" then Some rest else None;
  cookie _ := None;
  headers h := if String.eqb h "Authorization" then Some auth else None |}.
Definition get_secret : HttpRequest := request "resource" "/default/key/1" "good" GET.
Definition post_secret : HttpRequest := request "resource" "/default/key/1" "good" POST.
Definition answer : HttpResponse := ok_body "application/json" (str_bytes "secret").
Definition w1 : World (I := nat) (X := unit) := (api env core get_secret [] w0).1.

Definition fs_managed : Fs := (local_fs_new {| dir_path := "/r" |} fs0).1.
Definition w_managed : World (I := nat) (X := unit) := {| w_fs := fs_managed; w_as := Handshake.Demo.svc0; w_ext := tt |}.

Lemma managed : plugin_manager_try_from configs w0 = (w_managed, Ok (plugin_manager core)).
Proof.
  assert (E : local_fs_new {| dir_path := "/r" |} (w_fs w0) = (fs_managed, Ok repo))
    by (vm_compute; reflexivity).
  unfold plugin_manager_try_from, configs.
  cbn [plugin_manager_from plugin_try_into resource_storage_try_from plugins_config_display].
  set (f := local_fs_new _) in *. clearbody f.
  unfold on_fs. exec. cbn in E. rewrite E. reflexivity.
Qed.
End AccessDemo.

Import AccessDemo.

Lemma resource_release_sound_witness :
  exists d secret, local_stored ["r"] fs0 d = Some secret /\ same_world w0 w1.
Proof.
  destruct (resource_release_sound PolicyDemo.crates_spec env core get_secret [] w0 w1 answer repo)
    as (d & _ & _ & _ & _ & _ & secret & _ & _ & _ & _ & _ & _ & _ & _ & _ & _ & _ & Hs & _ & _ & _ & _ & Hw).
  - apply lookup_insert_eq.
  - vm_compute; reflexivity.
  - vm_compute; reflexivity.
  - vm_compute; reflexivity.
  - exists d, secret. split; [exact Hs|exact Hw].
Defined.

Lemma changes_need_admin_witness : w_fs (api env core post_secret [] w0).1 = w_fs w0.
Proof.
  refine (proj1 (changes_need_admin configs w0 w_managed env core post_secret [] w0
    (api env core post_secret [] w0).1 (api env core post_secret [] w0).2 _ _ _)).
  - exact managed.
  - vm_compute; discriminate.
  - destruct (api env core post_secret [] w0); reflexivity.
Defined.

Lemma policy_counters_balance_witness :
  policy_balance (w_metrics w1) = policy_balance (w_metrics w0).
Proof.
  apply (policy_counters_balance configs w0 w_managed env core get_secret [] w0 w1 (Ok answer)).
  - exact managed.
  - vm_compute; reflexivity.
  - discriminate.
Defined.

Lemma respond_status_witness : status answer = 200 \/ status answer = 404 \/ status answer = 401.
Proof.
  destruct (respond_status env core get_secret [] w0 w1 answer) as [[H _]|[[H _]|[H _]]].
  - vm_compute; reflexivity.
  - left; exact H.
  - right; left; exact H.
  - right; right; exact H.
Defined.

Lemma middleware_records_witness :
  let '(w', _) := prometheus_metrics_middleware "/kbs/v0/auth" (Some (Some 3)) 7 (mret answer) w0 in
  observations REQUEST_SIZES (w_metrics w') =
    observations REQUEST_SIZES (w_metrics (middleware_before (Some (Some 3)) w0)) ++ [6].
Proof.
  generalize (middleware_records "/kbs/v0/auth" (Some (Some 3)) 7 (mret answer) w0
    (middleware_before (Some (Some 3)) w0) (Ok answer) eq_refl eq_refl).
  destruct (prometheus_metrics_middleware _ _ _ _ _) as [w' r].
  intros (_ & H & _). exact H.
Defined.
