(* ===== verification/TcgEvents.v ===== *)
(** * Event log data ([deps/eventlog/src/lib.rs], [ccel/tcg_enum.rs])

    The types of the CC event log, the numbering of algorithms and events of
    the TCG specification, and the reading primitives of [scroll]. *)
From S2P Require Import Prelude Types Text.

Definition GUID_SIZE : Z := 16.

Inductive TcgAlgorithm := Rsa | Tdes | Sha1 | Sha256 | Sha384 | Sha512 | Sm3.

#[global] Instance TcgAlgorithm_eq_dec : EqDecision TcgAlgorithm.
Proof. solve_decision. Defined.

(** The discriminants of the enum. *)
Definition algorithm_id (a : TcgAlgorithm) : Z :=
  match a with
  | Rsa => 0x1 | Tdes => 0x3 | Sha1 => 0x4 | Sha256 => 0xB | Sha384 => 0xC
  | Sha512 => 0xD | Sm3 => 0x12
  end.

(** [TcgAlgorithm::try_from(u32)]. *)
Definition algorithm_try_from (value : Z) : option TcgAlgorithm :=
  match value with
  | 0x1 => Some Rsa
  | 0x3 => Some Tdes
  | 0x4 => Some Sha1
  | 0xB => Some Sha256
  | 0xC => Some Sha384
  | 0xD => Some Sha512
  | 0x12 => Some Sm3
  | _ => None
  end.

#[global] Instance TcgAlgorithm_countable : Countable TcgAlgorithm.
Proof.
  refine (inj_countable algorithm_id algorithm_try_from _). now intros [].
Defined.

(** [get_digest_size]. *)
Definition get_digest_size (alg : TcgAlgorithm) : outcome anyhow Z :=
  match alg with
  | Sha1 => Ok 20
  | Sha256 => Ok 32
  | Sha384 => Ok 48
  | Sha512 => Ok 64
  | Sm3 => Ok 32
  | _ => Err "Failed to get digest size for unsupported algorithm"
  end.

Inductive TcgEventType :=
| EvPrebootCert | EvPostCode | EvUnused | EvNoAction | EvSeparator | EvAction | EvEventTag
| EvSCrtmContents | EvSCrtmVersion | EvCpuMicrocode | EvPlatformConfigFlags | EvTableOfDevices
| EvCompactHash | EvIpl | EvIplPartitionData | EvNonhostCode | EvNonhostConfig | EvNonhostInfo
| EvOmitBootDeviceEvents | EvEfiEventBase | EvEfiVariableDriverConfig | EvEfiVariableBoot
| EvEfiBootServicesApplication | EvEfiBootServicesDriver | EvEfiRuntimeServicesDriver
| EvEfiGptEvent | EvEfiAction | EvEfiPlatformFirmwareBlob | EvEfiHandoffTables
| EvEfiPlatformFirmwareBlob2 | EvEfiHandoffTables2 | EvEfiVariableBoot2 | EvEfiHcrtmEvent
| EvEfiVariableAuthority | EvEfiSpdmFirmwareBlob | EvEfiSpdmFirmwareConfig.

#[global] Instance TcgEventType_eq_dec : EqDecision TcgEventType.
Proof. solve_decision. Defined.

(** The discriminants of the enum. *)
Definition event_type_id (t : TcgEventType) : Z :=
  match t with
  | EvPrebootCert => 0x0
  | EvPostCode => 0x1
  | EvUnused => 0x2
  | EvNoAction => 0x3
  | EvSeparator => 0x4
  | EvAction => 0x5
  | EvEventTag => 0x6
  | EvSCrtmContents => 0x7
  | EvSCrtmVersion => 0x8
  | EvCpuMicrocode => 0x9
  | EvPlatformConfigFlags => 0xa
  | EvTableOfDevices => 0xb
  | EvCompactHash => 0xc
  | EvIpl => 0xd
  | EvIplPartitionData => 0xe
  | EvNonhostCode => 0xf
  | EvNonhostConfig => 0x10
  | EvNonhostInfo => 0x11
  | EvOmitBootDeviceEvents => 0x12
  | EvEfiEventBase => 0x80000000
  | EvEfiVariableDriverConfig => 0x80000001
  | EvEfiVariableBoot => 0x80000002
  | EvEfiBootServicesApplication => 0x80000003
  | EvEfiBootServicesDriver => 0x80000004
  | EvEfiRuntimeServicesDriver => 0x80000005
  | EvEfiGptEvent => 0x80000006
  | EvEfiAction => 0x80000007
  | EvEfiPlatformFirmwareBlob => 0x80000008
  | EvEfiHandoffTables => 0x80000009
  | EvEfiPlatformFirmwareBlob2 => 0x8000000a
  | EvEfiHandoffTables2 => 0x8000000b
  | EvEfiVariableBoot2 => 0x8000000c
  | EvEfiHcrtmEvent => 0x80000010
  | EvEfiVariableAuthority => 0x800000e0
  | EvEfiSpdmFirmwareBlob => 0x800000e1
  | EvEfiSpdmFirmwareConfig => 0x800000e2
  end.

(** [TcgEventType::try_from(u32)]. *)
Definition event_type_try_from (value : Z) : option TcgEventType :=
  match value with
  | 0x0 => Some EvPrebootCert
  | 0x1 => Some EvPostCode
  | 0x2 => Some EvUnused
  | 0x3 => Some EvNoAction
  | 0x4 => Some EvSeparator
  | 0x5 => Some EvAction
  | 0x6 => Some EvEventTag
  | 0x7 => Some EvSCrtmContents
  | 0x8 => Some EvSCrtmVersion
  | 0x9 => Some EvCpuMicrocode
  | 0xA => Some EvPlatformConfigFlags
  | 0xB => Some EvTableOfDevices
  | 0xC => Some EvCompactHash
  | 0xD => Some EvIpl
  | 0xE => Some EvIplPartitionData
  | 0xF => Some EvNonhostCode
  | 0x10 => Some EvNonhostConfig
  | 0x11 => Some EvNonhostInfo
  | 0x12 => Some EvOmitBootDeviceEvents
  | 0x80000000 => Some EvEfiEventBase
  | 0x80000001 => Some EvEfiVariableDriverConfig
  | 0x80000002 => Some EvEfiVariableBoot
  | 0x80000003 => Some EvEfiBootServicesApplication
  | 0x80000004 => Some EvEfiBootServicesDriver
  | 0x80000005 => Some EvEfiRuntimeServicesDriver
  | 0x80000006 => Some EvEfiGptEvent
  | 0x80000007 => Some EvEfiAction
  | 0x80000008 => Some EvEfiPlatformFirmwareBlob
  | 0x80000009 => Some EvEfiHandoffTables
  | 0x8000000A => Some EvEfiPlatformFirmwareBlob2
  | 0x8000000B => Some EvEfiHandoffTables2
  | 0x8000000C => Some EvEfiVariableBoot2
  | 0x80000010 => Some EvEfiHcrtmEvent
  | 0x800000E0 => Some EvEfiVariableAuthority
  | 0x800000E1 => Some EvEfiSpdmFirmwareBlob
  | 0x800000E2 => Some EvEfiSpdmFirmwareConfig
  | _ => None
  end.

(** ** The parsed log *)
Record ElDigest := {
  alg : TcgAlgorithm;
  digest : bytes;
}.

Record EventDetails := {
  d_string : option string;
  unicode_name : option string;
  unicode_name_length : option Z;
  variable_data : option string;
  variable_data_length : option Z;
  variable_name : option string;
  device_paths : option (list string);
  d_data : option Value;
}.

Record EventlogEntry := {
  details : EventDetails;
  digest_matches_event : bool;
  digests : list ElDigest;
  event : string;
  e_index : Z;
  event_type : TcgEventType;
}.

Record CcEventLog := { log : list EventlogEntry }.

Record ReferenceMeasurement := {
  r_index : Z;
  r_algorithm : TcgAlgorithm;
  reference : bytes;
}.

(** [EventDetails::from_string] and [empty]. *)
Definition details_from_string (s : string) : EventDetails :=
  {| d_string := Some s; unicode_name := None; unicode_name_length := None; variable_data := None;
     variable_data_length := None; variable_name := None; device_paths := None; d_data := None |}.

Definition details_empty : EventDetails :=
  {| d_string := None; unicode_name := None; unicode_name_length := None; variable_data := None;
     variable_data_length := None; variable_name := None; device_paths := None; d_data := None |}.

(** ** Reading: [gread_with(&mut index, LE)] of an [n]-byte integer *)
Definition gread (n : Z) (data : bytes) (index : Z) : option (Z * Z) :=
  b ← get_range data index (index + n); Some (le_combine b, index + n).

Definition gread_or (e : anyhow) (n : Z) (data : bytes) (index : Z) : outcome anyhow (Z * Z) :=
  ok_or e (gread n data index).

(** ** Lemmas *)
Lemma algorithm_roundtrip a : algorithm_try_from (algorithm_id a) = Some a.
Proof. now destruct a. Qed.

Lemma event_type_roundtrip t : event_type_try_from (event_type_id t) = Some t.
Proof. now destruct t. Qed.

Lemma algorithm_try_from_id v a : algorithm_try_from v = Some a -> v = algorithm_id a.
Proof. unfold algorithm_try_from. intros H. repeat case_match; simplify_eq; reflexivity. Qed.

Lemma event_type_try_from_id v t : event_type_try_from v = Some t -> v = event_type_id t.
Proof. unfold event_type_try_from. intros H. repeat case_match; simplify_eq; reflexivity. Qed.

Lemma algorithm_id_range a : 0 <= algorithm_id a < 2 ^ 16.
Proof. destruct a; cbn; lia. Qed.

Lemma event_type_id_range t : 0 <= event_type_id t < 2 ^ 32.
Proof. destruct t; cbn; lia. Qed.

Lemma gread_Some n data i v j :
  gread n data i = Some (v, j) -> 0 <= n -> j = i + n /\ j <= len data.
Proof.
  unfold gread. destruct (get_range _ _ _) as [b|] eqn:E; cbn; [|discriminate].
  intros [= <- <-] Hn. apply get_range_Some in E. lia.
Qed.

Lemma gread_app_at pre z n post i :
  i = len pre -> 0 <= z < 2 ^ (Z.of_nat n * 8) ->
  gread (Z.of_nat n) (pre ++ le_split n z ++ post) i = Some (z, i + Z.of_nat n).
Proof.
  intros Hi Hz. unfold gread.
  rewrite (get_range_app_at pre (le_split n z) post) by (rewrite ?len_le_split; lia).
  cbn. rewrite le_combine_split. now rewrite Z.mod_small by lia.
Qed.

Lemma gread_bound n data i v j :
  gread n data i = Some (v, j) -> 0 <= i -> 0 <= n -> 0 <= v < 2 ^ (n * 8).
Proof.
  unfold gread. destruct (get_range _ _ _) as [b|] eqn:E; cbn; [|discriminate].
  intros [= <- <-] Hi Hn. apply get_range_Some in E as [Hr ->].
  pose proof (le_combine_bound (range data i (i + n))) as Hb.
  pose proof (len_range data i (i + n) ltac:(lia) ltac:(lia)) as Hl. unfold len in Hl.
  rewrite Hl in Hb. replace (8 * (i + n - i)) with (n * 8) in Hb by lia. exact Hb.
Qed.
