(* ===== verification/DevicePaths.v ===== *)
(** * UEFI device paths ([deps/eventlog/src/ccel/device_paths/])

    One parser per supported device path type and subtype; each prints a node
    as text.  Nodes of other types are reported as errors, and printed by the
    caller in a generic form. *)
From S2P Require Import Prelude Types Text TcgEvents.

(** ** Formatting helpers *)

(** [Display for Ipv4Addr], built by [Ipv4Addr::from_bits]. *)
Definition ipv4_display (bits : Z) : string :=
  fmt_dec (bits / 2 ^ 24 mod 256) +:+ "." +:+ fmt_dec (bits / 2 ^ 16 mod 256) +:+ "." +:+
  fmt_dec (bits / 2 ^ 8 mod 256) +:+ "." +:+ fmt_dec (bits mod 256).

(** [u8 as char] for an ASCII code. *)
Definition char_of (n : Z) : string := String.String (ascii_of_N (Z.to_N n)) EmptyString.

(** [format_uefi_guid]: three little-endian fields, then eight bytes. *)
Definition format_uefi_guid (input : bytes) : outcome anyhow string :=
  data1 ← slice input 0 4;
  data2 ← slice input 4 6;
  data3 ← slice input 6 8;
  data4 ← slice input 8 (len input);
  b0 ← index data4 0; b1 ← index data4 1; b2 ← index data4 2; b3 ← index data4 3;
  b4 ← index data4 4; b5 ← index data4 5; b6 ← index data4 6; b7 ← index data4 7;
  let hex2 b := fmt_upper_hex 2 (u8 b) in
  Ok (fmt_upper_hex 8 (le_combine data1) +:+ "-" +:+ fmt_upper_hex 4 (le_combine data2) +:+ "-" +:+
      fmt_upper_hex 4 (le_combine data3) +:+ "-" +:+ hex2 b0 +:+ hex2 b1 +:+ "-" +:+
      hex2 b2 +:+ hex2 b3 +:+ hex2 b4 +:+ hex2 b5 +:+ hex2 b6 +:+ hex2 b7).

(** ** Type 1: hardware ([hardware_parser.rs]) *)
Inductive HardwareSubType := Pci.

Definition hardware_from_u8 (sub_type : Z) : outcome anyhow HardwareSubType :=
  match sub_type with
  | 0x01 => Ok Pci
  | _ => Err "Unknown Hardware subtype"
  end.

Definition pci_parse (data : bytes) : outcome anyhow string :=
  if len data <? 2 then Err "PCI data is too short"
  else
    func_num ← index data 0;
    device_num ← index data 1;
    Ok ("Pci(" +:+ fmt_dec (u8 func_num) +:+ "," +:+ fmt_dec (u8 device_num) +:+ ")").

Definition hardware_parse (sub_type : Z) (data : bytes) : outcome anyhow string :=
  path ← hardware_from_u8 sub_type;
  match path with
  | Pci => pci_parse data
  end.

(** ** Type 2: ACPI ([acpi_parser.rs]) *)
Inductive AcpiSubType := Acpi_.

Definition acpi_from_u8 (sub_type : Z) : outcome anyhow AcpiSubType :=
  match sub_type with
  | 0x01 => Ok Acpi_
  | _ => Err "Unknown ACPI subtype"
  end.

(** The arithmetic [((vendor >> k) & 0x1F) as u8 + b'@'] stays below 96. *)
Definition acpi_sub_type_parse (data : bytes) : outcome anyhow string :=
  if len data <? 8 then Err "ACPI sub type data length must be at least 8 bytes"
  else
    '(hid, index) ← gread_or "Failed to read hid" 4 data 0;
    '(uid, _) ← gread_or "Failed to read uid" 4 data index;
    let vendor := Z.land hid 0xFFFF in
    let vendor1 := Z.land (Z.shiftr vendor 10) 0x1F + 64 in
    let vendor2 := Z.land (Z.shiftr vendor 5) 0x1F + 64 in
    let vendor3 := Z.land vendor 0x1F + 64 in
    let device := Z.shiftr hid 16 in
    let hid_formatted :=
      char_of vendor1 +:+ char_of vendor2 +:+ char_of vendor3 +:+ fmt_upper_hex 4 device in
    Ok ("ACPI(" +:+ hid_formatted +:+ "," +:+ fmt_dec uid +:+ ")").

Definition acpi_parse (sub_type : Z) (data : bytes) : outcome anyhow string :=
  path ← acpi_from_u8 sub_type;
  match path with
  | Acpi_ => acpi_sub_type_parse data
  end.

(** ** Type 3: messaging ([messaging_parser.rs]) *)
Inductive MessagingSubType := FibreChannelEx | Usb | Mac | Ipv4.

Definition messaging_from_u8 (sub_type : Z) : outcome anyhow MessagingSubType :=
  match sub_type with
  | 0x15 => Ok FibreChannelEx
  | 0x05 => Ok Usb
  | 0x0B => Ok Mac
  | 0x0C => Ok Ipv4
  | _ => Err "Unknown Messaging subtype"
  end.

Definition fibre_channel_ex_parse (data : bytes) : outcome anyhow string :=
  if len data <? 16 then Err "Fibre channel data is too short"
  else
    wwn ← slice data 0 8;
    lun ← slice data 8 16;
    Ok ("FibreEx(0x" +:+ hex_encode wwn +:+ ",0x" +:+ hex_encode lun +:+ ")").

Definition usb_parse (data : bytes) : outcome anyhow string :=
  if len data <? 2 then Err "USB data is too short"
  else
    parent_hub_port_num ← index data 0;
    controller_int_number ← index data 1;
    Ok ("USB(" +:+ fmt_dec (u8 parent_hub_port_num) +:+ "," +:+
        fmt_dec (u8 controller_int_number) +:+ ")").

(** [str::trim_end_matches('0')]. *)
Fixpoint trim_end_zeros (s : string) : string :=
  match s with
  | EmptyString => EmptyString
  | String.String c s =>
      match trim_end_zeros s with
      | EmptyString => if Ascii.eqb c "0" then EmptyString else String.String c EmptyString
      | t => String.String c t
      end
  end.

Definition mac_parse (data : bytes) : outcome anyhow string :=
  if negb (len data =? 33) then Err "MAC data is too short"
  else
    mac_address_padded ← slice data 0 31;
    let mac_address := to_uppercase (trim_end_zeros (hex_encode mac_address_padded)) in
    if_type ← index data 32;
    Ok ("Mac(" +:+ mac_address +:+ "," +:+ fmt_hex_prefixed 4 (u8 if_type) +:+ ")").

Definition ipv4_parse (data : bytes) : outcome anyhow string :=
  '(local_ip, index) ← gread_or "Failed to read IPv4 local address" 4 data 0;
  '(remote_ip, index) ← gread_or "Failed to read IPv4 remote address" 4 data index;
  '(_, index) ← gread_or "Failed to read IPv4 local port" 2 data index;
  '(_, index) ← gread_or "Failed to read IPv4 remote port" 2 data index;
  '(protocol, index) ← gread_or "Failed to read IPv4 protocol" 2 data index;
  let protocol := match protocol with
                  | 6 => "TCP"
                  | 17 => "UDP"
                  | _ => ""
                  end in
  '(ip_addr_type, index) ← gread_or "Failed to read IPv4 address type" 1 data index;
  let ip_addr_type := match ip_addr_type with
                      | 0 => "DHCP"
                      | 1 => "Static"
                      | _ => ""
                      end in
  '(gateway_ip_address, index) ← gread_or "Failed to read IPv4 gateway" 4 data index;
  '(subnet_mask, _) ← gread_or "Failed to read IPv4 subnet" 4 data index;
  let gateway_subnet :=
    if negb (gateway_ip_address =? 0) || negb (subnet_mask =? 0) then
      "," +:+ fmt_dec gateway_ip_address +:+ "," +:+ fmt_dec subnet_mask
    else "" in
  Ok ("IPv4(" +:+ ipv4_display remote_ip +:+ "," +:+ protocol +:+ "," +:+ ip_addr_type +:+ "," +:+
      ipv4_display local_ip +:+ gateway_subnet +:+ ")").

Definition messaging_parse (sub_type : Z) (data : bytes) : outcome anyhow string :=
  path ← messaging_from_u8 sub_type;
  match path with
  | FibreChannelEx => fibre_channel_ex_parse data
  | Usb => usb_parse data
  | Mac => mac_parse data
  | Ipv4 => ipv4_parse data
  end.

(** ** Type 4: media ([media_parser.rs]) *)
Inductive MediaSubType := HardDrive | MediaVendor | FilePath.

Definition media_from_u8 (sub_type : Z) : outcome anyhow MediaSubType :=
  match sub_type with
  | 0x01 => Ok HardDrive
  | 0x03 => Ok MediaVendor
  | 0x04 => Ok FilePath
  | _ => Err "Unknown Media subtype"
  end.

Definition hard_drive_parse (data : bytes) : outcome anyhow string :=
  if len data <? 37 then Err "Hard drive data is too short"
  else
    b ← slice data 0 4; let partition_number := le_combine b in
    b ← slice data 4 12; let partition_start_lba := le_combine b in
    b ← slice data 12 20; let partition_size_lba := le_combine b in
    partition_signature ← slice data 20 36;
    partition_format ← index data 36;
    _signature_type ← index data 37;
    '(prefix, sig) ←
      match u8 partition_format with
      | 0x01 =>
          b ← slice partition_signature 0 4;
          Ok ("MBR", fmt_hex_prefixed 10 (le_combine b))
      | 0x02 =>
          sig ← format_uefi_guid partition_signature;
          Ok ("GPT", sig)
      | _ => Err "Unknown partition format"
      end;
    let partition_details :=
      if negb (partition_number =? 0) then
        "," +:+ fmt_hex_prefixed 0 partition_start_lba +:+ "," +:+ fmt_hex_prefixed 0 partition_size_lba
      else "" in
    Ok ("HD(" +:+ fmt_dec partition_number +:+ "," +:+ prefix +:+ "," +:+ sig +:+ partition_details +:+ ")").

Definition media_vendor_parse (data : bytes) : outcome anyhow string :=
  if len data <? GUID_SIZE then Err "Vendor media data is too short"
  else
    guid ← slice data 0 GUID_SIZE;
    vendor_data ← slice data GUID_SIZE (len data);
    guid ← format_uefi_guid guid;
    Ok ("VenMedia(" +:+ guid +:+ "," +:+ hex_encode vendor_data +:+ ")").

Definition file_path_parse (data : bytes) : outcome anyhow string :=
  if (len data =? 0) || negb (len data mod 2 =? 0) then Err "File path is too short"
  else
    b ← slice data 0 (len data - 2);
    Ok ("File(" +:+ from_utf16_lossy (words16 b) +:+ ")").

Definition media_parse (sub_type : Z) (data : bytes) : outcome anyhow string :=
  path ← media_from_u8 sub_type;
  match path with
  | HardDrive => hard_drive_parse data
  | MediaVendor => media_vendor_parse data
  | FilePath => file_path_parse data
  end.

(** ** Type 5: BIOS boot specification ([bios_boot_spec_parser.rs]) *)
Inductive BiosSubType := Bbs.

Definition bios_from_u8 (sub_type : Z) : outcome anyhow BiosSubType :=
  match sub_type with
  | 0x01 => Ok Bbs
  | _ => Err "Unknown Bios Boot Specification subtype"
  end.

Definition bbs_parse (data : bytes) : outcome anyhow string :=
  '(device_type, index) ← gread_or "Failed to read device type" 2 data 0;
  let device_type := match device_type with
                     | 0x01 => "FLOPPY"
                     | 0x02 => "HARD_DRIVE"
                     | 0x03 => "CDROM"
                     | 0x04 => "PCMCIA"
                     | 0x05 => "USB"
                     | 0x06 => "EMBEDDED_NETWORK"
                     | 0x80 => "DEV"
                     | 0xFF => "UNKNOWN"
                     | other => fmt_dec other
                     end in
  '(status_flag, index) ← gread_or "Failed to read status flag" 2 data index;
  desc_bytes ← slice data index (len data);
  let desc_end := default (length desc_bytes) (position Init.Byte.x00 desc_bytes) in
  desc ← slice desc_bytes 0 (Z.of_nat desc_end);
  description ← ok_or "Failed to parse description" (from_utf8 desc);
  Ok ("BBS(" +:+ device_type +:+ "," +:+ description +:+ "," +:+ fmt_dec status_flag +:+ ")").

Definition bios_boot_spec_parse (sub_type : Z) (data : bytes) : outcome anyhow string :=
  path ← bios_from_u8 sub_type;
  match path with
  | Bbs => bbs_parse data
  end.

(** ** [DevicePath] ([mod.rs]) *)
Inductive DevicePath := Hardware | Acpi | Messaging | Media | BiosBootSpec.

Definition device_path_from_u8 (efi_type : Z) : outcome anyhow DevicePath :=
  match efi_type with
  | 0x01 => Ok Hardware
  | 0x02 => Ok Acpi
  | 0x03 => Ok Messaging
  | 0x04 => Ok Media
  | 0x05 => Ok BiosBootSpec
  | _ => Err "Unknown Device Path Type"
  end.

Definition device_path_parse (p : DevicePath) (efi_sub_type : Z) (data : bytes) : outcome anyhow string :=
  match p with
  | Hardware => hardware_parse efi_sub_type data
  | Acpi => acpi_parse efi_sub_type data
  | Messaging => messaging_parse efi_sub_type data
  | Media => media_parse efi_sub_type data
  | BiosBootSpec => bios_boot_spec_parse efi_sub_type data
  end.

(** ** Properties *)
Lemma gread_or_not_panic e n data i : gread_or e n data i <> Panic.
Proof. apply ok_or_Panic. Qed.

Lemma gread_or_Ok e n data i v j :
  gread_or e n data i = Ok (v, j) -> 0 <= n -> j = i + n /\ j <= len data.
Proof. unfold gread_or. rewrite ok_or_Ok. apply gread_Some. Qed.

Lemma format_uefi_guid_total g : len g = 16 -> format_uefi_guid g <> Panic.
Proof. intros Hg H. unfold format_uefi_guid in H. inv_panic; lia. Qed.

Lemma position_lt x l n : position x l = Some n -> (n < length l)%nat.
Proof.
  revert n. induction l as [|y l IH]; cbn; [done|]. intros n.
  destruct (decide (x = y)); [intros [= <-]; lia|].
  destruct (position x l) as [m|]; cbn; [|done]. intros [= <-]. specialize (IH m eq_refl). lia.
Qed.

Lemma position_default x l : (default (length l) (position x l) <= length l)%nat.
Proof. destruct (position x l) as [n|] eqn:E; cbn; [|lia]. apply position_lt in E. lia. Qed.

Ltac no_panic H :=
  repeat (inv_panic; try match goal with
    | K : gread_or _ _ _ _ = Panic |- _ => exfalso; exact (gread_or_not_panic _ _ _ _ K)
    | K : gread_or _ _ _ _ = Ok (_, _) |- _ => apply gread_or_Ok in K as [? ?]; [|lia]
    | K : format_uefi_guid _ = Panic |- _ => apply format_uefi_guid_total in K; [done|]
    | K : match ?x with _ => _ end = Panic |- _ => destruct x
    end); rewrite ?orb_false_iff, ?negb_false_iff, ?negb_true_iff, ?Z.ltb_ge, ?Z.eqb_eq, ?Z.eqb_neq in *.

Lemma hard_drive_panic data : hard_drive_parse data = Panic <-> len data = 37.
Proof.
  split.
  - intros H. unfold hard_drive_parse in H. no_panic H; lia.
  - intros Hl. unfold hard_drive_parse. rewrite (proj2 (Z.ltb_ge _ _)) by lia.
    rewrite !slice_total by lia. cbn.
    destruct (index_total (E := anyhow) data 36 ltac:(lia)) as [x ->]. cbn.
    rewrite (proj2 (index_Panic data 37)) by lia. done.
Qed.

Lemma other_parsers_total data :
  pci_parse data <> Panic /\ acpi_sub_type_parse data <> Panic /\
  fibre_channel_ex_parse data <> Panic /\ usb_parse data <> Panic /\ mac_parse data <> Panic /\
  ipv4_parse data <> Panic /\ media_vendor_parse data <> Panic /\ file_path_parse data <> Panic /\
  bbs_parse data <> Panic.
Proof.
  pose proof (len_nonneg data).
  repeat split; intros H'.
  - unfold pci_parse in H'. no_panic H'; lia.
  - unfold acpi_sub_type_parse in H'. no_panic H'; lia.
  - unfold fibre_channel_ex_parse in H'. no_panic H'; lia.
  - unfold usb_parse in H'. no_panic H'; lia.
  - unfold mac_parse in H'. no_panic H'; lia.
  - unfold ipv4_parse in H'. no_panic H'; lia.
  - unfold media_vendor_parse, GUID_SIZE in H'. no_panic H'; lia.
  - unfold file_path_parse in H'. pose proof (Z.div_mod (len data) 2 ltac:(lia)).
    no_panic H'. lia.
  - unfold bbs_parse in H'. no_panic H'; [lia|].
    match goal with K : ~ (0 <= Z.of_nat (default (length ?d) _) <= _) |- _ =>
      pose proof (position_default Init.Byte.x00 d); unfold len in K; lia end.
Qed.

(** The device path printers never panic, with one exception.  For every
    path type, subtype and node content, parsing ends in a text or an error;
    only a hard drive node of exactly 37 bytes panics, because the length check
    of the source admits it while the code reads byte 37. *)
Theorem device_path_parse_panics p sub_type data :
  device_path_parse p sub_type data = Panic <->
  p = Media /\ sub_type = 1 /\ len data = 37.
Proof.
  destruct (other_parsers_total data) as (H1 & H2 & H3 & H4 & H5 & H6 & H7 & H8 & H9).
  split.
  - intros H. destruct p; cbn in H; apply bind_Panic in H as [H|(q & Hq & H)].
    all: try (unfold hardware_from_u8, acpi_from_u8, messaging_from_u8, media_from_u8, bios_from_u8 in H;
              repeat (case_match; try discriminate); discriminate).
    all: destruct q; try done. apply hard_drive_panic in H.
    split; [done|]. split; [|done]. unfold media_from_u8 in Hq. now repeat (case_match; simplify_eq).
  - intros (-> & -> & Hl). cbn. now apply hard_drive_panic.
Qed.
