(* ===== verification/EventParsers.v ===== *)
(** * Parsers of event data ([deps/eventlog/src/ccel/*.rs])

    Each event type of the log has a parser that turns the raw event data into
    [EventDetails], and all share [compare_digests].  Hash functions, base64 and
    JSON parsing are parameters. *)
From S2P Require Import Prelude Types Text Fs TcgEvents DevicePaths.

Class EventCrates := {
  (** the [Digest::digest] of SHA-256, SHA-384, SHA-512 and SM3 *)
  sha256 : bytes -> bytes;
  sha384 : bytes -> bytes;
  sha512 : bytes -> bytes;
  sm3 : bytes -> bytes;
  (** [base64], standard alphabet with padding *)
  el_base64 : bytes -> string;
  (** [serde_json::from_str::<Value>] *)
  el_from_str : string -> option Value;
}.

Class EventCratesSpec (C : EventCrates) : Prop := {
  sha256_len : forall b, len (sha256 b) = 32;
  sha384_len : forall b, len (sha384 b) = 48;
  sha512_len : forall b, len (sha512 b) = 64;
  sm3_len : forall b, len (sm3 b) = 32;
}.

Section Parsers.
Context `{P : Profile} `{C : EventCrates}.

(** The hash of an algorithm the program supports. *)
Definition hash_of (a : TcgAlgorithm) : option (bytes -> bytes) :=
  match a with
  | Sha256 => Some sha256
  | Sha384 => Some sha384
  | Sha512 => Some sha512
  | Sm3 => Some sm3
  | _ => None
  end.

(** [EventDataParser::compare_digests]. *)
Fixpoint compare_digests (data : bytes) (digests : list ElDigest) : outcome anyhow bool :=
  match digests with
  | [] => Ok true
  | d :: digests =>
      h ← ok_or "Digest comparison failed: Digest hash algorithm not supported" (hash_of (alg d));
      if negb (bool_decide (h data = digest d)) then Ok false
      else compare_digests data digests
  end.

(** [EvBlankParser] and [EvSimpleParser]. *)
Definition blank_parse (_data : bytes) : outcome anyhow EventDetails := Ok details_empty.

Definition simple_parse (data : bytes) : outcome anyhow EventDetails :=
  s ← ok_or "utf8" (from_utf8 data);
  Ok (details_from_string s).

(** [SimpleStringParser].  [start + length - start] is computed left to right
    and cannot overflow: the length is one byte. *)
Definition simple_string_parse (data : bytes) : outcome anyhow EventDetails :=
  if len data =? 0 then Err "Data is too short: expected at least 1 byte"
  else
    length ← index data 0;
    let start := 1 in
    let end_ := start + u8 length - start in
    if len data <? end_ then Err "Data is too short"
    else
      description_bytes ← slice data start end_;
      event_desc ← ok_or "utf8" (from_utf8 description_bytes);
      Ok (details_from_string event_desc).

(** [EvPlatformConfigFlagsParser]: character U+0010 becomes a space, control
    characters are dropped; text that is not UTF-8 counts as empty. *)
Definition platform_config_flags_parse (data : bytes) : outcome anyhow EventDetails :=
  let raw := map (fun c => if c =? 0x10 then 32 else c) (default [] (utf8_chars data)) in
  let cleaned := base.filter (fun c => is_control c = false) raw in
  Ok (details_from_string (string_of_chars cleaned)).

(** [EvIplParser]. *)
Definition GCE_IPL_PREFIX : bytes := [Init.Byte.x2e; Init.Byte.x00].

Definition ipl_parse (data : bytes) : outcome anyhow EventDetails :=
  if len data <? 2 then Err "Data is too short: expected at least 2 bytes"
  else
    prefix ← slice data 0 2;
    event_desc ←
      if bool_decide (GCE_IPL_PREFIX = prefix) then
        let prefix_len := len GCE_IPL_PREFIX in
        len_minus_stop ← usize_sub (len data) prefix_len;
        if (len_minus_stop =? 0) || negb (len_minus_stop mod 2 =? 0) then
          Err "Data is too short or not UTF-16 string"
        else
          b ← slice data prefix_len len_minus_stop;
          Ok (from_utf16_lossy (words16 b))
      else
        let cutoff := default (length data) (position Init.Byte.x00 data) in
        sl ← slice data 0 (Z.of_nat cutoff);
        match from_utf8 sl with
        | Some s => Ok s
        | None => Ok (hex_encode data)
        end;
    Ok (details_from_string event_desc).

(** [format_guid]. *)
Definition format_guid (guid : bytes) : outcome anyhow string :=
  a ← slice guid 0 4; b ← slice guid 4 6; c ← slice guid 6 8; d ← slice guid 8 10;
  e ← slice guid 10 16;
  Ok (hex_encode a +:+ "-" +:+ hex_encode b +:+ "-" +:+ hex_encode c +:+ "-" +:+
      hex_encode d +:+ "-" +:+ hex_encode e).

(** [EvEfiVariableParser]. *)
Definition efi_variable_parse (data : bytes) : outcome anyhow EventDetails :=
  guid ← ok_or "Failed to read GUID" (get_range data 0 GUID_SIZE);
  let index := GUID_SIZE in
  '(uname_length, index) ← gread_or "Failed to read unicode name length" 8 data index;
  '(var_data_length, index) ← gread_or "Failed to read variable data length" 8 data index;
  desc_byte_len ← if uname_length * 2 <? 2 ^ 64 then Ok (uname_length * 2)
                  else Err "Out of bounds while reading description length";
  end_ ← usize_add index desc_byte_len;
  description_bytes ← ok_or "Out of bounds while reading description bytes" (get_range data index end_);
  unicode_name ← ok_or "utf16" (from_utf16 (words16 description_bytes));
  index ← usize_add index desc_byte_len;
  variable_data ←
    if 0 <? var_data_length then
      end_ ← usize_add index var_data_length;
      bytes ← ok_or "Out of bounds while reading variable_data" (get_range data index end_);
      Ok (el_base64 bytes)
    else Ok "";
  name ← format_guid guid;
  Ok {| d_string := None; unicode_name := Some unicode_name;
        unicode_name_length := Some uname_length; variable_data := Some variable_data;
        variable_data_length := Some var_data_length; variable_name := Some name;
        device_paths := None; d_data := None |}.

(** [EvEventTagParser]. *)
Definition AAEL_TAGGED_EVENT_ID : Z := 0x4141454c.

Record AaelEventEntry := {
  domain : string;
  operation : string;
  content : Value;
}.

(** [AaelEventEntry::from_bytes]: split at the first two spaces. *)
Definition aael_from_bytes (s : string) : outcome anyhow AaelEventEntry :=
  first_sp ← ok_or "No space found in event string" (find_char " " s);
  let after_first := substring (first_sp + 1) (String.length s - (first_sp + 1)) s in
  second_sp_rel ← ok_or "No second space found in event string" (find_char " " after_first);
  let second_sp := (first_sp + 1 + second_sp_rel)%nat in
  let domain := substring 0 first_sp s in
  let operation := substring (first_sp + 1) (second_sp - (first_sp + 1)) s in
  let content_str := substring (second_sp + 1) (String.length s - (second_sp + 1)) s in
  let content := default (VString content_str) (el_from_str content_str) in
  Ok {| domain := domain; operation := operation; content := content |}.

Definition aael_to_value (a : AaelEventEntry) : Value :=
  VObject [("domain", VString (domain a)); ("operation", VString (operation a)); ("content", content a)].

Definition set_data (d : EventDetails) (v : Value) (name : string) : EventDetails :=
  {| d_string := d_string d; unicode_name := Some name; unicode_name_length := unicode_name_length d;
     variable_data := variable_data d; variable_data_length := variable_data_length d;
     variable_name := variable_name d; device_paths := device_paths d; d_data := Some v |}.

Definition event_tag_parse (data : bytes) : outcome anyhow EventDetails :=
  '(event_id, index) ← gread_or "Cannot read event id" 4 data 0;
  '(data_size, index) ← gread_or "Cannot read length" 4 data index;
  end_ ← usize_add index data_size;
  event_data ← ok_or "Failed to read description" (get_range data index end_);
  let event_desc := base.filter (fun c => c <> 0) (utf8_lossy event_data) in
  let details := details_from_string (string_of_chars event_desc) in
  if event_id =? AAEL_TAGGED_EVENT_ID then
    text ← ok_or "Illegal AAEL event data" (from_utf8 event_data);
    aael ← aael_from_bytes text;
    Ok (set_data details (aael_to_value aael) "AAEL")
  else Ok details.

(** ** Boot services applications: a list of device path nodes *)

(** [print_path]. *)
Definition print_path (efi_type efi_sub_type : Z) (vendor_data : bytes) : outcome anyhow string :=
  match (dev_path ← device_path_from_u8 efi_type; device_path_parse dev_path efi_sub_type vendor_data) with
  | Ok s => Ok s
  | Err _ => Ok ("Path(" +:+ fmt_dec efi_type +:+ "," +:+ fmt_dec efi_sub_type +:+ "," +:+
                 hex_encode vendor_data +:+ ")")
  | Panic => Panic
  end.

Definition push_path (d : EventDetails) (p : string) : EventDetails :=
  {| d_string := d_string d; unicode_name := unicode_name d;
     unicode_name_length := unicode_name_length d; variable_data := variable_data d;
     variable_data_length := variable_data_length d; variable_name := variable_name d;
     device_paths := Some (default [] (device_paths d) ++ [p]); d_data := d_data d |}.

(** [get_nested_paths]; the fuel bounds the recursion, and a call that runs
    out of it is not a result of the source. *)
Fixpoint get_nested_paths (fuel : nat) (device_path_bytes : bytes) (result : EventDetails) :
    option (outcome anyhow EventDetails) :=
  match fuel with
  | O => None
  | S fuel =>
      match (efi_type ← index device_path_bytes 0;
             efi_sub_type ← index device_path_bytes 1;
             b ← slice device_path_bytes 2 4;
             let efi_length := le_combine b in
             if len device_path_bytes <? efi_length then Err "Data is too short"
             else
               vendor_data_raw ← slice device_path_bytes 4 efi_length;
               device_path ← slice device_path_bytes efi_length (len device_path_bytes);
               path ← print_path (u8 efi_type) (u8 efi_sub_type) vendor_data_raw;
               Ok (push_path result path, device_path)) with
      | Ok (result, device_path) =>
          if len device_path =? 0 then Some (Ok result)
          else get_nested_paths fuel device_path result
      | Err e => Some (Err e)
      | Panic => Some Panic
      end
  end.

(** Every node takes at least one byte of the rest, so the length of the data
    is enough fuel. *)
Definition boot_services_app_parse (data : bytes) : option (outcome anyhow EventDetails) :=
  let dev_path_offset_start := 24 in
  let dev_path_offset_end := 32 in
  if len data <? dev_path_offset_end then Some (Err "Data is too short")
  else
    match (b ← slice data dev_path_offset_start dev_path_offset_end;
           let dev_path_len := le_combine b in
           if dev_path_len =? 0 then Ok None
           else
             let dev_path_start := dev_path_offset_end in
             n ← usize_sub dev_path_len 4;
             dev_path_end ← usize_add dev_path_start n;
             if len data <? dev_path_end then Err "Data is shorter than claimed by dev_path_offset"
             else
               device_path_bytes ← slice data dev_path_start dev_path_end;
               if len device_path_bytes <? 4 then Err "Remaining device path is shorter than 4 bytes"
               else Ok (Some device_path_bytes)) with
    | Ok None => Some (Ok details_empty)
    | Ok (Some device_path_bytes) =>
        get_nested_paths (length device_path_bytes) device_path_bytes details_empty
    | Err e => Some (Err e)
    | Panic => Some Panic
    end.

(** ** [TcgEventType::get_parser], applied to the event data *)
Definition parse_event (t : TcgEventType) (data : bytes) : option (outcome anyhow EventDetails) :=
  match t with
  | EvPostCode => Some (simple_parse data)
  | EvSeparator => Some (blank_parse data)
  | EvAction => Some (simple_parse data)
  | EvEventTag => Some (event_tag_parse data)
  | EvPlatformConfigFlags => Some (platform_config_flags_parse data)
  | EvCompactHash => Some (simple_parse data)
  | EvIpl => Some (ipl_parse data)
  | EvOmitBootDeviceEvents => Some (simple_parse data)
  | EvEfiVariableDriverConfig => Some (efi_variable_parse data)
  | EvEfiVariableBoot => Some (efi_variable_parse data)
  | EvEfiBootServicesApplication => boot_services_app_parse data
  | EvEfiAction => Some (simple_parse data)
  | EvEfiPlatformFirmwareBlob2 => Some (simple_string_parse data)
  | EvEfiHandoffTables2 => Some (simple_string_parse data)
  | EvEfiVariableBoot2 => Some (efi_variable_parse data)
  | EvEfiVariableAuthority => Some (efi_variable_parse data)
  | _ => Some (blank_parse data)
  end.
End Parsers.
