(* ===== verification/EventLog.v ===== *)
(** * The CC event log ([deps/eventlog/src/lib.rs])

    Parsing of the binary log and its replay against measurement registers. *)
From S2P Require Import Prelude Types Text TcgEvents DevicePaths EventParsers.

Section EventLog.
Context `{P : Profile} `{C : EventCrates}.

Abbreviation size_map := (gmap TcgAlgorithm Z).

(** A loop run a given number of times. *)
Fixpoint repeat_outcome {E S} (n : nat) (f : S -> outcome E S) (s : S) : outcome E S :=
  match n with
  | O => Ok s
  | S n => s' ← f s; repeat_outcome n f s'
  end.

(** [parse_digest_sizes]: the size map is an accumulator, the number of bytes
    consumed the result. *)
Definition digest_size_step (data : bytes) (s : Z * size_map) : outcome anyhow (Z * size_map) :=
  let '(struct_index, m) := s in
  '(algo_id, struct_index) ← gread_or "Cannot read algorithm id" 2 data struct_index;
  '(size, struct_index) ← gread_or "Cannot read algorithm size" 2 data struct_index;
  algorithm ← ok_or "Unknown algorithm type detected" (algorithm_try_from algo_id);
  Ok (struct_index, <[algorithm := size]> m).

Definition parse_digest_sizes (data : bytes) (m : size_map) : outcome anyhow (Z * size_map) :=
  '(algo_size, struct_index) ← gread_or "Cannot read algorithm array size" 4 data 24;
  '(struct_index, m) ← repeat_outcome (Z.to_nat algo_size) (digest_size_step data) (struct_index, m);
  vendor_size ← index data struct_index;
  n ← usize_add (u8 vendor_size) 1;
  struct_index ← usize_add struct_index n;
  Ok (struct_index, m).

(** [parse_initial_entry]. *)
Definition parse_initial_entry (data : bytes) (idx : Z) (m : size_map) : outcome anyhow (Z * size_map) :=
  '(_, idx) ← gread_or "Cannot read PCR index" 4 data idx;
  '(event_type_num, idx) ← gread_or "Cannot read event type number" 4 data idx;
  event_type ← ok_or "Unknown event type detected" (event_type_try_from event_type_num);
  idx ← usize_add idx 20;
  '(event_data_size, idx) ← gread_or "Cannot read event data size" 4 data idx;
  if bool_decide (EvNoAction = event_type) then
    let start := idx in
    end_ ← if start + event_data_size <? 2 ^ 64 then Ok (start + event_data_size)
           else Err "Overflow in calculating digest_data range";
    digest_data ← ok_or "Out of bounds while reading digest_data" (get_range data start end_);
    '(actual_size, m) ← parse_digest_sizes digest_data m;
    if negb (actual_size =? event_data_size) then
      Err "Unexpected data size consumed for detecting digests"
    else Ok (end_, m)
  else Ok (idx, m).

(** [parse_digests]. *)
Definition digest_step (data : bytes) (m : size_map) (s : Z * list ElDigest) :
    outcome anyhow (Z * list ElDigest) :=
  let '(idx, ds) := s in
  '(algo_id, idx) ← gread_or "Cannot read algorithm id" 2 data idx;
  algorithm ← ok_or "Unknown algorithm type detected" (algorithm_try_from algo_id);
  size ← ok_or "Missing digest size for algorithm" (m !! algorithm);
  end_ ← usize_add idx size;
  digest ← slice data idx end_;
  idx ← usize_add idx size;
  Ok (idx, ds ++ [{| alg := algorithm; digest := digest |}]).

Definition parse_digests (data : bytes) (idx : Z) (m : size_map) : outcome anyhow (list ElDigest * Z) :=
  '(digest_count, idx) ← gread_or "Cannot read digest count" 4 data idx;
  '(idx, ds) ← repeat_outcome (Z.to_nat digest_count) (digest_step data m) (idx, []);
  Ok (ds, idx).

(** The fields of an entry up to the event data: [None] is the stop flag. *)
Definition parse_entry_head (data : bytes) (idx : Z) (m : size_map) :
    outcome anyhow (option (Z * TcgEventType * list ElDigest * bytes * Z)) :=
  '(stop_flag, idx) ← gread_or "Failed to read potential stop flag" 8 data idx;
  let idx := idx - 8 in
  if (stop_flag =? 0xFFFFFFFFFFFFFFFF) || (stop_flag =? 0) then Ok None
  else
    '(target_measurement_registry, idx) ← gread_or "Cannot read target measurement registry" 4 data idx;
    '(event_type_num, idx) ← gread_or "Cannot read event type number" 4 data idx;
    event_type ← ok_or "Unknown event type detected" (event_type_try_from event_type_num);
    '(ds, idx) ← parse_digests data idx m;
    '(event_data_size, idx) ← gread_or "Cannot read event data size" 4 data idx;
    if len data <? event_data_size then Err "Data is too short"
    else
      end_ ← usize_add idx event_data_size;
      event_data_raw ← slice data idx end_;
      idx ← usize_add idx event_data_size;
      Ok (Some (target_measurement_registry, event_type, ds, event_data_raw, idx)).

(** [parse_eventlog_entry]; [None] stands for a parser out of fuel, which
    never happens. *)
Definition parse_eventlog_entry (data : bytes) (idx : Z) (m : size_map) :
    option (outcome anyhow (option EventlogEntry * Z)) :=
  match parse_entry_head data idx m with
  | Ok None => Some (Ok (None, 0))
  | Ok (Some (target, ty, ds, raw, idx)) =>
      match compare_digests raw ds with
      | Ok matches =>
          r ← parse_event ty raw;
          Some (details ← r;
                Ok (Some {| e_index := target; event_type := ty; digest_matches_event := matches;
                            digests := ds; event := el_base64 raw; details := details |}, idx))
      | Err e => Some (Err e)
      | Panic => Some Panic
      end
  | Err e => Some (Err e)
  | Panic => Some Panic
  end.

(** The [while] loop of [TryFrom<Vec<u8>> for CcEventLog]. *)
Fixpoint parse_loop (fuel : nat) (data : bytes) (idx : Z) (m : size_map) (acc : list EventlogEntry) :
    option (outcome anyhow (list EventlogEntry)) :=
  match fuel with
  | O => None
  | S fuel =>
      if idx <? len data then
        r ← parse_eventlog_entry data idx m;
        match r with
        | Ok (Some entry, idx) => parse_loop fuel data idx m (acc ++ [entry])
        | Ok (None, idx) => if idx =? 0 then Some (Ok acc) else parse_loop fuel data idx m acc
        | Err e => Some (Err e)
        | Panic => Some Panic
        end
      else Some (Ok acc)
  end.

(** [CcEventLog::try_from]: every iteration consumes at least one byte, so
    one more iteration than there are bytes is enough. *)
Definition event_log_try_from (data : bytes) : option (outcome anyhow CcEventLog) :=
  match parse_initial_entry data 0 ∅ with
  | Ok (idx, m) =>
      r ← parse_loop (S (length data)) data idx m [];
      Some (l ← r; Ok {| log := l |})
  | Err e => Some (Err e)
  | Panic => Some Panic
  end.

(** ** Replay *)

(** [collect_digests_by_index]. *)
Definition collect_digests_by_index (ccel : list EventlogEntry) : gmap Z (list ElDigest) :=
  foldl (fun result entry =>
           <[e_index entry := default [] (result !! e_index entry) ++ digests entry]> result) ∅ ccel.

(** [accumulate_hash] with [hash_with]. *)
Definition accumulate_hash (a : TcgAlgorithm) (materials digest : bytes) : outcome anyhow bytes :=
  h ← ok_or "Unsupported Hash algorithm" (hash_of a);
  Ok (h (materials ++ digest)).

Definition replay (digest_map : gmap Z (list ElDigest)) (idx : Z) (a : TcgAlgorithm) : outcome anyhow bytes :=
  digest_size ← get_digest_size a;
  let materials := repeat Init.Byte.x00 (Z.to_nat digest_size) in
  match digest_map !! idx with
  | Some ds => mfold (fun mt d => accumulate_hash a mt (digest d)) materials
                 (base.filter (fun d => alg d = a) ds)
  | None => Ok materials
  end.

(** [CcEventLog::replay_and_match]. *)
Definition replay_and_match (l : CcEventLog) (data : list ReferenceMeasurement) : outcome anyhow unit :=
  let digest_map := collect_digests_by_index (log l) in
  mfold (fun _ item =>
           calculated ← replay digest_map (r_index item) (r_algorithm item);
           if negb (bool_decide (calculated = reference item)) then
             Err "CCEL eventlog does not pass RTMR check"
           else Ok tt) tt data.
End EventLog.
