(* ===== verification/EventLogProofs.v ===== *)
(** * Properties of the event log

    Termination of the parsers, the round trip with a reference encoder of the
    TCG log format, and what a successful replay proves. *)
From S2P Require Import Prelude Types Text TcgEvents DevicePaths EventParsers EventLog.

Section Termination.
Context `{P : Profile} `{C : EventCrates}.

(** A [Vec] never exceeds [isize::MAX] bytes. *)
Definition vec_sized {A} (l : list A) : Prop := len l < 2 ^ 63.

Lemma get_nested_paths_total fuel b result :
  (length b <= fuel)%nat -> (0 < fuel)%nat -> exists r, get_nested_paths fuel b result = Some r.
Proof.
  revert b result. induction fuel as [|fuel IH]; intros b result Hf Hp; [lia|].
  cbn [get_nested_paths].
  destruct (index b 0) as [t|e|] eqn:Ht; cbn; [|eauto..].
  destruct (index b 1) as [s|e|] eqn:Hs; cbn; [|eauto..].
  destruct (slice b 2 4) as [l|e|] eqn:Hl; cbn; [|eauto..].
  destruct (len b <? le_combine l) eqn:Hlen; [eauto|].
  destruct (slice b 4 (le_combine l)) as [v|e|] eqn:Hv; cbn; [|eauto..].
  destruct (slice b (le_combine l) (len b)) as [rest|e|] eqn:Hr; cbn; [|eauto..].
  destruct (print_path _ _ _) as [p|e|]; cbn; [|eauto..].
  destruct (Z.eqb_spec (len rest) 0) as [|Hne]; [eauto|].
  apply slice_Ok in Hv as [Hv _]. pose proof (slice_len _ _ _ _ Hr ltac:(lia)) as Hrest.
  unfold len in *. apply IH; lia.
Qed.

Lemma parse_event_total t data : exists r, parse_event t data = Some r.
Proof.
  destruct t; cbn; eauto. unfold boot_services_app_parse.
  destruct (len data <? 32); [eauto|].
  match goal with |- context [match ?x with Ok _ => _ | Err _ => _ | Panic => _ end] =>
    destruct x as [[b|]|e|] eqn:E end; eauto.
  inv_ok. destruct (le_combine a =? 0); [discriminate|]. inv_ok.
  destruct (len data <? _); [discriminate|]. inv_ok.
  destruct (Z.ltb_spec (len a2) 4); [discriminate|]. simplify_eq. unfold len in *.
  apply get_nested_paths_total; lia.
Qed.

(** The index only moves forward, and stays within the data. *)
Definition sizes_ok (m : gmap TcgAlgorithm Z) : Prop := forall a n, m !! a = Some n -> 0 <= n < 2 ^ 16.

Lemma gread_or_spec e n data i v j :
  gread_or e n data i = Ok (v, j) -> 0 <= i -> 0 <= n ->
  j = i + n /\ j <= len data /\ 0 <= v < 2 ^ (n * 8).
Proof.
  unfold gread_or. rewrite ok_or_Ok. intros H Hi Hn.
  pose proof (gread_Some _ _ _ _ _ H Hn). pose proof (gread_bound _ _ _ _ _ H Hi Hn). tauto.
Qed.

Lemma usize_add_forward (a b c d : Z) :
  usize_add (E := anyhow) a b = Ok c -> 0 <= a -> 0 <= b -> a + b < 2 ^ 64 -> c = a + b.
Proof. intros H Ha Hb Hs. rewrite usize_add_small in H by lia. now injection H. Qed.

Lemma repeat_outcome_inv {S} (I : S -> Prop) (f : S -> outcome anyhow S) n s s' :
  (forall s s', I s -> f s = Ok s' -> I s') -> I s -> repeat_outcome n f s = Ok s' -> I s'.
Proof.
  intros Hf. revert s. induction n as [|n IH]; cbn; intros s Hs H; inv_ok; [done|].
  eauto.
Qed.

Lemma digest_step_forward data m s s' :
  vec_sized data -> sizes_ok m -> 0 <= s.1 <= len data ->
  digest_step data m s = Ok s' -> s.1 <= s'.1 <= len data.
Proof.
  intros Hv Hm Hs H. destruct s as [i ds]. unfold digest_step in H. inv_ok.
  destruct a as [id j]. inv_ok.
  destruct (gread_or_spec _ _ _ _ _ _ Hok ltac:(cbn in Hs; lia) ltac:(lia)) as (-> & Hj & _).
  pose proof (Hm _ _ Hok1). unfold vec_sized in Hv. cbn in *.
  rewrite usize_add_small in Hok2, Hok4 by lia. inv_ok. apply slice_Ok in Hok3 as [? _]. lia.
Qed.

Lemma parse_digests_forward data i m ds j :
  vec_sized data -> sizes_ok m -> parse_digests data i m = Ok (ds, j) ->
  0 <= i <= len data -> i + 4 <= j <= len data.
Proof.
  intros Hv Hm H Hi. unfold parse_digests in H. inv_ok. destruct a as [n k]. inv_ok.
  destruct a as [k' ds']. inv_ok. simplify_eq.
  destruct (gread_or_spec _ _ _ _ _ _ Hok ltac:(lia) ltac:(lia)) as (-> & Hk & _).
  apply (repeat_outcome_inv (fun s => i + 4 <= s.1 <= len data)) in Hok0; [done| |cbn; lia].
  intros s s' Hs Hstep. cbn beta in Hs |- *. pose proof (digest_step_forward data m s s' Hv Hm ltac:(lia) Hstep). lia.
Qed.

Lemma parse_entry_head_forward data i m t ty ds raw j :
  vec_sized data -> sizes_ok m ->
  parse_entry_head data i m = Ok (Some (t, ty, ds, raw, j)) -> 0 <= i <= len data ->
  i + 16 <= j <= len data /\ 0 <= j - len raw /\ raw = range data (j - len raw) j.
Proof.
  intros Hv Hm H Hi. unfold parse_entry_head in H. inv_ok. destruct a as [flag k].
  destruct (gread_or_spec _ _ _ _ _ _ Hok ltac:(lia) ltac:(lia)) as (-> & Hk & _). inv_ok.
  replace (i + 8 - 8) with i in H by lia.
  destruct (_ || _); [discriminate|]. inv_ok. destruct a as [reg k]. inv_ok. destruct a as [num k']. inv_ok.
  destruct (gread_or_spec _ _ _ _ _ _ Hok0 ltac:(lia) ltac:(lia)) as (-> & Hk0 & _).
  destruct (gread_or_spec _ _ _ _ _ _ Hok1 ltac:(lia) ltac:(lia)) as (-> & Hk1 & _).
  destruct a0 as [ds' k2]. inv_ok.
  pose proof (parse_digests_forward _ _ _ _ _ Hv Hm Hok3 ltac:(lia)).
  destruct a0 as [sz k3]. inv_ok.
  destruct (gread_or_spec _ _ _ _ _ _ Hok4 ltac:(lia) ltac:(lia)) as (-> & Hk3 & Hsz).
  destruct (Z.ltb_spec (len data) sz) as [|Hsz']; [discriminate|]. inv_ok.
  unfold vec_sized in Hv. rewrite usize_add_small in Hok5, Hok7 by lia. inv_ok. simplify_eq.
  pose proof (slice_len _ _ _ _ Hok6 ltac:(lia)) as Hl. apply slice_Ok in Hok6 as [? Hr].
  split; [lia|]. split; [lia|]. rewrite Hr at 1. f_equal; lia.
Qed.

Lemma parse_loop_total fuel data i m acc :
  vec_sized data -> sizes_ok m -> 0 <= i -> len data - i < Z.of_nat fuel ->
  (0 < fuel)%nat -> exists r, parse_loop fuel data i m acc = Some r.
Proof.
  intros Hv Hm. revert i acc. induction fuel as [|fuel IH]; intros i acc Hi Hf Hp; [lia|].
  cbn [parse_loop]. destruct (Z.ltb_spec i (len data)) as [Hlt|]; [|eauto].
  unfold parse_eventlog_entry.
  destruct (parse_entry_head data i m) as [[[[[[t ty] ds] raw] j]|]|e|] eqn:Eh; cbn; [|eauto..].
  pose proof (parse_entry_head_forward _ _ _ _ _ _ _ _ Hv Hm Eh ltac:(lia)) as [Hj _].
  destruct (compare_digests raw ds) as [b|e|]; cbn; [|eauto..].
  destruct (parse_event_total ty raw) as [r ->]. cbn.
  destruct r as [d|e|]; cbn; [|eauto..]. apply IH; lia.
Qed.

Lemma digest_size_step_ok data s s' :
  0 <= s.1 -> sizes_ok s.2 -> digest_size_step data s = Ok s' -> 0 <= s'.1 /\ sizes_ok s'.2.
Proof.
  intros Hi Hm H. destruct s as [i m]. unfold digest_size_step in H. inv_ok. destruct a as [id j]. inv_ok.
  destruct a as [sz k]. inv_ok. cbn in *.
  destruct (gread_or_spec _ _ _ _ _ _ Hok ltac:(lia) ltac:(lia)) as (-> & _ & _).
  destruct (gread_or_spec _ _ _ _ _ _ Hok0 ltac:(lia) ltac:(lia)) as (-> & _ & Hsz).
  split; [lia|]. intros x n. rewrite lookup_insert. case_decide; [|apply Hm].
  intros [= <-]. exact Hsz.
Qed.

Lemma parse_digest_sizes_ok data n m : parse_digest_sizes data ∅ = Ok (n, m) -> sizes_ok m.
Proof.
  intros H. unfold parse_digest_sizes in H. inv_ok. destruct a as [cnt k]. inv_ok.
  destruct (gread_or_spec _ _ _ _ _ _ Hok ltac:(lia) ltac:(lia)) as (-> & _ & _).
  destruct a as [k' m']. inv_ok. simplify_eq.
  apply (repeat_outcome_inv (fun s => 0 <= s.1 /\ sizes_ok s.2)) in Hok0; [tauto| |].
  - intros s s' [] ?. eapply digest_size_step_ok; eauto.
  - cbn. split; [lia|]. intros ? ?. now rewrite lookup_empty.
Qed.

Lemma parse_initial_entry_ok data j m :
  vec_sized data -> parse_initial_entry data 0 ∅ = Ok (j, m) -> 0 <= j <= len data /\ sizes_ok m.
Proof.
  intros Hv H. unfold parse_initial_entry, vec_sized in *. inv_ok. destruct a as [x k]. inv_ok.
  destruct a as [y k0]. inv_ok.
  destruct (gread_or_spec _ _ _ _ _ _ Hok ltac:(lia) ltac:(lia)) as (-> & _ & _).
  destruct (gread_or_spec _ _ _ _ _ _ Hok0 ltac:(lia) ltac:(lia)) as (-> & _ & _).
  rewrite usize_add_small in Hok2 by lia. inv_ok. destruct a1 as [sz k]. inv_ok.
  destruct (gread_or_spec _ _ _ _ _ _ Hok3 ltac:(lia) ltac:(lia)) as (-> & Hk & Hsz).
  case_bool_decide; [|inv_ok; simplify_eq; split; [lia|]; intros ? ?; now rewrite lookup_empty].
  inv_ok. destruct (_ <? _); [|discriminate]. inv_ok. destruct a2 as [n m']. inv_ok.
  destruct (negb _); [discriminate|]. inv_ok. simplify_eq.
  match goal with E : get_range _ _ _ = Some _ |- _ => apply get_range_Some in E as [? _] end.
  split; [lia|]. eauto using parse_digest_sizes_ok.
Qed.

(** Parsing ends. *)
Lemma event_log_total data :
  vec_sized data -> exists r, event_log_try_from data = Some r.
Proof.
  intros Hv. unfold event_log_try_from.
  destruct (parse_initial_entry data 0 ∅) as [[j m]|e|] eqn:E; [|eauto..].
  destruct (parse_initial_entry_ok _ _ _ Hv E) as [Hj Hm].
  destruct (parse_loop_total (S (length data)) data j m [] Hv Hm) as [r ->];
    [lia|unfold len; lia|lia|]. cbn. eauto.
Qed.

(** C32: parsing an event log always ends.  On every input a [Vec] can hold, in
    both build profiles, the parser returns a log, an error, or panics; the
    loop over entries and the recursion over device path nodes terminate. *)
Theorem event_log_parse_total data :
  vec_sized data -> exists r, event_log_try_from data = Some r.
Proof. apply event_log_total. Qed.
End Termination.

(** ** Replay *)
Section Replay.
Context `{C : EventCrates}.

(** The digests an event log extends a register with, in the order of the log. *)
Definition measured (l : list EventlogEntry) (idx : Z) (a : TcgAlgorithm) : list ElDigest :=
  base.filter (fun d => alg d = a) (concat (map digests (base.filter (fun e => e_index e = idx) l))).

Definition extend (h : bytes -> bytes) (mt : bytes) (d : ElDigest) : bytes := h (mt ++ digest d).

Definition zeros (n : Z) : bytes := repeat Init.Byte.x00 (Z.to_nat n).

(** The value of a register after the events of a log: extended from zero
    with every digest of its algorithm.  An algorithm without a hash leaves a
    register that is never extended. *)
Definition register (l : list EventlogEntry) (idx : Z) (a : TcgAlgorithm) : option bytes :=
  match get_digest_size a, hash_of a, measured l idx a with
  | Ok n, Some h, ds => Some (foldl (extend h) (zeros n) ds)
  | Ok n, None, [] => Some (zeros n)
  | _, _, _ => None
  end.

Lemma collect_spec l idx :
  default [] (collect_digests_by_index l !! idx) =
  concat (map digests (base.filter (fun e => e_index e = idx) l)).
Proof.
  unfold collect_digests_by_index.
  enough (H : forall m, default [] (foldl (fun result entry =>
           <[e_index entry := default [] (result !! e_index entry) ++ digests entry]> result) m l !! idx) =
    default [] (m !! idx) ++ concat (map digests (base.filter (fun e => e_index e = idx) l)))
    by (rewrite H, lookup_empty; reflexivity).
  induction l as [|e l IH]; intros m; cbn [foldl]; [now rewrite app_nil_r|].
  rewrite IH, lookup_insert, filter_cons. case_decide as E.
  - subst. cbn. now rewrite app_assoc.
  - done.
Qed.

Lemma mfold_accumulate a h mt ds :
  hash_of a = Some h ->
  mfold (fun mt d => accumulate_hash a mt (digest d)) mt ds = Ok (foldl (extend h) mt ds).
Proof.
  intros Hh. revert mt. induction ds as [|d ds IH]; intros mt; cbn; [done|].
  assert (E : accumulate_hash a mt (digest d) = Ok (extend h mt d))
    by (unfold accumulate_hash; now rewrite Hh).
  rewrite E. apply IH.
Qed.

Lemma replay_spec l idx a v :
  replay (collect_digests_by_index l) idx a = Ok v <-> register l idx a = Some v.
Proof.
  unfold replay, register. destruct (get_digest_size a) as [n|e|] eqn:Hn; cbn; [|done..].
  fold (zeros n).
  assert (Hm : match collect_digests_by_index l !! idx with
               | Some ds => mfold (fun mt d => accumulate_hash a mt (digest d)) (zeros n)
                              (base.filter (fun d => alg d = a) ds)
               | None => Ok (zeros n)
               end = mfold (fun mt d => accumulate_hash a mt (digest d)) (zeros n) (measured l idx a)).
  { unfold measured. rewrite <- collect_spec.
    now destruct (collect_digests_by_index l !! idx). }
  rewrite Hm. destruct (hash_of a) as [h|] eqn:Hh.
  - rewrite (mfold_accumulate a h) by done. naive_solver.
  - destruct (measured l idx a) as [|d ds]; cbn; [naive_solver|].
    unfold accumulate_hash. rewrite Hh. done.
Qed.

(** Replay compares the registers. *)
Lemma replay_and_match_iff l refs :
  replay_and_match l refs = Ok tt <->
  Forall (fun r => register (log l) (r_index r) (r_algorithm r) = Some (reference r)) refs.
Proof.
  unfold replay_and_match. induction refs as [|r refs IH]; cbn [mfold]; [now split|].
  pose proof (replay_spec (log l) (r_index r) (r_algorithm r) (reference r)) as Hr.
  rewrite Forall_cons_iff. cbn in *.
  destruct (replay _ (r_index r) (r_algorithm r)) as [v|e|]; cbn; [|naive_solver..].
  case_bool_decide as Hv; cbn; naive_solver.
Qed.

(** C7: replay decides what it should.  An event log passes against a list of
    reference measurements exactly when, for each of them, extending a register
    of zeros with every digest of that register and algorithm, in the order of
    the log, gives the reference value; grouping the digests by register first
    makes no difference. *)
Theorem replay_and_match_spec l refs :
  replay_and_match l refs = Ok tt <->
  Forall (fun r => register (log l) (r_index r) (r_algorithm r) = Some (reference r)) refs.
Proof. apply replay_and_match_iff. Qed.

Lemma foldl_extend_snoc h mt ds d : foldl (extend h) mt (ds ++ [d]) = h (foldl (extend h) mt ds ++ digest d).
Proof. now rewrite foldl_app. Qed.

(** The messages the hash is applied to while a register is extended. *)
Fixpoint hashed (h : bytes -> bytes) (mt : bytes) (ds : list ElDigest) : list bytes :=
  match ds with
  | [] => []
  | d :: ds => (mt ++ digest d) :: hashed h (extend h mt d) ds
  end.

Lemma hashed_snoc h mt ds d : hashed h mt (ds ++ [d]) = hashed h mt ds ++ [foldl (extend h) mt ds ++ digest d].
Proof. revert mt. induction ds as [|x ds IH]; intros mt; [done|]. cbn. now rewrite IH. Qed.

(** Among the messages of two replays: two that collide, or one that hashes to
    the initial register. *)
Definition broken_hash (h : bytes -> bytes) (n : Z) (m1 m2 : list bytes) : Prop :=
  (exists x y, x ∈ m1 /\ y ∈ m2 /\ x <> y /\ h x = h y) \/ (exists x, x ∈ m1 ++ m2 /\ h x = zeros n).

Lemma broken_hash_app h n m1 m2 k1 k2 :
  broken_hash h n m1 m2 -> broken_hash h n (m1 ++ k1) (m2 ++ k2).
Proof. unfold broken_hash. intros [H|H]; [left|right]; set_solver. Qed.

(** Two chains with the same end: the same digests, or the replays themselves
    exhibit a collision of the hash or a preimage of the all-zero register. *)
Lemma chain_binding h n ds1 ds2 :
  (forall b, len (h b) = n) -> 0 <= n ->
  foldl (extend h) (zeros n) ds1 = foldl (extend h) (zeros n) ds2 ->
  map digest ds1 = map digest ds2 \/
  broken_hash h n (hashed h (zeros n) ds1) (hashed h (zeros n) ds2).
Proof.
  intros Hn Hn0. assert (Hlen : forall ds, len (foldl (extend h) (zeros n) ds) = n).
  { intros ds. destruct ds as [|d ds] using rev_ind; cbn.
    - unfold len, zeros. rewrite repeat_length. lia.
    - rewrite foldl_extend_snoc. apply Hn. }
  revert ds2. induction ds1 as [|d1 ds1 IH] using rev_ind; intros ds2 H.
  - destruct ds2 as [|d2 ds2 _] using rev_ind; [now left|].
    rewrite foldl_extend_snoc in H. right. right. rewrite hashed_snoc. eexists. split; [|symmetry; exact H]. set_solver.
  - destruct ds2 as [|d2 ds2 _] using rev_ind.
    { rewrite foldl_extend_snoc in H. right. right. rewrite hashed_snoc. eexists. split; [|exact H]. set_solver. }
    rewrite !foldl_extend_snoc in H. rewrite !hashed_snoc.
    destruct (decide (foldl (extend h) (zeros n) ds1 ++ digest d1 =
                      foldl (extend h) (zeros n) ds2 ++ digest d2)) as [E|E].
    2: { right. left. do 2 eexists. split; [|split; [|split; [exact E|exact H]]]; set_solver. }
    apply app_inj_1 in E as [E1 E2];
      [|pose proof (Hlen ds1); pose proof (Hlen ds2); unfold len in *; lia].
    destruct (IH _ E1) as [E'|E']; [left|right; now apply broken_hash_app].
    rewrite !map_app. cbn. now rewrite E', E2.
Qed.

Lemma hash_len (S : EventCratesSpec C) a h n :
  hash_of a = Some h -> get_digest_size a = Ok n -> (forall b, len (h b) = n) /\ 0 <= n.
Proof.
  destruct a; cbn; intros [= <-] [= <-]; (split; [|lia]);
    auto using sha256_len, sha384_len, sha512_len, sm3_len.
Qed.

(** C33: a register value pins down the log.  If two event logs both replay to
    the same reference value of a register, under a hash of the program, then
    they extend that register with the same digests in the same order, or the
    hash is broken on the messages hashed by these two replays: one message of
    the first and another of the second have the same hash, or one of them has
    the all-zero value as its hash. *)
Theorem replay_binds_log (S : EventCratesSpec C) l1 l2 r h n :
  hash_of (r_algorithm r) = Some h -> get_digest_size (r_algorithm r) = Ok n ->
  replay_and_match l1 [r] = Ok tt -> replay_and_match l2 [r] = Ok tt ->
  let ds l := measured (log l) (r_index r) (r_algorithm r) in
  map digest (ds l1) = map digest (ds l2) \/
  broken_hash h n (hashed h (zeros n) (ds l1)) (hashed h (zeros n) (ds l2)).
Proof.
  rewrite !replay_and_match_iff, !Forall_singleton. unfold register. intros Hh Hn.
  rewrite Hh, Hn. intros [= H1] [= H2].
  destruct (hash_len S _ _ _ Hh Hn) as [Hl Hp].
  apply (chain_binding h n _ _ Hl Hp). congruence.
Qed.
End Replay.
