(* ===== verification/EventLogFormat.v ===== *)
(** * The event log format: a reference encoder and the round trip

    A writer for the TCG crypto-agile log format: the specification event that
    declares the digest sizes, then the events, then the end of the log.  The
    parser reads back exactly what was written, and what it accepts is written
    that way. *)
From S2P Require Import Prelude Types Text TcgEvents DevicePaths EventParsers EventLog EventLogProofs.

(** ** The writer *)
Record RawEvent := {
  ev_index : Z;
  ev_type : TcgEventType;
  ev_digests : list ElDigest;
  ev_data : bytes;
}.

Definition encode_digest (d : ElDigest) : bytes := le_split 2 (algorithm_id (alg d)) ++ digest d.

Definition encode_event (e : RawEvent) : bytes :=
  le_split 4 (ev_index e) ++ le_split 4 (event_type_id (ev_type e)) ++
  le_split 4 (len (ev_digests e)) ++ concat (map encode_digest (ev_digests e)) ++
  le_split 4 (len (ev_data e)) ++ ev_data e.

(** The specification event: register, SHA-1 digest, signature and version
    fields, digest sizes, vendor information. *)
Record SpecEvent := {
  sp_index : Z;
  sp_digest : bytes;
  sp_fields : bytes;
  sp_sizes : list (TcgAlgorithm * Z);
  sp_vendor : bytes;
}.

Definition encode_size (s : TcgAlgorithm * Z) : bytes := le_split 2 (algorithm_id s.1) ++ le_split 2 s.2.

Definition encode_spec_data (s : SpecEvent) : bytes :=
  sp_fields s ++ le_split 4 (len (sp_sizes s)) ++ concat (map encode_size (sp_sizes s)) ++
  le_split 1 (len (sp_vendor s)) ++ sp_vendor s.

Definition encode_spec (s : SpecEvent) : bytes :=
  le_split 4 (sp_index s) ++ le_split 4 (event_type_id EvNoAction) ++ sp_digest s ++
  le_split 4 (len (encode_spec_data s)) ++ encode_spec_data s.

Definition encode_log (s : SpecEvent) (events : list RawEvent) (tail : bytes) : bytes :=
  encode_spec s ++ concat (map encode_event events) ++ tail.

Definition spec_ok (s : SpecEvent) : Prop :=
  0 <= sp_index s < 2 ^ 32 /\ len (sp_digest s) = 20 /\ len (sp_fields s) = 24 /\
  Forall (fun x => 0 <= x.2 < 2 ^ 16) (sp_sizes s) /\ len (sp_vendor s) < 256 /\
  len (encode_spec_data s) < 2 ^ 32.

Definition size_map (s : SpecEvent) : gmap TcgAlgorithm Z :=
  foldl (fun m x => <[x.1 := x.2]> m) ∅ (sp_sizes s).

(** An event that fits the format: a declared size for every digest, and no
    confusion with the end of the log. *)
Definition event_ok (m : gmap TcgAlgorithm Z) (e : RawEvent) : Prop :=
  0 <= ev_index e < 2 ^ 32 /\ ~ (ev_index e = 0 /\ ev_type e = EvPrebootCert) /\
  len (ev_digests e) < 2 ^ 32 /\ len (ev_data e) < 2 ^ 32 /\
  Forall (fun d => m !! alg d = Some (len (digest d))) (ev_digests e).

(** The end of the log: nothing, or a stop flag and anything after it. *)
Definition tail_ok (t : bytes) : Prop :=
  t = [] \/ exists flag junk, (flag = 0 \/ flag = 0xFFFFFFFFFFFFFFFF) /\ t = le_split 8 flag ++ junk.

(** ** Positions *)
Definition at_pos (data : bytes) (i : Z) (rest : bytes) : Prop :=
  exists pre, data = pre ++ rest /\ i = len pre.

Lemma at_pos_gread n z data i rest :
  at_pos data i (le_split n z ++ rest) -> 0 <= z < 2 ^ (Z.of_nat n * 8) ->
  gread (Z.of_nat n) data i = Some (z, i + Z.of_nat n) /\ at_pos data (i + Z.of_nat n) rest.
Proof.
  intros (pre & -> & Hi) Hz. split; [now apply gread_app_at|].
  exists (pre ++ le_split n z). rewrite <- app_assoc. split; [done|]. len_lia.
Qed.

Lemma at_pos_gread_or e n m z data i rest :
  at_pos data i (le_split n z ++ rest) -> 0 <= z < 2 ^ (Z.of_nat n * 8) -> m = Z.of_nat n ->
  gread_or e m data i = Ok (z, i + m) /\ at_pos data (i + m) rest.
Proof.
  intros H Hz ->. destruct (at_pos_gread _ _ _ _ _ H Hz) as [E ?]. split; [|done].
  unfold gread_or. now rewrite E.
Qed.

Lemma at_pos_slice {E} b data i rest :
  at_pos data i (b ++ rest) ->
  slice (E := E) data i (i + len b) = Ok b /\ get_range data i (i + len b) = Some b /\
  at_pos data (i + len b) rest.
Proof.
  intros (pre & -> & ->). split; [now apply slice_app_at|]. split; [now apply get_range_app_at|].
  exists (pre ++ b). rewrite <- app_assoc. split; [done|]. len_lia.
Qed.

Lemma at_pos_bound data i rest : at_pos data i rest -> 0 <= i /\ i + len rest = len data.
Proof. intros (pre & -> & ->). len_lia. Qed.

(** Two little-endian fields read as one. *)
Lemma le_combine_fields a b :
  0 <= a < 2 ^ 32 -> 0 <= b < 2 ^ 32 ->
  le_combine (le_split 4 a ++ le_split 4 b) = a + b * 2 ^ 32.
Proof.
  intros Ha Hb. rewrite le_combine_app, !le_combine_split, length_le_split.
  change (8 * Z.of_nat 4) with 32. change (Z.of_nat 4 * 8) with 32.
  rewrite !Z.mod_small by lia.
  rewrite <- Z.add_nocarry_lor.
  - rewrite Z.shiftl_mul_pow2 by lia. lia.
  - apply Z.bits_inj'. intros k Hk. rewrite Z.bits_0, Z.land_spec, Z.shiftl_spec by lia.
    destruct (Z.ltb_spec k 32).
    + rewrite (Z.testbit_neg_r b) by lia. apply andb_false_r.
    + rewrite <- (Z.mod_small a (2 ^ 32)) by lia. now rewrite Z.mod_pow2_bits_high by lia.
Qed.

Section RoundTrip.
Context `{P : Profile} `{C : EventCrates}.

(** ** Digest sizes *)
Lemma digest_sizes_loop l data i m rest :
  at_pos data i (concat (map encode_size l) ++ rest) ->
  Forall (fun x => 0 <= x.2 < 2 ^ 16) l ->
  exists j, repeat_outcome (length l) (digest_size_step data) (i, m) =
    Ok (j, foldl (fun m x => <[x.1 := x.2]> m) m l) /\ at_pos data j rest.
Proof.
  intros H Hl. revert i m H. induction Hl as [|[a n] l Hn _ IH]; intros i m H; [now exists i|].
  cbn [map concat] in H. unfold encode_size in H. cbn [fst snd] in H. rewrite <- !app_assoc in H.
  pose proof (algorithm_id_range a).
  destruct (at_pos_gread_or "Cannot read algorithm id" 2 2 _ _ _ _ H ltac:(lia) eq_refl) as [E1 H1].
  destruct (at_pos_gread_or "Cannot read algorithm size" 2 2 _ _ _ _ H1 ltac:(cbn in *; lia) eq_refl) as [E2 H2].
  destruct (IH _ (<[a := n]> m) H2) as (j & Ej & Hj).
  assert (Es : digest_size_step data (i, m) = Ok (i + 2 + 2, <[a := n]> m)).
  { unfold digest_size_step. rewrite E1. cbn. rewrite E2. cbn. now rewrite algorithm_roundtrip. }
  exists j. split; [|done]. cbn [length repeat_outcome]. rewrite Es. exact Ej.
Qed.

Lemma at_pos_start data : at_pos data 0 data.
Proof. now exists []. Qed.

Lemma parse_digest_sizes_encode s :
  spec_ok s -> parse_digest_sizes (encode_spec_data s) ∅ = Ok (len (encode_spec_data s), size_map s).
Proof.
  intros (_ & _ & Hf & Hs & Hv & Hl). set (data := encode_spec_data s) in *.
  assert (H0 : at_pos data 24 (le_split 4 (len (sp_sizes s)) ++ concat (map encode_size (sp_sizes s)) ++
      le_split 1 (len (sp_vendor s)) ++ sp_vendor s)) by (exists (sp_fields s); split; [done|lia]).
  unfold parse_digest_sizes. pose proof (len_nonneg (sp_sizes s)). pose proof (len_nonneg (sp_vendor s)).
  assert (Hn : len (sp_sizes s) < 2 ^ 32).
  { apply at_pos_bound in H0 as [_ H0]. revert H0. rewrite !len_app.
    assert (len (sp_sizes s) <= len (concat (map encode_size (sp_sizes s)))).
    { clear. induction (sp_sizes s) as [|x l IH]; cbn [map concat]; [done|].
      rewrite len_cons, len_app. unfold encode_size at 1. rewrite len_app, !len_le_split. lia. }
    pose proof (len_nonneg (le_split 4 (len (sp_sizes s)))).
    pose proof (len_nonneg (le_split 1 (len (sp_vendor s)))). lia. }
  destruct (at_pos_gread_or "Cannot read algorithm array size" 4 4 _ _ _ _ H0 ltac:(cbn; lia) eq_refl) as [E1 Hp1].
  rewrite E1. cbn [mbind outcome_bind].
  destruct (digest_sizes_loop _ _ _ ∅ _ Hp1 Hs) as (j & Ej & Hj).
  rewrite to_nat_len, Ej. cbn [mbind outcome_bind].
  destruct (Hj) as (pre & Hd & Hjp). pose proof (at_pos_bound _ _ _ Hj) as [Hj0 Hjl].
  rewrite len_app, len_le_split in Hjl.
  assert (Hb : exists b, le_split 1 (len (sp_vendor s)) = [b] /\ u8 b = len (sp_vendor s)).
  { exists (byte.of_Z (len (sp_vendor s))). split; [done|]. apply u8_of_Z. lia. }
  destruct Hb as (b & Eb & Hb). rewrite Eb in Hd. cbn in Hd.
  rewrite Hd at 1. rewrite (index_app_at pre b (sp_vendor s) j Hjp). cbn [mbind outcome_bind].
  rewrite Hb, usize_add_small by lia. cbn [mbind outcome_bind].
  rewrite usize_add_small by lia. cbn [mbind outcome_bind]. do 2 f_equal. lia.
Qed.

(** ** The specification event *)
Lemma parse_initial_entry_encode s rest :
  spec_ok s -> vec_sized (encode_spec s ++ rest) ->
  parse_initial_entry (encode_spec s ++ rest) 0 ∅ = Ok (len (encode_spec s), size_map s).
Proof.
  intros Hok Hv. destruct (Hok) as (Hi & Hd & _ & _ & _ & Hl). unfold vec_sized in Hv.
  pose proof (at_pos_start (encode_spec s ++ rest)) as H0.
  unfold encode_spec at 2 in H0. rewrite <- !app_assoc in H0.
  set (data := encode_spec s ++ rest) in *. pose proof (len_nonneg (encode_spec_data s)).
  destruct (at_pos_gread_or "Cannot read PCR index" 4 4 _ _ _ _ H0 ltac:(cbn; lia) eq_refl) as [E1 H1].
  destruct (at_pos_gread_or "Cannot read event type number" 4 4 _ _ _ _ H1 ltac:(cbn; lia) eq_refl) as [E2 H2].
  destruct (at_pos_slice (E := anyhow) _ _ _ _ H2) as (_ & _ & H3). rewrite Hd in H3.
  destruct (at_pos_gread_or "Cannot read event data size" 4 4 _ _ _ _ H3 ltac:(cbn; lia) eq_refl) as [E4 H4].
  destruct (at_pos_slice (E := anyhow) _ _ _ _ H4) as (_ & E5 & H5).
  pose proof (at_pos_bound _ _ _ H5) as [Hb1 Hb2]. pose proof (len_nonneg rest).
  unfold parse_initial_entry. rewrite E1. cbn [mbind outcome_bind]. rewrite E2. cbn [mbind outcome_bind].
  rewrite event_type_roundtrip. cbn [ok_or mbind outcome_bind].
  rewrite usize_add_small by lia. cbn [mbind outcome_bind]. rewrite E4. cbn [mbind outcome_bind].
  rewrite bool_decide_eq_true_2 by done.
  rewrite (proj2 (Z.ltb_lt _ _)) by lia. cbn [mbind outcome_bind]. rewrite E5. cbn [ok_or mbind outcome_bind].
  rewrite (parse_digest_sizes_encode s Hok). cbn [mbind outcome_bind]. rewrite Z.eqb_refl. cbn.
  do 2 f_equal. unfold encode_spec. rewrite !len_app, !len_le_split, Hd. lia.
Qed.

(** ** Events *)
Lemma digests_loop ds data m i acc rest :
  vec_sized data -> at_pos data i (concat (map encode_digest ds) ++ rest) ->
  Forall (fun d => m !! alg d = Some (len (digest d))) ds ->
  exists j, repeat_outcome (length ds) (digest_step data m) (i, acc) = Ok (j, acc ++ ds) /\
    at_pos data j rest.
Proof.
  intros Hv H Hds. revert i acc H. induction Hds as [|d ds Hd _ IH]; intros i acc H.
  { exists i. cbn. now rewrite app_nil_r. }
  cbn [map concat] in H. unfold encode_digest at 1 in H. rewrite <- !app_assoc in H.
  pose proof (algorithm_id_range (alg d)).
  destruct (at_pos_gread_or "Cannot read algorithm id" 2 2 _ _ _ _ H ltac:(lia) eq_refl) as [E1 H1].
  destruct (at_pos_slice (E := anyhow) _ _ _ _ H1) as (E2 & _ & H2).
  pose proof (at_pos_bound _ _ _ H1) as [Hb1 Hb2]. rewrite len_app in Hb2.
  destruct (IH _ (acc ++ [d]) H2) as (j & Ej & Hj).
  assert (Es : digest_step data m (i, acc) = Ok (i + 2 + len (digest d), acc ++ [d])).
  { unfold digest_step, vec_sized in *. rewrite E1. cbn [mbind outcome_bind].
    rewrite algorithm_roundtrip. cbn [ok_or mbind outcome_bind].
    rewrite Hd. cbn [ok_or mbind outcome_bind].
    pose proof (len_nonneg (digest d)). pose proof (len_nonneg (concat (map encode_digest ds) ++ rest)).
    rewrite usize_add_small by lia. cbn [mbind outcome_bind]. rewrite E2. cbn [mbind outcome_bind].
    now destruct d. }
  exists j. split; [|done]. cbn [length repeat_outcome]. rewrite Es. cbn [mbind outcome_bind].
  rewrite Ej. now rewrite <- app_assoc.
Qed.

Lemma stop_flag_event e rest data i m :
  event_ok m e -> at_pos data i (encode_event e ++ rest) ->
  exists flag, gread_or "Failed to read potential stop flag" 8 data i = Ok (flag, i + 8) /\
    (flag =? 0xFFFFFFFFFFFFFFFF) || (flag =? 0) = false.
Proof.
  intros (Hi & Hns & _) (pre & -> & ->). pose proof (event_type_id_range (ev_type e)) as Ht.
  exists (ev_index e + event_type_id (ev_type e) * 2 ^ 32). split.
  - unfold gread_or, gread, encode_event.
    set (fields := le_split 4 (ev_index e) ++ le_split 4 (event_type_id (ev_type e))).
    assert (Hf : len fields = 8) by (unfold fields; now rewrite len_app, !len_le_split).
    rewrite (app_assoc (le_split 4 (ev_index e))). fold fields. rewrite <- !app_assoc.
    rewrite (get_range_app_at pre fields) by lia. cbn. unfold fields.
    rewrite le_combine_fields by lia. done.
  - apply orb_false_intro; apply Z.eqb_neq.
    + assert (event_type_id (ev_type e) < 2 ^ 32 - 1) by (destruct (ev_type e); cbn; lia). lia.
    + intros E. apply Hns. assert (event_type_id (ev_type e) = 0) by lia.
      split; [lia|]. now destruct (ev_type e).
Qed.

Lemma parse_entry_head_encode e data i m rest :
  vec_sized data -> event_ok m e -> at_pos data i (encode_event e ++ rest) ->
  exists j, parse_entry_head data i m = Ok (Some (ev_index e, ev_type e, ev_digests e, ev_data e, j)) /\
    at_pos data j rest /\ i < j.
Proof.
  intros Hv He H. destruct (stop_flag_event _ _ _ _ _ He H) as (flag & Ef & Hf).
  destruct (He) as (Hi & _ & Hnd & Hnl & Hds).
  pose proof (event_type_id_range (ev_type e)). pose proof (len_nonneg (ev_digests e)).
  pose proof (len_nonneg (ev_data e)).
  unfold encode_event in H. rewrite <- !app_assoc in H.
  destruct (at_pos_gread_or "Cannot read target measurement registry" 4 4 _ _ _ _ H ltac:(cbn; lia) eq_refl) as [E1 H1'].
  destruct (at_pos_gread_or "Cannot read event type number" 4 4 _ _ _ _ H1' ltac:(cbn; lia) eq_refl) as [E2 H2'].
  destruct (at_pos_gread_or "Cannot read digest count" 4 4 _ _ _ _ H2' ltac:(cbn; lia) eq_refl) as [E3 H3'].
  destruct (digests_loop _ _ m _ [] _ Hv H3' Hds) as (k & Ek & Hk).
  destruct (at_pos_gread_or "Cannot read event data size" 4 4 _ _ _ _ Hk ltac:(cbn; lia) eq_refl) as [E4 H4'].
  destruct (at_pos_slice (E := anyhow) _ _ _ _ H4') as (E5 & _ & H5').
  pose proof (at_pos_bound _ _ _ H5') as [Hb1 Hb2]. pose proof (len_nonneg rest).
  pose proof (at_pos_bound _ _ _ H4') as [Hb3 Hb4]. pose proof (at_pos_bound _ _ _ H) as [Hb5 Hb6].
  unfold parse_entry_head, vec_sized in *. rewrite Ef. cbn [mbind outcome_bind]. rewrite Hf.
  replace (i + 8 - 8) with i by lia. rewrite E1. cbn [mbind outcome_bind]. rewrite E2. cbn [mbind outcome_bind].
  rewrite event_type_roundtrip. cbn [ok_or mbind outcome_bind].
  unfold parse_digests. rewrite E3. cbn [mbind outcome_bind].
  rewrite to_nat_len, Ek. cbn [mbind outcome_bind app]. rewrite E4. cbn [mbind outcome_bind].
  rewrite (proj2 (Z.ltb_ge _ _)) by lia. rewrite usize_add_small by lia. cbn [mbind outcome_bind].
  rewrite E5. cbn [mbind outcome_bind]. eexists. split; [done|]. split; [done|].
  rewrite !len_app, !len_le_split in Hb6. pose proof (len_nonneg (concat (map encode_digest (ev_digests e)))). lia.
Qed.

(** What the parser makes of an event. *)
Definition expected (e : RawEvent) : option (outcome anyhow EventlogEntry) :=
  match compare_digests (ev_data e) (ev_digests e) with
  | Ok matches =>
      r ← parse_event (ev_type e) (ev_data e);
      Some (d ← r; Ok {| e_index := ev_index e; event_type := ev_type e;
                         digest_matches_event := matches; digests := ev_digests e;
                         event := el_base64 (ev_data e); details := d |})
  | Err e => Some (Err e)
  | Panic => Some Panic
  end.

Lemma parse_loop_encode events results data i m acc tail fuel :
  vec_sized data -> tail_ok tail ->
  at_pos data i (concat (map encode_event events) ++ tail) ->
  Forall2 (fun e r => event_ok m e /\ expected e = Some (Ok r)) events results ->
  len data - i < Z.of_nat fuel ->
  parse_loop fuel data i m acc = Some (Ok (acc ++ results)).
Proof.
  intros Hv Ht H Hev. revert i acc fuel H. induction Hev as [|e r events results [He Hr] _ IH];
    intros i acc fuel H Hf; (destruct fuel as [|fuel];
      [match type of H with at_pos _ _ ?x =>
         pose proof (at_pos_bound _ _ _ H); pose proof (len_nonneg x); lia end|]);
    cbn [parse_loop].
  - rewrite app_nil_r. cbn [map concat app] in H. pose proof (at_pos_bound _ _ _ H) as [_ Hb].
    destruct Ht as [->|(flag & junk & Hflag & ->)].
    + rewrite (proj2 (Z.ltb_ge _ _)); [done|]. rewrite len_nil in Hb. lia.
    + destruct (at_pos_gread_or "Failed to read potential stop flag" 8 8 _ _ _ _ H
        ltac:(cbn; lia) eq_refl) as [E1 _].
      rewrite (proj2 (Z.ltb_lt _ _)) by (rewrite len_app, len_le_split in Hb; pose proof (len_nonneg junk); lia).
      unfold parse_eventlog_entry, parse_entry_head. rewrite E1. cbn [mbind outcome_bind].
      replace ((flag =? 0xFFFFFFFFFFFFFFFF) || (flag =? 0)) with true; [done|].
      destruct Hflag as [-> | ->]; reflexivity.
  - cbn [map concat] in H. rewrite <- app_assoc in H.
    destruct (parse_entry_head_encode _ _ _ _ _ Hv He H) as (j & Ej & Hj & Hij).
    pose proof (at_pos_bound _ _ _ Hj) as [_ Hb]. pose proof (len_nonneg (concat (map encode_event events) ++ tail)).
    rewrite (proj2 (Z.ltb_lt _ _)) by lia. unfold parse_eventlog_entry. rewrite Ej.
    unfold expected in Hr. destruct (compare_digests _ _) as [b|?|]; try done.
    destruct (parse_event _ _) as [x|]; cbn in Hr |- *; [|done].
    destruct x as [d|?|]; cbn in Hr |- *; simplify_eq.
    rewrite (IH _ (acc ++ [_]) fuel Hj) by lia. now rewrite <- app_assoc.
Qed.

(** C6: the parser inverts the writer.  For every specification event and every
    sequence of events that fit the format, followed by the end of the log or by
    a stop flag and arbitrary bytes, parsing the written bytes returns exactly
    those events in order: register, type, digests, the base64 of the data, the
    parsed details and whether the digests match. *)
Theorem event_log_roundtrip s events results tail :
  spec_ok s -> tail_ok tail -> vec_sized (encode_log s events tail) ->
  Forall2 (fun e r => event_ok (size_map s) e /\ expected e = Some (Ok r)) events results ->
  event_log_try_from (encode_log s events tail) = Some (Ok {| log := results |}).
Proof.
  intros Hs Ht Hv Hev. unfold event_log_try_from, encode_log in *.
  rewrite (parse_initial_entry_encode s _ Hs Hv).
  rewrite (parse_loop_encode events results _ _ _ [] tail); try done.
  - now exists (encode_spec s).
  - unfold len. lia.
Qed.
End RoundTrip.

(** ** What a parsed log says *)
Section Parsed.
Context `{P : Profile} `{C : EventCrates}.

Lemma compare_digests_Ok data ds b :
  compare_digests data ds = Ok b ->
  (b = true <-> Forall (fun d => exists h, hash_of (alg d) = Some h /\ digest d = h data) ds).
Proof.
  induction ds as [|d ds IH]; cbn; [intros [= <-]; now split|]. intros H. inv_ok.
  rewrite Forall_cons_iff, Hok. case_bool_decide as E; cbn in H.
  - rewrite (IH H). naive_solver.
  - injection H as <-. naive_solver.
Qed.

(** *** Reading is the inverse of writing *)
Lemma at_pos_range data i rest n :
  at_pos data i rest -> 0 <= n -> i + n <= len data ->
  exists rest', rest = range data i (i + n) ++ rest' /\ at_pos data (i + n) rest'.
Proof.
  intros (pre & -> & ->) Hn Hb. rewrite len_app in Hb.
  assert (Hl : len (take (Z.to_nat n) rest) = n) by (unfold len in *; rewrite length_take; lia).
  exists (drop (Z.to_nat n) rest). split.
  - rewrite <- (take_drop (Z.to_nat n) rest) at 2. rewrite range_app_at by lia. now rewrite take_drop.
  - exists (pre ++ take (Z.to_nat n) rest). rewrite <- app_assoc, take_drop. split; [done|]. rewrite len_app, Hl. done.
Qed.

Lemma at_pos_gread_inv e n m data i rest v j :
  at_pos data i rest -> gread_or e m data i = Ok (v, j) -> m = Z.of_nat n ->
  exists rest', rest = le_split n v ++ rest' /\ at_pos data j rest' /\ j = i + m /\ 0 <= v < 2 ^ (m * 8).
Proof.
  intros H E ->. pose proof (at_pos_bound _ _ _ H) as [Hi _].
  destruct (gread_or_spec _ _ _ _ _ _ E Hi ltac:(lia)) as (-> & Hj & Hv).
  destruct (at_pos_range _ _ _ (Z.of_nat n) H ltac:(lia) Hj) as (rest' & Hr & Hp).
  exists rest'. split; [|done]. rewrite Hr. f_equal.
  unfold gread_or, gread in E. apply ok_or_Ok in E. apply bind_Some in E as (b & Hb & [= <-]).
  apply get_range_Some in Hb as [_ ->].
  assert (Hl : length (range data i (i + Z.of_nat n)) = n)
    by (pose proof (len_range data i (i + Z.of_nat n) ltac:(lia) Hj); unfold len in *; lia).
  pose proof (split_le_combine (range data i (i + Z.of_nat n))) as Hs. now rewrite Hl in Hs.
Qed.

Lemma at_pos_slice_inv {E} data i rest j b :
  at_pos data i rest -> slice (E := E) data i j = Ok b ->
  exists rest', rest = b ++ rest' /\ at_pos data j rest' /\ len b = j - i.
Proof.
  intros H Hs. pose proof (at_pos_bound _ _ _ H) as [Hi _]. pose proof (slice_len _ _ _ _ Hs Hi) as Hl.
  apply slice_Ok in Hs as [Hb ->]. destruct (at_pos_range _ _ _ (j - i) H ltac:(lia) ltac:(lia)) as (rest' & Hr & Hp).
  replace (i + (j - i)) with j in * by lia. eauto.
Qed.

Definition sizes_declared (m : gmap TcgAlgorithm Z) (ds : list ElDigest) : Prop :=
  Forall (fun d => m !! alg d = Some (len (digest d))) ds.

Lemma digests_loop_inv n data m i acc rest j ds :
  vec_sized data -> sizes_ok m -> at_pos data i rest ->
  repeat_outcome n (digest_step data m) (i, acc) = Ok (j, ds) ->
  exists new rest', ds = acc ++ new /\ length new = n /\
    rest = concat (map encode_digest new) ++ rest' /\ at_pos data j rest' /\ sizes_declared m new.
Proof.
  intros Hv Hm. revert i acc rest. induction n as [|n IH]; intros i acc rest H Hr; cbn [repeat_outcome] in Hr.
  { injection Hr as <- <-. exists [], rest. rewrite app_nil_r. repeat split; [exact H|constructor]. }
  apply bind_Ok in Hr as ([i' acc'] & Hstep & Hr). unfold digest_step in Hstep.
  apply bind_Ok in Hstep as ([id k] & Hg & Hstep). apply bind_Ok in Hstep as (a & Ha%ok_or_Ok & Hstep).
  apply bind_Ok in Hstep as (size & Hsz%ok_or_Ok & Hstep).
  destruct (at_pos_gread_inv _ 2 _ _ _ _ _ _ H Hg eq_refl) as (rest1 & -> & Hp1 & -> & _).
  pose proof (at_pos_bound _ _ _ Hp1) as Hb1. pose proof (Hm _ _ Hsz) as Hs. unfold vec_sized in Hv.
  pose proof (len_nonneg rest1). rewrite usize_add_small in Hstep by lia. cbn [mbind outcome_bind] in Hstep.
  apply bind_Ok in Hstep as (b & Hsl & Hstep). injection Hstep as <- <-.
  destruct (at_pos_slice_inv _ _ _ _ _ Hp1 Hsl) as (rest2 & -> & Hp2 & Hl).
  destruct (IH _ _ _ Hp2 Hr) as (new & rest' & -> & <- & -> & Hp3 & Hd).
  exists ({| alg := a; digest := b |} :: new), rest'. rewrite <- (app_assoc acc). split; [done|]. split; [done|].
  apply algorithm_try_from_id in Ha as ->. cbn [map concat]. unfold encode_digest at 2. cbn [alg digest].
  rewrite <- !app_assoc. split; [done|]. split; [done|]. constructor; [|done]. cbn. rewrite Hsz. f_equal. lia.
Qed.

(** The bytes of an entry that was parsed are the encoding of its fields. *)
Lemma parse_entry_head_inv data i m rest t ty ds raw j :
  vec_sized data -> sizes_ok m -> at_pos data i rest ->
  parse_entry_head data i m = Ok (Some (t, ty, ds, raw, j)) ->
  let e := {| ev_index := t; ev_type := ty; ev_digests := ds; ev_data := raw |} in
  exists rest', rest = encode_event e ++ rest' /\ at_pos data j rest' /\ event_ok m e.
Proof.
  intros Hv Hm H He e. unfold parse_entry_head in He.
  apply bind_Ok in He as ([flag k] & Hflag & He). destruct (_ || _) eqn:Eflag; [discriminate|].
  pose proof (at_pos_bound _ _ _ H) as [Hi _].
  destruct (gread_or_spec _ _ _ _ _ _ Hflag Hi ltac:(lia)) as (-> & _ & _).
  replace (i + 8 - 8) with i in He by lia.
  apply bind_Ok in He as ([t' k1] & G1 & He). apply bind_Ok in He as ([num k2] & G2 & He).
  apply bind_Ok in He as (ty' & Hty%ok_or_Ok & He). apply bind_Ok in He as ([ds' k3] & Hds & He).
  apply bind_Ok in He as ([sz k4] & G4 & He). destruct (Z.ltb_spec (len data) sz) as [|Hsz]; [discriminate|].
  unfold parse_digests in Hds. apply bind_Ok in Hds as ([cnt k5] & G3 & Hds).
  apply bind_Ok in Hds as ([k6 ds2] & Hloop & Hds). injection Hds as -> ->.
  destruct (at_pos_gread_inv _ 4 _ _ _ _ _ _ H G1 eq_refl) as (r1 & -> & P1 & -> & B1).
  destruct (at_pos_gread_inv _ 4 _ _ _ _ _ _ P1 G2 eq_refl) as (r2 & -> & P2 & -> & B2).
  destruct (at_pos_gread_inv _ 4 _ _ _ _ _ _ P2 G3 eq_refl) as (r3 & -> & P3 & -> & B3).
  destruct (digests_loop_inv _ _ _ _ _ _ _ _ Hv Hm P3 Hloop) as (new & r4 & -> & Hlen & -> & P4 & Hd).
  destruct (at_pos_gread_inv _ 4 _ _ _ _ _ _ P4 G4 eq_refl) as (r5 & -> & P5 & -> & B5).
  pose proof (at_pos_bound _ _ _ P5) as Hb5. pose proof (len_nonneg r5). unfold vec_sized in Hv.
  rewrite usize_add_small in He by lia. cbn [mbind outcome_bind] in He. apply bind_Ok in He as (b & Hsl & He).
  injection He as <- <- <- <- <-. destruct (at_pos_slice_inv _ _ _ _ _ P5 Hsl) as (r6 & -> & P6 & Hl).
  cbn [app] in *. apply event_type_try_from_id in Hty. subst num.
  assert (cnt = len new) as -> by (unfold len; lia). assert (sz = len b) as -> by lia.
  exists r6. split; [unfold encode_event, e; cbn; now rewrite <- !app_assoc|]. split; [done|].
  split; [exact B1|]. split; [|split; [exact (proj2 B3)|split; [exact (proj2 B5)|exact Hd]]].
  cbn [ev_index ev_type e]. intros [-> ->]. apply orb_false_iff in Eflag as [_ Ef%Z.eqb_neq]. apply Ef.
  unfold gread_or, gread in Hflag. apply ok_or_Ok in Hflag. apply bind_Some in Hflag as (fb & Hfb & [= <-]).
  destruct H as (pre & -> & ->). cbn [event_type_id] in Hfb. rewrite (app_assoc (le_split 4 0)) in Hfb.
  rewrite (get_range_app_at pre (le_split 4 0 ++ le_split 4 0)) in Hfb by reflexivity. injection Hfb as <-. reflexivity.
Qed.

(** Where the parser stops without an error, the log ends. *)
Lemma parse_entry_head_stop data i m rest :
  at_pos data i rest -> parse_entry_head data i m = Ok None -> tail_ok rest.
Proof.
  intros H He. unfold parse_entry_head in He.
  apply bind_Ok in He as ([flag k] & Hflag & He). destruct (_ || _) eqn:Eflag.
  - destruct (at_pos_gread_inv _ 8 _ _ _ _ _ _ H Hflag eq_refl) as (junk & -> & _).
    right. exists flag, junk. split; [|done]. apply orb_prop in Eflag as [->%Z.eqb_eq| ->%Z.eqb_eq]; auto.
  - exfalso. repeat (apply bind_Ok in He as ([? ?] & _ & He) || apply bind_Ok in He as (? & _ & He) || case_match); discriminate.
Qed.

(** What an entry of the result says of the event it was parsed from: the fields
    are those of the encoding, the details are parsed from the event data, and
    the flag tells whether all digests are digests of that data. *)
Record entry_faithful (m : gmap TcgAlgorithm Z) (raw : RawEvent) (e : EventlogEntry) : Prop := {
  ef_fits : event_ok m raw;
  ef_index : e_index e = ev_index raw;
  ef_type : event_type e = ev_type raw;
  ef_digests : digests e = ev_digests raw;
  ef_event : event e = el_base64 (ev_data raw);
  ef_details : parse_event (ev_type raw) (ev_data raw) = Some (Ok (details e));
  ef_matches : digest_matches_event e = true <->
    Forall (fun d => exists h, hash_of (alg d) = Some h /\ digest d = h (ev_data raw)) (ev_digests raw);
}.

Lemma parse_loop_faithful fuel data i m acc r rest :
  vec_sized data -> sizes_ok m -> at_pos data i rest ->
  parse_loop fuel data i m acc = Some (Ok r) ->
  exists raws new tail, r = acc ++ new /\ rest = concat (map encode_event raws) ++ tail /\ tail_ok tail /\
    Forall2 (entry_faithful m) raws new.
Proof.
  intros Hv Hm. revert i acc rest. induction fuel as [|fuel IH]; intros i acc rest Hp H; [done|].
  pose proof (at_pos_bound _ _ _ Hp) as [Hi Hb]. cbn [parse_loop] in H.
  destruct (Z.ltb_spec i (len data)) as [Hlt|Hge].
  2: { injection H as <-. exists [], [], rest. rewrite app_nil_r. do 2 (split; [done|]). split; [|constructor].
       left. destruct rest; [done|]. rewrite len_cons in Hb. pose proof (len_nonneg rest). lia. }
  unfold parse_eventlog_entry in H.
  destruct (parse_entry_head data i m) as [[[[[[t ty] ds] raw] j]|]|e|] eqn:Eh; cbn in H; try done.
  2: { injection H as <-. exists [], [], rest. rewrite app_nil_r. do 2 (split; [done|]). split; [|constructor].
       exact (parse_entry_head_stop _ _ _ _ Hp Eh). }
  destruct (parse_entry_head_inv _ _ _ _ _ _ _ _ _ Hv Hm Hp Eh) as (rest' & -> & Hp' & Hok).
  destruct (compare_digests raw ds) as [b|e|] eqn:Ec; cbn in H; try done.
  destruct (parse_event ty raw) as [[d|e|]|] eqn:Ep; cbn in H; try done.
  apply (IH _ _ _ Hp') in H as (raws & new & tail & -> & -> & Ht & Hf).
  eexists (_ :: raws), (_ :: new), tail. rewrite <- (app_assoc acc). split; [reflexivity|].
  cbn [map concat]. split; [now rewrite <- app_assoc|]. split; [done|]. constructor; [|done].
  constructor; try done. exact (compare_digests_Ok _ _ _ Ec).
Qed.

(** C31: a parsed event log is the content of the bytes it was parsed from.  The
    input is the specification entry the parser reads first, the encodings of
    the entries of the result, one after the other and in the same order, and
    the end of the input or a stop flag and anything.  Each entry has the
    register index, the event type and the digests of its encoding, each digest
    of the size declared for its algorithm, the base64 of the event data and the
    details parsed from it; and it claims matching digests exactly when each
    digest uses a supported hash and equals the hash of that data. *)
Theorem parsed_log_faithful data l :
  vec_sized data -> event_log_try_from data = Some (Ok l) ->
  exists header m raws tail,
    parse_initial_entry data 0 ∅ = Ok (len header, m) /\
    data = header ++ concat (map encode_event raws) ++ tail /\ tail_ok tail /\
    Forall2 (entry_faithful m) raws (log l).
Proof.
  intros Hv H. unfold event_log_try_from in H.
  destruct (parse_initial_entry data 0 ∅) as [[j m]|e|] eqn:E; [|done..].
  destruct (parse_initial_entry_ok _ _ _ Hv E) as [Hj Hm].
  destruct (parse_loop _ _ _ _ _) as [[r|e|]|] eqn:El; cbn in H; try done.
  injection H as <-. cbn [log].
  destruct (at_pos_range data 0 data j (at_pos_start data) ltac:(lia) ltac:(lia)) as (rest & Hr & Hp).
  rewrite Z.add_0_l in Hr, Hp.
  destruct (parse_loop_faithful _ _ _ _ _ _ _ Hv Hm Hp El) as (raws & new & tail & -> & -> & Ht & Hf).
  exists (range data 0 j), m, raws, tail. split; [now rewrite len_range, Z.sub_0_r by lia|]. done.
Qed.
End Parsed.

(** ** Malformed input *)
Module Malformed.
Definition spec : SpecEvent := {|
  sp_index := 0; sp_digest := repeat Init.Byte.x00 20; sp_fields := repeat Init.Byte.x00 24;
  sp_sizes := [(Sha384, 48)]; sp_vendor := [] |}.

(** An event of register 1 and type [EV_SEPARATOR] without digests, whose data
    size is 4 while only one byte of data follows. *)
Definition truncated_log : bytes :=
  encode_spec spec ++ le_split 4 1 ++ le_split 4 4 ++ le_split 4 0 ++ le_split 4 4 ++ [Init.Byte.x00].

(** A digest that ends after the log does. *)
Definition truncated_digest : bytes :=
  encode_spec spec ++ le_split 4 1 ++ le_split 4 4 ++ le_split 4 1 ++ le_split 2 0xC ++ [Init.Byte.x00].

(** An image load event whose device path is one byte long. *)
Definition short_device_path : bytes := repeat Init.Byte.x00 24 ++ le_split 8 1.

(** A device path node of length zero. *)
Definition empty_node : bytes := repeat Init.Byte.x00 24 ++ le_split 8 8 ++ repeat Init.Byte.x00 4.
End Malformed.

(** Malformed event logs crash the verifier.  An event or a digest that
    claims to reach past the end of the log, an empty blob description, a device
    path shorter than four bytes and a device path node of length zero are not
    reported as errors: the parser panics, in both build profiles. *)
Theorem malformed_log_panics `{P : Profile} `{C : EventCrates} :
  event_log_try_from Malformed.truncated_log = Some Panic /\
  event_log_try_from Malformed.truncated_digest = Some Panic /\
  simple_string_parse [Init.Byte.x00] = Panic /\
  boot_services_app_parse Malformed.short_device_path = Some Panic /\
  boot_services_app_parse Malformed.empty_node = Some Panic.
Proof.
  destruct P; repeat split; vm_compute; reflexivity.
Qed.

(** ** Witnesses *)
Module EventDemo.
#[export] Instance release : Profile := false.
Definition pad (n : nat) (b : bytes) : bytes := take n (b ++ repeat Init.Byte.x00 n).
#[export] Instance crates : EventCrates := {|
  sha256 := pad 32; sha384 := pad 48; sha512 := pad 64; sm3 := pad 32;
  el_base64 := string_of_list_byte; el_from_str _ := None |}.

Lemma pad_len n b : len (pad n b) = Z.of_nat n.
Proof. unfold pad, len. rewrite length_take, length_app, repeat_length. lia. Qed.

#[export] Instance crates_spec : EventCratesSpec crates.
Proof. constructor; intros b; apply pad_len. Qed.

Definition data : bytes := [Init.Byte.x41; Init.Byte.x42].
Definition ev : RawEvent := {|
  ev_index := 1; ev_type := EvAction;
  ev_digests := [{| alg := Sha384; digest := pad 48 data |}]; ev_data := data |}.
Definition entry : EventlogEntry := {|
  e_index := 1; event_type := EvAction; digest_matches_event := true; digests := ev_digests ev;
  event := "AB"; details := details_from_string "AB" |}.
Definition stop : bytes := le_split 8 0 ++ [Init.Byte.xff].
Definition input : bytes := encode_log Malformed.spec [ev] stop.
Definition parsed : CcEventLog := {| log := [entry] |}.
Definition ref : ReferenceMeasurement := {|
  r_index := 1; r_algorithm := Sha384; reference := pad 48 (zeros 48 ++ pad 48 data) |}.

Lemma sized : vec_sized input.
Proof. vm_compute. reflexivity. Qed.

Lemma spec_fits : spec_ok Malformed.spec.
Proof.
  unfold spec_ok. split; [cbn; lia|]. do 2 (split; [reflexivity|]).
  split; [repeat constructor; cbn; lia|]. split; [vm_compute; reflexivity|vm_compute; reflexivity].
Qed.

Lemma event_fits : event_ok (size_map Malformed.spec) ev.
Proof.
  unfold event_ok. split; [cbn; lia|]. split; [cbn; intros [? ?]; lia|].
  do 2 (split; [vm_compute; reflexivity|]). constructor; [vm_compute; reflexivity|constructor].
Qed.
End EventDemo.

Lemma event_log_parse_total_witness :
  exists r, @event_log_try_from EventDemo.release EventDemo.crates EventDemo.input = Some r.
Proof. apply event_log_parse_total. vm_compute. reflexivity. Defined.

Lemma event_log_roundtrip_witness :
  @event_log_try_from EventDemo.release EventDemo.crates EventDemo.input =
  Some (Ok EventDemo.parsed).
Proof.
  apply (@event_log_roundtrip EventDemo.release EventDemo.crates Malformed.spec [EventDemo.ev]
    [EventDemo.entry] EventDemo.stop).
  - exact EventDemo.spec_fits.
  - right. exists 0, [Init.Byte.xff]. split; [left; reflexivity|reflexivity].
  - exact EventDemo.sized.
  - constructor; [|constructor]. split; [exact EventDemo.event_fits|vm_compute; reflexivity].
Defined.

Lemma parsed_log_faithful_witness :
  exists header m raws tail,
    EventDemo.input = header ++ concat (map encode_event raws) ++ tail /\
    Forall2 (@entry_faithful EventDemo.release EventDemo.crates m) raws [EventDemo.entry].
Proof.
  destruct (@parsed_log_faithful EventDemo.release EventDemo.crates EventDemo.input EventDemo.parsed)
    as (header & m & raws & tail & _ & Hd & _ & Hf).
  - exact EventDemo.sized.
  - vm_compute; reflexivity.
  - exists header, m, raws, tail. split; [exact Hd|exact Hf].
Defined.

Lemma replay_binds_log_witness :
  let ds := @measured (log EventDemo.parsed) 1 Sha384 in
  let messages := hashed (EventDemo.pad 48) (zeros 48) ds in
  map digest ds = map digest ds \/ broken_hash (EventDemo.pad 48) 48 messages messages.
Proof.
  apply (@replay_binds_log EventDemo.crates EventDemo.crates_spec EventDemo.parsed EventDemo.parsed
    EventDemo.ref (EventDemo.pad 48) 48).
  - reflexivity.
  - reflexivity.
  - vm_compute; reflexivity.
  - vm_compute; reflexivity.
Defined.
