(* ===== verification/Rvps.v ===== *)
(** * The reference value provider service ([rvps/src/])

    Reference values, the extractors that obtain them from provenance
    messages, the two storage backends and the service that ties them
    together.  [serde_json], [base64], [chrono], [sled] and the XML parser are
    parameters. *)
From S2P Require Import Prelude Types Text Fs.

(** ** Reference values ([reference_value.rs]) *)
Definition REFERENCE_VALUE_VERSION : string := "0.1.0".
Definition MONTHS_BEFORE_EXPIRATION : Z := 12.
Definition NANOS : Z := 1000000000.

(** Times are nanoseconds since the epoch. *)
Record ReferenceValue := {
  rv_version : string;
  rv_name : string;
  expiration : Z;
  rv_value : Value;
}.

(** XML documents as [roxmltree] presents them: elements with a qualified tag
    name and qualified attributes. *)
Inductive Xml :=
| Element (tag : string * string) (attrs : list ((string * string) * string)) (children : list Xml)
| OtherNode.

(** The crates of the service. *)
Class RvpsCrates := {
  (** [DateTime::checked_add_months] *)
  checked_add_months : Z -> Z -> option Z;
  (** [serde_json] at [ReferenceValue], [Vec<ReferenceValue>], [Message] and the
      sample provenance *)
  rv_to_vec : ReferenceValue -> option bytes;
  rv_from_slice : bytes -> option ReferenceValue;
  rvs_to_vec : list ReferenceValue -> option bytes;
  rvs_from_slice : bytes -> option (list ReferenceValue);
  message_from_str : string -> option (string * string * string);
  provenance_from_slice : bytes -> option (list (string * Value));
  (** [base64], standard alphabet with padding *)
  rv_base64_decode : string -> option bytes;
  (** [roxmltree::Document::parse] *)
  xml_parse : string -> option Xml;
}.

(** The end of the year 9999: later years are not written in four digits. *)
Definition year_10000 : Z := 253402300800 * NANOS.

(** A time whose textual form is read back: whole seconds, four-digit year. *)
Definition readable (t : Z) : Prop := t mod NANOS = 0 /\ 0 <= t < year_10000.

Class RvpsCratesSpec (C : RvpsCrates) : Prop := {
  rv_roundtrip : forall rv b, readable (expiration rv) -> rv_to_vec rv = Some b ->
    rv_from_slice b = Some rv;
  rvs_roundtrip : forall rvs b, Forall (fun rv => readable (expiration rv)) rvs ->
    rvs_to_vec rvs = Some b -> rvs_from_slice b = Some rvs;
  rvs_empty : rvs_from_slice (str_bytes "[]") = Some [];
  (** a list that is cut off is not JSON *)
  rvs_cut : forall rvs b n, rvs_to_vec rvs = Some b -> (n < length b)%nat -> rvs_from_slice (take n b) = None;
  (** adding months keeps the time of day *)
  add_months_whole : forall t k t', t mod NANOS = 0 -> checked_add_months t k = Some t' ->
    t' mod NANOS = 0;
  add_months_later : forall t k t', 0 < k -> checked_add_months t k = Some t' -> t < t';
}.

Section ReferenceValues.
Context `{C : RvpsCrates}.

(** [with_nanosecond(0)]. *)
Definition with_nanosecond_0 (t : Z) : Z := t - t mod NANOS.

(** [ReferenceValue::new]. *)
Definition rv_new (now : Z) : outcome anyhow ReferenceValue :=
  e ← ok_or "Failed to set time." (checked_add_months (with_nanosecond_0 now) MONTHS_BEFORE_EXPIRATION);
  Ok {| rv_version := REFERENCE_VALUE_VERSION; rv_name := ""; expiration := e; rv_value := VNull |}.

Definition set_version (v : string) (rv : ReferenceValue) : ReferenceValue :=
  {| rv_version := v; rv_name := rv_name rv; expiration := expiration rv; rv_value := rv_value rv |}.
Definition set_expiration (e : Z) (rv : ReferenceValue) : ReferenceValue :=
  {| rv_version := rv_version rv; rv_name := rv_name rv; expiration := with_nanosecond_0 e;
     rv_value := rv_value rv |}.
Definition set_value (v : Value) (rv : ReferenceValue) : ReferenceValue :=
  {| rv_version := rv_version rv; rv_name := rv_name rv; expiration := expiration rv; rv_value := v |}.
Definition set_name (n : string) (rv : ReferenceValue) : ReferenceValue :=
  {| rv_version := rv_version rv; rv_name := n; expiration := expiration rv; rv_value := rv_value rv |}.

(** [expired]. *)
Definition expired (now : Z) (rv : ReferenceValue) : bool := expiration rv <? now.

(** ** Extractors ([extractors/]) *)

(** [SampleExtractor::verify_and_extract]; [filter_map] drops an entry whose
    reference value cannot be created. *)
Definition sample_verify_and_extract (now : Z) (provenance_base64 : string) :
    outcome anyhow (list ReferenceValue) :=
  provenance ← ok_or "base64 decode" (rv_base64_decode provenance_base64);
  payload ← ok_or "deseralize sample provenance" (provenance_from_slice provenance);
  Ok (omap (M := list) (fun '(name, values) =>
              match rv_new now with
              | Ok rv => Some (set_value values (set_name name rv))
              | _ => None
              end) payload).

Definition SWID_NS : string := "http://standards.iso.org/iso/19770/-2/2015/schema.xsd".
Definition RIMIM_NS : string :=
  "https://trustedcomputinggroup.org/resource/tcg-reference-integrity-manifest-rim-information-model/".
Definition HASH_NS : string := "http://www.w3.org/2001/04/xmlenc#sha384".

(** [Node::descendants]: the node itself and everything below, in document order. *)
Fixpoint descendants (x : Xml) : list Xml :=
  match x with
  | Element _ _ children => x :: concat (map descendants children)
  | OtherNode => [x]
  end.

Definition has_tag_name (ns tag : string) (x : Xml) : bool :=
  match x with
  | Element t _ _ => bool_decide (t = (ns, tag))
  | OtherNode => false
  end.

(** [Node::attribute]; an attribute without a namespace has the empty one. *)
Fixpoint attr_get (ns name : string) (attrs : list ((string * string) * string)) : option string :=
  match attrs with
  | [] => None
  | (k, v) :: attrs => if decide (k = (ns, name)) then Some v else attr_get ns name attrs
  end.

Definition attribute (ns name : string) (x : Xml) : option string :=
  match x with
  | Element _ attrs _ => attr_get ns name attrs
  | OtherNode => None
  end.

(** The loop over [Hash0], [Hash1], ...: it stops at the first missing
    attribute and leaves out all-zero hashes.  The fuel bounds the number of
    iterations; the 32-bit counter of the source does not overflow as long as an
    element has fewer than 2^31 - 1 attributes. *)
Fixpoint hash_loop (fuel : nat) (resource : Xml) (hash_index : Z) (acc : list Value) :
    option (list Value) :=
  match fuel with
  | O => None
  | S fuel =>
      match attribute HASH_NS ("Hash" +:+ fmt_dec hash_index) resource with
      | None => Some acc
      | Some hash =>
          if all_chars (fun c => Ascii.eqb c "0") hash then
            hash_loop fuel resource (hash_index + 1) acc
          else hash_loop fuel resource (hash_index + 1) (acc ++ [VString hash])
      end
  end.

Definition attr_count (x : Xml) : nat :=
  match x with
  | Element _ attrs _ => length attrs
  | OtherNode => 0
  end.

(** One [Resource] element: no reference value when all its hashes are zero.
    The attribute names of an element are distinct, so one iteration more than
    it has attributes is enough. *)
Definition swid_resource (now : Z) (rv_name_prefix : string) (resource : Xml) :
    option (outcome anyhow (option ReferenceValue)) :=
  match attribute "" "index" resource with
  | None => Some (Err "Could not find measurement name")
  | Some measurement_index =>
      let name := replace_char "-" "_" (rv_name_prefix +:+ ".measurement_" +:+ measurement_index) in
      measurement_value ← hash_loop (S (attr_count resource)) resource 0 [];
      Some (if bool_decide (measurement_value = []) then Ok None
            else rv ← rv_new now;
                 Ok (Some (set_value (VArray measurement_value) (set_name name rv))))
  end.

Fixpoint swid_resources (now : Z) (prefix : string) (l : list Xml) :
    option (outcome anyhow (list ReferenceValue)) :=
  match l with
  | [] => Some (Ok [])
  | r :: l =>
      x ← swid_resource now prefix r;
      match x with
      | Ok o => y ← swid_resources now prefix l;
                Some (rvs ← y; Ok (option_list o ++ rvs))
      | Err e => Some (Err e)
      | Panic => Some Panic
      end
  end.

(** [SwidExtractor::verify_and_extract]. *)
Definition swid_verify_and_extract (now : Z) (provenance_base64 : string) :
    option (outcome anyhow (list ReferenceValue)) :=
  match (manifest ← ok_or "Failed to decode reference value manifest as base 64"
                      (rv_base64_decode provenance_base64);
         manifest ← ok_or "Failed to decode reference value manifest as utf8 string" (from_utf8 manifest);
         xml ← ok_or "parse" (xml_parse manifest);
         meta ← ok_or "Could not find meta information."
                  (List.find (has_tag_name SWID_NS "Meta") (descendants xml));
         manufacturer ← ok_or "Could not find manufacturer information."
                          (attribute RIMIM_NS "PlatformManufacturerStr" meta);
         edition ← ok_or "Could not find edition information." (attribute "" "edition" meta);
         payload ← ok_or "Could not find SWID payload."
                     (List.find (has_tag_name SWID_NS "Payload") (descendants xml));
         Ok (replace_char " " "_" manufacturer +:+ "." +:+ edition,
             List.filter (fun n => bool_decide (default "" (attribute "" "type" n) = "Measurement"))
               (List.filter (has_tag_name SWID_NS "Resource") (descendants payload)))) with
  | Ok (prefix, resources) => swid_resources now prefix resources
  | Err e => Some (Err e)
  | Panic => Some Panic
  end.

(** [Message] and [Extractors::process], for the extractors that are always
    present. *)
Record Message := {
  version : string;
  payload : string;
  type_ : string;
}.

Definition MESSAGE_VERSION : string := "0.1.0".

Definition process (now : Z) (message : Message) : option (outcome anyhow (list ReferenceValue)) :=
  if String.eqb (type_ message) "sample" then Some (sample_verify_and_extract now (payload message))
  else if String.eqb (type_ message) "swid" then swid_verify_and_extract now (payload message)
  else Some (Err "Could not find extractor").
End ReferenceValues.

(** ** Storage ([storage/mod.rs]) *)

(** The trait [ReferenceValueStorage], over the state of the backend. *)
Class ReferenceValueStorage (S : Type) := {
  rvs_set : string -> ReferenceValue -> st S anyhow (option ReferenceValue);
  rvs_get : string -> st S anyhow (option ReferenceValue);
  rvs_get_values : st S anyhow (list ReferenceValue);
}.

(** A storage that only answers with errors, from now on. *)
Record stuck {S} (B : ReferenceValueStorage S) (s : S) : Prop := {
  stuck_set : forall name rv, exists e, rvs_set name rv s = (s, Err e);
  stuck_get : forall name, exists e, rvs_get name s = (s, Err e);
  stuck_get_values : exists e, rvs_get_values s = (s, Err e);
}.

(** What a backend promises: its state holds one reference value per name.  A
    [set] that fails may leave the storage useless, but not with other values. *)
Class StorageSpec {S} (B : ReferenceValueStorage S) (ok : S -> Prop)
    (contents : S -> gmap string ReferenceValue) : Prop := {
  set_spec : forall rv s s' r,
    ok s -> readable (expiration rv) -> rvs_set (rv_name rv) rv s = (s', r) ->
    r <> Panic /\
    (ok s' /\ (contents s' = contents s \/ contents s' = <[rv_name rv := rv]> (contents s)) \/
     is_ok r = false /\ stuck B s') /\
    (forall old, r = Ok old -> ok s' /\ old = contents s !! rv_name rv /\
                 contents s' = <[rv_name rv := rv]> (contents s));
  get_spec : forall n s s' r, ok s -> rvs_get n s = (s', r) ->
    s' = s /\ r <> Panic /\ forall o, r = Ok o -> o = contents s !! n;
  get_values_spec : forall s s' r, ok s -> rvs_get_values s = (s', r) ->
    s' = s /\ r <> Panic /\
    forall l, r = Ok l -> NoDup (map rv_name l) /\
      forall n rv, contents s !! n = Some rv <-> rv ∈ l /\ rv_name rv = n;
}.

(** *** The JSON file ([storage/local_json/mod.rs]) *)
Definition JSON_FILE_PATH : string :=
  "/opt/confidential-containers/attestation-service/reference_values.json".

Record LocalJson := { file_path : string }.

Section LocalJsonOps.
Context `{D : Disk} `{C : RvpsCrates}.

Definition local_json_new (path : string) : st Fs anyhow LocalJson :=
  parent_dir ← st_lift
    (ok_or "Illegal `file_path` for LocalJson's config without a parent dir." (path_parent path));
  create_dir_all parent_dir;;
  there ← st_gets (fun fs => path_exists fs path);
  (if there : bool then mret tt else fs_write path (str_bytes "[]"));;
  mret {| file_path := path |}.

(** [iter_mut().find(|it| it.name == name)], replaced in place, else pushed. *)
Fixpoint replace_or_push (name : string) (rv : ReferenceValue) (rvs : list ReferenceValue) :
    option ReferenceValue * list ReferenceValue :=
  match rvs with
  | [] => (None, [rv])
  | it :: rvs =>
      if String.eqb (rv_name it) name then (Some it, rv :: rvs)
      else let '(old, rvs) := replace_or_push name rv rvs in (old, it :: rvs)
  end.

(** [set], in the two steps between which other tasks run: the guard of
    [let _ = self.lock.write().await] is dropped at once. *)
Definition local_json_read (l : LocalJson) : st Fs anyhow (list ReferenceValue) :=
  file ← fs_read (file_path l);
  st_lift (ok_or "from_slice" (rvs_from_slice file)).

Definition local_json_store (l : LocalJson) (name : string) (rv : ReferenceValue)
    (rvs : list ReferenceValue) : st Fs anyhow (option ReferenceValue) :=
  let '(res, rvs) := replace_or_push name rv rvs in
  contents ← st_lift (ok_or "to_vec" (rvs_to_vec rvs));
  fs_write (file_path l) contents;;
  mret res.

Definition local_json_set (l : LocalJson) (name : string) (rv : ReferenceValue) :
    st Fs anyhow (option ReferenceValue) :=
  rvs ← local_json_read l;
  local_json_store l name rv rvs.

Definition local_json_get (l : LocalJson) (name : string) : st Fs anyhow (option ReferenceValue) :=
  rvs ← local_json_read l;
  mret (List.find (fun rv => String.eqb (rv_name rv) name) rvs).

Definition local_json_get_values (l : LocalJson) : st Fs anyhow (list ReferenceValue) :=
  local_json_read l.

Definition local_json_storage (l : LocalJson) : ReferenceValueStorage Fs := {|
  rvs_set := local_json_set l;
  rvs_get := local_json_get l;
  rvs_get_values := local_json_get_values l;
|}.
End LocalJsonOps.

(** *** The embedded database ([storage/local_fs/mod.rs]) *)
Definition SLED_FILE_PATH : string := "/opt/confidential-containers/attestation-service/reference_values".

(** [sled::Db]: a map from keys to values. *)
Class Sled (D : Type) := {
  sled_insert : string -> bytes -> st D anyhow (option bytes);
  sled_get : string -> st D anyhow (option bytes);
  sled_flush : st D anyhow unit;
  (** the entries an iteration yields, without the ones that failed *)
  sled_iter : D -> list (string * bytes);
}.

Class SledSpec {D} (B : Sled D) (entries : D -> gmap string bytes) : Prop := {
  insert_sled : forall k v d d' r, sled_insert k v d = (d', r) ->
    r <> Panic /\ (forall e, r = Err e -> d' = d) /\
    (forall old, r = Ok old -> entries d' = <[k := v]> (entries d) /\ old = entries d !! k);
  get_sled : forall k d d' r, sled_get k d = (d', r) ->
    d' = d /\ r <> Panic /\ forall o, r = Ok o -> o = entries d !! k;
  flush_sled : forall d d' r, sled_flush d = (d', r) -> r <> Panic /\ entries d' = entries d;
  iter_sled : forall d, sled_iter d ≡ₚ map_to_list (entries d);
}.

Section LocalSledOps.
Context {D : Type} `{B : Sled D} `{C : RvpsCrates}.

Definition local_fs_set (name : string) (rv : ReferenceValue) : st D anyhow (option ReferenceValue) :=
  rv_serde ← st_lift (ok_or "to_vec" (rv_to_vec rv));
  old ← st_map_err (fun _ => "insert into sled") (sled_insert name rv_serde);
  res ← match old with
        | Some v => v ← st_lift (ok_or "from_slice" (rv_from_slice v)); mret (Some v)
        | None => mret None
        end;
  sled_flush;;
  mret res.

Definition local_fs_get (name : string) : st D anyhow (option ReferenceValue) :=
  o ← st_map_err (fun _ => "read from sled") (sled_get name);
  match o with
  | Some v => v ← st_lift (ok_or "from_slice" (rv_from_slice v)); mret (Some v)
  | None => mret None
  end.

Fixpoint collect_values (l : list (string * bytes)) : outcome anyhow (list ReferenceValue) :=
  match l with
  | [] => Ok []
  | (_, v) :: l => rv ← ok_or "from_slice" (rv_from_slice v); rvs ← collect_values l; Ok (rv :: rvs)
  end.

Definition local_fs_get_values : st D anyhow (list ReferenceValue) :=
  d ← st_get;
  st_lift (collect_values (sled_iter d)).

Definition local_fs_storage : ReferenceValueStorage D := {|
  rvs_set := local_fs_set;
  rvs_get := local_fs_get;
  rvs_get_values := local_fs_get_values;
|}.
End LocalSledOps.

(** ** The service ([lib.rs]) *)
Section Service.
Context {S : Type} `{B : ReferenceValueStorage S} `{C : RvpsCrates}.

Fixpoint store_all (rvs : list ReferenceValue) : st S anyhow unit :=
  match rvs with
  | [] => mret tt
  | v :: rvs => rvs_set (rv_name v) v;; store_all rvs
  end.

(** [Rvps::verify_and_extract]; extraction always returns, so the default is
    never used. *)
Definition verify_and_extract (now : Z) (message : string) : st S anyhow unit :=
  m ← st_lift (ok_or "parse message" (message_from_str message));
  let '(v, p, t) := m in
  let message := {| version := v; payload := p; type_ := t |} in
  if negb (String.eqb (version message) MESSAGE_VERSION) then st_err "Version unmatched!"
  else
    rv ← st_lift (default Panic (process now message));
    store_all rv.

(** [Rvps::get_digests]. *)
Definition insert_digest (now : Z) (rv_map : gmap string Value) (rv : ReferenceValue) : gmap string Value :=
  if expired now rv then rv_map else <[rv_name rv := rv_value rv]> rv_map.

Definition get_digests (now : Z) : st S anyhow (gmap string Value) :=
  reference_values ← rvs_get_values;
  mret (foldl (insert_digest now) ∅ reference_values).
End Service.
