(* ===== verification/RvpsProofs.v ===== *)
(** * Properties of the reference value provider service

    Both storage backends implement one map from names to reference values;
    the service, proved against that interface, registers and reports reference
    values; the SWID extractor terminates; concurrent updates of the JSON file
    can be lost. *)
From S2P Require Import Prelude Types Text Fs Json Rvps.

(** ** The SWID extractor terminates *)
Section Swid.
Context `{C : RvpsCrates}.

Lemma attr_get_key ns name attrs v : attr_get ns name attrs = Some v -> (ns, name) ∈ map fst attrs.
Proof.
  induction attrs as [|[k x] attrs IH]; cbn; [done|]. case_decide; subst; [left|].
  right. auto.
Qed.

Lemma hash_name_inj a b :
  0 <= a < 2 ^ 63 -> 0 <= b < 2 ^ 63 -> ("Hash" +:+ fmt_dec a = "Hash" +:+ fmt_dec b)%string -> a = b.
Proof. intros Ha Hb [= E]. now apply fmt_dec_inj. Qed.

(** As many hash attributes as there are attributes: none is missing below. *)
Lemma hash_names_bound (attrs : list ((string * string) * string)) i :
  (forall j, (j < i)%nat -> (HASH_NS, "Hash" +:+ fmt_dec (Z.of_nat j)) ∈ map fst attrs) ->
  Z.of_nat (length attrs) < 2 ^ 63 - 1 -> (i <= length attrs)%nat.
Proof.
  intros Hi Hs. destruct (Nat.le_gt_cases i (length attrs)) as [|Hgt]; [done|]. exfalso.
  set (names := map (fun j => (HASH_NS, "Hash" +:+ fmt_dec (Z.of_nat j))) (seq 0 (S (length attrs)))).
  assert (Hnd : NoDup names).
  { unfold names. apply NoDup_fmap_2_strong; [|apply NoDup_seq].
    intros a b Ha Hb E. apply elem_of_seq in Ha, Hb.
    assert (Z.of_nat a = Z.of_nat b); [|lia]. apply hash_name_inj; [lia..|]. exact (f_equal snd E). }
  assert (Hsub : names ⊆ map fst attrs).
  { intros k Hk. apply list_elem_of_fmap in Hk as (j & -> & Hj). apply elem_of_seq in Hj.
    apply Hi. lia. }
  pose proof (submseteq_length _ _ (NoDup_submseteq _ _ Hnd Hsub)) as Hl.
  unfold names in Hl. rewrite !length_map, length_seq in Hl. lia.
Qed.

Lemma hash_loop_total fuel tag attrs ch i acc :
  let x := Element tag attrs ch in
  (forall j, (j < i)%nat -> (HASH_NS, "Hash" +:+ fmt_dec (Z.of_nat j)) ∈ map fst attrs) ->
  Z.of_nat (length attrs) < 2 ^ 63 - 1 -> (length attrs < i + fuel)%nat ->
  exists r, hash_loop fuel x (Z.of_nat i) acc = Some r.
Proof.
  intros x. revert i acc. induction fuel as [|fuel IH]; intros i acc Hi Hs Hf.
  { pose proof (hash_names_bound _ _ Hi Hs). lia. }
  cbn [hash_loop]. destruct (attribute HASH_NS _ x) as [hash|] eqn:E; [|eauto].
  replace (Z.of_nat i + 1) with (Z.of_nat (S i)) by lia.
  assert (Hi' : forall j, (j < S i)%nat ->
    (HASH_NS, "Hash" +:+ fmt_dec (Z.of_nat j)) ∈ map fst attrs).
  { intros j Hj. destruct (decide (j = i)) as [->|]; [|apply Hi; lia].
    now apply attr_get_key in E. }
  destruct (all_chars _ hash); apply IH; auto; lia.
Qed.

(** Elements with fewer attributes than the 32-bit counter can number. *)
Definition attrs_sized (x : Xml) : Prop := Z.of_nat (attr_count x) < 2 ^ 31 - 1.

Lemma swid_resource_total now prefix x :
  attrs_sized x -> exists r, swid_resource now prefix x = Some r.
Proof.
  intros Hs. unfold swid_resource. destruct (attribute "" "index" x) as [i|] eqn:E; [|eauto].
  destruct x as [tag attrs ch|]; [|done].
  destruct (hash_loop_total (S (length attrs)) tag attrs ch 0 []) as [r Hr];
    [lia|unfold attrs_sized in Hs; cbn [attr_count] in Hs; lia|lia|]. cbn [attr_count]. change (Z.of_nat 0) with 0 in Hr. rewrite Hr. cbn. eauto.
Qed.

Lemma swid_resources_total now prefix l :
  Forall attrs_sized l -> exists r, swid_resources now prefix l = Some r.
Proof.
  induction 1 as [|x l Hx _ IH]; cbn; [eauto|].
  destruct (swid_resource_total now prefix x Hx) as [[o|e|] ->]; cbn; [|eauto..].
  destruct IH as [r ->]. cbn. eauto.
Qed.

Lemma rv_new_not_panic now : rv_new now <> Panic.
Proof. unfold rv_new. now destruct (checked_add_months _ _). Qed.

Lemma swid_resource_not_panic now prefix x : swid_resource now prefix x <> Some Panic.
Proof.
  unfold swid_resource. destruct (attribute "" "index" x); [|done].
  destruct (hash_loop _ _ _ _) as [v|]; [|done]. unfold mbind, option_bind.
  case_bool_decide; [done|]. pose proof (rv_new_not_panic now). now destruct (rv_new now).
Qed.

Lemma swid_resources_not_panic now prefix l : swid_resources now prefix l <> Some Panic.
Proof.
  induction l as [|x l IH]; [done|]. cbn [swid_resources].
  pose proof (swid_resource_not_panic now prefix x) as Hx.
  destruct (swid_resource now prefix x) as [[o|e|]|]; try done. unfold mbind, option_bind.
  destruct (swid_resources now prefix l) as [[]|]; cbn; congruence.
Qed.

Lemma Forall_filter_stdlib {A} (P : A -> Prop) f l : Forall P l -> Forall P (List.filter f l).
Proof. induction 1; cbn; [constructor|]. destruct (f x); auto. Qed.

Lemma Xml_ind_nested (P : Xml -> Prop) :
  (forall tag attrs ch, Forall P ch -> P (Element tag attrs ch)) -> P OtherNode -> forall x, P x.
Proof.
  intros Hel Ho. fix IH 1. intros [tag attrs ch|]; [|exact Ho].
  apply Hel. induction ch as [|c ch IHc]; constructor; [apply IH|exact IHc].
Qed.

Lemma descendants_trans x y z : In y (descendants x) -> In z (descendants y) -> In z (descendants x).
Proof.
  intros Hy Hz. revert Hy. induction x as [tag attrs ch IH|] using Xml_ind_nested; cbn.
  - intros [<-|Hy]; [exact Hz|]. right. revert Hy.
    induction IH as [|c ch Hc _ IHc]; cbn; [done|]. rewrite !in_app_iff. naive_solver.
  - intros [<-|[]]. exact Hz.
Qed.

Lemma descendants_sized x y :
  In y (descendants x) -> Forall attrs_sized (descendants x) -> Forall attrs_sized (descendants y).
Proof.
  intros Hy Hx. apply List.Forall_forall. intros z Hz.
  rewrite List.Forall_forall in Hx. eauto using descendants_trans.
Qed.

Lemma process_total now m :
  (forall s xml, xml_parse s = Some xml -> Forall attrs_sized (descendants xml)) ->
  exists r, process now m = Some r /\ r <> Panic.
Proof.
  intros Hx. unfold process.
  destruct (String.eqb (type_ m) "sample").
  { eexists. split; [done|]. unfold sample_verify_and_extract.
    destruct (rv_base64_decode _); cbn; [|done]. now destruct (provenance_from_slice _). }
  destruct (String.eqb (type_ m) "swid"); [|eauto]. unfold swid_verify_and_extract.
  match goal with |- context [match ?x with Ok _ => _ | Err _ => _ | Panic => _ end] =>
    destruct x as [[prefix l]|e|] eqn:E end; [|eauto|].
  2: { exfalso. inv_panic. }
  assert (Hl : Forall attrs_sized l).
  { inv_ok. simplify_eq. match goal with E : xml_parse _ = Some _ |- _ => apply Hx in E end.
    do 2 apply Forall_filter_stdlib. match goal with E : List.find (has_tag_name SWID_NS "Payload") _ = Some _ |- _ =>
      apply List.find_some in E as [E _]; eauto using descendants_sized end. }
  destruct (swid_resources_total now prefix l Hl) as [r Hr]. exists r. split; [done|].
  intros ->. now apply swid_resources_not_panic in Hr.
Qed.

(** Extraction always ends.  For every message, as long as XML elements
    have fewer than two thousand million attributes, the extractors return reference values or
    an error; in particular the loop over the numbered hash attributes of a SWID
    resource stops. *)
Theorem extraction_total now m :
  (forall s xml, xml_parse s = Some xml -> Forall attrs_sized (descendants xml)) ->
  exists r, process now m = Some r /\ r <> Panic.
Proof. apply process_total. Qed.
End Swid.

(** ** The JSON file implements the map *)
Definition by_name (rvs : list ReferenceValue) : gmap string ReferenceValue :=
  list_to_map (map (fun rv => (rv_name rv, rv)) rvs).

Definition rvs_ok (rvs : list ReferenceValue) : Prop :=
  NoDup (map rv_name rvs) /\ Forall (fun rv => readable (expiration rv)) rvs.

Lemma by_name_cons rv rvs : by_name (rv :: rvs) = <[rv_name rv := rv]> (by_name rvs).
Proof. reflexivity. Qed.

Lemma by_name_lookup rvs n rv :
  NoDup (map rv_name rvs) -> by_name rvs !! n = Some rv <-> rv ∈ rvs /\ rv_name rv = n.
Proof.
  intros Hnd. unfold by_name. rewrite <- elem_of_list_to_map.
  - rewrite list_elem_of_fmap. naive_solver.
  - rewrite map_map. exact Hnd.
Qed.

Lemma by_name_None rvs n : by_name rvs !! n = None <-> n ∉ map rv_name rvs.
Proof.
  unfold by_name. rewrite <- not_elem_of_list_to_map, map_map. reflexivity.
Qed.

Lemma replace_or_push_spec rv rvs old rvs' :
  rvs_ok rvs -> readable (expiration rv) -> replace_or_push (rv_name rv) rv rvs = (old, rvs') ->
  rvs_ok rvs' /\ old = by_name rvs !! rv_name rv /\ by_name rvs' = <[rv_name rv := rv]> (by_name rvs) /\
  (forall n, n ∈ map rv_name rvs' -> n = rv_name rv \/ n ∈ map rv_name rvs).
Proof.
  intros [Hnd Hr] Hrv. revert old rvs' Hnd Hr. induction rvs as [|it rvs IH]; intros old rvs' Hnd Hr H.
  - injection H as <- <-. split; [split; [apply NoDup_singleton|now constructor]|].
    split; [done|]. split; [done|]. intros n. cbn. set_solver.
  - cbn [replace_or_push] in H. cbn [map] in Hnd. apply list.NoDup_cons in Hnd as [Hni Hnd].
    apply Forall_cons_iff in Hr as [Hit Hr].
    destruct (String.eqb_spec (rv_name it) (rv_name rv)) as [E|E].
    + injection H as <- <-. rewrite !by_name_cons, E.
      split; [split; [cbn; apply list.NoDup_cons; now rewrite <- E|now constructor]|].
      split; [now rewrite lookup_insert_eq|]. split; [now rewrite insert_insert_eq|].
      intros n. cbn. set_solver.
    + destruct (replace_or_push (rv_name rv) rv rvs) as [o l] eqn:El. injection H as <- <-.
      destruct (IH o l Hnd Hr eq_refl) as ([Hl1 Hl2] & Ho & Hb & Hn).
      rewrite !by_name_cons, Hb. split; [split|].
      * cbn. apply list.NoDup_cons. split; [|done]. intros Hin. apply Hn in Hin as [?|?]; [congruence|done].
      * now constructor.
      * split; [now rewrite lookup_insert_ne|]. split; [now rewrite insert_insert_ne|].
        intros n. cbn. set_solver.
Qed.

Section JsonStorage.
Context `{D : Disk} `{C : RvpsCrates} (Spec : RvpsCratesSpec C) (l : LocalJson).

(** The file holds a list of distinct names, each value readable again. *)
Definition json_ok (fs : Fs) : Prop :=
  exists file rvs, files fs !! resolve (file_path l) = Some file /\
    rvs_from_slice file = Some rvs /\ rvs_ok rvs.

Definition json_contents (fs : Fs) : gmap string ReferenceValue :=
  default ∅ (file ← files fs !! resolve (file_path l); rvs ← rvs_from_slice file; Some (by_name rvs)).

Lemma json_contents_eq fs file rvs :
  files fs !! resolve (file_path l) = Some file -> rvs_from_slice file = Some rvs ->
  json_contents fs = by_name rvs.
Proof. intros Hf Hr. unfold json_contents. rewrite Hf. cbn. now rewrite Hr. Qed.

Lemma local_json_read_ok fs fs' r :
  json_ok fs -> local_json_read l fs = (fs', r) ->
  fs' = fs /\ r <> Panic /\
  forall rvs, r = Ok rvs -> rvs_ok rvs /\ json_contents fs = by_name rvs.
Proof.
  intros (file & rvs & Hf & Hr & Hok) H. unfold local_json_read, fs_read in H.
  unfold mbind, st_bind in H. rewrite Hf in H.
  destruct (disk_fault _ _); cbn in H; [now injection H as <- <-|].
  rewrite Hr in H. cbn in H. injection H as <- <-. do 2 (split; [done|]).
  intros rvs' [= <-]. eauto using json_contents_eq.
Qed.

(** A file that was cut off while it was written. *)
Definition damaged (fs : Fs) : Prop :=
  exists file, files fs !! resolve (file_path l) = Some file /\ rvs_from_slice file = None.

Lemma damaged_read fs : damaged fs -> exists e, local_json_read l fs = (fs, Err e).
Proof.
  intros (file & Hf & Hr). unfold local_json_read, fs_read, mbind, st_bind, st_lift. rewrite Hf.
  destruct (disk_fault _ _); cbn; [eauto|]. rewrite Hr. cbn. eauto.
Qed.

Lemma damaged_stuck fs : damaged fs -> stuck (local_json_storage l) fs.
Proof.
  intros (e & He)%damaged_read. constructor; cbn; unfold local_json_set, local_json_get, local_json_get_values, mbind, st_bind.
  - intros name rv. rewrite He. eauto.
  - intros name. rewrite He. eauto.
  - eauto.
Qed.

Lemma local_json_store_ok fs fs' rv rvs r :
  rvs_ok rvs -> readable (expiration rv) -> local_json_store l (rv_name rv) rv rvs fs = (fs', r) ->
  r <> Panic /\ (forall e, r = Err e -> fs' = fs \/ damaged fs') /\
  forall o, r = Ok o -> json_ok fs' /\ o = by_name rvs !! rv_name rv /\
    json_contents fs' = <[rv_name rv := rv]> (by_name rvs).
Proof.
  intros Hrvs Hrv H. unfold local_json_store in H.
  destruct (replace_or_push (rv_name rv) rv rvs) as [old rvs'] eqn:Ep.
  destruct (replace_or_push_spec _ _ _ _ Hrvs Hrv Ep) as (Hrvs' & Ho & Hb' & _).
  unfold mbind, st_bind, st_lift, ok_or in H.
  destruct (rvs_to_vec rvs') as [data|] eqn:Ev; [|injection H as <- <-; naive_solver].
  destruct (fs_write (file_path l) data fs) as [fs2 r2] eqn:Ew. destruct r2 as [[]|e|].
  - injection H as <- <-. apply fs_write_Ok in Ew as ->.
    assert (Hrt : rvs_from_slice data = Some rvs') by (eapply rvs_roundtrip; [apply Hrvs'|done]).
    do 2 (split; [done|]). intros o [= <-]. rewrite <- Hb'. split; [|split; [done|]].
    + exists data, rvs'. cbn. now rewrite lookup_insert_eq.
    + eapply json_contents_eq; [cbn; apply lookup_insert_eq|done].
  - injection H as <- <-. destruct (fs_write_fail _ _ _ _ _ Ew eq_refl) as [_ Hf].
    split; [done|]. split; [|done]. intros _ _. destruct Hf as [->|(n & Hn & ->)]; [now left|right].
    exists (take n data). cbn. rewrite lookup_insert_eq. split; [done|]. eapply rvs_cut; eassumption.
  - now destruct (fs_write_fail _ _ _ _ _ Ew eq_refl).
Qed.

(** A new store keeps an existing file and creates an empty one otherwise. *)
Lemma local_json_new_ok fs fs' l' :
  local_json_new (file_path l) fs = (fs', Ok l') ->
  l' = l /\ (json_ok fs -> json_ok fs' /\ json_contents fs' = json_contents fs) /\
  (files fs !! resolve (file_path l) = None -> is_dir fs' (resolve (file_path l)) = false ->
     json_ok fs' /\ json_contents fs' = ∅).
Proof.
  intros H. unfold local_json_new in H. inv_st.
  match goal with Hc : create_dir_all _ _ = _ |- _ => apply create_dir_all_files in Hc as [Hf _] end.
  split; [now destruct l|]. unfold json_ok, json_contents. rewrite <- !Hf. unfold path_exists in *.
  match goal with Hw : (if ?b then _ else _) _ = _ |- _ => destruct b eqn:Eb; cycle 1 end.
  - match goal with Hw : fs_write _ _ _ = _ |- _ => apply fs_write_Ok in Hw as -> end. cbn.
    apply orb_false_elim in Eb as [_ Eb]. split.
    { intros (file & rvs & Hfile & _). unfold is_file in Eb. rewrite Hfile in Eb. done. }
    intros _ _. rewrite lookup_insert_eq. cbn. rewrite rvs_empty. split; [|done].
    exists (str_bytes "[]"), []. split; [done|]. split; [apply rvs_empty|]. split; constructor.
  - inv_st. split; [done|]. intros Hn Hd. apply orb_true_iff in Eb as [Eb|Eb]; [congruence|].
    apply is_file_spec in Eb as [? Eb]. congruence.
Qed.

#[local] Instance json_storage_correct : StorageSpec (local_json_storage l) json_ok json_contents.
Proof.
  constructor; cbn.
  - intros rv fs fs' r Hok Hrv H. unfold local_json_set in H. unfold mbind, st_bind in H.
    destruct (local_json_read l fs) as [fs1 r1] eqn:E1.
    destruct (local_json_read_ok _ _ _ Hok E1) as (-> & Hn & Hc).
    destruct r1 as [rvs|e|]; [|injection H as <- <-; naive_solver|done].
    destruct (Hc rvs eq_refl) as [Hrvs Hb]. rewrite Hb.
    destruct (local_json_store_ok _ _ _ _ _ Hrvs Hrv H) as (Hn' & He & Ho).
    split; [done|]. destruct r as [o|e|]; [| |done].
    + destruct (Ho o eq_refl) as (Hok' & -> & Hc'). split; [left; split; [done|now right]|]. intros ? [= <-]. done.
    + split; [|done]. destruct (He e eq_refl) as [->|Hd]; [left; split; [done|now left]|].
      right. split; [done|now apply damaged_stuck].
  - intros n fs fs' r Hok H. unfold local_json_get in H. unfold mbind, st_bind in H.
    destruct (local_json_read l fs) as [fs1 r1] eqn:E1.
    destruct (local_json_read_ok _ _ _ Hok E1) as (-> & Hn & Hc).
    destruct r1 as [rvs|e|]; [|injection H as <- <-; naive_solver|done]. injection H as <- <-.
    do 2 (split; [done|]). intros o [= <-]. destruct (Hc rvs eq_refl) as [[Hnd _] ->].
    destruct (List.find _ rvs) as [rv|] eqn:Ef.
    + apply List.find_some in Ef as [Hin Hnm]. apply String.eqb_eq in Hnm.
      symmetry. apply by_name_lookup; [done|]. now rewrite list_elem_of_In.
    + symmetry. apply by_name_None. intros Hin. apply list_elem_of_fmap in Hin as (rv & -> & Hrv).
      apply list_elem_of_In in Hrv. pose proof (List.find_none _ _ Ef _ Hrv) as Hx.
      cbn in Hx. now rewrite String.eqb_refl in Hx.
  - intros fs fs' r Hok H. destruct (local_json_read_ok _ _ _ Hok H) as (-> & Hn & Hc).
    do 2 (split; [done|]). intros rvs ->. destruct (Hc rvs eq_refl) as [[Hnd _] ->].
    split; [done|]. intros n rv. now apply by_name_lookup.
Qed.
End JsonStorage.

(** ** The embedded database implements the map *)
Section SledStorage.
Context {D : Type} `{B : Sled D} {entries : D -> gmap string bytes} (HB : SledSpec B entries).
Context `{C : RvpsCrates} (Spec : RvpsCratesSpec C).

(** Every entry is a reference value stored under its own name. *)
Definition sled_ok (d : D) : Prop :=
  map_Forall (fun k v => exists rv, rv_from_slice v = Some rv /\ rv_name rv = k) (entries d).

Definition sled_contents (d : D) : gmap string ReferenceValue := omap rv_from_slice (entries d).

Lemma sled_contents_lookup d n v rv :
  entries d !! n = Some v -> rv_from_slice v = Some rv -> sled_contents d !! n = Some rv.
Proof. intros Hv Hr. unfold sled_contents. now rewrite lookup_omap, Hv. Qed.

Lemma sled_contents_None d n : entries d !! n = None -> sled_contents d !! n = None.
Proof. intros Hn. unfold sled_contents. now rewrite lookup_omap, Hn. Qed.

Lemma collect_values_Ok l rvs :
  collect_values l = Ok rvs -> Forall2 (fun kv rv => rv_from_slice kv.2 = Some rv) l rvs.
Proof.
  revert rvs. induction l as [|[k v] l IH]; cbn; intros rvs H; inv_ok; constructor; auto.
Qed.

Lemma collect_values_not_Panic l : collect_values l <> Panic.
Proof.
  induction l as [|[k v] l IH]; cbn; [done|]. destruct (rv_from_slice v); cbn; [|done].
  now destruct (collect_values l).
Qed.

Lemma values_names l rvs :
  Forall2 (fun kv rv => rv_from_slice kv.2 = Some rv) l rvs ->
  Forall (fun kv => exists rv, rv_from_slice kv.2 = Some rv /\ rv_name rv = kv.1) l ->
  map rv_name rvs = map fst l.
Proof.
  induction 1 as [|kv rv l rvs Hx _ IH]; cbn; [done|].
  intros [(rv' & Hx' & Hn) Hl]%Forall_cons_iff. rewrite IH by done. f_equal. congruence.
Qed.

Lemma collect_values_spec d l :
  sled_ok d -> collect_values (sled_iter d) = Ok l ->
  NoDup (map rv_name l) /\ forall n rv, sled_contents d !! n = Some rv <-> rv ∈ l /\ rv_name rv = n.
Proof.
  intros Hok H. apply collect_values_Ok in H. pose proof (iter_sled d) as Hp.
  assert (Hd : Forall (fun kv => exists rv, rv_from_slice kv.2 = Some rv /\ rv_name rv = kv.1) (sled_iter d)).
  { rewrite Hp. apply list.Forall_forall. intros [k v] Hkv%elem_of_map_to_list. exact (Hok k v Hkv). }
  split. { rewrite (values_names _ _ H Hd), Hp. apply NoDup_fst_map_to_list. }
  intros n rv. split.
  - intros Hc. unfold sled_contents in Hc. rewrite lookup_omap in Hc.
    destruct (entries d !! n) as [v|] eqn:E; [|done]. cbn in Hc.
    destruct (Hok n v E) as (rv' & Hr & Hn). assert (rv' = rv) as -> by congruence.
    split; [|done]. apply elem_of_map_to_list in E. rewrite <- Hp in E.
    apply list_elem_of_lookup in E as [i Hi].
    destruct (Forall2_lookup_l _ _ _ _ _ H Hi) as (rv'' & Hl & Hr'').
    apply list_elem_of_lookup. exists i. rewrite Hl. cbn in Hr''. congruence.
  - intros [Hl Hn]. apply list_elem_of_lookup in Hl as [i Hi].
    destruct (Forall2_lookup_r _ _ _ _ _ H Hi) as ([k v] & Hkv & Hr). cbn in Hr.
    apply list_elem_of_lookup_2 in Hkv. rewrite Hp in Hkv. apply elem_of_map_to_list in Hkv.
    destruct (Hok k v Hkv) as (rv' & Hr' & Hk). assert (rv' = rv) as -> by congruence.
    eapply sled_contents_lookup; [|done]. now rewrite <- Hn, Hk.
Qed.

Lemma sled_get_value d n o :
  sled_ok d -> o = entries d !! n ->
  match o with
  | Some v => exists rv, rv_from_slice v = Some rv /\ sled_contents d !! n = Some rv
  | None => sled_contents d !! n = None
  end.
Proof.
  intros Hok ->. destruct (entries d !! n) as [v|] eqn:E; [|now apply sled_contents_None].
  destruct (Hok n v E) as (rv & Hr & _). eauto using sled_contents_lookup.
Qed.

Lemma sled_insert_value rv data d d' :
  sled_ok d -> readable (expiration rv) -> rv_to_vec rv = Some data ->
  entries d' = <[rv_name rv := data]> (entries d) ->
  sled_ok d' /\ sled_contents d' = <[rv_name rv := rv]> (sled_contents d).
Proof.
  intros Hok Hr Hv He. pose proof (rv_roundtrip _ _ Hr Hv) as Hd. split.
  - unfold sled_ok. rewrite He. apply map_Forall_insert_2; eauto.
  - unfold sled_contents. rewrite He. now apply omap_insert_Some.
Qed.

#[local] Instance sled_storage_correct :
  StorageSpec (local_fs_storage (B := B)) sled_ok sled_contents.
Proof.
  constructor; cbn.
  - intros rv d d' r Hok Hrv H. unfold local_fs_set in H.
    unfold mbind, st_bind, st_lift, ok_or, st_map_err in H.
    destruct (rv_to_vec rv) as [data|] eqn:Ev; [|injection H as <- <-; naive_solver].
    destruct (sled_insert (rv_name rv) data d) as [d1 r1] eqn:Ei.
    destruct (insert_sled _ _ _ _ _ Ei) as (Hnp & He & Ho).
    destruct r1 as [old|e|]; cbn in H; [|injection H as <- <-; rewrite (He _ eq_refl); naive_solver|done].
    destruct (Ho old eq_refl) as [Hent Hold]. pose proof (sled_get_value _ _ _ Hok Hold) as Hg.
    destruct (sled_insert_value _ _ _ _ Hok Hrv Ev Hent) as [Hok1 Hc1].
    destruct (sled_flush d1) as [d2 r2] eqn:Ef. destruct (flush_sled _ _ _ Ef) as [Hn2 Hd2].
    assert (Hok2 : sled_ok d2) by (unfold sled_ok; now rewrite Hd2).
    assert (Hc2 : sled_contents d2 = sled_contents d1) by (unfold sled_contents; now rewrite Hd2).
    rewrite <- Hc2 in Hc1.
    destruct old as [v|]; [destruct Hg as (rv' & Hr' & Hg); rewrite Hr' in H|]; cbn in H;
      rewrite Ef in H; destruct r2 as [[]|e|]; try done; injection H as <- <-; naive_solver.
  - intros n d d' r Hok H. unfold local_fs_get in H.
    unfold mbind, st_bind, st_lift, ok_or, st_map_err in H.
    destruct (sled_get n d) as [d1 r1] eqn:Eg. destruct (get_sled _ _ _ _ Eg) as (-> & Hn & Ho).
    destruct r1 as [o|e|]; cbn in H; [|injection H as <- <-; naive_solver|done].
    pose proof (sled_get_value _ _ _ Hok (Ho o eq_refl)) as Hg.
    destruct o as [v|]; [destruct Hg as (rv' & Hr' & Hg); rewrite Hr' in H|]; cbn in H;
      injection H as <- <-; naive_solver.
  - intros d d' r Hok H. unfold local_fs_get_values in H. cbn in H. injection H as <- <-.
    split; [done|]. split; [apply collect_values_not_Panic|]. intros l Hl.
    now apply collect_values_spec.
Qed.
End SledStorage.

(** ** The service over any storage that keeps its promise *)
Definition register_all (m : gmap string ReferenceValue) (rvs : list ReferenceValue) :
    gmap string ReferenceValue := foldl (fun m rv => <[rv_name rv := rv]> m) m rvs.

Lemma register_all_in m rvs n :
  n ∈ map rv_name rvs -> exists rv, rv ∈ rvs /\ register_all m rvs !! n = Some rv.
Proof.
  revert m. induction rvs as [|rv rvs IH] using rev_ind; intros m Hn; [now apply elem_of_nil in Hn|].
  unfold register_all. rewrite foldl_app. cbn. rewrite map_app, elem_of_app in Hn. cbn in Hn.
  destruct (decide (rv_name rv = n)) as [<-|Hne].
  - exists rv. rewrite lookup_insert_eq. set_solver.
  - destruct Hn as [Hn|Hn]; [|set_solver]. destruct (IH m Hn) as (rv' & Hin & Hl).
    exists rv'. rewrite lookup_insert_ne by done. split; [set_solver|done].
Qed.

(** The digests a set of reference values stands for: the unexpired ones. *)
Definition current_digests (now : Z) (m : gmap string ReferenceValue) : gmap string Value :=
  omap (fun rv => if expired now rv then None else Some (rv_value rv)) m.

Section Client.
Context {S : Type} {B : ReferenceValueStorage S} {ok : S -> Prop}
  {contents : S -> gmap string ReferenceValue} (HS : StorageSpec B ok contents).
Context `{C : RvpsCrates} (Spec : RvpsCratesSpec C).

Lemma store_all_spec rvs s s' r :
  ok s -> Forall (fun rv => readable (expiration rv)) rvs -> store_all rvs s = (s', r) ->
  r <> Panic /\
  (ok s' /\ (exists k, contents s' = register_all (contents s) (take k rvs)) \/ is_ok r = false /\ stuck B s') /\
  (r = Ok tt -> ok s' /\ contents s' = register_all (contents s) rvs).
Proof.
  revert s. induction rvs as [|v rvs IH]; intros s Hok Hr H; cbn in H.
  { injection H as <- <-. split; [done|]. split; [left; split; [done|now exists 0%nat]|done]. }
  apply Forall_cons_iff in Hr as [Hv Hr]. unfold mbind, st_bind in H.
  destruct (rvs_set (rv_name v) v s) as [s1 r1] eqn:E.
  destruct (set_spec _ _ _ _ Hok Hv E) as (Hn & Hc & Ho).
  destruct r1 as [old|e|]; [|injection H as <- <-|done].
  - destruct (Ho old eq_refl) as (Hok1 & _ & Hc1).
    destruct (IH _ Hok1 Hr H) as (Hn' & Hk & Hf). rewrite Hc1 in Hk, Hf.
    split; [done|]. split; [|done]. destruct Hk as [[Hok' [k Hk]]|Hs]; [left|now right].
    split; [done|]. now exists (Datatypes.S k).
  - split; [done|]. split; [|done]. destruct Hc as [[Hok' Hc]|Hs]; [left|now right]. split; [done|].
    destruct Hc as [Hc|Hc]; [exists 0%nat|exists 1%nat]; exact Hc.
Qed.

(** Until the last year whose timestamps are written with four digits. *)
Definition clock_ok (now : Z) : Prop :=
  0 <= now /\ forall e, checked_add_months (with_nanosecond_0 now) MONTHS_BEFORE_EXPIRATION = Some e ->
    e < year_10000.

Lemma rv_new_readable now rv :
  clock_ok now -> rv_new now = Ok rv -> readable (expiration rv) /\ expired now rv = false.
Proof.
  intros [Hnow Hc] H. unfold rv_new in H. inv_ok. cbn.
  assert (Hw : with_nanosecond_0 now = NANOS * (now / NANOS)).
  { unfold with_nanosecond_0. pose proof (Z.div_mod now NANOS ltac:(done)). lia. }
  assert (Hm : with_nanosecond_0 now mod NANOS = 0)
    by (rewrite Hw, Z.mul_comm; now apply Z.mod_mul).
  pose proof (add_months_later _ MONTHS_BEFORE_EXPIRATION _ ltac:(reflexivity) Hok) as Hl.
  pose proof (add_months_whole _ _ _ Hm Hok) as Ha.
  assert (0 <= with_nanosecond_0 now)
    by (rewrite Hw; pose proof (Z.div_pos now NANOS Hnow ltac:(done)); unfold NANOS in *; lia).
  split; [split; [done|]; specialize (Hc _ Hok); lia|].
  unfold expired. cbn. apply Z.ltb_ge.
  assert (a mod NANOS = 0 -> NANOS * (a / NANOS) = a).
  { intros E. pose proof (Z.div_mod a NANOS ltac:(done)). lia. }
  pose proof (Z.mod_pos_bound now NANOS ltac:(done)). unfold with_nanosecond_0 in *.
  assert (a / NANOS > now / NANOS) by nia. nia.
Qed.

Lemma extracted_readable now m rvs :
  clock_ok now -> process now m = Some (Ok rvs) ->
  Forall (fun rv => readable (expiration rv) /\ expired now rv = false) rvs.
Proof.
  intros Hc. unfold process. destruct (String.eqb _ "sample").
  { intros [= H]. unfold sample_verify_and_extract in H. inv_ok.
    match goal with |- Forall _ (omap _ ?l) => clear - Hc Spec; induction l as [|[n v] l IH] end;
      [constructor|]. cbn. destruct (rv_new now) as [rv|e|] eqn:E; try exact IH. constructor; [|exact IH].
    exact (rv_new_readable _ _ Hc E). }
  destruct (String.eqb _ "swid"); [|done]. unfold swid_verify_and_extract.
  match goal with |- context [match ?x with Ok _ => _ | Err _ => _ | Panic => _ end] =>
    destruct x as [[prefix l]|e|] end; [|done..]. revert rvs.
  induction l as [|x l IH]; cbn; [now intros rvs [= <-]|]. intros rvs H.
  destruct (swid_resource now prefix x) as [[o|e|]|] eqn:E; cbn in H; try done.
  destruct (swid_resources now prefix l) as [[rvs'|e|]|]; cbn in H; try done.
  injection H as <-. apply Forall_app. split; [|now apply IH].
  unfold swid_resource in E. destruct (attribute "" "index" x); [|done].
  destruct (hash_loop _ _ _ _); [|done]. cbn in E. case_bool_decide; [now injection E as <-|].
  destruct (rv_new now) as [rv|e|] eqn:En; cbn in E; try done. injection E as <-.
  constructor; [|constructor]. exact (rv_new_readable _ _ Hc En).
Qed.

(** Registering provenance is a map update.  Whatever the message and
    whichever backend stores it, the call never panics; on success the message
    had the supported version and the store holds exactly the previous values
    overwritten by the extracted ones, in order; on an error it holds a prefix
    of that update, and nothing was stored unless extraction succeeded, or the
    failed write has left it without answers. *)
Theorem registration_updates_store now msg s s' r :
  (forall d xml, xml_parse d = Some xml -> Forall attrs_sized (descendants xml)) ->
  clock_ok now -> ok s -> verify_and_extract now msg s = (s', r) ->
  r <> Panic /\
  match r with
  | Ok _ => ok s' /\ exists p t rvs,
      message_from_str msg = Some (MESSAGE_VERSION, p, t) /\
      process now {| version := MESSAGE_VERSION; payload := p; type_ := t |} = Some (Ok rvs) /\
      contents s' = register_all (contents s) rvs
  | _ => stuck B s' \/
      ok s' /\ (contents s' = contents s \/
      exists m rvs k, process now m = Some (Ok rvs) /\
        contents s' = register_all (contents s) (take k rvs))
  end.
Proof.
  intros Hx Hc Hok H. unfold verify_and_extract in H. unfold mbind, st_bind, st_lift, ok_or in H.
  destruct (message_from_str msg) as [[[v p] t]|] eqn:Em; [|injection H as <- <-; naive_solver].
  cbn [version] in H. destruct (String.eqb_spec v MESSAGE_VERSION) as [->|]; cbn [negb] in H;
    [|injection H as <- <-; naive_solver].
  destruct (process_total now {| version := MESSAGE_VERSION; payload := p; type_ := t |} Hx) as (o & Hp & Hnp).
  rewrite Hp in H. cbn [default] in H. unfold id in H.
  destruct o as [rvs|e|]; [|injection H as <- <-; naive_solver|done].
  assert (Hr : Forall (fun rv => readable (expiration rv)) rvs)
    by (eapply Forall_impl; [|exact (extracted_readable _ _ _ Hc Hp)]; naive_solver).
  destruct (store_all_spec _ _ _ _ Hok Hr H) as (Hn & Hk & Hf).
  split; [done|]. destruct r as [[]|e|]; [destruct (Hf eq_refl); eauto 10| |done].
  destruct Hk as [[Hok' [k Hk]]|[_ Hs]]; [right; eauto 10|now left].
Qed.

Lemma digests_foldl now l acc :
  NoDup (map rv_name l) ->
  forall n, foldl (insert_digest now) acc l !! n =
    match List.find (fun rv => String.eqb (rv_name rv) n) l with
    | Some rv => if expired now rv then acc !! n else Some (rv_value rv)
    | None => acc !! n
    end.
Proof.
  revert acc. induction l as [|rv l IH]; intros acc Hnd n; [done|]. cbn.
  apply list.NoDup_cons in Hnd as [Hni Hnd]. rewrite IH by done.
  destruct (String.eqb_spec (rv_name rv) n) as [<-|Hne].
  - destruct (List.find _ l) as [rv'|] eqn:E.
    { apply List.find_some in E as [Hin Heq]. apply String.eqb_eq in Heq. destruct Hni.
      rewrite <- Heq. apply list_elem_of_In. now apply in_map. }
    unfold insert_digest. destruct (expired now rv); [done|]. now rewrite lookup_insert_eq.
  - assert (Ha : insert_digest now acc rv !! n = acc !! n).
    { unfold insert_digest. destruct (expired now rv); [done|]. now rewrite lookup_insert_ne. }
    now rewrite Ha.
Qed.

Lemma get_digests_spec now s s' r :
  ok s -> get_digests now s = (s', r) ->
  s' = s /\ r <> Panic /\ forall m, r = Ok m -> m = current_digests now (contents s).
Proof.
  intros Hok H. unfold get_digests in H. unfold mbind, st_bind in H.
  destruct (rvs_get_values s) as [s1 r1] eqn:E.
  destruct (get_values_spec _ _ _ Hok E) as (-> & Hn & Hl).
  destruct r1 as [l|e|]; [|injection H as <- <-; naive_solver|done]. injection H as <- <-.
  do 2 (split; [done|]). intros m [= <-]. destruct (Hl l eq_refl) as [Hnd Hc].
  apply map_eq. intros n. rewrite digests_foldl by done. unfold current_digests. rewrite lookup_omap.
  destruct (List.find _ l) as [rv|] eqn:Ef.
  - apply List.find_some in Ef as [Hin Heq]. apply String.eqb_eq in Heq.
    rewrite (proj2 (Hc n rv)) by (split; [now apply list_elem_of_In|done]). cbn.
    now destruct (expired now rv).
  - destruct (contents s !! n) as [rv|] eqn:Ec; [|done]. apply Hc in Ec as [Hin Heq].
    apply list_elem_of_In in Hin. pose proof (List.find_none _ _ Ef _ Hin) as Hx.
    cbn in Hx. now rewrite Heq, String.eqb_refl in Hx.
Qed.

(** C11: reported digests are the registered ones.  After a successful
    registration, a query that succeeds reports, for every name, the value of
    the last extracted reference value of that name, or else the value stored
    before, unless it has expired: nothing is lost and nothing else appears. *)
Theorem registered_values_reported now msg s s1 later s2 m :
  (forall d xml, xml_parse d = Some xml -> Forall attrs_sized (descendants xml)) ->
  clock_ok now -> ok s ->
  verify_and_extract now msg s = (s1, Ok tt) -> get_digests later s1 = (s2, Ok m) ->
  exists p t rvs,
    message_from_str msg = Some (MESSAGE_VERSION, p, t) /\
    process now {| version := MESSAGE_VERSION; payload := p; type_ := t |} = Some (Ok rvs) /\
    m = current_digests later (register_all (contents s) rvs) /\
    (forall rv, rv ∈ rvs -> later <= now -> is_Some (m !! rv_name rv)).
Proof.
  intros Hx Hc Hok H Hg. unfold verify_and_extract in H. unfold mbind, st_bind, st_lift, ok_or in H.
  destruct (message_from_str msg) as [[[v p] t]|] eqn:Em; [|done]. cbn in H.
  destruct (String.eqb_spec v MESSAGE_VERSION) as [->|]; cbn in H; [|done].
  destruct (process_total now {| version := MESSAGE_VERSION; payload := p; type_ := t |} Hx)
    as (o & Hp & Hnp).
  rewrite Hp in H. cbn in H. destruct o as [rvs|e|]; [|done..].
  pose proof (extracted_readable _ _ _ Hc Hp) as Hr.
  destruct (store_all_spec rvs s s1 (Ok tt) Hok) as (_ & _ & Hs);
    [eapply Forall_impl; [|exact Hr]; naive_solver|exact H|]. destruct (Hs eq_refl) as [Hok1 Hs1].
  destruct (get_digests_spec _ _ _ _ Hok1 Hg) as (_ & _ & Hm).
  exists p, t, rvs. rewrite (Hm m eq_refl), Hs1. do 3 (split; [done|]).
  intros rv Hin Hl. destruct (register_all_in (contents s) rvs (rv_name rv)) as (rv' & Hin' & Hl').
  { now apply list_elem_of_fmap_2. }
  unfold current_digests. rewrite lookup_omap, Hl'. cbn.
  apply list_elem_of_In in Hin'. rewrite List.Forall_forall in Hr.
  destruct (Hr _ Hin') as [_ He]. unfold expired in *. apply Z.ltb_ge in He.
  rewrite (proj2 (Z.ltb_ge _ _)) by lia. eauto.
Qed.
End Client.

(** ** The storage contract *)
Section Contract.
Context `{Dk : Disk} `{C : RvpsCrates} (Spec : RvpsCratesSpec C).
Context {D : Type} {B : Sled D} {entries : D -> gmap string bytes} (HB : SledSpec B entries).

(** Both backends implement one map from names to reference values: setting
    a value inserts it and returns the previous one, getting looks it up,
    listing yields each stored value once, an error leaves the contents alone or
    with the new value or the file useless, and nothing panics.  The file backend keeps an existing
    file when it is opened and starts with the empty map otherwise. *)
Theorem storage_backends_refine_map l :
  StorageSpec (local_json_storage l) (json_ok l) (json_contents l) /\
  StorageSpec (local_fs_storage (B := B)) (sled_ok (entries := entries)) (sled_contents (entries := entries)) /\
  forall fs fs' l', local_json_new (file_path l) fs = (fs', Ok l') ->
    l' = l /\ (json_ok l fs -> json_ok l fs' /\ json_contents l fs' = json_contents l fs) /\
    (files fs !! resolve (file_path l) = None -> is_dir fs' (resolve (file_path l)) = false ->
       json_ok l fs' /\ json_contents l fs' = ∅).
Proof.
  split; [exact (json_storage_correct Spec l)|]. split; [exact (sled_storage_correct HB Spec)|].
  intros fs fs' l' H. exact (local_json_new_ok Spec l fs fs' l' H).
Qed.

(** Concurrent updates of the JSON file can be lost.  The write lock of the
    file backend is released as soon as it is taken, so two [set] calls may both
    read before either writes; then both report success and the first value is
    gone. *)
Theorem concurrent_set_loses_update l rv1 rv2 fs fs1 fs2 fs3 fs4 rvs1 rvs2 o1 o2 :
  json_ok l fs -> readable (expiration rv1) -> readable (expiration rv2) ->
  rv_name rv1 <> rv_name rv2 ->
  local_json_read l fs = (fs1, Ok rvs1) -> local_json_read l fs1 = (fs2, Ok rvs2) ->
  local_json_store l (rv_name rv1) rv1 rvs1 fs2 = (fs3, Ok o1) ->
  local_json_store l (rv_name rv2) rv2 rvs2 fs3 = (fs4, Ok o2) ->
  json_contents l fs4 !! rv_name rv1 = json_contents l fs !! rv_name rv1 /\
  json_contents l fs4 = <[rv_name rv2 := rv2]> (json_contents l fs).
Proof.
  intros Hok H1 H2 Hne R1 R2 S1 S2.
  destruct (local_json_read_ok l _ _ _ Hok R1) as (-> & _ & C1).
  destruct (local_json_read_ok l _ _ _ Hok R2) as (-> & _ & C2).
  destruct (C2 _ eq_refl) as [K2 E2].
  destruct (local_json_store_ok Spec l _ _ _ _ _ K2 H2 S2) as (_ & _ & Hs).
  destruct (Hs _ eq_refl) as (_ & _ & ->). rewrite E2. now rewrite lookup_insert_ne.
Qed.
End Contract.

(** ** A concrete instance *)
Module RvpsDemo.
Definition rv (name : string) : ReferenceValue :=
  {| rv_version := REFERENCE_VALUE_VERSION; rv_name := name; expiration := 12 * NANOS; rv_value := VNull |}.
Definition names : list string := ["alpha"; "beta"; "gamma"].

(** Known reference values are written as their position in a table. *)
Definition put (r : ReferenceValue) : option Init.Byte.byte :=
  match r with
  | {| rv_version := v; rv_name := n; expiration := e; rv_value := VNull |} =>
      if String.eqb v REFERENCE_VALUE_VERSION && (e =? 12 * NANOS) then
        if String.eqb n "alpha" then Some Init.Byte.x01
        else if String.eqb n "beta" then Some Init.Byte.x02
        else if String.eqb n "gamma" then Some Init.Byte.x03
        else None
      else None
  | _ => None
  end.

Definition get (b : Init.Byte.byte) : option ReferenceValue :=
  match b with
  | Init.Byte.x01 => Some (rv "alpha")
  | Init.Byte.x02 => Some (rv "beta")
  | Init.Byte.x03 => Some (rv "gamma")
  | _ => None
  end.

Lemma put_get r b : put r = Some b -> get b = Some r.
Proof.
  destruct r as [v n e []]; cbn; try discriminate.
  destruct (String.eqb_spec v REFERENCE_VALUE_VERSION) as [->|]; [|discriminate].
  destruct (Z.eqb_spec e (12 * NANOS)) as [->|]; [|discriminate]. cbn.
  destruct (String.eqb_spec n "alpha") as [->|]; [now intros [= <-]|].
  destruct (String.eqb_spec n "beta") as [->|]; [now intros [= <-]|].
  destruct (String.eqb_spec n "gamma") as [->|]; [now intros [= <-]|discriminate].
Qed.

Definition put_list (l : list ReferenceValue) : option bytes :=
  bs ← mapM put l; Some (Init.Byte.x5b :: bs ++ [Init.Byte.x5d]).

Definition get_list (b : bytes) : option (list ReferenceValue) :=
  match b with
  | Init.Byte.x5b :: b => if decide (list.last b = Some Init.Byte.x5d) then mapM get (removelast b) else None
  | _ => None
  end.

(** A message names its kind, and the sample provenance one measurement. *)
Definition crates : RvpsCrates := {|
  checked_add_months t k := Some (t + k * NANOS);
  rv_to_vec r := b ← put r; Some [b];
  rv_from_slice b := match b with [b] => get b | _ => None end;
  rvs_to_vec := put_list;
  rvs_from_slice := get_list;
  message_from_str s := Some (MESSAGE_VERSION, s, "sample");
  provenance_from_slice b := Some [(string_of_list_byte b, VNull)];
  rv_base64_decode s := Some (str_bytes s);
  xml_parse _ := None;
|}.
#[export] Existing Instance crates.

#[export] Instance crates_spec : RvpsCratesSpec crates.
Proof.
  constructor; cbn.
  - intros r b _ H. destruct (put r) eqn:E; [|done]. injection H as <-. now apply put_get.
  - intros l b _ H. unfold put_list in H. destruct (mapM put l) as [bs|] eqn:E; [|done].
    injection H as <-. unfold get_list. rewrite list.last_snoc, decide_True, removelast_last by done. apply mapM_Some.
    apply mapM_Some in E. apply Forall2_flip. eapply Forall2_impl; [|exact E]. exact put_get.
  - done.
  - intros l b n H Hn. unfold put_list in H. destruct (mapM put l) as [bs|] eqn:E; [|done].
    injection H as <-. destruct n as [|n]; [done|]. cbn in Hn. rewrite length_app in Hn. cbn in Hn.
    cbn [take firstn get_list]. rewrite take_app_le by lia. rewrite decide_False; [done|].
    intros Hl. apply list.last_Some in Hl as [bs' Hl]. apply mapM_Some in E.
    assert (Hin : Init.Byte.x5d ∈ bs).
    { rewrite <- (take_drop n bs), Hl. set_solver. }
    apply list_elem_of_lookup in Hin as (i & Hi). destruct (Forall2_lookup_r _ _ _ _ _ E Hi) as (r & _ & Hr).
    apply put_get in Hr. discriminate Hr.
  - intros t k t' Ht [= <-]. now rewrite Z.mod_add.
  - intros t k t' Hk [= <-]. unfold NANOS. lia.
Qed.

#[export] Instance disk : Disk := {| disk_fault _ _ := false; made _ := 0%nat; written _ _ := None |}.

(** A database that never fails. *)
#[export] Instance sled : Sled (gmap string bytes) := {|
  sled_insert k v d := (<[k := v]> d, Ok (d !! k));
  sled_get k d := (d, Ok (d !! k));
  sled_flush d := (d, Ok tt);
  sled_iter d := map_to_list d;
|}.

#[export] Instance sled_spec : SledSpec sled id.
Proof. constructor; cbn; intros; simplify_eq; naive_solver. Qed.

Definition l : LocalJson := {| file_path := "/d/rv.json" |}.
Definition fs0 : Fs := (local_json_new "/d/rv.json" {| files := ∅; dirs := ∅ |}).1.

Definition fs1 : Fs := (verify_and_extract (B := local_json_storage l) 0 "alpha" fs0).1.

Definition fs2 : Fs := (local_json_store l "beta" (rv "beta") [] fs1).1.

Lemma fs0_ok : json_ok l fs0.
Proof. exists (str_bytes "[]"), []. do 2 (split; [vm_compute; reflexivity|]). split; constructor. Qed.

Lemma no_xml : forall d xml, xml_parse d = Some xml -> Forall attrs_sized (descendants xml).
Proof. discriminate. Qed.

Lemma clock_0 : clock_ok 0.
Proof. split; [done|]. now intros e [= <-]. Qed.
End RvpsDemo.

Import RvpsDemo.

Lemma extraction_total_witness :
  exists r, process 0 {| version := MESSAGE_VERSION; payload := "alpha"; type_ := "sample" |} = Some r
    /\ r <> Panic.
Proof. apply (extraction_total 0 _ no_xml). Defined.

Lemma storage_backends_refine_map_witness :
  StorageSpec (local_json_storage l) (json_ok l) (json_contents l).
Proof. exact (proj1 (storage_backends_refine_map crates_spec sled_spec l)). Defined.

Lemma registration_updates_store_witness :
  let r := verify_and_extract (B := local_json_storage l) 0 "alpha" fs0 in
  r.2 = Ok tt /\ json_ok l r.1.
Proof.
  split; [vm_compute; reflexivity|].
  assert (E : verify_and_extract (B := local_json_storage l) 0 "alpha" fs0 = (fs1, Ok tt)) by (vm_compute; reflexivity).
  exact (proj1 (proj2 (registration_updates_store (json_storage_correct crates_spec l) crates_spec 0 "alpha" fs0
    fs1 (Ok tt) no_xml clock_0 fs0_ok E))).
Defined.

Lemma registered_values_reported_witness :
  verify_and_extract (B := local_json_storage l) 0 "alpha" fs0 = (fs1, Ok tt) /\
  get_digests (B := local_json_storage l) 0 fs1 = (fs1, Ok {["alpha" := VNull]}) /\
  is_Some (({["alpha" := VNull]} : gmap string Value) !! "alpha").
Proof.
  split; [vm_compute; reflexivity|]. split; [vm_compute; reflexivity|].
  destruct (registered_values_reported (json_storage_correct crates_spec l) crates_spec
      0 "alpha" fs0 fs1 0 fs1 {["alpha" := VNull]} no_xml clock_0 fs0_ok)
    as (p & t & rvs & Hm & Hp & _ & H); [vm_compute; reflexivity..|].
  injection Hm as <- <-. injection Hp as <-. apply (H (rv "alpha")); [apply list_elem_of_here|done].
Defined.

Lemma concurrent_set_loses_update_witness :
  local_json_store l "alpha" (rv "alpha") [] fs0 = (fs1, Ok None) /\
  local_json_store l "beta" (rv "beta") [] fs1 = (fs2, Ok None) /\
  json_contents l fs2 !! "alpha" = None.
Proof.
  split; [vm_compute; reflexivity|]. split; [vm_compute; reflexivity|].
  destruct (concurrent_set_loses_update crates_spec l (rv "alpha") (rv "beta")
    fs0 fs0 fs0 fs1 fs2 [] [] None None fs0_ok) as [H _]; [done|done|done|vm_compute; reflexivity..|].
  etransitivity; [exact H|]. vm_compute; reflexivity.
Defined.
