(* ===== verification/RvpsServer.v ===== *)
(** * The reference value service under concurrent clients ([rvps/src/server/mod.rs])

    [RvpsServer] answers each request in a task of its own and shares the
    service behind a [tokio::sync::RwLock].  Tasks are interleaved wherever the
    code awaits: for the lock, for the read of the JSON file and for its write.
    A task may also be dropped at an await point, when its client goes away.
    The write of a file runs on a thread of the runtime, which dropping the task
    does not stop.

    The file backend lets go of its own lock at once
    ([RvpsProofs.concurrent_set_loses_update]); what keeps registrations apart
    is the lock of the server.  A write that fails halfway leaves a file that
    cannot be read. *)
From S2P Require Import Prelude Types Fs Rvps RvpsProofs.

(** ** [tokio::sync::RwLock]

    A lock of type [K], with what trying to take it and dropping a guard do.
    Tasks wait in a queue for it; here whichever task waits may be next. *)
Class RwLock (K : Type) := {
  unlocked : K;
  try_read : nat -> K -> option K;
  try_write : nat -> K -> option K;
  release : nat -> K -> K;
}.

(** Many readers or one writer; a lock that nobody holds is granted. *)
Class RwLockSpec {K} (L : RwLock K) (readers : K -> gset nat) (writer : K -> option nat) : Prop := {
  unlocked_spec : readers unlocked = ∅ /\ writer unlocked = None;
  try_read_Some : forall tid k k', try_read tid k = Some k' ->
    writer k = None /\ readers k' = {[tid]} ∪ readers k /\ writer k' = None;
  try_write_Some : forall tid k k', try_write tid k = Some k' ->
    readers k = ∅ /\ writer k = None /\ readers k' = ∅ /\ writer k' = Some tid;
  granted : forall tid k, readers k = ∅ -> writer k = None -> is_Some (try_read tid k) /\ is_Some (try_write tid k);
  release_spec : forall tid k, readers (release tid k) = readers k ∖ {[tid]} /\
    writer (release tid k) = if decide (writer k = Some tid) then None else writer k;
  (** a task without a guard drops nothing *)
  release_other : forall tid k, tid ∉ readers k -> writer k <> Some tid -> release tid k = k;
}.

(** ** Tasks

    The places where a handler awaits.  A registration keeps what it has stored
    and what is left to store; while it writes, it holds the values it read. *)
Inductive Task :=
| WaitWrite (message : string)
| Reading (message : string) (stored : list ReferenceValue) (rv : ReferenceValue) (todo : list ReferenceValue)
| Writing (message : string) (stored : list ReferenceValue) (rv : ReferenceValue) (todo : list ReferenceValue)
    (rvs : list ReferenceValue)
| WaitRead
| Querying.

Record RvpsServer {K : Type} := {
  rs_disk : Fs;
  lock : K;
  tasks : gmap nat Task;
  (** writes whose task is gone *)
  orphans : list (ReferenceValue * list ReferenceValue);
}.
Arguments RvpsServer : clear implicits.

Section State.
Context {K : Type} `{L : RwLock K}.
Abbreviation server := (RvpsServer K).

Definition with_task (tid : nat) (t : Task) (s : server) : server :=
  {| rs_disk := rs_disk s; lock := lock s; tasks := <[tid := t]> (tasks s); orphans := orphans s |}.
Definition with_lock (k : K) (s : server) : server :=
  {| rs_disk := rs_disk s; lock := k; tasks := tasks s; orphans := orphans s |}.
Definition with_disk (fs : Fs) (s : server) : server :=
  {| rs_disk := fs; lock := lock s; tasks := tasks s; orphans := orphans s |}.
Definition with_orphans (o : list (ReferenceValue * list ReferenceValue)) (s : server) : server :=
  {| rs_disk := rs_disk s; lock := lock s; tasks := tasks s; orphans := o |}.

(** The end of a task: its guard goes with it. *)
Definition ended (tid : nat) (s : server) : server :=
  {| rs_disk := rs_disk s; lock := release tid (lock s); tasks := delete tid (tasks s); orphans := orphans s |}.

End State.

(** What a task that is dropped leaves behind of its registration. *)
Definition stored_by (t : Task) : list ReferenceValue :=
  match t with
  | Reading _ stored _ _ | Writing _ stored _ _ _ => stored
  | _ => []
  end.

(** What an observer records. *)
Inductive event :=
| Registered (message : string) (rvs : list ReferenceValue)
| Stopped (rvs : list ReferenceValue)
| Torn (rvs : list ReferenceValue)
| Answered (now : Z) (m : gmap string Value)
| Abandoned
| Silent.

Section Server.
Context {K : Type} `{L : RwLock K} `{D : Disk} `{C : RvpsCrates} (l : LocalJson).
Abbreviation server := (RvpsServer K).
(** The times at which the service runs. *)
Context (window : Z -> Prop).

(** [Rvps::verify_and_extract] up to the loop that stores. *)
Definition extract (now : Z) (message : string) : outcome anyhow (list ReferenceValue) :=
  m ← ok_or "parse message" (message_from_str message);
  let '(v, p, t) := m in
  let message := {| version := v; payload := p; type_ := t |} in
  if negb (String.eqb (version message) MESSAGE_VERSION) then Err "Version unmatched!"
  else default Panic (process now message).

Lemma extract_then_store {S} {B : ReferenceValueStorage S} now message (s : S) :
  verify_and_extract (B := B) now message s = (rvs ← st_lift (extract now message); store_all rvs) s.
Proof.
  unfold verify_and_extract, extract, mbind, st_bind, outcome_bind, st_lift.
  destruct (message_from_str message) as [[[v p] t]|]; [|reflexivity]. cbn.
  destruct (negb _); reflexivity.
Qed.

(** The head of the loop: the next value to store, or the end. *)
Inductive goes_on (tid : nat) (message : string) (stored : list ReferenceValue) (s : server) :
    list ReferenceValue -> event -> server -> Prop :=
| goes_next rv todo :
    goes_on tid message stored s (rv :: todo) Silent (with_task tid (Reading message stored rv todo) s)
| goes_end : goes_on tid message stored s [] (Registered message stored) (ended tid s).

(** A turn of task [tid]. *)
Inductive task_step (s : server) (tid : nat) : event -> server -> Prop :=
| step_extract message now k rvs e s' :
    window now -> tasks s !! tid = Some (WaitWrite message) -> try_write tid (lock s) = Some k ->
    extract now message = Ok rvs -> goes_on tid message [] (with_lock k s) rvs e s' ->
    task_step s tid e s'
| step_reject message now k r :
    window now -> tasks s !! tid = Some (WaitWrite message) -> try_write tid (lock s) = Some k ->
    extract now message = r -> is_ok r = false ->
    task_step s tid (Stopped []) (ended tid (with_lock k s))
| step_read message stored rv todo fs rvs :
    tasks s !! tid = Some (Reading message stored rv todo) ->
    local_json_read l (rs_disk s) = (fs, Ok rvs) ->
    task_step s tid Silent (with_task tid (Writing message stored rv todo rvs) (with_disk fs s))
| step_read_fail message stored rv todo fs r :
    tasks s !! tid = Some (Reading message stored rv todo) ->
    local_json_read l (rs_disk s) = (fs, r) -> is_ok r = false ->
    task_step s tid (Stopped stored) (ended tid (with_disk fs s))
| step_write message stored rv todo rvs fs old e s' :
    tasks s !! tid = Some (Writing message stored rv todo rvs) ->
    local_json_store l (rv_name rv) rv rvs (rs_disk s) = (fs, Ok old) ->
    goes_on tid message (stored ++ [rv]) (with_disk fs s) todo e s' ->
    task_step s tid e s'
| step_write_fail message stored rv todo rvs fs r :
    tasks s !! tid = Some (Writing message stored rv todo rvs) ->
    local_json_store l (rv_name rv) rv rvs (rs_disk s) = (fs, r) -> is_ok r = false ->
    task_step s tid ((if decide (fs = rs_disk s) then Stopped else Torn) stored) (ended tid (with_disk fs s))
| step_lock_read k :
    tasks s !! tid = Some WaitRead -> try_read tid (lock s) = Some k ->
    task_step s tid Silent (with_task tid Querying (with_lock k s))
| step_answer now fs m :
    window now -> tasks s !! tid = Some Querying ->
    get_digests (B := local_json_storage l) now (rs_disk s) = (fs, Ok m) ->
    task_step s tid (Answered now m) (ended tid (with_disk fs s))
| step_no_answer now fs r :
    window now -> tasks s !! tid = Some Querying ->
    get_digests (B := local_json_storage l) now (rs_disk s) = (fs, r) -> is_ok r = false ->
    task_step s tid Silent (ended tid (with_disk fs s)).

(** What happens to the server: a request arrives, a task takes a turn, a task
    is dropped, or a write without a task finishes. *)
Inductive server_step (s : server) : event -> server -> Prop :=
| step_arrive tid t :
    tasks s !! tid = None -> (t = WaitRead \/ exists message, t = WaitWrite message) ->
    server_step s Silent (with_task tid t s)
| step_turn tid e s' : task_step s tid e s' -> server_step s e s'
| step_drop tid t :
    tasks s !! tid = Some t -> (forall message stored rv todo rvs, t <> Writing message stored rv todo rvs) ->
    server_step s (Stopped (stored_by t)) (ended tid s)
| step_abandon tid message stored rv todo rvs :
    tasks s !! tid = Some (Writing message stored rv todo rvs) ->
    server_step s Abandoned (with_orphans ((rv, rvs) :: orphans s) (ended tid s))
| step_orphan o1 rv rvs o2 fs r :
    orphans s = o1 ++ (rv, rvs) :: o2 ->
    local_json_store l (rv_name rv) rv rvs (rs_disk s) = (fs, r) ->
    server_step s Silent (with_orphans (o1 ++ o2) (with_disk fs s)).

(** Runs from a server that has just started; the last event comes first. *)
Inductive server_run (fs0 : Fs) : list event -> server -> Prop :=
| server_start : server_run fs0 [] {| rs_disk := fs0; lock := unlocked; tasks := ∅; orphans := [] |}
| server_more h s e s' : server_run fs0 h s -> server_step s e s' -> server_run fs0 (e :: h) s'.
End Server.

(** ** The sequential service the clients see

    Registrations and answers take effect at their events, one after the other. *)
Fixpoint committed (m0 : gmap string ReferenceValue) (h : list event) : gmap string ReferenceValue :=
  match h with
  | [] => m0
  | (Registered _ rvs | Stopped rvs | Torn rvs) :: h => register_all (committed m0 h) rvs
  | _ :: h => committed m0 h
  end.

Section Sequential.
Context `{C : RvpsCrates} (window : Z -> Prop) (m0 : gmap string ReferenceValue).

(** A registration stored what its message says, an answer reports the values
    registered so far. *)
Definition event_ok (e : event) (h : list event) : Prop :=
  match e with
  | Registered message rvs => exists now, window now /\ extract now message = Ok rvs
  | Answered now m => m = current_digests now (committed m0 h)
  | _ => True
  end.

Fixpoint history_ok (h : list event) : Prop :=
  match h with
  | [] => True
  | e :: h => event_ok e h /\ history_ok h
  end.
End Sequential.

(** ** The invariant *)
Section Invariant.
Context {K : Type} {L : RwLock K} {readers : K -> gset nat} {writer : K -> option nat}
  (LS : RwLockSpec L readers writer).
Context `{D : Disk} `{C : RvpsCrates} (Spec : RvpsCratesSpec C) (l : LocalJson) (window : Z -> Prop).
Context (m0 : gmap string ReferenceValue).
Context (Hw : forall now, window now -> clock_ok now).

Abbreviation commits := (committed m0).
Abbreviation server := (RvpsServer K).
Abbreviation step := (server_step l window).

Definition waits (t : Task) : Prop := t = WaitRead \/ exists message, t = WaitWrite message.

(** Whether a write has failed halfway. *)
Definition is_torn (e : event) : bool :=
  match e with
  | Torn _ => true
  | _ => false
  end.

(** The file holds given values, or is useless since a write to it failed. *)
Definition disk_is (c : gmap string ReferenceValue) (h : list event) (fs : Fs) : Prop :=
  if existsb is_torn h then damaged l fs else json_ok l fs /\ json_contents l fs = c.

(** Nobody writes. *)
Record free (h : list event) (s : server) : Prop := {
  free_writer : writer (lock s) = None;
  free_readers : forall tid, tid ∈ readers (lock s) <-> tasks s !! tid = Some Querying;
  free_disk : disk_is (commits h) h (rs_disk s);
  free_tasks : forall tid t, tasks s !! tid = Some t -> waits t \/ t = Querying;
  free_orphans : orphans s = [];
  free_history : history_ok window m0 h;
}.

(** Task [tid] has the write lock and has stored [stored] so far; its own entry
    is left open. *)
Record held (h : list event) (tid : nat) (stored : list ReferenceValue) (s : server) : Prop := {
  held_writer : writer (lock s) = Some tid;
  held_readers : readers (lock s) = ∅;
  held_file : disk_is (register_all (commits h) stored) h (rs_disk s);
  held_tasks : forall tid' t, tid' <> tid -> tasks s !! tid' = Some t -> waits t;
  held_orphans : orphans s = [];
  held_history : history_ok window m0 h;
}.

Definition extracted (message : string) (rvs : list ReferenceValue) : Prop :=
  exists now, window now /\ extract now message = Ok rvs.

Definition storing_ok (fs : Fs) (t : Task) : Prop :=
  match t with
  | Reading message stored rv todo => extracted message (stored ++ rv :: todo)
  | Writing message stored rv todo rvs =>
      extracted message (stored ++ rv :: todo) /\ rvs_ok rvs /\ json_ok l fs /\ by_name rvs = json_contents l fs
  | _ => False
  end.

Definition inv (h : list event) (s : server) : Prop :=
  free h s \/
  exists tid t, held h tid (stored_by t) s /\ tasks s !! tid = Some t /\
    storing_ok (rs_disk s) t.

Lemma readable_file c h fs : json_ok l fs -> disk_is c h fs -> existsb is_torn h = false /\ json_contents l fs = c.
Proof.
  unfold disk_is. intros (file & rvs & Hf & Hr & _). destruct (existsb is_torn h); [|tauto].
  intros (file' & Hf' & Hn). congruence.
Qed.

Lemma disk_same c h e fs : is_torn e = false -> disk_is c (e :: h) fs <-> disk_is c h fs.
Proof. unfold disk_is. cbn. now intros ->. Qed.

(** What a read of the file gives. *)
Lemma disk_read c h fs fs' r :
  disk_is c h fs -> local_json_read l fs = (fs', r) ->
  fs' = fs /\ forall rvs, r = Ok rvs -> json_ok l fs /\ rvs_ok rvs /\ by_name rvs = json_contents l fs.
Proof.
  unfold disk_is. destruct (existsb is_torn h).
  - intros (e & He)%damaged_read H. rewrite He in H. injection H as <- <-. done.
  - intros [Hok _] H. destruct (local_json_read_ok l _ _ _ Hok H) as (-> & _ & Hr). split; [done|].
    intros rvs E. destruct (Hr rvs E). done.
Qed.

Lemma extracted_all_readable message rvs :
  extracted message rvs -> Forall (fun rv => readable (expiration rv)) rvs.
Proof using Hw LS Spec.
  intros (now & Hn & H). unfold extract in H. inv_ok. destruct a as [[v p] t].
  destruct (negb _); [discriminate|]. destruct (process now _) as [o|] eqn:Ep; [|discriminate].
  cbn in H. unfold id in H. subst o.
  eapply Forall_impl; [|exact (extracted_readable Spec _ _ _ (Hw _ Hn) Ep)]. naive_solver.
Qed.

Lemma waits_not_storing fs t : waits t -> ~ storing_ok fs t.
Proof. intros [->|[? ->]] []. Qed.

Lemma task_cases t : waits t \/ t = Querying \/ (~ waits t /\ t <> Querying).
Proof.
  destruct t; [left; right; eauto|right; right; split; [intros [|[]]; discriminate|done]..|now left; left|].
  now right; left.
Qed.

Lemma waits_stored t : waits t -> stored_by t = [].
Proof. now intros [->|[? ->]]. Qed.

(** The task that holds the lock is the one that is storing. *)
Lemma storing_holds h s tid t :
  inv h s -> tasks s !! tid = Some t -> ~ waits t -> t <> Querying ->
  held h tid (stored_by t) s /\ storing_ok (rs_disk s) t.
Proof.
  intros [Hf|(tid' & t' & Hh & Ht' & Hs)] Ht Hnw Hq.
  - destruct (free_tasks _ _ Hf _ _ Ht); contradiction.
  - destruct (decide (tid = tid')) as [->|Hne].
    + rewrite Ht in Ht'. injection Ht' as <-. now split.
    + destruct Hnw. exact (held_tasks _ _ _ _ Hh _ _ Hne Ht).
Qed.

Lemma query_free h s tid : inv h s -> tasks s !! tid = Some Querying -> free h s.
Proof.
  intros [Hf|(tid' & t' & Hh & Ht' & Hs)] Ht; [done|].
  destruct (decide (tid = tid')) as [->|Hne]; [rewrite Ht in Ht'; now injection Ht' as <-|].
  destruct (held_tasks _ _ _ _ Hh _ _ Hne Ht) as [|[]]; discriminate.
Qed.

(** A task that ends while it holds the write lock. *)
Lemma held_ended h e tid stored s :
  held h tid stored s -> event_ok window m0 e h -> commits (e :: h) = register_all (commits h) stored ->
  is_torn e = false -> free (e :: h) (ended tid s).
Proof.
  intros Hh He Hc Ht. destruct Hh, (release_spec tid (lock s)) as [Hrd Hwr]. constructor; cbn [lock ended tasks rs_disk orphans].
  - now rewrite Hwr, decide_True.
  - intros tid'. rewrite Hrd, held_readers0. split; [set_solver|]. intros H.
    apply lookup_delete_Some in H as [Hne H].
    destruct (held_tasks0 _ _ (not_eq_sym Hne) H) as [|[]]; discriminate.
  - rewrite disk_same by done. now rewrite Hc.
  - intros tid' t H. apply lookup_delete_Some in H as [Hne H]. left. eauto.
  - done.
  - now split.
Qed.

(** The write of the task that has the lock fails halfway. *)
Lemma held_torn h tid stored s fs :
  held h tid stored s -> damaged l fs -> free (Torn stored :: h) (ended tid (with_disk fs s)).
Proof.
  intros Hh Hd. destruct Hh, (release_spec tid (lock s)) as [Hrd Hwr].
  constructor; cbn [lock ended tasks rs_disk orphans with_disk]; try done.
  - now rewrite Hwr, decide_True.
  - intros tid'. rewrite Hrd, held_readers0. split; [set_solver|]. intros H.
    apply lookup_delete_Some in H as [Hne H].
    destruct (held_tasks0 _ _ (not_eq_sym Hne) H) as [|[]]; discriminate.
  - intros tid' t H. apply lookup_delete_Some in H as [Hne H]. left. eauto.
Qed.

Lemma held_goes_on h tid message stored s todo e s' :
  held h tid stored s -> extracted message (stored ++ todo) ->
  goes_on tid message stored s todo e s' -> inv (e :: h) s'.
Proof.
  intros Hh Hx' Hg. revert Hx'. destruct Hg as [rv todo'|]; intros Hx'.
  - right. exists tid, (Reading message stored rv todo'). cbn. rewrite lookup_insert_eq.
    split; [|now split]. destruct Hh. constructor; try done.
    intros tid' t Hne H. cbn in H. rewrite lookup_insert_ne in H by done. eauto.
  - left. apply held_ended with (stored := stored); [done| |done|done]. now rewrite app_nil_r in Hx'.
Qed.

Lemma free_lock h s tid k :
  free h s -> try_write tid (lock s) = Some k ->
  tasks s !! tid <> Some Querying -> held h tid [] (with_lock k s).
Proof.
  intros [] Hk Hq. destruct (try_write_Some _ _ _ Hk) as (Hr & _ & Hrk & Hwk).
  constructor; try done. intros tid' t Hne Ht. destruct (free_tasks0 _ _ Ht) as [ | -> ]; [done|].
  apply free_readers0 in Ht. rewrite Hr in Ht. set_solver.
Qed.

Lemma locked_free h s tid k : inv h s -> try_write tid (lock s) = Some k -> free h s.
Proof.
  intros [Hf|(tid' & t & Hh & _)] Hk; [done|]. destruct (try_write_Some _ _ _ Hk) as (_ & Hwr & _).
  rewrite (held_writer _ _ _ _ Hh) in Hwr. discriminate.
Qed.

Lemma locked_read h s tid k :
  inv h s -> try_read tid (lock s) = Some k ->
  free h s /\ readers k = {[tid]} ∪ readers (lock s) /\ writer k = None.
Proof.
  intros Hi Hk. destruct (try_read_Some _ _ _ Hk) as (Hwr & Hrd & Hwk). split; [|done].
  destruct Hi as [Hf|(tid' & t & Hh & _)]; [done|]. rewrite (held_writer _ _ _ _ Hh) in Hwr. discriminate.
Qed.

(** The disk under the holder of the lock. *)
Lemma held_disk h tid stored stored' s fs :
  held h tid stored s -> disk_is (register_all (commits h) stored') h fs -> held h tid stored' (with_disk fs s).
Proof. intros [] Hd. now constructor. Qed.

Lemma free_ended_query h e s tid :
  free h s -> tasks s !! tid = Some Querying -> event_ok window m0 e h -> commits (e :: h) = commits h ->
  is_torn e = false -> free (e :: h) (ended tid s).
Proof.
  intros [] Ht He Hc Hto. destruct (release_spec tid (lock s)) as [Hrd Hwr].
  constructor; cbn [lock ended tasks rs_disk orphans].
  - rewrite Hwr, free_writer0. now case_decide.
  - intros tid'. rewrite Hrd, elem_of_difference, elem_of_singleton, free_readers0, lookup_delete_Some. naive_solver.
  - rewrite disk_same by done. now rewrite Hc.
  - intros tid' t H. apply lookup_delete_Some in H as [_ H]. eauto.
  - done.
  - now split.
Qed.

(** A task that waits comes or goes, or silently starts to wait. *)
Lemma inv_waiting h e s s' tid :
  inv h s -> rs_disk s' = rs_disk s -> orphans s' = orphans s -> lock s' = lock s ->
  (forall t, tasks s !! tid = Some t -> waits t) ->
  (forall tid', tid' <> tid -> tasks s' !! tid' = tasks s !! tid') ->
  (forall t, tasks s' !! tid = Some t -> waits t) ->
  event_ok window m0 e h -> commits (e :: h) = commits h -> is_torn e = false -> inv (e :: h) s'.
Proof.
  intros Hi Hd Ho Hl Ht Hother Ht' He Hc Hto.
  destruct Hi as [Hf|(tid0 & t0 & Hh & Ht0 & Hs)]; [left|right; exists tid0, t0].
  - destruct Hf. constructor; rewrite ?Hl, ?Hd, ?Ho, ?(disk_same _ _ _ _ Hto), ?Hc; try done.
    + intros tid'. rewrite free_readers0. destruct (decide (tid' = tid)) as [->|Hne]; [|now rewrite Hother].
      split; intros H; [apply Ht in H|apply Ht' in H]; destruct H as [|[]]; discriminate.
    + intros tid' t H. destruct (decide (tid' = tid)) as [->|Hne]; [left; eauto|].
      rewrite Hother in H by done. eauto.
  - assert (Hne : tid0 <> tid) by (intros ->; exact (waits_not_storing _ _ (Ht _ Ht0) Hs)).
    rewrite Hd, Hother by done. split; [|now split]. destruct Hh.
    constructor; rewrite ?Hl, ?Hd, ?Ho, ?(disk_same _ _ _ _ Hto), ?Hc; try done.
    intros tid' t Hne' H. destruct (decide (tid' = tid)) as [->|Hn]; [eauto|].
    rewrite Hother in H by done. eauto.
Qed.

Lemma read_step h s tid message stored rv todo fs rvs :
  inv h s -> tasks s !! tid = Some (Reading message stored rv todo) ->
  local_json_read l (rs_disk s) = (fs, Ok rvs) ->
  inv (Silent :: h) (with_task tid (Writing message stored rv todo rvs) (with_disk fs s)).
Proof.
  intros Hi Ht Hr. destruct (storing_holds _ _ _ _ Hi Ht) as [Hh He]; [intros [|[]]; discriminate|done|].
  destruct (disk_read _ _ _ _ _ (held_file _ _ _ _ Hh) Hr) as (-> & Hc).
  pose proof (Hc _ eq_refl) as Hok. right. exists tid, (Writing message stored rv todo rvs).
  cbn. rewrite lookup_insert_eq. split; [|split; [done|cbn; tauto]]. destruct Hh. constructor; try done.
  intros tid' t Hne H. cbn in H. rewrite lookup_insert_ne in H by done. eauto.
Qed.

Lemma write_step h s tid message stored rv todo rvs fs old e s' :
  inv h s -> tasks s !! tid = Some (Writing message stored rv todo rvs) ->
  local_json_store l (rv_name rv) rv rvs (rs_disk s) = (fs, Ok old) ->
  goes_on tid message (stored ++ [rv]) (with_disk fs s) todo e s' -> inv (e :: h) s'.
Proof using Hw LS Spec.
  intros Hi Ht Hs Hg.
  destruct (storing_holds _ _ _ _ Hi Ht) as [Hh (He & Hrvs & Hj & Hn)]; [intros [|[]]; discriminate|done|].
  pose proof (extracted_all_readable _ _ He) as Hr. apply Forall_app in Hr as [_ Hr].
  apply Forall_cons_iff in Hr as [Hr _].
  destruct (local_json_store_ok Spec l _ _ _ _ _ Hrvs Hr Hs) as (_ & _ & Ho).
  destruct (Ho _ eq_refl) as (Hok & _ & Hc).
  apply (held_goes_on _ tid message (stored ++ [rv]) (with_disk fs s) todo _ _); [|rewrite <- app_assoc; exact He|exact Hg].
  destruct (readable_file _ _ _ Hj (held_file _ _ _ _ Hh)) as [Hto Hcs].
  eapply held_disk; [exact Hh|]. unfold disk_is. rewrite Hto. split; [exact Hok|]. rewrite Hc, Hn, Hcs.
  unfold register_all at 2. now rewrite foldl_app.
Qed.

(** A storing task that stops without having changed the file since its last
    store. *)
Lemma stopped_step h s tid t fs :
  inv h s -> tasks s !! tid = Some t -> ~ waits t -> t <> Querying -> fs = rs_disk s ->
  inv (Stopped (stored_by t) :: h) (ended tid (with_disk fs s)).
Proof.
  intros Hi Ht Hn Hq ->. destruct (storing_holds _ _ _ _ Hi Ht Hn Hq) as [Hh _]. left.
  eapply held_ended; [|done|reflexivity|reflexivity].
  exact (held_disk _ _ _ _ _ _ Hh (held_file _ _ _ _ Hh)).
Qed.

Lemma write_fail_step h s tid message stored rv todo rvs fs r :
  inv h s -> tasks s !! tid = Some (Writing message stored rv todo rvs) ->
  local_json_store l (rv_name rv) rv rvs (rs_disk s) = (fs, r) -> is_ok r = false ->
  inv ((if decide (fs = rs_disk s) then Stopped else Torn) stored :: h) (ended tid (with_disk fs s)).
Proof using Hw LS Spec.
  intros Hi Ht Hs Hf.
  destruct (storing_holds _ _ _ _ Hi Ht) as [Hh (He & Hrvs & Hj & Hn)]; [intros [|[]]; discriminate|done|].
  pose proof (extracted_all_readable _ _ He) as Hr. apply Forall_app in Hr as [_ Hr].
  apply Forall_cons_iff in Hr as [Hr _].
  destruct (local_json_store_ok Spec l _ _ _ _ _ Hrvs Hr Hs) as (Hp & Hd & _).
  case_decide as Hsame.
  { apply (stopped_step h s tid (Writing message stored rv todo rvs));
      [done|done|intros [|[]]; discriminate|done|exact Hsame]. }
  destruct r as [o|e|]; [discriminate| |done]. destruct (Hd e eq_refl) as [|Hdam]; [done|].
  left. eapply held_torn; [exact Hh|exact Hdam].
Qed.

Lemma extract_step h s tid message now k rvs e s' :
  inv h s -> window now -> tasks s !! tid = Some (WaitWrite message) ->
  try_write tid (lock s) = Some k -> extract now message = Ok rvs ->
  goes_on tid message [] (with_lock k s) rvs e s' -> inv (e :: h) s'.
Proof.
  intros Hi Hn Ht Hk He Hg. pose proof (locked_free _ _ _ _ Hi Hk) as Hf.
  apply (held_goes_on h tid message [] (with_lock k s) rvs _ _); [|now exists now|exact Hg].
  eapply free_lock; [exact Hf|exact Hk|]. now rewrite Ht.
Qed.

Lemma reject_step h s tid message k :
  inv h s -> tasks s !! tid = Some (WaitWrite message) -> try_write tid (lock s) = Some k ->
  inv (Stopped [] :: h) (ended tid (with_lock k s)).
Proof.
  intros Hi Ht Hk. left. apply held_ended with (stored := []); [|done|reflexivity|reflexivity].
  eapply free_lock; [exact (locked_free _ _ _ _ Hi Hk)|exact Hk|]. now rewrite Ht.
Qed.

Lemma lock_read_step h s tid k :
  inv h s -> tasks s !! tid = Some WaitRead -> try_read tid (lock s) = Some k ->
  inv (Silent :: h) (with_task tid Querying (with_lock k s)).
Proof.
  intros Hi Ht Hk. destruct (locked_read _ _ _ _ Hi Hk) as ([] & Hrd & Hwk). left. constructor; cbn; try done.
  - intros tid'. rewrite Hrd, elem_of_union, elem_of_singleton, free_readers0.
    destruct (decide (tid' = tid)) as [->|Hne]; [rewrite lookup_insert_eq; naive_solver|].
    rewrite lookup_insert_ne by done. naive_solver.
  - intros tid' t H. destruct (decide (tid' = tid)) as [->|Hne].
    + rewrite lookup_insert_eq in H. injection H as <-. now right.
    + rewrite lookup_insert_ne in H by done. eauto.
Qed.

Lemma query_step h s tid now fs r e :
  inv h s -> tasks s !! tid = Some Querying ->
  get_digests (B := local_json_storage l) now (rs_disk s) = (fs, r) ->
  (forall m, e = Answered now m -> r = Ok m) -> e = Silent \/ (exists m, e = Answered now m) ->
  inv (e :: h) (ended tid (with_disk fs s)).
Proof using LS Spec.
  intros Hi Ht Hg Hm He. pose proof (query_free _ _ _ Hi Ht) as Hf.
  assert (Hd : fs = rs_disk s /\ forall m, r = Ok m -> m = current_digests now (commits h)).
  { pose proof (free_disk _ _ Hf) as Hk. unfold disk_is in Hk. destruct (existsb is_torn h).
    - destruct (stuck_get_values _ _ (damaged_stuck l _ Hk)) as [er He']. unfold get_digests, mbind, st_bind in Hg.
      rewrite He' in Hg. now injection Hg as <- <-.
    - destruct Hk as [Hok <-]. destruct (get_digests_spec (json_storage_correct Spec l) _ _ _ _ Hok Hg) as (-> & _ & Hd).
      done. }
  destruct Hd as [-> Hd]. left. replace (with_disk (rs_disk s) s) with s by now destruct s.
  apply free_ended_query; [done|done| | |].
  - destruct He as [->|[m ->]]; [done|]. cbn. eauto.
  - now destruct He as [->|[m ->]].
  - now destruct He as [->|[m ->]].
Qed.

(** What is not storing leaves nothing when it is dropped. *)
Lemma drop_step h s tid t :
  inv h s -> tasks s !! tid = Some t -> inv (Stopped (stored_by t) :: h) (ended tid s).
Proof.
  intros Hi Ht. destruct (task_cases t) as [Hwt|[->|[Hn Hq]]]; cycle 1.
  { left. apply free_ended_query; [exact (query_free _ _ _ Hi Ht)|done|done|reflexivity|reflexivity]. }
  - pose proof (stopped_step h s tid t (rs_disk s) Hi Ht Hn Hq eq_refl) as H.
    now replace (with_disk (rs_disk s) s) with s in H by now destruct s.
  - rewrite (waits_stored _ Hwt). apply (inv_waiting _ _ _ _ tid Hi); try done.
    + cbn. apply release_other.
      * intros Hin. destruct Hi as [Hf|(tid0 & t0 & Hh & _)].
        -- apply (free_readers _ _ Hf) in Hin. rewrite Ht in Hin. injection Hin as ->.
           destruct Hwt as [|[]]; discriminate.
        -- rewrite (held_readers _ _ _ _ Hh) in Hin. set_solver.
      * intros Hwr. destruct Hi as [Hf|(tid0 & t0 & Hh & Ht0 & Hs)].
        -- rewrite (free_writer _ _ Hf) in Hwr. discriminate.
        -- rewrite (held_writer _ _ _ _ Hh) in Hwr. injection Hwr as ->. rewrite Ht in Ht0. injection Ht0 as <-.
           exact (waits_not_storing _ _ Hwt Hs).
    + intros t' H. rewrite Ht in H. now injection H as <-.
    + intros tid' Hne. cbn. now rewrite lookup_delete_ne.
    + intros t' H. cbn in H. now rewrite lookup_delete_eq in H.
Qed.

Lemma arrive_step h s tid t :
  inv h s -> tasks s !! tid = None -> waits t -> inv (Silent :: h) (with_task tid t s).
Proof.
  intros Hi Ht Hwt. apply (inv_waiting _ _ _ _ tid Hi); try done.
  - now rewrite Ht.
  - intros tid' Hne. cbn. now rewrite lookup_insert_ne.
  - intros t' H. cbn in H. rewrite lookup_insert_eq in H. now injection H as <-.
Qed.

Lemma inv_orphans h s : inv h s -> orphans s = [].
Proof. intros [Hf|(tid & t & Hh & _)]; [apply (free_orphans _ _ Hf)|apply (held_orphans _ _ _ _ Hh)]. Qed.

Lemma turn_inv h s tid e s' : inv h s -> task_step l window s tid e s' -> inv (e :: h) s'.
Proof using Hw LS Spec.
  intros Hi Hst. destruct Hst.
  - eauto using extract_step.
  - eauto using reject_step.
  - eauto using read_step.
  - destruct (storing_holds _ _ _ _ Hi H) as [Hh _]; [intros [|[]]; discriminate|done|].
    destruct (disk_read _ _ _ _ _ (held_file _ _ _ _ Hh) H0) as (-> & _).
    apply (stopped_step h s tid (Reading message stored rv todo)); [done|done|intros [|[]]; discriminate|done..].
  - eauto using write_step.
  - eauto using write_fail_step.
  - eauto using lock_read_step.
  - eapply query_step; [exact Hi|exact H0|exact H1|now intros ? [= <-]|eauto].
  - eapply query_step; [exact Hi|exact H0|exact H1|done|now left].
Qed.

Lemma server_step_inv h s e s' : inv h s -> step s e s' -> e <> Abandoned -> inv (e :: h) s'.
Proof using Hw LS Spec.
  intros Hi Hst He. destruct Hst.
  - eauto using arrive_step.
  - eauto using turn_inv.
  - eauto using drop_step.
  - done.
  - rewrite (inv_orphans _ _ Hi) in H. now destruct o1.
Qed.

Lemma server_run_inv fs0 h s :
  json_ok l fs0 -> json_contents l fs0 = m0 ->
  server_run l window fs0 h s -> Abandoned ∉ h -> inv h s.
Proof using Hw LS Spec.
  intros Hok Hm Hr. induction Hr as [|h s e s' Hr IH Hst]; intros Ha.
  - left. destruct unlocked_spec as [Hu1 Hu2]. constructor; cbn; try done.
    intros tid. rewrite Hu1. split; [set_solver|discriminate].
  - apply not_elem_of_cons in Ha as [Hne Ha].
    exact (server_step_inv h s e s' (IH Ha) Hst (not_eq_sym Hne)).
Qed.

(** What the invariant says of the disk and of the lock. *)
Lemma inv_view h s :
  inv h s ->
  history_ok window m0 h /\
  (writer (lock s) = None -> disk_is (commits h) h (rs_disk s)) /\
  (forall tid, writer (lock s) = Some tid ->
     readers (lock s) = ∅ /\ exists t, tasks s !! tid = Some t /\
       disk_is (register_all (commits h) (stored_by t)) h (rs_disk s)).
Proof.
  intros [[]|(tid & t & [] & Ht & Hs)]; (do 2 (split; [done || congruence|])).
  - intros tid Hc. congruence.
  - intros tid' Hc. rewrite held_writer0 in Hc. injection Hc as <-. eauto.
Qed.

(** *** Some task can always take a turn *)
Lemma goes_on_total tid message stored s todo : exists e s', goes_on tid message stored s todo e s'.
Proof. destruct todo; eauto using goes_on. Qed.

Lemma reading_turn s tid message stored rv todo :
  tasks s !! tid = Some (Reading message stored rv todo) -> exists e s', task_step l window s tid e s'.
Proof.
  intros Ht. destruct (local_json_read l (rs_disk s)) as [fs r] eqn:Er.
  destruct r as [rvs|e|]; eauto using task_step.
Qed.

Lemma writing_turn s tid message stored rv todo rvs :
  tasks s !! tid = Some (Writing message stored rv todo rvs) -> exists e s', task_step l window s tid e s'.
Proof.
  intros Ht. destruct (local_json_store l (rv_name rv) rv rvs (rs_disk s)) as [fs r] eqn:Er.
  destruct r as [old|e|]; [|eauto using task_step..].
  destruct (goes_on_total tid message (stored ++ [rv]) (with_disk fs s) todo) as (e & s' & Hg).
  eauto using task_step.
Qed.

Lemma querying_turn now s tid :
  window now -> tasks s !! tid = Some Querying -> exists e s', task_step l window s tid e s'.
Proof.
  intros Hn Ht. destruct (get_digests (B := local_json_storage l) now (rs_disk s)) as [fs r] eqn:Er.
  destruct r as [m|e|]; eauto using task_step.
Qed.

Lemma waiting_turn now s tid t :
  window now -> tasks s !! tid = Some t -> waits t -> writer (lock s) = None ->
  readers (lock s) = ∅ -> exists e s', task_step l window s tid e s'.
Proof.
  intros Hn Ht Hwt Hwr Hrd. destruct (granted tid (lock s) Hrd Hwr) as [[kr Hkr] [k Hk]].
  destruct Hwt as [->|[message ->]].
  - eexists _, _. eapply step_lock_read; [exact Ht|exact Hkr].
  - destruct (extract now message) as [rvs|e|] eqn:Ee; [|eauto using task_step..].
    destruct (goes_on_total tid message [] (with_lock k s) rvs) as (e & s' & Hg). eauto using task_step.
Qed.

Lemma inv_turn now h s tid t :
  inv h s -> window now -> tasks s !! tid = Some t ->
  exists tid e s', task_step l window s tid e s'.
Proof.
  intros Hi Hn Ht. destruct Hi as [Hf|(tid0 & t0 & _ & Ht0 & Hs)].
  - destruct (set_choose_or_empty (readers (lock s))) as [[tid' Hin]|Hrd].
    + apply (free_readers _ _ Hf) in Hin. exists tid'. eauto using querying_turn.
    + apply leibniz_equiv in Hrd. exists tid. destruct (free_tasks _ _ Hf _ _ Ht) as [Hwt| ->].
      * exact (waiting_turn now s tid t Hn Ht Hwt (free_writer _ _ Hf) Hrd).
      * eauto using querying_turn.
  - exists tid0. destruct t0; try done; eauto using reading_turn, writing_turn.
Qed.
End Invariant.

(** ** What the clients of one server can rely on *)
Section Clients.
Context {K : Type} {L : RwLock K} {readers : K -> gset nat} {writer : K -> option nat}
  (LS : RwLockSpec L readers writer).
Context `{D : Disk} `{C : RvpsCrates} (Spec : RvpsCratesSpec C) (l : LocalJson) (window : Z -> Prop).
Context (Hw : forall now, window now -> clock_ok now).

(** C12: concurrent registrations and queries behave as if served one after the
    other.  However the tasks of the server interleave at their await points,
    and whichever requests fail or lose their client, as long as no client goes
    away while the file is being written: every completed registration stored
    exactly what its message says, and every answer reports the values of the
    registrations completed or stopped before it.  The file holds those values,
    followed by what the one task with the write lock has stored so far, as long
    as no write has failed halfway; from the first such failure on, every query
    and every attempt to store a value fails without effect.  And some task can always take its next turn. *)
Theorem rvps_clients_serialized fs0 h s :
  json_ok l fs0 -> server_run l window fs0 h s -> Abandoned ∉ h ->
  history_ok window (json_contents l fs0) h /\
  (existsb is_torn h = false ->
     json_ok l (rs_disk s) /\
     (writer (lock s) = None -> json_contents l (rs_disk s) = committed (json_contents l fs0) h) /\
     (forall tid, writer (lock s) = Some tid ->
        readers (lock s) = ∅ /\ exists t, tasks s !! tid = Some t /\
          json_contents l (rs_disk s) = register_all (committed (json_contents l fs0) h) (stored_by t))) /\
  (existsb is_torn h = true -> stuck (local_json_storage l) (rs_disk s)) /\
  (forall now tid t, window now -> tasks s !! tid = Some t ->
     exists tid e s', task_step l window s tid e s').
Proof using Hw LS Spec.
  intros Hok Hr Ha. pose proof (server_run_inv LS Spec l window _ Hw _ _ _ Hok eq_refl Hr Ha) as Hi.
  destruct (inv_view _ _ _ _ _ Hi) as (H1 & H2 & H3). split; [done|].
  assert (Hd : exists c, disk_is l c h (rs_disk s)).
  { destruct (writer (lock s)) as [tid|]; [|eauto]. destruct (H3 tid eq_refl) as (_ & t & _ & Hd). eauto. }
  destruct Hd as [c Hd]. split; [|split].
  - intros Ht. unfold disk_is in *. rewrite Ht in *. split; [apply Hd|]. split; [now intros Hn%H2|].
    intros tid (Hrd & t & Htk & _ & Hc)%H3. eauto.
  - intros Ht. unfold disk_is in Hd. rewrite Ht in Hd. now apply damaged_stuck.
  - intros now tid t Hn Ht. exact (inv_turn LS l window _ now h s tid t Hi Hn Ht).
Qed.
End Clients.

(** ** A concrete server *)
Module RvpsServerDemo.
Export RvpsDemo.

Definition window (now : Z) : Prop := now = 0.
(** The lock: the tasks that read, and the one that writes. *)
Record Held := { reading : gset nat; writing : option nat }.

#[export] Instance rwlock : RwLock Held := {|
  unlocked := {| reading := ∅; writing := None |};
  try_read tid k :=
    match writing k with
    | None => Some {| reading := {[tid]} ∪ reading k; writing := None |}
    | Some _ => None
    end;
  try_write tid k :=
    match writing k with
    | None => if decide (reading k = ∅) then Some {| reading := ∅; writing := Some tid |} else None
    | Some _ => None
    end;
  release tid k :=
    {| reading := reading k ∖ {[tid]}; writing := if decide (writing k = Some tid) then None else writing k |};
|}.

#[export] Instance rwlock_spec : RwLockSpec rwlock reading writing.
Proof.
  constructor; cbn.
  - done.
  - intros tid k k'. destruct (writing k); [done|]. now intros [= <-].
  - intros tid k k'. destruct (writing k); [done|]. case_decide; [|done]. now intros [= <-].
  - intros tid k Hr Hw. rewrite Hw, decide_True by done. eauto.
  - done.
  - intros tid [r w] Hr Hw. cbn in *. rewrite decide_False by done. f_equal. set_solver.
Qed.

Definition locked (tid : nat) : Held := {| reading := ∅; writing := Some tid |}.
Definition read_fs (s : RvpsServer Held) : Fs := (local_json_read l (rs_disk s)).1.
Definition store_fs (n : string) (rvs : list ReferenceValue) (s : RvpsServer Held) : Fs :=
  (local_json_store l n (rv n) rvs (rs_disk s)).1.

(** Two registrations arrive; the first gets the lock and reads the file. *)
Definition s0 : RvpsServer Held := {| rs_disk := fs0; lock := unlocked; tasks := ∅; orphans := [] |}.
Definition s1 : RvpsServer Held := with_task 0 (WaitWrite "alpha") s0.
Definition s2 : RvpsServer Held := with_task 1 (WaitWrite "beta") s1.
Definition s3 : RvpsServer Held := with_task 0 (Reading "alpha" [] (rv "alpha") []) (with_lock (locked 0) s2).
Definition s4 : RvpsServer Held := with_task 0 (Writing "alpha" [] (rv "alpha") [] []) (with_disk (read_fs s3) s3).

(** Its client stays: it registers its value, and the second follows. *)
Definition s5 : RvpsServer Held := ended 0 (with_disk (store_fs "alpha" [] s4) s4).
Definition s6 : RvpsServer Held := with_task 1 (Reading "beta" [] (rv "beta") []) (with_lock (locked 1) s5).
Definition s7 : RvpsServer Held :=
  with_task 1 (Writing "beta" [] (rv "beta") [] [rv "alpha"]) (with_disk (read_fs s6) s6).
Definition s8 : RvpsServer Held := ended 1 (with_disk (store_fs "beta" [rv "alpha"] s7) s7).

(** Its client goes away while the file is written: the second registration
    does not wait for that write. *)
Definition t5 : RvpsServer Held := with_orphans [(rv "alpha", [])] (ended 0 s4).
Definition t6 : RvpsServer Held := with_task 1 (Reading "beta" [] (rv "beta") []) (with_lock (locked 1) t5).
Definition t7 : RvpsServer Held := with_task 1 (Writing "beta" [] (rv "beta") [] []) (with_disk (read_fs t6) t6).
Definition t8 : RvpsServer Held := ended 1 (with_disk (store_fs "beta" [] t7) t7).
Definition t9 : RvpsServer Held := with_orphans [] (with_disk (store_fs "alpha" [] t8) t8).

Lemma run4 : server_run l window fs0 [Silent; Silent; Silent; Silent] s4.
Proof.
  apply (server_more _ _ _ _ s3); [|eapply step_turn, step_read; [reflexivity|vm_compute; reflexivity]].
  apply (server_more _ _ _ _ s2);
    [|eapply (step_turn _ _ _ 0), (step_extract _ _ _ _ _ 0); [done|reflexivity|reflexivity|vm_compute; reflexivity|apply goes_next]].
  apply (server_more _ _ _ _ s1); [|apply step_arrive; [reflexivity|right; eauto]].
  apply (server_more _ _ _ _ s0); [|apply step_arrive; [reflexivity|right; eauto]].
  apply server_start.
Qed.

Lemma run8 : server_run l window fs0
  [Registered "beta" [rv "beta"]; Silent; Silent; Registered "alpha" [rv "alpha"]; Silent; Silent; Silent; Silent] s8.
Proof.
  apply (server_more _ _ _ _ s7);
    [|eapply (step_turn _ _ _ 1), step_write; [reflexivity|vm_compute; reflexivity|apply goes_end]].
  apply (server_more _ _ _ _ s6); [|eapply step_turn, step_read; [reflexivity|vm_compute; reflexivity]].
  apply (server_more _ _ _ _ s5);
    [|eapply (step_turn _ _ _ 1), (step_extract _ _ _ _ _ 0); [done|reflexivity|reflexivity|vm_compute; reflexivity|apply goes_next]].
  apply (server_more _ _ _ _ s4);
    [|eapply (step_turn _ _ _ 0), step_write; [reflexivity|vm_compute; reflexivity|apply goes_end]].
  exact run4.
Qed.
End RvpsServerDemo.

Import RvpsServerDemo.

Lemma rvps_clients_serialized_witness :
  json_contents l (rs_disk s8) = committed (json_contents l fs0) [Registered "beta" [rv "beta"]; Registered "alpha" [rv "alpha"]].
Proof.
  destruct (rvps_clients_serialized rwlock_spec crates_spec l window (fun now H => eq_ind_r clock_ok clock_0 H) fs0 _ s8
    fs0_ok run8) as (_ & H & _); [|exact (proj1 (proj2 (H eq_refl)) eq_refl)].
  repeat (apply not_elem_of_cons; split; [discriminate|]). apply not_elem_of_nil.
Defined.

(** A registration that was confirmed can be lost when another client goes away:
    its write goes on without the lock, and replaces the file by what its task
    had read before. *)
Theorem abandoned_write_loses_update :
  exists h s, server_run l window fs0 h s /\ Registered "beta" [rv "beta"] ∈ h /\
    tasks s = ∅ /\ orphans s = [] /\ json_contents l (rs_disk s) !! "beta" = None.
Proof.
  exists [Silent; Registered "beta" [rv "beta"]; Silent; Silent; Abandoned; Silent; Silent; Silent; Silent], t9.
  split; [|split; [set_solver|split; [reflexivity|split; [reflexivity|vm_compute; reflexivity]]]].
  apply (server_more _ _ _ _ t8); [|eapply (step_orphan _ _ _ [] _ _ []); [reflexivity|vm_compute; reflexivity]].
  apply (server_more _ _ _ _ t7);
    [|eapply (step_turn _ _ _ 1), step_write; [reflexivity|vm_compute; reflexivity|apply goes_end]].
  apply (server_more _ _ _ _ t6); [|eapply step_turn, step_read; [reflexivity|vm_compute; reflexivity]].
  apply (server_more _ _ _ _ t5);
    [|eapply (step_turn _ _ _ 1), (step_extract _ _ _ _ _ 0); [done|reflexivity|reflexivity|vm_compute; reflexivity|apply goes_next]].
  apply (server_more _ _ _ _ s4); [|apply (step_abandon _ _ s4 0 "alpha" [] (rv "alpha") [] []); reflexivity].
  exact run4.
Qed.
