(* ===== verification/AsPolicy.v ===== *)
(** * The policy engine of the attestation service
      ([attestation-service/src/policy_engine/])

    A directory of Rego policies, one file per policy id: policies are
    validated when they are set, read back, listed with their digests and
    evaluated rule by rule.  [regorus], [sha2] and [base64] are parameters; so is
    the Unicode table of [char::is_alphanumeric]. *)
From S2P Require Import Prelude Types Text Fs Json Policy.

#[local] Arguments String.append !_ _ / : simpl nomatch.

Inductive PolicyError :=
| CreatePolicyDirFailed (source : anyhow)
| PolicyDirPathToStringFailed
| WriteDefaultPolicyFailed (source : anyhow)
| ReadPolicyFileFailed (source : anyhow)
| WritePolicyFileFailed (source : anyhow)
| LoadPolicyFailed
| PolicyDenied (policy_id : string)
| SerdeJsonError
| AsIOError (source : anyhow)
| Base64DecodeFailed
| InvalidPolicyId
| AsInvalidPolicy
| LoadReferenceDataFailed
| SetInputDataFailed
| EvalPolicyFailed
| JsonSerializationFailed
| InvalidClaimValue.

(** ** The crates the engine calls, besides those of the KBS policy engine *)
Class AsPolicyCrates `{C : PolicyCrates} := {
  (** [regorus::Value] as a rule returns it, and its conversions *)
  rego_value : Type;
  rego_as_i8 : rego_value -> option Z;
  rego_as_bool : rego_value -> option bool;
  (** [Engine::eval_rule] for a module, its data and its input *)
  rego_eval_rule : rego_module -> Value -> Value -> string -> option rego_value;
  (** [sha2::Sha384] *)
  sha384 : bytes -> bytes;
  (** [char::is_alphanumeric] *)
  is_alphanumeric : Z -> bool;
}.

Class AsPolicyCratesSpec `(C : AsPolicyCrates) : Prop := {
  (** below 128, the letters and the digits *)
  is_alphanumeric_ascii : forall c, 0 <= c < 128 ->
    is_alphanumeric c = between 48 57 c || between 65 90 c || between 97 122 c;
}.

(** ** [opa::OPA] *)
Record OPA := { policy_dir_path : string }.

(** [EvaluationResult]. *)
Record EvaluationResult `{AsPolicyCrates} := {
  rules_result : gmap string rego_value;
  policy_hash : string;
}.

Section Engine.
Context `{D : Disk} `{A : AsPolicyCrates}.

Definition as_opa_new (work_dir : string) : st Fs PolicyError OPA :=
  let policy_dir_path := path_push work_dir "opa" in
  there ← st_gets (fun fs => path_exists fs policy_dir_path);
  (if there : bool then mret tt
   else st_map_err CreatePolicyDirFailed (create_dir_all policy_dir_path));;
  mret {| policy_dir_path := policy_dir_path |}.

Definition is_valid_policy_id (policy_id : string) : bool :=
  match utf8_chars (str_bytes policy_id) with
  | Some cs => forallb (fun c => is_alphanumeric c || (c =? 95) || (c =? 45)) cs
  | None => false
  end.

(** The loop over the rules: a rule that does not evaluate is left out. *)
Definition eval_rules (module : rego_module) (data input : Value) (evaluation_rules : list string) :
    gmap string rego_value :=
  foldl (fun m rule =>
    match rego_eval_rule module data input ("data.policy." +:+ rule) with
    | Some v => <[rule := v]> m
    | None => m
    end) ∅ evaluation_rules.

(** [OPA::evaluate]. *)
Definition as_evaluate (o : OPA) (data input policy_id : string) (evaluation_rules : list string) :
    st Fs PolicyError EvaluationResult :=
  let policy_file_path := policy_dir_path o +:+ "/" +:+ policy_id +:+ ".rego" in
  content ← st_map_err ReadPolicyFileFailed (fs_read policy_file_path);
  policy ← st_lift (ok_or (ReadPolicyFileFailed "utf8") (from_utf8 content));
  let policy_hash := hex_encode (sha384 (str_bytes policy)) in
  module ← st_lift (ok_or LoadPolicyFailed (rego_parse policy));
  data ← st_lift (ok_or JsonSerializationFailed (rego_from_json data));
  (if rego_add_data data then mret tt else st_err LoadReferenceDataFailed);;
  input ← st_lift (ok_or SetInputDataFailed (rego_from_json input));
  mret {| rules_result := eval_rules module data input evaluation_rules; policy_hash := policy_hash |}.

(** [OPA::set_policy]. *)
Definition as_set_policy (o : OPA) (policy_id policy : string) (overwrite : bool) :
    st Fs PolicyError unit :=
  policy_bytes ← st_lift (ok_or Base64DecodeFailed (base64_url_decode policy));
  if negb (is_valid_policy_id policy_id) then st_err InvalidPolicyId
  else
    policy_content ← st_lift (ok_or AsInvalidPolicy (from_utf8 policy_bytes));
    _ ← st_lift (ok_or AsInvalidPolicy (rego_parse policy_content));
    let policy_file_path := path_push (policy_dir_path o) (policy_id +:+ ".rego") in
    there ← st_gets (fun fs => path_exists fs policy_file_path);
    if negb overwrite && there then mret tt
    else st_map_err WritePolicyFileFailed (fs_write policy_file_path policy_bytes).

Definition policy_ids_of (names : list string) : list string :=
  omap (M := list) (fun name =>
    match file_stem_extension name with
    | (stem, Some ext) => if String.eqb ext "rego" then Some stem else None
    | (_, None) => None
    end) names.

Fixpoint digest_policies (o : OPA) (ids : list string) (acc : gmap string string) :
    st Fs PolicyError (gmap string string) :=
  match ids with
  | [] => mret acc
  | id :: ids =>
      policy ← st_map_err ReadPolicyFileFailed (fs_read (path_push (policy_dir_path o) (id +:+ ".rego")));
      digest_policies o ids (<[id := base64_url_encode (sha384 policy)]> acc)
  end.

(** [OPA::list_policies]. *)
Definition as_list_policies (o : OPA) : st Fs PolicyError (gmap string string) :=
  names ← st_map_err AsIOError (fs_read_dir (policy_dir_path o));
  digest_policies o (policy_ids_of names) ∅.

(** [OPA::get_policy]. *)
Definition as_get_policy (o : OPA) (policy_id : string) : st Fs PolicyError string :=
  policy ← st_map_err ReadPolicyFileFailed
    (fs_read (path_push (policy_dir_path o) (policy_id +:+ ".rego")));
  mret (base64_url_encode policy).
End Engine.

(** ** ASCII characters in UTF-8 text *)
Lemma utf8_next_ascii b r c r' :
  utf8_next b r = inl (c, r') ->
  (c = u8 b /\ r' = r) \/
  (0x80 <= u8 b /\ exists pre, r = pre ++ r' /\ Forall (fun x => 0x80 <= u8 x) pre).
Proof.
  unfold utf8_next, second3, second4, cont. intros H. pose proof (u8_range b) as Hb.
  repeat (case_match; simplify_eq); try (left; done); right;
    repeat match goal with
      | E : between _ _ _ = true |- _ => apply between_spec in E
      | E : (_ <? _) = false |- _ => apply Z.ltb_ge in E
      end;
    (split; [lia|]);
    match goal with
    | |- exists pre, ?x :: ?y :: ?z :: ?t = _ /\ _ => exists [x; y; z]
    | |- exists pre, ?x :: ?y :: ?t = _ /\ _ => exists [x; y]
    | |- exists pre, ?x :: ?t = _ /\ _ => exists [x]
    end; (split; [done|]); repeat constructor; lia.
Qed.

(** A byte below 128 of a valid text is one of its characters. *)
Lemma utf8_chars_ascii n l cs b :
  utf8_chars_fuel n l = Some cs -> b ∈ l -> u8 b < 0x80 -> u8 b ∈ cs.
Proof.
  revert l cs. induction n as [|n IH]; intros [|x r] cs H Hin Hb; cbn in H;
    try done; try (now apply elem_of_nil in Hin).
  destruct (utf8_next x r) as [[c r']|] eqn:E; [|done].
  destruct (utf8_chars_fuel n r') as [cs'|] eqn:Er; [|done]. cbn in H. injection H as <-.
  apply utf8_next_ascii in E as [[-> ->]|(Hx & pre & -> & Hp)].
  - apply elem_of_cons in Hin as [->|Hin]; [left|right; eauto].
  - right. apply elem_of_cons in Hin as [->|Hin]; [lia|].
    apply elem_of_app in Hin as [Hin|Hin]; [|eauto].
    apply list_elem_of_In in Hin. rewrite List.Forall_forall in Hp. specialize (Hp _ Hin). lia.
Qed.

Lemma no_char_bytes c s : byte_of_ascii c ∉ str_bytes s -> no_char c s = true.
Proof.
  unfold str_bytes, list_byte_of_string, no_char. induction s as [|a s IH]; intros H; [done|].
  cbn in H. apply not_elem_of_cons in H as [Ha Hs]. cbn [all_chars]. rewrite IH by done.
  destruct (Ascii.eqb_spec c a) as [->|]; done.
Qed.

Lemma string_length_app s t : String.length (s +:+ t) = (String.length s + String.length t)%nat.
Proof. induction s as [|c s IH]; [done|]. cbn. now rewrite IH. Qed.

(** ** Properties *)
Section Properties.
Context `{D : Disk} `{A : AsPolicyCrates} (Spec : PolicyCratesSpec C) (ASpec : AsPolicyCratesSpec A).

Lemma valid_id_no_slash id : is_valid_policy_id id = true -> no_char slash id = true.
Proof.
  unfold is_valid_policy_id, utf8_chars. intros H. apply no_char_bytes. intros Hin.
  destruct (utf8_chars_fuel _ _) as [cs|] eqn:E; [|done].
  pose proof (utf8_chars_ascii _ _ _ _ E Hin ltac:(reflexivity)) as Hc. apply list_elem_of_In in Hc.
  rewrite forallb_forall in H. specialize (H _ Hc). cbv beta in H.
  rewrite is_alphanumeric_ascii in H; [discriminate H|]. split; [discriminate|reflexivity].
Qed.

(** The file of a valid id is an entry of the policy directory. *)
Lemma policy_file_plain id :
  is_valid_policy_id id = true -> plain_component (id +:+ ".rego") = true.
Proof.
  intros H%valid_id_no_slash. unfold plain_component, no_char in *. rewrite all_chars_app, H.
  rewrite !(proj2 (String.eqb_neq _ _)); [done|..];
    intros E%(f_equal String.length); rewrite string_length_app in E; cbn in E; lia.
Qed.

Definition policy_file (o : OPA) (id : string) : list string :=
  resolve (policy_dir_path o) ++ [id +:+ ".rego"].

Lemma policy_file_push o id :
  is_valid_policy_id id = true ->
  resolve (path_push (policy_dir_path o) (id +:+ ".rego")) = policy_file o id.
Proof. intros H. apply resolve_push. now apply policy_file_plain. Qed.

Lemma policy_file_format o id :
  is_valid_policy_id id = true ->
  resolve (policy_dir_path o +:+ "/" +:+ id +:+ ".rego") = policy_file o id.
Proof. intros H. apply (resolve_snoc _ (id +:+ ".rego")). now apply policy_file_plain. Qed.

(** A policy that is accepted under an id: its bytes and the module they parse
    to. *)
Definition acceptable (id policy : string) : option (bytes * rego_module) :=
  b ← base64_url_decode policy;
  text ← (if is_valid_policy_id id then from_utf8 b else None);
  m ← rego_parse text;
  Some (b, m).

Lemma acceptable_Some id policy b m :
  acceptable id policy = Some (b, m) ->
  is_valid_policy_id id = true /\ base64_url_decode policy = Some b /\
  exists text, from_utf8 b = Some text /\ rego_parse text = Some m.
Proof.
  unfold acceptable. intros H. apply bind_Some in H as (b' & Hb & H). apply bind_Some in H as (t & Ht & H).
  apply bind_Some in H as (m' & Hm & H). injection H as -> ->. destruct (is_valid_policy_id id); [eauto|done].
Qed.

Lemma as_set_policy_cases o id policy overwrite fs :
  match acceptable id policy with
  | None => exists e, as_set_policy o id policy overwrite fs = (fs, Err e)
  | Some (b, _) =>
      as_set_policy o id policy overwrite fs =
      let path := path_push (policy_dir_path o) (id +:+ ".rego") in
      if negb overwrite && path_exists fs path then (fs, Ok tt)
      else st_map_err WritePolicyFileFailed (fs_write path b) fs
  end.
Proof.
  unfold acceptable, as_set_policy, mbind, st_bind, st_lift, st_gets, option_bind, ok_or, st_err, mret, st_ret.
  destruct (base64_url_decode policy) as [b|]; [|eauto]. destruct (is_valid_policy_id id); cbn [negb]; [|eauto].
  destruct (from_utf8 b) as [t|]; [|eauto]. destruct (rego_parse t) as [m|]; [|eauto].
  now destruct (negb overwrite && _).
Qed.

(** C34: setting an attestation policy touches one file at most.  A request with
    an invalid id, bad base64 or a text that is not a Rego policy in UTF-8 is
    refused and has no effect.  Otherwise, when overwriting was not asked for and
    the file of the id exists, the answer is success and nothing is written; in
    all other cases only the file of the id, directly in the policy directory,
    can change: on success it holds exactly the submitted bytes, on an error it
    is as before or, if writing it failed, holds a proper part of them.  No call
    panics. *)
Theorem as_set_policy_confined o id policy overwrite fs fs' r :
  as_set_policy o id policy overwrite fs = (fs', r) ->
  match acceptable id policy with
  | None => fs' = fs /\ exists e, r = Err e
  | Some (b, _) =>
      plain_component (id +:+ ".rego") = true /\
      if negb overwrite && path_exists fs (path_push (policy_dir_path o) (id +:+ ".rego"))
      then fs' = fs /\ r = Ok tt
      else
        r = Ok tt /\ fs' = put (policy_file o id) b fs \/
        r = Err (WritePolicyFileFailed "io") /\ (fs' = fs \/ half_written (policy_file o id) b fs fs')
  end.
Proof using ASpec.
  intros H. pose proof (as_set_policy_cases o id policy overwrite fs) as Hc. rewrite H in Hc.
  destruct (acceptable id policy) as [[b m]|] eqn:Ea; [|destruct Hc as [e [= -> ->]]; eauto].
  apply acceptable_Some in Ea as (Hi & _). split; [now apply policy_file_plain|]. cbv zeta in Hc.
  destruct (negb overwrite && _); [now injection Hc as -> ->|]. unfold st_map_err in Hc.
  destruct (fs_write _ b fs) as [fs1 r1] eqn:Ew. injection Hc as -> ->. rewrite <- (policy_file_push _ _ Hi).
  destruct r1 as [[]|e|]; cbn [map_err].
  - apply fs_write_Ok in Ew as ->. now left.
  - right. rewrite (fs_write_error _ _ _ _ _ Ew). split; [done|]. now apply (fs_write_fail _ _ _ _ _ Ew).
  - now destruct (fs_write_fail _ _ _ _ _ Ew eq_refl).
Qed.

Lemma as_set_policy_inv o id policy fs fs' u :
  as_set_policy o id policy true fs = (fs', Ok u) ->
  exists b text m, is_valid_policy_id id = true /\ base64_url_decode policy = Some b /\
    from_utf8 b = Some text /\ rego_parse text = Some m /\
    files fs' = <[policy_file o id := b]> (files fs).
Proof using ASpec.
  intros H. pose proof (as_set_policy_cases o id policy true fs) as Hc. rewrite H in Hc.
  destruct (acceptable id policy) as [[b m]|] eqn:Ea; [|now destruct Hc].
  apply acceptable_Some in Ea as (Hi & Hb & text & Ht & Hm). cbn [negb andb] in Hc. symmetry in Hc.
  apply st_map_err_Ok, fs_write_Ok in Hc as ->. exists b, text, m. rewrite <- (policy_file_push _ _ Hi). done.
Qed.

Lemma digest_policies_spec o ids acc fs fs' pl :
  digest_policies o ids acc fs = (fs', Ok pl) ->
  fs' = fs /\ forall id, pl !! id =
    if decide (id ∈ ids) then
      (fun c => base64_url_encode (sha384 c)) <$>
        files fs !! resolve (path_push (policy_dir_path o) (id +:+ ".rego"))
    else acc !! id.
Proof.
  revert acc. induction ids as [|i ids IH]; intros acc H; cbn in H.
  { injection H as <- <-. split; [done|]. intros id. now rewrite decide_False by apply not_elem_of_nil. }
  inv_st. match goal with E : fs_read _ _ = _ |- _ => apply fs_read_Ok in E as [-> Hf] end.
  destruct (IH _ H) as [-> Hp]. split; [done|]. intros id. rewrite Hp.
  destruct (decide (id = i)) as [->|Hne].
  - rewrite (decide_True (P := i ∈ i :: ids)) by left. case_decide; [done|].
    now rewrite lookup_insert_eq, Hf.
  - rewrite lookup_insert_ne by done. apply decide_ext. rewrite elem_of_cons. naive_solver.
Qed.

Lemma policy_id_listed id names :
  id <> "" -> (id +:+ ".rego")%string ∈ names -> id ∈ policy_ids_of names.
Proof.
  intros Hid Hin. apply list_elem_of_omap. exists (id +:+ ".rego"). split; [done|].
  unfold file_stem_extension. change ".rego" with (String.String "." "rego").
  rewrite rsplit_dot_app by done. now destruct id.
Qed.

Lemma eval_rules_lookup m d i rules rule :
  eval_rules m d i rules !! rule =
  if decide (rule ∈ rules) then rego_eval_rule m d i ("data.policy." +:+ rule) else None.
Proof using Type.
  clear Spec ASpec.
  unfold eval_rules. induction rules as [|r rules IH] using rev_ind.
  { cbn. now rewrite decide_False by apply not_elem_of_nil. }
  rewrite foldl_app. cbn [foldl]. destruct (decide (rule = r)) as [->|Hne].
  - rewrite (decide_True (P := r ∈ rules ++ [r])) by set_solver.
    destruct (rego_eval_rule m d i _) as [v|] eqn:E; [now rewrite lookup_insert_eq|].
    rewrite IH. now case_decide.
  - transitivity (if decide (rule ∈ rules) then rego_eval_rule m d i ("data.policy." +:+ rule) else None).
    + rewrite <- IH. destruct (rego_eval_rule m d i (_ +:+ r)); [|done]. now rewrite lookup_insert_ne.
    + apply decide_ext. set_solver.
Qed.

(** An attestation policy that was set is the one served.  After a
    successful overwriting update under a non-empty id, reading the policy back
    gives the submitted text, a listing that succeeds shows its digest under the
    id, and evaluation runs the module it parses to on the given data and input,
    returning one result per rule that evaluates, and the policy's hash. *)
Theorem as_policy_roundtrip o id policy fs fs' :
  id <> "" -> (forall op q, disk_fault op q = false) ->
  as_set_policy o id policy true fs = (fs', Ok tt) ->
  exists b text m,
    base64_url_decode policy = Some b /\ from_utf8 b = Some text /\ rego_parse text = Some m /\
    as_get_policy o id fs' = (fs', Ok policy) /\
    (forall fs2 pl, as_list_policies o fs' = (fs2, Ok pl) ->
       fs2 = fs' /\ pl !! id = Some (base64_url_encode (sha384 b))) /\
    (forall data input rules d i,
       rego_from_json data = Some d -> rego_add_data d = true -> rego_from_json input = Some i ->
       exists res, as_evaluate o data input id rules fs' = (fs', Ok res) /\
         policy_hash res = hex_encode (sha384 b) /\
         forall rule, rules_result res !! rule =
           if decide (rule ∈ rules) then rego_eval_rule m d i ("data.policy." +:+ rule) else None).
Proof.
  intros Hid Hd H. destruct (as_set_policy_inv _ _ _ _ _ _ H) as (b & text & m & Hi & Hb & Ht & Hm & Hf).
  exists b, text, m. do 3 (split; [done|]).
  assert (Hl : files fs' !! policy_file o id = Some b) by (rewrite Hf; apply lookup_insert_eq).
  split; [|split].
  - unfold as_get_policy. exec. rewrite fs_read_spec by apply Hd.
    rewrite (policy_file_push _ _ Hi), Hl. cbn. now rewrite (base64_url_canonical _ _ Hb).
  - intros fs2 pl Hp. unfold as_list_policies in Hp. inv_st.
    match goal with E : fs_read_dir _ _ = _ |- _ => apply fs_read_dir_Ok in E as [-> Hn] end.
    destruct (digest_policies_spec _ _ _ _ _ _ Hp) as [-> Hpl]. split; [done|]. rewrite Hpl.
    rewrite decide_True by (apply policy_id_listed; [done|]; now apply (Hn _ b)).
    now rewrite (policy_file_push _ _ Hi), Hl.
  - intros data input rules d i Hdj Ha Hij. unfold as_evaluate. exec.
    rewrite fs_read_spec by apply Hd. rewrite (policy_file_format _ _ Hi), Hl. cbn.
    rewrite Ht. cbn. rewrite Hm. cbn. rewrite Hdj, Ha, Hij. cbn. eexists. split; [done|].
    cbn. split; [now rewrite (from_utf8_bytes _ _ Ht)|]. intros rule. apply eval_rules_lookup.
Qed.
End Properties.

(** ** A concrete instance *)
Module AsPolicyDemo.
#[export] Existing Instance PolicyDemo.crates.
#[export] Instance disk : Disk := {| disk_fault _ _ := false; made _ := 0%nat; written _ _ := None |}.

#[export] Instance as_crates : AsPolicyCrates := {|
  rego_value := bool;
  rego_as_i8 b := Some (if b then 2 else 32);
  rego_as_bool b := Some b;
  rego_eval_rule m _ _ _ := Some m;
  sha384 b := b;
  is_alphanumeric c := between 48 57 c || between 65 90 c || between 97 122 c;
|}.

#[export] Instance as_crates_spec : AsPolicyCratesSpec as_crates.
Proof. now constructor. Qed.

Definition opa : OPA := {| policy_dir_path := "/w/opa" |}.
Definition fs0 : Fs := (as_opa_new "/w" {| files := ∅; dirs := ∅ |}).1.
Definition policy : string := PolicyDemo.enc (str_bytes "allow").
Definition fs1 : Fs := (as_set_policy opa "default_cpu" policy true fs0).1.
End AsPolicyDemo.

Import AsPolicyDemo.

Lemma as_set_policy_confined_witness :
  as_set_policy opa "default_cpu" policy true fs0 = (fs1, Ok tt) /\ fs1 = put (policy_file opa "default_cpu") (str_bytes "allow") fs0.
Proof.
  assert (E : as_set_policy opa "default_cpu" policy true fs0 = (fs1, Ok tt)) by (vm_compute; reflexivity).
  split; [exact E|]. pose proof (as_set_policy_confined as_crates_spec opa "default_cpu" policy true fs0 fs1 (Ok tt) E) as H.
  change (acceptable "default_cpu" policy) with (Some (str_bytes "allow", true)) in H.
  destruct H as [_ [[_ H]|[H _]]]; [exact H|discriminate H].
Defined.

Lemma as_policy_roundtrip_witness :
  as_get_policy opa "default_cpu" fs1 = (fs1, Ok policy).
Proof.
  destruct (as_policy_roundtrip PolicyDemo.crates_spec as_crates_spec opa "default_cpu" policy fs0 fs1)
    as (b & text & m & _ & _ & _ & H & _); [discriminate|reflexivity|vm_compute; reflexivity|exact H].
Defined.
