(* ===== verification/Brokers.v ===== *)
(** * The token brokers of the attestation service
      ([attestation-service/src/token/])

    A broker appraises the claims of the verifiers with the policies of its
    engine and issues a signed token.  The simple broker flattens all claims and
    asks each policy for an [allow]; the EAR broker appraises each device with
    the policy of its class.  The JSON, JWT, X.509, key and EAR crates are
    parameters, and so are the clock and the random token id. *)
From S2P Require Import Prelude Types Text Fs Json Session Policy AsPolicy.

#[local] Arguments String.append !_ _ / : simpl nomatch.

Definition DEFAULT_TOKEN_DURATION : Z := 5.
Definition COCO_AS_ISSUER_NAME : string := "CoCo-Attestation-Service".
Definition DEFAULT_WORK_DIR : string := "/opt/confidential-containers/attestation-service".
Definition DEFAULT_TOKEN_WORK_DIR : string := DEFAULT_WORK_DIR +:+ "/token".

(** [TeeClaims]: the output of a verifier for one device. *)
Record TeeClaims := {
  tc_tee : Tee;
  tee_class : string;
  claims : Value;
  init_data_claims : Value;
  runtime_data_claims : Value;
}.

(** The trait [AttestationTokenBroker]. *)
Class AttestationTokenBroker (S : Type) := {
  issue : Z -> string -> list TeeClaims -> list string -> gmap string Value -> st S anyhow string;
  broker_set_policy : string -> string -> st S anyhow unit;
  broker_list_policies : st S anyhow (gmap string string);
  broker_get_policy : string -> st S anyhow string;
}.

(** ** The crates the brokers call *)
Class BrokerCrates := {
  (** [serde_json::to_string] and [from_str] at [Value] *)
  json_to_string : Value -> option string;
  json_from_str : string -> option Value;
  (** [serde_variant::to_variant_name] *)
  tee_variant_name : Tee -> option string;
  (** [openssl]: keys and certificates *)
  RsaKey : Type;
  EcKey : Type;
  X509 : Type;
  rsa_generate : nat -> option RsaKey;
  rsa_from_pem : bytes -> option RsaKey;
  rsa_n_e : RsaKey -> bytes * bytes;
  rs384 : RsaKey -> bytes -> option bytes;
  ec_generate : nat -> option EcKey;
  ec_from_pem : bytes -> option EcKey;
  ec_affine : EcKey -> option (bytes * bytes);
  x509_from_pem : bytes -> option X509;
  x509_to_der : X509 -> option bytes;
}.

(** An error of the policy engine, as [anyhow] reports it. *)
Definition policy_anyhow (_ : PolicyError) : anyhow := "policy".

(** ** Flattened claims *)

(** [flatten_helper]: [parent] collects the leaves under dotted names. *)
Fixpoint flatten_helper (parent : list (string * Value)) (child : Value) (prefix : string) :
    list (string * Value) :=
  match child with
  | VObject obj =>
      (fix go (parent : list (string * Value)) (obj : list (string * Value)) :=
         match obj with
         | [] => parent
         | (k, v) :: obj => go (flatten_helper parent v (prefix +:+ "." +:+ k)) obj
         end) parent obj
  | _ => obj_insert prefix child parent
  end.

Definition is_special (k : string) : bool := String.eqb k "report_data" || String.eqb k "init_data".

Fixpoint flatten_entries (tee_type : string) (obj : list (string * Value)) (map : list (string * Value)) :
    list (string * Value) :=
  match obj with
  | [] => map
  | (k, v) :: obj =>
      flatten_entries tee_type obj
        (if is_special k then map else flatten_helper map v (tee_type +:+ "." +:+ k))
  end.

(** [Map::append] and [Map::extend]: insert all entries. *)
Definition obj_append {A} (m other : list (string * A)) : list (string * A) :=
  foldl (fun m kv => obj_insert kv.1 kv.2 m) m other.

(** ** PEM certificate chains *)
Definition END_CERT : string := "-----END CERTIFICATE-----".
Definition BEGIN_CERT : string := "-----BEGIN CERTIFICATE-----".

(** [str::split] with a string pattern; every step consumes a character. *)
Fixpoint split_str_fuel (n : nat) (pat s cur : string) : list string :=
  match n with
  | O => [cur]
  | S n =>
      if String.prefix pat s then
        cur :: split_str_fuel n pat (substring (String.length pat) (String.length s) s) ""
      else match s with
           | EmptyString => [cur]
           | String.String c s => split_str_fuel n pat s (cur +:+ String.String c "")
           end
  end.
Definition split_str (pat s : string) : list string := split_str_fuel (S (String.length s)) pat s "".

Section Brokers.
Context `{Dk : Disk} `{A : AsPolicyCrates} `{BC : BrokerCrates} `{T : TimeCrate}.

(** [flatten_claims]. *)
Definition flatten_claims (tee : Tee) (claims : Value) : outcome anyhow (list (string * Value)) :=
  tee_type ← ok_or "variant name" (tee_variant_name tee);
  match claims with
  | VObject obj =>
      let map := flatten_entries tee_type obj [] in
      let map := obj_insert "report_data" (default (VString "") (obj_get "report_data" obj)) map in
      let map := obj_insert "init_data" (default (VString "") (obj_get "init_data" obj)) map in
      Ok map
  | _ => Err "input claims must be a map"
  end.

Fixpoint pem_certs (pems : list string) : outcome anyhow (list X509) :=
  match pems with
  | [] => Ok []
  | pem :: pems =>
      let trimmed := trim pem +:+ String.String "010" END_CERT in
      if String.prefix BEGIN_CERT trimmed then
        cert ← ok_or "Invalid PEM certificate chain" (x509_from_pem (str_bytes trimmed));
        chain ← pem_certs pems;
        Ok (cert :: chain)
      else pem_certs pems
  end.

(** Reading the certificate chain of a signer. *)
Definition load_cert_chain (cert_path : option string) : st Fs anyhow (option (list X509)) :=
  match cert_path with
  | None => mret None
  | Some path =>
      data ← st_map_err (fun _ => "Read Token Signer cert file failed") (fs_read path);
      text ← st_lift (ok_or "Read Token Signer cert file failed" (from_utf8 data));
      chain ← st_lift (pem_certs (split_str END_CERT text));
      mret (Some chain)
  end.

(** The [x5c] entries of a certificate chain. *)
Fixpoint chain_x5c (certs : list X509) : outcome anyhow (list string) :=
  match certs with
  | [] => Ok []
  | cert :: certs =>
      der ← ok_or "to_der" (x509_to_der cert);
      l ← chain_x5c certs;
      Ok (base64_url_encode der :: l)
  end.

(** The JSON data the policies see: the reference values by name. *)
Definition reference_data (reference_data_map : gmap string Value) : Value :=
  VObject [("reference", VObject (map_to_list reference_data_map))].
End Brokers.

Record TokenSignerConfig := {
  key_path : string;
  cert_url : option string;
  cert_path : option string;
}.

(** ** The simple broker ([token/simple.rs]) *)
Definition RSA_KEY_BITS : nat := 2048.
Definition SIMPLE_TOKEN_ALG : string := "RS384".

Record SimpleConfiguration := {
  sc_duration_min : Z;
  sc_issuer_name : string;
  sc_signer : option TokenSignerConfig;
  sc_policy_dir : string;
}.

Definition simple_configuration_default : SimpleConfiguration := {|
  sc_duration_min := DEFAULT_TOKEN_DURATION;
  sc_issuer_name := COCO_AS_ISSUER_NAME;
  sc_signer := None;
  sc_policy_dir := DEFAULT_TOKEN_WORK_DIR +:+ "/simple/policies";
|}.

Record SimpleAttestationTokenBroker `{BrokerCrates} := {
  sb_private_key : RsaKey;
  sb_config : SimpleConfiguration;
  sb_cert_url : option string;
  sb_cert_chain : option (list X509);
  sb_policy_engine : OPA;
}.

Section Simple.
Context `{Dk : Disk} `{A : AsPolicyCrates} `{BC : BrokerCrates} `{T : TimeCrate}.

(** [SimpleAttestationTokenBroker::new], with the text of the default policy. *)
Definition simple_new (default_policy : string) (config : SimpleConfiguration) :
    st Fs anyhow SimpleAttestationTokenBroker :=
  policy_engine ← st_map_err policy_anyhow (as_opa_new (sc_policy_dir config));
  st_map_err policy_anyhow
    (as_set_policy policy_engine "default" (base64_url_encode (str_bytes default_policy)) false);;
  match sc_signer config with
  | None =>
      key ← st_lift (ok_or "generate" (rsa_generate RSA_KEY_BITS));
      mret {| sb_private_key := key; sb_config := config; sb_cert_url := None;
              sb_cert_chain := None; sb_policy_engine := policy_engine |}
  | Some signer =>
      pem_data ← st_map_err (fun _ => "Read Token Signer private key failed") (fs_read (key_path signer));
      private_key ← st_lift (ok_or "private_key_from_pem" (rsa_from_pem pem_data));
      cert_chain ← load_cert_chain (cert_path signer);
      mret {| sb_private_key := private_key; sb_config := config; sb_cert_url := cert_url signer;
              sb_cert_chain := cert_chain; sb_policy_engine := policy_engine |}
  end.

(** [pubkey_jwks]; a field that is [None] is not serialized. *)
Definition pubkey_jwks (b : SimpleAttestationTokenBroker) : outcome anyhow string :=
  let '(n, e) := rsa_n_e (sb_private_key b) in
  x5c ← match sb_cert_chain b with
        | Some chain => l ← chain_x5c chain; Ok [("x5c", VArray (map VString l))]
        | None => Ok []
        end;
  let x5u := match sb_cert_url b with
             | Some u => [("x5u", VString u)]
             | None => []
             end in
  let jwk := VObject ([("kty", VString "RSA"); ("alg", VString SIMPLE_TOKEN_ALG);
                       ("n", VString (base64_url_encode n)); ("e", VString (base64_url_encode e))]
                      ++ x5u ++ x5c) in
  ok_or "to_string" (json_to_string (VObject [("keys", VArray [jwk])])).

(** [v["keys"][0]]: [Null] where there is no such entry. *)
Definition first_key (v : Value) : Value :=
  match v with
  | VObject m => match obj_get "keys" m with
                 | Some (VArray (k :: _)) => k
                 | _ => VNull
                 end
  | _ => VNull
  end.

Fixpoint flatten_all (l : list TeeClaims) (flattened : list (string * Value)) :
    outcome anyhow (list (string * Value)) :=
  match l with
  | [] => Ok flattened
  | tc :: l =>
      m ← flatten_claims (tc_tee tc) (claims tc);
      flatten_all l (obj_append flattened m)
  end.

(** The loop over the policies: each must evaluate [allow] to true. *)
Fixpoint simple_policies (o : OPA) (reference_data tcb_claims : string) (policy_ids : list string)
    (policies : gmap string string) : st Fs anyhow (gmap string string) :=
  match policy_ids with
  | [] => mret policies
  | policy_id :: policy_ids =>
      policy_results ← st_map_err policy_anyhow
        (as_evaluate o reference_data tcb_claims policy_id ["allow"]);
      result ← st_lift (ok_or "Policy results must contain `allow` claim"
                          (rules_result policy_results !! "allow"));
      result ← st_lift (ok_or "value `allow` must be a bool in policy" (rego_as_bool result));
      if negb result then st_err "Reject by policy"
      else simple_policies o reference_data tcb_claims policy_ids
             (<[policy_id := policy_hash policy_results]> policies)
  end.

Definition unix_timestamp (t : Z) : Z := t / 1000000000.
Definition num (z : Z) : Value := VNumber (if 0 <=? z then PosInt z else NegInt z).

(** The claims of the token that come from the evidence. *)
Definition token_claims (first : TeeClaims) (tee_name tcb_claims : string) (policies : gmap string string) :
    list (string * Value) :=
  [("tee", VString tee_name);
   ("evaluation-reports", VArray (map (fun kv =>
      VObject [("policy-id", VString kv.1); ("policy-hash", VString kv.2)]) (map_to_list policies)));
   ("tcb-status", VString tcb_claims);
   ("customized_claims", VObject [("init_data", init_data_claims first);
                                  ("runtime_data", runtime_data_claims first)])].

(** [SimpleAttestationTokenBroker::issue], with the clock and the random id. *)
Definition simple_issue (b : SimpleAttestationTokenBroker) (now : Z) (id : string)
    (all_tee_claims : list TeeClaims) (policy_ids : list string)
    (reference_data_map : gmap string Value) : st Fs anyhow string :=
  flattened_claims ← st_lift (flatten_all all_tee_claims []);
  reference_data ← st_lift (ok_or "to_string" (json_to_string (reference_data reference_data_map)));
  tcb_claims ← st_lift (ok_or "to_string" (json_to_string (VObject flattened_claims)));
  policies ← simple_policies (sb_policy_engine b) reference_data tcb_claims policy_ids ∅;
  first ← st_lift (unwrap (head all_tee_claims));
  tee_name ← st_lift (ok_or "variant name" (tee_variant_name (tc_tee first)));
  let token_claims := token_claims first tee_name tcb_claims policies in
  jwks ← st_lift (pubkey_jwks b);
  jwks ← st_lift (ok_or "from_str" (json_from_str jwks));
  header_string ← st_lift (ok_or "to_string" (json_to_string
    (VObject [("typ", VString "JWT"); ("alg", VString SIMPLE_TOKEN_ALG); ("jwk", first_key jwks)])));
  let header_b64 := base64_url_encode (str_bytes header_string) in
  exp ← st_lift (unwrap (add_minutes now (sc_duration_min (sb_config b))));
  let jwt_claims := obj_append
    [("iss", VString (sc_issuer_name (sb_config b))); ("iat", num (unix_timestamp now));
     ("jti", VString id); ("nbf", num (unix_timestamp now)); ("exp", num (unix_timestamp exp))]
    token_claims in
  claims_string ← st_lift (ok_or "to_string" (json_to_string (VObject jwt_claims)));
  let claims_b64 := base64_url_encode (str_bytes claims_string) in
  let signature_payload := header_b64 +:+ "." +:+ claims_b64 in
  signature ← st_lift (ok_or "sign" (rs384 (sb_private_key b) (str_bytes signature_payload)));
  mret (signature_payload +:+ "." +:+ base64_url_encode signature).

Definition simple_broker (b : SimpleAttestationTokenBroker) : AttestationTokenBroker Fs := {|
  issue := simple_issue b;
  broker_set_policy id policy := st_map_err policy_anyhow (as_set_policy (sb_policy_engine b) id policy true);
  broker_list_policies := st_map_err policy_anyhow (as_list_policies (sb_policy_engine b));
  broker_get_policy id := st_map_err policy_anyhow (as_get_policy (sb_policy_engine b) id);
|}.
End Simple.

(** ** The EAR broker ([token/ear_broker.rs]) *)
Definition DEFAULT_PROFILE : string := "tag:github.com,2024:confidential-containers/Trustee".
Definition DEFAULT_DEVELOPER_NAME : string := "https://confidentialcontainers.org".

Record EarConfiguration := {
  ec_duration_min : Z;
  ec_issuer_name : string;
  ec_developer_name : string;
  ec_build_name : string;
  ec_profile_name : string;
  ec_signer : option TokenSignerConfig;
  ec_policy_dir : string;
}.

(** [Configuration::default], with the name and version of the package. *)
Definition ear_configuration_default (build : string) : EarConfiguration := {|
  ec_duration_min := DEFAULT_TOKEN_DURATION;
  ec_issuer_name := COCO_AS_ISSUER_NAME;
  ec_developer_name := DEFAULT_DEVELOPER_NAME;
  ec_build_name := build;
  ec_profile_name := DEFAULT_PROFILE;
  ec_signer := None;
  ec_policy_dir := DEFAULT_TOKEN_WORK_DIR +:+ "/ear/policies";
|}.

(** The [ear] crate. *)
Class EarCrate := {
  (** [RawValue] and its conversions *)
  RawValue : Type;
  raw_string : string -> RawValue;
  raw_from_str : string -> option RawValue;
  (** [serde_json::to_string] of claims keyed by name *)
  raw_claims_to_string : gmap string RawValue -> option string;
  (** [TrustVector]: its claims by name, and the status it stands for *)
  TrustVector : Type;
  tv_new : TrustVector;
  tv_tags : list string;
  tv_set_by_name : string -> Z -> TrustVector -> option TrustVector;
  tv_any_set : TrustVector -> bool;
  TrustTier : Type;
  tv_status : TrustVector -> TrustTier;
}.

(** The fields of [Appraisal], [Ear] and the key in its header that the broker sets. *)
Record Appraisal `{EarCrate} := {
  ap_status : TrustTier;
  trust_vector : TrustVector;
  annotated_evidence : gmap string RawValue;
  appraisal_policy_id : string;
}.

Record Ear `{EarCrate} := {
  profile : string;
  iat : Z;
  vid_build : string;
  vid_developer : string;
  submods : gmap string Appraisal;
  ext_exp : Z;
}.

Record EarJwk := {
  x509_url : option string;
  x509_chain : option (list string);
  jwk_x : string;
  jwk_y : string;
}.

Record EarAttestationTokenBroker `{BrokerCrates} := {
  eb_config : EarConfiguration;
  eb_private_key : EcKey;
  eb_cert_url : option string;
  eb_cert_chain : option (list X509);
  eb_policy_engine : OPA;
}.

(** [Map::remove] of an insertion-ordered map: the last entry takes the place
    of the removed one. *)
Definition obj_swap_remove {A} (k : string) (m : list (string * A)) : option (A * list (string * A)) :=
  '(i, kv) ← list_find (fun kv => kv.1 = k) m;
  lst ← list.last m;
  Some (kv.2, removelast (<[i := lst]> m)).

Section EarBroker.
Context `{P : Profile} `{Dk : Disk} `{A : AsPolicyCrates} `{BC : BrokerCrates} `{T : TimeCrate} `{EC : EarCrate}.
(** [Ear::sign_jwt_pem_with_header]. *)
Context (ear_sign : Ear -> EarJwk -> EcKey -> option string).

(** [EarAttestationTokenBroker::new], with the texts of the default policies. *)
Definition ear_new (default_cpu_policy default_gpu_policy : string) (config : EarConfiguration) :
    st Fs anyhow EarAttestationTokenBroker :=
  policy_engine ← st_map_err policy_anyhow (as_opa_new (ec_policy_dir config));
  st_map_err policy_anyhow
    (as_set_policy policy_engine "default_cpu" (base64_url_encode (str_bytes default_cpu_policy)) false);;
  st_map_err policy_anyhow
    (as_set_policy policy_engine "default_gpu" (base64_url_encode (str_bytes default_gpu_policy)) false);;
  match ec_signer config with
  | None =>
      key ← st_lift (ok_or "generate_ec_keys" (ec_generate 256));
      mret {| eb_config := config; eb_private_key := key; eb_cert_url := None;
              eb_cert_chain := None; eb_policy_engine := policy_engine |}
  | Some signer =>
      pem_data ← st_map_err (fun _ => "Read Token Signer private key failed") (fs_read (key_path signer));
      private_key ← st_lift (ok_or "private_key_from_pem" (ec_from_pem pem_data));
      cert_chain ← load_cert_chain (cert_path signer);
      mret {| eb_config := config; eb_private_key := private_key; eb_cert_url := cert_url signer;
              eb_cert_chain := cert_chain; eb_policy_engine := policy_engine |}
  end.

(** The conversion of a JSON value to a [RawValue] through its text. *)
Definition to_raw (v : Value) : outcome anyhow RawValue :=
  s ← ok_or "to_string" (json_to_string v);
  ok_or "from_str" (raw_from_str s).

(** One claim that stands for validated data: moved to the top level, with the
    JSON claims of the data beside it. *)
Definition lift_claim (name claims_name : string) (data_claims : Value)
    (s : list (string * Value) * gmap string RawValue) :
    outcome anyhow (list (string * Value) * gmap string RawValue) :=
  let '(claims_map, output) := s in
  match obj_swap_remove name claims_map with
  | Some (v, claims_map) =>
      str ← unwrap (as_str v);
      transformed ← to_raw data_claims;
      Ok (claims_map, <[claims_name := transformed]> (<[name := raw_string str]> output))
  | None => Ok (claims_map, output)
  end.

(** [transform_claims]. *)
Definition transform_claims (input_claims init_data_claims runtime_data_claims : Value) (tee : Tee) :
    outcome anyhow (gmap string RawValue) :=
  '(input_claims, output_claims) ←
    match input_claims with
    | VObject claims_map =>
        s ← lift_claim "init_data" "init_data_claims" init_data_claims (claims_map, ∅);
        '(claims_map, output) ← lift_claim "report_data" "runtime_data_claims" runtime_data_claims s;
        Ok (VObject claims_map, output)
    | _ => Ok (input_claims, ∅)
    end;
  transformed ← to_raw input_claims;
  tee_name ← ok_or "variant name" (tee_variant_name tee);
  Ok (<[tee_name := transformed]> output_claims).

(** The loop that copies the results of the policy to the trust vector. *)
Fixpoint set_claims (results : list (string * rego_value)) (tv : TrustVector) : outcome anyhow TrustVector :=
  match results with
  | [] => Ok tv
  | (k, v) :: results =>
      claim_value ← ok_or "Policy claim value not i8" (rego_as_i8 v);
      tv ← unwrap (tv_set_by_name (replace_char "_" "-" k) claim_value tv);
      set_claims results tv
  end.

(** The appraisal of one device. *)
Definition appraise (b : EarAttestationTokenBroker) (reference_data policy : string) (tc : TeeClaims) :
    st Fs anyhow Appraisal :=
  tcb_claims ← st_lift (transform_claims (claims tc) (init_data_claims tc) (runtime_data_claims tc) (tc_tee tc));
  tcb_claims_json ← st_lift (ok_or "to_string" (raw_claims_to_string tcb_claims));
  let policy_id := policy +:+ "_" +:+ tee_class tc in
  policy_results ← st_map_err policy_anyhow
    (as_evaluate (eb_policy_engine b) reference_data tcb_claims_json policy_id tv_tags);
  tv ← st_lift (set_claims (map_to_list (rules_result policy_results)) tv_new);
  if negb (tv_any_set tv) then st_err "At least one policy claim must be set."
  else mret {| ap_status := tv_status tv; trust_vector := tv;
               annotated_evidence := tcb_claims; appraisal_policy_id := policy |}.

(** The index of the next device of a class: an 8-bit counter. *)
Definition next_index (tee_class : string) (indices : gmap string Z) : outcome anyhow (gmap string Z) :=
  match indices !! tee_class with
  | Some i => i ← uint 8 (i + 1); Ok (<[tee_class := i]> indices)
  | None => Ok (<[tee_class := 0]> indices)
  end.

(** The loop over the devices. *)
Fixpoint appraise_all (b : EarAttestationTokenBroker) (reference_data policy : string)
    (all_tee_claims : list TeeClaims) (indices : gmap string Z) (submods : gmap string Appraisal) :
    st Fs anyhow (gmap string Appraisal) :=
  match all_tee_claims with
  | [] => mret submods
  | tc :: all_tee_claims =>
      appraisal ← appraise b reference_data policy tc;
      indices ← st_lift (next_index (tee_class tc) indices);
      index ← st_lift (unwrap (indices !! tee_class tc));
      let submod_name := tee_class tc +:+ fmt_dec index in
      appraise_all b reference_data policy all_tee_claims indices (<[submod_name := appraisal]> submods)
  end.

(** [pubkey_jwk]. *)
Definition pubkey_jwk (b : EarAttestationTokenBroker) : outcome anyhow EarJwk :=
  chain ← match eb_cert_chain b with
          | Some certs => l ← chain_x5c certs; Ok (Some l)
          | None => Ok None
          end;
  '(x, y) ← ok_or "affine_coordinates" (ec_affine (eb_private_key b));
  Ok {| x509_url := eb_cert_url b; x509_chain := chain;
        jwk_x := base64_url_encode x; jwk_y := base64_url_encode y |}.

(** [EarAttestationTokenBroker::issue]. *)
Definition ear_issue (b : EarAttestationTokenBroker) (now : Z) (_id : string)
    (all_tee_claims : list TeeClaims) (policy_ids : list string)
    (reference_data_map : gmap string Value) : st Fs anyhow string :=
  reference_data ← st_lift (ok_or "to_string" (json_to_string (reference_data reference_data_map)));
  policy ← st_lift (ok_or "No policy is given for EAR token generation." (head policy_ids));
  submods ← appraise_all b reference_data policy all_tee_claims ∅ ∅;
  exp ← st_lift (ok_or "Token expiration overflow." (add_minutes now (ec_duration_min (eb_config b))));
  let ear := {| profile := ec_profile_name (eb_config b);
                iat := unix_timestamp now;
                vid_build := ec_build_name (eb_config b);
                vid_developer := ec_developer_name (eb_config b);
                submods := submods;
                ext_exp := unix_timestamp exp |} in
  jwk ← st_lift (pubkey_jwk b);
  st_lift (ok_or "sign" (ear_sign ear jwk (eb_private_key b))).

Definition ear_broker (b : EarAttestationTokenBroker) : AttestationTokenBroker Fs := {|
  issue := ear_issue b;
  broker_set_policy id policy := st_map_err policy_anyhow (as_set_policy (eb_policy_engine b) id policy true);
  broker_list_policies := st_map_err policy_anyhow (as_list_policies (eb_policy_engine b));
  broker_get_policy id := st_map_err policy_anyhow (as_get_policy (eb_policy_engine b) id);
|}.
End EarBroker.
