(* ===== verification/BrokersProofs.v ===== *)
(** * Properties of the token brokers

    Flattening keeps every claim under its path; the simple broker only signs
    what every policy allows; the EAR broker appraises every device with the
    policy of its class, under a name of its own. *)
From S2P Require Import Prelude Types Text Fs Json Session Policy AsPolicy Brokers.

#[local] Arguments String.append !_ _ / : simpl nomatch.

(** ** Flattened claims *)
Lemma Value_ind_nested (P : Value -> Prop) :
  P VNull -> (forall b, P (VBool b)) -> (forall n, P (VNumber n)) -> (forall s, P (VString s)) ->
  (forall l, P (VArray l)) -> (forall m, Forall (fun kv => P kv.2) m -> P (VObject m)) ->
  forall v, P v.
Proof.
  intros H1 H2 H3 H4 H5 H6. fix IH 1. intros [|b|n|s|l|m]; [exact H1|exact (H2 b)|exact (H3 n)|exact (H4 s)|exact (H5 l)|].
  apply H6. induction m as [|[k v] m IHm]; constructor; [apply IH|exact IHm].
Qed.

Definition is_object (v : Value) : bool :=
  match v with
  | VObject _ => true
  | _ => false
  end.

(** The value at a path of keys. *)
Fixpoint value_at (path : list string) (v : Value) : option Value :=
  match path with
  | [] => Some v
  | k :: path =>
      match v with
      | VObject m => v' ← obj_get k m; value_at path v'
      | _ => None
      end
  end.

(** Objects with distinct keys without dots, at every level. *)
Fixpoint plain_keys (v : Value) : Prop :=
  match v with
  | VObject m =>
      NoDup (map fst m) /\
      (fix all (m : list (string * Value)) : Prop :=
         match m with
         | [] => True
         | (k, v) :: m => no_char "." k = true /\ plain_keys v /\ all m
         end) m
  | _ => True
  end.

(** The leaves of a value with their paths, in document order. *)
Fixpoint leaf_paths (v : Value) : list (list string * Value) :=
  match v with
  | VObject m => concat (map (fun kv => map (fun pl => (kv.1 :: pl.1, pl.2)) (leaf_paths kv.2)) m)
  | _ => [([], v)]
  end.

(** The dotted name of a path. *)
Definition dotted (prefix : string) (path : list string) : string :=
  foldl (fun s k => s +:+ "." +:+ k) prefix path.

Lemma plain_keys_object m :
  plain_keys (VObject m) <->
  NoDup (map fst m) /\ Forall (fun kv => no_char "." kv.1 = true /\ plain_keys kv.2) m.
Proof.
  cbn. split; intros [Hn H]; (split; [done|]); clear Hn; induction m as [|[k v] m IH]; cbn in *;
    try done; try (constructor; naive_solver). apply Forall_cons_iff in H. cbn in H. naive_solver.
Qed.

Lemma obj_append_app {A} (m l1 l2 : list (string * A)) :
  obj_append m (l1 ++ l2) = obj_append (obj_append m l1) l2.
Proof. unfold obj_append. apply foldl_app. Qed.

Lemma flatten_helper_spec v parent prefix :
  flatten_helper parent v prefix =
  obj_append parent (map (fun pl => (dotted prefix pl.1, pl.2)) (leaf_paths v)).
Proof.
  revert parent prefix. induction v as [| | | | |m IH] using Value_ind_nested; intros parent prefix; try done.
  cbn [flatten_helper leaf_paths]. revert parent.
  induction IH as [|[k v] m Hv _ IHm]; intros parent; [done|]. cbn [snd] in Hv.
  rewrite Hv, IHm. cbn [map concat fst snd]. rewrite map_app, obj_append_app, map_map. done.
Qed.

Lemma leaf_paths_spec v p l :
  plain_keys v -> (p, l) ∈ leaf_paths v <-> value_at p v = Some l /\ is_object l = false.
Proof.
  revert p. induction v as [| | | | |m IH] using Value_ind_nested; intros p Hp;
    try (destruct p; cbn; rewrite list_elem_of_singleton; naive_solver).
  apply plain_keys_object in Hp as [Hn Hp]. cbn [leaf_paths].
  assert (Hm : (p, l) ∈ concat (map (fun kv => map (fun pl => (kv.1 :: pl.1, pl.2)) (leaf_paths kv.2)) m) <->
    exists k v q, (k, v) ∈ m /\ p = k :: q /\ (q, l) ∈ leaf_paths v).
  { clear. induction m as [|[k v] m IHm]; cbn.
    - split; [intros H%elem_of_nil; done|]. intros (? & ? & ? & H%elem_of_nil & _). done.
    - rewrite elem_of_app, IHm, list_elem_of_fmap. setoid_rewrite elem_of_cons. split.
      + intros [([q l'] & [= -> ->] & Hq)|(k' & v' & q & Hin & -> & Hq)]; eauto 10.
      + intros (k' & v' & q & [[= -> ->]|Hin] & -> & Hq); [left|right]; eauto 10.
        now exists (q, l). }
  rewrite Hm. clear Hm. split.
  - intros (k & v & q & Hin & -> & Hq). cbn.
    rewrite (proj2 (obj_get_elem k m v Hn) Hin). cbn.
    apply list_elem_of_In in Hin. rewrite List.Forall_forall in IH, Hp.
    apply (IH _ Hin); [now apply (Hp _ Hin)|done].
  - intros [Hv Hl]. destruct p as [|k q]; [injection Hv as <-; done|]. cbn in Hv.
    destruct (obj_get k m) as [v|] eqn:E; [|done]. apply (obj_get_elem k m v Hn) in E as Hin.
    exists k, v, q. split; [done|]. split; [done|].
    apply list_elem_of_In in Hin. rewrite List.Forall_forall in IH, Hp.
    apply (IH _ Hin); [now apply (Hp _ Hin)|done].
Qed.

Lemma obj_get_None {A} k (m : list (string * A)) : obj_get k m = None <-> k ∉ map fst m.
Proof.
  induction m as [|[k' v] m IH]; cbn; [split; [intros _ H%elem_of_nil; done|done]|].
  rewrite not_elem_of_cons. case_decide; [naive_solver|]. rewrite IH. naive_solver.
Qed.

Lemma obj_get_append {A} k (m l : list (string * A)) :
  NoDup (map fst l) ->
  obj_get k (obj_append m l) = match obj_get k l with Some v => Some v | None => obj_get k m end.
Proof.
  unfold obj_append. revert m. induction l as [|[k' v] l IH]; intros m Hn; [done|].
  cbn in Hn. apply list.NoDup_cons in Hn as [Hni Hn]. cbn. rewrite (IH _ Hn).
  case_decide as E; subst.
  - rewrite (proj2 (obj_get_None k' l)) by done. apply obj_get_insert_eq.
  - destruct (obj_get k l); [done|]. now apply obj_get_insert_ne.
Qed.

Definition starts_dot (s : string) : Prop := s = "" \/ exists r, s = String.String "." r.

Lemma dotless_prefix k k' r r' :
  no_char "." k = true -> no_char "." k' = true -> starts_dot r -> starts_dot r' ->
  (k +:+ r = k' +:+ r')%string -> k = k' /\ r = r'.
Proof.
  unfold no_char. revert k'. induction k as [|c k IH]; intros k' Hk Hk' Hr Hr' E.
  - destruct k' as [|c' k']; [done|]. cbn [all_chars] in Hk'. apply andb_prop in Hk' as [Hc _].
    cbn in E. destruct Hr as [->|[s ->]]; [done|]. injection E as <- _. done.
  - cbn [all_chars] in Hk. apply andb_prop in Hk as [Hc Hk]. destruct k' as [|c' k'].
    + cbn in E. destruct Hr' as [->|[s ->]]; [done|]. injection E as -> _. done.
    + cbn in E. injection E as -> E. cbn [all_chars] in Hk'. apply andb_prop in Hk' as [_ Hk'].
      destruct (IH k' Hk Hk' Hr Hr' E) as [-> ->]. done.
Qed.

Fixpoint dot_suffix (path : list string) : string :=
  match path with
  | [] => ""
  | k :: path => String.String "." (k +:+ dot_suffix path)
  end.

Lemma dotted_suffix prefix path : dotted prefix path = (prefix +:+ dot_suffix path)%string.
Proof.
  unfold dotted. revert prefix. induction path as [|k path IH]; intros prefix; cbn [foldl dot_suffix].
  - now rewrite app_string_nil.
  - rewrite IH, app_string_assoc. f_equal.
Qed.

Lemma dot_suffix_starts path : starts_dot (dot_suffix path).
Proof. destruct path; [now left|right; cbn; eauto]. Qed.

Definition dotless (path : list string) : Prop := Forall (fun k => no_char "." k = true) path.

Lemma dot_suffix_inj p q : dotless p -> dotless q -> dot_suffix p = dot_suffix q -> p = q.
Proof.
  intros Hp. revert q. induction Hp as [|k p Hk _ IH]; intros q Hq E.
  - destruct q; [done|]. done.
  - destruct q as [|k' q]; [done|]. apply Forall_cons_iff in Hq as [Hk' Hq].
    cbn [dot_suffix] in E. injection E as E.
    destruct (dotless_prefix _ _ _ _ Hk Hk' (dot_suffix_starts p) (dot_suffix_starts q) E) as [-> E'].
    f_equal. now apply IH.
Qed.

Lemma app_string_inj s t u : (s +:+ t = s +:+ u)%string -> t = u.
Proof. induction s as [|c s IH]; [done|]. cbn. intros [= E]. auto. Qed.

Lemma dotted_inj prefix p q :
  dotless p -> dotless q -> dotted prefix p = dotted prefix q -> p = q.
Proof. rewrite !dotted_suffix. intros Hp Hq E%app_string_inj. now apply dot_suffix_inj. Qed.

Lemma value_at_dotless p v l : plain_keys v -> value_at p v = Some l -> dotless p.
Proof.
  revert v. induction p as [|k p IH]; intros v Hv H; [constructor|].
  destruct v as [| | | | |m]; try done. cbn in H. apply plain_keys_object in Hv as [Hn Hm].
  destruct (obj_get k m) as [v|] eqn:E; [|done]. apply (obj_get_elem _ _ _ Hn), list_elem_of_In in E.
  rewrite List.Forall_forall in Hm. destruct (Hm _ E) as [Hk Hv]. constructor; [done|]. now apply (IH v).
Qed.

Lemma leaf_paths_NoDup v : plain_keys v -> NoDup (map fst (leaf_paths v)).
Proof.
  induction v as [| | | | |m IH] using Value_ind_nested; intros Hv; try apply NoDup_singleton.
  apply plain_keys_object in Hv as [Hn Hm]. cbn [leaf_paths].
  induction IH as [|[k v] m Hv _ IHm]; [constructor|]. cbn [map concat fst snd] in *.
  apply list.NoDup_cons in Hn as [Hni Hn]. apply Forall_cons_iff in Hm as [[_ Hk] Hm].
  rewrite map_app, !map_map. apply list.NoDup_app. split; [|split; [|auto]].
  - cbn [fst]. rewrite <- (map_map fst (cons k)). apply NoDup_fmap_2; [|auto]. intros ?? [= ->]. done.
  - intros p Hp Hq. apply list_elem_of_fmap in Hp as ([p' l] & -> & _). cbn in Hq.
    apply list_elem_of_fmap in Hq as ([q' l'] & Hq & Hin). cbn in Hq. subst q'. destruct Hni.
    clear - Hin. induction m as [|[k' v'] m IHm]; [now apply elem_of_nil in Hin|]. cbn in Hin |- *.
    apply elem_of_app in Hin as [Hin|Hin]; [|right; auto].
    apply list_elem_of_fmap in Hin as (x & [= -> _ _] & _). left.
Qed.

Section FlattenClaims.
Context `{BC : BrokerCrates}.

Definition ordinary (obj : list (string * Value)) : list (string * Value) :=
  List.filter (fun kv => negb (is_special kv.1)) obj.

Lemma flatten_entries_spec name obj m :
  flatten_entries name obj m =
  obj_append m (map (fun pl => (dotted name pl.1, pl.2)) (leaf_paths (VObject (ordinary obj)))).
Proof.
  revert m. induction obj as [|[k v] obj IH]; intros m; [done|]. cbn [flatten_entries ordinary List.filter fst].
  rewrite IH. destruct (is_special k); cbn [negb]; [done|].
  rewrite flatten_helper_spec. cbn [leaf_paths map concat fst snd]. rewrite map_app, obj_append_app, map_map. done.
Qed.

Lemma ordinary_get k obj : is_special k = false -> obj_get k (ordinary obj) = obj_get k obj.
Proof.
  intros Hk. induction obj as [|[k' v] obj IH]; [done|]. cbn.
  destruct (is_special k') eqn:E; cbn; case_decide; subst; try done; congruence.
Qed.

Lemma ordinary_special k obj : is_special k = true -> obj_get k (ordinary obj) = None.
Proof.
  intros Hk. induction obj as [|[k' v] obj IH]; [done|]. cbn.
  destruct (is_special k') eqn:E; cbn; [done|]. case_decide; subst; [congruence|done].
Qed.

Lemma ordinary_plain obj : plain_keys (VObject obj) -> plain_keys (VObject (ordinary obj)).
Proof.
  rewrite !plain_keys_object. intros [Hn Hm]. induction obj as [|[k v] obj IH]; [done|].
  cbn in Hn. apply list.NoDup_cons in Hn as [Hni Hn]. apply Forall_cons_iff in Hm as [Hk Hm].
  destruct (IH Hn Hm) as [IH1 IH2]. cbn. destruct (negb (is_special k)) eqn:E; [|done].
  split; [|now constructor]. cbn. apply list.NoDup_cons. split; [|done]. intros Hin. apply Hni.
  apply list_elem_of_fmap in Hin as (x & -> & Hx). apply list_elem_of_fmap. exists x. split; [done|].
  apply list_elem_of_In in Hx. apply filter_In in Hx as [Hx _]. now apply list_elem_of_In.
Qed.

(** The entries of a flattened map that come from the ordinary claims. *)
Lemma flattened_get name obj n l :
  plain_keys (VObject obj) ->
  obj_get n (flatten_entries name obj []) = Some l <->
  exists k path, is_special k = false /\ n = dotted name (k :: path) /\
    value_at (k :: path) (VObject obj) = Some l /\ is_object l = false.
Proof.
  intros Hp%ordinary_plain. rewrite flatten_entries_spec.
  set (names := map _ _).
  assert (Hn : NoDup (map fst names)).
  { unfold names. rewrite map_map. cbn [fst]. rewrite <- (map_map fst (dotted name)).
    apply NoDup_fmap_2_strong; [|now apply leaf_paths_NoDup]. intros p q Hpp Hq E.
    apply list_elem_of_fmap in Hpp as ([p' lp] & -> & Hpp). apply list_elem_of_fmap in Hq as ([q' lq] & -> & Hq).
    apply leaf_paths_spec in Hpp as [Hpp _]; [|done]. apply leaf_paths_spec in Hq as [Hq _]; [|done].
    apply (dotted_inj name); eauto using value_at_dotless. }
  rewrite obj_get_append by done. cbn [obj_get].
  transitivity (obj_get n names = Some l); [destruct (obj_get n names); naive_solver|].
  rewrite (obj_get_elem _ _ _ Hn). unfold names. rewrite list_elem_of_fmap. split.
  - intros ([p l'] & [= -> ->] & Hin). apply leaf_paths_spec in Hin as [Hv Hl]; [|done].
    destruct p as [|k path]; [injection Hv as <-; done|]. exists k, path. cbn in Hv |- *.
    destruct (is_special k) eqn:Ek; [now rewrite ordinary_special in Hv|].
    now rewrite ordinary_get in Hv.
  - intros (k & path & Hk & -> & Hv & Hl). exists (k :: path, l). split; [done|].
    apply leaf_paths_spec; [done|]. split; [|done]. cbn in Hv |- *. now rewrite ordinary_get.
Qed.

(** Flattening keeps every claim under its path.  For claims whose keys are
    distinct and contain no dot, each scalar or array below an ordinary key is
    found in the flattened map under the name of the TEE followed by its path,
    and every other entry of the map is [report_data] or [init_data], which hold
    the corresponding claims or the empty string. *)
Theorem flatten_claims_faithful tee name obj m :
  tee_variant_name tee = Some name -> plain_keys (VObject obj) ->
  flatten_claims tee (VObject obj) = Ok m ->
  obj_get "report_data" m = Some (default (VString "") (obj_get "report_data" obj)) /\
  obj_get "init_data" m = Some (default (VString "") (obj_get "init_data" obj)) /\
  forall n l, is_special n = false ->
    (obj_get n m = Some l <->
     exists k path, is_special k = false /\ n = dotted name (k :: path) /\
       value_at (k :: path) (VObject obj) = Some l /\ is_object l = false).
Proof.
  intros Ht Hp H. unfold flatten_claims in H. rewrite Ht in H. cbn [ok_or mbind outcome_bind] in H.
  injection H as <-. split; [|split].
  - rewrite obj_get_insert_ne by done. apply obj_get_insert_eq.
  - apply obj_get_insert_eq.
  - intros n l Hn. rewrite !obj_get_insert_ne by (intros <-; discriminate Hn). now apply flattened_get.
Qed.
End FlattenClaims.

(** ** The simple broker *)
Section SimpleProofs.
Context `{Dk : Disk} `{A : AsPolicyCrates} `{BC : BrokerCrates} `{T : TimeCrate}.

(** Evaluating a policy reads its file only. *)
Lemma as_evaluate_pure o data input id rules fs fs' r :
  as_evaluate o data input id rules fs = (fs', r) -> fs' = fs /\ r <> Panic.
Proof.
  unfold as_evaluate, fs_read. exec. intros H.
  repeat first [progress simplify_eq | case_match; cbn in * ]; done.
Qed.

Definition allows (o : OPA) (refd tcb pid : string) (fs : Fs) (hash : string) : Prop :=
  exists res, as_evaluate o refd tcb pid ["allow"] fs = (fs, Ok res) /\
    (rules_result res !! "allow" ≫= rego_as_bool) = Some true /\ policy_hash res = hash.

Lemma simple_policies_spec o refd tcb pids acc fs fs' policies :
  simple_policies o refd tcb pids acc fs = (fs', Ok policies) ->
  fs' = fs /\ forall pid,
    if decide (pid ∈ pids) then exists hash, policies !! pid = Some hash /\ allows o refd tcb pid fs hash
    else policies !! pid = acc !! pid.
Proof.
  revert acc. induction pids as [|i pids IH]; intros acc H; cbn [simple_policies] in H.
  { injection H as <- <-. split; [done|]. intros pid. now rewrite decide_False by apply not_elem_of_nil. }
  inv_st. match goal with E : as_evaluate _ _ _ _ _ _ = _ |- _ =>
    pose proof (as_evaluate_pure _ _ _ _ _ _ _ _ E) as [-> _] end.
  inv_ok. destruct a1; cbn [negb] in H; [|discriminate H].
  destruct (IH _ H) as [-> Hp]. split; [done|]. intros pid. specialize (Hp pid).
  destruct (decide (pid = i)) as [->|Hne].
  - rewrite decide_True by left. case_decide; [done|]. rewrite lookup_insert_eq in Hp.
    eexists. split; [done|]. eexists. split; [done|]. split; [|done].
    match goal with E : rules_result _ !! _ = Some _ |- _ => rewrite E end. done.
  - rewrite lookup_insert_ne in Hp by done. destruct (decide (pid ∈ pids)).
    + now rewrite decide_True by now right.
    + rewrite decide_False; [done|]. now intros [?|?]%elem_of_cons.
Qed.

(** C28: the simple broker signs only what every policy allows.  A token is
    issued only if there is at least one device, the claims of all devices
    flatten, and each requested policy evaluates [allow] to true on the
    flattened claims and the reference values; it lists exactly these policies
    with their hashes, carries the first device's runtime and init data, expires
    after the configured time, and is signed with the broker's key.  Issuing
    changes no file. *)
Theorem simple_token_sound b now id tcs pids refs fs fs' token :
  simple_issue b now id tcs pids refs fs = (fs', Ok token) ->
  fs' = fs /\
  exists first rest flat tcb refd (policies : gmap string string) header jwt body sig exp,
    tcs = first :: rest /\ flatten_all tcs [] = Ok flat /\
    json_to_string (VObject flat) = Some tcb /\ json_to_string (reference_data refs) = Some refd /\
    (forall pid, pid ∈ pids <-> is_Some (policies !! pid)) /\
    (forall pid hash, policies !! pid = Some hash -> allows (sb_policy_engine b) refd tcb pid fs hash) /\
    add_minutes now (sc_duration_min (sb_config b)) = Some exp /\
    obj_get "exp" jwt = Some (num (unix_timestamp exp)) /\
    obj_get "evaluation-reports" jwt = Some (VArray (map (fun kv =>
      VObject [("policy-id", VString kv.1); ("policy-hash", VString kv.2)]) (map_to_list policies))) /\
    obj_get "tcb-status" jwt = Some (VString tcb) /\
    obj_get "customized_claims" jwt =
      Some (VObject [("init_data", init_data_claims first); ("runtime_data", runtime_data_claims first)]) /\
    json_to_string (VObject jwt) = Some body /\
    (let payload := header +:+ "." +:+ base64_url_encode (str_bytes body) in
     rs384 (sb_private_key b) (str_bytes payload) = Some sig /\
     token = payload +:+ "." +:+ base64_url_encode sig).
Proof.
  intros H. unfold simple_issue in H. inv_st.
  match goal with E : simple_policies _ _ _ _ _ _ = _ |- _ =>
    apply simple_policies_spec in E as [-> Hp] end. split; [done|].
  repeat match goal with
    | E : ok_or _ _ = Ok _ |- _ => apply ok_or_Ok in E
    | E : unwrap ?o = Ok _ |- _ => let F := fresh in destruct o eqn:F; [|discriminate E]; injection E as <-
    end.
  destruct tcs as [|first rest]; [discriminate|].
  match goal with E : head _ = Some _ |- _ => injection E as <- end.
  match goal with E : json_to_string (VObject (("iss", ?i) :: ?jwt)) = Some ?body |- _ =>
    eexists first, rest, _, _, _, _, _, (("iss", i) :: jwt), body, _, _ end. split; [done|].
  do 3 (split; [eassumption|]). split; [|split; [|split; [reflexivity|]]].
  - intros pid. specialize (Hp pid). destruct (decide (pid ∈ pids)).
    + destruct Hp as (hash & Hh & _). rewrite Hh. split; [eauto|done].
    + rewrite Hp, lookup_empty. split; [done|]. now intros [? ?].
  - intros pid hash Hh. specialize (Hp pid). destruct (decide (pid ∈ pids)).
    + destruct Hp as (hash' & Hh' & Ha). assert (hash' = hash) as -> by congruence. done.
    + rewrite Hp, lookup_empty in Hh. done.
  - do 4 (split; [reflexivity|]). split; [eassumption|]. split; [eassumption|reflexivity].
Qed.
End SimpleProofs.

(** ** Names of submodules *)
Definition is_digit (c : ascii) : bool := between 48 57 (Z.of_N (N_of_ascii c)).

(** A string without its trailing digits. *)
Fixpoint strip_digits (s : string) : string :=
  match s with
  | EmptyString => ""
  | String.String c r =>
      let r' := strip_digits r in
      if String.eqb r' "" && is_digit c then "" else String.String c r'
  end.

Lemma strip_digits_all d : all_chars is_digit d = true -> strip_digits d = "".
Proof.
  induction d as [|c d IH]; [done|]. cbn [all_chars strip_digits]. intros [Hc Hd]%andb_prop.
  now rewrite (IH Hd), Hc.
Qed.

Lemma strip_digits_app s d : all_chars is_digit d = true -> strip_digits (s +:+ d) = strip_digits s.
Proof.
  intros Hd. induction s as [|c s IH]; cbn [String.append strip_digits]; [now apply strip_digits_all|].
  now rewrite IH.
Qed.

Lemma digits_are_digits fuel n s :
  0 <= n -> all_chars is_digit s = true -> all_chars is_digit (digits fuel false 10 n s) = true.
Proof.
  revert n s. induction fuel as [|fuel IH]; intros n s Hn Hs; [done|]. cbn [digits].
  pose proof (Z.mod_pos_bound n 10 ltac:(lia)).
  assert (Hd : all_chars is_digit (String.String (digit_char false (n mod 10)) s) = true).
  { cbn [all_chars]. rewrite Hs, andb_true_r. unfold is_digit, digit_char.
    rewrite (proj2 (Z.ltb_lt _ 10)) by lia. rewrite N_ascii_embedding by lia.
    apply between_spec. lia. }
  destruct (n / 10 =? 0); [done|]. apply IH; [|done]. apply Z.div_pos; lia.
Qed.

Lemma fmt_dec_digits n : 0 <= n -> all_chars is_digit (fmt_dec n) = true.
Proof. intros Hn. now apply digits_are_digits. Qed.

Lemma submod_name_inj c c' i j :
  strip_digits c = c -> strip_digits c' = c' -> 0 <= i < 2 ^ 63 -> 0 <= j < 2 ^ 63 ->
  (c +:+ fmt_dec i = c' +:+ fmt_dec j)%string -> c = c' /\ i = j.
Proof.
  intros Hc Hc' Hi Hj E. pose proof (f_equal strip_digits E) as Es.
  rewrite !strip_digits_app in Es by (apply fmt_dec_digits; lia). rewrite Hc, Hc' in Es. subst c'.
  split; [done|]. apply fmt_dec_inj; [done..|]. now apply app_string_inj in E.
Qed.

(** ** The EAR broker *)
Definition class_count (c : string) (l : list TeeClaims) : nat :=
  length (List.filter (fun tc => String.eqb (tee_class tc) c) l).

Lemma class_count_snoc c l tc :
  class_count c (l ++ [tc]) = (class_count c l + if String.eqb (tee_class tc) c then 1 else 0)%nat.
Proof.
  unfold class_count. rewrite filter_app, length_app. cbn. now destruct (String.eqb _ c).
Qed.

(** The name of a device: its class and its position among the devices of that class. *)
Definition submod_name (l : list TeeClaims) (i : nat) (tc : TeeClaims) : string :=
  tee_class tc +:+ fmt_dec (Z.of_nat (class_count (tee_class tc) (take i l))).

Section EarProofs.
Context `{P : Profile} `{Dk : Disk} `{A : AsPolicyCrates} `{BC : BrokerCrates} `{T : TimeCrate} `{EC : EarCrate}.
Context (ear_sign : Ear -> EarJwk -> EcKey -> option string).

Lemma appraise_pure b refd policy tc fs fs' ap :
  appraise b refd policy tc fs = (fs', Ok ap) ->
  fs' = fs /\ tv_any_set (trust_vector ap) = true /\ ap_status ap = tv_status (trust_vector ap) /\
  appraisal_policy_id ap = policy /\
  exists res json,
    transform_claims (claims tc) (init_data_claims tc) (runtime_data_claims tc) (tc_tee tc)
      = Ok (annotated_evidence ap) /\
    raw_claims_to_string (annotated_evidence ap) = Some json /\
    as_evaluate (eb_policy_engine b) refd json (policy +:+ "_" +:+ tee_class tc) tv_tags fs = (fs, Ok res) /\
    set_claims (map_to_list (rules_result res)) tv_new = Ok (trust_vector ap).
Proof.
  intros H. unfold appraise in H. inv_st. inv_ok.
  match goal with E : as_evaluate _ _ _ _ _ _ = _ |- _ =>
    pose proof (as_evaluate_pure _ _ _ _ _ _ _ _ E) as [-> _] end.
  match type of H with (if negb ?b then _ else _) _ = _ => destruct b eqn:Et; [|discriminate H] end.
  injection H as <- <-. cbn. naive_solver.
Qed.

(** The counters and the submodules after a prefix of the devices. *)
Record appraised (b : EarAttestationTokenBroker) (refd policy : string) (fs : Fs) (l : list TeeClaims)
    (indices : gmap string Z) (sm : gmap string Appraisal) : Prop := {
  idx_inv : forall c, indices !! c =
    match class_count c l with O => None | Datatypes.S n => Some (Z.of_nat n) end;
  size_inv : size sm = length l;
  name_inv : forall i tc, l !! i = Some tc -> exists ap,
    sm !! submod_name l i tc = Some ap /\ appraise b refd policy tc fs = (fs, Ok ap);
  dom_inv : forall n, is_Some (sm !! n) -> exists i tc, l !! i = Some tc /\ n = submod_name l i tc;
}.

Lemma class_count_lt l i tc :
  l !! i = Some tc -> (class_count (tee_class tc) (take i l) < class_count (tee_class tc) l)%nat.
Proof.
  intros H. rewrite <- (take_drop_middle _ _ _ H) at 2. unfold class_count.
  rewrite filter_app, length_app. cbn. rewrite String.eqb_refl. cbn. lia.
Qed.

Lemma class_count_take_le c l i : (class_count c (take i l) <= class_count c l)%nat.
Proof.
  rewrite <- (take_drop i l) at 2. unfold class_count. rewrite filter_app, length_app. lia.
Qed.

Lemma submod_name_app l k i tc : (i < length l)%nat -> submod_name (l ++ k) i tc = submod_name l i tc.
Proof. intros Hi. unfold submod_name. now rewrite take_app_le by lia. Qed.

Lemma next_index_spec b refd policy fs l indices sm tc :
  appraised b refd policy fs l indices sm -> (class_count (tee_class tc) l < 256)%nat ->
  next_index (tee_class tc) indices =
    Ok (<[tee_class tc := Z.of_nat (class_count (tee_class tc) l)]> indices).
Proof.
  intros Ha Hc. unfold next_index. rewrite (idx_inv _ _ _ _ _ _ _ Ha).
  destruct (class_count (tee_class tc) l) as [|n]; [done|].
  rewrite uint_small by (cbn; lia). cbn. do 2 f_equal. lia.
Qed.

Lemma submod_fresh b refd policy fs l indices sm tc :
  appraised b refd policy fs l indices sm ->
  Forall (fun tc => strip_digits (tee_class tc) = tee_class tc) (l ++ [tc]) ->
  (forall c, (class_count c l <= 256)%nat) ->
  sm !! (tee_class tc +:+ fmt_dec (Z.of_nat (class_count (tee_class tc) l))) = None.
Proof.
  intros Ha Hs Hc. destruct (sm !! _) as [ap|] eqn:E; [|done]. exfalso.
  destruct (dom_inv _ _ _ _ _ _ _ Ha _ (mk_is_Some _ _ E)) as (i & tc' & Hi & Hn).
  apply Forall_app in Hs as [Hl Htc]. apply Forall_cons_iff in Htc as [Htc _].
  pose proof (Forall_lookup_1 _ _ _ _ Hl Hi) as Hs'. cbn in Hs'. unfold submod_name in Hn.
  pose proof (Hc (tee_class tc)). pose proof (Hc (tee_class tc')).
  pose proof (class_count_take_le (tee_class tc') l i).
  apply submod_name_inj in Hn as [Hcl Hidx]; [|done|done|lia|lia].
  pose proof (class_count_lt _ _ _ Hi). rewrite Hcl in Hidx. lia.
Qed.

Lemma appraised_snoc b refd policy fs l indices sm tc ap :
  appraised b refd policy fs l indices sm ->
  Forall (fun tc => strip_digits (tee_class tc) = tee_class tc) (l ++ [tc]) ->
  (forall c, (class_count c l <= 256)%nat) ->
  appraise b refd policy tc fs = (fs, Ok ap) ->
  let n := Z.of_nat (class_count (tee_class tc) l) in
  appraised b refd policy fs (l ++ [tc]) (<[tee_class tc := n]> indices)
    (<[tee_class tc +:+ fmt_dec n := ap]> sm).
Proof.
  intros Ha Hs Hc Hap n. pose proof (submod_fresh _ _ _ _ _ _ _ _ Ha Hs Hc) as Hf. fold n in Hf.
  assert (Hlast : submod_name (l ++ [tc]) (length l) tc = tee_class tc +:+ fmt_dec n)
    by (unfold submod_name; now rewrite take_app_length).
  constructor.
  - intros c. rewrite class_count_snoc. destruct (String.eqb_spec (tee_class tc) c) as [<-|Hne].
    + rewrite lookup_insert_eq, Nat.add_1_r. done.
    + rewrite lookup_insert_ne, Nat.add_0_r by done. apply (idx_inv _ _ _ _ _ _ _ Ha).
  - rewrite map_size_insert_None, length_app by done. rewrite (size_inv _ _ _ _ _ _ _ Ha). cbn. lia.
  - intros i tc' Hi. apply lookup_app_Some in Hi as [Hi|[Hle Hi]].
    + destruct (name_inv _ _ _ _ _ _ _ Ha _ _ Hi) as (ap' & Hs' & Ha'). exists ap'.
      rewrite submod_name_app by (eapply lookup_lt_Some; eauto). split; [|done].
      rewrite lookup_insert_ne; [done|]. intros E. rewrite E in Hf. congruence.
    + destruct (i - length l)%nat as [|k] eqn:Ek; [|destruct k; discriminate Hi]. injection Hi as <-.
      replace i with (length l) by lia. rewrite Hlast, lookup_insert_eq. eauto.
  - intros m [ap' Hm]. destruct (decide (m = tee_class tc +:+ fmt_dec n)) as [->|Hne].
    + exists (length l), tc. split; [apply list_lookup_middle; done|done].
    + rewrite lookup_insert_ne in Hm by congruence.
      destruct (dom_inv _ _ _ _ _ _ _ Ha _ (mk_is_Some _ _ Hm)) as (i & tc' & Hi & ->).
      exists i, tc'. split; [now apply lookup_app_l_Some|].
      now rewrite submod_name_app by (eapply lookup_lt_Some; eauto).
Qed.

Lemma appraised_nil b refd policy fs : appraised b refd policy fs [] ∅ ∅.
Proof. constructor; [done|done|done|]. intros n [? Hn]. now rewrite lookup_empty in Hn. Qed.

Lemma appraise_all_spec b refd policy fs fs' k l indices sm sm' :
  appraised b refd policy fs l indices sm ->
  Forall (fun tc => strip_digits (tee_class tc) = tee_class tc) (l ++ k) ->
  (forall c, (class_count c (l ++ k) <= 256)%nat) ->
  appraise_all b refd policy k indices sm fs = (fs', Ok sm') ->
  fs' = fs /\ exists indices', appraised b refd policy fs (l ++ k) indices' sm'.
Proof.
  revert l indices sm. induction k as [|tc k IH]; intros l indices sm Ha Hs Hc H; cbn [appraise_all] in H.
  { injection H as <- <-. rewrite app_nil_r. eauto. }
  assert (Hl : l ++ tc :: k = (l ++ [tc]) ++ k) by now rewrite <- app_assoc.
  rewrite Hl in Hs, Hc |- *.
  assert (Hcl : forall c, (class_count c (l ++ [tc]) <= 256)%nat).
  { intros c. specialize (Hc c). unfold class_count in *. rewrite filter_app, length_app in Hc. lia. }
  assert (Hct : (class_count (tee_class tc) l < 256)%nat).
  { specialize (Hcl (tee_class tc)). rewrite class_count_snoc, String.eqb_refl in Hcl. lia. }
  apply st_bind_Ok in H as (fs1 & ap & Hap & H).
  destruct (appraise_pure _ _ _ _ _ _ _ Hap) as [-> _].
  rewrite (next_index_spec _ _ _ _ _ _ _ _ Ha Hct) in H. exec.
  apply st_bind_Ok in H as (fs2 & idx & [= <- <-] & H).
  rewrite lookup_insert_eq in H. apply st_bind_Ok in H as (fs3 & n & [= <- <-] & H).
  refine (IH _ _ _ _ Hs Hc H). apply appraised_snoc; [done| |intros c|done].
  - apply Forall_app in Hs as [Hs _]. done.
  - specialize (Hcl c). rewrite class_count_snoc in Hcl. lia.
Qed.

(** *** The first device of a class keeps its name *)

(** Only a first [cpu] device is called [cpu0]. *)
Lemma cpu0_name c i : 0 <= i < 2 ^ 63 -> (c +:+ fmt_dec i = "cpu0")%string -> c = "cpu" /\ i = 0.
Proof.
  intros Hi E. pose proof (fmt_dec_digits i ltac:(lia)) as Hd.
  destruct (fmt_dec i) as [|x r] eqn:Ed.
  { pose proof Ed as E0. apply (f_equal (decimal 0)) in E0. unfold fmt_dec in E0.
    rewrite decimal_digits in E0 by (cbn; lia). cbn in E0. injection E0 as ->. discriminate Ed. }
  assert (c = "cpu" /\ String.String x r = "0") as [-> H0].
  { destruct c as [|c1 [|c2 [|c3 [|c4 c]]]]; cbn in E; injection E; intros; subst; try done.
    destruct c; discriminate. }
  split; [done|]. apply fmt_dec_inj; [done|lia|]. now rewrite Ed, H0.
Qed.

(** The counters after any step are those of devices. *)
Definition counted (indices : gmap string Z) : Prop := map_Forall (fun _ i => 0 <= i < 256) indices.

Lemma next_index_counted c indices indices' :
  counted indices -> next_index c indices = Ok indices' ->
  counted indices' /\ exists i, 0 <= i < 256 /\ indices' = <[c := i]> indices /\
    (forall n, indices !! c = Some n -> n < 255 -> i = n + 1).
Proof.
  intros Hi. unfold next_index. destruct (indices !! c) as [n|] eqn:En.
  - pose proof (Hi _ _ En) as Hn. cbn in Hn. intros H. apply bind_Ok in H as (i & Hu & [= <-]).
    assert (0 <= i < 256 /\ (n < 255 -> i = n + 1)) as [Hb Hs].
    { unfold uint in Hu. destruct (_ && _) eqn:Eb.
      - apply andb_prop in Eb as [E1%Z.leb_le E2%Z.ltb_lt]. injection Hu as <-. change (2 ^ 8) with 256 in E2. lia.
      - destruct overflow_checks; [discriminate|]. injection Hu as <-. change (2 ^ 8) with 256 in Eb |- *.
        pose proof (Z.mod_pos_bound (n + 1) 256 ltac:(lia)). split; [lia|].
        intros. apply andb_false_iff in Eb as [E%Z.leb_gt|E%Z.ltb_ge]; lia. }
    split; [now apply map_Forall_insert_2|]. exists i. naive_solver.
  - intros [= <-]. split; [apply map_Forall_insert_2; [lia|done]|]. exists 0. naive_solver lia.
Qed.

Lemma cpu0_kept b refd policy k indices sm fs fs' sm' n ap :
  counted indices -> indices !! "cpu" = Some n -> n + Z.of_nat (class_count "cpu" k) < 256 ->
  sm !! "cpu0" = Some ap -> appraise_all b refd policy k indices sm fs = (fs', Ok sm') ->
  sm' !! "cpu0" = Some ap.
Proof.
  revert indices sm fs n. induction k as [|tc k IH]; intros indices sm fs n Hc Hn Hb Hs H; cbn [appraise_all] in H.
  { now injection H as <- <-. }
  apply st_bind_Ok in H as (fs1 & ap' & _ & H). apply st_bind_Ok in H as (fs2 & indices' & Hi & H).
  injection Hi as <- Hi. destruct (next_index_counted _ _ _ Hc Hi) as (Hc' & i & Hi0 & -> & Hnext).
  rewrite lookup_insert_eq in H. apply st_bind_Ok in H as (fs3 & i' & [= <- <-] & H).
  pose proof (Hc _ _ Hn) as Hn0. cbn in Hn0.
  assert (Hne : (tee_class tc +:+ fmt_dec i <> "cpu0")%string).
  { intros [Hcl ->]%cpu0_name; [|lia]. rewrite Hcl in Hnext.
    unfold class_count in Hb. cbn in Hb. rewrite Hcl, String.eqb_refl in Hb. cbn [length] in Hb.
    specialize (Hnext n Hn ltac:(lia)). lia. }
  unfold class_count in Hb. cbn [List.filter] in Hb. destruct (String.eqb_spec (tee_class tc) "cpu") as [Hcl|Hcl].
  - rewrite Hcl in *. cbn [length] in Hb. rewrite (Hnext n Hn ltac:(lia)) in *.
    refine (IH _ _ _ (n + 1) Hc' (lookup_insert_eq _ _ _) _ _ H); [unfold class_count; lia|].
    now rewrite lookup_insert_ne by congruence.
  - refine (IH _ _ _ n Hc' _ _ _ H); [now rewrite lookup_insert_ne|exact Hb|].
    now rewrite lookup_insert_ne by congruence.
Qed.

(** The token of devices of which the first is a [cpu]. *)
Lemma ear_issue_first b now id tc rest p refs fs fs' token :
  ear_issue ear_sign b now id (tc :: rest) [p] refs fs = (fs', Ok token) ->
  tee_class tc = "cpu" -> (class_count "cpu" rest < 256)%nat ->
  exists refd ear jwk ap, json_to_string (reference_data refs) = Some refd /\
    ear_sign ear jwk (eb_private_key b) = Some token /\
    submods ear !! "cpu0" = Some ap /\ appraise b refd p tc fs = (fs, Ok ap).
Proof.
  intros H Hcl Hc. unfold ear_issue in H. inv_st. inv_ok.
  match goal with E : appraise_all _ _ _ _ _ _ _ = _ |- _ => rename E into Ha end.
  cbn [appraise_all head] in *. simplify_eq. apply st_bind_Ok in Ha as (fs1 & ap & Hap & Ha).
  destruct (appraise_pure _ _ _ _ _ _ _ Hap) as [-> _]. rewrite Hcl in Ha.
  unfold next_index in Ha. rewrite lookup_empty in Ha. exec.
  apply st_bind_Ok in Ha as (fs2 & idx & [= <- <-] & Ha).
  rewrite lookup_insert_eq in Ha. apply st_bind_Ok in Ha as (fs3 & n & [= <- <-] & Ha).
  eexists _, _, _, ap. do 2 (split; [eassumption|]). split; [|exact Hap]. cbn [submods].
  eapply (cpu0_kept _ _ _ _ _ _ _ _ _ 0); [| | | |exact Ha].
  - apply map_Forall_insert_2; [lia|]. apply map_Forall_empty.
  - apply lookup_insert_eq.
  - lia.
  - apply lookup_insert_eq.
Qed.

(** C26: the EAR broker appraises every device under a name of its own.  When a
    token is issued for devices whose class names do not end in a digit, at most
    256 of a class, it carries one appraisal per device, named by the class and
    the position of the device within it; each appraisal applied the policy of
    the device's class to the transformed claims and the reference values, set at
    least one trust claim, and has the status its trust vector stands for.
    Issuing changes no file. *)
Theorem ear_token_sound b now id tcs pids refs fs fs' token :
  ear_issue ear_sign b now id tcs pids refs fs = (fs', Ok token) ->
  Forall (fun tc => strip_digits (tee_class tc) = tee_class tc) tcs ->
  (forall c, (class_count c tcs <= 256)%nat) ->
  fs' = fs /\
  exists policy rest refd ear jwk exp,
    pids = policy :: rest /\ json_to_string (reference_data refs) = Some refd /\
    add_minutes now (ec_duration_min (eb_config b)) = Some exp /\
    ext_exp ear = unix_timestamp exp /\ iat ear = unix_timestamp now /\
    pubkey_jwk b = Ok jwk /\ ear_sign ear jwk (eb_private_key b) = Some token /\
    size (submods ear) = length tcs /\
    forall i tc, tcs !! i = Some tc -> exists ap res json,
      submods ear !! submod_name tcs i tc = Some ap /\
      transform_claims (claims tc) (init_data_claims tc) (runtime_data_claims tc) (tc_tee tc)
        = Ok (annotated_evidence ap) /\
      raw_claims_to_string (annotated_evidence ap) = Some json /\
      as_evaluate (eb_policy_engine b) refd json (policy +:+ "_" +:+ tee_class tc) tv_tags fs = (fs, Ok res) /\
      set_claims (map_to_list (rules_result res)) tv_new = Ok (trust_vector ap) /\
      tv_any_set (trust_vector ap) = true /\ ap_status ap = tv_status (trust_vector ap).
Proof.
  intros H Hs Hc. unfold ear_issue in H. inv_st. inv_ok.
  match goal with E : appraise_all _ ?refd ?policy _ _ _ _ = _ |- _ =>
    destruct (appraise_all_spec _ _ _ _ _ _ [] _ _ _ (appraised_nil b refd policy _) Hs Hc E)
      as [-> [idx Ha]] end.
  split; [done|]. destruct pids as [|policy rest]; [discriminate|].
  match goal with E : head _ = Some _ |- _ => injection E as <- end.
  eexists policy, rest, _, _, _, _. do 3 (split; [eassumption || reflexivity|]).
  split; [|split; [|split; [eassumption|split; [eassumption|]]]]; [reflexivity..|].
  cbn [submods]. split; [apply (size_inv _ _ _ _ _ _ _ Ha)|]. intros i tc Hi.
  destruct (name_inv _ _ _ _ _ _ _ Ha _ _ Hi) as (ap & Hn & Hap).
  destruct (appraise_pure _ _ _ _ _ _ _ Hap) as (_ & Hany & Hst & _ & res & json & T1 & T2 & T3 & T4).
  exists ap, res, json. auto 10.
Qed.
End EarProofs.

(** ** A concrete instance *)
Module BrokersDemo.
#[export] Existing Instance PolicyDemo.crates.
#[export] Existing Instance AsPolicyDemo.as_crates.
#[export] Existing Instance AsPolicyDemo.disk.
#[export] Instance time : TimeCrate := fun now m => Some (now + m * nanos_per_minute).
#[export] Instance checked : Profile := true.

#[export] Instance broker_crates : BrokerCrates := {|
  json_to_string _ := Some (resource_path_json "x");
  json_from_str _ := Some VNull;
  tee_variant_name t := match t with Sample => Some "sample" | _ => None end;
  RsaKey := unit;
  EcKey := unit;
  X509 := unit;
  rsa_generate _ := Some tt;
  rsa_from_pem _ := Some tt;
  rsa_n_e _ := ([], []);
  rs384 _ b := Some b;
  ec_generate _ := Some tt;
  ec_from_pem _ := Some tt;
  ec_affine _ := Some ([], []);
  x509_from_pem _ := Some tt;
  x509_to_der _ := Some [];
|}.

#[export] Instance ear_crate : EarCrate := {|
  RawValue := string;
  raw_string s := s;
  raw_from_str s := Some s;
  raw_claims_to_string _ := Some (resource_path_json "x");
  TrustVector := option Z;
  tv_new := None;
  tv_tags := ["hardware"];
  tv_set_by_name n v _ := if String.eqb n "hardware" then Some (Some v) else None;
  tv_any_set tv := bool_decide (is_Some tv);
  TrustTier := Z;
  tv_status tv := default 0 tv;
|}.

Definition sign (e : Ear) (_ : EarJwk) (_ : EcKey) : option string := Some (profile e).

Definition obj : list (string * Value) :=
  [("a", VObject [("b", VString "c")]); ("report_data", VString "r")].
Lemma obj_plain : plain_keys (VObject obj).
Proof.
  cbn. repeat split; try (apply (bool_decide_unpack _); exact I).
Qed.

Definition device : TeeClaims :=
  {| tc_tee := Sample; tee_class := "cpu"; claims := VObject obj;
     init_data_claims := VNull; runtime_data_claims := VString "nonce" |}.

Definition simple : SimpleAttestationTokenBroker :=
  {| sb_private_key := tt; sb_config := simple_configuration_default; sb_cert_url := None;
     sb_cert_chain := None; sb_policy_engine := AsPolicyDemo.opa |}.
Definition simple_result : Fs * outcome anyhow string :=
  simple_issue simple 0 "id" [device] ["default_cpu"] ∅ AsPolicyDemo.fs1.

Definition ear : EarAttestationTokenBroker :=
  {| eb_config := ear_configuration_default "as"; eb_private_key := tt; eb_cert_url := None;
     eb_cert_chain := None; eb_policy_engine := AsPolicyDemo.opa |}.
Definition ear_result : Fs * outcome anyhow string :=
  ear_issue sign ear 0 "id" [device] ["default"] ∅ AsPolicyDemo.fs1.
End BrokersDemo.

Import BrokersDemo.

Lemma flatten_claims_faithful_witness :
  exists m, flatten_claims Sample (VObject obj) = Ok m /\ obj_get "sample.a.b" m = Some (VString "c").
Proof.
  eexists. split; [reflexivity|].
  destruct (flatten_claims_faithful (BC := broker_crates) Sample "sample" obj _ eq_refl
    obj_plain eq_refl)
    as (_ & _ & H).
  apply (H "sample.a.b" (VString "c") eq_refl). exists "a", ["b"]. repeat split.
Defined.

Lemma simple_token_sound_witness :
  exists token, simple_result = (AsPolicyDemo.fs1, Ok token) /\
    exists policies : gmap string string, is_Some (policies !! "default_cpu").
Proof.
  eexists. split; [vm_compute; reflexivity|].
  edestruct (simple_token_sound simple 0 "id" [device] ["default_cpu"] ∅ AsPolicyDemo.fs1 AsPolicyDemo.fs1)
    as (_ & first & rest & flat & tcb & refd & policies & _ & _ & _ & _ & _ & _ & _ & _ & _ & H & _);
    [vm_compute; reflexivity|].
  exists policies. apply H, list_elem_of_here.
Defined.

Lemma ear_token_sound_witness :
  exists token, ear_result = (AsPolicyDemo.fs1, Ok token) /\
    exists e : Ear, size (submods e) = 1%nat.
Proof.
  eexists. split; [vm_compute; reflexivity|].
  edestruct (ear_token_sound sign ear 0 "id" [device] ["default"] ∅ AsPolicyDemo.fs1 AsPolicyDemo.fs1)
    as (_ & policy & rest & refd & e & jwk & exp & _ & _ & _ & _ & _ & _ & _ & H & _);
    [vm_compute; reflexivity|repeat constructor|intros c|exists e; exact H].
  unfold class_count. cbn [List.filter]. destruct (String.eqb (tee_class device) c); cbn [length]; lia.
Defined.
