(* ===== verification/Verifier.v ===== *)
(** * Verifiers ([deps/verifier/src/])

    The interface every TEE verifier implements, the two verifiers of the
    sample TEEs, and the choice of a verifier.  The hardware verifiers are a
    parameter of that choice; [serde_json] and [base64] are parameters too. *)
From S2P Require Import Prelude Types.

(** [ReportData] and [InitDataHash]: a value, or [NotProvided]. *)
Inductive ReportData := RD_Value (data : bytes) | RD_NotProvided.
Inductive InitDataHash := ID_Value (data : bytes) | ID_NotProvided.

(** The trait [Verifier]. *)
Record Verifier := {
  evaluate : Value -> ReportData -> InitDataHash -> outcome anyhow (list (Value * string));
  generate_supplemental_challenge : string -> outcome anyhow string;
}.

(** The default method. *)
Definition default_supplemental_challenge (_tee_parameters : string) : outcome anyhow string := Ok "".

(** What a verifier promises: evidence is only accepted if the report data it
    carries is the expected one, in the form the hardware gives it ([norm]). *)
Class VerifierBinds (v : Verifier) (norm : bytes -> bytes) (reported : Value -> option bytes) : Prop :=
  binds_report_data : forall evidence d h claims,
    evaluate v evidence (RD_Value d) h = Ok claims -> reported evidence = Some (norm d).

(** ** The sample verifiers *)
Record SampleTeeEvidence := {
  svn : string;
  report_data : string;
}.

Class VerifierCrates := {
  (** [serde_json::from_value] at the sample evidence *)
  sample_from_value : Value -> option SampleTeeEvidence;
  (** [base64], standard alphabet with padding *)
  base64_standard_decode : string -> option bytes;
  base64_standard_encode : bytes -> string;
}.

Section SampleVerifiers.
Context `{VC : VerifierCrates}.

(** [verify_tee_evidence] of both sample verifiers: the init data hash is not
    checked. *)
Definition verify_tee_evidence (expected_report_data : ReportData) (_expected_init_data_hash : InitDataHash)
    (evidence : SampleTeeEvidence) : outcome anyhow unit :=
  match expected_report_data with
  | RD_Value expected =>
      ev_report_data ← ok_or "base64 decode report data for sample evidence"
                         (base64_standard_decode (report_data evidence));
      if bool_decide (expected = ev_report_data) then Ok tt
      else Err "REPORT_DATA is different from that in Sample Quote"
  | RD_NotProvided => Ok tt
  end.

Definition sample_parse_tee_evidence (quote : SampleTeeEvidence) : Value :=
  VObject [("svn", VString (svn quote));
           ("report_data", VString (report_data quote));
           ("launch_digest", VString "abcde");
           ("platform_version", VObject [("major", VNumber (PosInt 1)); ("minor", VNumber (PosInt 4))]);
           ("debug", VBool false)].

Definition sample_evaluate (evidence : Value) (rd : ReportData) (h : InitDataHash) :
    outcome anyhow (list (Value * string)) :=
  tee_evidence ← ok_or "Deserialize Quote failed." (sample_from_value evidence);
  verify_tee_evidence rd h tee_evidence;;
  Ok [(sample_parse_tee_evidence tee_evidence, "cpu")].

Definition sample_verifier : Verifier :=
  {| evaluate := sample_evaluate; generate_supplemental_challenge := default_supplemental_challenge |}.

Definition sample_device_parse_tee_evidence (quote : SampleTeeEvidence) : Value :=
  VObject [("svn", VString (svn quote))].

Definition sample_device_evaluate (evidence : Value) (rd : ReportData) (h : InitDataHash) :
    outcome anyhow (list (Value * string)) :=
  tee_evidence ← ok_or "Deserialize Quote failed." (sample_from_value evidence);
  verify_tee_evidence rd h tee_evidence;;
  Ok [(sample_device_parse_tee_evidence tee_evidence, "gpu")].

Definition sample_device_verifier : Verifier :=
  {| evaluate := sample_device_evaluate; generate_supplemental_challenge := default_supplemental_challenge |}.

(** The report data of sample evidence. *)
Definition sample_reported (evidence : Value) : option bytes :=
  e ← sample_from_value evidence; base64_standard_decode (report_data e).

Lemma verify_tee_evidence_binds d h e :
  verify_tee_evidence (RD_Value d) h e = Ok tt -> base64_standard_decode (report_data e) = Some d.
Proof.
  cbn. destruct (base64_standard_decode _) as [r|]; cbn; [|done]. case_bool_decide; [congruence|done].
Qed.

#[export] Instance sample_binds : VerifierBinds sample_verifier id sample_reported.
Proof.
  intros ev d h cl H. cbn in H. unfold sample_evaluate in H. inv_ok. unfold sample_reported.
  rewrite Hok. destruct a0. now apply verify_tee_evidence_binds in Hok0.
Qed.

#[export] Instance sample_device_binds : VerifierBinds sample_device_verifier id sample_reported.
Proof.
  intros ev d h cl H. cbn in H. unfold sample_device_evaluate in H. inv_ok. unfold sample_reported.
  rewrite Hok. destruct a0. now apply verify_tee_evidence_binds in Hok0.
Qed.

(** [to_verifier], with the constructors of the hardware verifiers. *)
Definition to_verifier (hardware : Tee -> outcome anyhow Verifier) (tee : Tee) : outcome anyhow Verifier :=
  match tee with
  | Sev => Panic
  | Sample => Ok sample_verifier
  | SampleDevice => Ok sample_device_verifier
  | AzSnpVtpm | AzTdxVtpm | Tdx | Snp | Sgx | Csv | Cca | Se | HygonDcu | Nvidia | Tpm => hardware tee
  end.
End SampleVerifiers.

(** ** [regularize_data] *)
Definition regularize_data (data : bytes) (n : nat) : bytes :=
  match Nat.compare (length data) n with
  | Lt => data ++ replicate (n - length data) Init.Byte.x00
  | Eq => data
  | Gt => take n data
  end.

(** Regularized data has the requested length and keeps what fits. *)
Lemma regularize_data_spec data n :
  length (regularize_data data n) = n /\
  take (length data) (regularize_data data n) = take n data.
Proof.
  unfold regularize_data. destruct (Nat.compare_spec (length data) n) as [E|E|E].
  - split; [done|]. now rewrite E.
  - split; [rewrite length_app, length_replicate; lia|]. rewrite take_app_length.
    now rewrite take_ge by lia.
  - split; [rewrite length_take; lia|]. rewrite take_take. f_equal. lia.
Qed.
