(* ===== verification/Spdm.v ===== *)
(** * SPDM messages of NVIDIA devices ([deps/verifier/src/nvidia/spdm_request.rs], [spdm_response.rs])

    The decoders of the measurement request and response an attestation report
    consists of.  Sizes are [usize]; a sum that leaves the type follows the
    build profile. *)
From S2P Require Import Prelude Types Text.

(** [mod.rs]. *)
Definition SPDM_VERSION_SUPPORTED : Z := 0x11.
Definition SPDM_NONCE_SIZE : Z := 32.
Definition DMTF_MEASUREMENT_SPECIFICATION_VALUE : Z := 1.

(** ** The request *)
Record SpdmGetMeasurementRequest := {
  rq_spdm_version : Init.Byte.byte;
  rq_request_response_code : Init.Byte.byte;
  rq_param1 : Init.Byte.byte;
  rq_param2 : Init.Byte.byte;
  rq_nonce : bytes;
  slot_id_param : Init.Byte.byte;
}.

(** [size_of::<SpdmGetMeasurementRequest>()]: bytes only, no padding. *)
Definition SPDM_GET_MEASUREMENT_REQUEST_SIZE : Z := 37.

Definition request_decode (bytes : bytes) : outcome anyhow (SpdmGetMeasurementRequest * Z) :=
  if len bytes <? SPDM_GET_MEASUREMENT_REQUEST_SIZE then Err "SpdmGetMeasurmentRequest message is too small"
  else
    b0 ← index bytes 0;
    if negb (u8 b0 =? SPDM_VERSION_SUPPORTED) then Err "SPDM version not supported"
    else
      b1 ← index bytes 1;
      b2 ← index bytes 2;
      b3 ← index bytes 3;
      nonce ← slice bytes 4 36;
      slot ← index bytes 36;
      Ok ({| rq_spdm_version := b0; rq_request_response_code := b1; rq_param1 := b2; rq_param2 := b3;
             rq_nonce := nonce; slot_id_param := slot |}, SPDM_GET_MEASUREMENT_REQUEST_SIZE).

(** ** [u24] *)
Definition u24_from_le_bytes (b0 b1 b2 : Init.Byte.byte) : Z :=
  Z.lor (Z.lor (u8 b0) (Z.shiftl (u8 b1) 8)) (Z.shiftl (u8 b2) 16).

(** ** Measurement blocks *)
Record DmtfMeasurement := {
  dm_type : Init.Byte.byte;
  dm_size : Z;
  dm_value : bytes;
}.

Record MeasurementBlock := {
  mb_index : Init.Byte.byte;
  measurement_specification : Init.Byte.byte;
  measurement_size : Z;
  measurement : DmtfMeasurement;
}.

(** ** Types of opaque data *)
Inductive OpaqueDataType :=
| CertIssuerName | CertAuthorityKeyIdentifier | DriverVersion | GpuInfo | IdSku | VbiosVersion
| ManufacturerId | TamperDetection | Smc | Vpr | Nvdec0Status | MsrsCnt | CprInfo | BoardId | ChipSku
| ChipSkuMod | Project | ProjectSku | ProjectSkuMod | Fwid | ProtectedPcieStatus | SwitchPdi
| FloorsweptPorts | PositionId | LockSwitchStatus | GpuLinkConn | Invalid.

#[global] Instance OpaqueDataType_eq_dec : EqDecision OpaqueDataType.
Proof. solve_decision. Defined.

(** The discriminants of the enum. *)
Definition opaque_data_type_id (t : OpaqueDataType) : Z :=
  match t with
  | CertIssuerName => 1
  | CertAuthorityKeyIdentifier => 2
  | DriverVersion => 3
  | GpuInfo => 4
  | IdSku => 5
  | VbiosVersion => 6
  | ManufacturerId => 7
  | TamperDetection => 8
  | Smc => 9
  | Vpr => 10
  | Nvdec0Status => 11
  | MsrsCnt => 12
  | CprInfo => 13
  | BoardId => 14
  | ChipSku => 15
  | ChipSkuMod => 16
  | Project => 17
  | ProjectSku => 18
  | ProjectSkuMod => 19
  | Fwid => 20
  | ProtectedPcieStatus => 21
  | SwitchPdi => 22
  | FloorsweptPorts => 23
  | PositionId => 24
  | LockSwitchStatus => 25
  | GpuLinkConn => 32
  | Invalid => 255
  end.

Definition opaque_from_u16 (value : Z) : option OpaqueDataType :=
  match value with
  | 1 => Some CertIssuerName
  | 2 => Some CertAuthorityKeyIdentifier
  | 3 => Some DriverVersion
  | 4 => Some GpuInfo
  | 5 => Some IdSku
  | 6 => Some VbiosVersion
  | 7 => Some ManufacturerId
  | 8 => Some TamperDetection
  | 9 => Some Smc
  | 10 => Some Vpr
  | 11 => Some Nvdec0Status
  | 12 => Some MsrsCnt
  | 13 => Some CprInfo
  | 14 => Some BoardId
  | 15 => Some ChipSku
  | 16 => Some ChipSkuMod
  | 17 => Some Project
  | 18 => Some ProjectSku
  | 19 => Some ProjectSkuMod
  | 20 => Some Fwid
  | 21 => Some ProtectedPcieStatus
  | 22 => Some SwitchPdi
  | 23 => Some FloorsweptPorts
  | 24 => Some PositionId
  | 25 => Some LockSwitchStatus
  | 32 => Some GpuLinkConn
  | _ => None
  end.

(** The [Display] of the type, which is the key of its claim. *)
Definition opaque_to_string (t : OpaqueDataType) : string :=
  match t with
  | CertIssuerName => "cert_issuer_name"
  | CertAuthorityKeyIdentifier => "cert_authority_key_identifier"
  | DriverVersion => "driver_version"
  | GpuInfo => "gpu_info"
  | IdSku => "id_sku"
  | VbiosVersion => "vbios_version"
  | ManufacturerId => "manufacturer_id"
  | TamperDetection => "tamper_detection"
  | Smc => "smc"
  | Vpr => "vpr"
  | Nvdec0Status => "nvdec0_status"
  | MsrsCnt => "measurement_count"
  | CprInfo => "cpr_info"
  | BoardId => "board_id"
  | ChipSku => "chip_sku"
  | ChipSkuMod => "chip_sku_mod"
  | Project => "project"
  | ProjectSku => "project_sku"
  | ProjectSkuMod => "project_sku_mod"
  | Fwid => "fwid"
  | ProtectedPcieStatus => "protected_pcie_status"
  | SwitchPdi => "switch_pdi"
  | FloorsweptPorts => "floorswept_ports"
  | PositionId => "position_id"
  | LockSwitchStatus => "lock_switch_status"
  | GpuLinkConn => "gpu_link_conn"
  | Invalid => "invalid"
  end.

Record SpdmGetMeasurementsResponse := {
  rs_spdm_version : Init.Byte.byte;
  rs_request_response_code : Init.Byte.byte;
  rs_param1 : Init.Byte.byte;
  rs_param2 : Init.Byte.byte;
  number_of_blocks : Z;
  measurement_record_length : Z;
  measurement_record : list MeasurementBlock;
  rs_nonce : bytes;
  opaque_data_length : Z;
  opaque_data : gmap string Value;
  signature : bytes;
}.

(** [slice.chunks(n)]: pieces of [n] elements, the last one maybe shorter.
    Every piece takes at least one element, so the length is enough fuel. *)
Fixpoint chunks_fuel {A} (fuel n : nat) (l : list A) : list (list A) :=
  match fuel, l with
  | S fuel, _ :: _ => take n l :: chunks_fuel fuel n (drop n l)
  | _, _ => []
  end.

Definition chunks {A} (n : nat) (l : list A) : list (list A) := chunks_fuel (length l) n l.

(** [trim_end_matches] of a character. *)
Definition trim_end_char (c : Z) (l : list Z) : list Z :=
  fold_right (fun x r => match r with
                         | [] => if x =? c then [] else [x]
                         | _ :: _ => x :: r
                         end) [] l.

Section Decoders.
Context {P : Profile}.

(** [bytes.get(offset..offset + n).ok_or(msg)?], with the offset after it. *)
Definition get_at (msg : anyhow) (bytes : bytes) (offset n : Z) : outcome anyhow (list Init.Byte.byte * Z) :=
  stop ← usize_add offset n;
  b ← ok_or msg (get_range bytes offset stop);
  Ok (b, stop).

(** ** Measurements *)
Definition measurement_decode (bytes : bytes) : outcome anyhow DmtfMeasurement :=
  if len bytes <? 3 then Err "DMTF measurement must be bigger than 3 bytes"
  else
    t ← index bytes 0;
    array ← slice bytes 1 3;
    let size := le_combine array in
    '(value, _) ← get_at "DMTF measurement overflow" bytes 3 size;
    Ok {| dm_type := t; dm_size := size; dm_value := value |}.

(** One iteration of [MeasurementRecord::decode]. *)
Definition block_step (bytes : bytes) (st : Z * list MeasurementBlock) : outcome anyhow (Z * list MeasurementBlock) :=
  let '(offset, measurement_blocks) := st in
  stop ← usize_add offset 4;
  if len bytes <? stop then Err "MeasurementBlock overflow"
  else
    i ← index bytes offset;
    spec ← (o1 ← usize_add offset 1; index bytes o1);
    offset ← usize_add offset 2;
    if negb (u8 spec =? DMTF_MEASUREMENT_SPECIFICATION_VALUE) then
      Err "Only measurements encoded in the DMTF layout are supported"
    else
      array ← (o2 ← usize_add offset 2; slice bytes offset o2);
      let size := le_combine array in
      offset ← usize_add offset 2;
      '(measurement_data, stop) ← get_at "Measurement overflow" bytes offset size;
      m ← measurement_decode measurement_data;
      Ok (stop, measurement_blocks ++
        [{| mb_index := i; measurement_specification := spec; measurement_size := size; measurement := m |}]).

(** [MeasurementRecord::decode]. *)
Definition record_decode (number_of_blocks : Z) (bytes : bytes) : outcome anyhow (list MeasurementBlock) :=
  if number_of_blocks =? 0 then Ok []
  else '(_, blocks) ← mfold (fun st _ => block_step bytes st) (0, []) (seq 0 (Z.to_nat number_of_blocks));
       Ok blocks.

(** ** Opaque data *)
Definition format_vbios_version (bytes : bytes) : option string :=
  half ← get_range bytes 0 (len bytes / 2);
  let version := String.concat "." (map (fun b => hex_encode [b]) (rev half)) in
  b ← bytes !! Z.to_nat (len bytes / 2);
  Some (version +:+ "." +:+ hex_encode [b]).

Definition PDI_DATA_SIZE : Z := 8.

Definition decode_switch_pdi (bytes : bytes) : outcome anyhow Value :=
  if negb (len bytes mod PDI_DATA_SIZE =? 0) then Err "OpaqueDataType is not multiple of 8"
  else Ok (VArray (map (fun chunk => VString (hex_encode chunk)) (chunks (Z.to_nat PDI_DATA_SIZE) bytes))).

Definition MSR_COUNT_SIZE : Z := 4.

(** The loop of [decode_measurement_count]; [index] is a [u8]. *)
Fixpoint measurement_count_loop (cs : list bytes) (index : Z) (values : list (string * Value)) :
    outcome anyhow (list (string * Value)) :=
  match cs with
  | [] => Ok values
  | chunk :: cs =>
      if negb (len chunk =? MSR_COUNT_SIZE) then Err "could not convert slice to array"
      else
        let values := obj_insert (fmt_dec index) (VNumber (PosInt (le_combine chunk))) values in
        index ← uint 8 (index + 1);
        measurement_count_loop cs index values
  end.

Definition decode_measurement_count (bytes : bytes) : outcome anyhow Value :=
  if negb (len bytes mod MSR_COUNT_SIZE =? 0) then Err "OpaqueDataType is not multiple of 4"
  else values ← measurement_count_loop (chunks (Z.to_nat MSR_COUNT_SIZE) bytes) 1 []; Ok (VObject values).

(** The value of an item. *)
Definition opaque_value (t : OpaqueDataType) (data_bytes : bytes) : outcome anyhow Value :=
  match t with
  | DriverVersion | ChipSku | ChipSkuMod | Nvdec0Status | Project | ProjectSku | ProtectedPcieStatus =>
      Ok (VString (string_of_chars (trim_end_char 0 (utf8_lossy data_bytes))))
  | VbiosVersion => s ← ok_or "Invalid gpu vbios version" (format_vbios_version data_bytes); Ok (VString s)
  | MsrsCnt => decode_measurement_count data_bytes
  | SwitchPdi => decode_switch_pdi data_bytes
  | Invalid => Err "Hashmap: Invalid OpaqueDataType"
  | _ => Ok (VString (hex_encode data_bytes))
  end.

(** One iteration of the loop of [OpaqueData::decode]. *)
Definition opaque_step (bytes : bytes) (offset : Z) (opaque_data : gmap string Value) :
    outcome anyhow (Z * gmap string Value) :=
  array ← (o2 ← usize_add offset 2; slice bytes offset o2);
  t ← ok_or "Invalid OpaqueDataType" (opaque_from_u16 (le_combine array));
  offset ← usize_add offset 2;
  array ← (o2 ← usize_add offset 2; slice bytes offset o2);
  let size := le_combine array in
  offset ← usize_add offset 2;
  '(data_bytes, offset) ← get_at "OpaqueData overflow" bytes offset size;
  data ← opaque_value t data_bytes;
  let key := opaque_to_string t in
  if bool_decide (is_Some (opaque_data !! key)) then Err "Duplicated OpaqueDataType"
  else Ok (offset, <[key := data]> opaque_data).

(** [while offset + 4 < bytes_len].  An iteration advances by four bytes or
    more, so the length of the data is enough fuel. *)
Fixpoint opaque_loop (fuel : nat) (bytes : bytes) (offset : Z) (opaque_data : gmap string Value) :
    outcome anyhow (gmap string Value) :=
  match fuel with
  | O => Panic
  | S fuel =>
      stop ← usize_add offset 4;
      if stop <? len bytes then
        '(offset, opaque_data) ← opaque_step bytes offset opaque_data;
        opaque_loop fuel bytes offset opaque_data
      else Ok opaque_data
  end.

Definition opaque_decode (bytes : bytes) : outcome anyhow (gmap string Value) :=
  if len bytes =? 0 then Ok ∅
  else
    opaque_data ← opaque_loop (length bytes) bytes 0 ∅;
    if negb (bool_decide (is_Some (opaque_data !! opaque_to_string VbiosVersion)))
       || negb (bool_decide (is_Some (opaque_data !! opaque_to_string DriverVersion)))
    then Err "Both vbios_version and driver_version must be present in the report"
    else Ok opaque_data.

(** ** The response *)
Definition response_decode (bytes : bytes) (signature_length : Z) :
    outcome anyhow (SpdmGetMeasurementsResponse * Z) :=
  if len bytes <? 8 then Err "SpdmGetMeasurementsResponse message smaller 8 bytes"
  else
    b0 ← index bytes 0;
    if negb (u8 b0 =? SPDM_VERSION_SUPPORTED) then Err "SPDM version not supported"
    else
      b1 ← index bytes 1;
      b2 ← index bytes 2;
      b3 ← index bytes 3;
      b4 ← index bytes 4;
      let number_of_blocks := u8 b4 in
      b5 ← index bytes 5;
      b6 ← index bytes 6;
      b7 ← index bytes 7;
      let record_length := u24_from_le_bytes b5 b6 b7 in
      '(blocks, offset) ←
        (if 0 <? record_length then
           '(measurements_bytes, offset) ← get_at "MeasurementRecord overflow" bytes 8 record_length;
           blocks ← record_decode number_of_blocks measurements_bytes;
           Ok (blocks, offset)
         else Ok ([], 8));
      '(nonce, offset) ← get_at "Nonce overflow" bytes offset 32;
      '(array, offset) ← get_at "OpaqueDataLength overlow" bytes offset 2;
      let opaque_length := le_combine array in
      '(opaque, offset) ←
        (if 0 <? opaque_length then
           '(opaque_data_bytes, offset) ← get_at "OpaqueData overflow" bytes offset opaque_length;
           opaque ← opaque_decode opaque_data_bytes;
           Ok (opaque, offset)
         else Ok (∅, offset));
      '(sig, offset) ← get_at "Signature overflow" bytes offset signature_length;
      Ok ({| rs_spdm_version := b0; rs_request_response_code := b1; rs_param1 := b2; rs_param2 := b3;
             number_of_blocks := number_of_blocks; measurement_record_length := record_length;
             measurement_record := blocks; rs_nonce := nonce; opaque_data_length := opaque_length;
             opaque_data := opaque; signature := sig |}, offset).
End Decoders.
