(* ===== verification/SpdmProofs.v ===== *)
(** * Properties of the SPDM decoders

    The decoders of [Spdm] address their input by offsets.  They are shown equal
    to parsers that consume their input from the front, and the properties that
    matter to a verifier follow from those: nothing beyond the reported size is
    looked at, an encoded message is decoded to what it says, and the inputs on
    which the code panics are known. *)
From S2P Require Import Prelude Types Text Fs Json Spdm.

(** ** Parsers that consume their input *)
Definition take_n (msg : anyhow) (s : bytes) (n : Z) : outcome anyhow (bytes * bytes) :=
  if n <=? len s then Ok (take (Z.to_nat n) s, drop (Z.to_nat n) s) else Err msg.

Section Parsers.
Context {P : Profile}.

Definition parse_measurement (s : bytes) : outcome anyhow DmtfMeasurement :=
  match s with
  | t :: b0 :: b1 :: s =>
      let size := le_combine [b0; b1] in
      '(value, _) ← take_n "DMTF measurement overflow" s size;
      Ok {| dm_type := t; dm_size := size; dm_value := value |}
  | _ => Err "DMTF measurement must be bigger than 3 bytes"
  end.

Definition parse_block (s : bytes) : outcome anyhow (MeasurementBlock * bytes) :=
  match s with
  | i :: spec :: b0 :: b1 :: s =>
      if negb (u8 spec =? DMTF_MEASUREMENT_SPECIFICATION_VALUE) then
        Err "Only measurements encoded in the DMTF layout are supported"
      else
        let size := le_combine [b0; b1] in
        '(data, s) ← take_n "Measurement overflow" s size;
        m ← parse_measurement data;
        Ok ({| mb_index := i; measurement_specification := spec; measurement_size := size; measurement := m |}, s)
  | _ => Err "MeasurementBlock overflow"
  end.

Fixpoint parse_record (n : nat) (s : bytes) : outcome anyhow (list MeasurementBlock) :=
  match n with
  | O => Ok []
  | S n => '(b, s) ← parse_block s; bs ← parse_record n s; Ok (b :: bs)
  end.

Fixpoint parse_opaque (fuel : nat) (s : bytes) (m : gmap string Value) : outcome anyhow (gmap string Value) :=
  match fuel with
  | O => Panic
  | S fuel =>
      match s with
      | t0 :: t1 :: n0 :: n1 :: ((_ :: _) as rest) =>
          t ← ok_or "Invalid OpaqueDataType" (opaque_from_u16 (le_combine [t0; t1]));
          '(data, rest) ← take_n "OpaqueData overflow" rest (le_combine [n0; n1]);
          v ← opaque_value t data;
          if bool_decide (is_Some (m !! opaque_to_string t)) then Err "Duplicated OpaqueDataType"
          else parse_opaque fuel rest (<[opaque_to_string t := v]> m)
      | _ => Ok m
      end
  end.

Definition parse_response (s : bytes) (signature_length : Z) :
    outcome anyhow (SpdmGetMeasurementsResponse * bytes) :=
  match s with
  | b0 :: b1 :: b2 :: b3 :: b4 :: b5 :: b6 :: b7 :: s =>
      if negb (u8 b0 =? SPDM_VERSION_SUPPORTED) then Err "SPDM version not supported"
      else
        let record_length := le_combine [b5; b6; b7] in
        '(record, s) ← take_n "MeasurementRecord overflow" s record_length;
        blocks ← (if 0 <? record_length then parse_record (Z.to_nat (u8 b4)) record else Ok []);
        '(nonce, s) ← take_n "Nonce overflow" s 32;
        '(array, s) ← take_n "OpaqueDataLength overlow" s 2;
        let opaque_length := le_combine array in
        '(opaque_bytes, s) ← take_n "OpaqueData overflow" s opaque_length;
        opaque ← opaque_decode opaque_bytes;
        '(sig, s) ← take_n "Signature overflow" s signature_length;
        Ok ({| rs_spdm_version := b0; rs_request_response_code := b1; rs_param1 := b2; rs_param2 := b3;
               number_of_blocks := u8 b4; measurement_record_length := record_length;
               measurement_record := blocks; rs_nonce := nonce; opaque_data_length := opaque_length;
               opaque_data := opaque; signature := sig |}, s)
  | _ => Err "SpdmGetMeasurementsResponse message smaller 8 bytes"
  end.

(** ** Positions and prefixes *)
Lemma take_n_0 msg s : take_n msg s 0 = Ok ([], s).
Proof. unfold take_n. now rewrite (proj2 (Z.leb_le 0 _) (len_nonneg s)). Qed.

Lemma take_n_app msg a s : take_n msg (a ++ s) (len a) = Ok (a, s).
Proof.
  unfold take_n. rewrite (proj2 (Z.leb_le _ _)) by len_lia.
  now rewrite to_nat_len, take_app_length, drop_app_length.
Qed.

Lemma take_n_Ok msg s n a r :
  take_n msg s n = Ok (a, r) -> 0 <= n -> s = a ++ r /\ len a = n.
Proof.
  unfold take_n. destruct (Z.leb_spec n (len s)); [|done]. intros [= <- <-] Hn.
  split; [now rewrite take_drop|]. unfold len in *. rewrite length_take. lia.
Qed.

Lemma take_n_not_Panic msg s n : take_n msg s n <> Panic.
Proof. unfold take_n. now case_match. Qed.

Lemma get_at_app msg pre s n :
  0 <= n -> len pre + n < 2 ^ 64 ->
  get_at msg (pre ++ s) (len pre) n = '(b, _) ← take_n msg s n; Ok (b, len pre + n).
Proof.
  intros Hn Hb. unfold get_at. pose proof (len_nonneg pre). rewrite ?usize_add_small by lia. cbn.
  unfold take_n. destruct (Z.leb_spec n (len s)) as [H'|H']; cbn.
  - rewrite <- (take_drop (Z.to_nat n) s) at 1.
    rewrite (get_range_app_at pre (take (Z.to_nat n) s)); [done|done|].
    unfold len in *. rewrite length_take. lia.
  - unfold get_range. rewrite len_app. destruct (Z.leb_spec (len pre + n) (len pre + len s)); [lia|].
    now rewrite andb_false_r.
Qed.

Lemma get_at_0 msg s n :
  0 <= n < 2 ^ 64 -> get_at msg s 0 n = '(b, _) ← take_n msg s n; Ok (b, n).
Proof. intros [? ?]. exact (get_at_app msg [] s n ltac:(done) ltac:(done)). Qed.

Lemma le_combine_small l k : len l = k -> 0 <= le_combine l < 2 ^ (8 * k).
Proof. intros <-. apply le_combine_bound. Qed.

Lemma le_combine2_bound a b : 0 <= le_combine [a; b] < 65536.
Proof. exact (le_combine_bound [a; b]). Qed.

(** The shifts of [u24] are the little-endian value. *)
Lemma u24_le_combine a b c : u24_from_le_bytes a b c = le_combine [a; b; c].
Proof.
  unfold u24_from_le_bytes, le_combine, u8. cbn [fold_right].
  rewrite Z.shiftl_0_l, Z.lor_0_r, Z.shiftl_lor, <- Z.lor_assoc, Z.shiftl_shiftl by lia. done.
Qed.

(** ** The decoders are the parsers *)
Lemma measurement_decode_eq s : measurement_decode s = parse_measurement s.
Proof.
  unfold measurement_decode, parse_measurement.
  destruct s as [|t [|b0 [|b1 s]]]; [done..|].
  rewrite (proj2 (Z.ltb_ge _ _)) by len_lia. cbn [index unwrap Z.leb Z.to_nat lookup list_lookup mbind outcome_bind].
  rewrite (slice_app_at [t] [b0; b1] s 1 3) by done. cbn [mbind outcome_bind].
  pose proof (le_combine2_bound b0 b1).
  rewrite (get_at_app _ [t; b0; b1] s) by len_lia.
  destruct (take_n _ s _) as [[v r]| |]; done.
Qed.

(** One iteration of the block loop parses a block at its offset. *)
Lemma block_step_eq pre s bs :
  len pre + 2 ^ 20 < 2 ^ 64 ->
  block_step (pre ++ s) (len pre, bs) =
    '(b, r) ← parse_block s; Ok (len pre + (len s - len r), bs ++ [b]).
Proof.
  intros Hpre. pose proof (len_nonneg pre) as Hp. unfold block_step, parse_block.
  rewrite ?usize_add_small by lia. cbn [mbind outcome_bind].
  destruct s as [|i [|spec [|b0 [|b1 s]]]]; [rewrite (proj2 (Z.ltb_lt _ _)) by len_lia; done..|].
  rewrite (proj2 (Z.ltb_ge _ _)) by len_lia.
  rewrite (index_app_at pre i _ (len pre)) by done. cbn [mbind outcome_bind].
  rewrite ?usize_add_small by lia. cbn [mbind outcome_bind].
  rewrite (app_assoc pre [i] _ : pre ++ i :: spec :: b0 :: b1 :: s = _).
  rewrite (index_app_at (pre ++ [i]) spec _) by len_lia. cbn [mbind outcome_bind].
  destruct (negb _); [done|].
  rewrite <- app_assoc, (app_assoc pre [i; spec] _ : pre ++ [i] ++ spec :: b0 :: b1 :: s = _).
  rewrite ?usize_add_small by lia. cbn [mbind outcome_bind].
  rewrite (slice_app_at (pre ++ [i; spec]) [b0; b1] s) by len_lia. cbn [mbind outcome_bind].
  pose proof (le_combine2_bound b0 b1).
  replace (len pre + 2 + 2) with (len (pre ++ [i; spec; b0; b1])) by len_lia.
  rewrite (app_assoc _ [b0; b1] _ : (pre ++ [i; spec]) ++ b0 :: b1 :: s = _), <- (app_assoc pre).
  rewrite (get_at_app _ (pre ++ [i; spec] ++ [b0; b1]) s) by len_lia.
  destruct (take_n _ s _) as [[d r]| |] eqn:T; [|done..].
  apply take_n_Ok in T as [-> ?]; [|lia]. cbn [mbind outcome_bind].
  rewrite measurement_decode_eq. destruct (parse_measurement d); cbn [mbind outcome_bind]; [|done..].
  do 2 f_equal. len_lia.
Qed.

Lemma parse_block_Ok s b r :
  parse_block s = Ok (b, r) -> exists piece, s = piece ++ r /\ 4 <= len piece.
Proof.
  unfold parse_block. destruct s as [|i [|spec [|b0 [|b1 s]]]]; [done..|].
  destruct (negb _); [done|]. intros H. apply bind_Ok in H as ([d r'] & T & H). inv_ok.
  apply take_n_Ok in T as [-> ?]; [|apply le_combine2_bound].
  exists (i :: spec :: b0 :: b1 :: d). split; [done|]. len_lia.
Qed.

Lemma block_loop_eq n j pre s bs :
  len pre + len s + 2 ^ 20 < 2 ^ 64 ->
  ('(_, blocks) ← mfold (fun st (_ : nat) => block_step (pre ++ s) st) (len pre, bs) (seq j n); Ok blocks)
  = bs' ← parse_record n s; Ok (bs ++ bs').
Proof.
  revert j pre s bs. induction n as [|n IH]; intros j pre s bs Hl; cbn [seq mfold parse_record].
  { cbn. now rewrite app_nil_r. }
  rewrite block_step_eq by (pose proof (len_nonneg s); lia).
  destruct (parse_block s) as [[b r]| |] eqn:E; cbn [mbind outcome_bind]; [|done..].
  apply parse_block_Ok in E as (piece & -> & Hp). rewrite app_assoc.
  replace (len pre + (len (piece ++ r) - len r)) with (len (pre ++ piece)) by len_lia.
  rewrite IH by len_lia. destruct (parse_record n r); cbn; [|done..]. now rewrite <- app_assoc.
Qed.

Lemma record_decode_eq n s :
  0 <= n -> len s + 2 ^ 20 < 2 ^ 64 -> record_decode n s = parse_record (Z.to_nat n) s.
Proof.
  intros Hn Hl. unfold record_decode. destruct (Z.eqb_spec n 0) as [->|]; [done|].
  pose proof (block_loop_eq (Z.to_nat n) 0 [] s [] Hl) as H. cbn [app] in H.
  change (len []) with 0 in H. rewrite H. now destruct (parse_record _ _).
Qed.

(** One iteration of the opaque-data loop. *)
Lemma opaque_step_eq pre t0 t1 n0 n1 s m :
  len pre + 2 ^ 20 < 2 ^ 64 ->
  opaque_step (pre ++ t0 :: t1 :: n0 :: n1 :: s) (len pre) m =
    t ← ok_or "Invalid OpaqueDataType" (opaque_from_u16 (le_combine [t0; t1]));
    '(data, r) ← take_n "OpaqueData overflow" s (le_combine [n0; n1]);
    v ← opaque_value t data;
    if bool_decide (is_Some (m !! opaque_to_string t)) then Err "Duplicated OpaqueDataType"
    else Ok (len pre + 4 + le_combine [n0; n1], <[opaque_to_string t := v]> m).
Proof.
  intros Hpre. pose proof (len_nonneg pre) as Hp. unfold opaque_step.
  rewrite ?usize_add_small by lia. cbn [mbind outcome_bind].
  rewrite (slice_app_at pre [t0; t1] (n0 :: n1 :: s)) by len_lia. cbn [mbind outcome_bind].
  destruct (opaque_from_u16 _) as [t|]; cbn [mbind outcome_bind ok_or]; [|done].
  rewrite ?usize_add_small by lia. cbn [mbind outcome_bind].
  rewrite (app_assoc pre [t0; t1] _ : pre ++ t0 :: t1 :: n0 :: n1 :: s = _).
  rewrite (slice_app_at (pre ++ [t0; t1]) [n0; n1] s) by len_lia. cbn [mbind outcome_bind].
  pose proof (le_combine2_bound n0 n1). rewrite ?usize_add_small by lia. cbn [mbind outcome_bind].
  rewrite (app_assoc _ [n0; n1] _ : (pre ++ [t0; t1]) ++ n0 :: n1 :: s = _), <- (app_assoc pre).
  replace (len pre + 2 + 2) with (len (pre ++ [t0; t1] ++ [n0; n1])) by len_lia.
  rewrite (get_at_app _ (pre ++ [t0; t1] ++ [n0; n1]) s) by len_lia.
  destruct (take_n _ s _) as [[d r]| |]; cbn [mbind outcome_bind]; [|done..].
  destruct (opaque_value t d); cbn [mbind outcome_bind]; [|done..].
  destruct (bool_decide _); [done|]. do 2 f_equal. len_lia.
Qed.

Lemma opaque_loop_eq fuel pre s m :
  len pre + len s + 2 ^ 20 < 2 ^ 64 ->
  opaque_loop fuel (pre ++ s) (len pre) m = parse_opaque fuel s m.
Proof.
  revert pre s m. induction fuel as [|fuel IH]; intros pre s m Hl; cbn [opaque_loop parse_opaque]; [done|].
  pose proof (len_nonneg pre). pose proof (len_nonneg s).
  rewrite ?usize_add_small by lia. cbn [mbind outcome_bind].
  destruct s as [|t0 [|t1 [|n0 [|n1 [|x s]]]]]; [rewrite (proj2 (Z.ltb_ge _ _)) by len_lia; done..|].
  rewrite (proj2 (Z.ltb_lt _ _)) by len_lia.
  rewrite opaque_step_eq by len_lia.
  destruct (opaque_from_u16 _) as [t|]; cbn [mbind outcome_bind ok_or]; [|done].
  destruct (take_n _ _ _) as [[d r]| |] eqn:T; cbn [mbind outcome_bind]; [|done..].
  apply take_n_Ok in T as [T Hd]; [|apply le_combine2_bound]. rewrite T in *.
  destruct (opaque_value t d); cbn [mbind outcome_bind]; [|done..].
  destruct (bool_decide _); [done|]. cbn [mbind outcome_bind].
  rewrite <- IH with (pre := pre ++ [t0; t1; n0; n1] ++ d) by len_lia.
  rewrite <- !app_assoc. cbn [app]. f_equal. len_lia.
Qed.

Lemma take_n_neg msg s n : n <= 0 -> take_n msg s n = Ok ([], s).
Proof.
  intros Hn. unfold take_n. pose proof (len_nonneg s). rewrite (proj2 (Z.leb_le _ _)) by lia.
  now replace (Z.to_nat n) with 0%nat by lia.
Qed.

(** The decoder after the measurement record. *)
Lemma response_tail_eq {R} pre s sl (K : bytes -> Z -> gmap string Value -> bytes -> R) :
  len pre + 2 ^ 20 < 2 ^ 63 -> 0 <= sl < 2 ^ 63 ->
  ('(nonce, offset) ← get_at "Nonce overflow" (pre ++ s) (len pre) 32;
   '(array, offset) ← get_at "OpaqueDataLength overlow" (pre ++ s) offset 2;
   '(opaque, offset) ←
     (if 0 <? le_combine array then
        '(opaque_data_bytes, offset) ← get_at "OpaqueData overflow" (pre ++ s) offset (le_combine array);
        opaque ← opaque_decode opaque_data_bytes;
        Ok (opaque, offset)
      else Ok (∅, offset));
   '(sig, offset) ← get_at "Signature overflow" (pre ++ s) offset sl;
   Ok (K nonce (le_combine array) opaque sig, offset)) =
  ('(r, rest) ←
    ('(nonce, s) ← take_n "Nonce overflow" s 32;
     '(array, s) ← take_n "OpaqueDataLength overlow" s 2;
     '(opaque_bytes, s) ← take_n "OpaqueData overflow" s (le_combine array);
     opaque ← opaque_decode opaque_bytes;
     '(sig, s) ← take_n "Signature overflow" s sl;
     Ok (K nonce (le_combine array) opaque sig, s));
   Ok (r, len (pre ++ s) - len rest)).
Proof.
  intros Hp Hsl. pose proof (len_nonneg pre).
  rewrite get_at_app by lia. destruct (take_n _ s 32) as [[nonce s1]| |] eqn:T; [|done..].
  apply take_n_Ok in T as [-> Hn]; [|lia]. cbn [mbind outcome_bind]. rewrite app_assoc, <- Hn, <- len_app.
  rewrite get_at_app by len_lia. destruct (take_n _ s1 2) as [[array s2]| |] eqn:T; [|done..].
  apply take_n_Ok in T as [-> Ha]; [|lia]. cbn [mbind outcome_bind]. rewrite app_assoc, <- Ha, <- len_app.
  pose proof (le_combine_small array 2 Ha) as Hl. set (n := le_combine array) in *.
  rewrite get_at_app by len_lia.
  destruct (take_n _ s2 n) as [[ob s3]| |] eqn:T;
    [|destruct (Z.ltb_spec 0 n); [done|rewrite take_n_neg in T by lia; done]..].
  apply take_n_Ok in T as [-> Ho]; [|lia]. cbn [mbind outcome_bind].
  destruct (opaque_decode ob) as [opaque| |] eqn:D;
    [|destruct (Z.ltb_spec 0 n); [done|destruct ob; [discriminate D|len_lia]]..].
  assert (D' : (if 0 <? n then opaque ← Ok opaque; Ok (opaque, len ((pre ++ nonce) ++ array) + n)
                else Ok (∅, len ((pre ++ nonce) ++ array))) =
               (Ok (opaque, len (((pre ++ nonce) ++ array) ++ ob)) : outcome anyhow _)).
  { destruct (Z.ltb_spec 0 n); [cbn; do 2 f_equal; len_lia|]. destruct ob; [|len_lia].
    injection D as <-. now rewrite app_nil_r. }
  rewrite D'. cbn [mbind outcome_bind]. rewrite app_assoc, get_at_app by len_lia.
  destruct (take_n _ s3 sl) as [[sig s4]| |] eqn:T; [|done..].
  apply take_n_Ok in T as [-> Hs]; [|lia]. cbn [mbind outcome_bind]. do 2 f_equal. len_lia.
Qed.

Lemma response_decode_eq s signature_length :
  0 <= signature_length < 2 ^ 63 ->
  response_decode s signature_length =
    '(r, rest) ← parse_response s signature_length; Ok (r, len s - len rest).
Proof.
  intros Hsl. unfold response_decode, parse_response.
  destruct s as [|b0 [|b1 [|b2 [|b3 [|b4 [|b5 [|b6 [|b7 s]]]]]]]]; [done..|].
  rewrite (proj2 (Z.ltb_ge _ _)) by len_lia.
  set (hdr := [b0; b1; b2; b3; b4; b5; b6; b7]).
  change (b0 :: b1 :: b2 :: b3 :: b4 :: b5 :: b6 :: b7 :: s) with (hdr ++ s).
  change (index (hdr ++ s) 0) with (@Ok anyhow _ b0). change (index (hdr ++ s) 1) with (@Ok anyhow _ b1).
  change (index (hdr ++ s) 2) with (@Ok anyhow _ b2). change (index (hdr ++ s) 3) with (@Ok anyhow _ b3).
  change (index (hdr ++ s) 4) with (@Ok anyhow _ b4). change (index (hdr ++ s) 5) with (@Ok anyhow _ b5).
  change (index (hdr ++ s) 6) with (@Ok anyhow _ b6). change (index (hdr ++ s) 7) with (@Ok anyhow _ b7).
  cbn [mbind outcome_bind]. destruct (negb _); [done|]. rewrite u24_le_combine.
  pose proof (le_combine_small [b5; b6; b7] 3 eq_refl) as Hrec.
  pose proof (u8_range b4) as Hb4. set (n := le_combine [b5; b6; b7]) in *.
  assert (Hh : len hdr = 8) by done. rewrite <- Hh at 1.
  rewrite (get_at_app _ hdr s n) by lia.
  destruct (take_n "MeasurementRecord overflow" s n) as [[rec s1]| |] eqn:T1;
    [|destruct (Z.ltb_spec 0 n); [done|rewrite take_n_neg in T1 by lia; done]..].
  apply take_n_Ok in T1 as [-> Hn]; [|lia]. cbn [mbind outcome_bind].
  rewrite record_decode_eq by lia.
  destruct (if 0 <? n then parse_record (Z.to_nat (u8 b4)) rec else Ok []) as [blocks| |] eqn:B;
    [|destruct (0 <? n); [now rewrite B|done]..].
  assert (B' : (if 0 <? n then blocks ← parse_record (Z.to_nat (u8 b4)) rec; Ok (blocks, len hdr + n)
                else Ok ([], 8)) = Ok (blocks, len (hdr ++ rec))).
  { destruct (Z.ltb_spec 0 n); [rewrite B|injection B as <-]; cbn; do 2 f_equal; len_lia. }
  rewrite B'. cbn [mbind outcome_bind]. rewrite app_assoc. clear B B'.
  apply response_tail_eq; len_lia.
Qed.

(** ** What a successful decoding looked at *)
Definition with_signature (r : SpdmGetMeasurementsResponse) (sig : bytes) : SpdmGetMeasurementsResponse :=
  {| rs_spdm_version := rs_spdm_version r; rs_request_response_code := rs_request_response_code r;
     rs_param1 := rs_param1 r; rs_param2 := rs_param2 r; number_of_blocks := number_of_blocks r;
     measurement_record_length := measurement_record_length r; measurement_record := measurement_record r;
     rs_nonce := rs_nonce r; opaque_data_length := opaque_data_length r; opaque_data := opaque_data r;
     signature := sig |}.

Lemma parse_response_split s sl r rest :
  0 <= sl -> parse_response s sl = Ok (r, rest) ->
  exists pre, s = pre ++ signature r ++ rest /\ len (signature r) = sl /\
    forall sig' rest', len sig' = sl ->
      parse_response (pre ++ sig' ++ rest') sl = Ok (with_signature r sig', rest').
Proof.
  intros Hsl H. unfold parse_response in H.
  destruct s as [|b0 [|b1 [|b2 [|b3 [|b4 [|b5 [|b6 [|b7 s]]]]]]]]; [done..|].
  destruct (negb _) eqn:V; [done|].
  pose proof (le_combine_small [b5; b6; b7] 3 eq_refl) as Hrec.
  apply bind_Ok in H as ([rec s1] & [-> Hn]%take_n_Ok & H); [|lia].
  apply bind_Ok in H as (blocks & B & H).
  apply bind_Ok in H as ([nonce s2] & [-> Hno]%take_n_Ok & H); [|lia].
  apply bind_Ok in H as ([array s3] & [-> Ha]%take_n_Ok & H); [|lia].
  pose proof (le_combine_small array 2 Ha) as Hl.
  apply bind_Ok in H as ([ob s4] & [-> Ho]%take_n_Ok & H); [|lia].
  apply bind_Ok in H as (op & D & H). apply bind_Ok in H as ([sg s5] & [-> Hs]%take_n_Ok & H); [|lia].
  injection H as <- <-. cbn [signature].
  exists ([b0; b1; b2; b3; b4; b5; b6; b7] ++ rec ++ nonce ++ array ++ ob).
  split; [cbn [app]; now rewrite <- !app_assoc|]. split; [done|].
  intros sig' rest' Hs'. rewrite <- !app_assoc. cbn [app]. unfold parse_response. rewrite V.
  rewrite <- Hn, take_n_app. cbn [mbind outcome_bind]. rewrite Hn, B. cbn [mbind outcome_bind].
  rewrite <- Hno, take_n_app. cbn [mbind outcome_bind]. rewrite <- Ha, take_n_app. cbn [mbind outcome_bind].
  rewrite <- Ho at 1. rewrite take_n_app. cbn [mbind outcome_bind]. rewrite D. cbn [mbind outcome_bind].
  rewrite <- Hs', take_n_app. done.
Qed.

(** ** Panics *)
Lemma chunks_fuel_step {A} fuel n (l k : list A) :
  length l = n -> (0 < n)%nat -> chunks_fuel (S fuel) n (l ++ k) = l :: chunks_fuel fuel n k.
Proof.
  intros <- Hn. destruct l as [|x l]; [cbn in Hn; lia|]. cbn [chunks_fuel app].
  change (x :: l ++ k) with ((x :: l) ++ k). now rewrite take_app_length, drop_app_length.
Qed.

Lemma chunks_concat {A} n (cs : list (list A)) :
  (0 < n)%nat -> Forall (fun c => length c = n) cs -> chunks n (concat cs) = cs.
Proof.
  intros Hn H. unfold chunks.
  assert (G : forall fuel, (length (concat cs) <= fuel)%nat -> chunks_fuel fuel n (concat cs) = cs).
  { induction H as [|c cs Hc _ IH]; intros fuel Hf; [now destruct fuel|].
    cbn [concat] in *. rewrite length_app in Hf. destruct fuel as [|fuel]; [lia|].
    rewrite chunks_fuel_step by done. f_equal. apply IH. lia. }
  now apply G.
Qed.

(** A list whose length is a multiple of [n] is a concatenation of pieces. *)
Lemma split_pieces {A} (n k : nat) (l : list A) :
  length l = (k * n)%nat -> exists cs, l = concat cs /\ length cs = k /\ Forall (fun c => length c = n) cs.
Proof.
  revert l. induction k as [|k IH]; intros l Hl; cbn in Hl.
  - exists []. destruct l; [auto|discriminate].
  - destruct (IH (drop n l)) as (cs & E & Hk & Hc). { rewrite length_drop. lia. }
    exists (take n l :: cs). cbn. rewrite <- E, take_drop, Hk. repeat split; [done..|].
    constructor; [rewrite length_take; lia|done].
Qed.

Lemma count_loop_Panic cs i vs :
  Forall (fun c => length c = 4%nat) cs -> 0 <= i < 256 ->
  measurement_count_loop cs i vs = Panic <-> overflow_checks = true /\ 255 < i + len cs.
Proof.
  intros H. revert i vs. induction H as [|c cs Hc _ IH]; intros i vs Hi; cbn [measurement_count_loop].
  - rewrite len_nil. split; [done|lia].
  - rewrite len_cons. pose proof (len_nonneg cs). unfold len at 1. rewrite Hc. change (negb (Z.of_nat 4 =? MSR_COUNT_SIZE)) with false. cbn iota.
    unfold uint. destruct (Z.ltb_spec (i + 1) (2 ^ 8)) as [Hb|Hb].
    + rewrite (proj2 (Z.leb_le 0 _)) by lia. cbn [andb mbind outcome_bind]. rewrite IH by lia.
      split; intros [? ?]; (split; [done|lia]).
    + rewrite andb_false_r. destruct overflow_checks eqn:O; cbn [mbind outcome_bind].
      * split; [intros _; split; [done|lia]|done].
      * assert (i + 1 = 256) as -> by lia. change (256 mod 2 ^ 8) with 0. rewrite IH by lia.
        split; intros [? ?]; congruence.
Qed.

Lemma multiple_pieces (b : bytes) (n : nat) :
  (0 < n)%nat -> len b mod Z.of_nat n = 0 ->
  exists cs, b = concat cs /\ len cs = len b / Z.of_nat n /\ Forall (fun c => length c = n) cs.
Proof.
  intros Hn Hm. pose proof (len_nonneg b). pose proof (Z.div_pos (len b) (Z.of_nat n)).
  pose proof (Z.div_mod (len b) (Z.of_nat n)).
  destruct (split_pieces n (Z.to_nat (len b / Z.of_nat n)) b) as (cs & E & Hk & Hc).
  { unfold len in *. nia. }
  exists cs. split; [done|]. split; [|done]. unfold len at 1. rewrite Hk. lia.
Qed.

(** The counter of the counts is one byte: 255 counts panic when overflow is
    checked. *)
Lemma measurement_count_Panic b :
  decode_measurement_count b = Panic <->
  overflow_checks = true /\ len b mod MSR_COUNT_SIZE = 0 /\ 1020 <= len b.
Proof.
  unfold decode_measurement_count, MSR_COUNT_SIZE.
  destruct (Z.eqb_spec (len b mod 4) 0) as [Hm|Hm]; cbn [negb]; [|split; [done|tauto]].
  destruct (multiple_pieces b 4 ltac:(lia) Hm) as (cs & E & Hk & Hc).
  pose proof (Z.div_mod (len b) 4 ltac:(done)) as Hd. change (Z.of_nat 4) with 4 in Hk.
  rewrite E at 1. change (Z.to_nat 4) with 4%nat. rewrite chunks_concat by (done || lia).
  rewrite bind_Panic, count_loop_Panic by (done || lia). rewrite Hk.
  split; [intros [[? ?]|(x & _ & ?)]; [|done]|intros (? & _ & ?); left]; repeat split; try done; lia.
Qed.

Lemma opaque_value_Panic t d :
  opaque_value t d = Panic -> t = MsrsCnt /\ overflow_checks = true /\ len d mod 4 = 0 /\ 1020 <= len d.
Proof.
  destruct t; cbn; try done.
  - intros H. apply bind_Panic in H as [H|(s & _ & H)]; [now apply ok_or_Panic in H|done].
  - intros H%measurement_count_Panic. tauto.
  - unfold decode_switch_pdi. now case_match.
Qed.

Lemma opaque_from_u16_Some z t : opaque_from_u16 z = Some t -> z = opaque_data_type_id t.
Proof. unfold opaque_from_u16. intros H. repeat (case_match; try discriminate H); injection H as <-; done. Qed.

Lemma opaque_from_u16_id t : t <> Invalid -> opaque_from_u16 (opaque_data_type_id t) = Some t.
Proof. now destruct t. Qed.

(** The bytes of an item. *)
Definition item_bytes (t : OpaqueDataType) (d : bytes) : bytes :=
  le_split 2 (opaque_data_type_id t) ++ le_split 2 (len d) ++ d.

(** A list of counts too long for its counter. *)
Definition count_overflow (d : bytes) : Prop := len d mod 4 = 0 /\ 1020 <= len d.

Lemma item_bytes_intro t0 t1 n0 n1 t d :
  opaque_from_u16 (le_combine [t0; t1]) = Some t -> len d = le_combine [n0; n1] ->
  item_bytes t d = t0 :: t1 :: n0 :: n1 :: d.
Proof.
  intros Ht%opaque_from_u16_Some Hd. unfold item_bytes. rewrite <- Ht, Hd.
  now rewrite (split_le_combine [t0; t1] : le_split 2 _ = _), (split_le_combine [n0; n1] : le_split 2 _ = _).
Qed.

Lemma parse_opaque_Panic fuel s m :
  (0 < fuel)%nat -> (length s <= fuel)%nat -> parse_opaque fuel s m = Panic ->
  overflow_checks = true /\ exists pre d rest, s = pre ++ item_bytes MsrsCnt d ++ rest /\ count_overflow d.
Proof.
  revert s m. induction fuel as [|fuel IH]; intros s m Hf Hl H; [lia|]. cbn [parse_opaque] in H.
  destruct s as [|t0 [|t1 [|n0 [|n1 [|x s]]]]]; try discriminate H.
  destruct (opaque_from_u16 _) as [t|] eqn:Et; cbn [mbind outcome_bind ok_or] in H; [|discriminate H].
  destruct (take_n _ _ _) as [[d r]| |] eqn:T; cbn [mbind outcome_bind] in H;
    [|discriminate H|now apply take_n_not_Panic in T].
  apply take_n_Ok in T as [E Hd]; [|apply le_combine2_bound]. rewrite E in *.
  pose proof (item_bytes_intro _ _ _ _ _ _ Et Hd) as Hi.
  destruct (opaque_value t d) eqn:V; cbn [mbind outcome_bind] in H; [|discriminate H|].
  - destruct (bool_decide _); [discriminate H|].
    cbn in Hl. rewrite length_app in Hl.
    apply IH in H as (Ho & pre & d' & rest & -> & Hov); [|lia..].
    split; [done|]. exists (item_bytes t d ++ pre), d', rest. split; [|done].
    rewrite Hi. cbn [app]. now rewrite <- !app_assoc.
  - apply opaque_value_Panic in V as (-> & Ho & Hov). split; [done|].
    exists [], d, r. split; [|done]. rewrite Hi. done.
Qed.

Lemma opaque_decode_eq s :
  len s + 2 ^ 20 < 2 ^ 64 -> s <> [] ->
  opaque_decode s = m ← parse_opaque (length s) s ∅;
    if negb (bool_decide (is_Some (m !! opaque_to_string VbiosVersion)))
       || negb (bool_decide (is_Some (m !! opaque_to_string DriverVersion)))
    then Err "Both vbios_version and driver_version must be present in the report"
    else Ok m.
Proof.
  intros Hl Hs. unfold opaque_decode. destruct (Z.eqb_spec (len s) 0) as [E|_].
  { destruct s as [|x s]; [done|]. rewrite len_cons in E. pose proof (len_nonneg s). lia. }
  now rewrite (opaque_loop_eq _ [] s ∅ Hl : opaque_loop _ s 0 ∅ = _).
Qed.

Lemma parse_record_not_Panic n s : parse_record n s <> Panic.
Proof.
  revert s. induction n as [|n IH]; intros s; cbn; [done|]. intros H.
  apply bind_Panic in H as [H|([b r] & _ & H)].
  - unfold parse_block, parse_measurement in H. destruct s as [|i [|spec [|b0 [|b1 s]]]]; [done..|].
    destruct (negb _); [done|]. apply bind_Panic in H as [H|([d r] & _ & H)]; [now apply take_n_not_Panic in H|].
    apply bind_Panic in H as [H|(? & _ & H)]; [|done].
    destruct d as [|? [|? [|? d]]]; [done..|].
    apply bind_Panic in H as [H|([? ?] & _ & H)]; [now apply take_n_not_Panic in H|done].
  - apply bind_Panic in H as [H|(? & _ & H)]; [now apply IH in H|done].
Qed.

(** Where the SPDM decoder can panic.  A response makes the decoder panic
    only in a build with overflow checks, and only by an item of opaque data
    that lists 255 measurement counts or more; on every other input, of any
    length, it returns. *)
Theorem response_panic_cause s signature_length :
  0 <= signature_length < 2 ^ 63 -> response_decode s signature_length = Panic ->
  overflow_checks = true /\ exists pre d rest, s = pre ++ item_bytes MsrsCnt d ++ rest /\ count_overflow d.
Proof.
  intros Hsl H. rewrite response_decode_eq in H by done.
  apply bind_Panic in H as [H|([? ?] & _ & H)]; [|discriminate H]. unfold parse_response in H.
  destruct s as [|b0 [|b1 [|b2 [|b3 [|b4 [|b5 [|b6 [|b7 s]]]]]]]]; [discriminate H..|].
  destruct (negb _); [discriminate H|].
  pose proof (le_combine_small [b5; b6; b7] 3 eq_refl) as Hrec.
  apply bind_Panic in H as [H|([rec s1] & [-> Hn]%take_n_Ok & H)]; [now apply take_n_not_Panic in H| |lia].
  apply bind_Panic in H as [H|(blocks & _ & H)]; [case_match; [now apply parse_record_not_Panic in H|done]|].
  apply bind_Panic in H as [H|([nonce s2] & [-> _]%take_n_Ok & H)]; [now apply take_n_not_Panic in H| |lia].
  apply bind_Panic in H as [H|([array s3] & [-> Ha]%take_n_Ok & H)]; [now apply take_n_not_Panic in H| |lia].
  pose proof (le_combine_small array 2 Ha) as Hl.
  apply bind_Panic in H as [H|([ob s4] & [-> Ho]%take_n_Ok & H)]; [now apply take_n_not_Panic in H| |lia].
  apply bind_Panic in H as [H|(op & _ & H)].
  - destruct (decide (ob = [])) as [->|Hne]; [discriminate H|].
    rewrite opaque_decode_eq in H by (done || lia).
    apply bind_Panic in H as [H|(? & _ & H)]; [|case_match; discriminate H].
    apply parse_opaque_Panic in H as (Hc & pre & d & rest & -> & Hov);
      [|destruct ob; [done|cbn; lia]|done].
    split; [done|]. exists ([b0; b1; b2; b3; b4; b5; b6; b7] ++ rec ++ nonce ++ array ++ pre), d, (rest ++ s4).
    split; [cbn [app]; now rewrite <- !app_assoc|done].
  - apply bind_Panic in H as [H|([? ?] & _ & H)]; [now apply take_n_not_Panic in H|discriminate H].
Qed.

(** ** A reference encoder *)
Record SpdmMessage := {
  ms_code : Init.Byte.byte;
  ms_param1 : Init.Byte.byte;
  ms_param2 : Init.Byte.byte;
  ms_blocks : list (Init.Byte.byte * Init.Byte.byte * bytes);
  ms_nonce : bytes;
  ms_items : list (OpaqueDataType * bytes);
  ms_signature : bytes;
}.

Definition measurement_bytes (t : Init.Byte.byte) (v : bytes) : bytes := t :: le_split 2 (len v) ++ v.

Definition block_bytes (b : Init.Byte.byte * Init.Byte.byte * bytes) : bytes :=
  let '(i, t, v) := b in
  [i; Init.Byte.x01] ++ le_split 2 (len (measurement_bytes t v)) ++ measurement_bytes t v.

Definition blocks_bytes (m : SpdmMessage) : bytes := concat (map block_bytes (ms_blocks m)).
Definition items_bytes (m : SpdmMessage) : bytes := concat (map (fun it => item_bytes it.1 it.2) (ms_items m)).

Definition encode_response (m : SpdmMessage) : bytes :=
  [Init.Byte.x11; ms_code m; ms_param1 m; ms_param2 m; byte.of_Z (len (ms_blocks m))] ++
  le_split 3 (len (blocks_bytes m)) ++ blocks_bytes m ++ ms_nonce m ++
  le_split 2 (len (items_bytes m)) ++ items_bytes m ++ ms_signature m.

(** What the decoder should make of it. *)
Definition block_of (b : Init.Byte.byte * Init.Byte.byte * bytes) : MeasurementBlock :=
  let '(i, t, v) := b in
  {| mb_index := i; measurement_specification := Init.Byte.x01; measurement_size := len (measurement_bytes t v);
     measurement := {| dm_type := t; dm_size := len v; dm_value := v |} |}.

Definition claim_of (it : OpaqueDataType * bytes) : string * Value :=
  (opaque_to_string it.1, match opaque_value it.1 it.2 with Ok v => v | _ => VNull end).

Definition response_of (m : SpdmMessage) : SpdmGetMeasurementsResponse :=
  {| rs_spdm_version := Init.Byte.x11; rs_request_response_code := ms_code m; rs_param1 := ms_param1 m;
     rs_param2 := ms_param2 m; number_of_blocks := len (ms_blocks m);
     measurement_record_length := len (blocks_bytes m); measurement_record := map block_of (ms_blocks m);
     rs_nonce := ms_nonce m; opaque_data_length := len (items_bytes m);
     opaque_data := list_to_map (map claim_of (ms_items m)); signature := ms_signature m |}.

(** Messages the layout can carry: sizes fit their fields, the data of every
    item can be shown, no type occurs twice, and the two versions are there. *)
Definition block_fits (b : Init.Byte.byte * Init.Byte.byte * bytes) : Prop := len b.2 + 3 < 2 ^ 16.

Definition item_fits (it : OpaqueDataType * bytes) : Prop :=
  it.1 <> Invalid /\ 0 < len it.2 < 2 ^ 16 /\ exists v, opaque_value it.1 it.2 = Ok v.

Record message_ok (m : SpdmMessage) : Prop := {
  ok_blocks : len (ms_blocks m) < 256 /\ Forall block_fits (ms_blocks m) /\ len (blocks_bytes m) < 2 ^ 24;
  ok_nonce : len (ms_nonce m) = 32;
  ok_items : Forall item_fits (ms_items m) /\ len (items_bytes m) < 2 ^ 16 /\ NoDup (map fst (ms_items m));
  ok_versions : VbiosVersion ∈ map fst (ms_items m) /\ DriverVersion ∈ map fst (ms_items m);
  ok_signature : len (ms_signature m) < 2 ^ 63;
}.

Lemma le_split2 z : 0 <= z < 2 ^ 16 -> exists a b, le_split 2 z = [a; b] /\ le_combine [a; b] = z.
Proof.
  intros Hz. eexists _, _. split; [reflexivity|]. etransitivity; [exact (le_combine_split 2 z)|].
  now apply Z.mod_small.
Qed.

Lemma le_split3 z : 0 <= z < 2 ^ 24 -> exists a b c, le_split 3 z = [a; b; c] /\ le_combine [a; b; c] = z.
Proof.
  intros Hz. eexists _, _, _. split; [reflexivity|]. etransitivity; [exact (le_combine_split 3 z)|].
  now apply Z.mod_small.
Qed.

Lemma parse_block_bytes b s :
  block_fits b -> parse_block (block_bytes b ++ s) = Ok (block_of b, s).
Proof.
  destruct b as [[i t] v]. unfold block_fits. cbn [fst snd]. intros Hf.
  assert (Hm : len (measurement_bytes t v) = len v + 3). { unfold measurement_bytes. len_lia. }
  pose proof (len_nonneg v). unfold block_bytes, block_of. rewrite Hm.
  destruct (le_split2 (len v + 3) ltac:(lia)) as (a & b & -> & Hab). rewrite <- !app_assoc. cbn [app].
  unfold parse_block. change (negb _) with false. cbn iota. rewrite Hab, <- Hm, take_n_app.
  cbn [mbind outcome_bind]. unfold parse_measurement, measurement_bytes.
  destruct (le_split2 (len v) ltac:(lia)) as (a' & b' & -> & Hab'). cbn [app]. rewrite Hab'.
  now rewrite <- (app_nil_r v) at 1; rewrite take_n_app.
Qed.

Lemma parse_record_bytes bs s :
  Forall block_fits bs -> parse_record (length bs) (concat (map block_bytes bs) ++ s) = Ok (map block_of bs).
Proof.
  induction 1 as [|b bs Hb _ IH]; [done|]. cbn [length parse_record map concat].
  rewrite <- app_assoc, parse_block_bytes by done. cbn [mbind outcome_bind]. now rewrite IH.
Qed.

Lemma opaque_to_string_inj t u : opaque_to_string t = opaque_to_string u -> t = u.
Proof. destruct t, u; (reflexivity || discriminate). Qed.

Lemma parse_opaque_items items m fuel :
  Forall item_fits items -> NoDup (map fst items) ->
  (forall it, it ∈ items -> m !! opaque_to_string it.1 = None) ->
  (length (concat (map (fun it => item_bytes it.1 it.2) items)) <= fuel)%nat -> (0 < fuel)%nat ->
  parse_opaque fuel (concat (map (fun it => item_bytes it.1 it.2) items)) m
    = Ok (list_to_map (map claim_of items) ∪ m).
Proof.
  revert m fuel. induction items as [|[t d] items IH]; intros m fuel Hok Hn Hm Hf Hf0.
  { destruct fuel; [lia|]. cbn. now rewrite map_empty_union. }
  cbn [map concat fst snd] in *. apply Forall_cons_iff in Hok as [(Ht & Hd & v & Hv) Hok].
  apply list.NoDup_cons in Hn as [Hni Hn]. cbn [fst snd] in *.
  destruct fuel as [|fuel]; [lia|].
  assert (Hid : 0 <= opaque_data_type_id t < 2 ^ 16) by (destruct t; cbn; lia).
  destruct (le_split2 _ Hid) as (t0 & t1 & Et & Ht'). destruct (le_split2 (len d) ltac:(lia)) as (n0 & n1 & En & Hd').
  assert (Hib : item_bytes t d = t0 :: t1 :: n0 :: n1 :: d) by (unfold item_bytes; now rewrite Et, En).
  rewrite Hib in *. destruct d as [|x d]; [exfalso; clear -Hd; cbv in Hd; naive_solver|].
  cbn [app] in *. cbn [parse_opaque].
  rewrite Ht', Hd', opaque_from_u16_id by done. cbn [mbind outcome_bind ok_or].
  change (x :: d ++ ?r) with ((x :: d) ++ r). rewrite take_n_app. cbn [mbind outcome_bind]. rewrite Hv.
  cbn [mbind outcome_bind].
  assert (Hmt : m !! opaque_to_string t = None) by (apply (Hm (t, x :: d)); now left).
  rewrite Hmt, bool_decide_eq_false_2 by now intros [? ?].
  cbn in Hf. rewrite length_app in Hf. rewrite IH; [|done|done| |lia|lia].
  - f_equal. unfold claim_of at 2. cbn [fst snd]. rewrite Hv. cbn [list_to_map foldr curry].
    rewrite <- insert_union_r; [now rewrite insert_union_l|]. apply not_elem_of_list_to_map_1.
    rewrite <- list_fmap_compose. intros (it & E & Hi)%list_elem_of_fmap. cbn in E. apply opaque_to_string_inj in E.
    apply Hni. rewrite E. now apply list_elem_of_fmap_2.
  - intros it Hi. rewrite lookup_insert_ne; [apply Hm; now right|].
    intros E%opaque_to_string_inj. apply Hni. rewrite E. now apply list_elem_of_fmap_2.
Qed.

Lemma claim_of_lookup items t :
  t ∈ map fst items ->
  is_Some ((list_to_map (map claim_of items) : gmap string Value) !! opaque_to_string t).
Proof.
  intros ([t' d] & -> & Hi)%list_elem_of_fmap. cbn [fst].
  destruct ((list_to_map (map claim_of items) : gmap string Value) !! opaque_to_string t') eqn:E; [eauto|].
  apply not_elem_of_list_to_map_2 in E. destruct E. rewrite <- list_fmap_compose.
  now apply (list_elem_of_fmap_2 (fst ∘ claim_of) items (t', d)).
Qed.

Lemma opaque_decode_items m :
  message_ok m -> opaque_decode (items_bytes m) = Ok (list_to_map (map claim_of (ms_items m))).
Proof.
  intros [_ _ (Hf & Hl & Hn) (Hv & Hd) _].
  assert (Hne : items_bytes m <> []).
  { unfold items_bytes. destruct (ms_items m) as [|[t d] items]; [now apply elem_of_nil in Hv|]. done. }
  rewrite opaque_decode_eq by (done || lia). unfold items_bytes in *.
  rewrite parse_opaque_items; [|done|done|intros; apply lookup_empty|done|].
  - rewrite map_union_empty. cbn [mbind outcome_bind].
    rewrite !bool_decide_eq_true_2 by (now apply claim_of_lookup). done.
  - destruct (concat _); [done|cbn; lia].
Qed.

(** C24: decoding inverts encoding.  The encoding of a response that the layout
    can carry, followed by anything, decodes to the response it was made from:
    the measurement blocks in order, the claims of all items of opaque data,
    nonce and signature, and the size of the encoding as the size read. *)
Theorem response_roundtrip m rest :
  message_ok m ->
  response_decode (encode_response m ++ rest) (len (ms_signature m))
    = Ok (response_of m, len (encode_response m)).
Proof.
  intros Hm. pose proof (opaque_decode_items m Hm) as Hop.
  destruct Hm as [(Hb & Hbf & Hbl) Hno (_ & Hil & _) _ Hs].
  pose proof (len_nonneg (ms_signature m)). pose proof (len_nonneg (ms_blocks m)).
  rewrite response_decode_eq by lia.
  enough (parse_response (encode_response m ++ rest) (len (ms_signature m)) = Ok (response_of m, rest)) as ->.
  { cbn [mbind outcome_bind]. do 2 f_equal. len_lia. }
  unfold encode_response.
  destruct (le_split3 (len (blocks_bytes m)) ltac:(split; [apply len_nonneg|done])) as (b5 & b6 & b7 & -> & Hb').
  destruct (le_split2 (len (items_bytes m)) ltac:(split; [apply len_nonneg|done])) as (i0 & i1 & Ei & Hi').
  rewrite <- !app_assoc. cbn [app]. unfold parse_response. change (negb (u8 Init.Byte.x11 =? SPDM_VERSION_SUPPORTED)) with false. cbn iota.
  rewrite Hb', take_n_app. cbn [mbind outcome_bind]. rewrite u8_of_Z by lia.
  assert (Hrec : (if 0 <? len (blocks_bytes m) then parse_record (Z.to_nat (len (ms_blocks m))) (blocks_bytes m)
                  else Ok []) = Ok (map block_of (ms_blocks m))).
  { unfold blocks_bytes. destruct (ms_blocks m) as [|b bs] eqn:Eb; [done|]. rewrite (proj2 (Z.ltb_lt _ _)).
    - rewrite to_nat_len, <- (app_nil_r (concat _)). now apply parse_record_bytes.
    - cbn [map concat]. destruct b as [[i t] v]. cbn [block_bytes]. len_lia. }
  rewrite Hrec. cbn [mbind outcome_bind]. rewrite <- Hno, take_n_app. cbn [mbind outcome_bind].
  rewrite Ei. change 2 with (len [i0; i1]) at 1. rewrite take_n_app. cbn [mbind outcome_bind].
  rewrite Hi', take_n_app. cbn [mbind outcome_bind]. rewrite Hop. cbn [mbind outcome_bind].
  rewrite take_n_app. cbn [mbind outcome_bind]. done.
Qed.

(** ** The counts *)
Lemma obj_insert_fresh {A} k (v : A) m : k ∉ map fst m -> obj_insert k v m = m ++ [(k, v)].
Proof.
  induction m as [|[k' v'] m IH]; cbn; [done|]. intros H. rewrite not_elem_of_cons in H.
  rewrite decide_False by tauto. now rewrite IH by tauto.
Qed.

(** The counts, under the numbers of their measurements. *)
Fixpoint counts_from (i : Z) (cs : list bytes) : list (string * Value) :=
  match cs with
  | [] => []
  | c :: cs => (fmt_dec i, VNumber (PosInt (le_combine c))) :: counts_from (i + 1) cs
  end.

Lemma count_loop_Ok cs i vs :
  Forall (fun c => length c = 4%nat) cs -> 0 <= i -> i + len cs < 256 ->
  (forall k, k ∈ map fst vs -> exists j, k = fmt_dec j /\ 0 <= j < i) ->
  measurement_count_loop cs i vs = Ok (vs ++ counts_from i cs).
Proof.
  intros H. revert i vs. induction H as [|c cs Hc _ IH]; intros i vs Hi Hl Hk;
    cbn [measurement_count_loop counts_from]; [now rewrite app_nil_r|].
  rewrite len_cons in Hl. pose proof (len_nonneg cs). unfold len at 1. rewrite Hc.
  change (negb (Z.of_nat 4 =? MSR_COUNT_SIZE)) with false. cbn iota.
  rewrite uint_small by lia. cbn [mbind outcome_bind]. rewrite obj_insert_fresh.
  - rewrite IH; [now rewrite <- app_assoc|lia|lia|]. intros k. rewrite map_app, elem_of_app. cbn [map fst].
    rewrite list_elem_of_singleton. intros [(j & -> & ?)%Hk| ->]; [exists j|exists i]; (split; [done|lia]).
  - intros (j & E & Hj)%Hk. apply fmt_dec_inj in E; lia.
Qed.

(** The measurement counts.  Up to 254 little-endian counts are all
    reported, each under the number of its measurement; from 255 counts on, a
    build with overflow checks panics. *)
Theorem measurement_count_reported b :
  len b mod MSR_COUNT_SIZE = 0 ->
  (len b < 1020 -> exists cs, b = concat cs /\ Forall (fun c => length c = 4%nat) cs /\
     decode_measurement_count b = Ok (VObject (counts_from 1 cs))) /\
  (1020 <= len b -> overflow_checks = true -> decode_measurement_count b = Panic).
Proof.
  intros Hm. split; [|intros; now apply measurement_count_Panic].
  intros Hl. destruct (multiple_pieces b 4 ltac:(lia) Hm) as (cs & E & Hk & Hc).
  pose proof (Z.div_mod (len b) 4 ltac:(done)) as Hd. change (Z.of_nat 4) with 4 in Hk.
  pose proof (Z.mod_pos_bound (len b) 4 ltac:(done)).
  exists cs. split; [done|]. split; [done|]. unfold decode_measurement_count.
  rewrite Hm. cbn [Z.eqb negb]. rewrite E. change (Z.to_nat MSR_COUNT_SIZE) with 4%nat.
  rewrite chunks_concat by (done || lia). rewrite count_loop_Ok; [done|done|lia|lia|].
  now intros k Hk'%elem_of_nil.
Qed.

(** The response decoder is a stream parser.  Addressing the message by
    offsets, with the arithmetic of [usize], gives the same result (decoded
    message and size, error, or panic) as consuming it from the front, for every
    input and every signature length a slice can have. *)
Theorem response_decode_equiv s signature_length :
  0 <= signature_length < 2 ^ 63 ->
  response_decode s signature_length =
    '(r, rest) ← parse_response s signature_length; Ok (r, len s - len rest).
Proof. apply response_decode_eq. Qed.
End Parsers.

(** ** Concrete messages *)
Module SpdmDemo.
Import Init.Byte.

Definition demo_message : SpdmMessage :=
  {| ms_code := x60; ms_param1 := x00; ms_param2 := x00; ms_blocks := [(x01, x00, [xaa; xbb])];
     ms_nonce := replicate 32 x07;
     ms_items := [(DriverVersion, [x35; x35; x00]); (VbiosVersion, [x00; x9f; x00; x96; x01; x00; x00; x00]);
                  (MsrsCnt, [x02; x00; x00; x00])];
     ms_signature := replicate 4 x05 |}.

Lemma demo_message_ok {P : Profile} : message_ok demo_message.
Proof.
  constructor; cbn [demo_message ms_blocks ms_nonce ms_items ms_signature].
  - split; [done|]. split; [|done]. now repeat constructor.
  - done.
  - split; [|split; [done|apply NoDup_ListNoDup; repeat constructor; cbn; intuition discriminate]].
    repeat constructor; try done; eexists; (vm_compute; reflexivity).
  - split; apply list_elem_of_In; cbn; tauto.
  - done.
Qed.

(** The example of the source: version 96.00.9f.00.01. *)
Example vbios_version_example :
  format_vbios_version [x00; x9f; x00; x96; x01; x00; x00; x00] = Some "96.00.9f.00.01".
Proof. reflexivity. Qed.

Lemma response_roundtrip_witness :
  response_decode (P := true) (encode_response demo_message ++ [x01]) 4
    = Ok (response_of (P := true) demo_message, len (encode_response demo_message)).
Proof. exact (response_roundtrip (P := true) demo_message [x01] (demo_message_ok (P := true))). Defined.

(** A response with 255 counts. *)
Definition many_counts : bytes :=
  [x11; x60; x00; x00; x00; x00; x00; x00] ++ replicate 32 x07 ++ [x00; x04] ++ [x0c; x00; xfc; x03] ++
  replicate 1020 x00.

Lemma response_panic_cause_witness :
  (overflow_checks (Profile := true) = true) /\
  exists pre d rest, many_counts = pre ++ item_bytes MsrsCnt d ++ rest /\ count_overflow d.
Proof.
  apply (response_panic_cause (P := true) many_counts 96); [split; [discriminate|reflexivity]|vm_compute; reflexivity].
Defined.

Lemma measurement_count_reported_witness :
  exists cs, [x02; x00; x00; x00] = concat cs /\ Forall (fun c => length c = 4%nat) cs /\
    decode_measurement_count (P := true) [x02; x00; x00; x00] = Ok (VObject (counts_from 1 cs)).
Proof.
  exact (proj1 (measurement_count_reported (P := true) [x02; x00; x00; x00] eq_refl) ltac:(reflexivity)).
Defined.

Lemma response_decode_equiv_witness :
  response_decode (P := true) many_counts 96 =
    ('(r, rest) ← parse_response (P := true) many_counts 96; Ok (r, len many_counts - len rest)).
Proof. apply (response_decode_equiv (P := true) many_counts 96). split; [discriminate|reflexivity]. Defined.

(** Without overflow checks the counter wraps: of 257 counts 256 are left, and
    the first measurement is reported with the count of the last one. *)
Lemma measurement_count_wraps :
  exists m, decode_measurement_count (P := false) (replicate 1024 x00 ++ [x01; x00; x00; x00]) = Ok (VObject m) /\
    obj_get "1" m = Some (VNumber (PosInt 1)) /\ length m = 256%nat.
Proof. eexists. split; [vm_compute; reflexivity|]. split; reflexivity. Qed.
End SpdmDemo.
