(* ===== verification/Nvidia.v ===== *)
(** * The NVIDIA verifier ([deps/verifier/src/nvidia/])

    Certificate chains, attestation reports, the responses of the remote
    attestation service and the verifier itself.  X.509, P-384, JWT, HTTP, hex
    and base64 are parameters. *)
From S2P Require Import Prelude Types Text Fs Json Verifier Spdm.

Definition HOPPER_SIGNATURE_LENGTH : Z := 96.
Definition NRAS_URL : string := "https://nras.attestation.nvidia.com/v4/attest".
Definition NRAS_JWKS_URL : string := "https://nras.attestation.nvidia.com/.well-known/jwks.json".

(** [DeviceArchitecture] of [nvml_wrapper]: one of its values is [Hopper]. *)
Class DeviceArchitectures := {
  DeviceArchitecture : Type;
  DeviceArchitecture_eq_dec :: EqDecision DeviceArchitecture;
  Hopper : DeviceArchitecture;
  arch_to_string : DeviceArchitecture -> string;
}.

(** An HTTP reply: whether the status is a success, and its text. *)
Record HttpReply := {
  reply_success : bool;
  reply_text : outcome anyhow string;
}.

Section Evidence.
Context `{DA : DeviceArchitectures}.

Record NvDeviceReportAndCert := {
  nv_arch : DeviceArchitecture;
  uuid : string;
  nv_evidence : string;
  certificate : string;
}.

Record NvDeviceEvidence := { device_evidence_list : list NvDeviceReportAndCert }.
End Evidence.

Record NvidiaRemoteVerifierConfig := { verifier_url : option string }.

Inductive NvidiaVerifierType :=
| Local
| Remote (config : NvidiaRemoteVerifierConfig).

Record NvidiaVerifierConfig := { nv_verifier : NvidiaVerifierType }.

Record NrasResponse := { nr_jwt : string; nr_eat : string }.

Record NrasResponseInternal := { ni_jwt : list string; ni_eat : gmap string string }.

Class NvidiaCrates `{VC : VerifierCrates} `{DA : DeviceArchitectures} := {
  (** [openssl::x509] *)
  X509 : Type;
  stack_from_pem : bytes -> option (list X509);
  cert_digest_sha1 : X509 -> option bytes;
  public_key_der : X509 -> option bytes;
  (** [X509StoreContext::init] with [verify_cert]: trusted certificates, leaf,
      untrusted chain; [None] when OpenSSL fails *)
  store_context_verify : list X509 -> X509 -> list X509 -> option bool;
  (** the certificate in [nvidia_device_root.pem] *)
  nvidia_device_root : X509;
  (** [x509_parser]: the value of an extension, by its object identifier *)
  get_extension_unique : X509 -> string -> outcome anyhow (option bytes);
  (** [p384::ecdsa] *)
  P384Signature : Type;
  VerifyingKey : Type;
  signature_from_slice : bytes -> option P384Signature;
  verifying_key_from_der : bytes -> option VerifyingKey;
  p384_verify : VerifyingKey -> bytes -> P384Signature -> bool;
  (** [hex], [base64] *)
  hex_decode : string -> option bytes;
  base64_standard_no_pad_decode : string -> option bytes;
  (** [reqwest] *)
  http_post_json : string -> Value -> outcome anyhow HttpReply;
  http_get : string -> outcome anyhow HttpReply;
  (** [serde_json] *)
  json_from_str : string -> option Value;
  json_to_string : Value -> string;
  nv_evidence_from_value : Value -> option NvDeviceEvidence;
  nras_internal_from_str : string -> option NrasResponseInternal;
  (** [jsonwebtoken] *)
  Jwk : Type;
  DecodingKey : Type;
  jwt_header_kid : string -> option (option string);
  jwk_from_str : string -> option Jwk;
  decoding_key_from_jwk : Jwk -> option DecodingKey;
  jwt_decode_es384 : string -> DecodingKey -> bool;
}.

Section NvidiaVerifier.
Context {P : Profile} `{NC : NvidiaCrates}.

(** ** Certificate chains ([cert_chain.rs]) *)
Record NvidiaCertificateChain := { certs : list X509 }.

Definition certificate_fingerprint (cert : X509) : outcome anyhow string :=
  d ← ok_or "digest" (cert_digest_sha1 cert); Ok (hex_encode d).

(** [NVIDIA_ROOT_CA.digest]; the lazy static unwraps it. *)
Definition nvidia_root_ca_digest : outcome anyhow string :=
  match certificate_fingerprint nvidia_device_root with
  | Ok d => Ok d
  | _ => Panic
  end.

Definition chain_decode (bytes : bytes) : outcome anyhow NvidiaCertificateChain :=
  cs ← ok_or "stack_from_pem" (stack_from_pem bytes); Ok {| certs := cs |}.

Definition get_root_certificate (c : NvidiaCertificateChain) : outcome anyhow X509 :=
  ok_or "Root CA certificate not found in the NVIDIA certificate chain" (list.last (certs c)).

Definition get_leaf_certificate (c : NvidiaCertificateChain) : outcome anyhow X509 :=
  ok_or "Leaf certificate not found in the NVIDIA certificate chain" (head (certs c)).

Definition check_root_ca_is_trusted (c : NvidiaCertificateChain) : outcome anyhow unit :=
  root_ca ← get_root_certificate c;
  digest ← certificate_fingerprint root_ca;
  trusted ← nvidia_root_ca_digest;
  if negb (String.eqb digest trusted) then Err "Root CA in the certificate chain is not trusted" else Ok tt.

Definition FWID_OID : string := "2.23.133.5.4.1".

(** [get_fwid_from_cert]: the last 48 bytes of the extension. *)
Definition get_fwid_from_cert (cert : X509) : outcome anyhow string :=
  ext ← get_extension_unique cert FWID_OID;
  value ← ok_or "FwId oid not found in the NVIDIA signing certificate" ext;
  start ← usize_sub (len value) 48;
  fwid ← ok_or "Unexpected fwid oid size" (get_range value start (len value));
  Ok (hex_encode fwid).

Definition chain_verify (c : NvidiaCertificateChain) (expected_fwid : string) : outcome anyhow unit :=
  if len (certs c) <? 2 then
    Err "Certificate chain must have at least the root CA and signing certificates"
  else
    check_root_ca_is_trusted c;;
    leaf_cert ← get_leaf_certificate c;
    cert_fwid ← get_fwid_from_cert leaf_cert;
    if negb (String.eqb cert_fwid expected_fwid) then Err "Fwid mismatch"
    else
      let certs_without_root := removelast (certs c) in
      verified ← ok_or "openssl" (store_context_verify [nvidia_device_root] leaf_cert certs_without_root);
      if negb verified then Err "Report certificate chain failed to verify" else Ok tt.

(** ** Reports ([report.rs]) *)
Record NvidiaAttestationReport := {
  request : SpdmGetMeasurementRequest;
  response : SpdmGetMeasurementsResponse;
}.

Definition report_decode (report_bytes : bytes) (signature_length : Z) :
    outcome anyhow (NvidiaAttestationReport * Z) :=
  if len report_bytes <? SPDM_GET_MEASUREMENT_REQUEST_SIZE then Err "Attestation report data is too small"
  else
    let request_bytes := take (Z.to_nat SPDM_GET_MEASUREMENT_REQUEST_SIZE) report_bytes in
    let response_bytes := drop (Z.to_nat SPDM_GET_MEASUREMENT_REQUEST_SIZE) report_bytes in
    '(rq, request_size) ← request_decode request_bytes;
    '(rs, response_size) ← response_decode response_bytes signature_length;
    report_size ← usize_add request_size response_size;
    Ok ({| request := rq; response := rs |}, report_size).

Definition get_fwid (r : NvidiaAttestationReport) : outcome anyhow string :=
  fwid_value ← ok_or "Nvidia report fwid not found" (opaque_data (response r) !! opaque_to_string Fwid);
  match fwid_value with
  | VString fwid => Ok fwid
  | _ => Err "Nvidia report fwid value mismatch"
  end.

Definition verify_signature (signed_bytes signature_bytes : bytes) (signing_cert : X509) : outcome anyhow unit :=
  sig ← ok_or "signature" (signature_from_slice signature_bytes);
  public_key ← ok_or "public key" (public_key_der signing_cert);
  verifying_key ← ok_or "verifying key" (verifying_key_from_der public_key);
  if p384_verify verifying_key signed_bytes sig then Ok tt else Err "NVIDIA report signature failed".

Definition validate_nonce (r : NvidiaAttestationReport) (expected_nonce : bytes) : outcome anyhow unit :=
  if negb (bool_decide (expected_nonce = rq_nonce (request r))) then Err "Nvidia report nonce mismatch" else Ok tt.

Definition report_try_new (report_bytes : bytes) (report_signature_length : Z) (cert_chain_bytes : bytes)
    (expected_nonce : bytes) : outcome anyhow NvidiaAttestationReport :=
  '(report, report_size) ← report_decode report_bytes report_signature_length;
  cert_chain ← chain_decode cert_chain_bytes;
  leaf_cert ← get_leaf_certificate cert_chain;
  (if report_size <? report_signature_length then Err "Nvidia report size too small" else Ok tt);;
  let signed_data_size := report_size - report_signature_length in
  signed_data ← ok_or "Nvidia report signed data overflow" (get_range report_bytes 0 signed_data_size);
  verify_signature signed_data (signature (response report)) leaf_cert;;
  fwid ← get_fwid report;
  chain_verify cert_chain fwid;;
  validate_nonce report expected_nonce;;
  Ok report.

(** ** The remote attestation service ([nras_jwks.rs], [nras_response.rs]) *)
Definition as_bool (v : Value) : option bool :=
  match v with
  | VBool b => Some b
  | _ => None
  end.

Definition jwks_step (keys : gmap string string) (loaded_key : Value) : outcome anyhow (gmap string string) :=
  kid ← ok_or "Could not find KID" (pointer "/kid" loaded_key);
  kid ← ok_or "Malformed KID" (as_str kid);
  Ok (<[kid := json_to_string loaded_key]> keys).

(** [NrasJwks::new]. *)
Definition nras_jwks_new : outcome anyhow (gmap string string) :=
  res ← http_get NRAS_JWKS_URL;
  text ← reply_text res;
  if negb (reply_success res) then Err "JWKS Request Failed"
  else
    loaded_keys ← ok_or "json" (json_from_str text);
    loaded_keys ← ok_or "Could not find JWKs" (pointer "/keys" loaded_keys);
    loaded_keys ← ok_or "Could not find JWKs array" (as_array loaded_keys);
    mfold jwks_step ∅ loaded_keys.

(** [NrasResponse::from_str]. *)
Definition nras_response_from_str (s : string) : outcome anyhow NrasResponse :=
  response ← ok_or "json" (nras_internal_from_str s);
  if negb (len (ni_jwt response) =? 2) then Err "Unexpected Payload Format"
  else
    jwt ← index (ni_jwt response) 1;
    if negb (size (ni_eat response) =? 1)%nat then Err "Unexpected submod count."
    else
      eat ← ok_or "Could not find EAT" (head (map snd (map_to_list (ni_eat response))));
      Ok {| nr_jwt := jwt; nr_eat := eat |}.

Definition get_jwt_payload (jwt : string) : outcome anyhow Value :=
  let parts := split_on "." jwt in
  if negb (len parts =? 3) then Err "Malformed JWT"
  else
    part ← index parts 1;
    payload_bytes ← ok_or "base64" (base64_standard_no_pad_decode part);
    let payload_str := string_of_chars (utf8_lossy payload_bytes) in
    ok_or "json" (json_from_str payload_str).

Definition get_jwt_kid (jwt : string) : outcome anyhow string :=
  kid ← ok_or "header" (jwt_header_kid jwt); ok_or "Could not find KID" kid.

Definition validate_jwt (jwt : string) (jwks : gmap string string) : outcome anyhow unit :=
  kid ← get_jwt_kid jwt;
  jwk ← ok_or "Could not find KID in JWKs" (jwks !! kid);
  jwk ← ok_or "json" (jwk_from_str jwk);
  decoding_key ← ok_or "jwk" (decoding_key_from_jwk jwk);
  if jwt_decode_es384 jwt decoding_key then Ok tt else Err "jwt".

Definition nras_validate (r : NrasResponse) (jwks : gmap string string) : outcome anyhow unit :=
  validate_jwt (nr_jwt r) jwks;;
  validate_jwt (nr_eat r) jwks;;
  Ok tt.

Definition nras_claims (r : NrasResponse) : outcome anyhow Value :=
  claims ← get_jwt_payload (nr_eat r);
  jwt_claims ← get_jwt_payload (nr_jwt r);
  match pointer "/x-nvidia-overall-att-result" jwt_claims with
  | Some overall_result =>
      claims_dict ← ok_or "Unexpected claims format." (as_object claims);
      Ok (VObject (obj_insert "x-nvidia-overall-att-result" overall_result claims_dict))
  | None => Ok claims
  end.

(** ** The verifier ([mod.rs]) *)

(** [NvDeviceReportAndCertClaim::new]: of two blocks with one index the later
    one is kept.  The order of a hash map's entries is some order. *)
Definition device_measurements (r : NvidiaAttestationReport) : gmap Z string :=
  foldl (fun m b => <[u8 (mb_index b) := hex_encode (dm_value (measurement b))]> m) ∅
    (measurement_record (response r)).

Definition device_claims (arch : DeviceArchitecture) (device_uuid : string) (r : NvidiaAttestationReport) : Value :=
  VObject [("arch", VString (arch_to_string arch)); ("uuid", VString device_uuid);
           ("measurements", VObject (map (fun kv => (fmt_dec kv.1, VString kv.2))
                                       (map_to_list (device_measurements r))));
           ("config", VObject (map_to_list (opaque_data (response r))))].

(** [Nvidia::new]. *)
Definition nvidia_new (config : option NvidiaVerifierConfig) : NvidiaVerifierType :=
  match config with
  | Some cfg => nv_verifier cfg
  | None => Local
  end.

Definition evaluate_device_locally (device : NvDeviceReportAndCert) (expected_nonce_vec : bytes) :
    outcome anyhow (Value * string) :=
  if negb (bool_decide (nv_arch device = Hopper)) then Err "Device architecture not supported"
  else
    cert_chain_vec ← ok_or "base64" (base64_standard_decode (certificate device));
    report_vec ← ok_or "hex" (hex_decode (nv_evidence device));
    report ← report_try_new report_vec HOPPER_SIGNATURE_LENGTH cert_chain_vec expected_nonce_vec;
    Ok (device_claims (nv_arch device) (uuid device) report, "gpu").

Definition evaluate_device_remotely (device : NvDeviceReportAndCert) (expected_nonce_vec : bytes)
    (config : NvidiaRemoteVerifierConfig) : outcome anyhow (Value * string) :=
  if bool_decide (nv_arch device = Hopper) then
    evidence ← ok_or "hex" (hex_decode (nv_evidence device));
    let evidence_b64 := base64_standard_encode evidence in
    let request_url := default NRAS_URL (verifier_url config) +:+ "/" +:+ "gpu" in
    let request_json := VObject
      [("nonce", VString (hex_encode expected_nonce_vec));
       ("arch", VString (to_uppercase (arch_to_string (nv_arch device))));
       ("evidence_list", VArray [VObject [("evidence", VString evidence_b64);
                                          ("certificate", VString (certificate device))]]);
       ("claims_version", VString "3.0")] in
    res ← http_post_json request_url request_json;
    if negb (reply_success res) then text ← reply_text res; Err "Request Failed"
    else
      jwks ← nras_jwks_new;
      text ← reply_text res;
      response ← nras_response_from_str text;
      nras_validate response jwks;;
      claims ← nras_claims response;
      nonce_ok ← ok_or "Couldn't find nonce status." (pointer "/x-nvidia-gpu-attestation-report-nonce-match" claims);
      nonce_ok ← ok_or "Nonce status malformed" (as_bool nonce_ok);
      if negb nonce_ok then Err "Report Data Mismatch" else Ok (claims, "gpu")
  else Panic.

Definition evaluate_device (vt : NvidiaVerifierType) (nonce : bytes) (device : NvDeviceReportAndCert) :
    outcome anyhow (Value * string) :=
  match vt with
  | Local => evaluate_device_locally device nonce
  | Remote config => evaluate_device_remotely device nonce config
  end.

Definition nvidia_evaluate (vt : NvidiaVerifierType) (evidence : Value) (expected_report_data : ReportData)
    (_expected_init_data_hash : InitDataHash) : outcome anyhow (list (Value * string)) :=
  devices ← ok_or "Failed to deserialize the NVIDIA device evidence" (nv_evidence_from_value evidence);
  match expected_report_data with
  | RD_NotProvided => Err "Nvidia report data not provided"
  | RD_Value expected_nonce =>
      let expected_nonce_vec := regularize_data expected_nonce (Z.to_nat SPDM_NONCE_SIZE) in
      mfold (fun all_devices_claims device =>
               claims ← evaluate_device vt expected_nonce_vec device;
               Ok (all_devices_claims ++ [claims])) [] (device_evidence_list devices)
  end.

Definition nvidia_verifier (vt : NvidiaVerifierType) : Verifier :=
  {| evaluate := nvidia_evaluate vt; generate_supplemental_challenge := default_supplemental_challenge |}.
End NvidiaVerifier.
