(* ===== verification/NvidiaProofs.v ===== *)
(** * Properties of the NVIDIA verifier

    What stands behind the claims of an accepted device, and what does not. *)
From S2P Require Import Prelude Types Text Fs Json Verifier Spdm SpdmProofs Nvidia.

Section NvidiaProofs.
Context {P : Profile} `{NC : NvidiaCrates}.

(** ** Reports *)
Lemma request_decode_Ok s r n :
  request_decode s = Ok (r, n) -> n = 37 /\ 37 <= len s /\ rq_nonce r = range s 4 36.
Proof.
  unfold request_decode, SPDM_GET_MEASUREMENT_REQUEST_SIZE. destruct (Z.ltb_spec (len s) 37); [done|].
  intros H'. apply bind_Ok in H' as (b0 & _ & H'). destruct (negb _); [done|].
  repeat (apply bind_Ok in H' as (? & ? & H')). injection H' as <- <-.
  match goal with E : slice _ 4 36 = Ok _ |- _ => apply slice_Ok in E as [_ ->] end. done.
Qed.

(** The report except for its signature. *)
Definition with_report_signature (r : NvidiaAttestationReport) (sig : bytes) : NvidiaAttestationReport :=
  {| request := request r; response := with_signature (response r) sig |}.

(** A decoded report is a prefix, its signature and a rest, and only the prefix
    matters for everything but the signature. *)
Lemma report_decode_split rb sl r n :
  0 <= sl < 2 ^ 63 -> len rb < 2 ^ 63 -> report_decode rb sl = Ok (r, n) ->
  exists pre rest, rb = pre ++ signature (response r) ++ rest /\ len (signature (response r)) = sl /\
    n = len pre + sl /\ rq_nonce (request r) = range pre 4 36 /\
    forall sig' rest', len sig' = sl -> len (pre ++ sig' ++ rest') < 2 ^ 63 ->
      report_decode (pre ++ sig' ++ rest') sl = Ok (with_report_signature r sig', n).
Proof.
  intros Hsl Hlen H. unfold report_decode in H.
  destruct (Z.ltb_spec (len rb) SPDM_GET_MEASUREMENT_REQUEST_SIZE) as [|H37]; [done|].
  unfold SPDM_GET_MEASUREMENT_REQUEST_SIZE in *. change (Z.to_nat 37) with 37%nat in *.
  assert (Hl : len (take 37 rb) = 37) by (unfold len in *; rewrite length_take; lia).
  apply bind_Ok in H as ([rq rqs] & Hrq & H). apply bind_Ok in H as ([rs rss] & Hrs & H).
  apply bind_Ok in H as (n' & Hn & H). injection H as <- <-. cbn [request response].
  pose proof Hrq as (-> & _ & Hno)%request_decode_Ok.
  rewrite response_decode_eq in Hrs by lia. apply bind_Ok in Hrs as ([rs' rest] & Hp & [= <- <-]).
  apply parse_response_split in Hp as (pre & E & Hs & Hany); [|lia].
  pose proof (len_nonneg rest) as Hr0. pose proof (len_nonneg pre) as Hp0.
  assert (Hrb : len rb = 37 + (len pre + sl + len rest)).
  { rewrite <- (take_drop 37 rb), len_app, E, Hl. len_lia. }
  rewrite usize_add_small in Hn by (rewrite ?E; len_lia). injection Hn as <-.
  exists (take 37 rb ++ pre), rest. split; [rewrite <- app_assoc, <- E; now rewrite take_drop|].
  split; [done|]. split; [rewrite E; len_lia|]. split.
  { rewrite Hno. unfold range. rewrite drop_app_le, take_app_le; [done| |];
      rewrite ?length_drop; unfold len in Hl; lia. }
  intros sig' rest' Hs' Hl'. unfold report_decode, SPDM_GET_MEASUREMENT_REQUEST_SIZE.
  rewrite <- app_assoc in *. rewrite (proj2 (Z.ltb_ge _ _)) by (rewrite len_app; pose proof (len_nonneg (pre ++ sig' ++ rest')); lia).
  change (Z.to_nat 37) with 37%nat. rewrite take_app_length', drop_app_length' by (unfold len in Hl; lia).
  rewrite Hrq. cbn [mbind outcome_bind]. rewrite response_decode_eq, Hany by lia. cbn [mbind outcome_bind].
  rewrite usize_add_small by (rewrite ?len_app in *; pose proof (len_nonneg rest'); lia). cbn [mbind outcome_bind].
  do 2 f_equal. rewrite E. len_lia.
Qed.

(** ** Certificate chains *)

(** A chain that was verified: its root has the fingerprint of the NVIDIA root,
    OpenSSL verified its leaf against that root through the other certificates,
    and the leaf carries the firmware identity. *)
Definition chain_trusted (cs : list X509) (leaf : X509) (fwid : string) : Prop :=
  head cs = Some leaf /\
  (exists root fp, list.last cs = Some root /\ certificate_fingerprint root = Ok fp /\
     certificate_fingerprint nvidia_device_root = Ok fp) /\
  get_fwid_from_cert leaf = Ok fwid /\
  store_context_verify [nvidia_device_root] leaf (removelast cs) = Some true.

Lemma chain_verify_Ok c fwid :
  chain_verify c fwid = Ok tt -> exists leaf, chain_trusted (certs c) leaf fwid.
Proof.
  unfold chain_verify. destruct (_ <? 2); [done|]. intros H.
  apply bind_Ok in H as (u & Hroot & H). apply bind_Ok in H as (leaf & Hleaf & H).
  apply bind_Ok in H as (f & Hf & H).
  destruct (String.eqb_spec f fwid) as [->|]; cbn [negb] in H; [|done].
  apply bind_Ok in H as (v & Hv%ok_or_Ok & H). destruct v; [|done]. exists leaf.
  apply ok_or_Ok in Hleaf. repeat (split; [done|]). split; [|done].
  unfold check_root_ca_is_trusted, nvidia_root_ca_digest in Hroot.
  apply bind_Ok in Hroot as (root & Hr%ok_or_Ok & Hroot). apply bind_Ok in Hroot as (d & Hd & Hroot).
  destruct (certificate_fingerprint nvidia_device_root) as [fp| |] eqn:Efp; cbn in Hroot; [|done..].
  destruct (String.eqb_spec d fp) as [->|]; [|done]. eauto.
Qed.

(** What an accepted report is made of. *)
Record report_accepted (rb cc nonce : bytes) (sl : Z) (r : NvidiaAttestationReport) : Prop := {
  (** the report is a signed prefix, the signature and a rest *)
  ra_split : exists pre rest, rb = pre ++ signature (response r) ++ rest /\ len (signature (response r)) = sl /\
    (** the expected nonce is in the signed prefix *)
    nonce = range pre 4 36 /\
    (** everything decoded but the signature follows from the signed prefix *)
    (forall sig' rest', len sig' = sl -> len (pre ++ sig' ++ rest') < 2 ^ 63 ->
       report_decode (pre ++ sig' ++ rest') sl = Ok (with_report_signature r sig', len pre + sl)) /\
    (** the leaf of a chain to the NVIDIA root signed the prefix *)
    exists cs leaf fwid der key sig, stack_from_pem cc = Some cs /\ chain_trusted cs leaf fwid /\
      get_fwid r = Ok fwid /\ public_key_der leaf = Some der /\ verifying_key_from_der der = Some key /\
      signature_from_slice (signature (response r)) = Some sig /\ p384_verify key pre sig = true
}.

Lemma report_try_new_Ok rb sl cc nonce r :
  0 <= sl < 2 ^ 63 -> len rb < 2 ^ 63 -> report_try_new rb sl cc nonce = Ok r ->
  report_accepted rb cc nonce sl r.
Proof.
  intros Hsl Hl H. unfold report_try_new in H.
  apply bind_Ok in H as ([r' n] & Hdec & H).
  apply report_decode_split in Hdec as (pre & rest & -> & Hs & -> & Hno & Hany); [|done..].
  apply bind_Ok in H as (ch & Hch & H). apply bind_Ok in H as (leaf & Hleaf%ok_or_Ok & H).
  apply bind_Ok in H as (u & _ & H). apply bind_Ok in H as (signed & Hsig%ok_or_Ok & H).
  apply bind_Ok in H as (u1 & Hver & H). apply bind_Ok in H as (fwid & Hfw & H).
  apply bind_Ok in H as ([] & Hcv & H). apply bind_Ok in H as (u2 & Hnonce & [= <-]).
  apply get_range_Some in Hsig as [Hb ->].
  assert (Er : range (pre ++ signature (response r') ++ rest) 0 (len pre + sl - sl) = pre)
    by (apply (range_app_at [] pre); [done|]; change (@len Init.Byte.byte []) with 0; lia).
  rewrite Er in Hver.
  unfold chain_decode in Hch. apply bind_Ok in Hch as (cs & Hcs%ok_or_Ok & [= <-]). cbn [certs] in *.
  destruct (chain_verify_Ok _ _ Hcv) as (leaf' & Htr). cbn [certs] in Htr.
  assert (leaf' = leaf) as -> by (destruct Htr as [E _]; congruence).
  unfold verify_signature in Hver.
  apply bind_Ok in Hver as (sg & Hsg%ok_or_Ok & Hver). apply bind_Ok in Hver as (der & Hder%ok_or_Ok & Hver).
  apply bind_Ok in Hver as (key & Hkey%ok_or_Ok & Hver).
  destruct (p384_verify key pre sg) eqn:Hpv; [|done]. unfold validate_nonce in Hnonce.
  destruct (bool_decide_reflect (nonce = rq_nonce (request r'))) as [En|]; [|done].
  constructor. exists pre, rest. split; [done|]. split; [done|]. split; [congruence|]. split; [done|].
  exists cs, leaf, fwid, der, key, sg. done.
Qed.

(** Accepted evidence of one device, and its claims. *)
Definition device_accepted (nonce : bytes) (dev : NvDeviceReportAndCert) (claims : Value * string) : Prop :=
  nv_arch dev = Hopper /\ exists cc rb r,
    base64_standard_decode (certificate dev) = Some cc /\ hex_decode (nv_evidence dev) = Some rb /\
    report_accepted rb cc nonce HOPPER_SIGNATURE_LENGTH r /\
    claims = (device_claims (nv_arch dev) (uuid dev) r, "gpu").

(** C22: local verification of GPUs is sound.  When the NVIDIA verifier accepts
    evidence locally, every device is a Hopper whose report starts with a prefix
    that the leaf key of a certificate chain to the NVIDIA root signed; the
    prefix holds the expected nonce (the report data cut or padded to 32 bytes)
    and determines the decoded report up to its signature: changing anything
    after the prefix changes at most the signature.  The claims are, device by
    device and in order, the measurements and the opaque data of that report,
    and next to them the architecture and the UUID as the evidence names them,
    which nothing signs.  Decoded reports are slices and so shorter than
    [isize::MAX]. *)
Theorem nvidia_local_sound evidence d h claims :
  (forall s b, hex_decode s = Some b -> len b < 2 ^ 63) ->
  nvidia_evaluate Local evidence (RD_Value d) h = Ok claims ->
  exists devices, nv_evidence_from_value evidence = Some devices /\
    Forall2 (device_accepted (regularize_data d 32)) (device_evidence_list devices) claims.
Proof.
  intros Hhex H. unfold nvidia_evaluate in H. apply bind_Ok in H as (devices & Hd%ok_or_Ok & H).
  exists devices. split; [done|]. apply mfold_collect in H as (ys & -> & H). cbn [app].
  eapply Forall2_impl; [|exact H]. intros dev c Hc. cbn in Hc. unfold evaluate_device_locally in Hc.
  destruct (bool_decide_reflect (nv_arch dev = Hopper)) as [Ha|]; [|done]. cbn [negb] in Hc.
  apply bind_Ok in Hc as (cc & Hcc%ok_or_Ok & Hc). apply bind_Ok in Hc as (rb & Hrb%ok_or_Ok & Hc).
  apply bind_Ok in Hc as (r & Hr & [= <-]). split; [done|]. exists cc, rb, r.
  do 2 (split; [done|]). split; [|done]. apply report_try_new_Ok; [split; [discriminate|reflexivity]|eauto|done].
Qed.

(** The UUID in the claims is not authenticated.  Evidence that is accepted
    locally is accepted as well with any other UUID, and the claims then carry
    that one. *)
Theorem nvidia_uuid_unsigned dev nonce c u :
  evaluate_device_locally dev nonce = Ok c ->
  exists r, c = (device_claims (nv_arch dev) (uuid dev) r, "gpu") /\
    evaluate_device_locally {| nv_arch := nv_arch dev; nv_evidence := nv_evidence dev;
                               certificate := certificate dev; uuid := u |} nonce
      = Ok (device_claims (nv_arch dev) u r, "gpu").
Proof.
  unfold evaluate_device_locally. cbn [nv_arch nv_evidence certificate uuid].
  destruct (negb _); [discriminate|]. intros H.
  apply bind_Ok in H as (cc & -> & H). apply bind_Ok in H as (rb & -> & H). apply bind_Ok in H as (r & Hr & [= <-]).
  exists r. split; [done|]. cbn. now rewrite Hr.
Qed.

(** ** The remote service *)

(** A token signed by a key the service publishes. *)
Definition jwt_signed (jwks : gmap string string) (jwt : string) : Prop :=
  exists kid text jwk key, jwt_header_kid jwt = Some (Some kid) /\ jwks !! kid = Some text /\
    jwk_from_str text = Some jwk /\ decoding_key_from_jwk jwk = Some key /\ jwt_decode_es384 jwt key = true.

Lemma validate_jwt_Ok jwt jwks u : validate_jwt jwt jwks = Ok u -> jwt_signed jwks jwt.
Proof.
  unfold validate_jwt, get_jwt_kid. intros H. apply bind_Ok in H as (kid & Hk & H).
  apply bind_Ok in Hk as (o & Ho%ok_or_Ok & ->%ok_or_Ok). apply bind_Ok in H as (t & Ht%ok_or_Ok & H).
  apply bind_Ok in H as (jwk & Hj%ok_or_Ok & H). apply bind_Ok in H as (key & Hkey%ok_or_Ok & H).
  destruct (jwt_decode_es384 jwt key) eqn:E; [|done]. unfold jwt_signed. eauto 10.
Qed.

(** Remote verification of GPUs.  When the verifier accepts a device through
    the remote service, the service was asked about this evidence with the
    expected nonce, both tokens of its answer are signed by keys it publishes,
    and the claims say that the nonce matched. *)
Theorem nvidia_remote_sound device nonce config claims class :
  evaluate_device_remotely device nonce config = Ok (claims, class) ->
  exists evidence reply text jwks response,
    nv_arch device = Hopper /\ hex_decode (nv_evidence device) = Some evidence /\
    http_post_json (default NRAS_URL (verifier_url config) +:+ "/" +:+ "gpu")
      (VObject [("nonce", VString (hex_encode nonce));
        ("arch", VString (to_uppercase (arch_to_string (nv_arch device))));
        ("evidence_list", VArray [VObject [("evidence", VString (base64_standard_encode evidence));
                                           ("certificate", VString (certificate device))]]);
        ("claims_version", VString "3.0")]) = Ok reply /\
    reply_success reply = true /\ reply_text reply = Ok text /\ nras_jwks_new = Ok jwks /\
    nras_response_from_str text = Ok response /\
    jwt_signed jwks (nr_jwt response) /\ jwt_signed jwks (nr_eat response) /\
    nras_claims response = Ok claims /\
    pointer "/x-nvidia-gpu-attestation-report-nonce-match" claims = Some (VBool true).
Proof.
  unfold evaluate_device_remotely. destruct (bool_decide_reflect (nv_arch device = Hopper)) as [Ha|]; [|done].
  intros H. apply bind_Ok in H as (ev & Hev%ok_or_Ok & H). apply bind_Ok in H as (reply & Hre & H).
  destruct (reply_success reply) eqn:Es; cbn [negb] in H.
  2: { apply bind_Ok in H as (? & _ & H). done. }
  apply bind_Ok in H as (jwks & Hj & H). apply bind_Ok in H as (text & Ht & H).
  apply bind_Ok in H as (rsp & Hr & H). apply bind_Ok in H as (u & Hval & H).
  apply bind_Ok in H as (cl & Hcl & H). apply bind_Ok in H as (v & Hv%ok_or_Ok & H).
  apply bind_Ok in H as (b & Hb%ok_or_Ok & H). destruct b; [|done]. injection H as <- <-.
  unfold nras_validate in Hval. apply bind_Ok in Hval as (? & H1 & Hval). apply bind_Ok in Hval as (? & H2 & _).
  exists ev, reply, text, jwks, rsp. repeat (split; [done|]).
  split; [eapply validate_jwt_Ok, H1|]. split; [eapply validate_jwt_Ok, H2|]. split; [done|].
  destruct v; try discriminate Hb. injection Hb as ->. done.
Qed.

(** ** What is not checked *)

(** Evidence without devices is accepted, whatever the expected nonce is. *)
Lemma no_devices_accepted vt evidence d h :
  nv_evidence_from_value evidence = Some {| device_evidence_list := [] |} ->
  evaluate (nvidia_verifier vt) evidence (RD_Value d) h = Ok [].
Proof. intros H. cbn. unfold nvidia_evaluate. now rewrite H. Qed.

(** A device of another architecture makes a remote verifier panic. *)
Lemma remote_architecture_panics config evidence dev devs d h :
  nv_evidence_from_value evidence = Some {| device_evidence_list := dev :: devs |} ->
  nv_arch dev <> Hopper ->
  evaluate (nvidia_verifier (Remote config)) evidence (RD_Value d) h = Panic.
Proof.
  intros H Ha. cbn. unfold nvidia_evaluate. rewrite H. cbn. unfold evaluate_device_remotely.
  now rewrite bool_decide_eq_false_2 by done.
Qed.
End NvidiaProofs.

(** ** A concrete instance *)
Module NvidiaDemo.
Import Init.Byte.

Definition demo_response : SpdmMessage :=
  {| ms_code := x60; ms_param1 := x00; ms_param2 := x00; ms_blocks := [(x01, x00, [xaa; xbb])];
     ms_nonce := replicate 32 x09;
     ms_items := [(DriverVersion, [x35; x35; x00]); (VbiosVersion, [x00; x9f; x00; x96; x01; x00; x00; x00]);
                  (Fwid, replicate 48 x02)];
     ms_signature := replicate 96 x05 |}.

Definition demo_report : bytes :=
  [x11; xe0; x00; x00] ++ replicate 32 x07 ++ [x00] ++ encode_response demo_response.

#[export] Instance demo_verifier_crates : VerifierCrates := {|
  sample_from_value _ := None;
  base64_standard_decode s := Some (list_byte_of_string s);
  base64_standard_encode _ := "";
|}.

#[export] Instance demo_architectures : DeviceArchitectures := {|
  DeviceArchitecture := bool;
  Hopper := true;
  arch_to_string a := if a then "Hopper" else "Unknown";
|}.

Definition demo_json : Value :=
  VObject [("x-nvidia-gpu-attestation-report-nonce-match", VBool true);
           ("keys", VArray [VObject [("kid", VString "k")]])].

Definition demo_device : NvDeviceReportAndCert :=
  {| nv_arch := true; uuid := "u"; nv_evidence := ""; certificate := "" |}.

#[export] Instance demo_nvidia_crates : NvidiaCrates := {|
  X509 := nat;
  stack_from_pem _ := Some [1; 0]%nat;
  cert_digest_sha1 c := Some [byte.of_Z (Z.of_nat c)];
  public_key_der _ := Some [];
  store_context_verify _ _ _ := Some true;
  nvidia_device_root := 0%nat;
  get_extension_unique _ _ := Ok (Some (replicate 48 x02));
  P384Signature := bytes;
  VerifyingKey := bytes;
  signature_from_slice b := Some b;
  verifying_key_from_der b := Some b;
  p384_verify _ _ _ := true;
  hex_decode _ := Some demo_report;
  base64_standard_no_pad_decode _ := Some [];
  http_post_json _ _ := Ok {| reply_success := true; reply_text := Ok "" |};
  http_get _ := Ok {| reply_success := true; reply_text := Ok "" |};
  json_from_str _ := Some demo_json;
  json_to_string _ := "";
  nv_evidence_from_value _ := Some {| device_evidence_list := [demo_device] |};
  nras_internal_from_str _ := Some {| ni_jwt := ["j"; "h.p.s"]; ni_eat := {["g" := "h.p.s"]} |};
  Jwk := unit;
  DecodingKey := unit;
  jwt_header_kid _ := Some (Some "k");
  jwk_from_str _ := Some tt;
  decoding_key_from_jwk _ := Some tt;
  jwt_decode_es384 _ _ := true;
|}.

Definition demo_claims : list (Value * string) :=
  match nvidia_evaluate (P := true) Local VNull (RD_Value (replicate 32 x07)) ID_NotProvided with
  | Ok c => c
  | _ => []
  end.

Lemma nvidia_local_sound_witness :
  (length demo_claims = 1)%nat /\
  exists devices, nv_evidence_from_value VNull = Some devices /\
    Forall2 (device_accepted (P := true) (regularize_data (replicate 32 x07) 32)) (device_evidence_list devices)
      demo_claims.
Proof.
  split; [vm_compute; reflexivity|].
  apply (nvidia_local_sound (P := true) VNull (replicate 32 x07) ID_NotProvided).
  - intros s b [= <-]. vm_compute. reflexivity.
  - vm_compute. reflexivity.
Defined.

Lemma nvidia_uuid_unsigned_witness :
  exists r, evaluate_device_locally (P := true)
    {| nv_arch := nv_arch demo_device; nv_evidence := nv_evidence demo_device;
       certificate := certificate demo_device; uuid := "another" |} (regularize_data (replicate 32 x07) 32)
    = Ok (device_claims (nv_arch demo_device) "another" r, "gpu").
Proof.
  assert (Hok : is_ok (evaluate_device_locally (P := true) demo_device (regularize_data (replicate 32 x07) 32)) = true)
    by (vm_compute; reflexivity).
  destruct (evaluate_device_locally _ _) as [c|e|] eqn:E; [|discriminate Hok..].
  destruct (nvidia_uuid_unsigned (P := true) demo_device _ c "another" E) as (r & _ & H). exists r. exact H.
Defined.

Lemma nvidia_remote_sound_witness :
  exists evidence reply text jwks response,
    nv_arch demo_device = Hopper /\ hex_decode (nv_evidence demo_device) = Some evidence /\
    http_post_json (default NRAS_URL (verifier_url {| verifier_url := None |}) +:+ "/" +:+ "gpu")
      (VObject [("nonce", VString (hex_encode []));
        ("arch", VString (to_uppercase (arch_to_string (nv_arch demo_device))));
        ("evidence_list", VArray [VObject [("evidence", VString (base64_standard_encode evidence));
                                           ("certificate", VString (certificate demo_device))]]);
        ("claims_version", VString "3.0")]) = Ok reply /\
    reply_success reply = true /\ reply_text reply = Ok text /\ nras_jwks_new = Ok jwks /\
    nras_response_from_str text = Ok response /\
    jwt_signed jwks (nr_jwt response) /\ jwt_signed jwks (nr_eat response) /\
    nras_claims response = Ok demo_json /\
    pointer "/x-nvidia-gpu-attestation-report-nonce-match" demo_json = Some (VBool true).
Proof.
  apply (nvidia_remote_sound demo_device [] {| verifier_url := None |} demo_json "gpu").
  vm_compute. reflexivity.
Defined.
End NvidiaDemo.
