(* ===== verification/IntelDcap.v ===== *)
(** * DCAP quote verification ([deps/verifier/src/intel_dcap/])

    The use of Intel's quote verification library, the claims made of its
    supplemental data, and the extension of a claim with them.  The library, the
    formatting of time and the clock are parameters. *)
From S2P Require Import Prelude Types Text Fs Json.

(** [sgx_ql_qv_result_t]: the results the source names, and all others. *)
Inductive QvResult :=
| SGX_QL_QV_RESULT_OK
| SGX_QL_QV_RESULT_CONFIG_NEEDED
| SGX_QL_QV_RESULT_OUT_OF_DATE
| SGX_QL_QV_RESULT_OUT_OF_DATE_CONFIG_NEEDED
| SGX_QL_QV_RESULT_SW_HARDENING_NEEDED
| SGX_QL_QV_RESULT_CONFIG_AND_SW_HARDENING_NEEDED
| SGX_QL_QV_RESULT_TD_RELAUNCH_ADVISED
| SGX_QL_QV_RESULT_TD_RELAUNCH_ADVISED_CONFIG_NEEDED
| SGX_QL_QV_RESULT_other (code : Z).

(** [sgx_ql_qv_supplemental_t], the fields the source reads. *)
Record Supplemental := {
  earliest_issue_date : Z;
  latest_issue_date : Z;
  earliest_expiration_date : Z;
  tcb_level_date_tag : Z;
  pck_crl_num : Z;
  root_ca_crl_num : Z;
  pck_ppid : bytes;
  sgx_type : Z;
  dynamic_platform : Z;
  cached_keys : Z;
  smt_enabled : Z;
  root_key_id : bytes;
  sa_list : bytes;
}.

Class DcapCrates := {
  Collateral : Type;
  (** [tee_get_supplemental_data_version_and_size] *)
  tee_get_supplemental_data_version_and_size : bytes -> option (Z * Z);
  (** [tee_qv_get_collateral] *)
  tee_qv_get_collateral : bytes -> option Collateral;
  (** [tee_verify_quote] at a time; the flag says whether supplemental data is
      asked for, which the library then writes *)
  tee_verify_quote : bytes -> option Collateral -> Z -> bool -> option (Z * QvResult * Supplemental);
  (** [size_of::<sgx_ql_qv_supplemental_t>()] and its default *)
  supplemental_size : Z;
  supplemental_default : Supplemental;
  (** [OffsetDateTime::from_unix_timestamp] and [format(&Rfc3339)] *)
  rfc3339 : Z -> option string;
  (** [SystemTime::now] in seconds since the epoch, when the call is made *)
  unix_now : Z;
}.

Section Dcap.
Context `{DC : DcapCrates}.

(** [SgxQlQvResultWrapper::as_str]. *)
Definition qv_result_as_str (r : QvResult) : Value :=
  VString match r with
    | SGX_QL_QV_RESULT_OK => "UpToDate"
    | SGX_QL_QV_RESULT_CONFIG_NEEDED => "ConfigurationNeeded"
    | SGX_QL_QV_RESULT_OUT_OF_DATE => "OutOfDate"
    | SGX_QL_QV_RESULT_OUT_OF_DATE_CONFIG_NEEDED => "OutOfDateConfigurationNeeded"
    | SGX_QL_QV_RESULT_SW_HARDENING_NEEDED => "SWHardeningNeeded"
    | SGX_QL_QV_RESULT_CONFIG_AND_SW_HARDENING_NEEDED => "ConfigurationAndSWHardeningNeeded"
    | SGX_QL_QV_RESULT_TD_RELAUNCH_ADVISED => "TDRelaunchAdvised"
    | SGX_QL_QV_RESULT_TD_RELAUNCH_ADVISED_CONFIG_NEEDED => "TDRelaunchAdvisedConfigurationNeeded"
    | SGX_QL_QV_RESULT_other _ => "TerminalStatus"
    end.

(** [format_rfc3339], which expects the time to be representable. *)
Definition format_rfc3339 (timestamp : Z) : outcome anyhow string := unwrap (rfc3339 timestamp).

(** [get_sa_list]: the text up to the terminating zero, split at commas.  (An
    array without a zero would be read past its end; here it ends there.) *)
Definition get_sa_list (sa : bytes) : Value :=
  let c_str := match position Init.Byte.x00 sa with
               | Some n => take n sa
               | None => sa
               end in
  let advisory_ids := string_of_chars (utf8_lossy c_str) in
  if String.eqb advisory_ids "" then VArray []
  else VArray (map VString (split_on "," advisory_ids)).

Definition sgx_type_name (t : Z) : string :=
  match t with
  | 0 => "Standard"
  | 1 => "Scalable"
  | 2 => "Scalable with Integrity"
  | other => "Unknown (" +:+ fmt_dec other +:+ ")"
  end.

(** [prepare_custom_claims_map]. *)
Definition prepare_custom_claims_map (supp_data : Supplemental) (collateral_expiration_status : Z)
    (quote_verification_result : QvResult) : outcome anyhow (list (string * Value)) :=
  eid ← format_rfc3339 (earliest_issue_date supp_data);
  lid ← format_rfc3339 (latest_issue_date supp_data);
  eed ← format_rfc3339 (earliest_expiration_date supp_data);
  tcb ← format_rfc3339 (tcb_level_date_tag supp_data);
  Ok ([("earliest_issue_date", VString eid);
       ("latest_issue_date", VString lid);
       ("earliest_expiration_date", VString eed);
       ("tcb_date", VString tcb);
       ("pck_crl_num", VNumber (PosInt (pck_crl_num supp_data)));
       ("root_ca_crl_num", VNumber (PosInt (root_ca_crl_num supp_data)));
       ("tcb_eval_num", VNumber (PosInt (root_ca_crl_num supp_data)));
       ("platform_provider_id", VString (hex_encode (pck_ppid supp_data)));
       ("sgx_type", VString (sgx_type_name (sgx_type supp_data)))] ++
      (if 0 <? sgx_type supp_data then
         [("is_dynamic_platform", VBool (dynamic_platform supp_data =? 1));
          ("is_cached_keys", VBool (cached_keys supp_data =? 1));
          ("is_smt_enabled", VBool (smt_enabled supp_data =? 1))]
       else []) ++
      [("root_key_id", VString (hex_encode (root_key_id supp_data)));
       ("tcb_status", qv_result_as_str quote_verification_result);
       ("collateral_expiration_status", VString (fmt_dec collateral_expiration_status));
       ("advisory_ids", get_sa_list (sa_list supp_data))]).

(** [ecdsa_quote_verification].  The loading policy, set once, only produces a
    log message. *)
Definition ecdsa_quote_verification (quote : bytes) : outcome anyhow (list (string * Value)) :=
  '(_, supp_size) ← ok_or "tee_get_quote_supplemental_data_size failed"
                      (tee_get_supplemental_data_version_and_size quote);
  let data_size := if supp_size =? supplemental_size then supp_size else 0 in
  let collateral := tee_qv_get_collateral quote in
  let p_supplemental_data := negb (data_size =? 0) in
  '(collateral_expiration_status, quote_verification_result, written) ←
    ok_or "tee_verify_quote failed" (tee_verify_quote quote collateral unix_now p_supplemental_data);
  let supp_data := if p_supplemental_data then written else supplemental_default in
  match quote_verification_result with
  | SGX_QL_QV_RESULT_OK
  | SGX_QL_QV_RESULT_CONFIG_NEEDED
  | SGX_QL_QV_RESULT_OUT_OF_DATE
  | SGX_QL_QV_RESULT_OUT_OF_DATE_CONFIG_NEEDED
  | SGX_QL_QV_RESULT_SW_HARDENING_NEEDED
  | SGX_QL_QV_RESULT_CONFIG_AND_SW_HARDENING_NEEDED
  | SGX_QL_QV_RESULT_TD_RELAUNCH_ADVISED
  | SGX_QL_QV_RESULT_TD_RELAUNCH_ADVISED_CONFIG_NEEDED =>
      prepare_custom_claims_map supp_data collateral_expiration_status quote_verification_result
  | SGX_QL_QV_RESULT_other _ => Err "Verification completed with Terminal result"
  end.
End Dcap.

(** [extend_using_custom_claims]. *)
Definition extend_using_custom_claims (claim : Value) (custom : list (string * Value)) : outcome anyhow Value :=
  match claim with
  | VObject map => Ok (VObject (foldl (fun m kv => obj_insert kv.1 kv.2 m) map custom))
  | _ => Err "failed to extend the claim, not an object"
  end.

(** ** Lemmas *)

(** An accepted quote was accepted by the library, with one of the results that
    are not terminal. *)
Lemma ecdsa_quote_verification_Ok `{DC : DcapCrates} quote custom :
  ecdsa_quote_verification quote = Ok custom ->
  exists want status result supp,
    tee_verify_quote quote (tee_qv_get_collateral quote) unix_now want = Some (status, result, supp) /\
    (forall code, result <> SGX_QL_QV_RESULT_other code) /\
    obj_get "tcb_status" custom = Some (qv_result_as_str result).
Proof.
  unfold ecdsa_quote_verification. intros H.
  apply bind_Ok in H as ([ver size] & _ & H). apply bind_Ok in H as ([[status result] supp] & Hv%ok_or_Ok & H).
  exists (negb ((if size =? supplemental_size then size else 0) =? 0)), status, result, supp.
  split; [done|]. destruct result; try discriminate H; (split; [done|]);
    unfold prepare_custom_claims_map in H; repeat (apply bind_Ok in H as (? & _ & H)); injection H as <-;
    destruct (0 <? _); reflexivity.
Qed.

(** The evaluation number reported is the number of the root CA's revocation
    list. *)
Lemma tcb_eval_num_is_crl_num `{DC : DcapCrates} supp status result custom :
  prepare_custom_claims_map supp status result = Ok custom ->
  obj_get "tcb_eval_num" custom = Some (VNumber (PosInt (root_ca_crl_num supp))) /\
  obj_get "tcb_eval_num" custom = obj_get "root_ca_crl_num" custom.
Proof.
  unfold prepare_custom_claims_map. intros H. repeat (apply bind_Ok in H as (? & _ & H)). injection H as <-.
  split; reflexivity.
Qed.

Lemma foldl_obj_insert_get (k : string) (custom m : list (string * Value)) :
  k ∉ map fst custom -> obj_get k (foldl (fun m kv => obj_insert kv.1 kv.2 m) m custom) = obj_get k m.
Proof.
  revert m. induction custom as [|[k' v] custom IH]; intros m Hk; [done|]. cbn in Hk |- *.
  rewrite not_elem_of_cons in Hk. rewrite IH by tauto. apply obj_get_insert_ne. naive_solver.
Qed.

(** The names of the custom claims. *)
Definition custom_claim_names : list string :=
  ["earliest_issue_date"; "latest_issue_date"; "earliest_expiration_date"; "tcb_date"; "pck_crl_num";
   "root_ca_crl_num"; "tcb_eval_num"; "platform_provider_id"; "sgx_type"; "is_dynamic_platform";
   "is_cached_keys"; "is_smt_enabled"; "root_key_id"; "tcb_status"; "collateral_expiration_status";
   "advisory_ids"].

Lemma custom_claims_names `{DC : DcapCrates} quote custom k :
  ecdsa_quote_verification quote = Ok custom -> k ∈ map fst custom -> k ∈ custom_claim_names.
Proof.
  unfold ecdsa_quote_verification. intros H.
  apply bind_Ok in H as ([ver size] & _ & H). apply bind_Ok in H as ([[status result] supp] & _ & H).
  assert (exists s st r, prepare_custom_claims_map s st r = Ok custom) as (s & st & r & Hp)
    by (destruct result; try discriminate H; eauto). clear H.
  unfold prepare_custom_claims_map in Hp. repeat (apply bind_Ok in Hp as (? & _ & Hp)). injection Hp as <-.
  unfold custom_claim_names. destruct (0 <? _); cbn; set_solver.
Qed.

(** A claim that is not one of the library's is not changed by the extension. *)
Lemma extend_keeps `{DC : DcapCrates} quote custom m v :
  ecdsa_quote_verification quote = Ok custom -> extend_using_custom_claims (VObject m) custom = Ok v ->
  exists m', v = VObject m' /\ forall k, k ∉ custom_claim_names -> obj_get k m' = obj_get k m.
Proof.
  intros Hq [= <-]. eexists. split; [done|]. intros k Hk. apply foldl_obj_insert_get.
  intros Hin. apply Hk. eapply custom_claims_names; eassumption.
Qed.
