(* ===== verification/TdxQuote.v ===== *)
(** * TDX quotes ([deps/verifier/src/tdx/quote.rs], [claims.rs])

    The layout of TD quotes of versions 4 and 5, their parser, and the claims
    made of a quote and an event log.  [pread] of a structure reads its fields,
    byte arrays, one after the other. *)
From S2P Require Import Prelude Types Text TcgEvents.

Definition QUOTE_HEADER_SIZE : Z := 48.

(** ** Structures *)
Record QuoteHeader := {
  version : bytes;
  att_key_type : bytes;
  tee_type : bytes;
  reserved : bytes;
  vendor_id : bytes;
  user_data : bytes;
}.

Record ReportBody2 := {
  tcb_svn : bytes;
  mr_seam : bytes;
  mrsigner_seam : bytes;
  seam_attributes : bytes;
  td_attributes : bytes;
  xfam : bytes;
  mr_td : bytes;
  mr_config_id : bytes;
  mr_owner : bytes;
  mr_owner_config : bytes;
  rtmr_0 : bytes;
  rtmr_1 : bytes;
  rtmr_2 : bytes;
  rtmr_3 : bytes;
  rb_report_data : bytes;
}.

(** [ReportBody2v15]: the fields of [ReportBody2], in the same order, and two
    more. *)
Record ReportBody2v15 := {
  v15_body : ReportBody2;
  tee_tcb_svn2 : bytes;
  mr_servicetd : bytes;
}.

Inductive QuoteV5Type := TDX10 | TDX15.

(** The discriminants. *)
Definition quote_v5_type_id (t : QuoteV5Type) : Z :=
  match t with
  | TDX10 => 2
  | TDX15 => 3
  end.

(** [QuoteV5Type::from_bytes]. *)
Definition quote_v5_type_from_bytes (bytes : bytes) : outcome anyhow QuoteV5Type :=
  if len bytes <? 2 then Err "parse QuoteV5 Type failed. Bytes length < 2 bytes"
  else
    t ← slice bytes 0 2;
    match le_combine t with
    | 2 => Ok TDX10
    | 3 => Ok TDX15
    | _ => Err "parse QuoteV5 Type failed. not defined."
    end.

(** [QuoteV5Type::as_bytes], on a little-endian machine. *)
Definition quote_v5_type_as_bytes (t : QuoteV5Type) : bytes := le_split 2 (quote_v5_type_id t).

Inductive QuoteV5Body :=
| Tdx10 (body : ReportBody2)
| Tdx15 (body : ReportBody2v15).

Inductive Quote :=
| V4 (header : QuoteHeader) (body : ReportBody2)
| V5 (header : QuoteHeader) (type : QuoteV5Type) (size : bytes) (body : QuoteV5Body).

(** [body_field!]: the field of whichever body the quote has. *)
Definition body_field (f : ReportBody2 -> bytes) (q : Quote) : bytes :=
  match q with
  | V4 _ body => f body
  | V5 _ _ _ (Tdx10 body) => f body
  | V5 _ _ _ (Tdx15 body) => f (v15_body body)
  end.

Definition quote_report_data : Quote -> bytes := body_field rb_report_data.
Definition quote_mr_config_id : Quote -> bytes := body_field mr_config_id.
Definition quote_rtmr_0 : Quote -> bytes := body_field rtmr_0.
Definition quote_rtmr_1 : Quote -> bytes := body_field rtmr_1.
Definition quote_rtmr_2 : Quote -> bytes := body_field rtmr_2.
Definition quote_rtmr_3 : Quote -> bytes := body_field rtmr_3.
Definition quote_td_attributes : Quote -> bytes := body_field td_attributes.

(** ** Reading *)
Definition pread_bytes (n : Z) (data : bytes) (offset : Z) : option (bytes * Z) :=
  b ← get_range data offset (offset + n); Some (b, offset + n).

(** Read arrays of the given widths, one after the other. *)
Fixpoint pread_arrays (widths : list Z) (data : bytes) (offset : Z) : option (list bytes * Z) :=
  match widths with
  | [] => Some ([], offset)
  | w :: widths =>
      '(b, offset) ← pread_bytes w data offset;
      '(bs, offset) ← pread_arrays widths data offset;
      Some (b :: bs, offset)
  end.

Definition quote_header_widths : list Z := [2; 2; 4; 4; 16; 20].

Definition pread_quote_header (data : bytes) (offset : Z) : option QuoteHeader :=
  '(bs, _) ← pread_arrays quote_header_widths data offset;
  match bs with
  | [v; k; t; r; vi; u] =>
      Some {| version := v; att_key_type := k; tee_type := t; reserved := r; vendor_id := vi; user_data := u |}
  | _ => None
  end.

Definition report_body2_widths : list Z := [16; 48; 48; 8; 8; 8; 48; 48; 48; 48; 48; 48; 48; 48; 64].

Definition report_body2_of (bs : list bytes) : option ReportBody2 :=
  match bs with
  | [a; b; c; d; e; f; g; h; i; j; r0; r1; r2; r3; rd] =>
      Some {| tcb_svn := a; mr_seam := b; mrsigner_seam := c; seam_attributes := d; td_attributes := e;
              xfam := f; mr_td := g; mr_config_id := h; mr_owner := i; mr_owner_config := j;
              rtmr_0 := r0; rtmr_1 := r1; rtmr_2 := r2; rtmr_3 := r3; rb_report_data := rd |}
  | _ => None
  end.

Definition pread_report_body2 (data : bytes) (offset : Z) : option ReportBody2 :=
  '(bs, _) ← pread_arrays report_body2_widths data offset; report_body2_of bs.

Definition pread_report_body2v15 (data : bytes) (offset : Z) : option ReportBody2v15 :=
  '(bs, offset) ← pread_arrays report_body2_widths data offset;
  body ← report_body2_of bs;
  '(bs, _) ← pread_arrays [16; 48] data offset;
  match bs with
  | [s; m] => Some {| v15_body := body; tee_tcb_svn2 := s; mr_servicetd := m |}
  | _ => None
  end.

(** [parse_tdx_quote]. *)
Definition parse_tdx_quote (quote_bin : bytes) : outcome anyhow Quote :=
  quote_header ← slice quote_bin 0 QUOTE_HEADER_SIZE;
  header ← ok_or "Parse TD quote header failed" (pread_quote_header quote_header 0);
  if bool_decide (version header = [Init.Byte.x04; Init.Byte.x00]) then
    body ← ok_or "Parse TD quote v4 body failed" (pread_report_body2 quote_bin QUOTE_HEADER_SIZE);
    Ok (V4 header body)
  else if bool_decide (version header = [Init.Byte.x05; Init.Byte.x00]) then
    type_bytes ← slice quote_bin QUOTE_HEADER_SIZE (QUOTE_HEADER_SIZE + 2);
    type ← quote_v5_type_from_bytes type_bytes;
    size ← slice quote_bin (QUOTE_HEADER_SIZE + 2) (QUOTE_HEADER_SIZE + 2 + 4);
    let offset := QUOTE_HEADER_SIZE + 2 + 4 in
    match type with
    | TDX10 =>
        body ← ok_or "Parse TD quote v5 TDX1.0 body failed" (pread_report_body2 quote_bin offset);
        Ok (V5 header type size (Tdx10 body))
    | TDX15 =>
        body ← ok_or "Parse TD quote v5 TDX1.5 body failed" (pread_report_body2v15 quote_bin offset);
        Ok (V5 header type size (Tdx15 body))
    end
  else Err "Quote version not defined.".

(** ** Claims ([claims.rs]) *)

(** [parse_claim!] of an array. *)
Definition hex_claim (key : string) (field : bytes) : string * Value := (key, VString (hex_encode field)).

Definition header_claims (v : bytes) (header : QuoteHeader) : list (string * Value) :=
  [hex_claim "version" v;
   hex_claim "att_key_type" (att_key_type header);
   hex_claim "tee_type" (tee_type header);
   hex_claim "reserved" (reserved header);
   hex_claim "vendor_id" (vendor_id header);
   hex_claim "user_data" (user_data header)].

Definition body_claims (body : ReportBody2) : list (string * Value) :=
  [hex_claim "tcb_svn" (tcb_svn body);
   hex_claim "mr_seam" (mr_seam body);
   hex_claim "mrsigner_seam" (mrsigner_seam body);
   hex_claim "seam_attributes" (seam_attributes body);
   hex_claim "td_attributes" (td_attributes body);
   hex_claim "xfam" (xfam body);
   hex_claim "mr_td" (mr_td body);
   hex_claim "mr_config_id" (mr_config_id body);
   hex_claim "mr_owner" (mr_owner body);
   hex_claim "mr_owner_config" (mr_owner_config body);
   hex_claim "rtmr_0" (rtmr_0 body);
   hex_claim "rtmr_1" (rtmr_1 body);
   hex_claim "rtmr_2" (rtmr_2 body);
   hex_claim "rtmr_3" (rtmr_3 body);
   hex_claim "report_data" (rb_report_data body)].

Definition quote_claims (quote : Quote) : list (string * Value) :=
  match quote with
  | V4 header body =>
      [("header", VObject (header_claims [Init.Byte.x04; Init.Byte.x00] header));
       ("body", VObject (body_claims body))]
  | V5 header type size body =>
      [hex_claim "type" (quote_v5_type_as_bytes type);
       hex_claim "size" size;
       ("header", VObject (header_claims [Init.Byte.x05; Init.Byte.x00] header));
       ("body", VObject match body with
                        | Tdx10 body => body_claims body
                        | Tdx15 body => body_claims (v15_body body) ++
                            [hex_claim "tee_tcb_svn2" (tee_tcb_svn2 body);
                             hex_claim "mr_servicetd" (mr_servicetd body)]
                        end)]
  end.

(** [TdAttributesFlags], in the order of their declaration, with the lower-case
    names. *)
Definition td_attributes_flags : list (string * Z) :=
  [("debug", Z.shiftl 1 0);
   ("septve_disable", Z.shiftl 1 28);
   ("protection_keys", Z.shiftl 1 30);
   ("key_locker", Z.shiftl 1 31);
   ("perfmon", Z.shiftl 1 63)].

Definition flags_contains (bits flag : Z) : bool := Z.land bits flag =? flag.

Definition parse_td_attributes (data : bytes) : outcome anyhow (list (string * Value)) :=
  if negb (len data =? 8) then Err "could not convert slice to array"
  else
    let td := le_combine data in
    Ok (map (fun f => (f.1, VBool (flags_contains td f.2))) td_attributes_flags).

(** *** The event log as JSON: the derived serialization of [eventlog] *)
Definition algorithm_name (a : TcgAlgorithm) : string :=
  match a with
  | Rsa => "RSA"
  | Tdes => "TDES"
  | Sha1 => "SHA-1"
  | Sha256 => "SHA-256"
  | Sha384 => "SHA-384"
  | Sha512 => "SHA-512"
  | Sm3 => "SM3"
  end.

(** [rename_all = "SCREAMING_SNAKE_CASE"]. *)
Definition event_type_name (t : TcgEventType) : string :=
  match t with
  | EvPrebootCert => "EV_PREBOOT_CERT"
  | EvPostCode => "EV_POST_CODE"
  | EvUnused => "EV_UNUSED"
  | EvNoAction => "EV_NO_ACTION"
  | EvSeparator => "EV_SEPARATOR"
  | EvAction => "EV_ACTION"
  | EvEventTag => "EV_EVENT_TAG"
  | EvSCrtmContents => "EV_S_CRTM_CONTENTS"
  | EvSCrtmVersion => "EV_S_CRTM_VERSION"
  | EvCpuMicrocode => "EV_CPU_MICROCODE"
  | EvPlatformConfigFlags => "EV_PLATFORM_CONFIG_FLAGS"
  | EvTableOfDevices => "EV_TABLE_OF_DEVICES"
  | EvCompactHash => "EV_COMPACT_HASH"
  | EvIpl => "EV_IPL"
  | EvIplPartitionData => "EV_IPL_PARTITION_DATA"
  | EvNonhostCode => "EV_NONHOST_CODE"
  | EvNonhostConfig => "EV_NONHOST_CONFIG"
  | EvNonhostInfo => "EV_NONHOST_INFO"
  | EvOmitBootDeviceEvents => "EV_OMIT_BOOT_DEVICE_EVENTS"
  | EvEfiEventBase => "EV_EFI_EVENT_BASE"
  | EvEfiVariableDriverConfig => "EV_EFI_VARIABLE_DRIVER_CONFIG"
  | EvEfiVariableBoot => "EV_EFI_VARIABLE_BOOT"
  | EvEfiBootServicesApplication => "EV_EFI_BOOT_SERVICES_APPLICATION"
  | EvEfiBootServicesDriver => "EV_EFI_BOOT_SERVICES_DRIVER"
  | EvEfiRuntimeServicesDriver => "EV_EFI_RUNTIME_SERVICES_DRIVER"
  | EvEfiGptEvent => "EV_EFI_GPT_EVENT"
  | EvEfiAction => "EV_EFI_ACTION"
  | EvEfiPlatformFirmwareBlob => "EV_EFI_PLATFORM_FIRMWARE_BLOB"
  | EvEfiHandoffTables => "EV_EFI_HANDOFF_TABLES"
  | EvEfiPlatformFirmwareBlob2 => "EV_EFI_PLATFORM_FIRMWARE_BLOB2"
  | EvEfiHandoffTables2 => "EV_EFI_HANDOFF_TABLES2"
  | EvEfiVariableBoot2 => "EV_EFI_VARIABLE_BOOT2"
  | EvEfiHcrtmEvent => "EV_EFI_HCRTM_EVENT"
  | EvEfiVariableAuthority => "EV_EFI_VARIABLE_AUTHORITY"
  | EvEfiSpdmFirmwareBlob => "EV_EFI_SPDM_FIRMWARE_BLOB"
  | EvEfiSpdmFirmwareConfig => "EV_EFI_SPDM_FIRMWARE_CONFIG"
  end.

Definition digest_value (d : ElDigest) : Value :=
  VObject [("alg", VString (algorithm_name (alg d))); ("digest", VString (hex_encode (digest d)))].

(** A field that is skipped when it is [None]. *)
Definition opt_field {A} (key : string) (f : A -> Value) (o : option A) : list (string * Value) :=
  match o with
  | Some a => [(key, f a)]
  | None => []
  end.

Definition details_value (d : EventDetails) : Value :=
  VObject (opt_field "string" VString (d_string d) ++
           opt_field "unicode_name" VString (unicode_name d) ++
           opt_field "unicode_name_length" (fun n => VNumber (PosInt n)) (unicode_name_length d) ++
           opt_field "variable_data" VString (variable_data d) ++
           opt_field "variable_data_length" (fun n => VNumber (PosInt n)) (variable_data_length d) ++
           opt_field "variable_name" VString (variable_name d) ++
           opt_field "device_paths" (fun l => VArray (map VString l)) (device_paths d) ++
           opt_field "data" id (d_data d)).

Definition entry_value (e : EventlogEntry) : Value :=
  VObject [("details", details_value (details e));
           ("digest_matches_event", VBool (digest_matches_event e));
           ("digests", VArray (map digest_value (digests e)));
           ("event", VString (event e));
           ("index", VNumber (PosInt (e_index e)));
           ("type_name", VString (event_type_name (event_type e)))].

(** [generate_parsed_claim]. *)
Definition generate_parsed_claim (quote : Quote) (cc_eventlog : option CcEventLog) : outcome anyhow Value :=
  td_attributes ← parse_td_attributes (quote_td_attributes quote);
  Ok (VObject (opt_field "uefi_event_logs" (fun l => VArray (map entry_value (log l))) cc_eventlog ++
               [("quote", VObject (quote_claims quote));
                ("td_attributes", VObject td_attributes);
                hex_claim "report_data" (quote_report_data quote);
                hex_claim "init_data" (quote_mr_config_id quote)])).

(** ** [TdShimPlatformConfigInfo] *)
Inductive PlatformConfigInfoError := ParseDescriptor | ReadInfoLength | InvalidHeader | NotEnoughData.

Record TdShimPlatformConfigInfo := {
  descriptor : bytes;
  info_length : Z;
  info_data : bytes;
}.

Definition platform_config_info_try_from (data : bytes) : outcome PlatformConfigInfoError TdShimPlatformConfigInfo :=
  if len data <? 20 then Err InvalidHeader
  else
    descriptor ← slice data 0 16;
    info ← slice data 16 20;
    let info_length := le_combine info in
    data ← ok_or NotEnoughData (get_range data 20 (20 + info_length));
    Ok {| descriptor := descriptor; info_length := info_length; info_data := data |}.
