(* ===== verification/TdxQuoteProofs.v ===== *)
(** * The layout of TDX quotes

    Parsing a quote is inverse to writing its fields one after the other, for
    all three layouts; the inputs on which the parser panics; the bits of the
    attributes. *)
From S2P Require Import Prelude Types Text TcgEvents TdxQuote.

(** ** Arrays *)
Lemma pread_bytes_app n pre s b o :
  0 <= n -> pread_bytes n (pre ++ s) (len pre) = Some (b, o) <->
  exists rest, s = b ++ rest /\ len b = n /\ o = len pre + n.
Proof.
  intros Hn. unfold pread_bytes. split.
  - destruct (get_range _ _ _) as [r|] eqn:G; cbn; [|done]. intros [= <- <-].
    apply get_range_Some in G as [Hb ->]. rewrite len_app in Hb.
    exists (drop (Z.to_nat n) s).
    assert (E : range (pre ++ s) (len pre) (len pre + n) = take (Z.to_nat n) s).
    { unfold range. rewrite to_nat_len, drop_app_length. f_equal. lia. }
    rewrite E. split; [now rewrite take_drop|]. split; [|done]. unfold len in *. rewrite length_take. lia.
  - intros (rest & -> & Hl & ->). rewrite (get_range_app_at pre b rest) by lia. done.
Qed.

Lemma gread_app n pre s v o :
  0 <= n -> gread n (pre ++ s) (len pre) = Some (v, o) ->
  exists b rest, s = b ++ rest /\ len b = n /\ v = le_combine b.
Proof.
  intros Hn H. assert (exists b, pread_bytes n (pre ++ s) (len pre) = Some (b, o) /\ v = le_combine b) as (b & Hb & ->).
  { unfold gread, pread_bytes in *. destruct (get_range _ _ _); [|done]. injection H as <- <-. eauto. }
  apply pread_bytes_app in Hb as (rest & -> & Hl & _); eauto.
Qed.

Lemma pread_arrays_app ws pre s bs o :
  Forall (fun w => 0 <= w) ws ->
  pread_arrays ws (pre ++ s) (len pre) = Some (bs, o) <->
  exists rest, s = concat bs ++ rest /\ map len bs = ws /\ o = len pre + len (concat bs).
Proof.
  intros H. revert pre s bs o. induction H as [|w ws Hw _ IH]; intros pre s bs o; cbn [pread_arrays].
  - split; [intros [= <- <-]; exists s; cbn; unfold len at 3; cbn; repeat split; lia|].
    intros (rest & -> & Hb & ->). destruct bs; [|done]. cbn. do 2 f_equal. unfold len at 3. cbn. lia.
  - split.
    + destruct (pread_bytes w (pre ++ s) (len pre)) as [[b o1]|] eqn:E; cbn; [|done].
      apply pread_bytes_app in E as (r1 & -> & Hl & ->); [|done].
      rewrite app_assoc, <- Hl, <- len_app.
      destruct (pread_arrays ws ((pre ++ b) ++ r1) (len (pre ++ b))) as [[bs' o']|] eqn:E'; cbn; [|done].
      apply IH in E' as (r2 & -> & Hm & ->). intros [= <- <-]. exists r2. cbn.
      rewrite <- app_assoc. split; [done|]. split; [congruence|]. rewrite !len_app. lia.
    + intros (rest & -> & Hm & ->). destruct bs as [|b bs]; [done|]. cbn in Hm. injection Hm as <- Hm.
      cbn [concat]. rewrite <- app_assoc.
      rewrite (proj2 (pread_bytes_app (len b) pre (b ++ concat bs ++ rest) b (len pre + len b) (len_nonneg b)))
        by eauto. cbn [mbind option_bind].
      rewrite app_assoc, <- len_app.
      rewrite (proj2 (IH (pre ++ b) (concat bs ++ rest) bs (len (pre ++ b) + len (concat bs)))) by eauto.
      cbn. do 2 f_equal. rewrite !len_app. lia.
Qed.

Lemma pread_arrays_write pre bs rest :
  pread_arrays (map len bs) (pre ++ concat bs ++ rest) (len pre) = Some (bs, len pre + len (concat bs)).
Proof.
  apply pread_arrays_app; [|eauto]. apply list.Forall_forall. intros w (b & -> & _)%list_elem_of_fmap. apply len_nonneg.
Qed.

(** ** Writing quotes *)
Definition header_fields (h : QuoteHeader) : list bytes :=
  [version h; att_key_type h; tee_type h; reserved h; vendor_id h; user_data h].

Definition body_fields (b : ReportBody2) : list bytes :=
  [tcb_svn b; mr_seam b; mrsigner_seam b; seam_attributes b; td_attributes b; xfam b; mr_td b;
   mr_config_id b; mr_owner b; mr_owner_config b; rtmr_0 b; rtmr_1 b; rtmr_2 b; rtmr_3 b; rb_report_data b].

Definition encode_quote (q : Quote) : bytes :=
  match q with
  | V4 h b => concat (header_fields h) ++ concat (body_fields b)
  | V5 h t size body =>
      concat (header_fields h) ++ quote_v5_type_as_bytes t ++ size ++
      match body with
      | Tdx10 b => concat (body_fields b)
      | Tdx15 b => concat (body_fields (v15_body b)) ++ tee_tcb_svn2 b ++ mr_servicetd b
      end
  end.

(** Every field has the width Intel's quote format gives it, written out, and
    version and type agree with the body. *)
Definition header_wf (v : bytes) (h : QuoteHeader) : Prop :=
  version h = v /\ map len (header_fields h) = [2; 2; 4; 4; 16; 20].

Definition body_wf (b : ReportBody2) : Prop :=
  map len (body_fields b) = [16; 48; 48; 8; 8; 8; 48; 48; 48; 48; 48; 48; 48; 48; 64].

Definition quote_wf (q : Quote) : Prop :=
  match q with
  | V4 h b => header_wf [Init.Byte.x04; Init.Byte.x00] h /\ body_wf b
  | V5 h t size body =>
      header_wf [Init.Byte.x05; Init.Byte.x00] h /\ len size = 4 /\
      match t, body with
      | TDX10, Tdx10 b => body_wf b
      | TDX15, Tdx15 b => body_wf (v15_body b) /\ len (tee_tcb_svn2 b) = 16 /\ len (mr_servicetd b) = 48
      | _, _ => False
      end
  end.

Lemma len_concat_widths (bs : list bytes) : len (concat bs) = foldr Z.add 0 (map len bs).
Proof. induction bs as [|b bs IH]; cbn; [done|]. now rewrite len_app, IH. Qed.

Lemma report_body2_of_fields b : report_body2_of (body_fields b) = Some b.
Proof. now destruct b. Qed.

Lemma report_body2_of_Some bs b : report_body2_of bs = Some b -> bs = body_fields b.
Proof.
  unfold report_body2_of. do 15 (destruct bs as [|? bs]; [done|]). destruct bs; [|done]. now intros [= <-].
Qed.

Lemma header_widths_nonneg : Forall (fun w => 0 <= w) quote_header_widths.
Proof. now repeat constructor. Qed.

Lemma body_widths_nonneg : Forall (fun w => 0 <= w) report_body2_widths.
Proof. now repeat constructor. Qed.

#[local] Hint Resolve header_widths_nonneg body_widths_nonneg : core.

Lemma pread_header_app pre s h :
  pread_quote_header (pre ++ s) (len pre) = Some h <->
  exists rest, s = concat (header_fields h) ++ rest /\ map len (header_fields h) = quote_header_widths.
Proof.
  unfold pread_quote_header. split.
  - destruct (pread_arrays _ _ _) as [[bs o]|] eqn:E; cbn; [|done].
    apply pread_arrays_app in E as (rest & -> & Hm & _); [|auto].
    do 6 (destruct bs as [|? bs]; [done|]). destruct bs; [|done]. intros [= <-]. now exists rest.
  - intros (rest & -> & Hm).
    rewrite <- Hm, pread_arrays_write. cbn. now destruct h.
Qed.

Lemma pread_body_app pre s b :
  pread_report_body2 (pre ++ s) (len pre) = Some b <-> exists rest, s = concat (body_fields b) ++ rest /\ body_wf b.
Proof.
  unfold pread_report_body2, body_wf. split.
  - destruct (pread_arrays _ _ _) as [[bs o]|] eqn:E; cbn; [|done].
    apply pread_arrays_app in E as (rest & -> & Hm & _); [|auto]. intros ->%report_body2_of_Some. eauto.
  - intros (rest & -> & Hm).
    change (map len (body_fields b) = report_body2_widths) in Hm.
    rewrite <- Hm, pread_arrays_write. apply report_body2_of_fields.
Qed.

Lemma pread_body15_app pre s b :
  pread_report_body2v15 (pre ++ s) (len pre) = Some b <->
  exists rest, s = (concat (body_fields (v15_body b)) ++ tee_tcb_svn2 b ++ mr_servicetd b) ++ rest /\
    body_wf (v15_body b) /\ len (tee_tcb_svn2 b) = 16 /\ len (mr_servicetd b) = 48.
Proof.
  assert (Hw : Forall (fun w => 0 <= w) [16; 48]) by now repeat constructor.
  unfold pread_report_body2v15, body_wf. split.
  - destruct (pread_arrays report_body2_widths _ _) as [[bs o]|] eqn:E; cbn [mbind option_bind]; [|done].
    apply pread_arrays_app in E as (r1 & -> & Hm & ->); [|auto].
    destruct (report_body2_of bs) as [b'|] eqn:Eb; cbn [mbind option_bind]; [|done].
    apply report_body2_of_Some in Eb as ->. rewrite app_assoc, <- len_app.
    destruct (pread_arrays [16; 48] _ _) as [[bs o]|] eqn:E; cbn [mbind option_bind]; [|done].
    apply pread_arrays_app in E as (rest & -> & Hm' & _); [|done].
    destruct bs as [|x [|y [|]]]; try done. intros [= <-]. cbn in Hm' |- *. injection Hm' as Hx Hy.
    exists rest. rewrite app_nil_r, <- !app_assoc. done.
  - intros (rest & -> & Hm & Hx & Hy). rewrite <- !app_assoc.
    change (map len (body_fields (v15_body b)) = report_body2_widths) in Hm.
    rewrite <- Hm, pread_arrays_write. cbn [mbind option_bind]. rewrite report_body2_of_fields. cbn [mbind option_bind].
    rewrite app_assoc, <- len_app, <- Hx, <- Hy.
    pose proof (pread_arrays_write (pre ++ concat (body_fields (v15_body b))) [tee_tcb_svn2 b; mr_servicetd b] rest) as E.
    cbn [concat map] in E. rewrite app_nil_r, <- (app_assoc (tee_tcb_svn2 b)) in E. rewrite E. cbn. now destruct b.
Qed.

Lemma type_from_bytes_Ok b t :
  len b = 2 -> quote_v5_type_from_bytes b = Ok t <-> b = quote_v5_type_as_bytes t.
Proof.
  intros Hl. unfold quote_v5_type_from_bytes. rewrite Hl. cbn [Z.ltb Z.compare].
  destruct b as [|x [|y [|]]]; try (unfold len in Hl; cbn in Hl; lia).
  change (slice [x; y] 0 2) with (@Ok anyhow _ [x; y]). cbn [mbind outcome_bind].
  pose proof (split_le_combine [x; y] : le_split 2 _ = _) as E. unfold quote_v5_type_as_bytes.
  split.
  - intros H. destruct (le_combine [x; y]) as [|[[|[]|]|[]|]|]; try discriminate H; injection H as <-; now rewrite <- E.
  - intros H. rewrite H. now destruct t.
Qed.

(** A header of 48 bytes is its fields. *)
Lemma header_48 hb h :
  len hb = 48 -> pread_quote_header hb 0 = Some h <->
  hb = concat (header_fields h) /\ map len (header_fields h) = quote_header_widths.
Proof.
  intros Hl. rewrite (pread_header_app [] hb h : pread_quote_header hb 0 = _ <-> _). split.
  - intros (rest & -> & Hm). split; [|done]. rewrite len_app, len_concat_widths, Hm in Hl. cbn in Hl.
    destruct rest; [now rewrite app_nil_r|]. rewrite len_cons in Hl. pose proof (len_nonneg rest). lia.
  - intros (-> & Hm). exists []. now rewrite app_nil_r.
Qed.

Lemma slice_split {E} (b : bytes) n hb :
  0 <= n -> slice (E := E) b 0 n = Ok hb <-> exists s, b = hb ++ s /\ len hb = n.
Proof.
  intros Hn. split.
  - intros [Hb ->]%slice_Ok. exists (drop (Z.to_nat n) b). unfold range. rewrite Z.sub_0_r, drop_0, take_drop.
    split; [done|]. unfold len in *. rewrite length_take. lia.
  - intros (s & -> & <-). apply (slice_app_at [] hb s); [done|]. change (@len Init.Byte.byte []) with 0. lia.
Qed.

Lemma slice_at {E} (pre s : bytes) a n r :
  a = len pre -> 0 <= n -> slice (E := E) (pre ++ s) a (a + n) = Ok r <-> exists rest, s = r ++ rest /\ len r = n.
Proof.
  intros -> Hn. split.
  - intros [Hb ->]%slice_Ok. rewrite len_app in Hb. exists (drop (Z.to_nat n) s). unfold range.
    rewrite to_nat_len, drop_app_length. replace (len pre + n - len pre) with n by lia.
    rewrite take_drop. split; [done|]. unfold len in *. rewrite length_take. lia.
  - intros (rest & -> & <-). now apply slice_app_at.
Qed.

Lemma parse_tdx_quote_Ok b q :
  parse_tdx_quote b = Ok q -> quote_wf q /\ exists rest, b = encode_quote q ++ rest.
Proof.
  unfold parse_tdx_quote, QUOTE_HEADER_SIZE. intros H. apply bind_Ok in H as (hb & Hs & H).
  apply slice_split in Hs as (s & -> & Hl); [|lia]. apply bind_Ok in H as (h & Hh%ok_or_Ok & H).
  apply header_48 in Hh as [-> Hw]; [|done].
  destruct (bool_decide_reflect (version h = [Init.Byte.x04; Init.Byte.x00])) as [Hv|_].
  { apply bind_Ok in H as (body & Hb%ok_or_Ok & [= <-]). rewrite <- Hl in Hb.
    apply pread_body_app in Hb as (rest & -> & Hb). split; [done|]. exists rest. cbn [encode_quote]. now rewrite <- app_assoc. }
  destruct (bool_decide_reflect (version h = [Init.Byte.x05; Init.Byte.x00])) as [Hv|_]; [|done].
  apply bind_Ok in H as (tb & Htb & H). apply slice_at in Htb as (s1 & -> & Hl1); [|lia..].
  apply bind_Ok in H as (t & Ht & H). apply type_from_bytes_Ok in Ht as ->; [|done].
  apply bind_Ok in H as (size & Hsz & H). rewrite app_assoc in Hsz, H.
  assert (Hl2 : len (concat (header_fields h) ++ quote_v5_type_as_bytes t) = 48 + 2) by (rewrite len_app; lia).
  apply slice_at in Hsz as (s2 & -> & Hl3); [|lia..]. rewrite app_assoc in H.
  assert (Hl4 : len ((concat (header_fields h) ++ quote_v5_type_as_bytes t) ++ size) = 48 + 2 + 4) by (rewrite len_app; lia).
  rewrite <- Hl4 in H. destruct t.
  - apply bind_Ok in H as (body & Hb%ok_or_Ok & [= <-]).
    apply pread_body_app in Hb as (rest & -> & Hb). split; [done|]. exists rest. cbn [encode_quote]. now rewrite <- !app_assoc.
  - apply bind_Ok in H as (body & Hb%ok_or_Ok & [= <-]).
    apply pread_body15_app in Hb as (rest & -> & Hb). split; [done|]. exists rest. cbn [encode_quote]. now rewrite <- !app_assoc.
Qed.

Lemma parse_tdx_quote_encode q rest : quote_wf q -> parse_tdx_quote (encode_quote q ++ rest) = Ok q.
Proof.
  intros Hq. unfold parse_tdx_quote, QUOTE_HEADER_SIZE.
  assert (Hh : forall v h, header_wf v h -> len (concat (header_fields h)) = 48).
  { intros v h [_ Hm]. now rewrite len_concat_widths, Hm. }
  destruct q as [h b|h t size body]; cbn [encode_quote] in *; rewrite <- !app_assoc; cbn [quote_wf] in Hq.
  - destruct Hq as [Hhw Hb]. rewrite (proj2 (slice_split _ 48 (concat (header_fields h)) ltac:(lia))) by eauto.
    cbn [mbind outcome_bind]. rewrite (proj2 (header_48 _ h (Hh _ _ Hhw))) by (destruct Hhw; done).
    cbn [mbind outcome_bind ok_or]. rewrite bool_decide_eq_true_2 by apply Hhw.
    rewrite <- (Hh _ _ Hhw), (proj2 (pread_body_app _ _ b)) by eauto. done.
  - destruct Hq as (Hhw & Hsz & Hb). rewrite (proj2 (slice_split _ 48 (concat (header_fields h)) ltac:(lia))) by eauto.
    cbn [mbind outcome_bind]. rewrite (proj2 (header_48 _ h (Hh _ _ Hhw))) by (destruct Hhw; done).
    cbn [mbind outcome_bind ok_or]. destruct Hhw as [Hv Hm] eqn:Ehw. rewrite Hv, bool_decide_eq_false_2 by done.
    rewrite bool_decide_eq_true_2 by done. pose proof (Hh _ _ Hhw) as Hl. clear Ehw.
    assert (Ht : len (quote_v5_type_as_bytes t) = 2) by (unfold quote_v5_type_as_bytes; now rewrite len_le_split).
    rewrite (proj2 (slice_at _ _ 48 2 (quote_v5_type_as_bytes t) (eq_sym Hl) ltac:(lia))) by eauto.
    cbn [mbind outcome_bind]. rewrite (proj2 (type_from_bytes_Ok _ t Ht)) by done. cbn [mbind outcome_bind].
    rewrite app_assoc.
    rewrite (proj2 (slice_at (concat (header_fields h) ++ quote_v5_type_as_bytes t) _ (48 + 2) 4 size ltac:(rewrite len_app; lia) ltac:(lia))) by eauto.
    cbn [mbind outcome_bind]. rewrite app_assoc.
    assert (Hl4 : 48 + 2 + 4 = len ((concat (header_fields h) ++ quote_v5_type_as_bytes t) ++ size)) by (rewrite !len_app; lia).
    rewrite Hl4. destruct t, body as [b|b]; try done.
    + now rewrite (proj2 (pread_body_app _ _ b)) by eauto.
    + now rewrite (proj2 (pread_body15_app _ _ b)) by eauto.
Qed.

(** C23: parsing TDX quotes.  The parser accepts exactly the byte strings that
    start with the fields of a quote one after the other, in one of the three
    layouts (version 4, version 5 for TDX 1.0 and for TDX 1.5), every field at
    its width, and returns that quote; whatever follows is not looked at. *)
Theorem tdx_quote_parse_spec b q :
  parse_tdx_quote b = Ok q <-> quote_wf q /\ exists rest, b = encode_quote q ++ rest.
Proof.
  split; [apply parse_tdx_quote_Ok|]. intros (Hq & rest & ->). now apply parse_tdx_quote_encode.
Qed.

(** ** Panics *)
Lemma header_version_at hb h : pread_quote_header hb 0 = Some h -> version h = range hb 0 2.
Proof.
  intros H. apply (pread_header_app [] hb h) in H as (rest & -> & Hm). cbn [header_fields map] in Hm.
  injection Hm as Hv _. cbn [header_fields concat]. rewrite <- app_assoc. symmetry.
  apply (range_app_at []); [done|]. rewrite Hv. done.
Qed.

Lemma header_total hb : len hb = 48 -> exists h, pread_quote_header hb 0 = Some h.
Proof.
  intros Hl. unfold pread_quote_header, quote_header_widths. cbn [pread_arrays]. unfold pread_bytes, get_range.
  rewrite Hl. cbn. eauto.
Qed.

Lemma slice_cases {E} (b : bytes) i j :
  0 <= i <= j -> (len b < j /\ slice (E := E) b i j = Panic) \/ (j <= len b /\ slice (E := E) b i j = Ok (range b i j)).
Proof.
  intros Hij. destruct (Z.lt_ge_cases (len b) j); [left|right]; (split; [done|]).
  - apply slice_Panic. lia.
  - apply slice_total. lia.
Qed.

(** Short quotes.  The parser panics, instead of reporting an error, exactly
    on input shorter than a header, and on input that starts a version 5 quote
    but ends within the type, or within the size after a known type. *)
Theorem tdx_quote_panics b :
  parse_tdx_quote b = Panic <->
  len b < 48 \/
  (range b 0 2 = [Init.Byte.x05; Init.Byte.x00] /\
   (len b < 50 \/ (len b < 54 /\ exists t, range b 48 50 = quote_v5_type_as_bytes t))).
Proof.
  unfold parse_tdx_quote, QUOTE_HEADER_SIZE. change (48 + 2 + 4) with 54. change (48 + 2) with 50.
  destruct (slice_cases (E := anyhow) b 0 48 ltac:(lia)) as [[Hl ->]|[Hl ->]]; cbn [mbind outcome_bind]; [naive_solver|].
  assert (Hhl : len (range b 0 48) = 48) by (apply len_range; lia).
  destruct (header_total _ Hhl) as [h Eh]. rewrite Eh. cbn [ok_or mbind outcome_bind].
  assert (Hv : version h = range b 0 2).
  { rewrite (header_version_at _ _ Eh). unfold range. rewrite !Z.sub_0_r, !drop_0, take_take. f_equal. }
  rewrite Hv. destruct (bool_decide_reflect (range b 0 2 = [Init.Byte.x04; Init.Byte.x00])) as [E4|_].
  { rewrite bind_Panic. split; [intros [H|(? & _ & H)]; [now apply ok_or_Panic in H|done]|].
    intros [?|[E5 _]]; [lia|]. rewrite E4 in E5. discriminate E5. }
  destruct (bool_decide_reflect (range b 0 2 = [Init.Byte.x05; Init.Byte.x00])) as [E5|N5]; [|naive_solver lia].
  destruct (slice_cases (E := anyhow) b 48 50 ltac:(lia)) as [[Hl2 ->]|[Hl2 ->]]; cbn [mbind outcome_bind]; [naive_solver|].
  assert (Htl : len (range b 48 50) = 2) by (apply len_range; lia).
  destruct (quote_v5_type_from_bytes (range b 48 50)) as [t| |] eqn:Et.
  - apply type_from_bytes_Ok in Et; [|done]. cbn [mbind outcome_bind].
    destruct (slice_cases (E := anyhow) b 50 54 ltac:(lia)) as [[Hl3 ->]|[Hl3 ->]]; cbn [mbind outcome_bind]; [naive_solver|].
    destruct t; rewrite bind_Panic; (split; [intros [H|(? & _ & H)]; [now apply ok_or_Panic in H|done]|naive_solver lia]).
  - cbn [mbind outcome_bind]. split; [done|]. intros [?|[_ [?|[_ [t Ht]]]]]; [lia..|].
    apply (type_from_bytes_Ok _ _ Htl) in Ht. congruence.
  - exfalso. unfold quote_v5_type_from_bytes in Et. rewrite Htl in Et. cbn [Z.ltb Z.compare] in Et.
    apply bind_Panic in Et as [E|(x & _ & E)]; [apply slice_Panic in E; lia|].
    repeat case_match; discriminate E.
Qed.

(** ** Attributes *)
Lemma flags_contains_bit bits k : 0 <= k -> flags_contains bits (Z.shiftl 1 k) = Z.testbit bits k.
Proof.
  intros Hk. unfold flags_contains. rewrite Z.shiftl_1_l.
  assert (E : Z.land bits (2 ^ k) = if Z.testbit bits k then 2 ^ k else 0).
  { apply Z.bits_inj'. intros n Hn. rewrite Z.land_spec, Z.pow2_bits_eqb by done.
    destruct (Z.eqb_spec k n) as [->|Hne].
    - destruct (Z.testbit bits n); cbn; [now rewrite Z.pow2_bits_true|now rewrite Z.bits_0].
    - rewrite andb_false_r. destruct (Z.testbit bits k); [now rewrite Z.pow2_bits_false|now rewrite Z.bits_0]. }
  rewrite E. pose proof (Z.pow_pos_nonneg 2 k ltac:(lia) Hk). destruct (Z.testbit bits k); zbool; done.
Qed.

(** The attributes of eight bytes are the bits at their positions. *)
Lemma parse_td_attributes_bits data :
  len data = 8 ->
  parse_td_attributes data = Ok
    [("debug", VBool (Z.testbit (le_combine data) 0));
     ("septve_disable", VBool (Z.testbit (le_combine data) 28));
     ("protection_keys", VBool (Z.testbit (le_combine data) 30));
     ("key_locker", VBool (Z.testbit (le_combine data) 31));
     ("perfmon", VBool (Z.testbit (le_combine data) 63))].
Proof.
  intros Hl. unfold parse_td_attributes. rewrite Hl. cbn [Z.eqb Pos.eqb negb td_attributes_flags map fst snd].
  now rewrite !flags_contains_bit by lia.
Qed.

Lemma quote_wf_widths q :
  quote_wf q -> len (quote_report_data q) = 64 /\ len (quote_mr_config_id q) = 48 /\ len (quote_td_attributes q) = 8.
Proof.
  assert (Hb : forall b, body_wf b -> len (rb_report_data b) = 64 /\ len (mr_config_id b) = 48 /\ len (td_attributes b) = 8).
  { intros b Hw. unfold body_wf, report_body2_widths in Hw. cbn in Hw. injection Hw as; done. }
  destruct q as [h b|h t size [b|b]]; cbn; intros Hq; destruct Hq as [_ Hq]; [now apply Hb|..];
    destruct Hq as [_ Hq]; destruct t; try done; apply Hb, Hq.
Qed.

(** The claims of a well-formed quote: generation cannot fail, and the report
    data, init data and attributes of the quote are what is claimed. *)
Lemma generate_parsed_claim_wf q log :
  quote_wf q -> exists m, generate_parsed_claim q log = Ok (VObject m) /\
    obj_get "report_data" m = Some (VString (hex_encode (quote_report_data q))) /\
    obj_get "init_data" m = Some (VString (hex_encode (quote_mr_config_id q))) /\
    obj_get "quote" m = Some (VObject (quote_claims q)) /\
    exists attrs, obj_get "td_attributes" m = Some (VObject attrs) /\
      obj_get "debug" attrs = Some (VBool (Z.testbit (le_combine (quote_td_attributes q)) 0)).
Proof.
  intros Hq. pose proof (quote_wf_widths q Hq) as (_ & _ & Ha). unfold generate_parsed_claim.
  rewrite parse_td_attributes_bits by done. cbn [mbind outcome_bind]. eexists. split; [reflexivity|].
  destruct log as [l|]; cbn; (do 3 (split; [reflexivity|])); eexists; split; reflexivity.
Qed.

(** ** A concrete quote *)
Module QuoteDemo.
Import Init.Byte.

Definition demo_body : ReportBody2 :=
  {| tcb_svn := replicate 16 x01; mr_seam := replicate 48 x02; mrsigner_seam := replicate 48 x03;
     seam_attributes := replicate 8 x00; td_attributes := [x01; x00; x00; x10; x00; x00; x00; x00];
     xfam := replicate 8 x00; mr_td := replicate 48 x04; mr_config_id := replicate 48 x05;
     mr_owner := replicate 48 x06; mr_owner_config := replicate 48 x07; rtmr_0 := replicate 48 x08;
     rtmr_1 := replicate 48 x09; rtmr_2 := replicate 48 x0a; rtmr_3 := replicate 48 x0b;
     rb_report_data := replicate 48 x0c ++ replicate 16 x00 |}.

Definition demo_header (v : byte) : QuoteHeader :=
  {| version := [v; x00]; att_key_type := [x02; x00]; tee_type := [x81; x00; x00; x00];
     reserved := replicate 4 x00; vendor_id := replicate 16 x0d; user_data := replicate 20 x0e |}.

Definition demo_quote : Quote :=
  V5 (demo_header x05) TDX15 (replicate 4 x01)
     (Tdx15 {| v15_body := demo_body; tee_tcb_svn2 := replicate 16 x01; mr_servicetd := replicate 48 x02 |}).

Lemma demo_quote_wf : quote_wf demo_quote.
Proof. repeat split. Qed.

Example demo_quote_parses : parse_tdx_quote (encode_quote demo_quote ++ [x01]) = Ok demo_quote.
Proof. vm_compute. reflexivity. Qed.
End QuoteDemo.
