(* ===== verification/Tdx.v ===== *)
(** * The TDX verifier ([deps/verifier/src/tdx/mod.rs])

    Evidence is a quote and, maybe, an event log: the quote is verified by DCAP,
    parsed, compared with the expected report data and init data, and the event
    log is replayed against its runtime measurement registers. *)
From S2P Require Import Prelude Types Text Fs Json TcgEvents EventParsers EventLog Verifier IntelDcap TdxQuote.

Record TdxEvidence := {
  cc_eventlog : option string;
  tdx_quote : string;
}.

(** [serde_json::from_value] at the evidence. *)
Class TdxCrates := tdx_evidence_from_value : Value -> option TdxEvidence.

Section TdxVerifier.
Context `{P : Profile} `{EC : EventCrates} `{DC : DcapCrates} `{VC : VerifierCrates} `{TC : TdxCrates}.

(** [CcEventLog::try_from]; the parser's fuel is enough for any [Vec]. *)
Definition cc_event_log_try_from (data : bytes) : outcome anyhow CcEventLog :=
  match event_log_try_from data with
  | Some r => map_err (fun _ => "Parse CC Eventlog failed") r
  | None => Panic
  end.

(** The four registers of the quote, as reference measurements. *)
Definition rtmr_references (quote : Quote) : list ReferenceMeasurement :=
  [{| r_index := 1; r_algorithm := Sha384; reference := quote_rtmr_0 quote |};
   {| r_index := 2; r_algorithm := Sha384; reference := quote_rtmr_1 quote |};
   {| r_index := 3; r_algorithm := Sha384; reference := quote_rtmr_2 quote |};
   {| r_index := 4; r_algorithm := Sha384; reference := quote_rtmr_3 quote |}].

Definition tdx_check_eventlog (quote : Quote) (cc : option string) : outcome anyhow (option CcEventLog) :=
  match cc with
  | Some el =>
      if String.eqb el "" then Ok None
      else
        ccel_data ← ok_or "base64" (base64_standard_decode el);
        ccel ← cc_event_log_try_from ccel_data;
        replay_and_match ccel (rtmr_references quote);;
        Ok (Some ccel)
  | None => Ok None
  end.

(** [verify_evidence]. *)
Definition tdx_verify_evidence (expected_report_data : ReportData) (expected_init_data_hash : InitDataHash)
    (evidence : TdxEvidence) : outcome anyhow Value :=
  if String.eqb (tdx_quote evidence) "" then Err "TDX Quote is empty."
  else
    quote_bin ← ok_or "base64" (base64_standard_decode (tdx_quote evidence));
    custom_claims ← ecdsa_quote_verification quote_bin;
    quote ← parse_tdx_quote quote_bin;
    match expected_report_data with
    | RD_Value d =>
        if negb (bool_decide (regularize_data d 64 = quote_report_data quote)) then
          Err "REPORT_DATA is different from that in TDX Quote"
        else Ok tt
    | RD_NotProvided => Ok tt
    end;;
    match expected_init_data_hash with
    | ID_Value d =>
        if negb (bool_decide (regularize_data d 48 = quote_mr_config_id quote)) then
          Err "MRCONFIGID is different from that in TDX Quote"
        else Ok tt
    | ID_NotProvided => Ok tt
    end;;
    ccel_option ← tdx_check_eventlog quote (cc_eventlog evidence);
    claim ← generate_parsed_claim quote ccel_option;
    extend_using_custom_claims claim custom_claims.

Definition tdx_evaluate (evidence : Value) (expected_report_data : ReportData)
    (expected_init_data_hash : InitDataHash) : outcome anyhow (list (Value * string)) :=
  tdx_evidence ← ok_or "Deserialize TDX Evidence failed." (tdx_evidence_from_value evidence);
  claims ← map_err (fun _ => "TDX Verifier")
             (tdx_verify_evidence expected_report_data expected_init_data_hash tdx_evidence);
  Ok [(claims, "cpu")].

Definition tdx_verifier : Verifier :=
  {| evaluate := tdx_evaluate; generate_supplemental_challenge := default_supplemental_challenge |}.
End TdxVerifier.
