(* ===== verification/TdxProofs.v ===== *)
(** * Properties of the TDX verifier *)
From S2P Require Import Prelude Types Text Fs Json TcgEvents EventParsers EventLog EventLogProofs Verifier IntelDcap TdxQuote TdxQuoteProofs Tdx.

Section TdxProofs.
Context `{P : Profile} `{EC : EventCrates} `{DC : DcapCrates} `{VC : VerifierCrates} `{TC : TdxCrates}.

(** The event log of accepted evidence: there is none, or it parses and each
    register it replays to is the one in the quote. *)
Definition eventlog_matches (q : Quote) (cc : option string) (l : option CcEventLog) : Prop :=
  match l with
  | None => cc = None \/ cc = Some ""
  | Some l => exists el data, cc = Some el /\ base64_standard_decode el = Some data /\
      event_log_try_from data = Some (Ok l) /\
      register (log l) 1 Sha384 = Some (quote_rtmr_0 q) /\ register (log l) 2 Sha384 = Some (quote_rtmr_1 q) /\
      register (log l) 3 Sha384 = Some (quote_rtmr_2 q) /\ register (log l) 4 Sha384 = Some (quote_rtmr_3 q)
  end.

Lemma tdx_check_eventlog_Ok q cc l : tdx_check_eventlog q cc = Ok l -> eventlog_matches q cc l.
Proof.
  unfold tdx_check_eventlog. destruct cc as [el|]; [|intros [= <-]; now left].
  destruct (String.eqb_spec el "") as [->|Hne]; [intros [= <-]; now right|]. intros H.
  apply bind_Ok in H as (data & Hd%ok_or_Ok & H). apply bind_Ok in H as (l' & Hl & H).
  apply bind_Ok in H as ([] & Hr & [= <-]). unfold cc_event_log_try_from in Hl.
  destruct (event_log_try_from data) as [r|] eqn:E; [|done]. apply map_err_Ok in Hl as ->.
  apply replay_and_match_iff in Hr. unfold rtmr_references in Hr.
  repeat (apply Forall_cons_iff in Hr as [? Hr]). cbn in *. exists el, data. eauto 10.
Qed.

(** What an accepted quote is. *)
Record tdx_accepted (e : TdxEvidence) (d : ReportData) (h : InitDataHash) (claims : Value) : Prop := {
  ta_quote : exists quote_bin q rest want status result supp,
    base64_standard_decode (tdx_quote e) = Some quote_bin /\
    quote_wf q /\ quote_bin = encode_quote q ++ rest /\
    (** DCAP accepted the quote *)
    tee_verify_quote quote_bin (tee_qv_get_collateral quote_bin) unix_now want = Some (status, result, supp) /\
    (forall code, result <> SGX_QL_QV_RESULT_other code) /\
    (** it carries the expected data *)
    (forall r, d = RD_Value r -> quote_report_data q = regularize_data r 64) /\
    (forall i, h = ID_Value i -> quote_mr_config_id q = regularize_data i 48) /\
    exists l m attrs, eventlog_matches q (cc_eventlog e) l /\ claims = VObject m /\
      (** and the claims are those of the quote *)
      obj_get "report_data" m = Some (VString (hex_encode (quote_report_data q))) /\
      obj_get "init_data" m = Some (VString (hex_encode (quote_mr_config_id q))) /\
      obj_get "quote" m = Some (VObject (quote_claims q)) /\
      obj_get "td_attributes" m = Some (VObject attrs) /\
      obj_get "debug" attrs = Some (VBool (Z.testbit (le_combine (quote_td_attributes q)) 0))
}.

Lemma tdx_verify_Ok d h e claims : tdx_verify_evidence d h e = Ok claims -> tdx_accepted e d h claims.
Proof.
  unfold tdx_verify_evidence. destruct (String.eqb _ ""); [done|]. intros H.
  apply bind_Ok in H as (qb & Hb%ok_or_Ok & H). apply bind_Ok in H as (custom & Hc & H).
  apply bind_Ok in H as (q & Hq & H). apply parse_tdx_quote_Ok in Hq as (Hwf & rest & ->).
  apply bind_Ok in H as (u1 & H1 & H). apply bind_Ok in H as (u2 & H2 & H).
  apply bind_Ok in H as (l & Hl%tdx_check_eventlog_Ok & H). apply bind_Ok in H as (claim & Hg & H).
  destruct (generate_parsed_claim_wf q l Hwf) as (m & Hm & Hr & Hi & Hqt & attrs & Ha & Hdb).
  rewrite Hm in Hg. injection Hg as <-.
  destruct (ecdsa_quote_verification_Ok _ _ Hc) as (want & status & result & supp & Hv & Hres & _).
  destruct (extend_keeps _ _ _ _ Hc H) as (m' & -> & K).
  constructor. exists (encode_quote q ++ rest), q, rest, want, status, result, supp.
  do 5 (split; [done|]). split.
  { intros r ->. destruct (bool_decide_reflect (regularize_data r 64 = quote_report_data q)); [done|discriminate H1]. }
  split.
  { intros i ->. destruct (bool_decide_reflect (regularize_data i 48 = quote_mr_config_id q)); [done|discriminate H2]. }
  exists l, m', attrs. split; [done|]. split; [done|].
  rewrite !K by (unfold custom_claim_names; set_solver). done.
Qed.

(** C20: accepted TDX evidence is what it says.  When the verifier accepts
    evidence, its quote starts with the fields of a well-formed quote that the
    DCAP library accepted with a result that is not terminal; the quote carries
    the expected report data (padded or cut to 64 bytes) and init data (48
    bytes), the event log, if one was sent, replays to the four runtime
    registers of the quote, and the claims are those of the quote, the debug
    attribute included. *)
Theorem tdx_evaluate_sound evidence d h claims :
  tdx_evaluate evidence d h = Ok claims ->
  exists e v, tdx_evidence_from_value evidence = Some e /\ claims = [(v, "cpu")] /\ tdx_accepted e d h v.
Proof.
  unfold tdx_evaluate. intros H. apply bind_Ok in H as (e & He%ok_or_Ok & H).
  apply bind_Ok in H as (v & Hv%map_err_Ok & [= <-]). exists e, v. eauto using tdx_verify_Ok.
Qed.

(** The report data of TDX evidence. *)
Definition tdx_reported (evidence : Value) : option bytes :=
  e ← tdx_evidence_from_value evidence;
  b ← base64_standard_decode (tdx_quote e);
  match parse_tdx_quote b with
  | Ok q => Some (quote_report_data q)
  | _ => None
  end.

#[export] Instance tdx_binds : VerifierBinds tdx_verifier (fun d => regularize_data d 64) tdx_reported.
Proof.
  intros evidence d h claims H. cbn in H. unfold tdx_evaluate in H. apply bind_Ok in H as (e & He%ok_or_Ok & H).
  apply bind_Ok in H as (v & Hv%map_err_Ok & _). apply tdx_verify_Ok in Hv as [Hv].
  destruct Hv as (qb & q & rest & _ & _ & _ & _ & Hb & Hwf & -> & _ & _ & Hr & _).
  unfold tdx_reported. rewrite He. cbn. rewrite Hb. cbn.
  rewrite parse_tdx_quote_encode by done. now rewrite (Hr d eq_refl).
Qed.
End TdxProofs.

(** ** A concrete instance *)
Module TdxDemo.
Import Init.Byte.

#[export] Instance demo_event_crates : EventCrates := {|
  sha256 _ := replicate 32 x00; sha384 _ := replicate 48 x00; sha512 _ := replicate 64 x00;
  sm3 _ := replicate 32 x00; el_base64 _ := ""; el_from_str _ := None;
|}.

Definition demo_supplemental : Supplemental :=
  {| earliest_issue_date := 0; latest_issue_date := 0; earliest_expiration_date := 0; tcb_level_date_tag := 0;
     pck_crl_num := 1; root_ca_crl_num := 1; pck_ppid := []; sgx_type := 1; dynamic_platform := 1;
     cached_keys := 1; smt_enabled := 1; root_key_id := []; sa_list := [x00] |}.

#[export] Instance demo_dcap : DcapCrates := {|
  Collateral := unit;
  tee_get_supplemental_data_version_and_size _ := Some (3, 8);
  tee_qv_get_collateral _ := Some tt;
  tee_verify_quote _ _ _ _ := Some (0, SGX_QL_QV_RESULT_OK, demo_supplemental);
  supplemental_size := 8;
  supplemental_default := demo_supplemental;
  rfc3339 _ := Some "1970-01-01T00:00:00Z";
  unix_now := 0;
|}.

#[export] Instance demo_verifier_crates : VerifierCrates := {|
  sample_from_value _ := None;
  base64_standard_decode _ := Some (encode_quote QuoteDemo.demo_quote);
  base64_standard_encode _ := "";
|}.

#[export] Instance demo_tdx : TdxCrates := fun _ => Some {| cc_eventlog := None; tdx_quote := "q" |}.

Definition demo_tdx_claims : list (Value * string) :=
  match tdx_evaluate (P := true) VNull (RD_Value (replicate 48 x0c)) (ID_Value (replicate 48 x05)) with
  | Ok c => c
  | _ => []
  end.

Lemma tdx_evaluate_sound_witness :
  exists e v, tdx_evidence_from_value VNull = Some e /\ demo_tdx_claims = [(v, "cpu")] /\
    tdx_accepted (P := true) e (RD_Value (replicate 48 x0c)) (ID_Value (replicate 48 x05)) v.
Proof.
  apply (tdx_evaluate_sound (P := true) VNull). vm_compute. reflexivity.
Defined.
End TdxDemo.
