(* ===== verification/Sgx.v ===== *)
(** * The SGX verifier ([deps/verifier/src/sgx/])

    The layout of an SGX quote, its parser, its claims and the verifier. *)
From S2P Require Import Prelude Types Text Fs Json Verifier IntelDcap TcgEvents TdxQuote.

Definition QUOTE_SIZE : Z := 436.

Record sgx_attributes_t := {
  flags : bytes;
  xfrm : bytes;
}.

Record sgx_report_body_t := {
  cpu_svn : bytes;
  misc_select : bytes;
  reserved1 : bytes;
  isv_ext_prod_id : bytes;
  attributes : sgx_attributes_t;
  mr_enclave : bytes;
  reserved2 : bytes;
  mr_signer : bytes;
  reserved3 : bytes;
  config_id : bytes;
  isv_prod_id : bytes;
  isv_svn : bytes;
  config_svn : bytes;
  reserved4 : bytes;
  isv_family_id : bytes;
  sgx_report_data : bytes;
}.

Record sgx_quote_header_t := {
  sgx_version : bytes;
  sgx_att_key_type : bytes;
  att_key_data_0 : bytes;
  qe_svn : bytes;
  pce_svn : bytes;
  sgx_vendor_id : bytes;
  sgx_user_data : bytes;
}.

Record sgx_quote3_t := {
  sgx_header : sgx_quote_header_t;
  report_body : sgx_report_body_t;
  signature_data_len : Z;
}.

(** ** Reading: the fields of the nested structures in order, then a [u32] *)
Definition sgx_header_widths : list Z := [2; 2; 4; 2; 2; 16; 20].

Definition sgx_body_widths : list Z := [16; 4; 12; 16; 8; 8; 32; 32; 32; 32; 64; 2; 2; 2; 42; 16; 64].

Definition sgx_quote_of (hs bs : list bytes) (n : Z) : option sgx_quote3_t :=
  match hs, bs with
  | [v; k; k0; q; p; vi; u], [c; m; r1; ie; fl; xf; e; r2; s; r3; ci; ip; sv; cs; r4; fa; rd] =>
      Some {| sgx_header := {| sgx_version := v; sgx_att_key_type := k; att_key_data_0 := k0; qe_svn := q;
                               pce_svn := p; sgx_vendor_id := vi; sgx_user_data := u |};
              report_body := {| cpu_svn := c; misc_select := m; reserved1 := r1; isv_ext_prod_id := ie;
                                attributes := {| flags := fl; xfrm := xf |}; mr_enclave := e; reserved2 := r2;
                                mr_signer := s; reserved3 := r3; config_id := ci; isv_prod_id := ip; isv_svn := sv;
                                config_svn := cs; reserved4 := r4; isv_family_id := fa; sgx_report_data := rd |};
              signature_data_len := n |}
  | _, _ => None
  end.

Definition pread_sgx_quote (data : bytes) (offset : Z) : option sgx_quote3_t :=
  '(hs, offset) ← pread_arrays sgx_header_widths data offset;
  '(bs, offset) ← pread_arrays sgx_body_widths data offset;
  '(n, _) ← gread 4 data offset;
  sgx_quote_of hs bs n.

Definition parse_sgx_quote (quote : bytes) : outcome anyhow sgx_quote3_t :=
  quote_body ← slice quote 0 QUOTE_SIZE;
  ok_or "Parse SGX quote failed" (pread_sgx_quote quote_body 0).

(** ** Claims *)
Definition sgx_generate_parsed_claims (quote : sgx_quote3_t) : Value :=
  let h := sgx_header quote in
  let b := report_body quote in
  VObject
    [("header", VObject
       [hex_claim "version" (sgx_version h);
        hex_claim "att_key_type" (sgx_att_key_type h);
        hex_claim "att_key_data_0" (att_key_data_0 h);
        hex_claim "qe_svn" (qe_svn h);
        hex_claim "pce_svn" (pce_svn h);
        hex_claim "vendor_id" (sgx_vendor_id h);
        hex_claim "user_data" (sgx_user_data h)]);
     ("body", VObject
       [hex_claim "cpu_svn" (cpu_svn b);
        hex_claim "misc_select" (misc_select b);
        hex_claim "reserved1" (reserved1 b);
        hex_claim "isv_ext_prod_id" (isv_ext_prod_id b);
        hex_claim "attributes.flags" (flags (attributes b));
        hex_claim "attributes.xfrm" (xfrm (attributes b));
        hex_claim "mr_enclave" (mr_enclave b);
        hex_claim "reserved2" (reserved2 b);
        hex_claim "mr_signer" (mr_signer b);
        hex_claim "reserved3" (reserved3 b);
        hex_claim "config_id" (config_id b);
        hex_claim "isv_prod_id" (isv_prod_id b);
        hex_claim "isv_svn" (isv_svn b);
        hex_claim "config_svn" (config_svn b);
        hex_claim "reserved4" (reserved4 b);
        hex_claim "isv_family_id" (isv_family_id b);
        hex_claim "report_data" (sgx_report_data b)]);
     hex_claim "report_data" (sgx_report_data b);
     hex_claim "init_data" (config_id b)].

(** ** The verifier *)
Record SgxEvidence := { sgx_quote : string }.

Class SgxCrates := sgx_evidence_from_value : Value -> option SgxEvidence.

Section SgxVerifier.
Context `{DC : DcapCrates} `{VC : VerifierCrates} `{SC : SgxCrates}.

Definition sgx_verify_evidence (expected_report_data : ReportData) (expected_init_data_hash : InitDataHash)
    (evidence : SgxEvidence) : outcome anyhow Value :=
  if String.eqb (sgx_quote evidence) "" then Err "SGX Quote is empty."
  else
    quote_bin ← ok_or "base64" (base64_standard_decode (sgx_quote evidence));
    custom_claims ← map_err (fun _ => "Evidence's identity verification error.")
                      (ecdsa_quote_verification quote_bin);
    quote ← parse_sgx_quote quote_bin;
    match expected_report_data with
    | RD_Value d =>
        if negb (bool_decide (regularize_data d 64 = sgx_report_data (report_body quote))) then
          Err "REPORT_DATA is different from that in SGX Quote"
        else Ok tt
    | RD_NotProvided => Ok tt
    end;;
    match expected_init_data_hash with
    | ID_Value d =>
        if negb (bool_decide (regularize_data d 64 = config_id (report_body quote))) then
          Err "CONFIGID is different from that in SGX Quote"
        else Ok tt
    | ID_NotProvided => Ok tt
    end;;
    extend_using_custom_claims (sgx_generate_parsed_claims quote) custom_claims.

Definition sgx_evaluate (evidence : Value) (expected_report_data : ReportData)
    (expected_init_data_hash : InitDataHash) : outcome anyhow (list (Value * string)) :=
  tee_evidence ← ok_or "Deserialize Quote failed." (sgx_evidence_from_value evidence);
  claims ← map_err (fun _ => "SGX Verifier")
             (sgx_verify_evidence expected_report_data expected_init_data_hash tee_evidence);
  Ok [(claims, "cpu")].

Definition sgx_verifier : Verifier :=
  {| evaluate := sgx_evaluate; generate_supplemental_challenge := default_supplemental_challenge |}.
End SgxVerifier.
