(* ===== verification/SgxProofs.v ===== *)
(** * Properties of the SGX verifier *)
From S2P Require Import Prelude Types Text Fs Json Verifier IntelDcap TcgEvents TdxQuote TdxQuoteProofs Sgx.

(** ** The layout *)
Definition sgx_header_fields (h : sgx_quote_header_t) : list bytes :=
  [sgx_version h; sgx_att_key_type h; att_key_data_0 h; qe_svn h; pce_svn h; sgx_vendor_id h; sgx_user_data h].

Definition sgx_body_fields (b : sgx_report_body_t) : list bytes :=
  [cpu_svn b; misc_select b; reserved1 b; isv_ext_prod_id b; flags (attributes b); xfrm (attributes b);
   mr_enclave b; reserved2 b; mr_signer b; reserved3 b; config_id b; isv_prod_id b; isv_svn b; config_svn b;
   reserved4 b; isv_family_id b; sgx_report_data b].

Definition encode_sgx_quote (q : sgx_quote3_t) : bytes :=
  concat (sgx_header_fields (sgx_header q)) ++ concat (sgx_body_fields (report_body q)) ++
  le_split 4 (signature_data_len q).

Definition sgx_quote_wf (q : sgx_quote3_t) : Prop :=
  map len (sgx_header_fields (sgx_header q)) = sgx_header_widths /\
  map len (sgx_body_fields (report_body q)) = sgx_body_widths /\
  0 <= signature_data_len q < 2 ^ 32.

Lemma sgx_quote_of_Some hs bs n q :
  sgx_quote_of hs bs n = Some q ->
  hs = sgx_header_fields (sgx_header q) /\ bs = sgx_body_fields (report_body q) /\ n = signature_data_len q.
Proof.
  unfold sgx_quote_of. do 7 (destruct hs as [|? hs]; [done|]). destruct hs; [|done].
  do 17 (destruct bs as [|? bs]; [done|]). destruct bs; [|done]. now intros [= <-].
Qed.

Lemma sgx_quote_of_fields q :
  sgx_quote_of (sgx_header_fields (sgx_header q)) (sgx_body_fields (report_body q)) (signature_data_len q) = Some q.
Proof. now destruct q as [[] [? ? ? ? [] ] ?]. Qed.

Lemma encode_sgx_quote_len q : sgx_quote_wf q -> len (encode_sgx_quote q) = QUOTE_SIZE.
Proof.
  intros (Hh & Hb & _). unfold encode_sgx_quote. rewrite !len_app, !len_concat_widths, Hh, Hb, len_le_split. done.
Qed.

Lemma pread_sgx_quote_Some data q :
  pread_sgx_quote data 0 = Some q -> sgx_quote_wf q /\ exists rest, data = encode_sgx_quote q ++ rest.
Proof.
  unfold pread_sgx_quote.
  destruct (pread_arrays sgx_header_widths data 0) as [[hs o]|] eqn:Eh; cbn [mbind option_bind]; [|done].
  apply (pread_arrays_app sgx_header_widths [] data) in Eh as (s & -> & Hh & ->); [|now repeat constructor].
  change (@len Init.Byte.byte []) with 0. rewrite Z.add_0_l.
  destruct (pread_arrays sgx_body_widths _ _) as [[bs o]|] eqn:Eb; cbn [mbind option_bind]; [|done].
  apply pread_arrays_app in Eb as (s' & -> & Hb & ->); [|now repeat constructor].
  rewrite app_assoc, <- len_app.
  destruct (gread 4 _ _) as [[n o]|] eqn:En; cbn [mbind option_bind]; [|done].
  pose proof (gread_bound _ _ _ _ _ En (len_nonneg _) ltac:(lia)) as Hn.
  apply gread_app in En as (b & rest & -> & Hl & ->); [|lia].
  intros (-> & -> & Hs)%sgx_quote_of_Some. rewrite Hs in Hn. split; [done|].
  exists rest. unfold encode_sgx_quote. rewrite <- Hs.
  assert (E : le_split 4 (le_combine b) = b).
  { replace 4%nat with (length b) by (unfold len in Hl; lia). apply split_le_combine. }
  now rewrite E, <- !app_assoc.
Qed.

Lemma pread_sgx_quote_encode q rest : sgx_quote_wf q -> pread_sgx_quote (encode_sgx_quote q ++ rest) 0 = Some q.
Proof.
  intros (Hh & Hb & Hn). unfold pread_sgx_quote, encode_sgx_quote. rewrite <- !app_assoc, <- Hh.
  rewrite (pread_arrays_write [] (sgx_header_fields (sgx_header q)) _ : pread_arrays _ (concat _ ++ _) 0 = _).
  cbn [mbind option_bind]. change (@len Init.Byte.byte []) with 0. rewrite Z.add_0_l, <- Hb, pread_arrays_write.
  cbn [mbind option_bind]. rewrite app_assoc, <- len_app.
  rewrite (gread_app_at (concat (sgx_header_fields (sgx_header q)) ++ concat (sgx_body_fields (report_body q)))
    (signature_data_len q) 4 rest) by done. apply sgx_quote_of_fields.
Qed.

(** Parsing SGX quotes.  A quote is accepted exactly when its first 436
    bytes are the fields of a quote at their widths, and it is that quote; the
    parser panics exactly on shorter input. *)
Theorem sgx_quote_parse_spec b :
  (forall q, parse_sgx_quote b = Ok q <-> sgx_quote_wf q /\ exists rest, b = encode_sgx_quote q ++ rest) /\
  (parse_sgx_quote b = Panic <-> len b < QUOTE_SIZE).
Proof.
  unfold parse_sgx_quote. split.
  - intros q. split.
    + intros H. apply bind_Ok in H as (hb & Hs & H%ok_or_Ok).
      apply slice_split in Hs as (s & -> & Hl); [|done]. apply pread_sgx_quote_Some in H as (Hw & r & ->).
      split; [done|]. exists (r ++ s). now rewrite app_assoc.
    + intros (Hw & rest & ->).
      rewrite (proj2 (slice_split _ QUOTE_SIZE (encode_sgx_quote q) ltac:(done))) by eauto using encode_sgx_quote_len.
      cbn [mbind outcome_bind]. rewrite <- (app_nil_r (encode_sgx_quote q)). now rewrite pread_sgx_quote_encode.
  - rewrite bind_Panic, slice_Panic. unfold QUOTE_SIZE. split.
    + intros [H|(hb & _ & H)]; [lia|now apply ok_or_Panic in H].
    + intros H. left. lia.
Qed.

Section SgxProofs.
Context `{DC : DcapCrates} `{VC : VerifierCrates} `{SC : SgxCrates}.

(** The quote of SGX evidence. *)
Definition sgx_evidence_quote (evidence : Value) : option (bytes * sgx_quote3_t) :=
  e ← sgx_evidence_from_value evidence;
  b ← base64_standard_decode (sgx_quote e);
  match parse_sgx_quote b with
  | Ok q => Some (b, q)
  | _ => None
  end.

Lemma sgx_evaluate_Ok evidence d h claims :
  sgx_evaluate evidence d h = Ok claims ->
  exists b q want status result supp m,
    sgx_evidence_quote evidence = Some (b, q) /\ claims = [(VObject m, "cpu")] /\
    tee_verify_quote b (tee_qv_get_collateral b) unix_now want = Some (status, result, supp) /\
    (forall code, result <> SGX_QL_QV_RESULT_other code) /\
    (forall r, d = RD_Value r -> sgx_report_data (report_body q) = regularize_data r 64) /\
    (forall i, h = ID_Value i -> config_id (report_body q) = regularize_data i 64) /\
    obj_get "report_data" m = Some (VString (hex_encode (sgx_report_data (report_body q)))) /\
    obj_get "init_data" m = Some (VString (hex_encode (config_id (report_body q)))).
Proof.
  unfold sgx_evaluate, sgx_verify_evidence, sgx_evidence_quote. intros H.
  apply bind_Ok in H as (e & He%ok_or_Ok & H). apply bind_Ok in H as (v & Hv%map_err_Ok & [= <-]).
  destruct (String.eqb _ ""); [done|]. rewrite He. cbn [mbind option_bind].
  apply bind_Ok in Hv as (b & Hb%ok_or_Ok & Hv). rewrite Hb. cbn [mbind option_bind].
  apply bind_Ok in Hv as (custom & Hc%map_err_Ok & Hv). apply bind_Ok in Hv as (q & Hq & Hv). rewrite Hq.
  apply bind_Ok in Hv as (u1 & H1 & Hv). apply bind_Ok in Hv as (u2 & H2 & Hv).
  destruct (ecdsa_quote_verification_Ok _ _ Hc) as (want & status & result & supp & Ht & Hres & _).
  destruct (extend_keeps _ _ _ _ Hc Hv) as (m & -> & K).
  exists b, q, want, status, result, supp, m. do 4 (split; [done|]). split.
  { intros r ->. destruct (bool_decide_reflect (regularize_data r 64 = sgx_report_data (report_body q))); [done|discriminate H1]. }
  split.
  { intros i ->. destruct (bool_decide_reflect (regularize_data i 64 = config_id (report_body q))); [done|discriminate H2]. }
  rewrite !K by (unfold custom_claim_names; set_solver). done.
Qed.

(** Accepted SGX evidence is what it says.  When the verifier accepts
    evidence, the DCAP library accepted its quote with a result that is not
    terminal, the quote carries the expected report data and init data (padded
    or cut to 64 bytes), and the claims show both. *)
Theorem sgx_evaluate_sound evidence d h claims :
  sgx_evaluate evidence d h = Ok claims ->
  exists b q want status result supp m,
    sgx_evidence_quote evidence = Some (b, q) /\ claims = [(VObject m, "cpu")] /\
    tee_verify_quote b (tee_qv_get_collateral b) unix_now want = Some (status, result, supp) /\
    (forall code, result <> SGX_QL_QV_RESULT_other code) /\
    (forall r, d = RD_Value r -> sgx_report_data (report_body q) = regularize_data r 64) /\
    (forall i, h = ID_Value i -> config_id (report_body q) = regularize_data i 64) /\
    obj_get "report_data" m = Some (VString (hex_encode (sgx_report_data (report_body q)))) /\
    obj_get "init_data" m = Some (VString (hex_encode (config_id (report_body q)))).
Proof. apply sgx_evaluate_Ok. Qed.

Definition sgx_reported (evidence : Value) : option bytes :=
  '(_, q) ← sgx_evidence_quote evidence; Some (sgx_report_data (report_body q)).

#[export] Instance sgx_binds : VerifierBinds sgx_verifier (fun d => regularize_data d 64) sgx_reported.
Proof.
  intros evidence d h claims H. apply sgx_evaluate_Ok in H as (b & q & _ & _ & _ & _ & _ & Hq & _ & _ & _ & Hr & _).
  unfold sgx_reported. rewrite Hq. cbn. now rewrite (Hr d eq_refl).
Qed.
End SgxProofs.

(** ** A concrete instance *)
Module SgxDemo.
Import Init.Byte.

Definition demo_sgx_quote : sgx_quote3_t :=
  {| sgx_header := {| sgx_version := [x03; x00]; sgx_att_key_type := [x02; x00]; att_key_data_0 := replicate 4 x00;
       qe_svn := [x08; x00]; pce_svn := [x0d; x00]; sgx_vendor_id := replicate 16 x09; sgx_user_data := replicate 20 x0a |};
     report_body := {| cpu_svn := replicate 16 x06; misc_select := replicate 4 x01; reserved1 := replicate 12 x00;
       isv_ext_prod_id := replicate 16 x00; attributes := {| flags := replicate 8 x07; xfrm := replicate 8 xe7 |};
       mr_enclave := replicate 32 x8f; reserved2 := replicate 32 x00; mr_signer := replicate 32 x83;
       reserved3 := replicate 32 x00; config_id := replicate 64 x05; isv_prod_id := [x00; x00];
       isv_svn := [x00; x00]; config_svn := [x00; x00]; reserved4 := replicate 42 x00;
       isv_family_id := replicate 16 x00; sgx_report_data := replicate 64 x0c |};
     signature_data_len := 4096 |}.

Definition demo_sgx_supplemental : Supplemental :=
  {| earliest_issue_date := 0; latest_issue_date := 0; earliest_expiration_date := 0; tcb_level_date_tag := 0;
     pck_crl_num := 1; root_ca_crl_num := 1; pck_ppid := []; sgx_type := 0; dynamic_platform := 0;
     cached_keys := 0; smt_enabled := 0; root_key_id := []; sa_list := [x41; x2c; x42; x00] |}.

#[export] Instance demo_dcap : DcapCrates := {|
  Collateral := unit;
  tee_get_supplemental_data_version_and_size _ := Some (3, 8);
  tee_qv_get_collateral _ := None;
  tee_verify_quote _ _ _ _ := Some (0, SGX_QL_QV_RESULT_OUT_OF_DATE, demo_sgx_supplemental);
  supplemental_size := 8;
  supplemental_default := demo_sgx_supplemental;
  rfc3339 _ := Some "1970-01-01T00:00:00Z";
  unix_now := 0;
|}.

#[export] Instance demo_verifier_crates : VerifierCrates := {|
  sample_from_value _ := None;
  base64_standard_decode _ := Some (encode_sgx_quote demo_sgx_quote ++ [x01]);
  base64_standard_encode _ := "";
|}.

#[export] Instance demo_sgx : SgxCrates := fun _ => Some {| sgx_quote := "q" |}.

Definition demo_sgx_claims : list (Value * string) :=
  match sgx_evaluate VNull (RD_Value (replicate 64 x0c)) (ID_Value (replicate 64 x05)) with
  | Ok c => c
  | _ => []
  end.

Lemma sgx_evaluate_sound_witness :
  exists b q want status result supp m,
    sgx_evidence_quote VNull = Some (b, q) /\ demo_sgx_claims = [(VObject m, "cpu")] /\
    tee_verify_quote b (tee_qv_get_collateral b) unix_now want = Some (status, result, supp) /\
    (forall code, result <> SGX_QL_QV_RESULT_other code) /\
    (forall r, RD_Value (replicate 64 x0c) = RD_Value r -> sgx_report_data (report_body q) = regularize_data r 64) /\
    (forall i, ID_Value (replicate 64 x05) = ID_Value i -> config_id (report_body q) = regularize_data i 64) /\
    obj_get "report_data" m = Some (VString (hex_encode (sgx_report_data (report_body q)))) /\
    obj_get "init_data" m = Some (VString (hex_encode (config_id (report_body q)))).
Proof.
  apply (sgx_evaluate_sound VNull (RD_Value (replicate 64 x0c)) (ID_Value (replicate 64 x05)) demo_sgx_claims).
  vm_compute. reflexivity.
Defined.
End SgxDemo.
