(* ===== verification/Snp.v ===== *)
(** * The SEV-SNP verifier ([deps/verifier/src/snp/mod.rs])

    Reports are signed by a versioned chip endorsement key (VCEK, or VLEK for a
    cloud provider) whose certificate comes with the evidence or from AMD's key
    distribution service.  The report type and the checks of signatures are those
    of the [sev] crate, a parameter, as are X.509 parsing and HTTP. *)
From S2P Require Import Prelude Types Text Verifier.

(** ** The report ([sev::firmware::guest::AttestationReport], the fields read) *)
Record TcbVersion := {
  fmc : option Z;
  bootloader : Z;
  tcb_tee : Z;
  tcb_snp : Z;
  microcode : Z;
}.

Record GuestPolicy := {
  abi_major : Z;
  abi_minor : Z;
  smt_allowed : bool;
  migrate_ma_allowed : bool;
  debug_allowed : bool;
  single_socket_required : bool;
}.

Record PlatformInfo := {
  tsme_enabled : bool;
  plat_smt_enabled : bool;
}.

Record AttestationReport := {
  ar_version : Z;
  cpuid_fam_id : option Z;
  cpuid_mod_id : option Z;
  vmpl : Z;
  ar_report_data : bytes;
  host_data : bytes;
  chip_id : bytes;
  ar_measurement : bytes;
  reported_tcb : TcbVersion;
  policy : GuestPolicy;
  plat_info : PlatformInfo;
}.

(** [CertType]: the types the source names, and all others. *)
Inductive CertType := ARK | ASK | VCEK | VLEK | OtherCert.

Record CertTableEntry := {
  cert_type : CertType;
  cert_data : bytes;
}.

Record SnpEvidence := {
  attestation_report : AttestationReport;
  cert_chain : option (list CertTableEntry);
}.

Inductive ProcessorGeneration := Milan | Genoa | Turin.

#[global] Instance ProcessorGeneration_eq_dec : EqDecision ProcessorGeneration.
Proof. solve_decision. Defined.

(** The derived [Display]. *)
Definition processor_generation_name (p : ProcessorGeneration) : string :=
  match p with
  | Milan => "Milan"
  | Genoa => "Genoa"
  | Turin => "Turin"
  end.

Inductive VendorEndorsementKey := Vcek | Vlek.

(** Object identifiers. *)
Definition HW_ID_OID : string := "1.3.6.1.4.1.3704.1.4".
Definition UCODE_SPL_OID : string := "1.3.6.1.4.1.3704.1.3.8".
Definition SNP_SPL_OID : string := "1.3.6.1.4.1.3704.1.3.3".
Definition TEE_SPL_OID : string := "1.3.6.1.4.1.3704.1.3.2".
Definition LOADER_SPL_OID : string := "1.3.6.1.4.1.3704.1.3.1".
Definition FMC_SPL_OID : string := "1.3.6.1.4.1.3704.1.3.9".

Definition KDS_CERT_SITE : string := "https://kdsintf.amd.com".
Definition KDS_VCEK : string := "/vcek/v1".
Definition REPORT_VERSION_MIN : Z := 3.
Definition REPORT_VERSION_MAX : Z := 5.

Class SnpCrates := {
  (** [sev::certs::snp]: certificates, their verification against each other,
      and the signature of a report *)
  Certificate : Type;
  cert_from_bytes : bytes -> option Certificate;
  cert_verify : Certificate -> Certificate -> bool;
  chain_verify : Certificate -> Certificate -> Certificate -> bool;
  report_verify : Certificate -> AttestationReport -> bool;
  (** the certificates in the PEM files of the processors: ASK, ARK, ASVK *)
  vendor_pem : ProcessorGeneration -> list Certificate;
  (** [x509_parser] on the DER form: the value of an extension *)
  tbs_extension : Certificate -> string -> outcome anyhow (option bytes);
  (** [asn1_rs]: [OctetString::from_der] and [Integer::from_der], [as_u8] *)
  octet_string_from_der : bytes -> option bytes;
  integer_from_der : bytes -> option (option Z);
  (** [openssl]: the common names of the subject, each if it is UTF-8 *)
  common_names : Certificate -> list (option string);
  (** [reqwest::get]: whether the status is OK, and the body *)
  kds_get : string -> outcome anyhow (bool * outcome anyhow bytes);
  (** [serde_json::from_value] *)
  snp_evidence_from_value : Value -> option SnpEvidence;
}.

Section SnpVerifier.
Context `{VC : VerifierCrates} `{SC : SnpCrates}.

Record VendorCertificates := {
  ask : Certificate;
  ark : Certificate;
  asvk : Certificate;
}.

(** [CERT_CHAINS]: a lazy static that panics on a malformed file. *)
Definition cert_chains (proc : ProcessorGeneration) : outcome anyhow VendorCertificates :=
  match vendor_pem proc with
  | [c0; c1; c2] => Ok {| ask := c0; ark := c1; asvk := c2 |}
  | _ => Panic
  end.

(** [get_oid_octets]. *)
Definition get_oid_octets (n : Z) (vcek : Certificate) (oid : string) : outcome anyhow bytes :=
  ext ← tbs_extension vcek oid;
  val ← ok_or "Oid not found" ext;
  if len val =? n then Ok val
  else
    val_octet ← ok_or "der" (octet_string_from_der val);
    if len val_octet =? n then Ok val_octet else Err "Unexpected data size".

(** [get_oid_int]. *)
Definition get_oid_int (cert : Certificate) (oid : string) : outcome anyhow Z :=
  ext ← tbs_extension cert oid;
  val ← ok_or "Oid not found" ext;
  val_int ← ok_or "der" (integer_from_der val);
  ok_or "Unexpected data size" val_int.

(** [get_common_name]: there must be exactly one. *)
Definition get_common_name (cert : Certificate) : outcome anyhow string :=
  match common_names cert with
  | [] => Err "No CN found"
  | [e] => ok_or "utf8" e
  | _ :: _ :: _ => Err "No CN found"
  end.

(** [verify_report_tcb]. *)
Definition verify_report_tcb (report : AttestationReport) (vek : Certificate) (proc_gen : ProcessorGeneration) :
    outcome anyhow unit :=
  common_name ← map_err (fun _ => "No common name found in certificate") (get_common_name vek);
  (if String.eqb common_name "VCEK" then
     hw_id ← get_oid_octets 64 vek HW_ID_OID;
     if negb (bool_decide (hw_id = chip_id report)) then Err "Chip ID mismatch" else Ok tt
   else Ok tt);;
  ucode ← get_oid_int vek UCODE_SPL_OID;
  if negb (ucode =? microcode (reported_tcb report)) then Err "Microcode version mismatch" else
  snp ← get_oid_int vek SNP_SPL_OID;
  if negb (snp =? tcb_snp (reported_tcb report)) then Err "SNP version mismatch" else
  tee ← get_oid_int vek TEE_SPL_OID;
  if negb (tee =? tcb_tee (reported_tcb report)) then Err "TEE version mismatch" else
  loader ← get_oid_int vek LOADER_SPL_OID;
  if negb (loader =? bootloader (reported_tcb report)) then Err "Boot loader version mismatch" else
  if bool_decide (proc_gen = Turin) then
    fmc_spl ← get_oid_int vek FMC_SPL_OID;
    f ← unwrap (fmc (reported_tcb report));
    if negb (fmc_spl =? f) then Err "FMC version mismatch" else Ok tt
  else Ok tt.

(** [parse_tee_evidence]. *)
Definition snp_parse_tee_evidence (report : AttestationReport) : Value :=
  VObject
    [("policy_abi_major", VNumber (PosInt (abi_major (policy report))));
     ("policy_abi_minor", VNumber (PosInt (abi_minor (policy report))));
     ("policy_smt_allowed", VBool (smt_allowed (policy report)));
     ("policy_migrate_ma", VBool (migrate_ma_allowed (policy report)));
     ("policy_debug_allowed", VBool (debug_allowed (policy report)));
     ("policy_single_socket", VBool (single_socket_required (policy report)));
     ("reported_tcb_bootloader", VNumber (PosInt (bootloader (reported_tcb report))));
     ("reported_tcb_tee", VNumber (PosInt (tcb_tee (reported_tcb report))));
     ("reported_tcb_snp", VNumber (PosInt (tcb_snp (reported_tcb report))));
     ("reported_tcb_microcode", VNumber (PosInt (microcode (reported_tcb report))));
     ("platform_tsme_enabled", VBool (tsme_enabled (plat_info report)));
     ("platform_smt_enabled", VBool (plat_smt_enabled (plat_info report)));
     ("measurement", VString (base64_standard_encode (ar_measurement report)));
     ("report_data", VString (base64_standard_encode (ar_report_data report)));
     ("init_data", VString (base64_standard_encode (host_data report)))].

(** [get_processor_generation]; the last range excludes its end. *)
Definition get_processor_generation (att_report : AttestationReport) : outcome anyhow ProcessorGeneration :=
  cpu_fam ← ok_or "Attestation report version 3+ is missing CPU family ID" (cpuid_fam_id att_report);
  cpu_mod ← ok_or "Attestation report version 3+ is missing CPU model ID" (cpuid_mod_id att_report);
  if cpu_fam =? 0x19 then
    if between 0x0 0xF cpu_mod then Ok Milan
    else if between 0x10 0x1F cpu_mod || between 0xA0 0xAE cpu_mod then Ok Genoa
    else Err "Processor model not supported"
  else if cpu_fam =? 0x1A then
    if between 0x0 0x11 cpu_mod then Ok Turin else Err "Processor model not supported"
  else Err "Processor family not supported".

(** [{:02}]. *)
Definition fmt02 (n : Z) : string := pad_zero 2 (fmt_dec n).

(** The URL of a VCEK. *)
Definition vcek_url (att_report : AttestationReport) (proc_gen : ProcessorGeneration) : outcome anyhow string :=
  hw_id ← (if negb (bool_decide (chip_id att_report = replicate 64 Init.Byte.x00)) then
             match proc_gen with
             | Turin => shorter_bytes ← slice (chip_id att_report) 0 8; Ok (hex_encode shorter_bytes)
             | _ => Ok (hex_encode (chip_id att_report))
             end
           else Err "Hardware ID is 0s on attestation report.");
  let tcb := reported_tcb att_report in
  let prefix := KDS_CERT_SITE +:+ KDS_VCEK +:+ "/" +:+ processor_generation_name proc_gen +:+ "/" +:+ hw_id +:+ "?" in
  let spls := "blSPL=" +:+ fmt02 (bootloader tcb) +:+ "&teeSPL=" +:+ fmt02 (tcb_tee tcb) +:+
              "&snpSPL=" +:+ fmt02 (tcb_snp tcb) +:+ "&ucodeSPL=" +:+ fmt02 (microcode tcb) in
  match proc_gen with
  | Turin =>
      f ← ok_or "A Turin processor must have a fmc value" (fmc tcb);
      Ok (prefix +:+ "fmcSPL=" +:+ fmt02 f +:+ "&" +:+ spls)
  | _ => Ok (prefix +:+ spls)
  end.

(** [fetch_vcek_from_kds]. *)
Definition fetch_vcek_from_kds (att_report : AttestationReport) (proc_gen : ProcessorGeneration) :
    outcome anyhow bytes :=
  url ← vcek_url att_report proc_gen;
  '(ok, body) ← map_err (fun _ => "Unable to send request for VCEK") (kds_get url);
  if ok : bool then map_err (fun _ => "Unable to parse VCEK") body else Err "Unable to fetch VCEK from URL".

(** The certificates collected from a chain. *)
Record Collected := {
  c_ask : option Certificate;
  c_ark : option Certificate;
  c_vek : option Certificate;
  c_vek_type : VendorEndorsementKey;
}.

(** One certificate of the chain. *)
Definition collect_step (vendor : VendorCertificates) (s : Collected) (cert : CertTableEntry) : outcome anyhow Collected :=
  match cert_type cert with
  | ARK =>
      a ← ok_or "from_bytes" (cert_from_bytes (cert_data cert));
      if cert_verify (ark vendor) a then
        Ok {| c_ask := c_ask s; c_ark := Some a; c_vek := c_vek s; c_vek_type := c_vek_type s |}
      else Err "Provided ARK has an invalid signature"
  | ASK =>
      a ← ok_or "from_bytes" (cert_from_bytes (cert_data cert));
      Ok {| c_ask := Some a; c_ark := c_ark s; c_vek := c_vek s; c_vek_type := c_vek_type s |}
  | VCEK =>
      match c_vek s with
      | None =>
          v ← ok_or "from_bytes" (cert_from_bytes (cert_data cert));
          Ok {| c_ask := c_ask s; c_ark := c_ark s; c_vek := Some v; c_vek_type := c_vek_type s |}
      | Some _ => Ok s
      end
  | VLEK =>
      match c_vek s with
      | None =>
          v ← ok_or "from_bytes" (cert_from_bytes (cert_data cert));
          Ok {| c_ask := c_ask s; c_ark := c_ark s; c_vek := Some v; c_vek_type := Vlek |}
      | Some _ => Ok s
      end
  | OtherCert => Ok s
  end.

(** The endorsement key, from the chain or from the service. *)
Definition get_vek (vendor : VendorCertificates) (report : AttestationReport) (proc_gen : ProcessorGeneration)
    (cert_chain : option (list CertTableEntry)) : outcome anyhow Certificate :=
  match cert_chain with
  | Some chain =>
      s ← mfold (collect_step vendor) {| c_ask := None; c_ark := None; c_vek := None; c_vek_type := Vcek |} chain;
      vek ← ok_or "If a cert chain is provided, it must include a VCEK/VLEK" (c_vek s);
      let ca_ark := default (ark vendor) (c_ark s) in
      let ca_ask := default (match c_vek_type s with Vlek => asvk vendor | Vcek => ask vendor end) (c_ask s) in
      if chain_verify ca_ark ca_ask vek then Ok vek
      else Err "Certificate chain provided by user failed to verify"
  | None =>
      vcek_buf ← map_err (fun _ => "Failed to fetch VCEK from KDS") (fetch_vcek_from_kds report proc_gen);
      vcek ← ok_or "Failed to convert KDS VCEK into certificate" (cert_from_bytes vcek_buf);
      if chain_verify (ark vendor) (ask vendor) vcek then Ok vcek
      else Err "Certificate chain from KDS failed verification"
  end.

Definition snp_evaluate (evidence : Value) (expected_report_data : ReportData)
    (expected_init_data_hash : InitDataHash) : outcome anyhow (list (Value * string)) :=
  ev ← ok_or "Deserialize SNP Evidence failed" (snp_evidence_from_value evidence);
  let report := attestation_report ev in
  if ar_version report <? REPORT_VERSION_MIN then
    Err "Attestation Report version is too old. Please update your firmware."
  else if REPORT_VERSION_MAX <? ar_version report then
    Err "Unexpected attestation report version. Check SNP Firmware ABI specification"
  else
    proc_gen ← get_processor_generation report;
    vendor_certs ← cert_chains proc_gen;
    vek ← get_vek vendor_certs report proc_gen (cert_chain ev);
    (if report_verify vek report then Ok tt
     else Err "Report signature verification against VEK signature failed");;
    map_err (fun _ => "Reported TCB values do not match") (verify_report_tcb report vek proc_gen);;
    (if negb (vmpl report =? 0) then Err "VMPL Check Failed" else Ok tt);;
    match expected_report_data with
    | RD_Value d =>
        if negb (bool_decide (regularize_data d 64 = ar_report_data report)) then Err "Report Data Mismatch" else Ok tt
    | RD_NotProvided => Ok tt
    end;;
    match expected_init_data_hash with
    | ID_Value d =>
        if negb (bool_decide (regularize_data d 32 = host_data report)) then Err "Host Data Mismatch" else Ok tt
    | ID_NotProvided => Ok tt
    end;;
    Ok [(snp_parse_tee_evidence report, "cpu")].

Definition snp_verifier : Verifier :=
  {| evaluate := snp_evaluate; generate_supplemental_challenge := default_supplemental_challenge |}.
End SnpVerifier.
