(* ===== verification/SnpProofs.v ===== *)
(** * Properties of the SEV-SNP verifier *)
From S2P Require Import Prelude Types Text Verifier Snp.

Section SnpProofs.
Context `{VC : VerifierCrates} `{SC : SnpCrates}.

(** ** Endorsement keys *)

(** A root the verifier trusts: the vendor's, or one the vendor's signed. *)
Definition trusted_root (vendor : VendorCertificates) (a : Certificate) : Prop :=
  a = ark vendor \/ cert_verify (ark vendor) a = true.

Lemma collect_step_ark vendor s c s' :
  (forall a, c_ark s = Some a -> cert_verify (ark vendor) a = true) ->
  collect_step vendor s c = Ok s' ->
  forall a, c_ark s' = Some a -> cert_verify (ark vendor) a = true.
Proof.
  intros Hs H. unfold collect_step in H.
  destruct (cert_type c); try (case_match; [now inv_ok; eauto|]); inv_ok; eauto.
  destruct (cert_verify _ a) eqn:E; [|done]. inv_ok. cbn. now intros ? [= <-].
Qed.

Lemma get_vek_Ok vendor report pg cc vek :
  get_vek vendor report pg cc = Ok vek ->
  exists a s, trusted_root vendor a /\ chain_verify a s vek = true.
Proof.
  unfold get_vek, trusted_root. destruct cc as [chain|]; intros H.
  - apply bind_Ok in H as (s & Hs & H). apply bind_Ok in H as (v & Hv%ok_or_Ok & H).
    assert (Hark : forall a, c_ark s = Some a -> cert_verify (ark vendor) a = true).
    { eapply (mfold_inv _ (fun s => forall a, c_ark s = Some a -> cert_verify (ark vendor) a = true));
        [| |exact Hs]; [|done].
      intros ? ? ? H1 H2. exact (collect_step_ark _ _ _ _ H1 H2). }
    cbv zeta in H. destruct (chain_verify _ _ v) eqn:E; [|done]. injection H as <-. eexists _, _. split; [|exact E].
    destruct (c_ark s) as [a|]; cbn; eauto.
  - apply bind_Ok in H as (b & _ & H). apply bind_Ok in H as (v & _ & H).
    destruct (chain_verify _ _ v) eqn:E; [|done]. injection H as <-. eauto.
Qed.

(** ** The TCB of the report is that of the key *)
Definition tcb_matches (report : AttestationReport) (vek : Certificate) : Prop :=
  (exists cn, get_common_name vek = Ok cn /\
     (cn = "VCEK" -> get_oid_octets 64 vek HW_ID_OID = Ok (chip_id report))) /\
  get_oid_int vek UCODE_SPL_OID = Ok (microcode (reported_tcb report)) /\
  get_oid_int vek SNP_SPL_OID = Ok (tcb_snp (reported_tcb report)) /\
  get_oid_int vek TEE_SPL_OID = Ok (tcb_tee (reported_tcb report)) /\
  get_oid_int vek LOADER_SPL_OID = Ok (bootloader (reported_tcb report)).

Definition fmc_matches (report : AttestationReport) (vek : Certificate) (pg : ProcessorGeneration) : Prop :=
  pg = Turin -> exists f, fmc (reported_tcb report) = Some f /\ get_oid_int vek FMC_SPL_OID = Ok f.

(** A version that must be the certified one. *)
Lemma spl_check_Ok {A} (m : outcome anyhow Z) v e (k : outcome anyhow A) r :
  (x ← m; if negb (x =? v) then Err e else k) = Ok r -> m = Ok v /\ k = Ok r.
Proof.
  intros (x & Hm & H)%bind_Ok. destruct (Z.eqb_spec x v) as [->|]; [done|discriminate].
Qed.

(** The chip identity, which only a VCEK certifies. *)
Lemma chip_check_Ok report vek cn :
  (if String.eqb cn "VCEK" then
     hw_id ← get_oid_octets 64 vek HW_ID_OID;
     if negb (bool_decide (hw_id = chip_id report)) then Err "Chip ID mismatch" else Ok tt
   else Ok tt) = (Ok tt : outcome anyhow unit) ->
  cn = "VCEK" -> get_oid_octets 64 vek HW_ID_OID = Ok (chip_id report).
Proof.
  intros H ->. cbn in H. apply bind_Ok in H as (hw & Hhw & Hid).
  destruct (bool_decide_reflect (hw = chip_id report)); [congruence|done].
Qed.

(** The part of the check before the FMC. *)
Lemma verify_report_tcb_prefix report vek pg :
  tcb_matches report vek ->
  verify_report_tcb report vek pg =
    if bool_decide (pg = Turin) then
      fmc_spl ← get_oid_int vek FMC_SPL_OID;
      f ← unwrap (fmc (reported_tcb report));
      if negb (fmc_spl =? f) then Err "FMC version mismatch" else Ok tt
    else Ok tt.
Proof.
  intros ((cn & Hcn & Hid) & H1 & H2 & H3 & H4). unfold verify_report_tcb. rewrite Hcn. cbn [map_err mbind outcome_bind].
  assert (E : (if String.eqb cn "VCEK" then
     hw_id ← get_oid_octets 64 vek HW_ID_OID;
     if negb (bool_decide (hw_id = chip_id report)) then Err "Chip ID mismatch" else Ok tt
   else Ok tt) = (Ok tt : outcome anyhow unit)).
  { destruct (String.eqb_spec cn "VCEK") as [->|]; [|done]. rewrite Hid by done. cbn [mbind outcome_bind].
    now rewrite bool_decide_eq_true_2. }
  rewrite E. cbn [mbind outcome_bind].
  rewrite H1. cbn [mbind outcome_bind]. rewrite Z.eqb_refl. cbn [negb].
  rewrite H2. cbn [mbind outcome_bind]. rewrite Z.eqb_refl. cbn [negb].
  rewrite H3. cbn [mbind outcome_bind]. rewrite Z.eqb_refl. cbn [negb].
  rewrite H4. cbn [mbind outcome_bind]. now rewrite Z.eqb_refl.
Qed.

Lemma verify_report_tcb_Ok report vek pg :
  verify_report_tcb report vek pg = Ok tt <-> tcb_matches report vek /\ fmc_matches report vek pg.
Proof.
  split.
  - unfold verify_report_tcb. intros H. apply bind_Ok in H as (cn & Hcn%map_err_Ok & H).
    apply bind_Ok in H as ([] & Hid & H). pose proof (chip_check_Ok _ _ _ Hid) as Hchip.
    apply spl_check_Ok in H as [H1 H]. apply spl_check_Ok in H as [H2 H].
    apply spl_check_Ok in H as [H3 H]. apply spl_check_Ok in H as [H4 H].
    split.
    + split; eauto 10.
    + intros ->. cbn in H. apply bind_Ok in H as (x5 & H5 & H). destruct (fmc (reported_tcb report)) as [f|]; [|done].
      cbn in H. destruct (Z.eqb_spec x5 f) as [->|]; [eauto|done].
  - intros [Hm Hf]. rewrite verify_report_tcb_prefix by done.
    destruct (bool_decide_reflect (pg = Turin)) as [E|]; [|done]. destruct (Hf E) as (f & -> & ->). cbn.
    now rewrite Z.eqb_refl.
Qed.

(** The TCB check.  The TCB versions of a report are accepted exactly when
    they are those certified for the endorsement key (for Turin the FMC version
    too), and for a VCEK the chip identity is the certified one.  A Turin report
    without an FMC version panics once everything else matches. *)
Theorem snp_tcb_spec report vek pg :
  (verify_report_tcb report vek pg = Ok tt <-> tcb_matches report vek /\ fmc_matches report vek pg) /\
  (tcb_matches report vek -> pg = Turin -> fmc (reported_tcb report) = None ->
   is_ok (get_oid_int vek FMC_SPL_OID) = true -> verify_report_tcb report vek pg = Panic).
Proof.
  split; [apply verify_report_tcb_Ok|]. intros Hm -> Hf Hx. rewrite verify_report_tcb_prefix by done. cbn.
  rewrite Hf. now destruct (get_oid_int vek FMC_SPL_OID).
Qed.

(** ** Accepted evidence *)
Record snp_accepted (report : AttestationReport) (d : ReportData) (h : InitDataHash) : Prop := {
  sa_version : 3 <= ar_version report <= 5;
  sa_vmpl : vmpl report = 0;
  (** the report is signed by a key that leads to a trusted root *)
  sa_chain : exists pg vendor vek a s, get_processor_generation report = Ok pg /\ cert_chains pg = Ok vendor /\
    trusted_root vendor a /\ chain_verify a s vek = true /\ report_verify vek report = true /\
    tcb_matches report vek /\ fmc_matches report vek pg;
  sa_report_data : forall r, d = RD_Value r -> ar_report_data report = regularize_data r 64;
  sa_host_data : forall i, h = ID_Value i -> host_data report = regularize_data i 32;
}.

Lemma snp_evaluate_Ok evidence d h claims :
  snp_evaluate evidence d h = Ok claims ->
  exists ev, snp_evidence_from_value evidence = Some ev /\ snp_accepted (attestation_report ev) d h /\
    claims = [(snp_parse_tee_evidence (attestation_report ev), "cpu")].
Proof.
  unfold snp_evaluate, REPORT_VERSION_MIN, REPORT_VERSION_MAX. intros H. apply bind_Ok in H as (ev & Hev%ok_or_Ok & H).
  destruct (Z.ltb_spec (ar_version (attestation_report ev)) 3); [done|].
  destruct (Z.ltb_spec 5 (ar_version (attestation_report ev))); [done|].
  apply bind_Ok in H as (pg & Hpg & H). apply bind_Ok in H as (vendor & Hvendor & H).
  apply bind_Ok in H as (vek & (a & s & Ha & Hc)%get_vek_Ok & H). apply bind_Ok in H as (u & Hs & H).
  destruct (report_verify vek _) eqn:Er; [|done].
  apply bind_Ok in H as ([] & [Ht Hf]%map_err_Ok%verify_report_tcb_Ok & H).
  apply bind_Ok in H as (u2 & Hv & H). destruct (Z.eqb_spec (vmpl (attestation_report ev)) 0); [|done].
  apply bind_Ok in H as (u3 & H3 & H). apply bind_Ok in H as (u4 & H4 & [= <-]).
  exists ev. split; [done|]. split; [|done]. constructor; [lia|done|..].
  - exists pg, vendor, vek, a, s. auto 10.
  - intros r ->. destruct (bool_decide_reflect (regularize_data r 64 = ar_report_data (attestation_report ev))); [done|discriminate H3].
  - intros i ->. destruct (bool_decide_reflect (regularize_data i 32 = host_data (attestation_report ev))); [done|discriminate H4].
Qed.

(** C21: accepted SEV-SNP evidence is what it says.  When the verifier accepts
    evidence, its report has a supported version and was made at VMPL 0, is
    signed by an endorsement key whose chain ends in a root that is AMD's for
    this processor or signed by it, has the TCB the key was certified for, and
    carries the expected report data (64 bytes) and host data (32 bytes); the
    claims are those of this report. *)
Theorem snp_evaluate_sound evidence d h claims :
  snp_evaluate evidence d h = Ok claims ->
  exists ev, snp_evidence_from_value evidence = Some ev /\ snp_accepted (attestation_report ev) d h /\
    claims = [(snp_parse_tee_evidence (attestation_report ev), "cpu")].
Proof. apply snp_evaluate_Ok. Qed.

Definition snp_reported (evidence : Value) : option bytes :=
  ev ← snp_evidence_from_value evidence; Some (ar_report_data (attestation_report ev)).

#[export] Instance snp_binds : VerifierBinds snp_verifier (fun d => regularize_data d 64) snp_reported.
Proof.
  intros evidence d h claims (ev & He & Ha & _)%snp_evaluate_Ok. unfold snp_reported. rewrite He. cbn.
  now rewrite (sa_report_data _ _ _ Ha d eq_refl).
Qed.
End SnpProofs.

(** ** A concrete instance *)
Module SnpDemo.
Import Init.Byte.

Definition demo_snp_report : AttestationReport :=
  {| ar_version := 3; cpuid_fam_id := Some 0x1A; cpuid_mod_id := Some 2; vmpl := 0;
     ar_report_data := replicate 64 x0c; host_data := replicate 32 x05; chip_id := replicate 64 x01;
     ar_measurement := replicate 48 x02;
     reported_tcb := {| fmc := Some 1; bootloader := 1; tcb_tee := 1; tcb_snp := 1; microcode := 1 |};
     policy := {| abi_major := 1; abi_minor := 0; smt_allowed := true; migrate_ma_allowed := false;
                  debug_allowed := false; single_socket_required := false |};
     plat_info := {| tsme_enabled := false; plat_smt_enabled := true |} |}.

#[export] Instance demo_verifier_crates : VerifierCrates := {|
  sample_from_value _ := None;
  base64_standard_decode _ := None;
  base64_standard_encode _ := "";
|}.

#[export] Instance demo_snp_crates : SnpCrates := {|
  Certificate := nat;
  cert_from_bytes b := Some (length b);
  cert_verify _ _ := true;
  chain_verify _ _ _ := true;
  report_verify _ _ := true;
  vendor_pem _ := [0; 1; 2]%nat;
  tbs_extension _ oid := Ok (Some (if String.eqb oid HW_ID_OID then replicate 64 x01 else [x01]));
  octet_string_from_der _ := None;
  integer_from_der _ := Some (Some 1);
  common_names _ := [Some "VCEK"];
  kds_get _ := Err "";
  snp_evidence_from_value _ :=
    Some {| attestation_report := demo_snp_report;
            cert_chain := Some [{| cert_type := ARK; cert_data := [] |}; {| cert_type := VLEK; cert_data := [x01] |}] |};
|}.

Lemma snp_evaluate_sound_witness :
  exists ev, snp_evidence_from_value VNull = Some ev /\
    snp_accepted (attestation_report ev) (RD_Value (replicate 64 x0c)) (ID_Value (replicate 32 x05)) /\
    [(snp_parse_tee_evidence demo_snp_report, "cpu")] = [(snp_parse_tee_evidence (attestation_report ev), "cpu")].
Proof.
  apply (snp_evaluate_sound VNull (RD_Value (replicate 64 x0c)) (ID_Value (replicate 32 x05))).
  vm_compute. reflexivity.
Defined.

Definition turin_without_fmc : AttestationReport :=
  {| ar_version := 3; cpuid_fam_id := Some 0x1A; cpuid_mod_id := Some 2; vmpl := 0;
     ar_report_data := replicate 64 x0c; host_data := replicate 32 x05; chip_id := replicate 64 x01;
     ar_measurement := replicate 48 x02;
     reported_tcb := {| fmc := None; bootloader := 1; tcb_tee := 1; tcb_snp := 1; microcode := 1 |};
     policy := policy demo_snp_report; plat_info := plat_info demo_snp_report |}.

Definition demo_cert : @Certificate demo_snp_crates := 0%nat.

Lemma snp_tcb_spec_witness : verify_report_tcb turin_without_fmc demo_cert Turin = Panic.
Proof.
  apply (snp_tcb_spec turin_without_fmc demo_cert Turin); [|reflexivity..].
  split; [|repeat split; reflexivity]. exists "VCEK". split; reflexivity.
Defined.
End SnpDemo.
