(* ===== verification/ShippedPolicies.v ===== *)
(** * The policies shipped with the services

    The Rego policies that the EAR broker installs when it starts
    ([attestation-service/src/token/ear_default_policy_*.rego]), the resource
    policy the KBS installs ([kbs/src/policy_engine/opa/default_policy.rego]) and
    the sample policy that asks for affirming appraisals
    ([kbs/sample_policies/affirming.rego]), as functions of the input document
    and the reference data.

    The fragment of Rego they use: an expression that reads a missing field is
    undefined, and a body with an undefined or false expression fails; a complete
    rule has several definitions, each with alternatives after [else]; it is an
    error when two definitions give different values; the default stands in when
    none gives one.  The order of values is the interpreter's. *)
From S2P Require Import Prelude Types.

Declare Scope rego_scope.
Delimit Scope rego_scope with rego.

(** [regorus::Value: Ord]. *)
Class RegoOrder := rego_compare : Value -> Value -> comparison.

(** ** Expressions: an undefined one is [None] *)
Section Expressions.
Context `{RO : RegoOrder}.

Definition field (v : option Value) (k : string) : option Value :=
  match v with
  | Some (VObject m) => obj_get k m
  | _ => None
  end.

(** A reference such as [input.snp.measurement]. *)
Definition path (v : Value) (ks : list string) : option Value := foldl field (Some v) ks.

Definition same_value (a b : Value) : bool :=
  match rego_compare a b with
  | Datatypes.Eq => true
  | _ => false
  end.

(** [a == b], [a != b] and [a >= b]. *)
Definition rego_eq (a b : option Value) : bool :=
  match a, b with
  | Some a, Some b => same_value a b
  | _, _ => false
  end.

Definition rego_ne (a b : option Value) : bool :=
  match a, b with
  | Some a, Some b => negb (same_value a b)
  | _, _ => false
  end.

Definition rego_ge (a b : option Value) : bool :=
  match a, b with
  | Some a, Some b => match rego_compare a b with Lt => false | _ => true end
  | _, _ => false
  end.

(** What [xs[_]] and [some x in xs] range over. *)
Definition members (xs : option Value) : list Value :=
  match xs with
  | Some (VArray l) => l
  | Some (VObject m) => map snd m
  | _ => []
  end.

(** [x in xs]. *)
Definition is_in (x xs : option Value) : bool :=
  match x with
  | Some x => existsb (same_value x) (members xs)
  | None => false
  end.

(** An expression as a statement, and its negation. *)
Definition holds (e : option Value) : bool :=
  match e with
  | None | Some (VBool false) => false
  | Some _ => true
  end.
End Expressions.

Notation "a == b" := (rego_eq a b) (at level 70, no associativity) : rego_scope.

(** Constants. *)
Definition str (s : string) : option Value := Some (VString s).
Definition no : option Value := Some (VBool false).

(** ** Complete rules *)

(** One definition: values with their bodies, joined by [else]. *)
Definition definition : Type := list (Z * bool).

Fixpoint defined (d : definition) : option Z :=
  match d with
  | [] => None
  | (v, body) :: d => if body then Some v else defined d
  end.

(** A rule with a default: [None] when its definitions contradict one another. *)
Definition complete_rule (dflt : Z) (ds : list definition) : option Z :=
  match omap (M := list) defined ds with
  | [] => Some dflt
  | v :: vs => if forallb (Z.eqb v) vs then Some v else None
  end.

#[local] Open Scope rego_scope.

Section Policies.
Context `{RO : RegoOrder}.

(** ** [ear_default_policy_cpu.rego] *)
Section Cpu.
Context (data input : Value).
Abbreviation inp := (path input).
Abbreviation known x := (path data ["reference"; x]).

Definition tdx_uefi_event_tdvfkernel_ok : bool :=
  existsb (fun event =>
    (path event ["type_name"] == str "EV_EFI_BOOT_SERVICES_APPLICATION") &&
    is_in (str "File(kernel)") (path event ["details"; "device_paths"]) &&
    existsb (fun digest => rego_eq (path digest ["digest"]) (known "tdvfkernel")) (members (path event ["digests"])))
    (members (inp ["tdx"; "uefi_event_logs"])).

Definition tdx_uefi_event_tdvfkernelparams_ok : bool :=
  existsb (fun event =>
    (path event ["type_name"] == str "EV_EVENT_TAG") &&
    (path event ["details"; "string"] == str "LOADED_IMAGE::LoadOptions") &&
    existsb (fun digest => rego_eq (path digest ["digest"]) (known "tdvfkernelparams")) (members (path event ["digests"])))
    (members (inp ["tdx"; "uefi_event_logs"])).

Definition tdx_rtmrs_known : bool :=
  is_in (inp ["tdx"; "quote"; "body"; "rtmr_1"]) (known "rtmr_1") &&
  is_in (inp ["tdx"; "quote"; "body"; "rtmr_2"]) (known "rtmr_2").

Definition cpu_executables : option Z := complete_rule 33
  [ (* Sample *)
    [(3, is_in (inp ["sample"; "launch_digest"]) (known "launch_digest"))];
    (* SNP *)
    [(3, is_in (inp ["snp"; "measurement"]) (known "snp_launch_measurement"))];
    (* TDX *)
    [(3, tdx_rtmrs_known && tdx_uefi_event_tdvfkernel_ok && tdx_uefi_event_tdvfkernelparams_ok);
     (4, tdx_rtmrs_known)];
    (* Azure vTPM SNP *)
    [(3, is_in (inp ["az_snp_vtpm"; "measurement"]) (known "measurement") &&
         is_in (inp ["az_snp_vtpm"; "tpm"; "pcr11"]) (known "snp_pcr11"))];
    (* Azure vTPM TDX *)
    [(3, is_in (inp ["az_tdx_vtpm"; "tpm"; "pcr11"]) (known "tdx_pcr11"))];
    (* TPM *)
    [(3, is_in (inp ["tpm"; "pcr11"]) (known "tpm_pcr11"))] ].

Definition cpu_hardware : option Z := complete_rule 97
  [ (* Sample *)
    [(2, is_in (inp ["sample"; "svn"]) (known "svn") &&
         rego_eq (inp ["sample"; "platform_version"; "major"]) (known "major_version") &&
         rego_ge (inp ["sample"; "platform_version"; "minor"]) (known "minimum_minor_version"))];
    (* SNP *)
    [(2, is_in (inp ["snp"; "reported_tcb_bootloader"]) (known "snp_bootloader") &&
         is_in (inp ["snp"; "reported_tcb_microcode"]) (known "snp_microcode") &&
         is_in (inp ["snp"; "reported_tcb_snp"]) (known "snp_snp_svn") &&
         is_in (inp ["snp"; "reported_tcb_tee"]) (known "snp_tee_svn"))];
    (* TDX *)
    [(2, (inp ["tdx"; "quote"; "header"; "tee_type"] == str "81000000") &&
         (inp ["tdx"; "quote"; "header"; "vendor_id"] == str "939a7233f79c4ca9940a0db3957f0607") &&
         is_in (inp ["tdx"; "quote"; "body"; "mr_seam"]) (known "mr_seam") &&
         is_in (inp ["tdx"; "quote"; "body"; "tcb_svn"]) (known "tcb_svn") &&
         is_in (inp ["tdx"; "quote"; "body"; "mr_td"]) (known "mr_td") &&
         (inp ["tdx"; "tcb_status"] == str "UpToDate") &&
         (inp ["tdx"; "collateral_expiration_status"] == str "0"))];
    (* Azure vTPM SNP *)
    [(2, is_in (inp ["az_snp_vtpm"; "reported_tcb_bootloader"]) (known "tcb_bootloader") &&
         is_in (inp ["az_snp_vtpm"; "reported_tcb_microcode"]) (known "tcb_microcode") &&
         is_in (inp ["az_snp_vtpm"; "reported_tcb_snp"]) (known "tcb_snp") &&
         is_in (inp ["az_snp_vtpm"; "reported_tcb_tee"]) (known "tcb_tee"))];
    (* Azure vTPM TDX *)
    [(2, (inp ["az_tdx_vtpm"; "quote"; "header"; "tee_type"] == str "81000000") &&
         (inp ["az_tdx_vtpm"; "quote"; "header"; "vendor_id"] == str "939a7233f79c4ca9940a0db3957f0607") &&
         is_in (inp ["az_tdx_vtpm"; "quote"; "body"; "mr_seam"]) (known "mr_seam") &&
         is_in (inp ["az_tdx_vtpm"; "quote"; "body"; "tcb_svn"]) (known "tcb_svn") &&
         is_in (inp ["az_tdx_vtpm"; "quote"; "body"; "mr_td"]) (known "mr_td"))];
    (* TPM *)
    [(2, holds (inp ["tpm"]))] ].

(** The part of the SNP rule that its [else] repeats. *)
Definition snp_locked_down : bool :=
  (inp ["snp"; "policy_debug_allowed"] == no) && (inp ["snp"; "policy_migrate_ma"] == no).

Definition cpu_configuration : option Z := complete_rule 36
  [ (* Sample *)
    [(2, inp ["sample"; "debug"] == no)];
    (* SNP *)
    [(2, snp_locked_down &&
         rego_eq (inp ["snp"; "platform_smt_enabled"]) (known "snp_smt_enabled") &&
         rego_eq (inp ["snp"; "platform_tsme_enabled"]) (known "snp_tsme_enabled") &&
         rego_eq (inp ["snp"; "policy_abi_major"]) (known "snp_guest_abi_major") &&
         rego_eq (inp ["snp"; "policy_abi_minor"]) (known "snp_guest_abi_minor") &&
         rego_eq (inp ["snp"; "policy_single_socket"]) (known "snp_single_socket") &&
         rego_eq (inp ["snp"; "policy_smt_allowed"]) (known "snp_smt_allowed"));
     (3, snp_locked_down)];
    (* TDX *)
    [(2, (inp ["tdx"; "td_attributes"; "debug"] == no) &&
         is_in (inp ["tdx"; "quote"; "body"; "xfam"]) (known "xfam"))];
    (* Azure vTPM SNP *)
    [(2, is_in (inp ["az_snp_vtpm"; "platform_smt_enabled"]) (known "smt_enabled") &&
         is_in (inp ["az_snp_vtpm"; "platform_tsme_enabled"]) (known "tsme_enabled") &&
         is_in (inp ["az_snp_vtpm"; "policy_abi_major"]) (known "abi_major") &&
         is_in (inp ["az_snp_vtpm"; "policy_abi_minor"]) (known "abi_minor") &&
         is_in (inp ["az_snp_vtpm"; "policy_single_socket"]) (known "single_socket") &&
         is_in (inp ["az_snp_vtpm"; "policy_smt_allowed"]) (known "smt_allowed"))];
    (* Azure vTPM TDX *)
    [(2, is_in (inp ["az_tdx_vtpm"; "quote"; "body"; "xfam"]) (known "xfam"))];
    (* TPM *)
    [(0, holds (inp ["tpm"]))] ].

Definition cpu_policy (rule : string) : option Z :=
  if String.eqb rule "executables" then cpu_executables
  else if String.eqb rule "hardware" then cpu_hardware
  else if String.eqb rule "configuration" then cpu_configuration
  else None.
End Cpu.

(** ** [ear_default_policy_gpu.rego] *)
Section Gpu.
Context (data input : Value).
Abbreviation inp := (path input).
Abbreviation known x := (path data ["reference"; x]).

Definition gpu_hardware : option Z := complete_rule 97
  [ [(2, is_in (inp ["sampledevice"; "svn"]) (known "device_svn"))];
    (* GPUs verified by NRAS *)
    [(2, (inp ["nvidia"; "x_nvidia_gpu_attestation_report_cert_chain"; "x_nvidia_cert_ocsp_status"] == str "good") &&
         (inp ["nvidia"; "x_nvidia_gpu_attestation_report_cert_chain"; "x_nvidia_cert_status"] == str "valid") &&
         holds (inp ["nvidia"; "x_nvidia_gpu_attestation_report_cert_chain_fwid_match"]) &&
         holds (inp ["nvidia"; "x_nvidia_gpu_attestation_report_parsed"]) &&
         holds (inp ["nvidia"; "x_nvidia_gpu_attestation_report_signature_verified"]) &&
         holds (inp ["nvidia"; "x_nvidia_gpu_arch_check"]))] ].

(** The part of the rule that its [else] repeats. *)
Definition gpu_secure : bool :=
  holds (inp ["nvidia"; "secboot"]) && (inp ["nvidia"; "dbgstat"] == str "disabled").

Definition gpu_configuration : option Z := complete_rule 36
  [ [(2, gpu_secure &&
         is_in (inp ["nvidia"; "x_nvidia_gpu_vbios_version"]) (known "allowed_vbios_versions") &&
         is_in (inp ["nvidia"; "x_nvidia_gpu_driver_version"]) (known "allowed_driver_versions"));
     (3, gpu_secure)] ].

Definition gpu_executables : option Z := complete_rule 33
  [ [(3, (inp ["nvidia"; "x_nvidia_gpu_vbios_rim_cert_chain"; "x_nvidia_cert_ocsp_status"] == str "good") &&
         (inp ["nvidia"; "x_nvidia_gpu_vbios_rim_cert_chain"; "x_nvidia_cert_status"] == str "valid") &&
         forallb (fun claim => holds (inp ["nvidia"; claim]))
           ["x_nvidia_gpu_driver_rim_fetched"; "x_nvidia_gpu_driver_rim_measurements_available";
            "x_nvidia_gpu_driver_rim_schema_validated"; "x_nvidia_gpu_driver_rim_signature_verified";
            "x_nvidia_gpu_driver_rim_version_match"; "x_nvidia_gpu_vbios_rim_fetched";
            "x_nvidia_gpu_vbios_rim_measurements_available"; "x_nvidia_gpu_vbios_rim_schema_validated";
            "x_nvidia_gpu_vbios_rim_signature_verified"; "x_nvidia_gpu_vbios_rim_version_match";
            "measres"])] ].

Definition gpu_policy (rule : string) : option Z :=
  if String.eqb rule "executables" then gpu_executables
  else if String.eqb rule "hardware" then gpu_hardware
  else if String.eqb rule "configuration" then gpu_configuration
  else None.
End Gpu.

(** ** The resource policies of the KBS *)

(** [default_policy.rego]: whatever is not attested by the sample verifier. *)
Definition default_resource_policy (input : Value) : bool :=
  negb (holds (path input ["submods"; "cpu0"; "ear.veraison.annotated-evidence"; "sample"])).

(** [affirming.rego]. *)
Definition any_not_affirming (input : Value) : bool :=
  existsb (fun submod => rego_ne (path submod ["ear.status"]) (str "affirming")) (members (path input ["submods"])).

(** [count(x) > 0]. *)
Definition not_empty (x : option Value) : bool :=
  match x with
  | Some (VArray l) => negb (length l =? 0)%nat
  | Some (VObject m) => negb (length m =? 0)%nat
  | Some (VString s) => negb (String.eqb s "")
  | _ => false
  end.

Definition affirming_resource_policy (input : Value) : bool :=
  negb (any_not_affirming input) && not_empty (path input ["submods"]).
End Policies.
