(* ===== verification/ShippedProofs.v ===== *)
(** * What the shipped policies guarantee

    With the policies the services install, an affirming appraisal of an SNP or
    TDX guest says that its measurements, taken from verified evidence, are among
    the reference values of the RVPS, and the sample resource policy releases
    resources for affirming appraisals only.  The Rego interpreter and the [ear]
    crate enter with their documented behaviour ([ShippedSpec]). *)
From S2P Require Import Prelude Types Nvidia Text Session Fs Json TcgEvents EventParsers Policy AsPolicy Verifier Snp SnpProofs Brokers BrokersProofs.
From S2P Require Import IntelDcap TdxQuote TdxQuoteProofs Tdx TdxProofs ShippedPolicies.

(** ** JSON values that texts carry exactly *)
Definition exact_number (n : Number) : Prop :=
  match n with
  | PosInt n => 0 <= n < 2 ^ 63
  | NegInt n => - 2 ^ 63 <= n < 0
  | Float _ => False
  end.

Fixpoint exact (v : Value) : Prop :=
  match v with
  | VNumber n => exact_number n
  | VArray l => fold_right (fun v P => exact v /\ P) True l
  | VObject m => NoDup (map fst m) /\ fold_right (fun kv P => exact kv.2 /\ P) True m
  | _ => True
  end.

Definition scalar (v : Value) : Prop :=
  match v with
  | VArray _ | VObject _ => False
  | _ => True
  end.

Lemma exact_obj m k v : exact (VObject m) -> obj_get k m = Some v -> exact v.
Proof.
  intros [_ H]. induction m as [|[k' v'] m IH]; cbn in *; [done|].
  case_decide; [intros [= <-]|]; tauto.
Qed.

Lemma exact_members v w : exact v -> w ∈ members (Some v) -> exact w.
Proof.
  destruct v as [| | | |l|m]; cbn; try (intros _ H; now apply elem_of_nil in H).
  - induction l as [|x l IH]; [intros _ H; now apply elem_of_nil in H|]. intros [Hx Hl] H.
    apply elem_of_cons in H as [->|H]; auto.
  - intros [_ H] Hw. induction m as [|[k x] m IH]; [now apply elem_of_nil in Hw|]. destruct H as [Hx Hm].
    apply elem_of_cons in Hw as [->|Hw]; auto.
Qed.

(** ** What the crates promise *)

(** The bands of a trust claim in the AR4SI draft. *)
Definition at_most_affirming (v : Z) : Prop := -32 <= v < 32.
Definition no_claim (v : Z) : Prop := -1 <= v <= 1.

Class ShippedSpec `{A : AsPolicyCrates} `{BC : BrokerCrates} `{EC : EarCrate} (RO : RegoOrder)
    (cpu_text : string) (raw_value : RawValue -> Value) (tv_claims : TrustVector -> gmap string Z)
    (affirming : TrustTier) : Prop := {
  (** the interpreter runs the policy as it is written *)
  cpu_text_means : forall m data input rule, rego_parse cpu_text = Some m ->
    rego_as_i8 <$> rego_eval_rule m data input ("data.policy." +:+ rule) = Some <$> cpu_policy data input rule;
  compare_exact : forall a b, exact a -> exact b -> scalar a \/ scalar b ->
    rego_compare a b = Datatypes.Eq <-> a = b;
  (** JSON texts and raw values are read back *)
  raw_of_json : forall v s r, exact v -> json_to_string v = Some s -> raw_from_str s = Some r -> raw_value r = v;
  claims_text : forall m s i, raw_claims_to_string m = Some s -> rego_from_json s = Some i ->
    exists kvs, i = VObject kvs /\ forall k, obj_get k kvs = raw_value <$> m !! k;
  data_text : forall v s d, exact v -> json_to_string v = Some s -> rego_from_json s = Some d -> d = v;
  (** the trust vector, its claims and its status *)
  tv_new_claims : tv_claims tv_new = ∅;
  tv_set_claims : forall k v tv tv', tv_set_by_name k v tv = Some tv' -> tv_claims tv' = <[k := v]> (tv_claims tv);
  tv_rules : ["executables"; "hardware"; "configuration"] ⊆ tv_tags;
  tv_affirming : forall tv, tv_status tv = affirming <->
    map_Forall (fun _ v => at_most_affirming v) (tv_claims tv) /\
    exists k v, tv_claims tv !! k = Some v /\ ~ no_claim v;
  (** the names of the two TEEs *)
  snp_name : tee_variant_name Snp = Some "snp";
  tdx_name : tee_variant_name Tdx = Some "tdx";
}.

(** ** The claims of a device in the input document *)

(** Two objects agree on every key but the two that [transform_claims] lifts. *)
Definition agree (m m' : list (string * Value)) : Prop :=
  forall k, k <> "init_data" -> k <> "report_data" -> obj_get k m' = obj_get k m.

Lemma swap_remove_perm {A} k (m m' : list (string * A)) v :
  obj_swap_remove k m = Some (v, m') -> m ≡ₚ (k, v) :: m'.
Proof.
  unfold obj_swap_remove. intros H. apply bind_Some in H as ([i kv] & Hf & H).
  apply bind_Some in H as (lst & Hl & H). injection H as <- <-.
  apply list_find_Some in Hf as (Hi & Hk & _). destruct kv as [k' v]. cbn in Hk. subst k'. cbn.
  apply list.last_Some in Hl as [l ->]. destruct (decide (i < length l)%nat) as [Hlt|Hge].
  - rewrite list.insert_app_l, removelast_last by done. rewrite lookup_app_l in Hi by done.
    rewrite <- (take_drop_middle _ _ _ Hi) at 1. rewrite (list.insert_take_drop _ _ _ Hlt).
    rewrite <- !app_assoc. cbn. rewrite <- Permutation_middle. constructor.
    rewrite (Permutation_app_comm _ [lst]). apply Permutation_app_head. reflexivity.
  - pose proof (lookup_lt_Some _ _ _ Hi) as Hlen. rewrite length_app in Hlen. cbn in Hlen.
    assert (i = length l) as -> by lia. rewrite list_lookup_middle in Hi by done. injection Hi as ->.
    rewrite insert_app_r_alt by lia. rewrite Nat.sub_diag. cbn. rewrite removelast_last.
    symmetry. apply Permutation_cons_append.
Qed.

Lemma obj_get_perm {A} (m m' : list (string * A)) k :
  m ≡ₚ m' -> NoDup (map fst m) -> obj_get k m' = obj_get k m.
Proof.
  intros Hp Hn. assert (Hn' : NoDup (map fst m')) by now rewrite <- Hp.
  apply option_eq. intros v. rewrite !obj_get_elem by done. now rewrite Hp.
Qed.

Lemma exact_entries (m : list (string * Value)) :
  fold_right (fun kv P => exact kv.2 /\ P) True m <-> Forall (fun kv => exact kv.2) m.
Proof.
  induction m as [|[k v] m IH]; cbn; [split; [constructor|done]|]. rewrite IH.
  split; [intros [? ?]; now constructor|]. intros H. now apply Forall_cons_iff in H.
Qed.

Lemma exact_object m : exact (VObject m) <-> NoDup (map fst m) /\ Forall (fun kv => exact kv.2) m.
Proof. cbn. now rewrite exact_entries. Qed.

Lemma exact_swap_remove k m m' v :
  obj_swap_remove k m = Some (v, m') -> exact (VObject m) ->
  exact (VObject m') /\ forall k', k' <> k -> obj_get k' m' = obj_get k' m.
Proof.
  intros H%swap_remove_perm He. apply exact_object in He as [Hn Hv].
  rewrite H in Hv. apply Forall_cons_iff in Hv as [_ Hv].
  pose proof Hn as Hn'. rewrite H in Hn'. cbn in Hn'. apply list.NoDup_cons in Hn' as [_ Hn'].
  split; [now apply exact_object|]. intros k' Hne.
  rewrite <- (obj_get_perm _ _ k' H Hn). cbn. now rewrite decide_False.
Qed.

Section Shipped.
Context `{P : Profile} `{Dk : Disk} `{A : AsPolicyCrates} `{BC : BrokerCrates} `{T : TimeCrate} `{EC : EarCrate}.
Context {RO : RegoOrder} {cpu_text : string} {raw_value : RawValue -> Value}
  {tv_claims : TrustVector -> gmap string Z} {affirming : TrustTier}.
Context (Spec : ShippedSpec RO cpu_text raw_value tv_claims affirming).

Lemma lift_claim_Ok name cname d m out m' out' :
  lift_claim name cname d (m, out) = Ok (m', out') -> exact (VObject m) ->
  exact (VObject m') /\ (forall k, k <> name -> obj_get k m' = obj_get k m) /\
  forall k, k <> name -> k <> cname -> out' !! k = out !! k.
Proof.
  unfold lift_claim. intros H He. destruct (obj_swap_remove name m) as [[v m1]|] eqn:Es.
  - inv_ok. simplify_eq. destruct (exact_swap_remove _ _ _ _ Es He) as [He' Hk].
    split; [done|]. split; [done|]. intros k H1 H2. now rewrite !lookup_insert_ne by congruence.
  - injection H as <- <-. auto.
Qed.

(** The names under which [transform_claims] puts what is not a device's. *)
Definition lifted : list string := ["init_data"; "init_data_claims"; "report_data"; "runtime_data_claims"].

Lemma transform_claims_input m i r tee name out text input :
  exact (VObject m) -> tee_variant_name tee = Some name ->
  transform_claims (VObject m) i r tee = Ok out ->
  raw_claims_to_string out = Some text -> rego_from_json text = Some input ->
  exists kvs m', input = VObject kvs /\ agree m m' /\ obj_get name kvs = Some (VObject m') /\
    exact (VObject m') /\ forall k, k <> name -> k ∉ lifted -> obj_get k kvs = None.
Proof using Spec.
  intros He Ht Htr Htext Hin. unfold transform_claims in Htr. apply bind_Ok in Htr as ([c out1] & H1 & Htr).
  apply bind_Ok in H1 as ([m1 o1] & L1 & H1). apply bind_Ok in H1 as ([m2 o2] & L2 & H1). injection H1 as <- <-.
  apply bind_Ok in Htr as (raw & Hraw & Htr). rewrite Ht in Htr. cbn in Htr. injection Htr as <-.
  unfold to_raw in Hraw. inv_ok.
  destruct (lift_claim_Ok _ _ _ _ _ _ _ L1 He) as (He1 & K1 & O1).
  destruct (lift_claim_Ok _ _ _ _ _ _ _ L2 He1) as (He2 & K2 & O2).
  destruct (claims_text _ _ _ Htext Hin) as (kvs & -> & Hg). exists kvs, m2.
  split; [done|]. split; [intros k N1 N2; now rewrite K2, K1|]. split; [|split; [done|]].
  - rewrite Hg, lookup_insert_eq. cbn. f_equal. eapply raw_of_json; eassumption.
  - intros k Hne Hl. unfold lifted in Hl. rewrite Hg, lookup_insert_ne by congruence.
    rewrite O2, O1 by set_solver. now rewrite lookup_empty.
Qed.

(** ** Reading the document *)
Lemma path_field v k ks : path v (k :: ks) = foldl field (field (Some v) k) ks.
Proof. reflexivity. Qed.

Lemma path_none (ks : list string) : foldl field None ks = None.
Proof. induction ks; [done|exact IHks]. Qed.

Lemma path_missing kvs k ks : obj_get k kvs = None -> path (VObject kvs) (k :: ks) = None.
Proof. intros H. rewrite path_field. cbn. rewrite H. apply path_none. Qed.

Lemma path_found kvs k ks v : obj_get k kvs = Some v -> path (VObject kvs) (k :: ks) = path v ks.
Proof. intros H. rewrite path_field. cbn. now rewrite H. Qed.

Lemma path_agree m m' k ks :
  agree m m' -> k <> "init_data" -> k <> "report_data" -> path (VObject m') (k :: ks) = path (VObject m) (k :: ks).
Proof. intros H H1 H2. rewrite !path_field. cbn. now rewrite H. Qed.

(** A value listed as a reference value under a name. *)
Definition listed (refs : gmap string Value) (name : string) (v : option Value) : Prop :=
  exists w, v = Some w /\ w ∈ members (refs !! name).

Lemma known_refs refs x : path (reference_data refs) ["reference"; x] = refs !! x.
Proof.
  unfold reference_data. cbn. rewrite decide_True by done. cbn. apply option_eq. intros v. rewrite obj_get_elem, elem_of_map_to_list; [done|].
  apply NoDup_fst_map_to_list.
Qed.

Definition exact_refs (refs : gmap string Value) : Prop := map_Forall (fun _ v => exact v) refs.

Lemma is_in_listed refs x v :
  exact_refs refs -> (forall w, v = Some w -> exact w /\ scalar w) ->
  is_in v (refs !! x) = true <-> listed refs x v.
Proof using Spec.
  intros Hr Hv. unfold is_in, listed. destruct v as [w|]; [|naive_solver].
  destruct (Hv w eq_refl) as [Hew Hsw]. rewrite List.existsb_exists. setoid_rewrite <- list_elem_of_In.
  assert (Hm : forall y, y ∈ members (refs !! x) -> same_value w y = true <-> w = y).
  { intros y Hy. destruct (refs !! x) as [l|] eqn:El; [|now apply elem_of_nil in Hy].
    pose proof (exact_members _ _ (Hr _ _ El) Hy) as Hey.
    pose proof (compare_exact w y Hew Hey (or_introl Hsw)) as Hc. unfold same_value.
    rewrite <- Hc. destruct (rego_compare w y); split; congruence. }
  split.
  - intros (y & Hy & Hs). exists y. rewrite (Hm y Hy) in Hs. subst. auto.
  - intros (y & [= <-] & Hy). exists w. split; [done|]. now apply Hm.
Qed.

Lemma eq_constant v c :
  (forall w, v = Some w -> exact w) -> exact c -> scalar c -> rego_eq v (Some c) = true <-> v = Some c.
Proof using Spec.
  intros Hv Hc Hs. destruct v as [w|]; cbn; [|split; discriminate]. unfold same_value.
  pose proof (compare_exact w c (Hv _ eq_refl) Hc (or_intror Hs)) as H.
  destruct (rego_compare w c); split; intros E; try discriminate; naive_solver.
Qed.

End Shipped.

(** ** The rules on the claims of one TEE *)
Section Rules.
Context {RO : RegoOrder}.

(** The document holds the claims of one TEE. *)
Definition only (name : string) (kvs : list (string * Value)) (c : Value) : Prop :=
  obj_get name kvs = Some c /\ forall k, k <> name -> k ∉ lifted -> obj_get k kvs = None.

Ltac other_tees H :=
  rewrite ?(path_missing _ "sample"), ?(path_missing _ "snp"), ?(path_missing _ "tdx"),
    ?(path_missing _ "az_snp_vtpm"), ?(path_missing _ "az_tdx_vtpm"), ?(path_missing _ "tpm")
    by (apply H; [discriminate|apply (bool_decide_unpack _); vm_compute; exact I]).

Section Snp.
Context (data : Value) (kvs : list (string * Value)) (c : Value) (H : only "snp" kvs c).
Abbreviation known x := (path data ["reference"; x]).

Lemma snp_executables :
  cpu_executables data (VObject kvs) =
  Some (if is_in (path c ["measurement"]) (known "snp_launch_measurement") then 3 else 33).
Proof.
  destruct H as [Hs Ho]. unfold cpu_executables, tdx_rtmrs_known. other_tees Ho.
  rewrite !(path_found _ "snp" _ _ Hs). cbn [is_in andb]. now destruct (is_in _ _).
Qed.

Definition snp_tcb_known : bool :=
  is_in (path c ["reported_tcb_bootloader"]) (known "snp_bootloader") &&
  is_in (path c ["reported_tcb_microcode"]) (known "snp_microcode") &&
  is_in (path c ["reported_tcb_snp"]) (known "snp_snp_svn") &&
  is_in (path c ["reported_tcb_tee"]) (known "snp_tee_svn").

Lemma snp_hardware :
  cpu_hardware data (VObject kvs) = Some (if snp_tcb_known then 2 else 97).
Proof.
  destruct H as [Hs Ho]. unfold cpu_hardware. other_tees Ho.
  rewrite !(path_found _ "snp" _ _ Hs). cbn [is_in rego_eq rego_ge holds andb]. unfold snp_tcb_known.
  now destruct (_ && _).
Qed.

Lemma snp_configuration :
  exists v, cpu_configuration data (VObject kvs) = Some v /\
    (v = 2 \/ v = 3 <-> rego_eq (path c ["policy_debug_allowed"]) no && rego_eq (path c ["policy_migrate_ma"]) no = true) /\
    (v = 2 \/ v = 3 \/ v = 36).
Proof.
  destruct H as [Hs Ho]. unfold cpu_configuration, snp_locked_down. other_tees Ho.
  rewrite !(path_found _ "snp" _ _ Hs). cbn [is_in rego_eq holds andb].
  destruct (rego_eq _ no && rego_eq _ no); cbn [andb]; [|exists 36; naive_solver lia].
  match goal with |- context [[(2, ?b); (3, true)]] => destruct b end; eexists;
    (split; [reflexivity|naive_solver lia]).
Qed.
End Snp.

Section Tdx.
Context (data : Value) (kvs : list (string * Value)) (c : Value) (H : only "tdx" kvs c).
Abbreviation known x := (path data ["reference"; x]).

Definition tdx_boot_known : bool :=
  is_in (path c ["quote"; "body"; "rtmr_1"]) (known "rtmr_1") &&
  is_in (path c ["quote"; "body"; "rtmr_2"]) (known "rtmr_2").

Lemma tdx_executables :
  exists v, cpu_executables data (VObject kvs) = Some v /\
    (v = 3 \/ v = 4 <-> tdx_boot_known = true) /\ (v = 3 \/ v = 4 \/ v = 33).
Proof.
  destruct H as [Hs Ho]. unfold cpu_executables, tdx_rtmrs_known, tdx_boot_known. other_tees Ho.
  rewrite !(path_found _ "tdx" _ _ Hs). cbn [is_in andb].
  destruct (is_in _ _ && is_in _ _); cbn [andb]; [|exists 33; naive_solver lia].
  match goal with |- context [[(3, ?b); (4, true)]] => destruct b end; eexists;
    (split; [reflexivity|naive_solver lia]).
Qed.

Definition tdx_platform_known : bool :=
  rego_eq (path c ["quote"; "header"; "tee_type"]) (str "81000000") &&
  rego_eq (path c ["quote"; "header"; "vendor_id"]) (str "939a7233f79c4ca9940a0db3957f0607") &&
  is_in (path c ["quote"; "body"; "mr_seam"]) (known "mr_seam") &&
  is_in (path c ["quote"; "body"; "tcb_svn"]) (known "tcb_svn") &&
  is_in (path c ["quote"; "body"; "mr_td"]) (known "mr_td") &&
  rego_eq (path c ["tcb_status"]) (str "UpToDate") &&
  rego_eq (path c ["collateral_expiration_status"]) (str "0").

Lemma tdx_hardware : cpu_hardware data (VObject kvs) = Some (if tdx_platform_known then 2 else 97).
Proof.
  destruct H as [Hs Ho]. unfold cpu_hardware. other_tees Ho.
  rewrite !(path_found _ "tdx" _ _ Hs). cbn [is_in rego_eq rego_ge holds andb]. unfold tdx_platform_known.
  now destruct (_ && _).
Qed.

Definition tdx_attributes_known : bool :=
  rego_eq (path c ["td_attributes"; "debug"]) no && is_in (path c ["quote"; "body"; "xfam"]) (known "xfam").

Lemma tdx_configuration : cpu_configuration data (VObject kvs) = Some (if tdx_attributes_known then 2 else 36).
Proof.
  destruct H as [Hs Ho]. unfold cpu_configuration, snp_locked_down. other_tees Ho.
  rewrite !(path_found _ "tdx" _ _ Hs). cbn [is_in rego_eq holds andb]. unfold tdx_attributes_known.
  now destruct (_ && _).
Qed.
End Tdx.

(** ** GPUs

    The rules for NVIDIA devices read fields that the claims of the local
    verifier do not have: such a device is never recognised, whatever it
    measures and whatever reference values are registered. *)
Theorem local_gpu_unrecognised `{NC : NvidiaCrates} arch device_uuid r m m' data kvs :
  device_claims arch device_uuid r = VObject m -> agree m m' -> only "nvidia" kvs (VObject m') ->
  gpu_hardware data (VObject kvs) = Some 97 /\ gpu_executables (VObject kvs) = Some 33 /\
  gpu_configuration data (VObject kvs) = Some 36.
Proof.
  intros [= <-] Ha [Hk Ho].
  assert (Hn : forall k ks, k ∉ ["init_data"; "report_data"; "arch"; "uuid"; "measurements"; "config"] ->
    path (VObject kvs) ("nvidia" :: k :: ks) = None).
  { intros k ks Hni. rewrite (path_found _ _ _ _ Hk). apply path_missing. rewrite Ha by set_solver. cbn.
    repeat (rewrite decide_False by set_solver). done. }
  unfold gpu_hardware, gpu_executables, gpu_configuration, gpu_secure. cbn [forallb].
  rewrite !Hn by (apply (bool_decide_unpack _); vm_compute; exact I).
  rewrite (path_missing _ "sampledevice") by (apply Ho; [discriminate|apply (bool_decide_unpack _); vm_compute; exact I]).
  repeat split; reflexivity.
Qed.
End Rules.

(** ** From the rules to the status of the appraisal *)
Section Appraisals.
Context `{P : Profile} `{Dk : Disk} `{A : AsPolicyCrates} `{BC : BrokerCrates} `{T : TimeCrate} `{EC : EarCrate}.
Context {RO : RegoOrder} {cpu_text : string} {raw_value : RawValue -> Value}
  {tv_claims : TrustVector -> gmap string Z} {affirming : TrustTier}.
Context (Spec : ShippedSpec RO cpu_text raw_value tv_claims affirming).

(** The shipped policy is in force for devices of class [cpu]. *)
Definition cpu_policy_installed (b : EarAttestationTokenBroker) (fs : Fs) : Prop :=
  files fs !! resolve (policy_dir_path (eb_policy_engine b) +:+ "/" +:+ "default_cpu" +:+ ".rego")
    = Some (str_bytes cpu_text).

Lemma as_evaluate_rules o refd json id rules fs fs' res :
  as_evaluate o refd json id rules fs = (fs', Ok res) ->
  files fs !! resolve (policy_dir_path o +:+ "/" +:+ id +:+ ".rego") = Some (str_bytes cpu_text) ->
  exists m data input, rego_parse cpu_text = Some m /\ rego_from_json refd = Some data /\
    rego_from_json json = Some input /\ rules_result res = eval_rules m data input rules.
Proof.
  intros H Hf. unfold as_evaluate in H. inv_st.
  repeat match goal with E : st_map_err _ _ _ = (_, Ok _) |- _ => apply st_map_err_Ok in E end.
  match goal with E : fs_read _ _ = (_, Ok _) |- _ => apply fs_read_Ok in E as [-> Hf'] end.
  rewrite Hf in Hf'. injection Hf' as <-. inv_ok.
  match goal with E : from_utf8 _ = Some _ |- _ => apply from_utf8_bytes, str_bytes_inj in E as -> end.
  eauto 10.
Qed.

Lemma set_claims_spec l tv tv' k :
  set_claims l tv = Ok tv' -> Forall (fun kv => replace_char "_" "-" kv.1 = kv.1) l -> NoDup (map fst l) ->
  tv_claims tv' !! k = match (list_to_map l : gmap string rego_value) !! k with
                       | Some v => rego_as_i8 v
                       | None => tv_claims tv !! k
                       end.
Proof using Spec.
  revert tv. induction l as [|[k0 v0] l IH]; intros tv H Hp Hn; cbn [set_claims] in H.
  { injection H as <-. cbn. now rewrite lookup_empty. }
  apply bind_Ok in H as (z & Hz%ok_or_Ok & H). apply bind_Ok in H as (tv1 & H1 & H).
  apply Forall_cons_iff in Hp as [Hp0 Hp]. cbn in Hp0, Hn. apply list.NoDup_cons in Hn as [Hni Hn].
  rewrite (IH _ H Hp Hn). rewrite Hp0 in H1.
  assert (Hs : tv_set_by_name k0 z tv = Some tv1) by (destruct (tv_set_by_name k0 z tv); [now injection H1 as ->|done]).
  rewrite (tv_set_claims _ _ _ _ Hs). cbn [list_to_map foldr].
  destruct (decide (k0 = k)) as [->|Hne].
  - rewrite lookup_insert_eq, (proj1 (not_elem_of_list_to_map l k)) by done. now rewrite lookup_insert_eq.
  - rewrite !lookup_insert_ne by done. reflexivity.
Qed.

Lemma cpu_policy_rule data input rule :
  is_Some (cpu_policy data input rule) -> rule ∈ ["executables"; "hardware"; "configuration"].
Proof.
  unfold cpu_policy. rewrite !elem_of_cons.
  destruct (String.eqb_spec rule "executables"); [auto|]. destruct (String.eqb_spec rule "hardware"); [auto|].
  destruct (String.eqb_spec rule "configuration"); [auto|]. now intros [].
Qed.

Lemma appraised_claims m data input tv k :
  rego_parse cpu_text = Some m ->
  set_claims (map_to_list (eval_rules m data input tv_tags)) tv_new = Ok tv ->
  tv_claims tv !! k = cpu_policy data input k.
Proof using Spec.
  intros Hm H.
  assert (Hl : forall rule, rego_as_i8 <$> (eval_rules m data input tv_tags !! rule) = Some <$> cpu_policy data input rule).
  { intros rule. rewrite eval_rules_lookup. case_decide as Hin; [exact (cpu_text_means _ _ _ _ Hm)|].
    destruct (cpu_policy data input rule) as [v|] eqn:E; [|done]. destruct Hin. apply tv_rules.
    apply (cpu_policy_rule data input). eauto. }
  rewrite (set_claims_spec _ _ _ k H); [| |apply NoDup_fst_map_to_list].
  - rewrite list_to_map_to_list, tv_new_claims, lookup_empty. specialize (Hl k).
    destruct (eval_rules m data input tv_tags !! k), (cpu_policy data input k); cbn in Hl; congruence.
  - apply List.Forall_forall. intros [rule v] Hin%list_elem_of_In%elem_of_map_to_list. cbn.
    specialize (Hl rule). rewrite Hin in Hl.
    assert (Hr : rule ∈ ["executables"; "hardware"; "configuration"]).
    { apply (cpu_policy_rule data input). destruct (cpu_policy data input rule); [eauto|discriminate]. }
    repeat (apply elem_of_cons in Hr as [->|Hr]; [reflexivity|]). now apply elem_of_nil in Hr.
Qed.

(** The status is decided by the three rules. *)
Lemma appraised_status m data input tv e h f :
  rego_parse cpu_text = Some m ->
  set_claims (map_to_list (eval_rules m data input tv_tags)) tv_new = Ok tv ->
  cpu_executables data input = Some e -> cpu_hardware data input = Some h ->
  cpu_configuration data input = Some f ->
  tv_status tv = affirming <->
  (at_most_affirming e /\ at_most_affirming h /\ at_most_affirming f) /\
  ~ (no_claim e /\ no_claim h /\ no_claim f).
Proof using Spec.
  intros Hm H He Hh Hf. pose proof (fun k => appraised_claims _ _ _ _ k Hm H) as Hc.
  pose proof (Hc "executables") as Ce. pose proof (Hc "hardware") as Ch. pose proof (Hc "configuration") as Cf.
  cbn in Ce, Ch, Cf. rewrite He in Ce. rewrite Hh in Ch. rewrite Hf in Cf.
  rewrite tv_affirming. split.
  - intros [Hall (k & v & Hk & Hv)].
    split; [split; [exact (Hall _ _ Ce)|split; [exact (Hall _ _ Ch)|exact (Hall _ _ Cf)]]|].
    intros (N1 & N2 & N3). rewrite Hc in Hk.
    pose proof (cpu_policy_rule _ _ _ (mk_is_Some _ _ Hk)) as Hr. rewrite <- Hc in Hk.
    repeat (apply elem_of_cons in Hr as [->|Hr]; [congruence|]). now apply elem_of_nil in Hr.
  - intros [(H1 & H2 & H3) Hn]. split.
    + intros k v Hk. rewrite Hc in Hk. pose proof (cpu_policy_rule _ _ _ (mk_is_Some _ _ Hk)) as Hr.
      rewrite <- Hc in Hk. repeat (apply elem_of_cons in Hr as [->|Hr]; [congruence|]). now apply elem_of_nil in Hr.
    + assert (Hd : forall z, no_claim z \/ ~ no_claim z) by (unfold no_claim; lia).
      destruct (Hd e); [destruct (Hd h); [destruct (Hd f); [tauto|]|]|]; eauto.
Qed.

(** The appraisal of a device of class [cpu] under the shipped policy, and the
    document the policy saw. *)
Lemma appraise_document b refs refd tc m name fs fs' ap :
  appraise b refd "default" tc fs = (fs', Ok ap) -> cpu_policy_installed b fs ->
  json_to_string (reference_data refs) = Some refd -> exact_refs refs ->
  tee_class tc = "cpu" -> tee_variant_name (tc_tee tc) = Some name -> claims tc = VObject m -> exact (VObject m) ->
  exists kvs m' md, agree m m' /\ exact (VObject m') /\ only name kvs (VObject m') /\
    rego_parse cpu_text = Some md /\
    set_claims (map_to_list (eval_rules md (reference_data refs) (VObject kvs) tv_tags)) tv_new = Ok (trust_vector ap) /\
    ap_status ap = tv_status (trust_vector ap).
Proof using Spec.
  intros H Hi Hj Hr Hcl Hn Hc He.
  destruct (appraise_pure _ _ _ _ _ _ _ H) as (-> & _ & Hst & _ & res & json & T1 & T2 & T3 & T4).
  rewrite Hcl in T3. rewrite Hc in T1.
  destruct (as_evaluate_rules _ _ _ _ _ _ _ _ T3 Hi) as (md & data & input & Hm & Hd & Hin & Hres).
  assert (exact (reference_data refs)) as Hed.
  { unfold reference_data. apply exact_object. split; [apply NoDup_singleton|]. constructor; [|constructor].
    cbn [snd]. apply exact_object. split; [apply NoDup_fst_map_to_list|].
    apply List.Forall_forall. intros [x v] Hx%list_elem_of_In%elem_of_map_to_list. exact (Hr _ _ Hx). }
  pose proof (data_text _ _ _ Hed Hj Hd) as ->.
  destruct (transform_claims_input Spec _ _ _ _ _ _ _ _ He Hn T1 T2 Hin) as (kvs & m' & -> & Ha & Hk & He' & Ho).
  rewrite Hres in T4. exists kvs, m', md. do 2 (split; [done|]). split; [now split|]. auto.
Qed.

(** ** SNP *)

(** The fields of a report that are claims fit their width. *)
Definition report_sized (r : AttestationReport) : Prop :=
  Forall (fun n => 0 <= n < 256)
    [abi_major (policy r); abi_minor (policy r); bootloader (reported_tcb r); tcb_tee (reported_tcb r);
     tcb_snp (reported_tcb r); microcode (reported_tcb r)].

Definition number (n : Z) : option Value := Some (VNumber (PosInt n)).

(** The report is one of a launch and a firmware the RVPS knows, of a guest that
    can be neither debugged nor migrated. *)
Record snp_trusted `{VC : VerifierCrates} (refs : gmap string Value) (r : AttestationReport) : Prop := {
  st_measurement : listed refs "snp_launch_measurement" (Some (VString (base64_standard_encode (ar_measurement r))));
  st_bootloader : listed refs "snp_bootloader" (number (bootloader (reported_tcb r)));
  st_microcode : listed refs "snp_microcode" (number (microcode (reported_tcb r)));
  st_snp : listed refs "snp_snp_svn" (number (tcb_snp (reported_tcb r)));
  st_tee : listed refs "snp_tee_svn" (number (tcb_tee (reported_tcb r)));
  st_debug : debug_allowed (policy r) = false;
  st_migrate : migrate_ma_allowed (policy r) = false;
}.

Lemma exact_byte n : 0 <= n < 256 -> exact (VNumber (PosInt n)).
Proof. cbn. lia. Qed.

Lemma snp_claims_exact `{VC : VerifierCrates} r : report_sized r -> exact (snp_parse_tee_evidence r).
Proof.
  intros H. unfold report_sized in H. repeat (apply Forall_cons_iff in H as [? H]).
  unfold snp_parse_tee_evidence. apply exact_object. split; [apply (bool_decide_unpack _); vm_compute; exact I|].
  repeat (constructor; [cbn; lia || done|]). constructor.
Qed.

(** The claims of the report, read in the document. *)
Lemma snp_paths `{VC : VerifierCrates} r m m' :
  snp_parse_tee_evidence r = VObject m -> agree m m' ->
  path (VObject m') ["measurement"] = Some (VString (base64_standard_encode (ar_measurement r))) /\
  path (VObject m') ["reported_tcb_bootloader"] = number (bootloader (reported_tcb r)) /\
  path (VObject m') ["reported_tcb_microcode"] = number (microcode (reported_tcb r)) /\
  path (VObject m') ["reported_tcb_snp"] = number (tcb_snp (reported_tcb r)) /\
  path (VObject m') ["reported_tcb_tee"] = number (tcb_tee (reported_tcb r)) /\
  path (VObject m') ["policy_debug_allowed"] = Some (VBool (debug_allowed (policy r))) /\
  path (VObject m') ["policy_migrate_ma"] = Some (VBool (migrate_ma_allowed (policy r))).
Proof.
  intros [= <-] Ha. rewrite !(path_agree _ _ _ [] Ha) by discriminate. repeat split; reflexivity.
Qed.

Lemma exact_scalar_listed refs x w :
  exact_refs refs -> exact w -> scalar w -> is_in (Some w) (refs !! x) = true <-> listed refs x (Some w).
Proof using Spec. intros Hr He Hs. apply (is_in_listed Spec); [done|]. now intros ? [= <-]. Qed.

Lemma is_no b : rego_eq (Some (VBool b)) no = true <-> b = false.
Proof using Spec.
  unfold no. rewrite (eq_constant Spec); [|now intros ? [= <-]|done..]. split; [now intros [= ->]|now intros ->].
Qed.

Lemma all_affirming e h f (E H F : Prop) :
  (at_most_affirming e <-> E) -> (at_most_affirming h <-> H) -> (at_most_affirming f <-> F) -> 1 < e ->
  (at_most_affirming e /\ at_most_affirming h /\ at_most_affirming f) /\
    ~ (no_claim e /\ no_claim h /\ no_claim f) <-> E /\ H /\ F.
Proof. unfold no_claim. intros -> -> -> ?. intuition lia. Qed.

Lemma affirming_choice (b : bool) v w :
  at_most_affirming v -> ~ at_most_affirming w -> at_most_affirming (if b then v else w) <-> b = true.
Proof. now destruct b. Qed.

Lemma snp_status `{VC : VerifierCrates} b refs refd tc r fs fs' ap :
  appraise b refd "default" tc fs = (fs', Ok ap) -> cpu_policy_installed b fs ->
  json_to_string (reference_data refs) = Some refd -> exact_refs refs ->
  tee_class tc = "cpu" -> tc_tee tc = Snp -> claims tc = snp_parse_tee_evidence r -> report_sized r ->
  ap_status ap = affirming <-> snp_trusted refs r.
Proof using Spec.
  intros H Hi Hj Hr Hcl Ht Hc Hs. pose proof (snp_claims_exact r Hs) as He.
  destruct (snp_parse_tee_evidence r) as [| | | | |m] eqn:Em; try discriminate Em.
  assert (Hn : tee_variant_name (tc_tee tc) = Some "snp") by (rewrite Ht; exact snp_name).
  destruct (appraise_document _ _ _ _ _ "snp" _ _ _ H Hi Hj Hr Hcl Hn Hc He)
    as (kvs & m' & md & Ha & He' & Ho & Hm & Hset & ->).
  destruct (snp_paths r m m' Em Ha) as (P1 & P2 & P3 & P4 & P5 & P6 & P7).
  destruct (snp_configuration (reference_data refs) kvs (VObject m') Ho) as (f & Hf & Hf23 & Hfv).
  rewrite (appraised_status _ _ _ _ _ _ _ Hm Hset (snp_executables _ _ _ Ho) (snp_hardware _ _ _ Ho) Hf).
  rewrite (all_affirming _ _ _ _ _ _ (affirming_choice _ 3 33 ltac:(easy) ltac:(intros [? ?]; lia))
    (affirming_choice _ 2 97 ltac:(easy) ltac:(intros [? ?]; lia)) (iff_refl _)) by now destruct (is_in _ _).
  assert (Hfa : at_most_affirming f <-> f = 2 \/ f = 3) by (unfold at_most_affirming; lia).
  rewrite Hfa, Hf23. unfold snp_tcb_known. rewrite !known_refs, P1, P2, P3, P4, P5, P6, P7, !andb_true_iff, !is_no.
  unfold report_sized in Hs. repeat (apply Forall_cons_iff in Hs as [? Hs]). unfold number.
  rewrite !exact_scalar_listed by (done || now apply exact_byte).
  split; [intros; destruct_and!; now constructor|intros []; tauto].
Qed.

(** ** TDX *)

(** The quote is one of a kernel, a module and a platform the RVPS knows, of a
    guest without debugging, and its certificates and TCB are up to date. *)
Record tdx_trusted (refs : gmap string Value) (c : Value) : Prop := {
  tt_rtmr_1 : listed refs "rtmr_1" (path c ["quote"; "body"; "rtmr_1"]);
  tt_rtmr_2 : listed refs "rtmr_2" (path c ["quote"; "body"; "rtmr_2"]);
  tt_tee_type : path c ["quote"; "header"; "tee_type"] = str "81000000";
  tt_vendor_id : path c ["quote"; "header"; "vendor_id"] = str "939a7233f79c4ca9940a0db3957f0607";
  tt_mr_seam : listed refs "mr_seam" (path c ["quote"; "body"; "mr_seam"]);
  tt_tcb_svn : listed refs "tcb_svn" (path c ["quote"; "body"; "tcb_svn"]);
  tt_mr_td : listed refs "mr_td" (path c ["quote"; "body"; "mr_td"]);
  tt_tcb_status : path c ["tcb_status"] = str "UpToDate";
  tt_collateral : path c ["collateral_expiration_status"] = str "0";
  tt_debug : path c ["td_attributes"; "debug"] = no;
  tt_xfam : listed refs "xfam" (path c ["quote"; "body"; "xfam"]);
}.

Definition is_string (v : Value) : Prop := exists s, v = VString s.

Lemma obj_get_Forall (Q : Value -> Prop) m k v :
  Forall (fun kv => Q kv.2) m -> obj_get k m = Some v -> Q v.
Proof.
  induction m as [|[k' v'] m IH]; cbn; [discriminate|]. intros H%Forall_cons_iff. destruct H as [H Hm].
  case_decide; [now intros [= <-]|auto].
Qed.

(** Header and body of a quote are presented as strings. *)
Lemma quote_part_strings q part k w :
  part = "header" \/ part = "body" ->
  path (VObject (quote_claims q)) [part; k] = Some w -> is_string w.
Proof.
  assert (Hb : forall b, Forall (fun kv => is_string kv.2) (body_claims b))
    by (intros b; repeat (constructor; [eexists; reflexivity|]); constructor).
  assert (Hh : forall v h, Forall (fun kv => is_string kv.2) (header_claims v h))
    by (intros v h; repeat (constructor; [eexists; reflexivity|]); constructor).
  intros Hp Hw.
  assert (Hm : exists m, obj_get part (quote_claims q) = Some (VObject m) /\ Forall (fun kv => is_string kv.2) m).
  { destruct Hp as [-> | ->], q as [h b|h t z [b|b]]; eexists; (split; [reflexivity|]); auto.
    apply Forall_app. split; [done|]. repeat (constructor; [eexists; reflexivity|]). constructor. }
  destruct Hm as (m & Hg & Hm). rewrite (path_found _ _ _ _ Hg) in Hw. exact (obj_get_Forall is_string m k w Hm Hw).
Qed.

Lemma path_exact c ks w : exact c -> path c ks = Some w -> exact w.
Proof.
  unfold path. revert c. induction ks as [|k ks IH]; intros c He H; cbn in H; [now injection H as <-|].
  destruct c as [| | | | |m]; cbn in H; try (rewrite path_none in H; discriminate).
  destruct (obj_get k m) as [v|] eqn:E; [|rewrite path_none in H; discriminate].
  exact (IH v (exact_obj _ _ _ He E) H).
Qed.

Lemma tdx_status `{EVC : EventCrates} `{DC : DcapCrates} `{VC : VerifierCrates} `{TDC : TdxCrates}
    b refs refd tc evidence d h fs fs' ap :
  appraise b refd "default" tc fs = (fs', Ok ap) -> cpu_policy_installed b fs ->
  json_to_string (reference_data refs) = Some refd -> exact_refs refs ->
  tee_class tc = "cpu" -> tc_tee tc = Tdx -> tdx_evaluate evidence d h = Ok [(claims tc, "cpu")] ->
  exact (claims tc) -> ap_status ap = affirming <-> tdx_trusted refs (claims tc).
Proof using Spec.
  intros H Hi Hj Hr Hcl Ht Hev He.
  assert (Hq : exists m q, claims tc = VObject m /\ obj_get "quote" m = Some (VObject (quote_claims q))).
  { unfold tdx_evaluate in Hev. apply bind_Ok in Hev as (e & _ & Hev). apply bind_Ok in Hev as (v & Hv%map_err_Ok & Hev).
    injection Hev as <-. apply tdx_verify_Ok in Hv as [Hv].
    destruct Hv as (_ & q & _ & _ & _ & _ & _ & _ & _ & _ & _ & _ & _ & _ & _ & m & _ & _ & Hm & _ & _ & Hq & _). eauto. }
  destruct Hq as (m & q & Hc & Hq). rewrite Hc in He |- *.
  assert (Hn : tee_variant_name (tc_tee tc) = Some "tdx") by (rewrite Ht; exact tdx_name).
  destruct (appraise_document _ _ _ _ _ "tdx" _ _ _ H Hi Hj Hr Hcl Hn Hc He)
    as (kvs & m' & md & Ha & He' & Ho & Hm & Hset & ->).
  destruct (tdx_executables (reference_data refs) kvs (VObject m') Ho) as (e & Hf & He34 & Hev').
  rewrite (appraised_status _ _ _ _ _ _ _ Hm Hset Hf (tdx_hardware _ _ _ Ho) (tdx_configuration _ _ _ Ho)).
  rewrite (all_affirming _ _ _ _ _ _ (iff_refl _) (affirming_choice _ 2 97 ltac:(easy) ltac:(intros [? ?]; lia))
    (affirming_choice _ 2 36 ltac:(easy) ltac:(intros [? ?]; lia))) by lia.
  assert (Hea : at_most_affirming e <-> e = 3 \/ e = 4) by (unfold at_most_affirming; lia).
  rewrite Hea, He34. unfold tdx_boot_known, tdx_platform_known, tdx_attributes_known.
  rewrite !known_refs, !(path_agree _ _ _ _ Ha) by discriminate. rewrite !andb_true_iff.
  assert (L : forall x k, is_in (path (VObject m) ["quote"; "body"; k]) (refs !! x) = true <->
                          listed refs x (path (VObject m) ["quote"; "body"; k])).
  { intros x k. apply (is_in_listed Spec); [done|]. intros w Hw. rewrite (path_found _ _ _ _ Hq) in Hw.
    destruct (quote_part_strings q "body" k w (or_intror eq_refl) Hw) as [s ->]. done. }
  assert (Q : forall ks c, exact c -> scalar c ->
            rego_eq (path (VObject m) ks) (Some c) = true <-> path (VObject m) ks = Some c).
  { intros ks c Hec Hsc. apply (eq_constant Spec); [|done..]. intros w Hw. exact (path_exact _ _ _ He Hw). }
  unfold str, no. rewrite !L, !Q by done.
  split; [intros; destruct_and!; now constructor|intros []; tauto].
Qed.

(** ** Issued tokens *)

Lemma ear_issue_appraised ear_sign b now id tcs p refs fs fs' token :
  ear_issue ear_sign b now id tcs [p] refs fs = (fs', Ok token) ->
  Forall (fun tc => strip_digits (tee_class tc) = tee_class tc) tcs ->
  (forall c, (class_count c tcs <= 256)%nat) ->
  exists refd ear jwk, json_to_string (reference_data refs) = Some refd /\
    ear_sign ear jwk (eb_private_key b) = Some token /\
    forall i tc, tcs !! i = Some tc -> exists ap,
      submods ear !! submod_name tcs i tc = Some ap /\ appraise b refd p tc fs = (fs, Ok ap).
Proof using Type.
  clear Spec. intros H Hs Hc. unfold ear_issue in H. inv_st. inv_ok.
  match goal with E : appraise_all _ ?refd ?policy _ _ _ _ = _ |- _ =>
    destruct (appraise_all_spec _ _ _ _ _ _ [] _ _ _ (appraised_nil b refd policy _) Hs Hc E) as [-> [idx Ha]] end.
  eexists _, _, _. do 2 (split; [eassumption|]). intros i tc Hi. cbn [submods].
  exact (name_inv _ _ _ _ _ _ _ Ha _ _ Hi).
Qed.

(** C27: what affirming means under the shipped policy.  In a token issued for
    the policy [default] while the CPU policy is the shipped one, a device's
    submodule has the status affirming, for SNP, exactly when the measurement
    and the reported TCB of its report are among the reference values and the
    guest can be neither debugged nor migrated; and for TDX, exactly when RTMR 1
    and 2, the module, its TCB and the initial contents of the guest are among
    the reference values, the quote is one of Intel's quoting enclave, TCB and
    certificates are up to date and debugging is off. *)
Theorem shipped_policy_affirming `{EVC : EventCrates} `{DC : DcapCrates} `{VC : VerifierCrates} `{TDC : TdxCrates}
    ear_sign b now id tcs refs fs fs' token :
  ear_issue ear_sign b now id tcs ["default"] refs fs = (fs', Ok token) ->
  Forall (fun tc => strip_digits (tee_class tc) = tee_class tc) tcs ->
  (forall c, (class_count c tcs <= 256)%nat) ->
  cpu_policy_installed b fs -> exact_refs refs ->
  exists ear jwk, ear_sign ear jwk (eb_private_key b) = Some token /\
    forall i tc, tcs !! i = Some tc -> tee_class tc = "cpu" -> exists ap,
      submods ear !! submod_name tcs i tc = Some ap /\
      (forall report, tc_tee tc = Snp -> claims tc = snp_parse_tee_evidence report -> report_sized report ->
         ap_status ap = affirming <-> snp_trusted refs report) /\
      (forall evidence d h, tc_tee tc = Tdx -> tdx_evaluate evidence d h = Ok [(claims tc, "cpu")] ->
         exact (claims tc) -> ap_status ap = affirming <-> tdx_trusted refs (claims tc)).
Proof using Spec.
  intros H Hs Hc Hi Hr. destruct (ear_issue_appraised _ _ _ _ _ _ _ _ _ _ H Hs Hc) as (refd & ear & jwk & Hj & Hsig & Hap).
  exists ear, jwk. split; [done|]. intros i tc Htc Hcl. destruct (Hap i tc Htc) as (ap & Hsub & Happ).
  exists ap. split; [done|]. split.
  - intros report Ht Hcm Hsz. exact (snp_status _ _ _ _ _ _ _ _ Happ Hi Hj Hr Hcl Ht Hcm Hsz).
  - intros evidence d h Ht Hev He. exact (tdx_status _ _ _ _ _ _ _ _ _ _ Happ Hi Hj Hr Hcl Ht Hev He).
Qed.

(** ** The sample resource policy *)

(** The policy asks for at least one submodule and that every status that is
    given is affirming. *)
Lemma affirming_policy_spec m sub :
  exact (VObject m) -> obj_get "submods" m = Some (VObject sub) ->
  affirming_resource_policy (VObject m) = true <->
  sub <> [] /\ Forall (fun kv => forall st, path kv.2 ["ear.status"] = Some st -> st = VString "affirming") sub.
Proof using Spec.
  intros He Hs. unfold affirming_resource_policy, any_not_affirming.
  rewrite (path_found _ _ [] _ Hs). cbn [path foldl members not_empty]. rewrite andb_true_iff, !negb_true_iff.
  assert (Hsub : exact (VObject sub)) by exact (exact_obj _ _ _ He Hs). apply exact_object in Hsub as [_ Hsub].
  assert (Hne : (length sub =? 0)%nat = false <-> sub <> []) by (destruct sub; cbn; split; congruence || done).
  rewrite Hne.
  match goal with |- (?a /\ _) <-> (_ /\ ?b) => enough (a <-> b) by tauto end. clear - Spec Hsub.
  induction sub as [|[k v] sub IH]; cbn; [split; [constructor|done]|].
  apply Forall_cons_iff in Hsub as [Hv Hsub]. rewrite orb_false_iff, (IH Hsub). cbn in Hv.
  assert (Hst : rego_ne (path v ["ear.status"]) (str "affirming") = false <->
                forall st, path v ["ear.status"] = Some st -> st = VString "affirming").
  { destruct (path v ["ear.status"]) as [st|] eqn:E; cbn; [|split; [done|reflexivity]].
    pose proof (compare_exact st (VString "affirming") (path_exact _ _ _ Hv E) I (or_intror I)) as Hcmp.
    rewrite negb_false_iff. unfold same_value. destruct (rego_compare st _); split; intros Hx;
      try discriminate; try (specialize (Hx _ eq_refl)); naive_solver. }
  rewrite Hst. split; [intros [? ?]; now constructor|]. intros Hf%Forall_cons_iff. done.
Qed.
End Appraisals.

(** ** A concrete instance *)
Module ShippedDemo.
(** Equality of JSON values, entry by entry. *)
Fixpoint value_eqb (a b : Value) {struct a} : bool :=
  match a, b with
  | VNull, VNull => true
  | VBool x, VBool y => Bool.eqb x y
  | VNumber (PosInt x), VNumber (PosInt y) => x =? y
  | VNumber (NegInt x), VNumber (NegInt y) => x =? y
  | VNumber (Float x), VNumber (Float y) => x =? y
  | VString x, VString y => String.eqb x y
  | VArray l, VArray l' =>
      (fix go (l l' : list Value) : bool :=
         match l, l' with
         | [], [] => true
         | x :: l, y :: l' => value_eqb x y && go l l'
         | _, _ => false
         end) l l'
  | VObject m, VObject m' =>
      (fix go (m m' : list (string * Value)) : bool :=
         match m, m' with
         | [], [] => true
         | (k, x) :: m, (k', y) :: m' => String.eqb k k' && value_eqb x y && go m m'
         | _, _ => false
         end) m m'
  | _, _ => false
  end.

Lemma value_eqb_eq a b : value_eqb a b = true <-> a = b.
Proof.
  revert a b. fix IH 1. intros a b. destruct a as [|x|[x|x|x]|x|l|m], b as [|y|[y|y|y]|y|l'|m']; cbn;
    try (split; (discriminate || congruence));
    rewrite ?Bool.eqb_true_iff, ?Z.eqb_eq, ?String.eqb_eq; try (split; congruence).
  - revert l'. induction l as [|x l IHl]; intros [|y l']; try (split; (discriminate || congruence)).
    rewrite andb_true_iff, IH. specialize (IHl l'). split; [intros [-> H]; apply IHl in H; congruence|].
    intros [= -> ->]. split; [done|]. now apply IHl.
  - revert m'. induction m as [|[k x] m IHm]; intros [|[k' y] m']; try (split; (discriminate || congruence)).
    rewrite !andb_true_iff, IH, String.eqb_eq. specialize (IHm m').
    split; [intros [[-> ->] H]; apply IHm in H; congruence|].
    intros [= -> -> ->]. split; [done|]. now apply IHm.
Qed.

Definition one : Value := VNumber (PosInt 1).
Definition refs : gmap string Value := list_to_map
  [("snp_launch_measurement", VArray [VString "launch"]); ("snp_bootloader", VArray [one]);
   ("snp_microcode", VArray [one]); ("snp_snp_svn", VArray [VNull; one]); ("snp_tee_svn", VArray [one])].

#[export] Instance encodes : VerifierCrates := {|
  sample_from_value _ := None;
  base64_standard_decode _ := None;
  base64_standard_encode _ := "launch";
|}.

Definition report : AttestationReport := SnpDemo.demo_snp_report.
Definition own_claims : list (string * Value) :=
  match snp_parse_tee_evidence report with
  | VObject m => take 13 m
  | _ => []
  end.

(** The runtime data of a session. *)
Definition runtime : Value :=
  VObject [("tee-pubkey", VNull); ("nonce", VString "n0"); ("additional-evidence", VString "")].

Definition document : gmap string Value := list_to_map
  [("snp", VObject own_claims); ("init_data", VString "launch"); ("init_data_claims", VNull);
   ("report_data", VString "launch"); ("runtime_data_claims", runtime)].

(** The JSON texts, and the document of the policy. *)
Definition to_text (v : Value) : option string :=
  if value_eqb v (reference_data refs) then Some "R"
  else if value_eqb v (VObject own_claims) then Some "S"
  else if value_eqb v VNull then Some "N"
  else if value_eqb v runtime then Some "T"
  else None.

#[export] Instance policy_crates : PolicyCrates := {|
  rego_module := string;
  rego_parse s := Some s;
  rego_from_json s :=
    if String.eqb s "R" then Some (reference_data refs)
    else if String.eqb s "D" then Some (VObject (map_to_list document)) else None;
  rego_add_data _ := true;
  rego_eval_bool _ _ _ _ := None;
  json_from_slice _ := None;
  base64_url_decode _ := None;
  base64_url_encode _ := "";
|}.

#[export] Instance order : RegoOrder := fun a b => if value_eqb a b then Datatypes.Eq else Lt.

#[export] Instance as_policy_crates : AsPolicyCrates := {|
  rego_value := Z;
  rego_as_i8 z := Some z;
  rego_as_bool _ := None;
  rego_eval_rule m data input rule :=
    if String.eqb m "CPU" then cpu_policy data input (substring 12 (String.length rule) rule) else None;
  AsPolicy.sha384 b := b;
  is_alphanumeric _ := true;
|}.

#[export] Instance broker_crates : BrokerCrates := {|
  json_to_string := to_text;
  json_from_str _ := None;
  tee_variant_name t := match t with Snp => Some "snp" | Tdx => Some "tdx" | _ => None end;
  RsaKey := unit; EcKey := unit; X509 := unit;
  rsa_generate _ := None; rsa_from_pem _ := None; rsa_n_e _ := ([], []); rs384 _ _ := None;
  ec_generate _ := Some tt; ec_from_pem _ := Some tt; ec_affine _ := Some ([], []);
  x509_from_pem _ := None; x509_to_der _ := None;
|}.

#[export] Instance at_most_affirming_dec v : Decision (at_most_affirming v).
Proof. unfold at_most_affirming. apply _. Defined.
#[export] Instance no_claim_dec v : Decision (no_claim v).
Proof. unfold no_claim. apply _. Defined.

#[export] Instance ear_crate : EarCrate := {|
  RawValue := Value;
  raw_string := VString;
  raw_from_str s :=
    if String.eqb s "S" then Some (VObject own_claims) else if String.eqb s "N" then Some VNull
    else if String.eqb s "T" then Some runtime else None;
  raw_claims_to_string m := if value_eqb (VObject (map_to_list m)) (VObject (map_to_list document)) then Some "D" else None;
  TrustVector := gmap string Z;
  tv_new := ∅;
  tv_tags := ["instance-identity"; "configuration"; "executables"; "hardware"];
  tv_set_by_name k v tv := Some (<[k := v]> tv);
  tv_any_set tv := negb (bool_decide (tv = ∅));
  TrustTier := bool;
  tv_status tv :=
    bool_decide (map_Forall (fun _ v => at_most_affirming v) tv) && negb (bool_decide (map_Forall (fun _ v => no_claim v) tv));
|}.

Lemma rule_name rule : substring 12 (String.length ("data.policy." +:+ rule)) ("data.policy." +:+ rule) = rule.
Proof.
  assert (Hs : forall s n, (String.length s <= n)%nat -> substring 0 n s = s).
  { intros s. induction s as [|c s IH]; intros [|n] Hn; cbn in *; try lia; [done..|]. f_equal. apply IH. lia. }
  apply (Hs rule). change (String.length rule <= 12 + String.length rule)%nat. lia.
Qed.

#[export] Instance shipped : ShippedSpec order "CPU" (fun v => v) (fun tv => tv) true.
Proof.
  constructor; cbn [rego_parse rego_eval_rule rego_as_i8 json_to_string raw_from_str raw_claims_to_string
    rego_from_json policy_crates as_policy_crates broker_crates ear_crate].
  - intros m data input rule [= <-]. cbn [String.eqb Ascii.eqb Bool.eqb].
    rewrite rule_name. now destruct (cpu_policy _ _ _).
  - intros a b _ _ _. unfold rego_compare, order. rewrite <- value_eqb_eq. now destruct (value_eqb a b).
  - intros v s r _. unfold to_text. destruct (value_eqb v (reference_data refs)); [now intros [= <-]|].
    destruct (value_eqb v (VObject own_claims)) eqn:E1; [apply value_eqb_eq in E1; now intros [= <-] [= <-]|].
    destruct (value_eqb v VNull) eqn:E2; [apply value_eqb_eq in E2; now intros [= <-] [= <-]|].
    destruct (value_eqb v runtime) eqn:E3; [apply value_eqb_eq in E3; now intros [= <-] [= <-]|done].
  - intros m s i Hm Hi. destruct (value_eqb _ _) eqn:E; [|done]. injection Hm as <-.
    change (Some (VObject (map_to_list document)) = Some i) in Hi. apply (inj Some) in Hi.
    apply value_eqb_eq in E. assert (Hl : map_to_list m = map_to_list document)
      by exact (f_equal (fun v => match v with VObject l => l | _ => [] end) E).
    exists (map_to_list m). split; [exact (eq_trans (eq_sym Hi) (f_equal VObject (eq_sym Hl)))|]. intros k.
    rewrite option_fmap_id. apply option_eq. intros v.
    rewrite obj_get_elem, elem_of_map_to_list; [done|apply NoDup_fst_map_to_list].
  - intros v s d _. unfold to_text. destruct (value_eqb v (reference_data refs)) eqn:E.
    { apply value_eqb_eq in E as ->. now intros [= <-] [= <-]. }
    destruct (value_eqb v (VObject own_claims)); [now intros [= <-]|].
    destruct (value_eqb v VNull); [now intros [= <-]|]. destruct (value_eqb v runtime); [now intros [= <-]|done].
  - done.
  - intros k v tv tv' [= <-]. done.
  - intros x. cbn. set_solver.
  - intros tv. cbn. rewrite andb_true_iff, negb_true_iff, bool_decide_eq_true, bool_decide_eq_false.
    now rewrite (map_not_Forall _).
  - done.
  - done.
Qed.

(** A broker with the shipped policy in its directory, and one SNP device. *)
#[export] Instance disk : Disk := {| disk_fault _ _ := false; made _ := 0%nat; written _ _ := None |}.
#[export] Instance clock : TimeCrate := fun now m => Some (now + m * nanos_per_minute).
#[export] Instance checked : Profile := true.

Definition broker : EarAttestationTokenBroker :=
  {| eb_config := ear_configuration_default "as"; eb_private_key := tt; eb_cert_url := None;
     eb_cert_chain := None; eb_policy_engine := {| policy_dir_path := "/w/opa" |} |}.
Definition fs : Fs := {| files := {[ ["w"; "opa"; "default_cpu.rego"] := str_bytes "CPU" ]}; dirs := ∅ |}.
Definition device : TeeClaims :=
  {| tc_tee := Snp; tee_class := "cpu"; claims := snp_parse_tee_evidence report;
     init_data_claims := VNull; runtime_data_claims := runtime |}.
Definition sign (e : Ear) (_ : EarJwk) (_ : EcKey) : option string :=
  match (submods e : gmap string Appraisal) !! "cpu0" with
  | Some ap => Some (if (ap_status ap : bool) then "affirming" else "not affirming")
  | None => None
  end.
End ShippedDemo.

Import ShippedDemo.

Lemma shipped_policy_affirming_witness :
  ear_issue sign broker 0 "id" [device] ["default"] refs fs = (fs, Ok "affirming") /\
  snp_trusted refs report.
Proof.
  split; [vm_compute; reflexivity|].
  destruct (shipped_policy_affirming shipped (EVC := TdxDemo.demo_event_crates) (DC := TdxDemo.demo_dcap)
      (VC := encodes) (TDC := TdxDemo.demo_tdx) sign broker 0 "id" [device] refs fs fs "affirming")
    as (ear & jwk & Hs & H).
  - vm_compute. reflexivity.
  - constructor; [reflexivity|constructor].
  - intros c. unfold class_count. cbn [List.filter]. destruct (String.eqb (tee_class device) c); cbn [length]; lia.
  - vm_compute. reflexivity.
  - intros k v Hk. apply elem_of_list_to_map_2 in Hk.
    repeat (apply elem_of_cons in Hk as [[= -> ->]|Hk]; [repeat split; easy|]). now apply elem_of_nil in Hk.
  - destruct (H 0%nat device eq_refl eq_refl) as (ap & Hsub & Hsnp & _).
    apply (Hsnp report eq_refl eq_refl); [repeat (constructor; [easy|]); constructor|].
    change (submods ear !! "cpu0" = Some ap) in Hsub. unfold sign in Hs. rewrite Hsub in Hs.
    cbn in Hs. destruct (ap_status ap); [reflexivity|discriminate Hs].
Defined.
