(* ===== verification/AzVtpm.v ===== *)
(** * The Azure vTPM verifiers ([deps/verifier/src/az_snp_vtpm/mod.rs], [az_tdx_vtpm/mod.rs])

    A guest of Azure is attested by the quote of a virtual TPM whose key is in
    the variable data of a report of the paravisor (HCL); the hash of that data
    is the report data of an SNP report or a TD quote.  The TPM, HCL and
    certificate types of the Azure crates are parameters. *)
From S2P Require Import Prelude Types Text Fs Json TcgEvents Verifier IntelDcap TdxQuote Snp.

Definition HCL_VMPL_VALUE : Z := 0.
Definition INITDATA_PCR : Z := 8.
Definition SNP_REPORT_SIGNATURE_OFFSET : Z := 0x2a0.

(** [format!("{}", b)] of a flag. *)
Definition fmt_bool (b : bool) : string := if b then "true" else "false".

(** TPM quotes of [az_cvm_vtpm], and [openssl]. *)
Class VtpmCrates := {
  TpmQuote : Type;
  PublicKey : Type;
  tpm_nonce : TpmQuote -> option bytes;
  pcrs_sha256 : TpmQuote -> list bytes;
  tpm_verify_signature : TpmQuote -> PublicKey -> bool;
  tpm_verify_pcrs : TpmQuote -> bool;
  public_key_from_der : bytes -> option PublicKey;
  openssl_sha256 : bytes -> bytes;
}.

Class AzCrates `{SC : SnpCrates} `{VT : VtpmCrates} := {
  (** [az_cvm_vtpm]: HCL reports *)
  HclReport : Type;
  hcl_report_new : bytes -> option HclReport;
  hcl_ak_pub_der : HclReport -> option bytes;
  var_data_sha256 : HclReport -> bytes;
  hcl_snp_report : HclReport -> option AttestationReport;
  (** certificates of AMD *)
  vcek_from_pem : string -> option Certificate;
  ca_chain_validate : VendorCertificates -> bool;
  vcek_validate : Certificate -> VendorCertificates -> bool;
  (** [openssl] *)
  EcdsaSig : Type;
  EcPublicKey : Type;
  report_ecdsa_sig : AttestationReport -> option EcdsaSig;
  report_write_bytes : AttestationReport -> option bytes;
  ec_public_key : Certificate -> option EcPublicKey;
  ecdsa_verify : EcdsaSig -> bytes -> EcPublicKey -> option bool;
  openssl_sha384 : bytes -> bytes;
  (** [serde_json::from_value] at the evidence of both *)
  az_snp_from_value : Value -> option (TpmQuote * bytes * string);
  az_tdx_from_value : Value -> option (TpmQuote * bytes * bytes);
}.

(** The comparison of PCR 8 with the extension of the init data hash; the hash is
    copied into the second half of 64 bytes, which panics unless it has 32. *)
Definition init_data_check `{VT : VtpmCrates} (mismatch : string) (expected : InitDataHash) (pcrs : list bytes) :
    outcome anyhow unit :=
  match expected with
  | ID_NotProvided => Ok tt
  | ID_Value expected_init_data_hash =>
      if negb (len expected_init_data_hash =? 32) then Panic
      else
        let digest := openssl_sha256 (replicate 32 Init.Byte.x00 ++ expected_init_data_hash) in
        init_data_pcr ← index pcrs INITDATA_PCR;
        if negb (bool_decide (digest = init_data_pcr)) then Err mismatch else Ok tt
  end.

Section AzVerifiers.
Context `{VC : VerifierCrates} `{AZ : AzCrates} `{DC : DcapCrates}.

(** [extend_claim]. *)
Definition pcr_claims (pcrs : list bytes) : list (string * Value) :=
  imap (fun i pcr => ("pcr" +:+ fmt02 (Z.of_nat i), VString (hex_encode pcr))) pcrs.

Definition extend_claim (claim : Value) (quote : TpmQuote) : outcome anyhow Value :=
  match claim with
  | VObject map =>
      let pcrs := pcrs_sha256 quote in
      let map := obj_insert "tpm" (VObject (pcr_claims pcrs)) map in
      pcr ← index pcrs INITDATA_PCR;
      let map := obj_insert "init_data" (VString (hex_encode pcr)) map in
      nonce ← ok_or "nonce" (tpm_nonce quote);
      Ok (VObject (obj_insert "report_data" (VString (hex_encode nonce)) map))
  | _ => Err "failed to extend the claim, not an object"
  end.

(** [verify_nonce] and [verify_tpm_nonce]. *)
Definition verify_nonce (quote : TpmQuote) (report_data : bytes) : outcome anyhow unit :=
  nonce ← ok_or "nonce" (tpm_nonce quote);
  if negb (bool_decide (nonce = report_data)) then Err "TPM quote nonce doesn't match expected report_data"
  else Ok tt.

(** [verify_signature] and [verify_tpm_signature]. *)
Definition verify_tpm_signature (quote : TpmQuote) (hcl_report : HclReport) : outcome anyhow unit :=
  der ← ok_or "Failed to get AKpub" (hcl_ak_pub_der hcl_report);
  ak_pub ← ok_or "Failed to parse AKpub" (public_key_from_der der);
  if tpm_verify_signature quote ak_pub then Ok tt else Err "vTPM quote is not signed by AKpub".

Definition verify_pcrs (quote : TpmQuote) : outcome anyhow unit :=
  if tpm_verify_pcrs quote then Ok tt else Err "Digest of PCRs does not match digest in Quote".

(** [verify_report_data]. *)
Definition verify_report_data (var_data_hash : bytes) (snp_report : AttestationReport) : outcome anyhow unit :=
  rd ← slice (ar_report_data snp_report) 0 32;
  if negb (bool_decide (var_data_hash = rd)) then Err "SNP report report_data mismatch" else Ok tt.

(** [verify_report_signature]. *)
Definition verify_report_signature (report : AttestationReport) (vcek : Certificate) : outcome anyhow unit :=
  common_name ← map_err (fun _ => "No common name found in certificate") (get_common_name vcek);
  (if String.eqb common_name "VCEK" then
     hw_id ← get_oid_octets 64 vcek HW_ID_OID;
     if negb (bool_decide (hw_id = chip_id report)) then Err "Chip ID mismatch" else Ok tt
   else Ok tt);;
  ucode ← get_oid_int vcek UCODE_SPL_OID;
  if negb (ucode =? microcode (reported_tcb report)) then Err "Microcode version mismatch" else
  snp ← get_oid_int vcek SNP_SPL_OID;
  if negb (snp =? tcb_snp (reported_tcb report)) then Err "SNP version mismatch" else
  tee ← get_oid_int vcek TEE_SPL_OID;
  if negb (tee =? tcb_tee (reported_tcb report)) then Err "TEE version mismatch" else
  loader ← get_oid_int vcek LOADER_SPL_OID;
  if negb (loader =? bootloader (reported_tcb report)) then Err "Boot loader version mismatch" else
  sig ← ok_or "signature" (report_ecdsa_sig report);
  raw_report_bytes ← ok_or "Failed to write report bytes" (report_write_bytes report);
  data ← slice raw_report_bytes 0 SNP_REPORT_SIGNATURE_OFFSET;
  pub_key ← ok_or "public key" (ec_public_key vcek);
  signed ← ok_or "ecdsa" (ecdsa_verify sig (openssl_sha384 data) pub_key);
  if negb signed then Err "Signature validation failed." else Ok tt.

Definition verify_snp_report (snp_report : AttestationReport) (vcek : Certificate) : outcome anyhow unit :=
  verify_report_signature snp_report vcek;;
  if negb (vmpl snp_report =? HCL_VMPL_VALUE) then Err "VMPL of SNP report is not 0" else Ok tt.

(** [verify_init_data]. *)
Definition verify_init_data (expected : InitDataHash) (pcrs : list bytes) : outcome anyhow unit :=
  init_data_check "Expected init_data digest is different from the content of PCR8" expected pcrs.

(** [parse_tee_evidence_az]: everything as text. *)
Definition parse_tee_evidence_az (report : AttestationReport) : Value :=
  VObject
    [("policy_abi_major", VString (fmt_dec (abi_major (policy report))));
     ("policy_abi_minor", VString (fmt_dec (abi_minor (policy report))));
     ("policy_smt_allowed", VString (fmt_bool (smt_allowed (policy report))));
     ("policy_migrate_ma", VString (fmt_bool (migrate_ma_allowed (policy report))));
     ("policy_debug_allowed", VString (fmt_bool (debug_allowed (policy report))));
     ("policy_single_socket", VString (fmt_bool (single_socket_required (policy report))));
     ("reported_tcb_bootloader", VString (fmt_dec (bootloader (reported_tcb report))));
     ("reported_tcb_tee", VString (fmt_dec (tcb_tee (reported_tcb report))));
     ("reported_tcb_snp", VString (fmt_dec (tcb_snp (reported_tcb report))));
     ("reported_tcb_microcode", VString (fmt_dec (microcode (reported_tcb report))));
     ("platform_tsme_enabled", VString (fmt_bool (tsme_enabled (plat_info report))));
     ("platform_smt_enabled", VString (fmt_bool (plat_smt_enabled (plat_info report))));
     ("measurement", VString (base64_standard_encode (ar_measurement report)));
     ("report_data", VString (base64_standard_encode (ar_report_data report)));
     ("init_data", VString (base64_standard_encode (host_data report)))].

(** [AzSnpVtpm::new]: the certificates of Milan only. *)
Definition az_snp_vtpm_new : outcome anyhow VendorCertificates := cert_chains Milan.

Definition az_snp_evaluate (vendor_certs : VendorCertificates) (evidence : Value)
    (expected_report_data : ReportData) (expected_init_data_hash : InitDataHash) :
    outcome anyhow (list (Value * string)) :=
  match expected_report_data with
  | RD_NotProvided => Err "unexpected empty report data"
  | RD_Value expected =>
      '(quote, report, vcek) ← ok_or "Failed to deserialize Azure vTPM SEV-SNP evidence" (az_snp_from_value evidence);
      hcl_report ← ok_or "HclReport" (hcl_report_new report);
      verify_tpm_signature quote hcl_report;;
      verify_nonce quote expected;;
      verify_pcrs quote;;
      let var_data_hash := var_data_sha256 hcl_report in
      snp_report ← ok_or "report" (hcl_snp_report hcl_report);
      verify_report_data var_data_hash snp_report;;
      vcek ← ok_or "Vcek" (vcek_from_pem vcek);
      (if ca_chain_validate vendor_certs then Ok tt else Err "Failed to validate CA chain");;
      (if vcek_validate vcek vendor_certs then Ok tt else Err "Failed to validate VCEK");;
      verify_snp_report snp_report vcek;;
      verify_init_data expected_init_data_hash (pcrs_sha256 quote);;
      claim ← extend_claim (parse_tee_evidence_az snp_report) quote;
      Ok [(claim, "cpu")]
  end.

Definition az_snp_verifier (vendor_certs : VendorCertificates) : Verifier :=
  {| evaluate := az_snp_evaluate vendor_certs; generate_supplemental_challenge := default_supplemental_challenge |}.

(** [verify_hcl_var_data]. *)
Definition verify_hcl_var_data (hcl_report : HclReport) (td_quote : Quote) : outcome anyhow unit :=
  rd ← slice (quote_report_data td_quote) 0 32;
  if negb (bool_decide (var_data_sha256 hcl_report = rd)) then Err "TDX Quote report data mismatch" else Ok tt.

Definition az_tdx_evaluate (evidence : Value) (expected_report_data : ReportData)
    (expected_init_data_hash : InitDataHash) : outcome anyhow (list (Value * string)) :=
  match expected_report_data with
  | RD_NotProvided => Err "unexpected empty report data"
  | RD_Value expected =>
      '(tpm_quote, hcl, td) ← ok_or "Failed to deserialize Azure vTPM TDX evidence" (az_tdx_from_value evidence);
      hcl_report ← ok_or "HclReport" (hcl_report_new hcl);
      verify_tpm_signature tpm_quote hcl_report;;
      verify_nonce tpm_quote expected;;
      verify_pcrs tpm_quote;;
      custom_claims ← ecdsa_quote_verification td;
      td_quote ← parse_tdx_quote td;
      verify_hcl_var_data hcl_report td_quote;;
      verify_init_data expected_init_data_hash (pcrs_sha256 tpm_quote);;
      claim ← generate_parsed_claim td_quote None;
      claim ← extend_claim claim tpm_quote;
      claim ← extend_using_custom_claims claim custom_claims;
      Ok [(claim, "cpu")]
  end.

Definition az_tdx_verifier : Verifier :=
  {| evaluate := az_tdx_evaluate; generate_supplemental_challenge := default_supplemental_challenge |}.
End AzVerifiers.
