(* ===== verification/AzVtpmProofs.v ===== *)
(** * The Azure vTPM verifiers: accepted evidence

    The chain of trust both verifiers check: the TPM quote is signed by the key
    of the paravisor report, its nonce is the expected report data, the hash of
    the paravisor's variable data is in the hardware report, and PCR 8 holds the
    extension of the init data hash.  And the inputs on which they panic. *)
From S2P Require Import Prelude Types Text Fs Json TcgEvents Verifier IntelDcap TdxQuote TdxQuoteProofs Snp SnpProofs TdxProofs AzVtpm.

(** PCR 8 was extended once, with the expected hash. *)
Definition init_data_extended `{VT : VtpmCrates} (h : InitDataHash) (pcrs : list bytes) : Prop :=
  match h with
  | ID_NotProvided => True
  | ID_Value i => len i = 32 /\ pcrs !! 8%nat = Some (openssl_sha256 (replicate 32 Init.Byte.x00 ++ i))
  end.

Lemma init_data_check_spec `{VT : VtpmCrates} msg h pcrs :
  (init_data_check msg h pcrs = Ok tt <-> init_data_extended h pcrs) /\
  (init_data_check msg h pcrs = Panic <-> exists i, h = ID_Value i /\ (len i <> 32 \/ len pcrs <= 8)).
Proof.
  destruct h as [i|]; cbn [init_data_check init_data_extended].
  2:{ split; [done|]. split; [done|]. now intros (i & [=] & _). }
  destruct (Z.eqb_spec (len i) 32) as [El|El]; cbn [negb].
  2:{ split; [split; [done|tauto]|]. split; [|done]. intros _. exists i. auto. }
  unfold index, INITDATA_PCR. rewrite (proj2 (Z.leb_le 0 8)) by lia. change (Z.to_nat 8) with 8%nat.
  destruct (pcrs !! 8%nat) as [p|] eqn:E.
  - assert (8 < len pcrs) by (apply lookup_lt_Some in E; unfold len; lia).
    cbn [unwrap mbind outcome_bind]. destruct (bool_decide_reflect (openssl_sha256 (replicate 32 Init.Byte.x00 ++ i) = p)) as [Ep|Ep].
    + cbn [negb]. split; [rewrite Ep; tauto|]. split; [done|]. intros (i' & [= <-] & [?|?]); lia.
    + cbn [negb]. split; [split; [done|intros [_ E']; congruence]|]. split; [done|]. intros (i' & [= <-] & [?|?]); lia.
  - cbn [unwrap mbind outcome_bind]. split; [split; [done|intros [_ ?]; done]|]. split; [|done]. intros _. exists i. split; [done|]. right.
    apply lookup_ge_None in E. unfold len. lia.
Qed.

Section AzProofs.
Context `{VC : VerifierCrates} `{AZ : AzCrates} `{DC : DcapCrates}.

(** ** The steps both verifiers share *)
Lemma verify_nonce_Ok quote d : verify_nonce quote d = Ok tt <-> tpm_nonce quote = Some d.
Proof.
  unfold verify_nonce. destruct (tpm_nonce quote) as [n|]; cbn [ok_or mbind outcome_bind]; [|done].
  destruct (bool_decide_reflect (n = d)) as [->|]; cbn [negb]; [done|]. split; [done|congruence].
Qed.

(** The attestation key of the paravisor report signed the quote. *)
Definition quote_signed (quote : TpmQuote) (hcl : HclReport) : Prop :=
  exists der k, hcl_ak_pub_der hcl = Some der /\ public_key_from_der der = Some k /\ tpm_verify_signature quote k = true.

Lemma verify_tpm_signature_Ok quote hcl : verify_tpm_signature quote hcl = Ok tt <-> quote_signed quote hcl.
Proof.
  unfold verify_tpm_signature, quote_signed. split.
  - intros H. apply bind_Ok in H as (der & H1%ok_or_Ok & H). apply bind_Ok in H as (k & H2%ok_or_Ok & H).
    exists der, k. destruct (tpm_verify_signature quote k); [done|discriminate].
  - intros (der & k & -> & H2 & H3). cbn [ok_or mbind outcome_bind]. rewrite H2. cbn [ok_or mbind outcome_bind].
    now rewrite H3.
Qed.

(** ** Accepted evidence *)
Record tpm_accepted (quote : TpmQuote) (hcl : HclReport) (d : bytes) (h : InitDataHash) : Prop := {
  ta_signed : quote_signed quote hcl;
  ta_nonce : tpm_nonce quote = Some d;
  ta_pcrs : tpm_verify_pcrs quote = true;
  ta_init_data : init_data_extended h (pcrs_sha256 quote);
}.

(** What the claims of both verifiers add to those of the hardware report. *)
Definition tpm_claims (quote : TpmQuote) (d : bytes) (claim claim' : Value) : Prop :=
  exists map pcr, claim = VObject map /\ pcrs_sha256 quote !! 8%nat = Some pcr /\
    claim' = VObject (obj_insert "report_data" (VString (hex_encode d))
                       (obj_insert "init_data" (VString (hex_encode pcr))
                          (obj_insert "tpm" (VObject (pcr_claims (pcrs_sha256 quote))) map))).

Lemma extend_claim_Ok quote d claim claim' :
  tpm_nonce quote = Some d -> extend_claim claim quote = Ok claim' -> tpm_claims quote d claim claim'.
Proof.
  intros Hn. unfold extend_claim. destruct claim as [| | | | |map]; try done. intros H.
  apply bind_Ok in H as (pcr & Hp & H). rewrite Hn in H. cbn [ok_or mbind outcome_bind] in H.
  injection H as <-. exists map, pcr. repeat split; [|done..].
  unfold index, INITDATA_PCR in Hp. cbn [Z.leb Z.compare] in Hp. change (Z.to_nat 8) with 8%nat in Hp.
  destruct (pcrs_sha256 quote !! 8%nat); [|done]. cbn in Hp. congruence.
Qed.

Lemma verify_pcrs_Ok quote : verify_pcrs quote = Ok tt <-> tpm_verify_pcrs quote = true.
Proof. unfold verify_pcrs. now destruct (tpm_verify_pcrs quote). Qed.

(** The SNP report of the paravisor: made at VMPL 0, signed by a VCEK of the
    vendor's chain, with the TCB certified for it. *)
Record hcl_report_accepted (vendor : VendorCertificates) (vcek : Certificate) (report : AttestationReport) : Prop := {
  ha_vmpl : vmpl report = 0;
  ha_ca : ca_chain_validate vendor = true;
  ha_vcek : vcek_validate vcek vendor = true;
  ha_tcb : tcb_matches report vcek;
  ha_signed : exists sig raw data k, report_ecdsa_sig report = Some sig /\ report_write_bytes report = Some raw /\
    data = take 672 raw /\ length data = 672%nat /\ ec_public_key vcek = Some k /\
    ecdsa_verify sig (openssl_sha384 data) k = Some true;
}.

Lemma verify_report_signature_Ok report vcek :
  verify_report_signature report vcek = Ok tt ->
  tcb_matches report vcek /\
  exists sig raw data k, report_ecdsa_sig report = Some sig /\ report_write_bytes report = Some raw /\
    data = take 672 raw /\ length data = 672%nat /\ ec_public_key vcek = Some k /\
    ecdsa_verify sig (openssl_sha384 data) k = Some true.
Proof.
  unfold verify_report_signature. intros H. apply bind_Ok in H as (cn & Hcn%map_err_Ok & H).
  apply bind_Ok in H as ([] & Hid & H). pose proof (chip_check_Ok _ _ _ Hid) as Hchip.
  apply spl_check_Ok in H as [H1 H]. apply spl_check_Ok in H as [H2 H].
  apply spl_check_Ok in H as [H3 H]. apply spl_check_Ok in H as [H4 H].
  apply bind_Ok in H as (sig & Hsig%ok_or_Ok & H). apply bind_Ok in H as (raw & Hraw%ok_or_Ok & H).
  apply bind_Ok in H as (data & Hd & H). apply bind_Ok in H as (k & Hk%ok_or_Ok & H).
  apply bind_Ok in H as (b & Hb%ok_or_Ok & H). destruct b; [|done].
  split.
  - split; eauto 10.
  - exists sig, raw, data, k. pose proof (slice_len _ _ _ _ Hd) as Hl. apply slice_Ok in Hd as [Hle ->].
    unfold SNP_REPORT_SIGNATURE_OFFSET in *. repeat split; try done.
    unfold len in Hl. lia.
Qed.

Lemma verify_snp_report_Ok vendor report vcek :
  ca_chain_validate vendor = true -> vcek_validate vcek vendor = true ->
  verify_snp_report report vcek = Ok tt -> hcl_report_accepted vendor vcek report.
Proof.
  unfold verify_snp_report. intros Hca Hv H. apply bind_Ok in H as ([] & [Ht Hs]%verify_report_signature_Ok & H).
  destruct (Z.eqb_spec (vmpl report) HCL_VMPL_VALUE) as [E|]; [|done]. now constructor.
Qed.

(** [az_snp_vtpm] accepts: the whole chain. *)
Definition az_snp_accepted (vendor : VendorCertificates) (evidence : Value) (d : bytes) (h : InitDataHash)
    (claims : list (Value * string)) : Prop :=
  exists quote raw pem hcl report vcek claim,
    az_snp_from_value evidence = Some (quote, raw, pem) /\ hcl_report_new raw = Some hcl /\
    tpm_accepted quote hcl d h /\
    hcl_snp_report hcl = Some report /\ take 32 (ar_report_data report) = var_data_sha256 hcl /\
    vcek_from_pem pem = Some vcek /\ hcl_report_accepted vendor vcek report /\
    tpm_claims quote d (parse_tee_evidence_az report) claim /\ claims = [(claim, "cpu")].

Lemma az_snp_evaluate_Ok vendor evidence d h claims :
  az_snp_evaluate vendor evidence (RD_Value d) h = Ok claims -> az_snp_accepted vendor evidence d h claims.
Proof.
  cbn [az_snp_evaluate]. intros H. apply bind_Ok in H as ([[quote raw] pem] & Hev%ok_or_Ok & H).
  apply bind_Ok in H as (hcl & Hhcl%ok_or_Ok & H).
  apply bind_Ok in H as ([] & Hsig%verify_tpm_signature_Ok & H). apply bind_Ok in H as ([] & Hn%verify_nonce_Ok & H).
  apply bind_Ok in H as ([] & Hp%verify_pcrs_Ok & H). cbv zeta in H.
  apply bind_Ok in H as (report & Hr%ok_or_Ok & H).
  apply bind_Ok in H as ([] & Hrd & H). unfold verify_report_data in Hrd. apply bind_Ok in Hrd as (rd & Hs & Hrd).
  apply slice_Ok in Hs as [_ ->]. destruct (bool_decide_reflect (var_data_sha256 hcl = range (ar_report_data report) 0 32)) as [Ev|]; [|done].
  apply bind_Ok in H as (vcek & Hvcek%ok_or_Ok & H).
  apply bind_Ok in H as ([] & Hca & H). destruct (ca_chain_validate vendor) eqn:Eca; [|done].
  apply bind_Ok in H as ([] & Hvv & H). destruct (vcek_validate vcek vendor) eqn:Evv; [|done].
  apply bind_Ok in H as ([] & Hrep & H).
  apply bind_Ok in H as ([] & Hi & H). apply (proj1 (init_data_check_spec _ _ _)) in Hi.
  apply bind_Ok in H as (claim & Hc & [= <-]).
  apply extend_claim_Ok with (d := d) in Hc; [|done].
  exists quote, raw, pem, hcl, report, vcek, claim. do 2 (split; [done|]). split; [now constructor|].
  do 2 (split; [done|]). split; [done|]. split; [now apply verify_snp_report_Ok|done].
Qed.

(** Accepted evidence of an Azure SNP guest.  When the verifier accepts
    evidence, the TPM quote is signed by the attestation key in the paravisor
    report, its nonce is exactly the expected report data and its PCRs are those
    it quotes; the SNP report carries the hash of the paravisor's data, was made
    at VMPL 0 and is signed by a VCEK of the vendor's chain with the TCB
    certified for it; PCR 8 is the extension of the init data hash from zero.
    The claims give the expected report data and PCR 8. *)
Theorem az_snp_evaluate_sound vendor evidence d h claims :
  az_snp_evaluate vendor evidence (RD_Value d) h = Ok claims -> az_snp_accepted vendor evidence d h claims.
Proof. apply az_snp_evaluate_Ok. Qed.

Definition az_snp_reported (evidence : Value) : option bytes :=
  '(quote, _, _) ← az_snp_from_value evidence; tpm_nonce quote.

#[export] Instance az_snp_binds vendor : VerifierBinds (az_snp_verifier vendor) id az_snp_reported.
Proof.
  intros evidence d h claims (quote & raw & pem & hcl & _ & _ & _ & He & _ & Ha & _)%az_snp_evaluate_Ok.
  unfold az_snp_reported. rewrite He. exact (ta_nonce _ _ _ _ Ha).
Qed.

(** [az_tdx_vtpm] accepts. *)
Definition az_tdx_accepted (evidence : Value) (d : bytes) (h : InitDataHash) (claims : list (Value * string)) : Prop :=
  exists quote raw td hcl q rest want status result supp m,
    az_tdx_from_value evidence = Some (quote, raw, td) /\ hcl_report_new raw = Some hcl /\
    tpm_accepted quote hcl d h /\
    quote_wf q /\ td = encode_quote q ++ rest /\
    tee_verify_quote td (tee_qv_get_collateral td) unix_now want = Some (status, result, supp) /\
    (forall code, result <> SGX_QL_QV_RESULT_other code) /\
    take 32 (quote_report_data q) = var_data_sha256 hcl /\
    claims = [(VObject m, "cpu")] /\
    obj_get "quote" m = Some (VObject (quote_claims q)) /\
    obj_get "tpm" m = Some (VObject (pcr_claims (pcrs_sha256 quote))) /\
    obj_get "report_data" m = Some (VString (hex_encode d)).

Lemma az_tdx_evaluate_Ok evidence d h claims :
  az_tdx_evaluate evidence (RD_Value d) h = Ok claims -> az_tdx_accepted evidence d h claims.
Proof.
  cbn [az_tdx_evaluate]. intros H. apply bind_Ok in H as ([[quote raw] td] & Hev%ok_or_Ok & H).
  apply bind_Ok in H as (hcl & Hhcl%ok_or_Ok & H).
  apply bind_Ok in H as ([] & Hsig%verify_tpm_signature_Ok & H). apply bind_Ok in H as ([] & Hn%verify_nonce_Ok & H).
  apply bind_Ok in H as ([] & Hp%verify_pcrs_Ok & H).
  apply bind_Ok in H as (custom & Hc & H). apply bind_Ok in H as (q & Hq & H).
  apply parse_tdx_quote_Ok in Hq as (Hwf & rest & ->).
  apply bind_Ok in H as ([] & Hrd & H). unfold verify_hcl_var_data in Hrd. apply bind_Ok in Hrd as (rd & Hs & Hrd).
  apply slice_Ok in Hs as [_ ->].
  destruct (bool_decide_reflect (var_data_sha256 hcl = range (quote_report_data q) 0 32)) as [Ev|]; [|done].
  apply bind_Ok in H as ([] & Hi & H). apply (proj1 (init_data_check_spec _ _ _)) in Hi.
  destruct (generate_parsed_claim_wf q None Hwf) as (m0 & Hm & _ & _ & Hqt & _).
  rewrite Hm in H. cbn [mbind outcome_bind] in H.
  apply bind_Ok in H as (c1 & Hx & H). apply extend_claim_Ok with (d := d) in Hx as (m1 & pcr & [= <-] & _ & ->); [|done].
  apply bind_Ok in H as (c2 & Hy & [= <-]).
  destruct (ecdsa_quote_verification_Ok _ _ Hc) as (want & status & result & supp & Hv & Hres & _).
  destruct (extend_keeps _ _ _ _ Hc Hy) as (m' & -> & K).
  exists quote, raw, (encode_quote q ++ rest), hcl, q, rest, want, status, result, supp, m'.
  do 2 (split; [done|]). split; [now constructor|]. do 4 (split; [done|]). split; [done|].
  split; [done|]. rewrite !K by (unfold custom_claim_names; set_solver).
  now rewrite !obj_get_insert_eq, !obj_get_insert_ne, obj_get_insert_eq by done.
Qed.

(** Accepted evidence of an Azure TDX guest.  When the verifier accepts
    evidence, the TPM quote is signed by the attestation key in the paravisor
    report, its nonce is exactly the expected report data and PCR 8 is the
    extension of the init data hash; the TD quote is well formed, was accepted by
    the DCAP library with a result that is not terminal and carries the hash of
    the paravisor's data; the claims are those of the TD quote, the PCRs and the
    expected report data, which replaces that of the TD. *)
Theorem az_tdx_evaluate_sound evidence d h claims :
  az_tdx_evaluate evidence (RD_Value d) h = Ok claims -> az_tdx_accepted evidence d h claims.
Proof. apply az_tdx_evaluate_Ok. Qed.

Definition az_tdx_reported (evidence : Value) : option bytes :=
  '(quote, _, _) ← az_tdx_from_value evidence; tpm_nonce quote.

#[export] Instance az_tdx_binds : VerifierBinds az_tdx_verifier id az_tdx_reported.
Proof.
  intros evidence d h claims Ha%az_tdx_evaluate_Ok. destruct Ha as (quote & raw & td & hcl & q & H).
  destruct H as (? & ? & ? & ? & ? & ? & He & _ & Ha & _).
  unfold az_tdx_reported. rewrite He. exact (ta_nonce _ _ _ _ Ha).
Qed.

(** ** Panics *)

(** Run a goal through the steps a successful run took. *)
Local Ltac follow H :=
  apply bind_Ok in H as (? & ?E & H); match goal with E : _ = Ok _ |- _ => rewrite E; clear E end;
  cbn [mbind outcome_bind].

(** Init data of another hash crashes the Azure verifiers.  The hash is
    copied into a field of 32 bytes, so evidence that is accepted when no init
    data is given makes both verifiers panic, instead of being refused, when it
    comes with a hash of any other length, such as the SHA-384 or SHA-512 digest
    a guest may choose for its init data. *)
Theorem az_init_data_panics vendor evidence d i claims :
  len i <> 32 ->
  (az_snp_evaluate vendor evidence (RD_Value d) ID_NotProvided = Ok claims ->
   az_snp_evaluate vendor evidence (RD_Value d) (ID_Value i) = Panic) /\
  (az_tdx_evaluate evidence (RD_Value d) ID_NotProvided = Ok claims ->
   az_tdx_evaluate evidence (RD_Value d) (ID_Value i) = Panic).
Proof.
  intros Hi. assert (Hp : forall pcrs, verify_init_data (ID_Value i) pcrs = Panic).
  { intros pcrs. apply init_data_check_spec. eauto. }
  split; cbn [az_snp_evaluate az_tdx_evaluate]; intros H; cbv zeta in H |- *;
    apply bind_Ok in H as ([[quote raw] pem] & E & H); rewrite E; cbn [mbind outcome_bind];
    [do 10 follow H|do 7 follow H]; now rewrite Hp.
Qed.
End AzProofs.

(** ** A concrete instance *)
Module AzDemo.
Import Init.Byte.
#[export] Existing Instance TdxDemo.demo_dcap.
#[export] Existing Instance SnpDemo.demo_snp_crates.

Definition demo_hcl_report : AttestationReport :=
  {| ar_version := 3; cpuid_fam_id := None; cpuid_mod_id := None; vmpl := 0;
     ar_report_data := replicate 64 x0c; host_data := replicate 32 x05; chip_id := replicate 64 x01;
     ar_measurement := replicate 48 x02; reported_tcb := reported_tcb SnpDemo.demo_snp_report;
     policy := policy SnpDemo.demo_snp_report; plat_info := plat_info SnpDemo.demo_snp_report |}.

Definition demo_nonce : bytes := replicate 48 x07.
Definition demo_pcrs : list bytes := replicate 24 (replicate 32 x09).

#[export] Instance demo_vtpm : VtpmCrates := {|
  TpmQuote := unit; PublicKey := unit;
  tpm_nonce _ := Some demo_nonce;
  pcrs_sha256 _ := demo_pcrs;
  tpm_verify_signature _ _ := true;
  tpm_verify_pcrs _ := true;
  public_key_from_der _ := Some tt;
  openssl_sha256 _ := replicate 32 x09;
|}.

#[export] Instance demo_az : AzCrates (SC := SnpDemo.demo_snp_crates) (VT := demo_vtpm) := {|
  HclReport := unit;
  hcl_report_new _ := Some tt;
  hcl_ak_pub_der _ := Some [];
  var_data_sha256 _ := replicate 32 x0c;
  hcl_snp_report _ := Some demo_hcl_report;
  vcek_from_pem _ := Some SnpDemo.demo_cert;
  ca_chain_validate _ := true;
  vcek_validate _ _ := true;
  EcdsaSig := unit; EcPublicKey := unit;
  report_ecdsa_sig _ := Some tt;
  report_write_bytes _ := Some (replicate 1184 x00);
  ec_public_key _ := Some tt;
  ecdsa_verify _ _ _ := Some true;
  openssl_sha384 _ := replicate 48 x00;
  az_snp_from_value _ := Some (tt : @TpmQuote demo_vtpm, [], "");
  az_tdx_from_value _ := Some (tt : @TpmQuote demo_vtpm, [], encode_quote QuoteDemo.demo_quote);
|}.

#[export] Instance demo_az_verifier_crates : VerifierCrates := SnpDemo.demo_verifier_crates.

Definition demo_vendor : VendorCertificates (SC := SnpDemo.demo_snp_crates) :=
  {| ask := SnpDemo.demo_cert; ark := SnpDemo.demo_cert; asvk := SnpDemo.demo_cert |}.

Definition claims_of (r : outcome anyhow (list (Value * string))) : list (Value * string) :=
  match r with
  | Ok c => c
  | _ => []
  end.
Definition demo_init : InitDataHash := ID_Value (replicate 32 x05).
Definition demo_snp_claims := claims_of (az_snp_evaluate demo_vendor VNull (RD_Value demo_nonce) demo_init).
Definition demo_tdx_claims := claims_of (az_tdx_evaluate VNull (RD_Value demo_nonce) demo_init).

Lemma az_snp_evaluate_sound_witness : az_snp_accepted demo_vendor VNull demo_nonce demo_init demo_snp_claims.
Proof. apply az_snp_evaluate_sound. vm_compute. reflexivity. Defined.

Lemma az_tdx_evaluate_sound_witness : az_tdx_accepted VNull demo_nonce demo_init demo_tdx_claims.
Proof. apply az_tdx_evaluate_sound. vm_compute. reflexivity. Defined.

Lemma az_init_data_panics_witness :
  az_snp_evaluate demo_vendor VNull (RD_Value demo_nonce) (ID_Value (replicate 48 x05)) = Panic /\
  az_tdx_evaluate VNull (RD_Value demo_nonce) (ID_Value (replicate 48 x05)) = Panic.
Proof.
  split.
  - apply (az_init_data_panics demo_vendor VNull demo_nonce (replicate 48 x05)
      (claims_of (az_snp_evaluate demo_vendor VNull (RD_Value demo_nonce) ID_NotProvided))); [done|].
    vm_compute. reflexivity.
  - apply (az_init_data_panics demo_vendor VNull demo_nonce (replicate 48 x05)
      (claims_of (az_tdx_evaluate VNull (RD_Value demo_nonce) ID_NotProvided))); [done|].
    vm_compute. reflexivity.
Defined.
End AzDemo.
