(* ===== verification/Tpm.v ===== *)
(** * The TPM verifier ([deps/verifier/src/tpm/mod.rs], [config.rs])

    A TPM quote is accepted if it is signed by an attestation key whose hash is
    among those of the trusted keys, loaded from a directory when the verifier is
    made. *)
From S2P Require Import Prelude Types Text Fs Json TcgEvents Verifier Snp AzVtpm.

Definition MAX_TRUSTED_AK_KEYS : Z := 100.
Definition DEFAULT_TRUSTED_AK_KEYS_DIR : string := "/etc/tpm/trusted_ak_keys".
Definition TPM_REPORT_DATA_SIZE : nat := 64.

Record TpmVerifierConfig := {
  trusted_ak_keys_dir : string;
  max_trusted_ak_keys : Z;
}.

Definition tpm_config_default : TpmVerifierConfig :=
  {| trusted_ak_keys_dir := DEFAULT_TRUSTED_AK_KEYS_DIR; max_trusted_ak_keys := MAX_TRUSTED_AK_KEYS |}.

(** The quote as it is sent, its fields as text. *)
Record TextQuote := {
  tq_signature : string;
  tq_message : string;
  tq_pcrs : list string;
}.

Record TpmEvidence := {
  ak_public : string;
  tpm_quote : TextQuote;
}.

(** Signatures of [tss_esapi]. *)
Inductive TssSignature := RsaSsa (signature : bytes) | OtherSignature.

(** A [HashSet], of which only membership is used. *)
Record TpmVerifier := { trusted_ak_hashes : list bytes }.

Class TpmCrates `{VT : VtpmCrates} := {
  (** [serde_json::from_value] at the evidence, and at a quote made of its parts *)
  tpm_evidence_from_value : Value -> option TpmEvidence;
  vtpm_quote_of : bytes -> bytes -> list bytes -> option TpmQuote;
  (** [tss_esapi], [hex], [sha2], [openssl] *)
  tss_signature_unmarshall : bytes -> option TssSignature;
  tpm_hex_decode : string -> option bytes;
  sha2_sha256 : bytes -> bytes;
  public_key_pem_to_der : string -> option bytes;
}.

Section TpmVerifier.
Context `{VC : VerifierCrates} `{TC : TpmCrates} `{D : Disk}.

(** ** Quotes *)

(** [extract_raw_signature_bytes]. *)
Definition extract_raw_signature_bytes (q : TextQuote) : outcome anyhow bytes :=
  signature_marshalled ← ok_or "Failed to decode signature from base64" (base64_standard_decode (tq_signature q));
  tss_signature ← ok_or "Failed to unmarshal TSS signature" (tss_signature_unmarshall signature_marshalled);
  match tss_signature with
  | RsaSsa s => Ok s
  | OtherSignature => Err "Unsupported signature type, expected RSA-SSA"
  end.

(** [parse_pcr_values]. *)
Fixpoint parse_pcr_values (pcrs : list string) : outcome anyhow (list bytes) :=
  match pcrs with
  | [] => Ok []
  | pcr_str :: l =>
      if negb (Z.of_nat (String.length pcr_str) =? 64) then Err "PCR should be 64 hex characters (32 bytes)"
      else
        pcr_bytes ← ok_or "Failed to decode PCR from hex" (tpm_hex_decode pcr_str);
        if negb (len pcr_bytes =? 32) then Err "PCR should be exactly 32 bytes"
        else rest ← parse_pcr_values l; Ok (pcr_bytes :: rest)
  end.

(** [to_quote]. *)
Definition to_quote (q : TextQuote) : outcome anyhow TpmQuote :=
  raw_signature_bytes ← extract_raw_signature_bytes q;
  message ← ok_or "Failed to decode message from base64" (base64_standard_decode (tq_message q));
  pcrs ← parse_pcr_values (tq_pcrs q);
  ok_or "Failed to construct Quote from parsed data" (vtpm_quote_of raw_signature_bytes message pcrs).

(** ** The trusted keys *)

(** [load_and_hash_key]. *)
Definition load_and_hash_key (path : string) : st Fs anyhow bytes :=
  content ← st_map_err (fun _ => "Failed to read key file") (fs_read path);
  key_content ← st_lift (ok_or "Failed to read key file" (from_utf8 content));
  key_bytes ← st_lift (ok_or "Failed to parse PEM public key" (public_key_pem_to_der key_content));
  mret (sha2_sha256 key_bytes).

(** The loop over the key files: a key that cannot be loaded is skipped. *)
Fixpoint load_keys (paths : list string) (trusted : list bytes) : st Fs anyhow (list bytes) :=
  match paths with
  | [] => mret trusted
  | path :: l => fun fs =>
      match load_and_hash_key path fs with
      | (fs, Ok hash) => load_keys l (hash :: trusted) fs
      | (fs, Err _) => load_keys l trusted fs
      | (fs, Panic) => (fs, Panic)
      end
  end.

(** The filter on the entries of the directory. *)
Definition is_key_file (fs : Fs) (dir name : string) : bool :=
  is_file fs (resolve (path_push dir name)) &&
  bool_decide ((file_stem_extension name).2 = Some "pub").

(** [TpmVerifier::new]. *)
Definition tpm_new (config : option TpmVerifierConfig) : st Fs anyhow TpmVerifier :=
  let config := default tpm_config_default config in
  let keys_dir := trusted_ak_keys_dir config in
  dir_entries ← st_map_err (fun _ => "Failed to read trusted AK keys directory") (fs_read_dir keys_dir);
  trusted_keys ← st_gets (fun fs => base.filter (is_key_file fs keys_dir) dir_entries);
  trusted ← load_keys (map (path_push keys_dir) (take (Z.to_nat (max_trusted_ak_keys config)) trusted_keys)) [];
  mret {| trusted_ak_hashes := trusted |}.

(** ** Evaluation *)
Definition tpm_verify_ak_signature (quote : TpmQuote) (ak_public : string) : outcome anyhow unit :=
  pub_bytes ← ok_or "Base64 decode of AK public failed" (base64_standard_decode ak_public);
  ak_pub ← ok_or "Failed to parse AK public key" (public_key_from_der pub_bytes);
  if tpm_verify_signature quote ak_pub then Ok tt else Err "TPM quote signature verification failed".

Definition tpm_check_pcrs (quote : TpmQuote) : outcome anyhow unit :=
  if tpm_verify_pcrs quote then Ok tt else Err "Digest of PCRs does not match digest in Quote".

Definition tpm_verify_nonce (quote : TpmQuote) (expected_report_data : bytes) : outcome anyhow unit :=
  nonce ← ok_or "nonce" (tpm_nonce quote);
  let padded_expected := resize TPM_REPORT_DATA_SIZE Init.Byte.x00 expected_report_data in
  if bool_decide (nonce = padded_expected) then Ok tt
  else Err "TPM quote nonce doesn't match expected report_data".

Definition tpm_verify_init_data (expected : InitDataHash) (quote : TpmQuote) : outcome anyhow unit :=
  init_data_check "TPM PCR[8] doesn't match expected initdata hash" expected (pcrs_sha256 quote).

(** [parse_tee_evidence]. *)
Definition tpm_parse_tee_evidence (quote : TpmQuote) : outcome anyhow Value :=
  pcr ← index (pcrs_sha256 quote) INITDATA_PCR;
  Ok (VObject [("init_data", VString (hex_encode pcr));
               ("report_data", VString (hex_encode (default [] (tpm_nonce quote))))]).

(** [extend_claim]. *)
Definition tpm_extend_claim (claim : Value) (quote : TpmQuote) : outcome anyhow Value :=
  match claim with
  | VObject map => Ok (VObject (foldl (fun m kv => obj_insert kv.1 kv.2 m) map (pcr_claims (pcrs_sha256 quote))))
  | _ => Err "failed to extend the claim, not an object"
  end.

Definition tpm_evaluate (v : TpmVerifier) (evidence : Value) (expected_report_data : ReportData)
    (expected_init_data_hash : InitDataHash) : outcome anyhow (list (Value * string)) :=
  guest_ev ← ok_or "Failed to deserialize TPM Evidence" (tpm_evidence_from_value evidence);
  quote ← map_err (fun _ => "Failed to convert quote from string format") (to_quote (tpm_quote guest_ev));
  ak_public_bytes ← ok_or "base64" (base64_standard_decode (ak_public guest_ev));
  if negb (bool_decide (sha2_sha256 ak_public_bytes ∈ trusted_ak_hashes v)) then
    Err "The provided AK public key is not in the list of trusted keys"
  else
    tpm_verify_ak_signature quote (ak_public guest_ev);;
    tpm_check_pcrs quote;;
    match expected_report_data with
    | RD_Value report_data => tpm_verify_nonce quote report_data
    | RD_NotProvided => Ok tt
    end;;
    tpm_verify_init_data expected_init_data_hash quote;;
    claims ← tpm_parse_tee_evidence quote;
    claims ← tpm_extend_claim claims quote;
    Ok [(claims, "cpu")].

Definition tpm_verifier (v : TpmVerifier) : Verifier :=
  {| evaluate := tpm_evaluate v; generate_supplemental_challenge := default_supplemental_challenge |}.
End TpmVerifier.
