(* ===== verification/TpmProofs.v ===== *)
(** * Properties of the TPM verifier

    Which keys end up trusted, and what accepted evidence is. *)
From S2P Require Import Prelude Types Text Fs Json TcgEvents Verifier Snp AzVtpm AzVtpmProofs Tpm.

Section TpmProofs.
Context `{VC : VerifierCrates} `{TC : TpmCrates} `{D : Disk}.

(** A file that holds a public key with this hash. *)
Definition key_file (fs : Fs) (path : string) (hash : bytes) : Prop :=
  exists content text der, files fs !! resolve path = Some content /\ from_utf8 content = Some text /\
    public_key_pem_to_der text = Some der /\ hash = sha2_sha256 der.

Lemma load_and_hash_key_Ok path fs fs' hash :
  load_and_hash_key path fs = (fs', Ok hash) -> fs' = fs /\ key_file fs path hash.
Proof.
  unfold load_and_hash_key. intros H. inv_st.
  match goal with E : fs_read _ _ = _ |- _ => apply fs_read_Ok in E as [-> ?] end.
  rewrite !ok_or_Ok in *. split; [done|]. unfold key_file. eauto 10.
Qed.

Lemma load_and_hash_key_state path fs : (load_and_hash_key path fs).1 = fs /\ (load_and_hash_key path fs).2 <> Panic.
Proof.
  unfold load_and_hash_key, fs_read. unfold mbind, st_bind, st_map_err, st_lift, mret, st_ret, ok_or, map_err.
  repeat case_match; simplify_eq; done.
Qed.

(** The loaded set: the earlier one and the hashes of the keys that could be
    loaded; loading never fails as a whole. *)
Lemma load_keys_spec paths trusted fs :
  exists out, load_keys paths trusted fs = (fs, Ok out) /\
    (forall h, h ∈ out -> h ∈ trusted \/ exists path, path ∈ paths /\ key_file fs path h) /\
    (forall h path, path ∈ paths -> load_and_hash_key path fs = (fs, Ok h) -> h ∈ out) /\
    (forall h, h ∈ trusted -> h ∈ out) /\
    (length out <= length trusted + length paths)%nat.
Proof.
  revert trusted. induction paths as [|path l IH]; intros trusted; cbn [load_keys].
  { exists trusted. split; [done|]. split; [auto|]. split; [intros ? ? []%elem_of_nil|]. split; [done|cbn; lia]. }
  destruct (load_and_hash_key path fs) as [fs' r] eqn:E.
  destruct (load_and_hash_key_state path fs) as [Hs Hp]. rewrite E in Hs, Hp. cbn in Hs, Hp. subst fs'.
  destruct r as [h|e|]; [| |done].
  - destruct (IH (h :: trusted)) as (out & Ho & H1 & H2 & H3 & H4). exists out. split; [done|].
    apply load_and_hash_key_Ok in E as E'. destruct E' as [_ Hk].
    split; [intros h' [Hh%elem_of_cons|(p & Hp1 & Hp2)]%H1|].
    + destruct Hh as [->|Hh]; [|auto]. right. exists path. split; [set_solver|done].
    + right. exists p. split; [set_solver|done].
    + split; [intros h' p [->|Hp']%elem_of_cons Hl; [|eauto]|].
      * rewrite E in Hl. injection Hl as <-. apply H3. set_solver.
      * split; [intros h' Hh; apply H3; set_solver|]. cbn in H4 |- *. lia.
  - destruct (IH trusted) as (out & Ho & H1 & H2 & H3 & H4). exists out. split; [done|].
    split; [intros h' [Hh|(p & Hp1 & Hp2)]%H1; [auto|right; exists p; set_solver]|].
    split; [intros h' p [->|Hp']%elem_of_cons Hl; [congruence|eauto]|]. split; [done|cbn; lia].
Qed.

(** The key files of the configured directory. *)
Definition trusted_key_file (fs : Fs) (dir name : string) : Prop :=
  is_Some (files fs !! resolve (path_push dir name)) /\ (file_stem_extension name).2 = Some "pub".

Lemma is_key_file_spec fs dir name : is_key_file fs dir name = true <-> trusted_key_file fs dir name.
Proof. unfold is_key_file, trusted_key_file. now rewrite andb_true_iff, is_file_spec, bool_decide_eq_true. Qed.

Lemma tpm_new_Ok cfg fs fs' v :
  tpm_new cfg fs = (fs', Ok v) ->
  let cfg := default tpm_config_default cfg in
  fs' = fs /\ (Z.of_nat (length (trusted_ak_hashes v)) <= Z.max 0 (max_trusted_ak_keys cfg)) /\
  forall h, h ∈ trusted_ak_hashes v -> exists name, trusted_key_file fs (trusted_ak_keys_dir cfg) name /\
    key_file fs (path_push (trusted_ak_keys_dir cfg) name) h.
Proof.
  unfold tpm_new. intros H. inv_st.
  match goal with E : fs_read_dir _ _ = (?s, Ok ?l) |- _ => apply fs_read_dir_Ok in E as [-> _]; rename l into names end.
  match goal with E : load_keys ?ps _ _ = _ |- _ =>
    destruct (load_keys_spec ps [] fs) as (out & Ho & H1 & _ & _ & H4); rewrite Ho in E; injection E as <- <- end.
  cbn [trusted_ak_hashes]. split; [done|]. split.
  { rewrite length_map, length_take in H4. cbn in H4. lia. }
  intros h [Hn|(path & Hp & Hk)]%H1; [now apply elem_of_nil in Hn|].
  apply list_elem_of_fmap in Hp as (name & -> & Hp). exists name. split; [|done].
  apply is_key_file_spec. apply subseteq_take in Hp.
  apply list_elem_of_filter in Hp as [Hp _]. now apply Is_true_true in Hp.
Qed.

(** ** Accepted evidence *)
Record tpm_evidence_accepted (v : TpmVerifier) (e : TpmEvidence) (d : ReportData) (h : InitDataHash) (claims : Value) :
    Prop := {
  te_key : exists ak k quote pcr, base64_standard_decode (ak_public e) = Some ak /\
    sha2_sha256 ak ∈ trusted_ak_hashes v /\
    public_key_from_der ak = Some k /\ to_quote (tpm_quote e) = Ok quote /\
    tpm_verify_signature quote k = true /\ tpm_verify_pcrs quote = true /\
    (forall r, d = RD_Value r -> tpm_nonce quote = Some (resize 64 Init.Byte.x00 r)) /\
    init_data_extended h (pcrs_sha256 quote) /\
    pcrs_sha256 quote !! 8%nat = Some pcr /\
    tpm_extend_claim (VObject [("init_data", VString (hex_encode pcr));
      ("report_data", VString (hex_encode (default [] (tpm_nonce quote))))]) quote = Ok claims;
}.

Lemma tpm_evaluate_Ok v evidence d h claims :
  tpm_evaluate v evidence d h = Ok claims ->
  exists e c, tpm_evidence_from_value evidence = Some e /\ claims = [(c, "cpu")] /\ tpm_evidence_accepted v e d h c.
Proof.
  unfold tpm_evaluate. intros H. apply bind_Ok in H as (e & He%ok_or_Ok & H).
  apply bind_Ok in H as (quote & Hq%map_err_Ok & H). apply bind_Ok in H as (ak & Hak%ok_or_Ok & H).
  destruct (bool_decide_reflect (sha2_sha256 ak ∈ trusted_ak_hashes v)) as [Ht|]; [|done]. cbn [negb] in H.
  apply bind_Ok in H as ([] & Hs & H). unfold tpm_verify_ak_signature in Hs. rewrite Hak in Hs.
  cbn [ok_or mbind outcome_bind] in Hs. apply bind_Ok in Hs as (k & Hk%ok_or_Ok & Hs).
  destruct (tpm_verify_signature quote k) eqn:Es; [|done].
  apply bind_Ok in H as ([] & Hp & H). unfold tpm_check_pcrs in Hp. destruct (tpm_verify_pcrs quote) eqn:Ep; [|done].
  apply bind_Ok in H as ([] & Hn & H). apply bind_Ok in H as ([] & Hi & H).
  apply init_data_check_spec in Hi. apply bind_Ok in H as (c0 & Hc0 & H). apply bind_Ok in H as (c & Hc & [= <-]).
  unfold tpm_parse_tee_evidence in Hc0. apply bind_Ok in Hc0 as (pcr & Hpcr & [= <-]).
  exists e, c. do 2 (split; [done|]). constructor. exists ak, k, quote, pcr. do 6 (split; [done|]). split.
  { intros r ->. unfold tpm_verify_nonce in Hn. apply bind_Ok in Hn as (n & Hn1%ok_or_Ok & Hn).
    destruct (bool_decide_reflect (n = resize TPM_REPORT_DATA_SIZE Init.Byte.x00 r)) as [->|]; [done|discriminate Hn]. }
  split; [done|]. split; [|done]. unfold index, INITDATA_PCR in Hpcr. cbn [Z.leb Z.compare] in Hpcr.
  change (Z.to_nat 8) with 8%nat in Hpcr. destruct (pcrs_sha256 quote !! 8%nat); [|done]. cbn in Hpcr. congruence.
Qed.

(** TPM evidence comes from a trusted key.  When a verifier made from a
    configuration accepts evidence, the hash of the attestation key is that of a
    public key in a [.pub] file of the configured directory, and no more keys than
    configured were trusted; this key signed the quote, whose PCRs are those
    sent, whose nonce is the expected report data padded or cut to 64 bytes, and
    whose PCR 8 is the extension of the init data hash.  The claims are those of
    the quote. *)
Theorem tpm_evaluate_sound cfg fs fs' v evidence d h claims :
  tpm_new cfg fs = (fs', Ok v) -> evaluate (tpm_verifier v) evidence d h = Ok claims ->
  let cfg := default tpm_config_default cfg in
  exists e c ak name, tpm_evidence_from_value evidence = Some e /\ claims = [(c, "cpu")] /\
    tpm_evidence_accepted v e d h c /\
    base64_standard_decode (ak_public e) = Some ak /\
    trusted_key_file fs (trusted_ak_keys_dir cfg) name /\
    key_file fs (path_push (trusted_ak_keys_dir cfg) name) (sha2_sha256 ak) /\
    Z.of_nat (length (trusted_ak_hashes v)) <= Z.max 0 (max_trusted_ak_keys cfg).
Proof.
  intros (_ & Hl & Hk)%tpm_new_Ok (e & c & He & -> & Ha)%tpm_evaluate_Ok. cbv zeta.
  destruct Ha as [(ak & k & quote & pcr & Hak & Ht & Hrest)]. destruct (Hk _ Ht) as (name & Hn & Hf).
  exists e, c, ak, name. do 2 (split; [done|]). split; [|done]. constructor. eauto 10.
Qed.

Lemma resize_regularize (d : bytes) n : resize n Init.Byte.x00 d = regularize_data d n.
Proof.
  unfold regularize_data. destruct (Nat.compare_spec (length d) n) as [<-|Hl|Hl].
  - apply resize_all.
  - now rewrite resize_ge by lia.
  - now rewrite resize_le by lia.
Qed.

Definition tpm_reported (evidence : Value) : option bytes :=
  e ← tpm_evidence_from_value evidence;
  match to_quote (tpm_quote e) with
  | Ok q => tpm_nonce q
  | _ => None
  end.

#[export] Instance tpm_binds v : VerifierBinds (tpm_verifier v) (fun d => regularize_data d 64) tpm_reported.
Proof.
  intros evidence d h claims (e & c & He & _ & [(ak & k & quote & pcr & _ & _ & _ & Hq & _ & _ & Hn & _)])%tpm_evaluate_Ok.
  unfold tpm_reported. rewrite He. cbn. rewrite Hq, (Hn d eq_refl). now rewrite resize_regularize.
Qed.
End TpmProofs.

(** ** A concrete instance *)
Module TpmDemo.
Import Init.Byte.

(** Quotes whose nonce is padded report data. *)
#[export] Instance demo_tpm_vtpm : VtpmCrates := {|
  TpmQuote := unit; PublicKey := unit;
  tpm_nonce _ := Some (replicate 48 x07 ++ replicate 16 x00);
  pcrs_sha256 _ := AzDemo.demo_pcrs;
  tpm_verify_signature _ _ := true;
  tpm_verify_pcrs _ := true;
  public_key_from_der _ := Some tt;
  openssl_sha256 _ := replicate 32 x09;
|}.

#[export] Instance demo_tpm : TpmCrates (VT := demo_tpm_vtpm) := {|
  tpm_evidence_from_value _ :=
    Some {| ak_public := "k"; tpm_quote := {| tq_signature := ""; tq_message := ""; tq_pcrs := [] |} |};
  vtpm_quote_of _ _ _ := Some (tt : @TpmQuote demo_tpm_vtpm);
  tss_signature_unmarshall b := Some (RsaSsa b);
  tpm_hex_decode _ := None;
  sha2_sha256 b := b;
  public_key_pem_to_der s := Some (str_bytes s);
|}.

#[export] Instance demo_tpm_verifier_crates : VerifierCrates := {|
  sample_from_value _ := None;
  base64_standard_decode s := Some (str_bytes s);
  base64_standard_encode _ := "";
|}.

#[export] Instance demo_disk : Disk := {| disk_fault _ _ := false; made _ := 0%nat; written _ _ := None |}.

(** A directory with the trusted key, a key of another extension and a file
    that is no text. *)
Definition demo_fs : Fs :=
  {| files := {[ ["keys"; "a.pub"] := str_bytes "k"; ["keys"; "b.pem"] := str_bytes "l"; ["keys"; "c.pub"] := [xff] ]};
     dirs := {[ ["keys"] ]} |}.

Definition demo_cfg : TpmVerifierConfig := {| trusted_ak_keys_dir := "/keys"; max_trusted_ak_keys := 100 |}.
Definition demo_tpm_verifier : TpmVerifier := {| trusted_ak_hashes := [str_bytes "k"] |}.

Definition demo_report : ReportData := RD_Value (replicate 48 x07).

Definition demo_tpm_claims : list (Value * string) :=
  AzDemo.claims_of (tpm_evaluate demo_tpm_verifier VNull demo_report AzDemo.demo_init).

Lemma tpm_evaluate_sound_witness :
  exists e c ak name, tpm_evidence_from_value VNull = Some e /\ demo_tpm_claims = [(c, "cpu")] /\
    tpm_evidence_accepted demo_tpm_verifier e demo_report AzDemo.demo_init c /\
    base64_standard_decode (ak_public e) = Some ak /\
    trusted_key_file demo_fs "/keys" name /\ key_file demo_fs (path_push "/keys" name) (sha2_sha256 ak) /\
    Z.of_nat (length (trusted_ak_hashes demo_tpm_verifier)) <= Z.max 0 100.
Proof.
  apply (tpm_evaluate_sound (Some demo_cfg) demo_fs demo_fs demo_tpm_verifier VNull demo_report AzDemo.demo_init);
    vm_compute; reflexivity.
Defined.
End TpmDemo.
