(* ===== verification/Hygon.v ===== *)
(** * The Hygon verifiers ([deps/verifier/src/csv/mod.rs], [hygon_dcu/mod.rs])

    CSV guests send a report with its certificates, which lead to the root key
    Hygon publishes, and maybe an event log; DCU accelerators send reports that
    the [csv_rs] crate verifies.  The reports and certificates of that crate, the
    local certificate store and the key service are parameters. *)
From S2P Require Import Prelude Types Text Fs Json TcgEvents EventParsers EventLog Spdm Verifier IntelDcap TdxQuote Tdx.

Definition DEFAULT_CSV_CERT_DIR : string := "/opt/hygon/csv".

(** [csv_rs::api::guest]: what both versions of a report tell of the guest. *)
Record CsvTeeInfo := {
  user_pubkey_digest : bytes;
  vm_id : bytes;
  vm_version : bytes;
  csv_report_data : bytes;
  mnonce : bytes;
  csv_measure : bytes;
  csv_sig_usage : Z;
  csv_sig_algo : Z;
}.

Record CsvRtmrs := {
  csv_build : Z;
  rtmr_version : Z;
  csv_reserved0 : bytes;
  csv_rtmr0 : bytes;
  csv_rtmr1 : bytes;
  csv_rtmr2 : bytes;
  csv_rtmr3 : bytes;
  csv_rtmr4 : bytes;
  csv_reserved1 : bytes;
}.

(** The body of a DCU report. *)
Record DcuReport := {
  dcu_version : Z;
  dcu_chip_id : bytes;
  dcu_user_data : bytes;
  dcu_measure : bytes;
  dcu_reserved : bytes;
  dcu_sig_usage : Z;
  dcu_sig_algo : Z;
}.

Class CsvCrates := {
  CaCertificate : Type;
  CsvCertificate : Type;
  GuestPolicy : Type;
  ReportWrapper : Type;
  (** the accessors of a policy, as JSON values *)
  policy_field : GuestPolicy -> string -> Value;
  policy_xor : GuestPolicy -> Z -> GuestPolicy;
  (** decoding from a reader: the certificate and what is left *)
  ca_decode : bytes -> option (CaCertificate * bytes);
  csv_decode : bytes -> option (CsvCertificate * bytes);
  (** [Verifiable] for each pair *)
  ca_verify_ca : CaCertificate -> CaCertificate -> bool;
  ca_verify_csv : CaCertificate -> CsvCertificate -> bool;
  csv_verify_csv : CsvCertificate -> CsvCertificate -> bool;
  csv_verify_tee_info : CsvCertificate -> CsvTeeInfo -> bool;
  (** the root certificate in the binary *)
  HRK : bytes;
  (** the local store, and the key service with its status *)
  csv_read_file : string -> option bytes;
  csv_http_get : string -> outcome anyhow (Z * bytes);
  (** [csv_rs::api::dcu] *)
  dcu_verify_reports : list DcuReport -> bytes -> bool;
  (** [serde_json::from_value] at the evidence of a DCU *)
  dcu_from_value : Value -> option (list DcuReport);
}.

Inductive CsvReport `{CC : CsvCrates} :=
| CsvV1 (info : CsvTeeInfo) (anonce : Z) (policy : GuestPolicy)
| CsvV2 (info : CsvTeeInfo) (rtmrs : CsvRtmrs) (policy : GuestPolicy).

Definition csv_tee_info `{CC : CsvCrates} (r : CsvReport) : CsvTeeInfo :=
  match r with
  | CsvV1 info _ _ => info
  | CsvV2 info _ _ => info
  end.

Record HskCek `{CC : CsvCrates} := {
  hsk : CaCertificate;
  cek : CsvCertificate;
}.

Record CertificateChain `{CC : CsvCrates} := {
  hsk_cek : option HskCek;
  pek : CsvCertificate;
}.

Record CsvEvidence `{CC : CsvCrates} := {
  csv_attestation_report : ReportWrapper;
  csv_cert_chain : CertificateChain;
  serial_number : bytes;
  csv_cc_eventlog : option string;
}.

Class CsvSerde `{CC : CsvCrates} := {
  csv_from_value : Value -> option CsvEvidence;
  csv_report_try_from : ReportWrapper -> outcome anyhow CsvReport;
}.

Section HygonVerifiers.
Context `{P : Profile} `{EC : EventCrates} `{VC : VerifierCrates} `{CC : CsvCrates} `{CS : !CsvSerde}.

(** [str::from_utf8(&serial_number)?.trim_end_matches('\0')]. *)
Definition csv_chip_id (serial : bytes) : outcome anyhow string :=
  chars ← ok_or "invalid utf-8" (utf8_chars serial);
  Ok (string_of_chars (trim_end_char 0 chars)).

Definition try_load_hskcek_offline (chip_id : string) : option bytes :=
  csv_read_file (DEFAULT_CSV_CERT_DIR +:+ "/hsk_cek/" +:+ chip_id +:+ "/hsk_cek.cert").

Definition download_hskcek_from_kds (chip_id : string) : outcome anyhow bytes :=
  '(status, body) ← map_err (fun _ => "Unable to send request for HSK_CEK")
                      (csv_http_get ("https://cert.hygon.cn/hsk_cek?snumber=" +:+ chip_id));
  if status =? 200 then Ok body else Err "Unable to fetch HSK_CEK from URL".

(** The certificates of the evidence, or those of the chip. *)
Definition csv_certificates (chip_id : string) (c : CertificateChain) :
    outcome anyhow (CaCertificate * CsvCertificate * CsvCertificate) :=
  match hsk_cek c with
  | Some h => Ok (hsk h, cek h, pek c)
  | None =>
      cert_data ← match try_load_hskcek_offline chip_id with
                  | Some cert_data => Ok cert_data
                  | None => download_hskcek_from_kds chip_id
                  end;
      '(hsk, rest) ← ok_or "decode hsk" (ca_decode cert_data);
      '(cek, _) ← ok_or "decode cek" (csv_decode rest);
      Ok (hsk, cek, pek c)
  end.

(** [verify_report_signature]. *)
Definition csv_verify_report_signature (report : CsvReport) (hsk : CaCertificate) (cek pek : CsvCertificate) :
    outcome anyhow unit :=
  '(hrk, _) ← ok_or "IO error" (ca_decode HRK);
  if negb (ca_verify_ca hrk hrk) then Err "HRK cert Signature verification failed"
  else if negb (ca_verify_ca hrk hsk) then Err "HSK cert Signature validation failed"
  else if negb (ca_verify_csv hsk cek) then Err "CEK cert Signature validation failed"
  else if negb (csv_verify_csv cek pek) then Err "PEK cert Signature validation failed"
  else if negb (csv_verify_tee_info pek (csv_tee_info report)) then
    Err "Attestation Report Signature validation failed"
  else Ok tt.

Definition policy_names : list string :=
  ["nodbg"; "noks"; "es"; "nosend"; "domain"; "csv"; "csv3"; "asid_reuse"; "hsk_version"; "cek_version";
   "api_major"; "api_minor"].

(** The claims that both versions of a report give. *)
Definition csv_common_claims (version : string) (policy : GuestPolicy) (i : CsvTeeInfo) : list (string * Value) :=
  [("version", VString version);
   ("policy", VObject (map (fun n => (n, policy_field policy n)) policy_names));
   ("user_pubkey_digest", VString (hex_encode (user_pubkey_digest i)));
   ("vm_id", VString (hex_encode (vm_id i)));
   ("vm_version", VString (hex_encode (vm_version i)));
   ("report_data", VString (hex_encode (csv_report_data i)));
   ("mnonce", VString (hex_encode (mnonce i)));
   ("measure", VString (hex_encode (csv_measure i)));
   ("sig_usage", VString (hex_encode (le_split 4 (csv_sig_usage i))));
   ("sig_algo", VString (hex_encode (le_split 4 (csv_sig_algo i))))].

Definition csv_rtmr_claims (r : CsvRtmrs) : list (string * Value) :=
  [("build", VNumber (PosInt (csv_build r)));
   ("rtmr_version", VNumber (PosInt (rtmr_version r)));
   ("reserved0", VString (hex_encode (csv_reserved0 r)));
   ("rtmr0", VString (hex_encode (csv_rtmr0 r)));
   ("rtmr1", VString (hex_encode (csv_rtmr1 r)));
   ("rtmr2", VString (hex_encode (csv_rtmr2 r)));
   ("rtmr3", VString (hex_encode (csv_rtmr3 r)));
   ("rtmr4", VString (hex_encode (csv_rtmr4 r)));
   ("reserved1", VString (hex_encode (csv_reserved1 r)))].

Definition csv_references (r : CsvRtmrs) : list ReferenceMeasurement :=
  [{| r_index := 1; r_algorithm := Sm3; reference := csv_rtmr1 r |};
   {| r_index := 2; r_algorithm := Sm3; reference := csv_rtmr2 r |};
   {| r_index := 3; r_algorithm := Sm3; reference := csv_rtmr3 r |};
   {| r_index := 4; r_algorithm := Sm3; reference := csv_rtmr4 r |}].

(** The claims of a report; only a report of version 2 has registers for the
    event log. *)
Definition csv_claims (report : CsvReport) (chip_id : string) (cc_eventlog : option string) : outcome anyhow Value :=
  match report with
  | CsvV1 info anonce policy =>
      Ok (VObject (csv_common_claims "1" (policy_xor policy anonce) info ++
                   [("anonce", VString (hex_encode (le_split 4 anonce))); ("serial_number", VString chip_id)]))
  | CsvV2 info rtmrs policy =>
      let claims := csv_common_claims "2" policy info ++ csv_rtmr_claims rtmrs ++
                    [("serial_number", VString chip_id)] in
      match cc_eventlog with
      | Some el =>
          ccel_data ← ok_or "base64" (base64_standard_decode el);
          ccel ← cc_event_log_try_from ccel_data;
          replay_and_match ccel (csv_references rtmrs);;
          Ok (VObject (obj_insert "uefi_event_logs" (VArray (map entry_value (log ccel))) claims))
      | None => Ok (VObject claims)
      end
  end.

Definition csv_evaluate (evidence : Value) (expected_report_data : ReportData) (_ : InitDataHash) :
    outcome anyhow (list (Value * string)) :=
  e ← ok_or "Deserialize Quote failed." (csv_from_value evidence);
  report ← csv_report_try_from (csv_attestation_report e);
  chip_id ← csv_chip_id (serial_number e);
  '(hsk, cek, pek) ← csv_certificates chip_id (csv_cert_chain e);
  csv_verify_report_signature report hsk cek pek;;
  match expected_report_data with
  | RD_Value d =>
      if negb (bool_decide (regularize_data d 64 = csv_report_data (csv_tee_info report))) then
        Err "REPORT_DATA is different from that in CSV Quote"
      else Ok tt
  | RD_NotProvided => Ok tt
  end;;
  claims ← csv_claims report chip_id (csv_cc_eventlog e);
  Ok [(claims, "cpu")].

Definition csv_verifier : Verifier :=
  {| evaluate := csv_evaluate; generate_supplemental_challenge := default_supplemental_challenge |}.

(** ** DCU *)
Definition fmt_lower_hex (n : Z) : string := digits 64 false 16 n "".

(** [parse_tee_evidence]. *)
Definition dcu_claims (reports : list DcuReport) : Value :=
  VObject (imap (fun i r => (fmt_dec (Z.of_nat i),
    VObject [("body", VObject
               [("version", VNumber (PosInt (dcu_version r)));
                ("chip_id", VString (hex_encode (dcu_chip_id r)));
                ("user_data", VString (hex_encode (dcu_user_data r)));
                ("measure", VString (hex_encode (dcu_measure r)));
                ("reserved", VString (hex_encode (dcu_reserved r)));
                ("sig_usage", VString (fmt_lower_hex (dcu_sig_usage r)));
                ("sig_algo", VString (fmt_lower_hex (dcu_sig_algo r)))]);
             ("report_data", VString (hex_encode (dcu_user_data r)))])) reports).

Definition dcu_evaluate (evidence : Value) (expected_report_data : ReportData) (_ : InitDataHash) :
    outcome anyhow (list (Value * string)) :=
  reports ← ok_or "deserialize" (dcu_from_value evidence);
  expected ← match expected_report_data with
             | RD_Value d => Ok (regularize_data d 64)
             | RD_NotProvided => Err "DCU must check report data"
             end;
  if negb (dcu_verify_reports reports expected) then Err "verify reports"
  else Ok [(dcu_claims reports, "dcu")].

Definition dcu_verifier : Verifier :=
  {| evaluate := dcu_evaluate; generate_supplemental_challenge := default_supplemental_challenge |}.
End HygonVerifiers.
