(* ===== verification/HygonProofs.v ===== *)
(** * Properties of the Hygon verifiers *)
From S2P Require Import Prelude Types Text Fs Json TcgEvents EventParsers EventLog EventLogProofs Spdm Verifier IntelDcap TdxQuote Tdx TdxProofs Hygon.

Section HygonProofs.
Context `{P : Profile} `{EC : EventCrates} `{VC : VerifierCrates} `{CC : CsvCrates} `{CS : !CsvSerde}.

(** A report signed by a chain of keys from Hygon's root. *)
Definition csv_chain (report : CsvReport) (hsk : CaCertificate) (cek pek : CsvCertificate) : Prop :=
  exists hrk rest, ca_decode HRK = Some (hrk, rest) /\ ca_verify_ca hrk hrk = true /\ ca_verify_ca hrk hsk = true /\
    ca_verify_csv hsk cek = true /\ csv_verify_csv cek pek = true /\
    csv_verify_tee_info pek (csv_tee_info report) = true.

Lemma csv_verify_report_signature_Ok report h c p :
  csv_verify_report_signature report h c p = Ok tt <-> csv_chain report h c p.
Proof.
  unfold csv_verify_report_signature, csv_chain. split.
  - intros H. apply bind_Ok in H as ([hrk rest] & Hd%ok_or_Ok & H). exists hrk, rest.
    repeat (case_match; [discriminate H|]). rewrite !negb_false_iff in *. auto 10.
  - intros (hrk & rest & -> & H1 & H2 & H3 & H4 & H5). cbn. now rewrite H1, H2, H3, H4, H5.
Qed.

(** Where the certificates come from. *)
Definition csv_certs_from (chip_id : string) (c : CertificateChain) (h : CaCertificate) (k p : CsvCertificate) : Prop :=
  p = pek c /\
  match hsk_cek c with
  | Some hc => h = hsk hc /\ k = cek hc
  | None => exists data rest rest', (try_load_hskcek_offline chip_id = Some data \/
      (try_load_hskcek_offline chip_id = None /\ download_hskcek_from_kds chip_id = Ok data)) /\
      ca_decode data = Some (h, rest) /\ csv_decode rest = Some (k, rest')
  end.

Lemma csv_certificates_Ok chip_id c h k p :
  csv_certificates chip_id c = Ok (h, k, p) -> csv_certs_from chip_id c h k p.
Proof.
  unfold csv_certificates, csv_certs_from. destruct (hsk_cek c) as [hc|]; [naive_solver|]. intros H.
  apply bind_Ok in H as (data & Hd & H). apply bind_Ok in H as ([h' rest] & H1%ok_or_Ok & H).
  apply bind_Ok in H as ([k' rest'] & H2%ok_or_Ok & [= -> -> ->]). split; [done|].
  exists data, rest, rest'. split; [|done]. destruct (try_load_hskcek_offline chip_id); [left; congruence|right; done].
Qed.

(** The event log of an accepted report of version 2. *)
Definition csv_log_matches (r : CsvRtmrs) (l : CcEventLog) : Prop :=
  register (log l) 1 Sm3 = Some (csv_rtmr1 r) /\ register (log l) 2 Sm3 = Some (csv_rtmr2 r) /\
  register (log l) 3 Sm3 = Some (csv_rtmr3 r) /\ register (log l) 4 Sm3 = Some (csv_rtmr4 r).

Definition csv_log_checked (report : CsvReport) (cc : option string) (m : list (string * Value)) : Prop :=
  match report, cc with
  | CsvV2 _ r _, Some el => exists data l, base64_standard_decode el = Some data /\
      event_log_try_from data = Some (Ok l) /\ csv_log_matches r l /\
      obj_get "uefi_event_logs" m = Some (VArray (map entry_value (log l)))
  | _, _ => obj_get "uefi_event_logs" m = None
  end.

Lemma csv_claims_Ok report chip_id cc v :
  csv_claims report chip_id cc = Ok v ->
  exists m, v = VObject m /\ csv_log_checked report cc m /\
    obj_get "report_data" m = Some (VString (hex_encode (csv_report_data (csv_tee_info report)))) /\
    obj_get "measure" m = Some (VString (hex_encode (csv_measure (csv_tee_info report)))) /\
    obj_get "serial_number" m = Some (VString chip_id).
Proof.
  destruct report as [info anonce policy|info r policy]; cbn [csv_claims csv_tee_info csv_log_checked].
  { intros [= <-]. eexists. split; [done|]. repeat split. }
  destruct cc as [el|]; [|intros [= <-]; eexists; split; [done|]; repeat split].
  intros H. apply bind_Ok in H as (data & Hd%ok_or_Ok & H). apply bind_Ok in H as (l & Hl & H).
  apply bind_Ok in H as ([] & Hr & [= <-]). unfold cc_event_log_try_from in Hl.
  destruct (event_log_try_from data) as [x|] eqn:E; [|done]. apply map_err_Ok in Hl as ->.
  apply replay_and_match_iff in Hr. unfold csv_references in Hr.
  repeat (apply Forall_cons_iff in Hr as [? Hr]). cbn in *.
  eexists. split; [done|]. split; [|repeat split]. exists data, l. unfold csv_log_matches. auto 10.
Qed.

(** What an accepted report is. *)
Record csv_accepted (e : CsvEvidence) (report : CsvReport) (d : ReportData) (claims : Value) : Prop := {
  ca_chain : exists chip_id h k p, csv_chip_id (serial_number e) = Ok chip_id /\
    csv_certs_from chip_id (csv_cert_chain e) h k p /\ csv_chain report h k p;
  ca_data : forall r, d = RD_Value r -> csv_report_data (csv_tee_info report) = regularize_data r 64;
  ca_claims : exists m chip_id, claims = VObject m /\ csv_chip_id (serial_number e) = Ok chip_id /\
    csv_log_checked report (csv_cc_eventlog e) m /\
    obj_get "report_data" m = Some (VString (hex_encode (csv_report_data (csv_tee_info report)))) /\
    obj_get "measure" m = Some (VString (hex_encode (csv_measure (csv_tee_info report)))) /\
    obj_get "serial_number" m = Some (VString chip_id);
}.

Lemma csv_evaluate_Ok evidence d h claims :
  csv_evaluate evidence d h = Ok claims ->
  exists e report v, csv_from_value evidence = Some e /\ csv_report_try_from (csv_attestation_report e) = Ok report /\
    claims = [(v, "cpu")] /\ csv_accepted e report d v.
Proof.
  unfold csv_evaluate. intros H. apply bind_Ok in H as (e & He%ok_or_Ok & H).
  apply bind_Ok in H as (report & Hr & H). apply bind_Ok in H as (chip & Hchip & H).
  apply bind_Ok in H as ([[hk ck] pk] & Hc%csv_certificates_Ok & H).
  apply bind_Ok in H as ([] & Hs%csv_verify_report_signature_Ok & H).
  apply bind_Ok in H as ([] & Hd & H). apply bind_Ok in H as (v & Hv%csv_claims_Ok & [= <-]).
  exists e, report, v. do 3 (split; [done|]). constructor.
  - eauto 10.
  - intros r ->. destruct (bool_decide_reflect (regularize_data r 64 = csv_report_data (csv_tee_info report))); [done|discriminate Hd].
  - destruct Hv as (m & ? & ?). eauto 10.
Qed.

(** Accepted CSV evidence is what it says.  When the verifier accepts
    evidence, its report is signed by a chain of keys that starts at Hygon's root
    certificate, the middle of which comes from the evidence, from the local
    store or from the key service for the chip named; the report carries the
    expected report data; the event log sent with a report of version 2 replays
    to its registers; and the claims are those of the report.  Init data is not
    looked at. *)
Theorem csv_evaluate_sound evidence d h claims :
  csv_evaluate evidence d h = Ok claims ->
  (forall h', csv_evaluate evidence d h' = Ok claims) /\
  exists e report v, csv_from_value evidence = Some e /\ csv_report_try_from (csv_attestation_report e) = Ok report /\
    claims = [(v, "cpu")] /\ csv_accepted e report d v.
Proof. intros H. split; [done|]. now apply csv_evaluate_Ok in H. Qed.

Definition csv_reported (evidence : Value) : option bytes :=
  e ← csv_from_value evidence;
  match csv_report_try_from (csv_attestation_report e) with
  | Ok report => Some (csv_report_data (csv_tee_info report))
  | _ => None
  end.

#[export] Instance csv_binds : VerifierBinds csv_verifier (fun d => regularize_data d 64) csv_reported.
Proof.
  intros evidence d h claims H. apply (csv_evaluate_Ok _ _ h) in H as (e & report & v & He & Hr & _ & Ha).
  unfold csv_reported. rewrite He. cbn. rewrite Hr. now rewrite (ca_data _ _ _ _ Ha d eq_refl).
Qed.

(** DCU evidence binds its report data if the reports the crate accepts do. *)
Lemma dcu_evaluate_Ok evidence d h claims :
  dcu_evaluate evidence d h = Ok claims ->
  exists reports r, dcu_from_value evidence = Some reports /\ d = RD_Value r /\
    dcu_verify_reports reports (regularize_data r 64) = true /\ claims = [(dcu_claims reports, "dcu")].
Proof.
  unfold dcu_evaluate. intros H. apply bind_Ok in H as (reports & Hr%ok_or_Ok & H).
  apply bind_Ok in H as (x & Hx & H). destruct d as [r|]; [|done]. injection Hx as <-.
  destruct (dcu_verify_reports _ _) eqn:E; [|done]. injection H as <-. eauto 10.
Qed.
End HygonProofs.

(** ** A concrete instance *)
Module HygonDemo.
Import Init.Byte.
#[export] Existing Instance TdxDemo.demo_event_crates.
#[export] Existing Instance TdxDemo.demo_verifier_crates.

#[export] Instance demo_csv : CsvCrates := {|
  CaCertificate := nat; CsvCertificate := nat; GuestPolicy := Z; ReportWrapper := unit;
  policy_field p _ := VNumber (PosInt p);
  policy_xor := Z.lxor;
  ca_decode b := Some (0%nat, drop 1 b);
  csv_decode b := Some (1%nat, drop 1 b);
  ca_verify_ca _ _ := true; ca_verify_csv _ _ := true; csv_verify_csv _ _ := true; csv_verify_tee_info _ _ := true;
  HRK := [x00];
  csv_read_file _ := None;
  csv_http_get _ := Ok (200, [x00; x01]);
  dcu_verify_reports _ _ := true;
  dcu_from_value _ := None;
|}.

Definition demo_info : CsvTeeInfo :=
  {| user_pubkey_digest := []; vm_id := []; vm_version := []; csv_report_data := replicate 48 x0c ++ replicate 16 x00;
     mnonce := []; csv_measure := [x01]; csv_sig_usage := 0; csv_sig_algo := 0 |}.

#[export] Instance demo_csv_serde : CsvSerde (CC := demo_csv) := {|
  csv_from_value _ := Some {| csv_attestation_report := (tt : @ReportWrapper demo_csv);
    csv_cert_chain := {| hsk_cek := None; pek := (2%nat : @CsvCertificate demo_csv) |};
    serial_number := [x41; x00]; csv_cc_eventlog := None |};
  csv_report_try_from _ := Ok (CsvV1 (CC := demo_csv) demo_info 5 (6 : @GuestPolicy demo_csv));
|}.

Definition demo_csv_claims : list (Value * string) :=
  match csv_evaluate (P := true) VNull (RD_Value (replicate 48 x0c)) ID_NotProvided with
  | Ok c => c
  | _ => []
  end.

Lemma csv_evaluate_sound_witness :
  exists e report v, csv_from_value VNull = Some e /\ csv_report_try_from (csv_attestation_report e) = Ok report /\
    demo_csv_claims = [(v, "cpu")] /\ csv_accepted (P := true) e report (RD_Value (replicate 48 x0c)) v.
Proof.
  apply (csv_evaluate_sound (P := true) VNull (RD_Value (replicate 48 x0c)) ID_NotProvided). vm_compute. reflexivity.
Defined.
End HygonDemo.
