(* ===== verification/Cca.v ===== *)
(** * The Arm CCA verifier ([deps/verifier/src/cca/])

    A CCA token is verified by the [ccatoken] crate with trust anchors and
    reference values from files, or by a remote Veraison service; both give an
    attestation result (EAR) from which the claims are assembled.  Tokens, their
    verification, the remote service and the raw values of the [ear] crate are
    parameters. *)
From S2P Require Import Prelude Types Text Verifier.

Definition DEFAULT_CCA_CONFIG : string := "/opt/confidential-containers/attestation-service/cca/config.json".
Definition quote_mark : string := String.String (ascii_of_nat 34) "".
Definition MEDIA_TYPE : string :=
  "application/eat-collection; profile=" +:+ quote_mark +:+ "http://arm.com/CCA-SSD/1.0.0" +:+ quote_mark.

Inductive CcaVerifierConfig :=
| CcaLocal (ta_store rv_store : string)
| CcaRemote (address : string) (ca_cert : option string).

Definition cca_config_default : CcaVerifierConfig := CcaLocal "" "".

(** The claims-sets. *)
Record CcaPlatformClaims := {
  cca_platform_instance_id : string;
  cca_platform_implementation_id : string;
}.

Record RealmClaims := {
  cca_realm_personalization_value : string;
  cca_realm_initial_measurement : string;
  cca_realm_extensible_measurements : list string;
  cca_realm_hash_algo_id : string;
  cca_realm_challenge : string;
}.

Record EvidenceClaimsSet := {
  realm : RealmClaims;
  platform : CcaPlatformClaims;
  cs_report_data : string;
  cs_init_data : string;
}.

(** What the verifier reads of a decoded token. *)
Record CcaToken := {
  perso : bytes;
  rim : bytes;
  rem : list bytes;
  challenge : bytes;
  hash_alg : string;
  inst_id : bytes;
  impl_id : bytes;
}.

Class CcaCrates := {
  (** raw values of [ear], and their JSON text *)
  RawClaims : Type;
  raw_from_json : list (string * Value) -> option RawClaims;
  raw_to_json : RawClaims -> option (list (string * Value));
  (** the environment, files and configuration *)
  cca_env_config : option string;
  cca_read_file : string -> option bytes;
  cca_config_from_json : bytes -> option CcaVerifierConfig;
  cca_token_from_value : Value -> option bytes;
  (** [ccatoken] *)
  TaStore : Type;
  RvStore : Type;
  ta_load_json : string -> option TaStore;
  rv_load_json : string -> option RvStore;
  cca_decode : bytes -> option CcaToken;
  cca_token_verify : bytes -> TaStore -> bool;
  cca_token_appraise : bytes -> TaStore -> RvStore -> bool;
  (** the tier of the realm's instance identity after both is [Affirming] *)
  realm_identity_affirming : bytes -> TaStore -> RvStore -> bool;
  (** [veraison_apiclient] *)
  VerificationApi : Type;
  discover_verification_api : string -> option string -> outcome anyhow VerificationApi;
  get_api_endpoint : VerificationApi -> string -> option string;
  cr_run : string -> option string -> bytes -> bytes -> string -> outcome anyhow string;
  ear_verification_key : VerificationApi -> string;
  (** the submodules' annotated evidence and the nonce of an EAR *)
  ear_from_jwt_jwk : string -> string -> option (list (string * RawClaims) * option string);
  base64_url_safe_decode : string -> option bytes;
}.

Section CcaVerifier.
Context `{VC : VerifierCrates} `{CA : CcaCrates}.

(** The part of an [Ear] that is read: annotated evidence by submodule. *)
Definition CcaEar : Type := list (string * RawClaims).

(** ** Local verification ([local.rs]) *)
Definition realm_annotated_evidence (e : CcaToken) : outcome anyhow RawClaims :=
  rem0 ← index (rem e) 0;
  rem1 ← index (rem e) 1;
  rem2 ← index (rem e) 2;
  rem3 ← index (rem e) 3;
  let b64 b := VString (base64_standard_encode b) in
  ok_or "json" (raw_from_json
    [("cca-realm-challenge", b64 (challenge e));
     ("cca-realm-extensible-measurements", VArray [b64 rem0; b64 rem1; b64 rem2; b64 rem3]);
     ("cca-realm-hash-algo-id", VString (hash_alg e));
     ("cca-realm-initial-measurement", b64 (rim e));
     ("cca-realm-personalization-value", b64 (perso e))]).

Definition platform_annotated_evidence (e : CcaToken) : outcome anyhow RawClaims :=
  ok_or "json" (raw_from_json
    [("cca-platform-instance-id", VString (base64_standard_encode (inst_id e)));
     ("cca-platform-implementation-id", VString (base64_standard_encode (impl_id e)))]).

Definition cca_read_to_string (path : string) : option string := b ← cca_read_file path; from_utf8 b.

Definition cca_local_verify (config : CcaVerifierConfig) (token expected_report_data : bytes) : outcome anyhow CcaEar :=
  match config with
  | CcaRemote _ _ => Err "expecting local configuration"
  | CcaLocal ta_store rv_store =>
      jta ← ok_or "loading TA store" (cca_read_to_string ta_store);
      jrv ← ok_or "loading RV store" (cca_read_to_string rv_store);
      tas ← ok_or "loading trust anchors from JSON store" (ta_load_json jta);
      rvs ← ok_or "loading reference values from JSON store" (rv_load_json jrv);
      e ← ok_or "decoding CCA evidence" (cca_decode token);
      if negb (cca_token_verify token tas) then Err "verifying CCA evidence"
      else if negb (cca_token_appraise token tas rvs) then Err "appraising CCA evidence"
      else if negb (realm_identity_affirming token tas rvs) then
        Err "RAK signature or RAK attestation could not be verified"
      else if negb (bool_decide (expected_report_data = challenge e)) then
        Err "realm token challenge claim does not match expected_report_data"
      else
        realm ← map_err (fun _ => "synthesizing CCA Realm TCB claims-set") (realm_annotated_evidence e);
        platform ← map_err (fun _ => "syntesizing CCA Platform TCB claims-set") (platform_annotated_evidence e);
        Ok [("CCA_SSD_PLATFORM", platform); ("CCA_REALM", realm)]
  end.

(** ** Remote verification ([remote.rs]) *)
Definition cca_remote_verify (config : CcaVerifierConfig) (token expected_report_data : bytes) : outcome anyhow CcaEar :=
  match config with
  | CcaLocal _ _ => Err "expecting remote configuration"
  | CcaRemote address ca_cert =>
      verification_api ← discover_verification_api address ca_cert;
      relpath ← ok_or "Could not locate a newChallengeResponseSession endpoint"
                  (get_api_endpoint verification_api "newChallengeResponseSession");
      result ← map_err (fun _ => "remote verification failed with error")
                 (cr_run (address +:+ relpath) ca_cert expected_report_data token MEDIA_TYPE);
      '(plain_ear, nonce) ← ok_or "decrypting EAR with the decoding key"
                     (ear_from_jwt_jwk result (ear_verification_key verification_api));
      match nonce with
      | Some ear_nonce =>
          nonce_byte ← ok_or "base64-decoding nonce from EAR" (base64_url_safe_decode ear_nonce);
          if negb (bool_decide (expected_report_data = nonce_byte)) then Err "nonce verification failed"
          else Ok plain_ear
      | None => Err "no nonce found in EAR"
      end
  end.

(** ** Claims *)

(** The derived deserialization: every field must be there with its type. *)
Definition str_field (m : list (string * Value)) (k : string) : option string := v ← obj_get k m; as_str v.

Definition platform_from_json (m : list (string * Value)) : option CcaPlatformClaims :=
  i ← str_field m "cca-platform-instance-id";
  j ← str_field m "cca-platform-implementation-id";
  Some {| cca_platform_instance_id := i; cca_platform_implementation_id := j |}.

Definition str_array (v : Value) : option (list string) :=
  match v with
  | VArray l => mapM as_str l
  | _ => None
  end.

Definition realm_from_json (m : list (string * Value)) : option RealmClaims :=
  p ← str_field m "cca-realm-personalization-value";
  i ← str_field m "cca-realm-initial-measurement";
  e ← (v ← obj_get "cca-realm-extensible-measurements" m; str_array v);
  h ← str_field m "cca-realm-hash-algo-id";
  c ← str_field m "cca-realm-challenge";
  Some {| cca_realm_personalization_value := p; cca_realm_initial_measurement := i;
          cca_realm_extensible_measurements := e; cca_realm_hash_algo_id := h; cca_realm_challenge := c |}.

Definition b642hex (b64 : string) : outcome anyhow string :=
  buf ← ok_or "base64" (base64_standard_decode b64);
  Ok (hex_encode buf).

Definition assemble_cca_evidence (realm_claims platform_claims : RawClaims) : outcome anyhow EvidenceClaimsSet :=
  output ← ok_or "json" (raw_to_json platform_claims);
  p ← ok_or "json" (platform_from_json output);
  output ← ok_or "json" (raw_to_json realm_claims);
  r ← ok_or "json" (realm_from_json output);
  init_data ← b642hex (cca_realm_personalization_value r);
  report_data ← b642hex (cca_realm_challenge r);
  Ok {| realm := r; platform := p; cs_report_data := report_data; cs_init_data := init_data |}.

Definition realm_to_value (r : RealmClaims) : Value :=
  VObject [("cca-realm-personalization-value", VString (cca_realm_personalization_value r));
           ("cca-realm-initial-measurement", VString (cca_realm_initial_measurement r));
           ("cca-realm-extensible-measurements", VArray (map VString (cca_realm_extensible_measurements r)));
           ("cca-realm-hash-algo-id", VString (cca_realm_hash_algo_id r));
           ("cca-realm-challenge", VString (cca_realm_challenge r))].

Definition platform_to_value (p : CcaPlatformClaims) : Value :=
  VObject [("cca-platform-instance-id", VString (cca_platform_instance_id p));
           ("cca-platform-implementation-id", VString (cca_platform_implementation_id p))].

Definition cca_generate_parsed_claim (tcb : EvidenceClaimsSet) : Value :=
  VObject [("realm", realm_to_value (realm tcb)); ("platform", platform_to_value (platform tcb));
           ("report_data", VString (cs_report_data tcb)); ("init_data", VString (cs_init_data tcb))].

(** [Config::try_from] on the configured or default path. *)
Definition cca_config : outcome anyhow CcaVerifierConfig :=
  let config_file := default DEFAULT_CCA_CONFIG cca_env_config in
  b ← ok_or "parsing config: IO error" (cca_read_file config_file);
  ok_or "parsing config: failed to parse CCA config file" (cca_config_from_json b).

Definition cca_evaluate (evidence : Value) (expected_report_data : ReportData) (expected_init_data_hash : InitDataHash) :
    outcome anyhow (list (Value * string)) :=
  config ← cca_config;
  match expected_report_data with
  | RD_NotProvided => Err "CCA verifier must provide report data field!"
  | RD_Value d =>
      let expected_report_data := regularize_data d 64 in
      token ← ok_or "Deserialize CCA Evidence failed." (cca_token_from_value evidence);
      ear ← match config with
            | CcaRemote _ _ => cca_remote_verify config token expected_report_data
            | CcaLocal _ _ => cca_local_verify config token expected_report_data
            end;
      realm_claims ← ok_or "no entry found for CCA_REALM" (obj_get "CCA_REALM" ear);
      platform_claims ← ok_or "no entry found for CCA_SSD_PLATFORM" (obj_get "CCA_SSD_PLATFORM" ear);
      tcb ← assemble_cca_evidence realm_claims platform_claims;
      match expected_init_data_hash with
      | ID_Value h =>
          p ← ok_or "Failed to decode base64" (base64_standard_decode (cca_realm_personalization_value (realm tcb)));
          if negb (bool_decide (h = p)) then Err "init data hash is different from that in CCA token" else Ok tt
      | ID_NotProvided => Ok tt
      end;;
      Ok [(cca_generate_parsed_claim tcb, "cpu")]
  end.

Definition cca_verifier : Verifier :=
  {| evaluate := cca_evaluate; generate_supplemental_challenge := default_supplemental_challenge |}.
End CcaVerifier.
