(* ===== verification/CcaProofs.v ===== *)
(** * Properties of the Arm CCA verifier *)
From S2P Require Import Prelude Types Text Verifier Cca.

Section CcaProofs.
Context `{VC : VerifierCrates} `{CA : CcaCrates}.

(** The laws of the codecs the claims pass through: base64, and the JSON text of
    raw values. *)
Class CcaLaws : Prop := {
  base64_decode_encode : forall b, base64_standard_decode (base64_standard_encode b) = Some b;
  raw_roundtrip : forall m raw, raw_from_json m = Some raw -> raw_to_json raw = Some m;
}.

Context `{CL : CcaLaws}.

(** A token the local verification accepted. *)
Record cca_token_accepted (token d : bytes) (e : CcaToken) : Prop := {
  ct_decoded : cca_decode token = Some e;
  ct_challenge : challenge e = regularize_data d 64;
  ct_verified : exists tas rvs ta rv jta jrv, cca_config = Ok (CcaLocal ta rv) /\
    cca_read_to_string ta = Some jta /\ cca_read_to_string rv = Some jrv /\
    ta_load_json jta = Some tas /\ rv_load_json jrv = Some rvs /\
    cca_token_verify token tas = true /\ cca_token_appraise token tas rvs = true /\
    realm_identity_affirming token tas rvs = true;
  ct_rem : (4 <= length (rem e))%nat;
}.

(** Its claims, in the encoding of the claims-set. *)
Definition cca_token_claims (e : CcaToken) : EvidenceClaimsSet :=
  let b64 := base64_standard_encode in
  {| realm := {| cca_realm_personalization_value := b64 (perso e); cca_realm_initial_measurement := b64 (rim e);
                 cca_realm_extensible_measurements := map b64 (take 4 (rem e));
                 cca_realm_hash_algo_id := hash_alg e; cca_realm_challenge := b64 (challenge e) |};
     platform := {| cca_platform_instance_id := b64 (inst_id e); cca_platform_implementation_id := b64 (impl_id e) |};
     cs_report_data := hex_encode (challenge e); cs_init_data := hex_encode (perso e) |}.

Lemma rem_four (l : list bytes) r0 r1 r2 r3 :
  l !! 0%nat = Some r0 -> l !! 1%nat = Some r1 -> l !! 2%nat = Some r2 -> l !! 3%nat = Some r3 ->
  (4 <= length l)%nat /\ take 4 l = [r0; r1; r2; r3].
Proof. intros. destruct l as [|? [|? [|? [|? l]]]]; simplify_eq/=. split; [lia|done]. Qed.

Lemma index_lookup_Ok {A} (l : list A) i (x : A) :
  index (E := anyhow) l i = Ok x -> l !! Z.to_nat i = Some x.
Proof. unfold index, unwrap. destruct (0 <=? i); [|done]. destruct (l !! Z.to_nat i); congruence. Qed.

(** Claims-sets are read back from the documents made of them. *)
Lemma platform_read i j :
  platform_from_json [("cca-platform-instance-id", VString i); ("cca-platform-implementation-id", VString j)] =
  Some {| cca_platform_instance_id := i; cca_platform_implementation_id := j |}.
Proof. reflexivity. Qed.

Lemma realm_read c r0 r1 r2 r3 h i p :
  realm_from_json
    [("cca-realm-challenge", VString c);
     ("cca-realm-extensible-measurements", VArray [VString r0; VString r1; VString r2; VString r3]);
     ("cca-realm-hash-algo-id", VString h); ("cca-realm-initial-measurement", VString i);
     ("cca-realm-personalization-value", VString p)] =
  Some {| cca_realm_personalization_value := p; cca_realm_initial_measurement := i;
          cca_realm_extensible_measurements := [r0; r1; r2; r3]; cca_realm_hash_algo_id := h;
          cca_realm_challenge := c |}.
Proof. reflexivity. Qed.

(** The claims assembled from a token's annotated evidence are the token's. *)
Lemma assemble_token e rc pc tcb :
  realm_annotated_evidence e = Ok rc -> platform_annotated_evidence e = Ok pc ->
  assemble_cca_evidence rc pc = Ok tcb -> (4 <= length (rem e))%nat /\ tcb = cca_token_claims e.
Proof.
  unfold realm_annotated_evidence, platform_annotated_evidence, assemble_cca_evidence. intros Hr Hp H.
  apply bind_Ok in Hr as (r0 & H0%index_lookup_Ok & Hr). apply bind_Ok in Hr as (r1 & H1%index_lookup_Ok & Hr).
  apply bind_Ok in Hr as (r2 & H2%index_lookup_Ok & Hr). apply bind_Ok in Hr as (r3 & H3%index_lookup_Ok & Hr).
  destruct (rem_four _ _ _ _ _ H0 H1 H2 H3) as [Hl Ht].
  apply ok_or_Ok, raw_roundtrip in Hr. apply ok_or_Ok, raw_roundtrip in Hp.
  rewrite Hp in H. cbn [ok_or mbind outcome_bind] in H. rewrite platform_read in H.
  rewrite Hr in H. cbn [ok_or mbind outcome_bind] in H. rewrite realm_read in H.
  unfold b642hex in H. cbn [ok_or mbind outcome_bind cca_realm_personalization_value cca_realm_challenge] in H.
  rewrite !base64_decode_encode in H. cbn [ok_or mbind outcome_bind] in H. injection H as <-.
  split; [done|]. unfold cca_token_claims. now rewrite Ht.
Qed.

Lemma cca_local_Ok ta rv evidence d h claims :
  cca_config = Ok (CcaLocal ta rv) -> cca_evaluate evidence (RD_Value d) h = Ok claims ->
  exists token e, cca_token_from_value evidence = Some token /\ cca_token_accepted token d e /\
    (forall i, h = ID_Value i -> i = perso e) /\ claims = [(cca_generate_parsed_claim (cca_token_claims e), "cpu")].
Proof.
  intros Hc H. unfold cca_evaluate in H. rewrite Hc in H. cbn [mbind outcome_bind] in H.
  apply bind_Ok in H as (token & Ht%ok_or_Ok & H). apply bind_Ok in H as (ear & He & H).
  unfold cca_local_verify in He. apply bind_Ok in He as (jta & Ha%ok_or_Ok & He).
  apply bind_Ok in He as (jrv & Hb%ok_or_Ok & He). apply bind_Ok in He as (tas & Ht1%ok_or_Ok & He).
  apply bind_Ok in He as (rvs & Ht2%ok_or_Ok & He). apply bind_Ok in He as (e & Hd%ok_or_Ok & He).
  destruct (cca_token_verify token tas) eqn:E1; [|done]. destruct (cca_token_appraise token tas rvs) eqn:E2; [|done].
  destruct (realm_identity_affirming token tas rvs) eqn:E3; [|done]. cbn [negb] in He.
  destruct (bool_decide_reflect (regularize_data d 64 = challenge e)) as [E4|]; [|done]. cbn [negb] in He.
  apply bind_Ok in He as (rc & Hrc%map_err_Ok & He). apply bind_Ok in He as (pc & Hpc%map_err_Ok & [= <-]).
  apply bind_Ok in H as (rc' & Hrc' & H). apply bind_Ok in H as (pc' & Hpc' & H).
  injection Hrc' as <-. injection Hpc' as <-. apply bind_Ok in H as (tcb & Htcb & H).
  destruct (assemble_token _ _ _ _ Hrc Hpc Htcb) as [Hl ->]. apply bind_Ok in H as ([] & Hi & [= <-]).
  exists token, e. split; [done|]. split; [constructor; try done; eauto 15|]. split; [|done].
  intros i ->. cbn [cca_token_claims realm cca_realm_personalization_value] in Hi.
  rewrite base64_decode_encode in Hi. cbn [ok_or mbind outcome_bind] in Hi.
  destruct (bool_decide_reflect (i = perso e)); [done|discriminate Hi].
Qed.

(** A CCA token accepted locally is what it says.  When the verifier is
    configured for local verification and accepts evidence, the token was
    verified with the configured trust anchors, appraised with the configured
    reference values and its realm identity is affirmed; its challenge is the
    expected report data padded or cut to 64 bytes and its personalization value
    is the init data hash, exactly as given; and the claims are those of the
    token, through every change of encoding. *)
Theorem cca_local_sound ta rv evidence d h claims :
  cca_config = Ok (CcaLocal ta rv) -> cca_evaluate evidence (RD_Value d) h = Ok claims ->
  exists token e, cca_token_from_value evidence = Some token /\ cca_token_accepted token d e /\
    (forall i, h = ID_Value i -> i = perso e) /\ claims = [(cca_generate_parsed_claim (cca_token_claims e), "cpu")].
Proof. apply cca_local_Ok. Qed.

(** CCA init data must be hashed to 64 bytes.  The init data hash is compared
    with the personalization value of the realm as it is, while the SNP, TDX and
    SGX verifiers pad it to the width of the hardware field.  The value has 64
    bytes, so no token is accepted locally for init data hashed with SHA-256 or
    SHA-384. *)
Theorem cca_init_data_not_padded ta rv evidence d i claims :
  (forall token e, cca_decode token = Some e -> len (perso e) = 64) ->
  cca_config = Ok (CcaLocal ta rv) -> len i <> 64 ->
  cca_evaluate evidence (RD_Value d) (ID_Value i) <> Ok claims.
Proof.
  intros Hp Hc Hi H. destruct (cca_local_Ok _ _ _ _ _ _ Hc H) as (token & e & _ & Ha & He & _).
  apply Hi. rewrite (He i eq_refl). exact (Hp _ _ (ct_decoded _ _ _ Ha)).
Qed.

(** The challenge of a token. *)
Definition cca_reported (evidence : Value) : option bytes :=
  token ← cca_token_from_value evidence; e ← cca_decode token; Some (challenge e).

Lemma cca_local_binds ta rv :
  cca_config = Ok (CcaLocal ta rv) -> VerifierBinds cca_verifier (fun d => regularize_data d 64) cca_reported.
Proof.
  intros Hc evidence d h claims H. destruct (cca_local_Ok _ _ _ _ _ _ Hc H) as (token & e & Ht & Ha & _).
  unfold cca_reported. rewrite Ht. cbn. rewrite (ct_decoded _ _ _ Ha). cbn. now rewrite (ct_challenge _ _ _ Ha).
Qed.

(** ** Remote verification *)
Lemma cca_remote_nonce config token rd ear :
  cca_remote_verify config token rd = Ok ear ->
  exists address ca api path result nonce, config = CcaRemote address ca /\
    discover_verification_api address ca = Ok api /\
    get_api_endpoint api "newChallengeResponseSession" = Some path /\
    cr_run (address +:+ path) ca rd token MEDIA_TYPE = Ok result /\
    ear_from_jwt_jwk result (ear_verification_key api) = Some (ear, Some nonce) /\
    base64_url_safe_decode nonce = Some rd.
Proof.
  unfold cca_remote_verify. destruct config as [|address ca]; [done|]. intros H.
  apply bind_Ok in H as (api & H1 & H). apply bind_Ok in H as (path & H2%ok_or_Ok & H).
  apply bind_Ok in H as (result & H3%map_err_Ok & H). apply bind_Ok in H as ([plain nonce] & H4%ok_or_Ok & H).
  destruct nonce as [n|]; [|done]. apply bind_Ok in H as (b & H5%ok_or_Ok & H).
  destruct (bool_decide_reflect (rd = b)) as [->|]; [|done]. injection H as <-. eauto 15.
Qed.

(** A CCA token accepted remotely was answered for this report data.  When
    the verifier is configured for a remote service and accepts evidence, the
    service ran a session for this token with the expected report data as nonce,
    and its result, signed with the key it announced, carries that nonce; the
    claims come from that result. *)
Theorem cca_remote_sound address ca evidence d h claims :
  cca_config = Ok (CcaRemote address ca) -> cca_evaluate evidence (RD_Value d) h = Ok claims ->
  exists token api path result nonce ear rc pc tcb, cca_token_from_value evidence = Some token /\
    discover_verification_api address ca = Ok api /\
    cr_run (address +:+ path) ca (regularize_data d 64) token MEDIA_TYPE = Ok result /\
    ear_from_jwt_jwk result (ear_verification_key api) = Some (ear, Some nonce) /\
    base64_url_safe_decode nonce = Some (regularize_data d 64) /\
    obj_get "CCA_REALM" ear = Some rc /\ obj_get "CCA_SSD_PLATFORM" ear = Some pc /\
    assemble_cca_evidence rc pc = Ok tcb /\ claims = [(cca_generate_parsed_claim tcb, "cpu")].
Proof.
  intros Hc H. unfold cca_evaluate in H. rewrite Hc in H. cbn [mbind outcome_bind] in H.
  apply bind_Ok in H as (token & Ht%ok_or_Ok & H). apply bind_Ok in H as (ear & He & H).
  apply cca_remote_nonce in He as (a & c & api & path & result & nonce & [= <- <-] & H1 & H2 & H3 & H4 & H5).
  apply bind_Ok in H as (rc & Hrc%ok_or_Ok & H). apply bind_Ok in H as (pc & Hpc%ok_or_Ok & H).
  apply bind_Ok in H as (tcb & Htcb & H). apply bind_Ok in H as (u & _ & [= <-]). eauto 20.
Qed.
End CcaProofs.

(** ** A concrete instance *)
Module CcaDemo.
Import Init.Byte.

Definition demo_token : CcaToken :=
  {| perso := replicate 64 x05; rim := [x01]; rem := [[x02]; [x03]; [x04]; [x05]];
     challenge := replicate 48 x0c ++ replicate 16 x00; hash_alg := "sha-256"; inst_id := [x06]; impl_id := [x07] |}.

#[export] Instance demo_cca_verifier_crates : VerifierCrates := {|
  sample_from_value _ := None;
  base64_standard_decode s := Some (str_bytes s);
  base64_standard_encode b := string_of_list_byte b;
|}.

Definition demo_cca (cfg : CcaVerifierConfig) : CcaCrates := {|
  RawClaims := list (string * Value);
  raw_from_json m := Some m;
  raw_to_json m := Some m;
  cca_env_config := None;
  cca_read_file _ := Some [];
  cca_config_from_json _ := Some cfg;
  cca_token_from_value _ := Some [];
  TaStore := unit; RvStore := unit;
  ta_load_json _ := Some tt; rv_load_json _ := Some tt;
  cca_decode _ := Some demo_token;
  cca_token_verify _ _ := true;
  cca_token_appraise _ _ _ := true;
  realm_identity_affirming _ _ _ := true;
  VerificationApi := unit;
  discover_verification_api _ _ := Ok tt;
  get_api_endpoint _ _ := Some "/session";
  cr_run _ _ _ _ _ := Ok "jwt";
  ear_verification_key _ := "";
  ear_from_jwt_jwk _ _ :=
    Some ([("CCA_REALM", [("cca-realm-personalization-value", VString ""); ("cca-realm-initial-measurement", VString "");
                          ("cca-realm-extensible-measurements", VArray []); ("cca-realm-hash-algo-id", VString "");
                          ("cca-realm-challenge", VString "")]);
           ("CCA_SSD_PLATFORM", [("cca-platform-instance-id", VString "");
                                 ("cca-platform-implementation-id", VString "")])], Some "n");
  base64_url_safe_decode _ := Some (replicate 48 x0c ++ replicate 16 x00);
|}.

#[export] Instance demo_cca_local : CcaCrates := demo_cca (CcaLocal "ta" "rv").

Lemma demo_cca_laws cfg : CcaLaws (CA := demo_cca cfg).
Proof.
  split; [intros b; cbn; f_equal; apply list_byte_of_string_of_list_byte|]. cbn. congruence.
Qed.

Definition demo_rd : bytes := replicate 48 x0c.
Definition demo_perso : InitDataHash := ID_Value (replicate 64 x05).

Lemma cca_local_sound_witness :
  exists token e, cca_token_from_value VNull = Some token /\ cca_token_accepted token demo_rd e /\
    (forall i, demo_perso = ID_Value i -> i = perso e) /\
    [(cca_generate_parsed_claim (cca_token_claims demo_token), "cpu")] =
      [(cca_generate_parsed_claim (cca_token_claims e), "cpu")].
Proof.
  apply (cca_local_sound (CL := demo_cca_laws _) "ta" "rv" VNull demo_rd demo_perso); vm_compute; reflexivity.
Defined.

Lemma cca_init_data_not_padded_witness :
  cca_evaluate VNull (RD_Value demo_rd) (ID_Value (replicate 48 x05)) <>
    Ok [(cca_generate_parsed_claim (cca_token_claims demo_token), "cpu")].
Proof.
  apply (cca_init_data_not_padded (CL := demo_cca_laws _) "ta" "rv"); [|reflexivity|done].
  intros token e [= <-]. reflexivity.
Defined.

Lemma cca_remote_sound_witness :
  exists nonce, base64_url_safe_decode (CcaCrates := demo_cca (CcaRemote "a" None)) nonce = Some (regularize_data demo_rd 64).
Proof.
  destruct (cca_remote_sound (CA := demo_cca (CcaRemote "a" None)) "a" None VNull demo_rd ID_NotProvided
    [(cca_generate_parsed_claim {| realm := {| cca_realm_personalization_value := "";
        cca_realm_initial_measurement := ""; cca_realm_extensible_measurements := []; cca_realm_hash_algo_id := "";
        cca_realm_challenge := "" |};
      platform := {| cca_platform_instance_id := ""; cca_platform_implementation_id := "" |};
      cs_report_data := ""; cs_init_data := "" |}, "cpu")])
    as (token & api & path & result & nonce & ear & rc & pc & tcb & _ & _ & _ & _ & H & _).
  - reflexivity.
  - vm_compute. reflexivity.
  - exists nonce. exact H.
Defined.
End CcaDemo.
