(* ===== verification/Se.v ===== *)
(** * The IBM Secure Execution verifier ([deps/verifier/src/se/])

    The verifier makes the attestation request itself (the supplemental
    challenge), with keys encrypted for itself; evidence is a measurement under
    those keys.  The request and measurement of the [pv] crate and [openssl] are
    parameters; files are read from the file system, settings from the
    environment. *)
From S2P Require Import Prelude Types Text Fs Verifier.

Definition DEFAULT_SE_HOST_KEY_DOCUMENTS_ROOT : string := "/run/confidential-containers/ibmse/hkds".
Definition DEFAULT_SE_CERTIFICATES_ROOT : string := "/run/confidential-containers/ibmse/certs".
Definition DEFAULT_SE_CERTIFICATE_ROOT_CA : string := "/run/confidential-containers/ibmse/root_ca.crt".
Definition DEFAULT_SE_CERTIFICATE_REVOCATION_LISTS_ROOT : string := "/run/confidential-containers/ibmse/crls".
Definition DEFAULT_SE_IMAGE_HEADER_FILE : string := "/run/confidential-containers/ibmse/hdr/hdr.bin".
Definition DEFAULT_SE_MEASUREMENT_ENCR_KEY_PRIVATE : string := "/run/confidential-containers/ibmse/rsa/encrypt_key.pem".
Definition DEFAULT_SE_MEASUREMENT_ENCR_KEY_PUBLIC : string := "/run/confidential-containers/ibmse/rsa/encrypt_key.pub".

Class SeCrates := {
  (** [openssl]: keys, RSA with PKCS1 padding *)
  SePrivateKey : Type;
  SePublicKey : Type;
  private_key_from_pem : bytes -> option SePrivateKey;
  public_key_from_pem : bytes -> option SePublicKey;
  rsa_decrypt : SePrivateKey -> bytes -> option bytes;
  rsa_encrypt : SePublicKey -> bytes -> option bytes;
  hmac_key_ok : bytes -> bool;
  (** [pv]: image header tags, measurements, additional data *)
  BootHdrTags : Type;
  hdr_tag : BootHdrTags -> bytes;
  hdr_from_image : bytes -> option BootHdrTags;
  calculate_measurement : BootHdrTags -> bytes -> bytes -> bytes -> bytes -> bytes -> option bytes;
  additional_data_from : bytes -> option (option bytes * option bytes);
  attestation_version_one : Z;
  hmac_sha512_size : Z;
  expected_additional_size : Z;
  (** [pv]: host key documents and the request *)
  HostCert : Type;
  HostKey : Type;
  read_certs : bytes -> option (list HostCert);
  cert_verifier_verify : list string -> list string -> option string -> bool -> HostCert -> outcome anyhow unit;
  host_public_key : HostCert -> option HostKey;
  (** an encrypted request for these host keys: the blob, the measurement key and
      the nonce *)
  new_request : list HostKey -> option (bytes * bytes * option bytes);
}.

(** What a guest answers. *)
Record SeAttestationResponse `{SE : SeCrates} := {
  measurement : bytes;
  additional_data : bytes;
  user_data : bytes;
  cuid : bytes;
  encr_measurement_key : bytes;
  encr_request_nonce : bytes;
  image_hdr_tags : BootHdrTags;
}.

Record SeAttestationRequest `{SE : SeCrates} := {
  request_blob : bytes;
  measurement_size : Z;
  additional_size : Z;
  rq_encr_measurement_key : bytes;
  rq_encr_request_nonce : bytes;
  rq_image_hdr_tags : BootHdrTags;
}.

Record SeVerifierImpl `{SE : SeCrates} := {
  private_key : SePrivateKey;
  public_key : SePublicKey;
}.

Class SeSerde `{SE : SeCrates} := {
  se_response_from_value : Value -> option SeAttestationResponse;
  se_request_to_string : SeAttestationRequest -> option string;
}.

Section SeVerifier.
Context `{SE : SeCrates} `{SS : !SeSerde} `{D : Disk}.
(** The environment variables and the files at the time of the call. *)
Context (env : string -> option string) (fs : Fs).

(** The macro [env_or_default]. *)
Definition env_or_default (name dflt : string) : string := default dflt (env name).

Definition se_read (p : string) : outcome anyhow bytes := (fs_read p fs).2.

(** [list_files_in_folder]: the regular files of a directory. *)
Definition list_files_in_folder (dir : string) : outcome anyhow (list string) :=
  entries ← (fs_read_dir dir fs).2;
  Ok (base.filter (fun p => is_file fs (resolve p)) (map (path_push dir) entries)).

(** [str::parse::<bool>] with [unwrap_or(false)]. *)
Definition parse_bool (s : string) : bool := String.eqb s "true".

(** [SeVerifierImpl::new]. *)
Definition se_new : outcome anyhow SeVerifierImpl :=
  priv_contents ← se_read (env_or_default "SE_MEASUREMENT_ENCR_KEY_PRIVATE" DEFAULT_SE_MEASUREMENT_ENCR_KEY_PRIVATE);
  private_key ← ok_or "private key" (private_key_from_pem priv_contents);
  pub_contents ← se_read (env_or_default "SE_MEASUREMENT_ENCR_KEY_PUBLIC" DEFAULT_SE_MEASUREMENT_ENCR_KEY_PUBLIC);
  public_key ← ok_or "public key" (public_key_from_pem pub_contents);
  Ok {| private_key := private_key; public_key := public_key |}.

Definition se_decrypt (v : SeVerifierImpl) (ciphertext : bytes) : outcome anyhow bytes :=
  ok_or "decrypt" (rsa_decrypt (private_key v) ciphertext).

Definition se_encrypt (v : SeVerifierImpl) (text : bytes) : outcome anyhow bytes :=
  ok_or "encrypt" (rsa_encrypt (public_key v) text).

(** [SeVerifierImpl::evaluate]. *)
Definition se_impl_evaluate (v : SeVerifierImpl) (evidence : Value) : outcome anyhow Value :=
  se_response ← ok_or "deserialize" (se_response_from_value evidence);
  meas_key ← map_err (fun _ => "decrypt Measurement Key") (se_decrypt v (encr_measurement_key se_response));
  nonce ← map_err (fun _ => "decrypt Request Nonce") (se_decrypt v (encr_request_nonce se_response));
  if negb (len nonce =? 16) then Err "Failed to convert nonce from Vec<u8> to [u8; 16]"
  else if negb (hmac_key_ok meas_key) then Err "hmac key"
  else
    calculated ← ok_or "calculate" (calculate_measurement (image_hdr_tags se_response) (cuid se_response)
      (user_data se_response) nonce (additional_data se_response) meas_key);
    if negb (bool_decide (calculated = measurement se_response)) then Err "Failed to verify the measurement!"
    else
      '(image, attestation) ← ok_or "additional data" (additional_data_from (additional_data se_response));
      image_phkh ← ok_or "Failed to get image_public_host_key_hash." image;
      attestation_phkh ← ok_or "Failed to get attestation_public_host_key_hash." attestation;
      report_data ← ok_or "utf-8" (from_utf8 (user_data se_response));
      Ok (VObject [("cuid", VString (hex_encode (cuid se_response)));
                   ("report_data", VString report_data);
                   ("version", VNumber (PosInt attestation_version_one));
                   ("image_phkh", VString (hex_encode image_phkh));
                   ("attestation_phkh", VString (hex_encode attestation_phkh));
                   ("tag", VString (hex_encode (hdr_tag (image_hdr_tags se_response))))]).

(** One host key document of the loop. *)
Definition add_hostkey (ca_certs crls : list string) (ca_option : option string) (offline : bool)
    (keys : list HostKey) (hkd : string) : outcome anyhow (list HostKey) :=
  hk ← map_err (fun _ => "read host-key document") (se_read hkd);
  certs ← ok_or "read certs" (read_certs hk);
  c ← ok_or "File does not contain a X509 certificate" (head certs);
  let skip_certs := parse_bool (env_or_default "SE_SKIP_CERTS_VERIFICATION" "false") in
  (if negb skip_certs then cert_verifier_verify ca_certs crls ca_option offline c else Ok tt);;
  k ← ok_or "public key" (host_public_key c);
  Ok (keys ++ [k]).

(** [SeVerifierImpl::generate_supplemental_challenge]. *)
Definition se_impl_challenge (v : SeVerifierImpl) : outcome anyhow string :=
  ca_certs ← list_files_in_folder (env_or_default "SE_CERTIFICATES_ROOT" DEFAULT_SE_CERTIFICATES_ROOT);
  crls ← list_files_in_folder
           (env_or_default "SE_CERTIFICATE_REVOCATION_LISTS_ROOT" DEFAULT_SE_CERTIFICATE_REVOCATION_LISTS_ROOT);
  let root_ca_path := env_or_default "SE_CERTIFICATE_ROOT_CA" DEFAULT_SE_CERTIFICATE_ROOT_CA in
  let ca_option := if path_exists fs root_ca_path then Some root_ca_path else None in
  let offline_certs_verify := parse_bool (env_or_default "CERTS_OFFLINE_VERIFICATION" "false") in
  hkds ← list_files_in_folder
           (env_or_default "DEFAULT_SE_HOST_KEY_DOCUMENTS_ROOT" DEFAULT_SE_HOST_KEY_DOCUMENTS_ROOT);
  keys ← mfold (add_hostkey ca_certs crls ca_option offline_certs_verify) [] hkds;
  '(request_blob, measurement_key, nonce) ← ok_or "encrypt request" (new_request keys);
  encr_measurement_key ← se_encrypt v measurement_key;
  nonce ← ok_or "Failed to get nonce binding" nonce;
  encr_request_nonce ← se_encrypt v nonce;
  hdr ← se_read (env_or_default "SE_IMAGE_HEADER_FILE" DEFAULT_SE_IMAGE_HEADER_FILE);
  image_hdr_tags ← ok_or "image header" (hdr_from_image hdr);
  ok_or "json" (se_request_to_string
    {| request_blob := request_blob; measurement_size := hmac_sha512_size;
       additional_size := expected_additional_size; rq_encr_measurement_key := encr_measurement_key;
       rq_encr_request_nonce := encr_request_nonce; rq_image_hdr_tags := image_hdr_tags |}).

(** The keys are read once, by the first call that can read them. *)
Definition get_or_try_init (cell : option SeVerifierImpl) : option SeVerifierImpl * outcome anyhow SeVerifierImpl :=
  match cell with
  | Some v => (Some v, Ok v)
  | None =>
      match se_new with
      | Ok v => (Some v, Ok v)
      | r => (None, r)
      end
  end.

(** [SeVerifier::evaluate]: neither the report data nor the init data is checked. *)
Definition se_evaluate (cell : option SeVerifierImpl) (evidence : Value) (_ : ReportData) (_ : InitDataHash) :
    outcome anyhow (list (Value * string)) :=
  se_verifier ← (get_or_try_init cell).2;
  claims ← se_impl_evaluate se_verifier evidence;
  Ok [(claims, "cpu")].

Definition se_challenge (cell : option SeVerifierImpl) (_ : string) : outcome anyhow string :=
  se_verifier ← (get_or_try_init cell).2;
  se_impl_challenge se_verifier.

Definition se_verifier (cell : option SeVerifierImpl) : Verifier :=
  {| evaluate := se_evaluate cell; generate_supplemental_challenge := se_challenge cell |}.
End SeVerifier.
