(* ===== verification/SeProofs.v ===== *)
(** * Properties of the IBM Secure Execution verifier *)
From S2P Require Import Prelude Types Text Fs Verifier Se.

Section SeProofs.
Context `{SE : SeCrates} `{SS : !SeSerde} `{D : Disk}.
Context (env : string -> option string) (fs : Fs).

(** ** Accepted evidence *)

(** A measurement under the key and the nonce that the request was made with. *)
Record se_accepted (v : SeVerifierImpl) (r : SeAttestationResponse) (claims : Value) : Prop := {
  sr_measured : exists key nonce, rsa_decrypt (private_key v) (encr_measurement_key r) = Some key /\
    rsa_decrypt (private_key v) (encr_request_nonce r) = Some nonce /\ len nonce = 16 /\
    calculate_measurement (image_hdr_tags r) (cuid r) (user_data r) nonce (additional_data r) key =
      Some (measurement r);
  sr_claims : exists m i a u, claims = VObject m /\ additional_data_from (additional_data r) = Some (Some i, Some a) /\
    from_utf8 (user_data r) = Some u /\
    obj_get "report_data" m = Some (VString u) /\ obj_get "cuid" m = Some (VString (hex_encode (cuid r))) /\
    obj_get "image_phkh" m = Some (VString (hex_encode i)) /\
    obj_get "attestation_phkh" m = Some (VString (hex_encode a)) /\
    obj_get "tag" m = Some (VString (hex_encode (hdr_tag (image_hdr_tags r))));
}.

Lemma se_impl_evaluate_Ok v evidence claims :
  se_impl_evaluate v evidence = Ok claims ->
  exists r, se_response_from_value evidence = Some r /\ se_accepted v r claims.
Proof.
  unfold se_impl_evaluate. intros H. apply bind_Ok in H as (r & Hr%ok_or_Ok & H).
  apply bind_Ok in H as (key & Hk%map_err_Ok%ok_or_Ok & H). apply bind_Ok in H as (nonce & Hn%map_err_Ok%ok_or_Ok & H).
  destruct (Z.eqb_spec (len nonce) 16) as [Hl|]; [|done]. destruct (hmac_key_ok key); [|done]. cbn [negb] in H.
  apply bind_Ok in H as (c & Hc%ok_or_Ok & H).
  destruct (bool_decide_reflect (c = measurement r)) as [->|]; [|done]. cbn [negb] in H.
  apply bind_Ok in H as ([i a] & Ha%ok_or_Ok & H). apply bind_Ok in H as (i' & Hi%ok_or_Ok & H).
  apply bind_Ok in H as (a' & Ha'%ok_or_Ok & H). apply bind_Ok in H as (u & Hu%ok_or_Ok & [= <-]). subst i a.
  exists r. split; [done|]. constructor; [eauto 10|]. eexists _, i', a', u. repeat split; done.
Qed.

(** Secure Execution evidence is measured but not bound to its session.  When
    the verifier accepts evidence, the measurement was made under a key and a
    nonce that only this verifier can decrypt, and the claims are those of the
    response; but the same evidence is accepted for every report data and every
    init data, so the nonce and the key of the session are not compared. *)
Theorem se_evaluate_sound cell evidence d h claims :
  se_evaluate env fs cell evidence d h = Ok claims ->
  (exists v r c, (get_or_try_init env fs cell).2 = Ok v /\ se_response_from_value evidence = Some r /\
     claims = [(c, "cpu")] /\ se_accepted v r c) /\
  (forall d' h', se_evaluate env fs cell evidence d' h' = Ok claims).
Proof.
  intros H. split; [|done]. unfold se_evaluate in H. apply bind_Ok in H as (v & Hv & H).
  apply bind_Ok in H as (c & Hc & [= <-]). apply se_impl_evaluate_Ok in Hc as (r & ? & ?). eauto 10.
Qed.

(** ** The request *)

(** A host key that may be used: the first certificate of its document, verified
    unless verification is switched off. *)
Definition host_key_checked (ca crls : list string) (root : option string) (offline : bool) (hkd : string) (k : HostKey) :
    Prop :=
  exists doc c rest, files fs !! resolve hkd = Some doc /\ read_certs doc = Some (c :: rest) /\
    host_public_key c = Some k /\
    (env "SE_SKIP_CERTS_VERIFICATION" <> Some "true" -> cert_verifier_verify ca crls root offline c = Ok tt).

Lemma add_hostkey_Ok ca crls root offline keys hkd keys' :
  add_hostkey env fs ca crls root offline keys hkd = Ok keys' ->
  exists k, keys' = keys ++ [k] /\ host_key_checked ca crls root offline hkd k.
Proof.
  unfold add_hostkey, se_read. intros H. apply bind_Ok in H as (doc & Hd%map_err_Ok & H).
  destruct (fs_read hkd fs) as [fs' r] eqn:E. cbn in Hd. subst r. apply fs_read_Ok in E as [_ E].
  apply bind_Ok in H as (certs & Hc%ok_or_Ok & H). destruct certs as [|c rest]; [done|]. cbn [head ok_or mbind outcome_bind] in H.
  apply bind_Ok in H as ([] & Hv & H). apply bind_Ok in H as (k & Hk%ok_or_Ok & [= <-]).
  exists k. split; [done|]. exists doc, c, rest. do 3 (split; [done|]). intros Hs.
  unfold parse_bool, env_or_default in Hv. destruct (env "SE_SKIP_CERTS_VERIFICATION") as [x|]; [|exact Hv].
  unfold default, from_option, id in Hv. destruct (String.eqb_spec x "true") as [Ex|]; [congruence|exact Hv].
Qed.

Lemma add_hostkeys_Ok ca crls root offline hkds keys keys' :
  mfold (add_hostkey env fs ca crls root offline) keys hkds = Ok keys' ->
  exists new, keys' = keys ++ new /\ Forall2 (host_key_checked ca crls root offline) hkds new.
Proof.
  revert keys. induction hkds as [|hkd hkds IH]; intros keys H; cbn in H.
  { injection H as <-. exists []. split; [now rewrite app_nil_r|constructor]. }
  apply bind_Ok in H as (keys1 & (k & -> & Hk)%add_hostkey_Ok & H). destruct (IH _ H) as (new & -> & Hn).
  exists (k :: new). split; [now rewrite <- app_assoc|]. now constructor.
Qed.

(** The request a challenge is the text of. *)
Definition se_request_made (v : SeVerifierImpl) (rq : SeAttestationRequest) (keys : list HostKey) (mk nonce : bytes) : Prop :=
  exists hdr, new_request keys = Some (request_blob rq, mk, Some nonce) /\
    rsa_encrypt (public_key v) mk = Some (rq_encr_measurement_key rq) /\
    rsa_encrypt (public_key v) nonce = Some (rq_encr_request_nonce rq) /\
    files fs !! resolve (env_or_default env "SE_IMAGE_HEADER_FILE" DEFAULT_SE_IMAGE_HEADER_FILE) = Some hdr /\
    hdr_from_image hdr = Some (rq_image_hdr_tags rq).

Lemma se_impl_challenge_Ok v s :
  se_impl_challenge env fs v = Ok s ->
  exists rq ca crls root offline hkds keys mk nonce, se_request_to_string rq = Some s /\
    list_files_in_folder fs (env_or_default env "DEFAULT_SE_HOST_KEY_DOCUMENTS_ROOT" DEFAULT_SE_HOST_KEY_DOCUMENTS_ROOT) = Ok hkds /\
    list_files_in_folder fs (env_or_default env "SE_CERTIFICATES_ROOT" DEFAULT_SE_CERTIFICATES_ROOT) = Ok ca /\
    Forall2 (host_key_checked ca crls root offline) hkds keys /\ se_request_made v rq keys mk nonce.
Proof.
  unfold se_impl_challenge. intros H. apply bind_Ok in H as (ca & Hca & H). apply bind_Ok in H as (crls & _ & H).
  cbv zeta in H. apply bind_Ok in H as (hkds & Hh & H). apply bind_Ok in H as (keys & Hk & H).
  apply add_hostkeys_Ok in Hk as (new & -> & Hf). cbn [app] in H.
  apply bind_Ok in H as ([[blob mk] no] & Hr%ok_or_Ok & H). apply bind_Ok in H as (emk & He%ok_or_Ok & H).
  apply bind_Ok in H as (nonce & ->%ok_or_Ok & H). apply bind_Ok in H as (en & Hen%ok_or_Ok & H).
  apply bind_Ok in H as (hdr & Hhdr & H). apply bind_Ok in H as (tags & Ht%ok_or_Ok & H). apply ok_or_Ok in H.
  unfold se_read in Hhdr. destruct (fs_read _ fs) as [fs' r] eqn:E. cbn in Hhdr. subst r.
  apply fs_read_Ok in E as [_ E]. eexists _, ca, crls, _, _, hkds, new, mk, nonce. do 3 (split; [done|]).
  split; [exact Hf|]. exists hdr. done.
Qed.

(** The keys a challenge is encrypted for.  When the verifier makes a
    challenge, there is one host key per document of the configured folder, the
    key of its first certificate; unless [SE_SKIP_CERTS_VERIFICATION] is exactly
    [true], each of these certificates was verified against the configured
    authorities.  The measurement key and the nonce of the request are in the
    challenge only encrypted for the verifier itself. *)
Theorem se_challenge_host_keys cell params s :
  se_challenge env fs cell params = Ok s ->
  exists v rq ca crls root offline hkds keys mk nonce, (get_or_try_init env fs cell).2 = Ok v /\
    se_request_to_string rq = Some s /\
    list_files_in_folder fs (env_or_default env "DEFAULT_SE_HOST_KEY_DOCUMENTS_ROOT" DEFAULT_SE_HOST_KEY_DOCUMENTS_ROOT) = Ok hkds /\
    Forall2 (host_key_checked ca crls root offline) hkds keys /\ se_request_made v rq keys mk nonce.
Proof.
  unfold se_challenge. intros H. apply bind_Ok in H as (v & Hv & H).
  apply se_impl_challenge_Ok in H as (rq & ca & crls & root & offline & hkds & keys & mk & nonce & ? & ? & _ & ? & ?). eauto 20.
Qed.

(** The answer of a guest to a request: the encrypted key and nonce are sent back,
    and the measurement is made by the hardware, which decrypted the request. *)
Definition honest_response (rq : SeAttestationRequest) (mk nonce id udata adata : bytes) (r : SeAttestationResponse) : Prop :=
  encr_measurement_key r = rq_encr_measurement_key rq /\ encr_request_nonce r = rq_encr_request_nonce rq /\
  image_hdr_tags r = rq_image_hdr_tags rq /\ cuid r = id /\ user_data r = udata /\ additional_data r = adata /\
  calculate_measurement (image_hdr_tags r) id udata nonce adata mk = Some (measurement r).

(** The key pair of the verifier belongs together. *)
Definition key_pair (v : SeVerifierImpl) : Prop :=
  forall text c, rsa_encrypt (public_key v) text = Some c -> rsa_decrypt (private_key v) c = Some text.

(** An honest guest is accepted.  If the verifier's keys are a pair, a
    challenge it made, measured by a guest with the measurement key and the nonce
    of the request, is accepted when the response comes back, and the user data
    of the guest is the report data of the claims. *)
Theorem se_honest_accepted v s :
  key_pair v -> se_impl_challenge env fs v = Ok s ->
  exists rq mk nonce keys, se_request_to_string rq = Some s /\ se_request_made v rq keys mk nonce /\
    forall evidence r id udata adata i a u,
      len nonce = 16 -> hmac_key_ok mk = true -> se_response_from_value evidence = Some r ->
      honest_response rq mk nonce id udata adata r ->
      additional_data_from adata = Some (Some i, Some a) -> from_utf8 udata = Some u ->
      exists m, se_impl_evaluate v evidence = Ok (VObject m) /\ obj_get "report_data" m = Some (VString u).
Proof.
  intros Hkp H. apply se_impl_challenge_Ok in H as (rq & ca & crls & root & offline & hkds & keys & mk & nonce & Hs & _ & _ & _ & Hm).
  pose proof Hm as (hdr & Hn & He1 & He2 & _). exists rq, mk, nonce, keys. do 2 (split; [done|]).
  intros evidence r id udata adata i a u Hl Hh Hr (E1 & E2 & E3 & <- & <- & <- & Hc) Ha Hu.
  unfold se_impl_evaluate, se_decrypt. rewrite Hr. cbn [ok_or mbind outcome_bind].
  rewrite E1, (Hkp _ _ He1). cbn [ok_or map_err mbind outcome_bind].
  rewrite E2, (Hkp _ _ He2). cbn [ok_or map_err mbind outcome_bind].
  rewrite Hl, Hh. cbn [Z.eqb Pos.eqb negb]. rewrite Hc. cbn [ok_or mbind outcome_bind].
  rewrite bool_decide_eq_true_2 by done. cbn [negb]. rewrite Ha. cbn [ok_or mbind outcome_bind].
  rewrite Hu. cbn [ok_or mbind outcome_bind]. eexists. split; reflexivity.
Qed.
End SeProofs.

(** ** A concrete instance *)
Module SeDemo.
Import Init.Byte.

#[export] Instance demo_se : SeCrates := {|
  SePrivateKey := unit; SePublicKey := unit;
  private_key_from_pem _ := Some tt; public_key_from_pem _ := Some tt;
  rsa_decrypt _ b := Some (rev b); rsa_encrypt _ b := Some (rev b);
  hmac_key_ok _ := true;
  BootHdrTags := bytes; hdr_tag t := t; hdr_from_image b := Some b;
  calculate_measurement t c u n a k := Some (t ++ c ++ u ++ n ++ a ++ k);
  additional_data_from _ := Some (Some [x01], Some [x02]);
  attestation_version_one := 256; hmac_sha512_size := 64; expected_additional_size := 64;
  HostCert := bytes; HostKey := bytes;
  read_certs b := Some [b];
  cert_verifier_verify _ _ _ _ _ := Ok tt;
  host_public_key c := Some c;
  new_request _ := Some ([x07], [x01; x02], Some (x0a :: replicate 15 x00));
|}.

Definition demo_response : SeAttestationResponse :=
  {| measurement := [x09] ++ [x03] ++ [x41] ++ (x0a :: replicate 15 x00) ++ [x04] ++ [x01; x02];
     additional_data := [x04]; user_data := [x41]; cuid := [x03];
     encr_measurement_key := [x02; x01]; encr_request_nonce := replicate 15 x00 ++ [x0a];
     image_hdr_tags := ([x09] : @BootHdrTags demo_se) |}.

#[export] Instance demo_se_serde : SeSerde (SE := demo_se) := {|
  se_response_from_value _ := Some demo_response;
  se_request_to_string _ := Some "challenge";
|}.

#[export] Instance demo_disk : Disk := {| disk_fault _ _ := false; made _ := 0%nat; written _ _ := None |}.
Definition demo_env : string -> option string := fun _ => None.
Definition ibmse : list string := ["run"; "confidential-containers"; "ibmse"].
Definition demo_fs : Fs :=
  {| files := {[ ibmse ++ ["hkds"; "host.crt"] := [x05]; ibmse ++ ["hdr"; "hdr.bin"] := [x09];
                 ibmse ++ ["rsa"; "encrypt_key.pem"] := []; ibmse ++ ["rsa"; "encrypt_key.pub"] := [] ]};
     dirs := {[ ibmse ++ ["hkds"]; ibmse ++ ["certs"]; ibmse ++ ["crls"] ]} |}.
Definition demo_impl : SeVerifierImpl :=
  {| private_key := (tt : @SePrivateKey demo_se); public_key := (tt : @SePublicKey demo_se) |}.


Definition demo_se_claims : list (Value * string) :=
  match se_evaluate demo_env demo_fs None VNull RD_NotProvided ID_NotProvided with
  | Ok c => c
  | _ => []
  end.

Lemma se_evaluate_sound_witness :
  demo_se_claims <> [] /\
  se_evaluate demo_env demo_fs None VNull (RD_Value [x00]) ID_NotProvided = Ok demo_se_claims.
Proof.
  split; [vm_compute; discriminate|].
  apply (se_evaluate_sound demo_env demo_fs None VNull RD_NotProvided ID_NotProvided). vm_compute. reflexivity.
Defined.

Lemma se_challenge_host_keys_witness :
  exists v rq (ca crls : list string) (root : option string) (offline : bool) hkds keys mk nonce,
    (get_or_try_init demo_env demo_fs None).2 = Ok v /\ se_request_to_string rq = Some "challenge" /\
    list_files_in_folder demo_fs DEFAULT_SE_HOST_KEY_DOCUMENTS_ROOT = Ok hkds /\
    Forall2 (host_key_checked demo_env demo_fs ca crls root offline) hkds keys /\
    se_request_made demo_env demo_fs v rq keys mk nonce.
Proof. apply (se_challenge_host_keys demo_env demo_fs None "" "challenge"). vm_compute. reflexivity. Defined.

Lemma se_honest_accepted_witness :
  exists rq mk nonce keys, se_request_to_string rq = Some "challenge" /\
    se_request_made demo_env demo_fs demo_impl rq keys mk nonce /\
    forall evidence r id udata adata i a u,
      len nonce = 16 -> hmac_key_ok mk = true -> se_response_from_value evidence = Some r ->
      honest_response rq mk nonce id udata adata r ->
      additional_data_from adata = Some (Some i, Some a) -> from_utf8 udata = Some u ->
      exists m, se_impl_evaluate demo_impl evidence = Ok (VObject m) /\ obj_get "report_data" m = Some (VString u).
Proof.
  apply (se_honest_accepted demo_env demo_fs demo_impl "challenge").
  - intros text c [= <-]. cbn. now rewrite rev_involutive.
  - vm_compute. reflexivity.
Defined.
End SeDemo.
