(* ===== verification/AsService.v ===== *)
(** * The attestation service ([attestation-service/src/lib.rs]) and its use by
      the KBS ([kbs/src/attestation/coco/builtin.rs])

    Verification requests are verified by the verifier of their TEE with the
    digest of their runtime data, and the claims go to the token broker with the
    reference values.  The broker and the reference value service are interfaces,
    over one state. *)
From S2P Require Import Prelude Types Text Fs Json Session Attestation Policy AsPolicy Brokers Rvps Verifier.

(** ** Requests *)
Inductive HashAlgorithm := Sha256 | Sha384 | Sha512.

Inductive AsRuntimeData :=
| Raw (data : bytes)
| Structured (data : Value).

Record Initdata := {
  id_version : string;
  id_algorithm : HashAlgorithm;
  id_data : list (string * string);
}.

Inductive InitDataInput :=
| Digest (data : bytes)
| Toml (data : string).

Record VerificationRequest := {
  vr_evidence : Value;
  vr_tee : Tee;
  vr_runtime_data : option AsRuntimeData;
  vr_runtime_data_hash_algorithm : HashAlgorithm;
  vr_init_data : option InitDataInput;
}.

(** The trait [RvpsApi]; the time is the one [expired] reads. *)
Class RvpsApi (S : Type) := {
  rvps_verify_and_extract : Z -> string -> st S anyhow unit;
  rvps_get_digests : Z -> st S anyhow (gmap string Value);
}.

(** [BuiltinRvps]. *)
Definition builtin_rvps {S} `{B : ReferenceValueStorage S} `{C : RvpsCrates} : RvpsApi S := {|
  rvps_verify_and_extract := verify_and_extract;
  rvps_get_digests := get_digests;
|}.

(** The crates the service calls. *)
Class AsCrates := {
  (** [canon_json] *)
  serialize_canon_json : Value -> option bytes;
  (** [HashAlgorithm::digest] *)
  hash_digest : HashAlgorithm -> bytes -> bytes;
  (** [toml::from_str] *)
  initdata_from_toml : string -> option Initdata;
}.

(** ** Start-up *)
Inductive AttestationTokenConfig :=
| Simple (cfg : SimpleConfiguration)
| EarToken (cfg : EarConfiguration).

Definition attestation_token_config_default (build : string) : AttestationTokenConfig :=
  EarToken (ear_configuration_default build).

Section StartUp.
Context `{P : Profile} `{Dk : Disk} `{A : AsPolicyCrates} `{BC : BrokerCrates} `{T : TimeCrate} `{EC : EarCrate}
  `{RC : RvpsCrates}.
Context (ear_sign : Ear -> EarJwk -> EcKey -> option string).
(** The texts of the policies included in the binary. *)
Context (simple_default_policy ear_default_policy_cpu ear_default_policy_gpu : string).

(** [to_token_broker]. *)
Definition to_token_broker (cfg : AttestationTokenConfig) : st Fs anyhow (AttestationTokenBroker Fs) :=
  match cfg with
  | Simple cfg => b ← simple_new simple_default_policy cfg; mret (simple_broker b)
  | EarToken cfg => b ← ear_new ear_default_policy_cpu ear_default_policy_gpu cfg; mret (ear_broker ear_sign b)
  end.

End StartUp.

(** The readings of the clock and of the random source during a call. *)
Record AsEnv := {
  t_register : Z;
  t_digests : Z;
  t_issue : Z;
  jti : string;
  rng : nat -> option bytes;
}.

Section Service.
Context {S : Type} `{TB : AttestationTokenBroker S} `{R : RvpsApi S} `{AC : AsCrates}.
Context (verifier_for : Tee -> outcome anyhow Verifier).

(** [parse_runtime_data]. *)
Definition parse_runtime_data (data : option AsRuntimeData) (alg : HashAlgorithm) :
    outcome anyhow (option bytes * Value) :=
  match data with
  | Some (Raw raw) => Ok (Some raw, VNull)
  | Some (Structured structured) =>
      hash_materials ← ok_or "parse JSON structured data" (serialize_canon_json structured);
      Ok (Some (hash_digest alg hash_materials), structured)
  | None => Ok (None, VNull)
  end.

(** [parse_init_data]. *)
Definition parse_init_data (data : option InitDataInput) : outcome anyhow (option bytes * Value) :=
  match data with
  | Some (Digest raw) => Ok (Some raw, VNull)
  | Some (Toml structured) =>
      initdata ← ok_or "parse TOML structured data" (initdata_from_toml structured);
      Ok (Some (hash_digest (id_algorithm initdata) (str_bytes structured)),
          VObject (map (fun kv => (kv.1, VString kv.2)) (id_data initdata)))
  | None => Ok (None, VNull)
  end.

Definition report_data_of (o : option bytes) : ReportData :=
  match o with
  | Some d => RD_Value d
  | None => RD_NotProvided
  end.

Definition init_data_hash_of (o : option bytes) : InitDataHash :=
  match o with
  | Some d => ID_Value d
  | None => ID_NotProvided
  end.

(** One request of the loop of [evaluate]. *)
Definition verify_request (r : VerificationRequest) : outcome anyhow (list TeeClaims) :=
  verifier ← verifier_for (vr_tee r);
  '(report_data, runtime_data_claims) ←
    parse_runtime_data (vr_runtime_data r) (vr_runtime_data_hash_algorithm r);
  '(init_data, init_data_claims) ← parse_init_data (vr_init_data r);
  claims ← map_err (fun _ => "Verifier evaluate failed")
    (evaluate verifier (vr_evidence r) (report_data_of report_data) (init_data_hash_of init_data));
  Ok (map (fun ct => {| tc_tee := vr_tee r; tee_class := ct.2; claims := ct.1;
                        init_data_claims := init_data_claims;
                        runtime_data_claims := runtime_data_claims |}) claims).

Fixpoint verify_requests (l : list VerificationRequest) : outcome anyhow (list TeeClaims) :=
  match l with
  | [] => Ok []
  | r :: l => c ← verify_request r; cs ← verify_requests l; Ok (c ++ cs)
  end.

(** [AttestationService::evaluate]. *)
Definition svc_evaluate (env : AsEnv) (requests : list VerificationRequest) (policy_ids : list string) :
    st S anyhow string :=
  match requests with
  | [] => st_err "No verification requests provided."
  | _ =>
      tee_claims ← st_lift (verify_requests requests);
      reference_data_map ← st_map_err (fun _ => "Generate reference data failed")
        (rvps_get_digests (t_digests env));
      issue (t_issue env) (jti env) tee_claims policy_ids reference_data_map
  end.

Definition svc_set_policy (policy_id policy : string) : st S anyhow unit := broker_set_policy policy_id policy.
Definition svc_list_policies : st S anyhow (gmap string string) :=
  st_map_err (fun _ => "Cannot List Policy") broker_list_policies.
Definition svc_get_policy (policy_id : string) : st S anyhow string :=
  st_map_err (fun _ => "Cannot Get Policy") (broker_get_policy policy_id).
Definition svc_register_reference_value (env : AsEnv) (message : string) : st S anyhow unit :=
  st_map_err (fun _ => "register reference value") (rvps_verify_and_extract (t_register env) message).
Definition svc_query_reference_values (env : AsEnv) : st S anyhow (gmap string Value) :=
  st_map_err (fun _ => "query reference values") (rvps_get_digests (t_digests env)).
Definition svc_generate_supplemental_challenge (tee : Tee) (tee_parameters : string) :
    st S anyhow string :=
  verifier ← st_lift (verifier_for tee);
  st_lift (generate_supplemental_challenge verifier tee_parameters).

(** ** [BuiltInCoCoAs] *)
Context `{KC : KbsCrates}.

(** The request for one piece of evidence. *)
Definition builtin_request (e : IndependentEvidence) : outcome anyhow VerificationRequest :=
  init ← match init_data e with
         | Some i => if negb (String.eqb (format i) "toml") then Err "Unsupported initdata format"
                     else Ok (Some (Toml (body i)))
         | None => Ok None
         end;
  Ok {| vr_evidence := tee_evidence e; vr_tee := tee e;
        vr_runtime_data := Some (Structured (runtime_data e));
        vr_runtime_data_hash_algorithm := Sha384;
        vr_init_data := init |}.

Fixpoint builtin_requests (l : list IndependentEvidence) : outcome anyhow (list VerificationRequest) :=
  match l with
  | [] => Ok []
  | e :: l => r ← builtin_request e; rs ← builtin_requests l; Ok (r :: rs)
  end.

Definition builtin_verify (env : AsEnv) (evidence_to_verify : list IndependentEvidence) : st S anyhow string :=
  verification_requests ← st_lift (builtin_requests evidence_to_verify);
  svc_evaluate env verification_requests ["default"].

(** [generate_challenge]; the text of a JSON value never fails to be written. *)
Definition builtin_generate_challenge (env : AsEnv) (t : Tee) (tee_parameters : Value) :
    st S anyhow Challenge :=
  nonce ← match t with
          | Se => svc_generate_supplemental_challenge t (default "" (value_to_string tee_parameters))
          | _ => st_lift (make_nonce (rng env))
          end;
  mret {| nonce := nonce; ch_extra_params := VString "" |}.

Definition builtin_coco_as (env : AsEnv) : Attest S := {|
  attest_set_policy := svc_set_policy;
  attest_verify := builtin_verify env;
  attest_generate_challenge := builtin_generate_challenge env;
  attest_register_reference_value := svc_register_reference_value env;
  attest_query_reference_values :=
    m ← svc_query_reference_values env; mret (map_to_list m);
|}.
End Service.
