(* ===== verification/AsServiceProofs.v ===== *)
(** * Properties of the attestation service

    What stands behind a token: every piece of evidence was verified against
    the digest of its runtime data, and for an attestation through the KBS that
    runtime data holds the session's nonce and the public key the secrets will
    be encrypted to. *)
From S2P Require Import Prelude Types Text Fs Json Metrics Session Attestation Handshake Policy AsPolicy Brokers Rvps Verifier AsService.

Section AsProofs.
Context {S : Type} `{TB : AttestationTokenBroker S} `{R : RvpsApi S} `{AC : AsCrates} `{KC : KbsCrates}
  `{T : TimeCrate}.
Context (verifier_for : Tee -> outcome anyhow Verifier).

(** The init data of a piece of evidence and what the verifier is told of it. *)
Definition init_data_checked (o : option InitData) (h : InitDataHash) (cl : Value) : Prop :=
  match o with
  | None => h = ID_NotProvided /\ cl = VNull
  | Some i => format i = "toml" /\ exists toml, initdata_from_toml (body i) = Some toml /\
      h = ID_Value (hash_digest (id_algorithm toml) (str_bytes (body i))) /\
      cl = VObject (map (fun kv => (kv.1, VString kv.2)) (id_data toml))
  end.

(** A piece of evidence verified against the digest of its runtime data, and
    the claims that follow from it. *)
Definition verified (e : IndependentEvidence) (cs : list TeeClaims) : Prop :=
  exists v canon h id_claims claims,
    verifier_for (tee e) = Ok v /\ serialize_canon_json (runtime_data e) = Some canon /\
    init_data_checked (init_data e) h id_claims /\
    evaluate v (tee_evidence e) (RD_Value (hash_digest Sha384 canon)) h = Ok claims /\
    cs = map (fun ct => {| tc_tee := tee e; tee_class := ct.2; Brokers.claims := ct.1;
                           init_data_claims := id_claims;
                           runtime_data_claims := runtime_data e |}) claims.

Lemma builtin_request_verified e r cs :
  builtin_request e = Ok r -> verify_request verifier_for r = Ok cs -> verified e cs.
Proof.
  intros Hr Hv. unfold builtin_request in Hr. apply bind_Ok in Hr as (init & Hi & [= <-]).
  unfold verify_request in Hv. cbn in Hv. inv_ok.
  apply bind_Ok in Hv as ([id idc] & Hid & Hv).
  apply bind_Ok in Hv as (cl & Hcl & [= <-]). apply map_err_Ok in Hcl.
  match goal with E : verifier_for _ = Ok ?v, E' : serialize_canon_json _ = Some ?canon |- _ =>
    exists v, canon, (init_data_hash_of id), idc, cl end.
  do 2 (split; [done|]). split; [|done].
  destruct (init_data e) as [i|]; cbn in Hi.
  - destruct (String.eqb_spec (format i) "toml") as [Hf|]; [|discriminate Hi]. injection Hi as <-.
    cbn in Hid. destruct (initdata_from_toml (body i)) as [toml|] eqn:Et; [|discriminate Hid].
    injection Hid as <- <-. split; [done|]. eauto.
  - injection Hi as <-. injection Hid as <- <-. done.
Qed.

Lemma builtin_requests_verified evs rs tcs :
  builtin_requests evs = Ok rs -> verify_requests verifier_for rs = Ok tcs ->
  exists css, Forall2 verified evs css /\ tcs = concat css.
Proof.
  revert rs tcs. induction evs as [|e evs IH]; intros rs tcs Hr Hv; cbn in Hr; inv_ok; cbn in Hv; inv_ok.
  - exists []. split; [constructor|done].
  - destruct (IH _ _ Hok0 Hok2) as (css & Hf & ->). exists (a1 :: css). split; [|done].
    constructor; [|done]. eapply builtin_request_verified; eassumption.
Qed.

Lemma builtin_verify_Ok env evs s s' tok :
  builtin_verify verifier_for env evs s = (s', Ok tok) ->
  evs <> [] /\ exists css refs s1,
    Forall2 verified evs css /\ rvps_get_digests (t_digests env) s = (s1, Ok refs) /\
    issue (t_issue env) (jti env) (concat css) ["default"] refs s1 = (s', Ok tok).
Proof.
  intros H. unfold builtin_verify in H. inv_st. unfold svc_evaluate in H.
  match goal with E : builtin_requests _ = Ok ?rs |- _ => rename E into Hr; destruct rs as [|r rs]; [discriminate H|] end.
  split. { intros ->. discriminate Hr. }
  inv_st. match goal with E : verify_request _ ?r ≫= _ = Ok _ |- _ =>
    destruct (builtin_requests_verified _ (r :: _) _ Hr E) as (css & Hf & ->) end. eauto 10.
Qed.

(** A token stands for verified evidence.  When the attestation service
    returns a token for a list of evidence, the list is not empty, every piece
    was accepted by the verifier of its TEE against the SHA-384 digest of the
    canonical form of its runtime data (and the digest of its init data, if
    any), and the token was issued under the default policy for exactly the
    claims of all pieces, in order, with the current reference values. *)
Theorem token_stands_for_evidence env evs s s' tok :
  builtin_verify verifier_for env evs s = (s', Ok tok) ->
  evs <> [] /\ exists css refs s1,
    Forall2 verified evs css /\ rvps_get_digests (t_digests env) s = (s1, Ok refs) /\
    issue (t_issue env) (jti env) (concat css) ["default"] refs s1 = (s', Ok tok).
Proof. apply builtin_verify_Ok. Qed.

(** The evidence of an attestation starts with the primary evidence. *)
Lemma attest_evidence_Ok {I} p (s s' : AttestationService I) evs :
  attest_evidence p s = (s', Ok evs) ->
  pa_nonce p = rt_nonce (at_runtime_data (pa_attestation p)) /\
  exists rest extra, evs = {| tee := pa_tee p;
    tee_evidence := primary_evidence (at_tee_evidence (pa_attestation p));
    runtime_data := primary_runtime_data p; init_data := at_init_data (pa_attestation p) |} :: rest /\
    length rest = length extra /\ (extra = [] \/ exists text, parse_additional_evidence text = Some extra).
Proof.
  unfold attest_evidence. destruct (String.eqb_spec (pa_nonce p) (rt_nonce (at_runtime_data (pa_attestation p))))
    as [E|]; cbn [negb]; [|discriminate]. intros H. split; [done|].
  destruct (String.eqb _ ""); [injection H as <- <-; exists [], []; auto|]. inv_st. inv_ok.
  eexists _, _. split; [reflexivity|]. rewrite length_map. eauto.
Qed.

Lemma attest_lookup_answered {I} `{A : Attest I} now b rq (s s' : AttestationService I) resp :
  attest_lookup now b rq s = (s', Ok (inl resp)) ->
  exists sid tok id t, cookie rq KBS_SESSION_ID = Some sid /\
    session_map s !! sid = Some (Attested tok id t).
Proof.
  intros H. unfold attest_lookup, session_request, session_challenge in H. run_st H. eauto 10.
Qed.

(** The document whose digest the primary evidence must carry. *)
Definition session_document (att : Attestation) (c : Challenge) : Value :=
  VObject [("tee-pubkey", pubkey_value (rt_tee_pubkey (at_runtime_data att)));
           ("nonce", VString (nonce c));
           ("additional-evidence", VString (additional_evidence (at_tee_evidence att)))].

(** At most one device of the class [cpu] among what a verifier reports. *)
Definition one_cpu (cs : list (Value * string)) : Prop :=
  (length (List.filter (fun ct => String.eqb ct.2 "cpu") cs) <= 1)%nat.

(** Different TEEs, so not many pieces of evidence. *)
Lemma tees_bound (l : list Tee) : NoDup l -> (length l <= 14)%nat.
Proof.
  intros H%NoDup_ListNoDup. apply (List.NoDup_incl_length (l' := [Sev; AzSnpVtpm; AzTdxVtpm; Tdx; Snp; Sample; SampleDevice;
    Sgx; Csv; Cca; Se; HygonDcu; Nvidia; Tpm]) H).
  intros t _. destruct t; cbn; tauto.
Qed.

(** An attestation by the built-in service, step by step. *)
Lemma attest_builtin_Ok env now b rq s s' resp sid r c sid' t :
  let A := builtin_coco_as verifier_for env in
  __attest now b rq s = (s', Ok resp) ->
  cookie rq KBS_SESSION_ID = Some sid -> session_map s !! sid = Some (Authed r c sid' t) ->
  exists att tok v canon h idc cs rest refs i1,
    parse_attestation b = Some att /\ rt_nonce (at_runtime_data att) = nonce c /\
    session_map s' !! sid = Some (Attested tok sid' t) /\
    verifier_for (req_tee r) = Ok v /\
    serialize_canon_json (session_document att c) = Some canon /\
    init_data_checked (at_init_data att) h idc /\
    evaluate v (primary_evidence (at_tee_evidence att)) (RD_Value (hash_digest Sha384 canon)) h = Ok cs /\
    (forall norm reported, VerifierBinds v norm reported ->
       reported (primary_evidence (at_tee_evidence att)) = Some (norm (hash_digest Sha384 canon))) /\
    take (length cs) rest =
      map (fun ct => {| tc_tee := req_tee r; tee_class := ct.2; Brokers.claims := ct.1; init_data_claims := idc;
                        runtime_data_claims := session_document att c |}) cs /\
    rvps_get_digests (t_digests env) (inner s) = (i1, Ok refs) /\
    issue (t_issue env) (jti env) rest ["default"] refs i1 = (inner s', Ok tok) /\
    exists evs css extra, Forall2 verified evs css /\ rest = concat css /\ length evs = Datatypes.S (length extra) /\
      (extra = [] \/ exists text, parse_additional_evidence text = Some extra).
Proof.
  intros A H Hc Hs. unfold __attest in H. apply st_bind_Ok in H as (s1 & x & Hl & H).
  destruct x as [resp'|p].
  { destruct (attest_lookup_answered _ _ _ _ _ _ Hl) as (sid0 & tok & id0 & t0 & Hc0 & Hs0). congruence. }
  destruct (attest_lookup_pending _ _ _ _ _ _ Hl) as (r0 & c0 & id0 & t0 & Hs0 & Hc0 & _ & Htee & Hn & Hp).
  assert (Hsid : pa_session_id p = sid) by congruence. rewrite Hsid, Hs in Hs0. injection Hs0 as <- <- <- <-.
  destruct (attest_lookup_same _ _ _ _ _ _ Hl) as (Hi1 & Hm1 & _).
  apply st_bind_Ok in H as (s2 & evs & He & H).
  destruct (attest_evidence_same _ _ _ _ He) as (Hi2 & Hm2 & _).
  destruct (attest_evidence_Ok _ _ _ _ He) as (Hnn & rest & extra & -> & Hlen & Hextra).
  destruct (attest_finish_Ok _ _ _ _ _ H) as (r1 & c1 & id1 & t1 & tok & i' & Hs1 & Hv & Hi & _ & Hm).
  rewrite Hsid, Hm2, Hm1, Hs in Hs1. injection Hs1 as <- <- <- <-.
  destruct (builtin_verify_Ok _ _ _ _ _ Hv) as (_ & css & refs & i1 & Hf & Hg & Hiss).
  pose proof Hf as Hall. apply Forall2_cons_inv_l in Hf as (cs1 & css' & (v & canon & h & idc & cs & V1 & V2 & V4 & V3 & ->) & _ & ->).
  cbn in V1, V2, V3. rewrite Htee in V1. unfold primary_runtime_data in V2. rewrite Hn in V2.
  match type of Hiss with issue _ _ ?tcs _ _ _ = _ =>
    exists (pa_attestation p), tok, v, canon, h, idc, cs, tcs, refs, i1 end.
  do 2 (split; [done || congruence|]). split; [rewrite Hm, Hsid; apply lookup_insert_eq|].
  do 4 (split; [done|]). split; [intros norm reported Hb; exact (binds_report_data _ _ _ _ V3)|].
  split; [|split; [congruence|split; [now subst i'|]]].
  2: { eexists _, _, extra. split; [exact Hall|]. split; [reflexivity|]. split; [cbn; now rewrite Hlen|done]. }
  cbn [concat]. rewrite take_app_le, take_ge by (rewrite length_map; lia).
  cbn. unfold primary_runtime_data, session_document. now rewrite Htee, Hn.
Qed.

(** C2: attestation binds the key and the nonce.  When the KBS, with the
    built-in attestation service, attests a waiting session, the evidence was
    accepted by the verifier of the session's TEE for the digest of a document
    with the nonce of the session and the public key of the request (and for the
    digest of the init data, if there is any); if that verifier compares report
    data, the evidence itself carries that digest, in the form of its hardware.
    The session then holds a token issued for these claims. *)
Theorem attestation_binds_key_and_nonce env now b rq s s' resp sid r c sid' t :
  let A := builtin_coco_as verifier_for env in
  __attest now b rq s = (s', Ok resp) ->
  cookie rq KBS_SESSION_ID = Some sid -> session_map s !! sid = Some (Authed r c sid' t) ->
  exists att tok v canon h idc cs rest refs i1,
    parse_attestation b = Some att /\ rt_nonce (at_runtime_data att) = nonce c /\
    session_map s' !! sid = Some (Attested tok sid' t) /\
    verifier_for (req_tee r) = Ok v /\
    serialize_canon_json (session_document att c) = Some canon /\
    init_data_checked (at_init_data att) h idc /\
    evaluate v (primary_evidence (at_tee_evidence att)) (RD_Value (hash_digest Sha384 canon)) h = Ok cs /\
    (forall norm reported, VerifierBinds v norm reported ->
       reported (primary_evidence (at_tee_evidence att)) = Some (norm (hash_digest Sha384 canon))) /\
    map (fun tc => (Brokers.claims tc, runtime_data_claims tc)) (take (length cs) rest) =
      map (fun ct => (ct.1, session_document att c)) cs /\
    issue (t_issue env) (jti env) rest ["default"] refs i1 = (inner s', Ok tok).
Proof.
  intros A H Hc Hs.
  destruct (attest_builtin_Ok _ _ _ _ _ _ _ _ _ _ _ _ H Hc Hs)
    as (att & tok & v & canon & h & idc & cs & rest & refs & i1 & H1 & H2 & H3 & H4 & H5 & H6 & H7 & H8 & H9 & _ & Hi & _).
  exists att, tok, v, canon, h, idc, cs, rest, refs, i1. do 8 (split; [done|]). split; [|done].
  rewrite H9, map_map. reflexivity.
Qed.

(** A request for the original SEV brings the service down.  The verifier
    of that TEE is not implemented and its choice panics, so evidence announced
    as [Sev] panics whatever it is, before anything is checked. *)
Theorem sev_evidence_panics `{VC : VerifierCrates} hardware env e evs rs s :
  tee e = Sev -> builtin_requests (e :: evs) = Ok rs ->
  builtin_verify (to_verifier hardware) env (e :: evs) s = (s, Panic).
Proof.
  intros Ht Hr. unfold builtin_verify. unfold mbind at 1, st_bind, st_lift. rewrite Hr.
  cbn in Hr. apply bind_Ok in Hr as (r & Hr & Hrs). apply bind_Ok in Hrs as (rs' & _ & [= <-]).
  unfold builtin_request in Hr. apply bind_Ok in Hr as (init & _ & [= <-]).
  unfold svc_evaluate. cbn. unfold verify_request. cbn. now rewrite Ht.
Qed.
End AsProofs.

(** ** A concrete instance *)
Module AsDemo.
#[export] Existing Instance Handshake.Demo.demo_crates.
#[export] Existing Instance Handshake.Demo.demo_time.

#[export] Instance broker : AttestationTokenBroker unit := {|
  issue _ _ tcs _ _ := if bool_decide (tcs = []) then st_err "no claims" else mret "token";
  broker_set_policy _ _ := mret tt;
  broker_list_policies := mret ∅;
  broker_get_policy _ := mret "";
|}.

#[export] Instance rvps : RvpsApi unit := {|
  rvps_verify_and_extract _ _ := mret tt;
  rvps_get_digests _ := mret ∅;
|}.

#[export] Instance crates : AsCrates := {|
  serialize_canon_json _ := Some (str_bytes "document");
  hash_digest _ b := b;
  initdata_from_toml _ := None;
|}.

#[export] Instance verifier_crates : VerifierCrates := {|
  sample_from_value _ := Some {| svn := "1"; report_data := "document" |};
  base64_standard_decode s := Some (str_bytes s);
  base64_standard_encode _ := "";
|}.

Definition verifier : Tee -> outcome anyhow Verifier := to_verifier (fun _ => Err "feature").
Definition env : AsEnv := {| t_register := 0; t_digests := 0; t_issue := 0; jti := "id"; rng _ := None |}.
Definition waiting : SessionStatus := Authed Demo.rq1 Demo.ch1 "id1" (5 * nanos_per_minute).
Definition svc0 : AttestationService unit :=
  set_sessions {["id1" := waiting]} (service_new tt 5 no_metrics).
Definition result : AttestationService unit * outcome anyhow HttpResponse :=
  __attest (A := builtin_coco_as verifier env) 0 (str_bytes "n0") Demo.sid1 svc0.
Definition sev_evidence : IndependentEvidence :=
  {| tee := Sev; tee_evidence := VNull; runtime_data := VNull; init_data := None |}.
End AsDemo.

Import AsDemo.

Lemma token_stands_for_evidence_witness :
  builtin_verify verifier env Demo.ev1 tt = (tt, Ok "token") /\
  exists css, Forall2 (verified verifier) Demo.ev1 css.
Proof.
  split; [vm_compute; reflexivity|].
  destruct (token_stands_for_evidence verifier env Demo.ev1 tt tt "token") as (_ & css & _ & _ & H & _);
    [vm_compute; reflexivity|]. exists css. exact H.
Defined.

Lemma attestation_binds_key_and_nonce_witness :
  is_ok result.2 = true /\
  exists canon, sample_reported VNull = Some (hash_digest Sha384 canon).
Proof.
  split; [vm_compute; reflexivity|].
  destruct result as [s' r] eqn:E. destruct r as [resp|e|]; [|vm_compute in E; discriminate E..].
  destruct (attestation_binds_key_and_nonce verifier env 0 (str_bytes "n0") Demo.sid1 svc0 s' resp
    "id1" Demo.rq1 Demo.ch1 "id1" (5 * nanos_per_minute) E)
    as (att & tok & v & canon & h & idc & cs & rest & refs & i1 & Hp & _ & _ & Hv & _ & _ & _ & Hb & _);
    [reflexivity|reflexivity|].
  exists canon. injection Hp as <-. injection Hv as <-. exact (Hb id sample_reported sample_binds).
Defined.

Lemma sev_evidence_panics_witness :
  builtin_verify (to_verifier (fun _ => Err "feature")) env [sev_evidence] tt = (tt, Panic).
Proof. eapply sev_evidence_panics; reflexivity. Defined.
