(* ===== verification/ShippedService.v ===== *)
(** * An attestation under the shipped policy

    The whole path of a guest's attestation: the handler of the KBS, the built-in
    attestation service, the SNP verifier, the RVPS, the EAR broker and the
    policy it installs.  An affirming status in the token of a session stands
    for signed evidence that is bound to the session and made by a guest whose
    measurements the RVPS knows at that moment. *)
From S2P Require Import Prelude Types Text Fs Json Metrics Session Attestation Handshake TcgEvents EventParsers Policy.
From S2P Require Import AsPolicy Rvps Verifier Snp SnpProofs Brokers BrokersProofs ShippedPolicies ShippedProofs AsService AsServiceProofs.

Section Service.
Context `{P : Profile} `{Dk : Disk} `{A : AsPolicyCrates} `{BC : BrokerCrates} `{T : TimeCrate} `{EC : EarCrate}.
Context {RO : RegoOrder} {cpu_text : string} {raw_value : RawValue -> Value}
  {tv_claims : TrustVector -> gmap string Z} {affirming : TrustTier}.
Context (Spec : ShippedSpec RO cpu_text raw_value tv_claims affirming).
Context `{R : RvpsApi Fs} `{AC : AsCrates} `{KC : KbsCrates} `{VC : VerifierCrates} `{SC : !SnpCrates}.
Context (ear_sign : Ear -> EarJwk -> EcKey -> option string) (b : EarAttestationTokenBroker).
Context (verifier_for : Tee -> outcome anyhow Verifier).

Lemma cpu_devices (Hone : forall tee v ev d h cs, verifier_for tee = Ok v -> evaluate v ev d h = Ok cs -> one_cpu cs)
    evs css :
  Forall2 (verified verifier_for) evs css -> (class_count "cpu" (concat css) <= length evs)%nat.
Proof using Type.
  clear Spec. induction 1 as [|e cs evs css (v & canon & h & idc & cl & Hv & _ & _ & He & ->) _ IH]; [done|].
  cbn [concat length]. unfold class_count in *. rewrite filter_app, length_app.
  enough (E : length (List.filter (fun tc => String.eqb (tee_class tc) "cpu")
    (map (fun ct => {| tc_tee := tee e; tee_class := ct.2; claims := ct.1; init_data_claims := idc;
                       runtime_data_claims := runtime_data e |}) cl)) =
    length (List.filter (fun ct => String.eqb ct.2 "cpu") cl))
    by (rewrite E; pose proof (Hone _ _ _ _ _ _ Hv He) as H1; unfold one_cpu in H1; lia).
  clear. induction cl as [|ct cl IH]; [done|]. cbn. destruct (String.eqb _ _); cbn; now rewrite IH.
Qed.

(** C4: an affirming token stands for a trusted guest.  When the KBS attests a
    waiting SNP session through the built-in service, with the shipped policy
    in force, the token of the session is a signed EAR with a submodule [cpu0].
    Behind it is an attestation report that the SNP verifier accepted for the
    digest of a document with the nonce of the session and the public key of
    the guest, and the status of the submodule is affirming exactly when the
    measurement and the TCB of that report are among the reference values the
    RVPS holds at that moment and the guest can be neither debugged nor
    migrated.  The additional evidence of the request may add any other
    devices: it is a map from TEEs, and no verifier reports a second CPU. *)
Theorem snp_session_affirmed env now body rq s s' resp sid r c sid' t :
  let TB := ear_broker ear_sign b in
  let A := builtin_coco_as verifier_for env in
  __attest now body rq s = (s', Ok resp) ->
  cookie rq KBS_SESSION_ID = Some sid -> session_map s !! sid = Some (Authed r c sid' t) ->
  req_tee r = Snp -> verifier_for Snp = Ok snp_verifier ->
  (forall tee v ev d h cs, verifier_for tee = Ok v -> evaluate v ev d h = Ok cs -> one_cpu cs) ->
  (forall text extra, parse_additional_evidence text = Some extra -> NoDup (map fst extra)) ->
  (forall v ev, snp_evidence_from_value v = Some ev -> report_sized (attestation_report ev)) ->
  (forall i refs, rvps_get_digests (t_digests env) (inner s) = (i, Ok refs) ->
     cpu_policy_installed (cpu_text := cpu_text) b i /\ exact_refs refs) ->
  exists att tok canon h ev refs i ear jwk ap,
    parse_attestation body = Some att /\ rt_nonce (at_runtime_data att) = nonce c /\
    session_map s' !! sid = Some (Attested tok sid' t) /\
    serialize_canon_json (session_document att c) = Some canon /\
    snp_evidence_from_value (primary_evidence (at_tee_evidence att)) = Some ev /\
    snp_accepted (attestation_report ev) (RD_Value (hash_digest AsService.Sha384 canon)) h /\
    rvps_get_digests (t_digests env) (inner s) = (i, Ok refs) /\
    ear_sign ear jwk (eb_private_key b) = Some tok /\ submods ear !! "cpu0" = Some ap /\
    (ap_status ap = affirming <-> snp_trusted refs (attestation_report ev)).
Proof using Spec.
  intros TB A' H Hc Hs Ht Hv Hone Hmap Hsz Hpol.
  destruct (attest_builtin_Ok _ _ _ _ _ _ _ _ _ _ _ _ _ H Hc Hs)
    as (att & tok & v & canon & h & idc & cs & devices & refs & i & H1 & H2 & H3 & H4 & H5 & _ & H7 & _ & H9 & H10 & H11 & Hall).
  rewrite Ht, Hv in H4. injection H4 as <-. cbn [evaluate snp_verifier] in H7.
  destruct (snp_evaluate_Ok _ _ _ _ H7) as (ev & He & Hacc & ->).
  destruct Hall as (evs & css & extra & Hver & Hdev & Hlen & Hextra).
  assert (Hcpu : (class_count "cpu" devices <= 15)%nat).
  { rewrite Hdev. pose proof (cpu_devices Hone _ _ Hver). enough (length extra <= 14)%nat by lia.
    destruct Hextra as [->|[text Hx]]; [cbn; lia|]. rewrite <- (length_map fst). apply tees_bound. eauto. }
  destruct devices as [|tc rest]; [discriminate H9|]. injection H9 as H9. cbn in H9.
  destruct (Hpol _ _ H10) as [Hi Hr].
  change (ear_issue ear_sign b (t_issue env) (jti env) (tc :: rest) ["default"] refs i = (inner s', Ok tok)) in H11.
  apply ear_issue_first in H11 as (refd & ear & jwk & ap & Hj & Hsig & Hsub & Happ); [|now subst tc|].
  2: { unfold class_count in *. cbn [List.filter] in Hcpu. destruct (String.eqb _ _); cbn [length] in Hcpu; lia. }
  exists att, tok, canon, h, ev, refs, i, ear, jwk, ap. do 9 (split; [done|]).
  subst tc. rewrite Ht in Happ. eapply (snp_status Spec); try eassumption; [reflexivity..|]. eauto.
Qed.
End Service.

(** ** A concrete attestation *)
Module ServiceDemo.
Export ShippedDemo.
#[export] Existing Instance Handshake.Demo.demo_crates.
#[export] Existing Instance SnpDemo.demo_snp_crates.

#[export] Instance rvps : RvpsApi Fs := {|
  rvps_verify_and_extract _ _ := mret tt;
  rvps_get_digests _ := mret refs;
|}.

#[export] Instance as_crates : AsCrates := {|
  serialize_canon_json _ := Some (replicate 64 Init.Byte.x0c);
  hash_digest _ m := m;
  initdata_from_toml _ := None;
|}.

Definition verifier (t : Tee) : outcome anyhow Verifier :=
  match t with
  | Snp => Ok snp_verifier
  | _ => Err "feature"
  end.
Definition env : AsEnv := {| t_register := 0; t_digests := 0; t_issue := 0; jti := "id"; rng _ := None |}.
Definition request : Request := {| req_version := "0.4.0"; req_tee := Snp; req_extra_params := VNull |}.
Definition svc0 : AttestationService Fs :=
  set_sessions {["id1" := Authed request Demo.ch1 "id1" (5 * nanos_per_minute)]} (service_new fs 5 no_metrics).
Definition result : AttestationService Fs * outcome anyhow HttpResponse :=
  __attest (A := builtin_coco_as (TB := ear_broker sign broker) verifier env) 0 (str_bytes "n0") Demo.sid1 svc0.
End ServiceDemo.

Import ServiceDemo.

Lemma refs_exact : exact_refs refs.
Proof.
  intros k v Hk. apply elem_of_list_to_map_2 in Hk.
  repeat (apply elem_of_cons in Hk as [[= -> ->]|Hk]; [repeat split; easy|]). now apply elem_of_nil in Hk.
Qed.

Lemma demo_one_cpu tee v ev d h cs : verifier tee = Ok v -> evaluate v ev d h = Ok cs -> one_cpu cs.
Proof.
  intros Hv. destruct tee; cbn in Hv; try discriminate Hv. injection Hv as <-. cbn [evaluate snp_verifier].
  intros (e & _ & _ & ->)%snp_evaluate_Ok. vm_compute. lia.
Qed.

Lemma snp_session_affirmed_witness :
  is_ok result.2 = true /\ exists ear jwk ap tok, sign ear jwk (eb_private_key broker) = Some tok /\
    submods ear !! "cpu0" = Some ap /\ ((ap_status ap : bool) = true <-> snp_trusted refs SnpDemo.demo_snp_report).
Proof.
  assert (Hok : is_ok result.2 = true) by (vm_compute; reflexivity). split; [exact Hok|].
  destruct result as [s' r] eqn:E. destruct r as [resp|e|]; [|discriminate Hok..].
  destruct (snp_session_affirmed shipped sign broker verifier env 0 (str_bytes "n0") Demo.sid1 svc0 s' resp
    "id1" request Demo.ch1 "id1" (5 * nanos_per_minute) E)
    as (att & tok & canon & h & ev & rf & i & ear & jwk & ap & _ & _ & _ & _ & He & _ & Hr & Hsig & Hsub & Hst);
    [reflexivity|reflexivity|reflexivity|reflexivity|exact demo_one_cpu|discriminate| | |].
  - intros v ev [= <-]. repeat constructor; cbn; lia.
  - intros i rf [= <- <-]. split; [vm_compute; reflexivity|exact refs_exact].
  - injection Hr as _ <-. injection He as <-. exists ear, jwk, ap, tok. split; [exact Hsig|]. split; [exact Hsub|exact Hst].
Defined.
