(* ===== verification/Verifiers.v ===== *)
(** * The choice of a verifier, and what it means for an attestation

    [to_verifier] of [deps/verifier/src/lib.rs] with every verifier of the crate,
    and the composition with the attestation service: the evidence of one session
    is not accepted in another. *)
From S2P Require Import Prelude Types Text Fs Json Metrics Session Attestation Handshake TcgEvents EventParsers EventLog Verifier Spdm Nvidia NvidiaProofs IntelDcap TdxQuote Tdx TdxProofs Sgx SgxProofs Snp SnpProofs AzVtpm AzVtpmProofs Tpm TpmProofs Hygon HygonProofs Cca CcaProofs Se SeProofs Brokers Rvps AsService AsServiceProofs.

(** [VerifierConfig], with all features on. *)
Record VerifierConfig `{DeviceArchitectures} := {
  vc_nvidia : option NvidiaVerifierConfig;
  vc_tpm : option TpmVerifierConfig;
}.

Section Choice.
Context `{P : Profile} `{EC : EventCrates} `{DC : DcapCrates} `{VC : VerifierCrates} `{D : Disk}.
Context `{TC : TdxCrates} `{SGX : SgxCrates} `{AZ : AzCrates} `{TP : !TpmCrates} `{CC : CsvCrates} `{CS : !CsvSerde}.
Context `{CA : CcaCrates} `{SE : SeCrates} `{SS : !SeSerde} `{DA : DeviceArchitectures} `{NC : !NvidiaCrates}.
(** The features the crate is built with, and the environment and files. *)
Context (feature : string -> bool) (config : option VerifierConfig).
Context (env_var : string -> option string) (fs : Fs) (se_cell : option SeVerifierImpl).

Definition when_enabled (name : string) (v : outcome anyhow Verifier) : outcome anyhow Verifier :=
  if feature name then v else Err ("feature `" +:+ name +:+ "` is not enabled for `verifier` crate.").

(** The arms of [to_verifier] for hardware. *)
Definition hardware_verifier (tee : Tee) : outcome anyhow Verifier :=
  match tee with
  | AzSnpVtpm => when_enabled "az-snp-vtpm-verifier" (vendor_certs ← az_snp_vtpm_new; Ok (az_snp_verifier vendor_certs))
  | AzTdxVtpm => when_enabled "az-tdx-vtpm-verifier" (Ok az_tdx_verifier)
  | Types.Tdx => when_enabled "tdx-verifier" (Ok tdx_verifier)
  | Types.Snp => when_enabled "snp-verifier" (Ok snp_verifier)
  | Types.Sgx => when_enabled "sgx-verifier" (Ok sgx_verifier)
  | Types.Csv => when_enabled "csv-verifier" (Ok csv_verifier)
  | Types.Cca => when_enabled "cca-verifier" (Ok cca_verifier)
  | Types.Se => when_enabled "se-verifier" (Ok (se_verifier env_var fs se_cell))
  | HygonDcu => when_enabled "hygon-dcu-verifier" (Ok dcu_verifier)
  | Types.Nvidia =>
      let nvidia_config := c ← config; vc_nvidia c in
      when_enabled "nvidia-verifier" (Ok (nvidia_verifier (nvidia_new nvidia_config)))
  | Types.Tpm =>
      let tpm_config := c ← config; vc_tpm c in
      when_enabled "tpm-verifier" (v ← (tpm_new tpm_config fs).2; Ok (tpm_verifier v))
  | Sev | Sample | SampleDevice => Panic
  end.

Definition trustee_verifier (tee : Tee) : outcome anyhow Verifier := to_verifier hardware_verifier tee.

(** ** Evidence is bound to the report data *)

(** Forms of report data that keep different digests apart. *)
Definition keeps_digests (norm : bytes -> bytes) : Prop :=
  forall d d', length d = length d' -> (length d <= 64)%nat -> norm d = norm d' -> d = d'.

Lemma id_keeps_digests : keeps_digests id.
Proof. now intros d d' _ _. Qed.

Lemma regularize_keeps_digests : keeps_digests (fun d => regularize_data d 64).
Proof.
  intros d d' Hl Hs H. pose proof (f_equal (take (length d)) H) as E. cbv beta in E.
  rewrite (proj2 (regularize_data_spec d 64)) in E. rewrite Hl, (proj2 (regularize_data_spec d' 64)) in E.
  now rewrite !take_ge in E by lia.
Qed.

(** The TEEs whose verifier compares the report data itself.  The others: an
    accelerator's verifier that leaves the comparison to a crate ([HygonDcu]), or
    makes it once per device ([Nvidia]), a remote CCA service, and Secure
    Execution, which does not compare it. *)
Definition compares_report_data (tee : Tee) : Prop :=
  match tee with
  | Sample | SampleDevice | Types.Tdx | Types.Snp | Types.Sgx | AzSnpVtpm | AzTdxVtpm | Types.Csv | Types.Tpm => True
  | Types.Cca => exists ta rv, cca_config = Ok (CcaLocal ta rv)
  | Types.Se | HygonDcu | Types.Nvidia | Sev => False
  end.

Lemma when_enabled_Ok name m v : when_enabled name m = Ok v -> m = Ok v.
Proof. unfold when_enabled. now destruct (feature name). Qed.

Lemma trustee_verifier_binds `{CL : !CcaLaws} tee v :
  trustee_verifier tee = Ok v -> compares_report_data tee ->
  exists norm reported, keeps_digests norm /\ VerifierBinds v norm reported.
Proof.
  intros H Hc. destruct tee; try done; unfold trustee_verifier in H; cbn [to_verifier hardware_verifier] in H;
    try apply when_enabled_Ok in H; cbn [compares_report_data] in Hc.
  all: try (injection H as <-; eexists _, _; split; [exact id_keeps_digests|typeclasses eauto]).
  all: try (injection H as <-; eexists _, _; split; [exact regularize_keeps_digests|typeclasses eauto]).
  - apply bind_Ok in H as (vendor & _ & [= <-]).
    eexists _, _. split; [exact id_keeps_digests|typeclasses eauto].
  - destruct Hc as (ta & rv & Hc). injection H as <-. eexists _, _. split; [exact regularize_keeps_digests|].
    exact (cca_local_binds _ _ Hc).
  - apply bind_Ok in H as (t & _ & [= <-]). eexists _, _. split; [exact regularize_keeps_digests|typeclasses eauto].
Qed.

Lemma evidence_for_one_digest `{CL : !CcaLaws} tee v evidence d d' h h' cs cs' :
  trustee_verifier tee = Ok v -> compares_report_data tee -> length d = length d' -> (length d <= 64)%nat ->
  evaluate v evidence (RD_Value d) h = Ok cs -> evaluate v evidence (RD_Value d') h' = Ok cs' -> d = d'.
Proof.
  intros Hv Hc Hl Hs H H'. destruct (trustee_verifier_binds _ _ Hv Hc) as (norm & reported & Hn & Hb).
  apply Hn; [done..|]. pose proof (Hb _ _ _ _ H). pose proof (Hb _ _ _ _ H'). congruence.
Qed.

Lemma mfold_snoc_classes {A} (f : A -> outcome anyhow (Value * string)) (c : string) l acc cs :
  (forall x y, f x = Ok y -> y.2 = c) -> Forall (fun y => y.2 = c) acc ->
  mfold (fun acc x => y ← f x; Ok (acc ++ [y])) acc l = Ok cs -> Forall (fun y => y.2 = c) cs.
Proof.
  intros Hf. revert acc. induction l as [|x l IH]; intros acc Ha H; cbn in H; [now injection H as <-|].
  apply bind_Ok in H as (acc' & H1 & H). apply bind_Ok in H1 as (y & Hy & [= <-]).
  refine (IH _ _ H). apply Forall_app. split; [done|]. constructor; [exact (Hf _ _ Hy)|constructor].
Qed.

Lemma one_cpu_other c cs : c <> "cpu" -> Forall (fun y => y.2 = c) cs -> one_cpu cs.
Proof.
  intros Hc H. unfold one_cpu. enough (E : List.filter (fun ct : Value * string => String.eqb ct.2 "cpu") cs = [])
    by (rewrite E; cbn; lia).
  induction H as [|[v k] cs Hk _ IH]; [done|]. cbn in *. subst k. now destruct (String.eqb_spec c "cpu").
Qed.

Lemma nvidia_one_cpu vt ev d h cs : nvidia_evaluate vt ev d h = Ok cs -> one_cpu cs.
Proof.
  intros H. unfold nvidia_evaluate in H. apply bind_Ok in H as (l & _ & H). destruct d; [|discriminate].
  apply (one_cpu_other "gpu"); [done|]. refine (mfold_snoc_classes _ "gpu" _ [] _ _ _ H); [|constructor].
  intros x y Hy. destruct vt; cbn [evaluate_device] in Hy.
  - unfold evaluate_device_locally in Hy. repeat (apply bind_Ok in Hy as (? & _ & Hy) || case_match); try discriminate; now simplify_eq.
  - unfold evaluate_device_remotely in Hy. repeat (apply bind_Ok in Hy as (? & _ & Hy) || case_match); try discriminate; now simplify_eq.
Qed.

(** No verifier reports more than one device of the class [cpu]. *)
Lemma trustee_verifier_one_cpu tee v ev d h cs :
  trustee_verifier tee = Ok v -> evaluate v ev d h = Ok cs -> one_cpu cs.
Proof.
  assert (Hone : forall c k, one_cpu [(c, k)]) by (intros c k; unfold one_cpu; cbn; destruct (String.eqb _ _); cbn; lia).
  intros H E. destruct tee; unfold trustee_verifier in H; cbn [to_verifier hardware_verifier] in H;
    try apply when_enabled_Ok in H; try discriminate H;
    try (apply bind_Ok in H as (? & _ & H)); injection H as <-; cbn [evaluate nvidia_verifier] in E.
  all: try (now apply nvidia_one_cpu in E).
  all: cbn in E; unfold az_snp_evaluate, az_tdx_evaluate, tdx_evaluate, snp_evaluate, sample_evaluate, sample_device_evaluate,
    sgx_evaluate, csv_evaluate, cca_evaluate, se_evaluate, dcu_evaluate, tpm_evaluate in E.
  all: repeat (apply bind_Ok in E as (? & _ & E) || case_match); try discriminate; injection E as <-; apply Hone.
Qed.

(** ** Two sessions *)
Context {S : Type} `{TB : AttestationTokenBroker S} `{R : RvpsApi S} `{AC : AsCrates} `{KC : KbsCrates}
  `{T : TimeCrate}.

(** An attestation request that succeeded for a waiting session, by the built-in
    service with the verifiers above. *)
Record attested_by (b : bytes) (r : Request) (c : Challenge) : Prop := {
  ab_run : exists as_env now rq s s' resp sid sid' t,
    __attest (A := builtin_coco_as trustee_verifier as_env) now b rq s = (s', Ok resp) /\
    cookie rq KBS_SESSION_ID = Some sid /\ session_map s !! sid = Some (Authed r c sid' t);
}.

Lemma attested_by_evidence b r c :
  attested_by b r c ->
  exists att v canon h cs, parse_attestation b = Some att /\ trustee_verifier (req_tee r) = Ok v /\
    serialize_canon_json (session_document att c) = Some canon /\
    evaluate v (primary_evidence (at_tee_evidence att)) (RD_Value (hash_digest AsService.Sha384 canon)) h = Ok cs.
Proof.
  intros [(as_env & now & rq & s & s' & resp & sid & sid' & t & H & Hc & Hs)].
  destruct (attest_builtin_Ok _ _ _ _ _ _ _ _ _ _ _ _ _ H Hc Hs)
    as (att & tok & v & canon & h & idc & cs & rest & refs & i1 & H1 & _ & _ & H2 & H3 & _ & H4 & _).
  exists att, v, canon, h, cs. auto.
Qed.

(** C13: evidence is good for one session.  Suppose the same primary evidence is
    accepted in two attestations of a TEE whose verifier compares report data.
    Then the documents of the two sessions have the same SHA-384 digest; so,
    unless these two documents collide, both attestations were made for the
    same nonce, the same public key and the same additional evidence.  (Canonical
    JSON keeps session documents apart, and these digests have 48 bytes.) *)
Theorem evidence_not_reusable `{CL : !CcaLaws} b1 r1 c1 b2 r2 c2 att1 att2 :
  (forall att c att' c', is_Some (serialize_canon_json (session_document att c)) ->
     serialize_canon_json (session_document att c) = serialize_canon_json (session_document att' c') ->
     session_document att c = session_document att' c') ->
  (forall m, length (hash_digest AsService.Sha384 m) = 48%nat) ->
  attested_by b1 r1 c1 -> attested_by b2 r2 c2 ->
  parse_attestation b1 = Some att1 -> parse_attestation b2 = Some att2 ->
  req_tee r1 = req_tee r2 -> compares_report_data (req_tee r1) ->
  primary_evidence (at_tee_evidence att1) = primary_evidence (at_tee_evidence att2) ->
  exists document1 document2,
    serialize_canon_json (session_document att1 c1) = Some document1 /\
    serialize_canon_json (session_document att2 c2) = Some document2 /\
    hash_digest AsService.Sha384 document1 = hash_digest AsService.Sha384 document2 /\
    (document1 = document2 ->
     nonce c1 = nonce c2 /\
     pubkey_value (rt_tee_pubkey (at_runtime_data att1)) = pubkey_value (rt_tee_pubkey (at_runtime_data att2)) /\
     additional_evidence (at_tee_evidence att1) = additional_evidence (at_tee_evidence att2)).
Proof.
  intros Hcanon Hlen A1 A2 P1 P2 Htee Hcmp Hev.
  apply attested_by_evidence in A1 as (a1 & v1 & k1 & h1 & cs1 & Q1 & V1 & K1 & E1).
  apply attested_by_evidence in A2 as (a2 & v2 & k2 & h2 & cs2 & Q2 & V2 & K2 & E2).
  assert (a1 = att1) as -> by congruence. assert (a2 = att2) as -> by congruence.
  assert (v2 = v1) as -> by congruence. rewrite <- Hev in E2.
  exists k1, k2. do 2 (split; [done|]). split.
  { eapply (evidence_for_one_digest (req_tee r1)); [exact V1|done| | |exact E1|exact E2]; rewrite ?Hlen; [done|lia]. }
  intros ->.
  assert (Hs : session_document att1 c1 = session_document att2 c2) by (apply Hcanon; [rewrite K1; eauto|congruence]).
  unfold session_document in Hs. now injection Hs.
Qed.

(** Tokens for no device.  NVIDIA evidence with an empty list of devices is
    accepted whatever the session is: the service asks the broker for a token with
    no claims at all, and returns it. *)
Theorem nvidia_no_device_token as_env e s1 s2 refs canon tok s3 :
  feature "nvidia-verifier" = true ->
  tee e = Types.Nvidia -> init_data e = None ->
  nv_evidence_from_value (tee_evidence e) = Some {| device_evidence_list := [] |} ->
  serialize_canon_json (runtime_data e) = Some canon ->
  rvps_get_digests (t_digests as_env) s1 = (s2, Ok refs) ->
  issue (t_issue as_env) (jti as_env) [] ["default"] refs s2 = (s3, Ok tok) ->
  builtin_verify trustee_verifier as_env [e] s1 = (s3, Ok tok).
Proof.
  intros Hf Ht Hi Hn Hc Hg His.
  set (rq := {| vr_evidence := tee_evidence e; vr_tee := tee e; vr_runtime_data := Some (Structured (runtime_data e));
                vr_runtime_data_hash_algorithm := AsService.Sha384; vr_init_data := None |}).
  assert (Hrq : builtin_requests [e] = Ok [rq]) by (cbn; unfold builtin_request; now rewrite Hi).
  assert (Hv : verify_request trustee_verifier rq = Ok []).
  { unfold verify_request, rq. cbn [vr_tee]. rewrite Ht. unfold trustee_verifier. cbn [to_verifier hardware_verifier].
    unfold when_enabled. rewrite Hf. cbn [mbind outcome_bind vr_runtime_data vr_init_data parse_runtime_data parse_init_data].
    rewrite Hc. cbn [ok_or mbind outcome_bind vr_evidence report_data_of init_data_hash_of].
    now rewrite (no_devices_accepted _ _ _ _ Hn). }
  unfold builtin_verify. unfold mbind at 1, st_bind at 1, st_lift at 1. rewrite Hrq. unfold svc_evaluate.
  unfold mbind at 1, st_bind at 1, st_lift at 1. cbn [verify_requests]. rewrite Hv. cbn [mbind outcome_bind app].
  unfold mbind, st_bind, st_map_err. cbn beta iota. rewrite Hg. cbn [map_err]. exact His.
Qed.
End Choice.

(** ** A concrete instance *)
Module VerifiersDemo.
Import Init.Byte.
#[export] Existing Instance Handshake.Demo.demo_crates.
#[export] Existing Instance Handshake.Demo.demo_time.
#[export] Existing Instance TdxDemo.demo_event_crates.
#[export] Existing Instance TdxDemo.demo_dcap.
#[export] Existing Instance TdxDemo.demo_tdx.
#[export] Existing Instance SgxDemo.demo_sgx.
#[export] Existing Instance SnpDemo.demo_snp_crates.
#[export] Existing Instance AzDemo.demo_vtpm.
#[export] Existing Instance AzDemo.demo_az.
#[export] Existing Instance HygonDemo.demo_csv.
#[export] Existing Instance HygonDemo.demo_csv_serde.
#[export] Existing Instance CcaDemo.demo_cca_local.
#[export] Existing Instance SeDemo.demo_se.
#[export] Existing Instance SeDemo.demo_se_serde.
#[export] Existing Instance SeDemo.demo_disk.
#[export] Existing Instance NvidiaDemo.demo_architectures.
#[export] Existing Instance AsDemo.broker.
#[export] Existing Instance AsDemo.rvps.

#[export] Instance profile : Profile := true.
Definition demo_digest : bytes := resize 48 x00 (str_bytes "document").

#[export] Instance all_verifier_crates : VerifierCrates := {|
  sample_from_value _ := Some {| svn := "1"; report_data := string_of_list_byte demo_digest |};
  base64_standard_decode s := Some (str_bytes s);
  base64_standard_encode b := string_of_list_byte b;
|}.

#[export] Instance all_tpm : TpmCrates (VT := AzDemo.demo_vtpm) := {|
  tpm_evidence_from_value _ := None;
  vtpm_quote_of _ _ _ := None;
  tss_signature_unmarshall _ := None;
  tpm_hex_decode _ := None;
  sha2_sha256 b := b;
  public_key_pem_to_der _ := None;
|}.

#[export] Instance all_nvidia : NvidiaCrates := {|
  Nvidia.X509 := nat;
  stack_from_pem _ := None; cert_digest_sha1 _ := None; public_key_der _ := None;
  store_context_verify _ _ _ := None; nvidia_device_root := 0%nat; get_extension_unique _ _ := Ok None;
  P384Signature := bytes; VerifyingKey := bytes;
  signature_from_slice _ := None; verifying_key_from_der _ := None; p384_verify _ _ _ := false;
  hex_decode _ := None; base64_standard_no_pad_decode _ := None;
  http_post_json _ _ := Err ""; http_get _ := Err "";
  Nvidia.json_from_str _ := None; Nvidia.json_to_string _ := "";
  nv_evidence_from_value _ := Some {| device_evidence_list := [] |};
  nras_internal_from_str _ := None;
  Jwk := unit; DecodingKey := unit;
  jwt_header_kid _ := None; jwk_from_str _ := None; decoding_key_from_jwk _ := None; jwt_decode_es384 _ _ := false;
|}.

Lemma all_cca_laws : CcaLaws (VC := all_verifier_crates) (CA := CcaDemo.demo_cca_local).
Proof.
  split; [intros b; cbn; f_equal; apply list_byte_of_string_of_list_byte|]. cbn. congruence.
Qed.

(** Only the document of the session has a canonical form here. *)
Definition canon (v : Value) : option bytes :=
  match v with
  | VObject [(k1, VNull); (k2, VString n); (k3, VString a)] =>
      if decide ((k1, k2, n, k3, a) = ("tee-pubkey", "nonce", "n0", "additional-evidence", "")) then
        Some (str_bytes "document")
      else None
  | _ => None
  end.

#[export] Instance all_as_crates : AsCrates := {|
  serialize_canon_json := canon;
  hash_digest _ b := resize 48 x00 b;
  initdata_from_toml _ := None;
|}.

Definition choose : Tee -> outcome anyhow Verifier :=
  trustee_verifier (fun _ => true) None (fun _ => None) SeDemo.demo_fs None.
Definition run : AttestationService unit * outcome anyhow HttpResponse :=
  __attest (A := builtin_coco_as choose AsDemo.env) 0 (str_bytes "n0") Demo.sid1 AsDemo.svc0.

Lemma demo_attested :
  attested_by (S := unit) (fun _ => true) None (fun _ => None) SeDemo.demo_fs None (str_bytes "n0") Demo.rq1 Demo.ch1.
Proof.
  constructor. destruct run as [s' r] eqn:E. destruct r as [resp|e|]; [|vm_compute in E; discriminate E..].
  exists AsDemo.env, 0, Demo.sid1, AsDemo.svc0, s', resp, "id1", "id1", (5 * nanos_per_minute).
  split; [exact E|]. split; reflexivity.
Qed.

Lemma canon_keeps_documents att c att' c' :
  is_Some (serialize_canon_json (session_document att c)) ->
  serialize_canon_json (session_document att c) = serialize_canon_json (session_document att' c') ->
  session_document att c = session_document att' c'.
Proof.
  cbn. unfold session_document. cbn. destruct (decide _) as [E|]; [|intros [? [=]]].
  destruct (decide _) as [E'|]; [|discriminate]. intros _ _. congruence.
Qed.

Lemma evidence_not_reusable_witness :
  exists document1 document2, serialize_canon_json (session_document (pa_attestation Demo.p1) Demo.ch1) = Some document1 /\
    hash_digest AsService.Sha384 document1 = hash_digest AsService.Sha384 document2 /\ document1 = document2.
Proof.
  destruct (evidence_not_reusable (S := unit) (NC := all_nvidia) (CL := all_cca_laws) (fun _ => true) None (fun _ => None)
    SeDemo.demo_fs None (str_bytes "n0") Demo.rq1 Demo.ch1 (str_bytes "n0") Demo.rq1 Demo.ch1
    (pa_attestation Demo.p1) (pa_attestation Demo.p1)) as (d1 & d2 & H1 & H2 & H3 & _); try reflexivity.
  - exact canon_keeps_documents.
  - intros m. apply length_resize.
  - exact demo_attested.
  - exact demo_attested.
  - exists d1, d2. split; [exact H1|]. split; [exact H3|]. congruence.
Defined.

Definition nvidia_evidence : IndependentEvidence :=
  {| tee := Types.Nvidia; tee_evidence := VNull;
     runtime_data := session_document (pa_attestation Demo.p1) Demo.ch1; init_data := None |}.

(** A broker that signs whatever it is given. *)
Definition signer : AttestationTokenBroker unit := {|
  issue _ _ _ _ _ := mret "token";
  broker_set_policy _ _ := mret tt;
  broker_list_policies := mret ∅;
  broker_get_policy _ := mret "";
|}.

Lemma nvidia_no_device_token_witness :
  builtin_verify (TB := signer) choose AsDemo.env [nvidia_evidence] tt = (tt, Ok "token").
Proof.
  apply (nvidia_no_device_token (TB := signer) (NC := all_nvidia) (fun _ => true) None (fun _ => None) SeDemo.demo_fs None AsDemo.env
    nvidia_evidence tt tt ∅ (str_bytes "document") "token" tt); reflexivity.
Defined.
End VerifiersDemo.
