(* ===== verification/RemoteStores.v ===== *)
(** * Remote backends of the resource plugin

    HashiCorp Vault ([kbs/src/plugins/implementations/resource/vault_kv.rs]) and
    the key management service of Aliyun ([aliyun_kms.rs]) behind the storage
    interface of [Resource].  The two services and their clients are
    parameters. *)
From S2P Require Import Prelude Types Text Metrics Fs Json Resource.

(** ** Vault *)
Record VaultKvBackendConfig := {
  vault_url : string;
  vault_token : string;
  vault_mount_path : string;
  vault_verify_ssl : bool;
  vault_ca_certs : option (list string);
}.

Definition default_mount_path : string := "secret".
Definition default_verify_ssl : bool := false.

Inductive VaultError :=
| SecretNotFound (path : string)
| DataKeyMissing (path : string) (available_keys : list string)
| VaultApiError (path : string).

Definition vault_error_text (e : VaultError) : anyhow :=
  match e with
  | SecretNotFound _ => "Secret not found at path"
  | DataKeyMissing _ _ => "Secret exists at path but missing required 'data' key."
  | VaultApiError _ => "Vault API error for path"
  end.

(** What [VaultClientSettingsBuilder] collects. *)
Record VaultClientSettings := {
  vs_address : string;
  vs_token : string;
  vs_verify : bool;
  vs_ca_certs : option (list string);
}.

(** [vaultrs], over the state [V] of the server: building a client, and the
    first version of the key/value engine.  An error is its text. *)
Class VaultCrates (V : Type) := {
  VaultClient : Type;
  vault_client_new : VaultClientSettings -> outcome anyhow VaultClient;
  kv1_get : VaultClient -> string -> string -> st V string (gmap string string);
  kv1_set : VaultClient -> string -> string -> gmap string string -> st V string unit;
}.

(** What the engine promises: a secret is a map, kept under its mount and path;
    setting it replaces the whole map at that path, and at no other.  A request
    that fails may still have been carried out. *)
Class VaultSpec {V : Type} (C : VaultCrates V)
    (secret_at : V -> VaultClient -> string -> string -> option (gmap string string)) : Prop := {
  kv1_get_spec : forall c mount path s s' r,
    kv1_get c mount path s = (s', r) ->
    s' = s /\ r <> Panic /\ forall m, r = Ok m -> secret_at s c mount path = Some m;
  kv1_set_spec : forall c mount path m s s' r,
    kv1_set c mount path m s = (s', r) ->
    r <> Panic /\ (is_ok r = true -> secret_at s' c mount path = Some m) /\
    forall path', secret_at s' c mount path' = secret_at s c mount path' \/
                  path' = path /\ secret_at s' c mount path' = Some m;
}.

(** [str::contains]. *)
Definition contains (pattern s : string) : bool :=
  match String.index 0 pattern s with
  | Some _ => true
  | None => false
  end.

Section Vault.
Context {V : Type} `{VC : VaultCrates V}.

Record VaultKvBackend := {
  vault_client : VaultClient;
  backend_mount_path : string;
}.

(** [VaultKvBackend::new]. *)
Definition vault_new (config : VaultKvBackendConfig) : outcome anyhow VaultKvBackend :=
  client ← map_err (fun _ => "Failed to create Vault client")
    (vault_client_new {| vs_address := vault_url config; vs_token := vault_token config;
                         vs_verify := vault_verify_ssl config; vs_ca_certs := vault_ca_certs config |});
  Ok {| vault_client := client; backend_mount_path := vault_mount_path config |}.

(** The path of a resource below the mount. *)
Definition vault_path (d : ResourceDesc) : string :=
  repository_name d +:+ "/" +:+ resource_type d +:+ "/" +:+ resource_tag d.

Definition vault_read (b : VaultKvBackend) (d : ResourceDesc) : st V VaultError bytes :=
  secret_data ← st_map_err
    (fun e => if contains "status code 404" e then SecretNotFound (vault_path d) else VaultApiError (vault_path d))
    (kv1_get (vault_client b) (backend_mount_path b) (vault_path d));
  st_lift (ok_or (DataKeyMissing (vault_path d) (map fst (map_to_list secret_data)))
             (str_bytes <$> secret_data !! "data")).

Definition vault_write (b : VaultKvBackend) (d : ResourceDesc) (data : bytes) : st V anyhow unit :=
  data_str ← st_lift (ok_or "Failed to convert data to UTF-8 string" (from_utf8 data));
  st_map_err (fun _ => "Failed to write secret to Vault")
    (kv1_set (vault_client b) (backend_mount_path b) (vault_path d) {["data" := data_str]}).

Definition vault_backend (b : VaultKvBackend) : StorageBackend V := {|
  read_secret_resource := fun d => st_map_err vault_error_text (vault_read b d);
  write_secret_resource := vault_write b;
|}.
End Vault.

(** ** The key management service of Aliyun *)
Record AliyunKmsBackendConfig := {
  client_key : string;
  kms_instance_id : string;
  kms_password : string;
  cert_pem : string;
}.

(** The [kms] crate, over the state of the service. *)
Class AliyunCrates (V : Type) := {
  AliyunKmsClient : Type;
  aliyun_client_new : string -> string -> string -> string -> option AliyunKmsClient;
  aliyun_get_secret : AliyunKmsClient -> string -> st V anyhow bytes;
}.

Section Aliyun.
Context {V : Type} `{AC : AliyunCrates V}.

(** [AliyunKmsBackend::new]. *)
Definition aliyun_new (c : AliyunKmsBackendConfig) : outcome anyhow AliyunKmsClient :=
  ok_or "create aliyun KMS backend" (aliyun_client_new (client_key c) (kms_instance_id c) (kms_password c) (cert_pem c)).

Definition aliyun_read (client : AliyunKmsClient) (d : ResourceDesc) : st V anyhow bytes :=
  st_map_err (fun _ => "failed to get resource from aliyun KMS") (aliyun_get_secret client (resource_tag d)).

(** [todo!()]. *)
Definition aliyun_write (_client : AliyunKmsClient) (_d : ResourceDesc) (_data : bytes) : st V anyhow unit :=
  st_lift Panic.

Definition aliyun_backend (client : AliyunKmsClient) : StorageBackend V := {|
  read_secret_resource := aliyun_read client;
  write_secret_resource := aliyun_write client;
|}.
End Aliyun.

(** ** Vault keeps the promises of a backend *)
Section VaultProofs.
Context {V : Type} {VC : VaultCrates V} {secret_at : V -> VaultClient -> string -> string -> option (gmap string string)}.
Context {Spec : VaultSpec VC secret_at}.

(** What the backend holds under a description. *)
Definition vault_stored (b : VaultKvBackend) (s : V) (d : ResourceDesc) : option bytes :=
  m ← secret_at s (vault_client b) (backend_mount_path b) (vault_path d);
  str_bytes <$> m !! "data".

Lemma vault_read_spec b d s s' r :
  vault_read b d s = (s', r) -> s' = s /\ r <> Panic /\ forall data, r = Ok data -> vault_stored b s d = Some data.
Proof.
  unfold vault_read, mbind, st_bind, st_map_err, vault_stored. intros H.
  destruct (kv1_get _ _ _ s) as [s1 r1] eqn:E. apply kv1_get_spec in E as (-> & Hp & Hm).
  destruct r1 as [m|e|]; cbn in H; [|injection H as <- <-; naive_solver|done].
  injection H as <- <-. split; [done|]. split; [now destruct (m !! "data")|].
  intros data Hd. rewrite (Hm _ eq_refl). now apply ok_or_Ok in Hd.
Qed.

Lemma vault_write_spec b d data s s' r :
  desc_ok d -> vault_write b d data s = (s', r) ->
  r <> Panic /\ (is_ok r = true -> vault_stored b s' d = Some data) /\
  forall d', desc_ok d' ->
    vault_stored b s' d' = vault_stored b s d' \/ d' = d /\ vault_stored b s' d' = Some data.
Proof.
  intros Hd. unfold vault_write, mbind, st_bind, st_lift, st_map_err.
  destruct (from_utf8 data) as [t|] eqn:Ht; cbn; [|intros [= <- <-]; naive_solver].
  apply from_utf8_bytes in Ht. destruct (kv1_set _ _ _ _ s) as [s1 r1] eqn:E.
  apply kv1_set_spec in E as (Hp & Hok & Hall). intros [= <- <-].
  assert (Hdata : forall d', secret_at s1 (vault_client b) (backend_mount_path b) (vault_path d') = Some {["data" := t]} ->
                    vault_stored b s1 d' = Some data).
  { intros d' Hs. unfold vault_stored. rewrite Hs. cbn. rewrite lookup_singleton_eq. cbn. now rewrite Ht. }
  split; [now destruct r1|]. split; [intros Hr; apply Hdata, Hok; now destruct r1|].
  intros d' Hd'. destruct (Hall (vault_path d')) as [Hs|[Hpath Hs]].
  - left. unfold vault_stored. now rewrite Hs.
  - right. split; [now apply display_inj|]. now apply Hdata.
Qed.

#[global] Instance vault_correct b : StorageBackendSpec (vault_backend b) (fun _ => True) (vault_stored b).
Proof.
  constructor; cbn.
  - intros d data s s' r _ Hd H. split; [done|].
    destruct (vault_write_spec _ _ _ _ _ _ Hd H) as (H1 & H2 & H3). do 2 (split; [done|]).
    intros d' Hd'. destruct (H3 d' Hd') as [|[-> Hs]]; [now left|right]. split; [done|].
    exists (length data). now rewrite firstn_all.
  - intros d s s' r _ Hd. unfold st_map_err. destruct (vault_read b d s) as [s1 r1] eqn:E.
    apply vault_read_spec in E as (-> & Hp & Hr). intros [= <- <-]. split; [done|].
    destruct r1; cbn; naive_solver.
Qed.

(** ** Properties *)

(** Resources kept in Vault.  Through the resource plugin, a secret posted
    to a path and then read from a path is the posted one if the paths are the
    same and, otherwise, what Vault held there before; a secret that is not
    text in UTF-8 is refused without a change. *)
Theorem vault_post_get b (s s1 s2 : ResourceStorage V) path path' data q q2 b2 r1 r2 :
  @resource_handle V (vault_backend b) data q path POST s = (s1, Ok r1) ->
  @resource_handle V (vault_backend b) b2 q2 path' GET s1 = (s2, Ok r2) ->
  is_Some (from_utf8 data) /\
  exists d', path' = String.String slash (resource_desc_display d') /\
    Some r2 = if decide (path' = path) then Some data else vault_stored b (backend s) d'.
Proof.
  intros Hp Hg. destruct (post_get_spec _ _ _ (vault_correct b) _ _ _ _ _ _ _ _ _ _ _ I Hp Hg) as [_ Hd].
  split; [|done]. apply handle_POST_Ok in Hp as (_ & d & _ & _ & Hw).
  cbn in Hw. unfold vault_write, mbind, st_bind, st_lift in Hw. now destruct (from_utf8 data); [|discriminate].
Qed.
End VaultProofs.

(** ** Aliyun does not *)
Section AliyunProofs.
Context {V : Type} {AC : AliyunCrates V}.

(** With the Aliyun backend, every well-formed POST of the administrator
    panics, and a read depends on the tag alone: resources of different
    repositories and types with the same tag are the same secret. *)
Theorem aliyun_write_panics client (s : ResourceStorage V) d data q :
  desc_ok d ->
  (@resource_handle V (aliyun_backend client) data q (String.String slash (resource_desc_display d)) POST s).2 = Panic /\
  forall d' v, resource_tag d' = resource_tag d -> aliyun_read client d' v = aliyun_read client d v.
Proof.
  intros Hd. split; [|intros d' v E; unfold aliyun_read; now rewrite E].
  unfold resource_handle. cbn [strip_prefix]. rewrite Ascii.eqb_refl. cbn.
  unfold mbind at 1, st_bind at 1, st_lift at 1. cbn [ok_or].
  unfold mbind at 1, st_bind at 1, st_lift at 1. rewrite (proj2 (try_from_Ok _ d) (conj eq_refl Hd)).
  reflexivity.
Qed.
End AliyunProofs.

(** ** Concrete runs *)
Module StoresDemo.
#[export] Instance kv : VaultCrates (gmap (string * string) (gmap string string)) := {|
  VaultClient := unit;
  vault_client_new _ := Ok tt;
  kv1_get _ mount path s := (s, ok_or "status code 404" (s !! (mount, path)));
  kv1_set _ mount path m s := (<[(mount, path) := m]> s, Ok tt);
|}.

#[export] Instance kv_spec : VaultSpec kv (fun s _ mount path => s !! (mount, path)).
Proof.
  split.
  - intros c mount path s s' r. cbn. intros [= <- <-]. destruct (s !! (mount, path)); naive_solver.
  - intros c mount path m s s' r. cbn. intros [= <- <-]. split; [done|]. split; [intros _; apply lookup_insert_eq|].
    intros path'. destruct (decide (path' = path)) as [->|Hne]; [right; split; [done|apply lookup_insert_eq]|].
    left. apply lookup_insert_ne. congruence.
Qed.

Definition vault : VaultKvBackend := {| vault_client := tt; backend_mount_path := default_mount_path |}.
Definition vault0 : ResourceStorage (gmap (string * string) (gmap string string)) :=
  {| backend := ∅; resource_metrics := no_metrics |}.
Definition vault1 : ResourceStorage (gmap (string * string) (gmap string string)) :=
  (@resource_handle _ (vault_backend vault) (str_bytes "pw") "" "/default/key/1" POST vault0).1.
Definition vault2 : ResourceStorage (gmap (string * string) (gmap string string)) :=
  (@resource_handle _ (vault_backend vault) [] "" "/default/key/1" GET vault1).1.

Lemma vault_post_get_witness :
  is_Some (from_utf8 (str_bytes "pw")) /\
  @resource_handle _ (vault_backend vault) [] "" "/default/key/1" GET vault1 = (vault2, Ok (str_bytes "pw")).
Proof.
  destruct (vault_post_get (Spec := kv_spec) vault vault0 vault1 vault2 "/default/key/1" "/default/key/1"
    (str_bytes "pw") "" "" [] [] (str_bytes "pw")) as [H (d & Hd & Hv)].
  - vm_compute; reflexivity.
  - vm_compute; reflexivity.
  - split; [exact H|]. vm_compute; reflexivity.
Defined.

#[export] Instance kms : AliyunCrates unit := {|
  AliyunKmsClient := unit;
  aliyun_client_new _ _ _ _ := Some tt;
  aliyun_get_secret _ name s := (s, Ok (str_bytes name));
|}.

Lemma aliyun_write_panics_witness :
  (@resource_handle unit (aliyun_backend tt) [] "" "/default/key/1" POST
     {| backend := tt; resource_metrics := no_metrics |}).2 = Panic.
Proof.
  apply (aliyun_write_panics (AC := kms) tt {| backend := tt; resource_metrics := no_metrics |}
    {| repository_name := "default"; resource_type := "key"; resource_tag := "1" |} [] "").
  split; [|split]; vm_compute; reflexivity.
Defined.
End StoresDemo.
