(* ===== verification/Pkcs11.v ===== *)
(** * The PKCS#11 plugin ([kbs/src/plugins/implementations/pkcs11.rs])

    Resources kept as objects of a hardware security module, and wrapping and
    unwrapping with a key pair made at start-up.  The module, behind the
    [cryptoki] crate, is a parameter over its own state. *)
From S2P Require Import Prelude Types Text Metrics Fs Json Resource ApiServer.

(** ** Objects and their attributes *)
Inductive ObjectClass := SECRET_KEY | PUBLIC_KEY | PRIVATE_KEY.
Inductive KeyType := KT_GENERIC_SECRET | KT_RSA.

Inductive Attribute :=
| AClass (c : ObjectClass)
| AKeyType (k : KeyType)
| AExtractable (b : bool)
| APrivate (b : bool)
| AToken (b : bool)
| AModulusBits (n : Z)
| AValue (v : bytes)
| ALabel (l : bytes).

#[global] Instance ObjectClass_eq_dec : EqDecision ObjectClass.
Proof. solve_decision. Defined.
#[global] Instance KeyType_eq_dec : EqDecision KeyType.
Proof. solve_decision. Defined.
#[global] Instance Attribute_eq_dec : EqDecision Attribute.
Proof. solve_decision. Defined.

Inductive AttributeType := TClass | TKeyType | TExtractable | TPrivate | TToken | TModulusBits | TValue | TLabel.

Definition attribute_type (a : Attribute) : AttributeType :=
  match a with
  | AClass _ => TClass
  | AKeyType _ => TKeyType
  | AExtractable _ => TExtractable
  | APrivate _ => TPrivate
  | AToken _ => TToken
  | AModulusBits _ => TModulusBits
  | AValue _ => TValue
  | ALabel _ => TLabel
  end.

(** [cryptoki], over the state [H] of the module: opening a session, and the
    operations of a session. *)
Class Cryptoki (H : Type) := {
  Handle : Type;
  Handle_eq_dec :: EqDecision Handle;
  Slot : Type;
  pkcs11_new : string -> st H anyhow unit;
  pkcs11_initialize : st H anyhow unit;
  get_slots_with_token : st H anyhow (list Slot);
  open_rw_session : Slot -> st H anyhow unit;
  session_login : string -> st H anyhow unit;
  generate_key_pair : list Attribute -> list Attribute -> st H anyhow (Handle * Handle);
  find_objects : list Attribute -> st H anyhow (list Handle);
  create_object : list Attribute -> st H anyhow Handle;
  (** [get_attribute_info_map]: whether the value is [Available] *)
  value_available : Handle -> st H anyhow bool;
  get_attributes : Handle -> list AttributeType -> st H anyhow (list Attribute);
  (** RSA with PKCS#1 padding *)
  session_encrypt : Handle -> bytes -> st H anyhow bytes;
  session_decrypt : Handle -> bytes -> st H anyhow bytes;
}.

Record Pkcs11Config := {
  pk_module : string;
  pk_slot_index : Z;
  pk_pin : string;
}.

Record Pkcs11Backend := { wrapkey_id : string }.

(** [str::split_once] with a character. *)
Fixpoint split_once (c : ascii) (s : string) : option (string * string) :=
  match s with
  | EmptyString => None
  | String.String c' s =>
      if Ascii.eqb c c' then Some ("", s)
      else '(a, b) ← split_once c s; Some (String.String c' a, b)
  end.

Section Pkcs11.
Context {H : Type} `{C : Cryptoki H}.

(** [wrap_key_new]. *)
Definition public_label (id : string) : bytes := str_bytes (id +:+ "-public").
Definition private_label (id : string) : bytes := str_bytes (id +:+ "-private").

Definition public_template (id : string) : list Attribute :=
  [AToken true; APrivate false; AKeyType KT_RSA; AClass PUBLIC_KEY; AModulusBits 4096; ALabel (public_label id)].
Definition private_template (id : string) : list Attribute :=
  [AToken true; APrivate true; AKeyType KT_RSA; AClass PRIVATE_KEY; ALabel (private_label id)].

Definition wrap_key_new (id : string) : st H anyhow unit :=
  st_map_err (fun _ => "unable to generate RSA wrap key pair")
    (generate_key_pair (public_template id) (private_template id));;
  mret tt.

(** [Pkcs11Backend::try_from]; [initialize] is unwrapped, and [uuid] is the new
    identifier. *)
Definition pkcs11_try_from (config : Pkcs11Config) (uuid : string) : st H anyhow Pkcs11Backend :=
  st_map_err (fun _ => "unable to open pkcs11 module") (pkcs11_new (pk_module config));;
  (fun s => match pkcs11_initialize s with (s', Ok _) => (s', Ok tt) | (s', _) => (s', Panic) end);;
  slots ← get_slots_with_token;
  if len slots <=? pk_slot_index config then st_err "Slot index out of range"
  else
    slot ← st_lift (index slots (pk_slot_index config));
    open_rw_session slot;;
    session_login (pk_pin config);;
    wrap_key_new uuid;;
    mret {| wrapkey_id := uuid |}.

(** [read_secret_resource]. *)
Definition pkcs11_read (d : ResourceDesc) : st H anyhow bytes :=
  objects ← find_objects [ALabel (str_bytes (resource_desc_display d))];
  match objects with
  | [] => st_err "Could not find object with label"
  | object :: _ =>
      available ← value_available object;
      if negb available then st_err "Key does not have value attribute available."
      else
        value ← st_map_err (fun _ => "unable to fetch attributes") (get_attributes object [TValue]);
        match value with
        | [] => st_err "empty attributes returned"
        | AValue resource_bytes :: _ => mret resource_bytes
        | _ => st_err "Failed to get value."
        end
  end.

(** [write_secret_resource]. *)
Definition resource_template (d : ResourceDesc) (data : bytes) : list Attribute :=
  [AClass SECRET_KEY; AKeyType KT_GENERIC_SECRET; AExtractable true; APrivate true;
   AValue data; ALabel (str_bytes (resource_desc_display d))].

Definition pkcs11_write (d : ResourceDesc) (data : bytes) : st H anyhow unit :=
  _ ← create_object (resource_template d data); mret tt.

Definition pkcs11_backend : StorageBackend H := {|
  read_secret_resource := pkcs11_read;
  write_secret_resource := pkcs11_write;
|}.

(** [resource_handle]. *)
Definition pkcs11_resource_handle (tag : string) (body : bytes) (method : Method) : st H anyhow bytes :=
  tag ← st_map_err (fun _ => "invalid path") (st_lift (resource_desc_try_from tag));
  match method with
  | GET => pkcs11_read tag
  | POST => pkcs11_write tag body;; mret []
  | _ => st_err "Illegal HTTP method. Only supports `GET` and `POST`"
  end.

(** [Vec::remove(0)]. *)
Definition remove_first {A} (l : list A) : outcome anyhow A :=
  match l with
  | a :: _ => Ok a
  | [] => Panic
  end.

Definition wrapkey_wrap (b : Pkcs11Backend) (body : bytes) : st H anyhow bytes :=
  pubkey ← st_map_err (fun _ => "unable to find public wrap key in PKCS11 module")
    (find_objects [ALabel (public_label (wrapkey_id b))]);
  pubkey ← st_lift (remove_first pubkey);
  st_map_err (fun _ => "unable to encrypt HTTP body with public wrap key") (session_encrypt pubkey body).

Definition wrapkey_unwrap (b : Pkcs11Backend) (body : bytes) : st H anyhow bytes :=
  privkey ← st_map_err (fun _ => "unable to find private wrap key in PKCS11 module")
    (find_objects [ALabel (private_label (wrapkey_id b))]);
  privkey ← st_lift (remove_first privkey);
  st_map_err (fun _ => "unable to decrypt HTTP body with private wrap key") (session_decrypt privkey body).

Definition wrap_key_handle (b : Pkcs11Backend) (body : bytes) (method : Method) : st H anyhow bytes :=
  match method with
  | POST => wrapkey_wrap b body
  | GET => wrapkey_unwrap b body
  | _ => st_err "invalid method"
  end.

(** [ClientPlugin for Pkcs11Backend]. *)
Definition pkcs11_handle (b : Pkcs11Backend) (body : bytes) (_query path : string) (method : Method) :
    st H anyhow bytes :=
  desc ← st_lift (ok_or "accessed path is illegal, should start with '/'" (strip_prefix slash path));
  if String.eqb desc "wrap-key" then wrap_key_handle b body method
  else
    parts ← st_lift (ok_or "accessed path is invalid" (split_once slash desc));
    let '(action, params) := parts in
    if String.eqb action "resource" then pkcs11_resource_handle params body method
    else st_err "invalid path".

Definition pkcs11_validate_auth (_body : bytes) (_query _path : string) (method : Method) : outcome anyhow bool :=
  match method with
  | GET => Ok false
  | POST => Ok true
  | _ => Err "invalid method"
  end.

Definition pkcs11_encrypted (_body : bytes) (_query _path : string) (_method : Method) : outcome anyhow bool :=
  Ok true.

Definition pkcs11_plugin (b : Pkcs11Backend) : ClientPlugin H := {|
  handle := pkcs11_handle b;
  plugin_validate_auth := pkcs11_validate_auth;
  encrypted := pkcs11_encrypted;
|}.
End Pkcs11.
