(* ===== verification/Pkcs11Proofs.v ===== *)
(** * Theorems on the PKCS#11 plugin

    What the plugin returns for a resource, the round trip through the wrapping
    key, and what happens when a resource is written twice. *)
From S2P Require Import Prelude Types Text Metrics Fs Json Resource ApiServer Pkcs11.

(** What a module promises.  It holds objects under handles; an object created
    from a template carries its attributes and defaults of other types; a
    search returns, in some order, the objects that carry all attributes asked
    for; attributes are read as they are; what one key of a pair encrypts, the
    other decrypts. *)
Definition created (template attributes : list Attribute) : Prop :=
  template ⊆ attributes /\
  forall x y, x ∈ attributes -> y ∈ template -> attribute_type x = attribute_type y -> x ∈ template.

Class CryptokiSpec {H : Type} (C : Cryptoki H) (objects : H -> Handle -> option (list Attribute))
    (key_pair : H -> Handle -> Handle -> Prop) : Prop := {
  find_objects_spec : forall t s s' r, find_objects t s = (s', r) ->
    s' = s /\ r <> Panic /\
    forall l, r = Ok l -> forall h, h ∈ l <-> exists a, objects s h = Some a /\ t ⊆ a;
  value_available_spec : forall h s s' r, value_available h s = (s', r) -> s' = s /\ r <> Panic;
  get_attributes_spec : forall h ts s s' r, get_attributes h ts s = (s', r) ->
    s' = s /\ r <> Panic /\
    forall l x, r = Ok l -> x ∈ l -> attribute_type x ∈ ts /\ exists a, objects s h = Some a /\ x ∈ a;
  create_object_spec : forall t s s' h, create_object t s = (s', Ok h) ->
    objects s h = None /\ exists a, created t a /\ objects s' h = Some a /\
      forall h', h' <> h -> objects s' h' = objects s h';
  create_object_keeps : forall t s s' h, create_object t s = (s', Ok h) ->
    forall p q, key_pair s p q -> key_pair s' p q;
  generate_key_pair_spec : forall t u s s' hp hq, generate_key_pair t u s = (s', Ok (hp, hq)) ->
    objects s hp = None /\ objects s hq = None /\ hp <> hq /\
    exists a b, created t a /\ created u b /\ objects s' hp = Some a /\ objects s' hq = Some b /\
      key_pair s' hp hq /\ forall h', h' <> hp -> h' <> hq -> objects s' h' = objects s h';
  pkcs11_new_spec : forall p s, objects (pkcs11_new p s).1 = objects s;
  pkcs11_initialize_spec : forall s, objects (pkcs11_initialize s).1 = objects s;
  get_slots_with_token_spec : forall s, objects (get_slots_with_token s).1 = objects s;
  open_rw_session_spec : forall x s, objects (open_rw_session x s).1 = objects s;
  session_login_spec : forall p s, objects (session_login p s).1 = objects s;
  session_encrypt_spec : forall h x s s' r, session_encrypt h x s = (s', r) ->
    r <> Panic /\ objects s' = objects s /\ (forall p q, key_pair s p q -> key_pair s' p q);
  session_decrypt_spec : forall hp hq x c s1 s1' s2 s2' r,
    key_pair s1 hp hq -> session_encrypt hp x s1 = (s1', Ok c) ->
    key_pair s2 hp hq -> session_decrypt hq c s2 = (s2', r) -> r <> Panic /\ forall y, r = Ok y -> y = x;
}.

(** Resource writes, one after the other. *)
Fixpoint pkcs11_writes {H} `{C : Cryptoki H} (l : list (ResourceDesc * bytes)) : st H anyhow unit :=
  match l with
  | [] => mret tt
  | (d, data) :: l => pkcs11_write d data;; pkcs11_writes l
  end.

Section Pkcs11Proofs.
Context {H : Type} {C : Cryptoki H} {objects : H -> Handle -> option (list Attribute)}
  {key_pair : H -> Handle -> Handle -> Prop}.
Context {Spec : CryptokiSpec C objects key_pair}.

Definition labelled (l : bytes) (s : H) (h : Handle) : Prop :=
  exists a, objects s h = Some a /\ ALabel l ∈ a.

Definition resource_label (d : ResourceDesc) : bytes := str_bytes (resource_desc_display d).

(** ** Resources *)
Lemma pkcs11_read_spec d s s' r :
  pkcs11_read d s = (s', r) ->
  s' = s /\ r <> Panic /\
  forall v, r = Ok v -> exists h a, objects s h = Some a /\ ALabel (resource_label d) ∈ a /\ AValue v ∈ a.
Proof.
  unfold pkcs11_read, mbind, st_bind, st_map_err, resource_label.
  destruct (find_objects _ s) as [s1 r1] eqn:E1. apply find_objects_spec in E1 as (-> & Hp & Hf).
  destruct r1 as [[|h l]|e|]; [intros [= <- <-]; naive_solver| |intros [= <- <-]; naive_solver|done].
  destruct (value_available h s) as [s2 r2] eqn:E2. apply value_available_spec in E2 as (-> & Hp2).
  destruct r2 as [[]|e|]; cbn [negb]; [|intros [= <- <-]; naive_solver..|done].
  destruct (get_attributes h [TValue] s) as [s3 r3] eqn:E3. apply get_attributes_spec in E3 as (-> & Hp3 & Hg).
  destruct r3 as [vs|e|]; cbn [map_err]; [|intros [= <- <-]; naive_solver|done].
  destruct vs as [|[] vs]; intros [= <- <-]; split_and!; try done.
  intros ? [= <-]. destruct (Hg _ (AValue v) eq_refl ltac:(now left)) as (_ & a & Ha & Hv).
  destruct (proj1 (Hf _ eq_refl h) ltac:(now left)) as (a' & Ha' & Ht). simplify_eq.
  exists h, a. split; [done|]. split; [apply Ht; now left|done].
Qed.
(** A created object is found under its label only, and holds its value only. *)
Lemma created_value t a v w : created t a -> AValue v ∈ t -> AValue w ∈ a -> AValue w ∈ t.
Proof. intros [_ Hc] Hv Hw. now apply (Hc _ _ Hw Hv). Qed.

Lemma created_label t a l l' : created t a -> ALabel l ∈ t -> ALabel l' ∈ a -> ALabel l' ∈ t.
Proof. intros [_ Hc] Hv Hw. now apply (Hc _ _ Hw Hv). Qed.

Lemma template_value d data v : AValue v ∈ resource_template d data -> v = data.
Proof. unfold resource_template. rewrite !elem_of_cons, elem_of_nil. naive_solver. Qed.

Lemma template_label d data l : ALabel l ∈ resource_template d data -> l = resource_label d.
Proof. unfold resource_template. rewrite !elem_of_cons, elem_of_nil. naive_solver. Qed.

Lemma resource_label_inj d d' : desc_ok d -> desc_ok d' -> resource_label d = resource_label d' -> d = d'.
Proof.
  unfold resource_label, str_bytes. intros Hd Hd' E. apply display_inj; [done..|].
  apply (f_equal string_of_list_byte) in E. now rewrite !string_of_list_byte_of_string in E.
Qed.

Lemma pkcs11_write_spec d data s s' u :
  pkcs11_write d data s = (s', Ok u) ->
  exists h a, objects s h = None /\ created (resource_template d data) a /\ objects s' h = Some a /\
    (forall h', h' <> h -> objects s' h' = objects s h') /\ (forall p q, key_pair s p q -> key_pair s' p q).
Proof.
  unfold pkcs11_write. intros Hw. inv_st.
  match goal with E : create_object _ _ = _ |- _ =>
    pose proof (create_object_keeps _ _ _ _ E); apply create_object_spec in E as (? & ? & ? & ? & ?) end. eauto 10.
Qed.
Lemma handle_resource b body q x m :
  pkcs11_handle b body q ("/resource/" +:+ x) m = pkcs11_resource_handle x body m.
Proof. reflexivity. Qed.

Lemma resource_handle_Ok d body m s s' r :
  desc_ok d -> pkcs11_resource_handle (resource_desc_display d) body m s = (s', Ok r) ->
  m = GET /\ pkcs11_read d s = (s', Ok r) \/ m = POST /\ r = [] /\ pkcs11_write d body s = (s', Ok tt).
Proof.
  intros Hd. unfold pkcs11_resource_handle. rewrite (proj2 (try_from_Ok _ d) (conj eq_refl Hd)).
  unfold mbind at 1, st_bind at 1. cbn [st_map_err st_lift map_err].
  destruct m; intros Hm; [now left|right|discriminate]. inv_st. now destruct a.
Qed.

(** ** The wrapping key *)
Definition wrap_ready (b : Pkcs11Backend) (hp hq : Handle) (s : H) : Prop :=
  key_pair s hp hq /\
    (forall h, labelled (public_label (wrapkey_id b)) s h <-> h = hp) /\
    (forall h, labelled (private_label (wrapkey_id b)) s h <-> h = hq).

Lemma find_label l s s' r h :
  find_objects [ALabel l] s = (s', r) -> (forall h', labelled l s h' <-> h' = h) ->
  s' = s /\ r <> Panic /\ forall hs, r = Ok hs -> exists hs', hs = h :: hs'.
Proof.
  intros Hf Hl. apply find_objects_spec in Hf as (-> & Hp & Hf). split; [done|]. split; [done|].
  intros hs ->. assert (Hin : forall h', h' ∈ hs <-> h' = h).
  { intros h'. rewrite (Hf _ eq_refl), <- Hl. unfold labelled.
    split; intros (a & Ha & Hx); exists a; (split; [done|]).
    - apply Hx. now left.
    - now intros x ->%list_elem_of_singleton. }
  destruct hs as [|h' hs']; [exfalso; now apply (not_elem_of_nil h), Hin|].
  exists hs'. f_equal. apply Hin. now left.
Qed.
Lemma label_bytes_inj x y : str_bytes x = str_bytes y -> x = y.
Proof.
  unfold str_bytes. intros E. apply (f_equal string_of_list_byte) in E.
  now rewrite !string_of_list_byte_of_string in E.
Qed.

Lemma public_private_differ id : public_label id <> private_label id.
Proof.
  unfold public_label, private_label. intros E%label_bytes_inj%(f_equal String.length).
  induction id as [|c id IH]; cbn in E; [discriminate|]. injection E as E. now apply IH.
Qed.

Lemma resource_label_slash d l : desc_ok d -> no_char slash l = true -> resource_label d <> str_bytes l.
Proof.
  intros Hd Hl E%label_bytes_inj%(f_equal (split_on slash)). rewrite display_split, split_on_none in E by done. discriminate.
Qed.

Lemma fresh_pair_ready id s s' hp hq :
  generate_key_pair (public_template id) (private_template id) s = (s', Ok (hp, hq)) ->
  (forall h, ~ labelled (public_label id) s h /\ ~ labelled (private_label id) s h) ->
  wrap_ready {| wrapkey_id := id |} hp hq s'.
Proof.
  intros Hg Hfresh.
  apply generate_key_pair_spec in Hg as (_ & _ & Hne & a & b & Ha & Hb & Op & Oq & Hk & Hother).
  assert (Hla : forall l, ALabel l ∈ a <-> l = public_label id).
  { intros l. split; [intros Hl; apply (created_label _ _ (public_label id) l Ha) in Hl|intros ->; apply Ha];
      unfold public_template in *; rewrite ?elem_of_cons, ?elem_of_nil in *; naive_solver. }
  assert (Hlb : forall l, ALabel l ∈ b <-> l = private_label id).
  { intros l. split; [intros Hl; apply (created_label _ _ (private_label id) l Hb) in Hl|intros ->; apply Hb];
      unfold private_template in *; rewrite ?elem_of_cons, ?elem_of_nil in *; naive_solver. }
  pose proof (public_private_differ id) as Hd.
  assert (Hlab : forall l h, (forall h, ~ labelled l s h) ->
    labelled l s' h <-> h = hp /\ l = public_label id \/ h = hq /\ l = private_label id).
  { intros l h Hf. specialize (Hf h). unfold labelled in *. destruct (decide (h = hp)) as [->|Hp].
    - rewrite Op. setoid_rewrite <- Hla. naive_solver.
    - destruct (decide (h = hq)) as [->|Hq]; [rewrite Oq; setoid_rewrite <- Hlb; naive_solver|].
      rewrite Hother by done. naive_solver. }
  split; [done|]. cbn [wrapkey_id].
  split; intros h; (rewrite Hlab by apply Hfresh); naive_solver.
Qed.

Lemma try_from_ready config id s s' b :
  pkcs11_try_from config id s = (s', Ok b) ->
  (forall h, ~ labelled (public_label id) s h /\ ~ labelled (private_label id) s h) ->
  wrapkey_id b = id /\ exists hp hq, wrap_ready b hp hq s'.
Proof.
  intros Ht Hfresh. unfold pkcs11_try_from, wrap_key_new in Ht. inv_st.
  destruct (_ <=? _); [discriminate|]. inv_st. split; [done|].
  destruct (pkcs11_initialize s0) as [x []] eqn:Ei; try discriminate. injection Hst0 as <- _.
  destruct a6 as [hp hq]. exists hp, hq. apply (fresh_pair_ready _ _ _ _ _ Hst6). intros h. unfold labelled.
  pose proof (pkcs11_new_spec (pk_module config) s) as E0. rewrite Hst in E0.
  pose proof (pkcs11_initialize_spec s0) as E1. rewrite Ei in E1.
  pose proof (get_slots_with_token_spec x) as E2. rewrite Hst1 in E2.
  pose proof (open_rw_session_spec a2 s3) as E3. rewrite Hst3 in E3.
  pose proof (session_login_spec (pk_pin config) s4) as E4. rewrite Hst4 in E4. cbn in *.
  rewrite E4, E3, E2, E1, E0. apply Hfresh.
Qed.
(** Writing a resource leaves the wrapping keys alone. *)
Lemma write_ready b hp hq d data s s' :
  no_char slash (wrapkey_id b) = true -> desc_ok d -> wrap_ready b hp hq s ->
  pkcs11_write d data s = (s', Ok tt) -> wrap_ready b hp hq s'.
Proof.
  intros Hid Hd (Hk & Hp & Hq) Hw.
  apply pkcs11_write_spec in Hw as (h & a & Hn & Ha & Hs & Hother & Hkeep).
  assert (Hlab : forall l, l <> resource_label d -> forall h', labelled l s' h' <-> labelled l s h').
  { intros l Hl h'. unfold labelled. destruct (decide (h' = h)) as [->|Hne]; [|now rewrite Hother].
    rewrite Hs, Hn. split; [|naive_solver]. intros (x & [= <-] & Hx). destruct Hl.
    eapply template_label, (created_label _ _ (resource_label d)); [done| |done].
    unfold resource_template, resource_label. set_solver. }
  assert (Hns : forall t, no_char slash t = true -> resource_label d <> str_bytes (wrapkey_id b +:+ t)).
  { intros t Ht. apply resource_label_slash; [done|]. unfold no_char in *. now rewrite all_chars_app, Hid. }
  split; [auto|]. unfold public_label, private_label in *.
  split; intros h'; rewrite Hlab; auto; apply not_eq_sym, Hns; reflexivity.
Qed.

Lemma writes_ready b hp hq l s s' :
  no_char slash (wrapkey_id b) = true -> Forall (fun x => desc_ok x.1) l -> wrap_ready b hp hq s ->
  pkcs11_writes l s = (s', Ok tt) -> wrap_ready b hp hq s'.
Proof.
  intros Hid. revert s. induction l as [|[d data] l IH]; intros s Hl Hr; cbn [pkcs11_writes].
  - now intros [= <-].
  - apply list.Forall_cons in Hl as [Hd Hl]. intros Hw. inv_st. destruct a. eauto using write_ready.
Qed.
Lemma wrap_spec b hp hq x s s' r :
  wrap_ready b hp hq s -> wrapkey_wrap b x s = (s', r) ->
  r <> Panic /\ forall c, r = Ok c -> wrap_ready b hp hq s' /\ session_encrypt hp x s = (s', Ok c).
Proof.
  intros (Hk & Hp & Hq). unfold wrapkey_wrap, mbind, st_bind, st_map_err, st_lift.
  destruct (find_objects _ s) as [s1 r1] eqn:E. destruct (find_label _ _ _ _ hp E Hp) as (-> & Hr & Hf).
  destruct r1 as [hs|e|]; [|intros [= <- <-]; naive_solver|done].
  destruct (Hf hs eq_refl) as [hs' ->]. cbn [map_err remove_first].
  destruct (session_encrypt hp x s) as [s2 r2] eqn:E2. intros [= <- <-].
  apply session_encrypt_spec in E2 as (Hn & Ho & Hkeep). split; [now destruct r2|].
  intros c Hc. apply map_err_Ok in Hc as ->. split; [|done]. split; [auto|].
  unfold labelled in *. now rewrite Ho.
Qed.

Lemma unwrap_spec b hp hq x c s0 s0' s s' r :
  key_pair s0 hp hq -> session_encrypt hp x s0 = (s0', Ok c) ->
  wrap_ready b hp hq s -> wrapkey_unwrap b c s = (s', r) -> r <> Panic /\ forall y, r = Ok y -> y = x.
Proof.
  intros Hk0 He (Hk & Hp & Hq). unfold wrapkey_unwrap, mbind, st_bind, st_map_err, st_lift.
  destruct (find_objects _ s) as [s1 r1] eqn:E. destruct (find_label _ _ _ _ hq E Hq) as (-> & Hr & Hf).
  destruct r1 as [hs|e|]; [|intros [= <- <-]; naive_solver|done].
  destruct (Hf hs eq_refl) as [hs' ->]. cbn [map_err remove_first].
  destruct (session_decrypt hq c s) as [s2 r2] eqn:E2. intros [= <- <-].
  destruct (session_decrypt_spec _ _ _ _ _ _ _ _ _ Hk0 He Hk E2) as [Hn Hy].
  split; [now destruct r2|]. intros y Hc. apply map_err_Ok in Hc as ->. now apply Hy.
Qed.

(** ** Properties *)

(** C37: what is wrapped with the PKCS#11 plugin is unwrapped to itself.  After a
    start-up that made the key pair under a new identifier, what an
    administrator wraps is, after any writes of resources, given back by the
    unwrapping request, if that succeeds; and neither of the two requests
    panics. *)
Theorem wrap_unwrap_roundtrip config id s0 s1 b x q q2 s2 r :
  pkcs11_try_from config id s0 = (s1, Ok b) -> no_char slash id = true ->
  (forall h, ~ labelled (public_label id) s0 h /\ ~ labelled (private_label id) s0 h) ->
  pkcs11_handle b x q "/wrap-key" POST s1 = (s2, r) ->
  r <> Panic /\
  forall c l s3 s4 r', r = Ok c -> Forall (fun w => desc_ok w.1) l -> pkcs11_writes l s2 = (s3, Ok tt) ->
    pkcs11_handle b c q2 "/wrap-key" GET s3 = (s4, r') -> r' <> Panic /\ forall y, r' = Ok y -> y = x.
Proof.
  intros Ht Hid Hfresh. destruct (try_from_ready _ _ _ _ _ Ht Hfresh) as (Hb & hp & hq & Hr).
  change (pkcs11_handle b x q "/wrap-key" POST) with (wrapkey_wrap b x). intros Hw.
  destruct (wrap_spec _ _ _ _ _ _ _ Hr Hw) as [Hn Hc]. split; [done|].
  intros c l s3 s4 r' -> Hl Hws. destruct (Hc c eq_refl) as [Hr2 He].
  change (pkcs11_handle b c q2 "/wrap-key" GET) with (wrapkey_unwrap b c).
  intros Hu. rewrite <- Hb in Hid. eapply (unwrap_spec _ _ _ _ _ _ _ _ _ _ (proj1 Hr) He); [|exact Hu].
  eapply writes_ready; eassumption.
Qed.

(** Resources in a PKCS#11 module.  After a resource was posted, a GET
    returns the value of an object that carries the label of the path asked
    for: the posted one, for the posted path, if the module held no object with
    that label before, and for another path one it held before. *)
Theorem pkcs11_read_back b d d' data q q2 b2 s s1 s2 r v :
  desc_ok d -> desc_ok d' ->
  pkcs11_handle b data q ("/resource/" +:+ resource_desc_display d) POST s = (s1, Ok r) ->
  pkcs11_handle b b2 q2 ("/resource/" +:+ resource_desc_display d') GET s1 = (s2, Ok v) ->
  (d' = d -> (forall h, ~ labelled (resource_label d) s h) -> v = data) /\
  (d' <> d -> exists h a, objects s h = Some a /\ ALabel (resource_label d') ∈ a /\ AValue v ∈ a).
Proof.
  intros Hd Hd'. rewrite !handle_resource. intros Hp Hg.
  apply resource_handle_Ok in Hp as [[? _]|(_ & _ & Hw)]; [discriminate| |done].
  apply resource_handle_Ok in Hg as [[_ Hr]|[? _]]; [|discriminate|done].
  apply pkcs11_write_spec in Hw as (h & a & Hn & Ha & Hs & Hother & _).
  apply pkcs11_read_spec in Hr as (-> & _ & Hr). destruct (Hr v eq_refl) as (h' & a' & Ho & Hl & Hv).
  assert (Hin : AValue data ∈ resource_template d data /\ ALabel (resource_label d) ∈ resource_template d data)
    by (unfold resource_template, resource_label; set_solver).
  destruct (decide (h' = h)) as [->|Hne].
  - simplify_eq. apply (created_value _ _ data v Ha) in Hv as ->%template_value; [|apply Hin].
    split; [done|]. intros Hdd. destruct Hdd. apply (created_label _ _ _ _ Ha (proj2 Hin)) in Hl as ?%template_label.
    now apply resource_label_inj.
  - rewrite Hother in Ho by done. split; [|eauto].
    intros -> Hnone. destruct (Hnone h'). now exists a'.
Qed.
End Pkcs11Proofs.

(** ** A concrete module

    Objects are numbered in the order in which they are made, and a search
    returns them in that order. *)
Module HsmDemo.
Definition found (t : list Attribute) (s : list (list Attribute)) (h : nat) : bool :=
  match s !! h with
  | Some a => forallb (fun x => bool_decide (x ∈ a)) t
  | None => false
  end.

#[export] Instance hsm : Cryptoki (list (list Attribute)) := {|
  Handle := nat; Slot := unit;
  pkcs11_new _ := mret tt; pkcs11_initialize := mret tt; get_slots_with_token := mret [tt];
  open_rw_session _ := mret tt; session_login _ := mret tt;
  generate_key_pair t u s := (s ++ [t; u], Ok (length s, S (length s)));
  find_objects t s := (s, Ok (List.filter (found t s) (seq 0 (length s))));
  create_object t s := (s ++ [t], Ok (length s));
  value_available _ := mret true;
  get_attributes h ts s :=
    (s, Ok (List.filter (fun x => match x, ts with AValue _, [TValue] => true | _, _ => false end) (default [] (s !! h))));
  session_encrypt _ x := mret (x ++ [Byte.x00]);
  session_decrypt _ x := mret (removelast x);
|}.

Lemma created_same t : created t t.
Proof. now split. Qed.

Lemma found_spec t s h : found t s h = true <-> exists a, s !! h = Some a /\ t ⊆ a.
Proof.
  unfold found. destruct (s !! h) as [a|]; [|naive_solver]. rewrite forallb_forall.
  setoid_rewrite <- list_elem_of_In. setoid_rewrite bool_decide_eq_true. split.
  - intros Hx. exists a. split; [done|]. exact Hx.
  - intros (? & [= <-] & Hx). exact Hx.
Qed.

#[export] Instance hsm_spec : CryptokiSpec hsm (fun s h => s !! h) (fun _ _ _ => True).
Proof.
  split; try done.
  - intros t s s' r [= <- <-]. split; [done|]. split; [done|]. intros l [= <-] h.
    rewrite list_elem_of_In, filter_In, in_seq, <- found_spec. split; [now intros []|]. intros Hf. split; [|done].
    apply found_spec in Hf as (a & Ha & _). apply lookup_lt_Some in Ha. cbn. lia.
  - intros h s s' r [= <- <-]. done.
  - intros h ts s s' r [= <- <-]. split; [done|]. split; [done|]. intros l x [= <-].
    rewrite list_elem_of_In, filter_In, <- list_elem_of_In. intros [Hx Ht].
    destruct x, ts as [|[] []]; try discriminate. split; [now left|].
    cbn in *. revert Hx. destruct (s !! h) as [a|]; intros Hx; [eauto|now apply elem_of_nil in Hx].
  - intros t s s' h [= <- <-]. split; [apply lookup_ge_None; lia|]. exists t. split; [apply created_same|].
    split; [apply list_lookup_middle; done|]. intros h' Hne.
    destruct (decide (h' < length s)%nat); [now rewrite lookup_app_l|].
    rewrite (lookup_ge_None_2 s) by lia. apply lookup_ge_None_2. rewrite length_app. cbn. lia.
  - intros t u s s' hp hq [= <- <- <-]. split; [apply lookup_ge_None; lia|]. split; [apply lookup_ge_None; lia|].
    split; [lia|]. exists t, u. split; [apply created_same|]. split; [apply created_same|].
    split; [now apply list_lookup_middle|]. split.
    { rewrite lookup_app_r by lia. now replace (S (length s) - length s)%nat with 1%nat by lia. }
    split; [done|]. intros h' H1 H2.
    destruct (decide (h' < length s)%nat); [now rewrite lookup_app_l|].
    rewrite (lookup_ge_None_2 s) by lia. apply lookup_ge_None_2. rewrite length_app. cbn. lia.
  - intros h x s s' r [= <- <-]. done.
  - intros hp hq x c s1 s1' s2 s2' r _ [= <- <-] _ [= <- <-]. split; [done|]. intros y [= <-].
    apply removelast_last.
Qed.

Definition hsm_config : Pkcs11Config := {| pk_module := "m"; pk_slot_index := 0; pk_pin := "1234" |}.
Definition hsm_backend : Pkcs11Backend := {| wrapkey_id := "id" |}.
Definition hsm_desc : ResourceDesc := {| repository_name := "default"; resource_type := "key"; resource_tag := "1" |}.
Definition hsm1 : list (list Attribute) := (pkcs11_try_from hsm_config "id" []).1.
Definition hsm2 : list (list Attribute) := (pkcs11_write hsm_desc (str_bytes "new") hsm1).1.

Lemma wrap_unwrap_roundtrip_witness :
  pkcs11_handle hsm_backend (str_bytes "x") "" "/wrap-key" POST hsm1 = (hsm1, Ok (str_bytes "x" ++ [Byte.x00])) /\
  exists y, (pkcs11_handle hsm_backend (str_bytes "x" ++ [Byte.x00]) "" "/wrap-key" GET hsm2).2 = Ok y /\ y = str_bytes "x".
Proof.
  split; [vm_compute; reflexivity|].
  exists (str_bytes "x"). split; [vm_compute; reflexivity|].
  destruct (wrap_unwrap_roundtrip (Spec := hsm_spec) hsm_config "id" [] hsm1 hsm_backend (str_bytes "x") "" "" hsm1
    (Ok (str_bytes "x" ++ [Byte.x00]))) as [_ H].
  - vm_compute; reflexivity.
  - reflexivity.
  - intros h. unfold labelled. split; intros (a & Ha & _); destruct h; discriminate.
  - vm_compute; reflexivity.
  - destruct (H (str_bytes "x" ++ [Byte.x00]) [(hsm_desc, str_bytes "new")] hsm2 hsm2 (Ok (str_bytes "x"))) as [_ Hy].
    + reflexivity.
    + repeat constructor.
    + vm_compute; reflexivity.
    + vm_compute; reflexivity.
    + now apply Hy.
Defined.

Lemma pkcs11_read_back_witness :
  pkcs11_handle hsm_backend [] "" "/resource/default/key/1" GET hsm2 = (hsm2, Ok (str_bytes "new")) /\
  str_bytes "new" = str_bytes "new".
Proof.
  split; [vm_compute; reflexivity|].
  destruct (pkcs11_read_back (Spec := hsm_spec) hsm_backend hsm_desc hsm_desc (str_bytes "new") "" "" [] hsm1 hsm2 hsm2 []
    (str_bytes "new")) as [H _].
  - repeat split.
  - repeat split.
  - vm_compute; reflexivity.
  - vm_compute; reflexivity.
  - apply H; [reflexivity|]. intros h (a & Ha & Hl).
    destruct h as [|[|h]]; vm_compute in Ha; [..|destruct h; discriminate]; injection Ha as <-;
      apply (bool_decide_eq_true_2 _) in Hl; vm_compute in Hl; discriminate.
Defined.

(** A resource that is written again is not replaced.  With a module that
    lists objects in the order of their creation, a second POST to a path
    succeeds and a GET still returns the first value. *)
Theorem pkcs11_update_not_seen :
  exists s1 s2 s3,
    pkcs11_handle hsm_backend (str_bytes "old") "" "/resource/default/key/1" POST hsm1 = (s1, Ok []) /\
    pkcs11_handle hsm_backend (str_bytes "new") "" "/resource/default/key/1" POST s1 = (s2, Ok []) /\
    pkcs11_handle hsm_backend [] "" "/resource/default/key/1" GET s2 = (s3, Ok (str_bytes "old")).
Proof. do 3 eexists. split; [|split]; vm_compute; reflexivity. Qed.
End HsmDemo.
