(* ===== verification/NebulaCa.v ===== *)
(** * The Nebula CA plugin ([kbs/src/plugins/implementations/nebula_ca.rs])

    Credentials for the nodes of an overlay network, made by the program
    [nebula-cert]: its command lines, the start-up of the plugin and its
    request handler.  The program is a parameter that works on the file system;
    so are the query string parser and version requirements. *)
From S2P Require Import Prelude Types Text Metrics Session Attestation Fs Json Resource ApiServer.

(** ** Constants *)
Definition DEFAULT_NEBULA_CA_NAME : string := "Trustee Nebula CA plugin".
Definition DEFAULT_NEBULA_CERT_PATH : string := "nebula-cert".
Definition NEBULA_DEFAULT_WORK_DIR : string := "/opt/confidential-containers/kbs/nebula-ca".
Definition NEBULA_CERT_VERSION_REQUIREMENT : string := ">=1.9.5".

(** ** Command line arguments *)
Record NebulaCredentialParams := {
  np_name : string;
  np_ip : string;
  np_duration : option string;
  np_groups : option string;
  np_subnets : option string;
}.

Definition add_option_string_arg (name : string) (v : option string) : list string :=
  match v with
  | Some v => [name; v]
  | None => []
  end.

Definition add_option_u32_arg (name : string) (v : option Z) : list string :=
  match v with
  | Some v => [name; fmt_dec v]
  | None => []
  end.

Definition params_args (p : NebulaCredentialParams) : list string :=
  ["-name"; np_name p; "-ip"; np_ip p] ++
  add_option_string_arg "-duration" (np_duration p) ++
  add_option_string_arg "-groups" (np_groups p) ++
  add_option_string_arg "-subnets" (np_subnets p).

Record SelfSignedNebulaCaConfig := {
  ca_name : option string;
  argon_iterations : option Z;
  argon_memory : option Z;
  argon_parallelism : option Z;
  ca_curve : option string;
  ca_duration : option string;
  ca_groups : option string;
  ca_ips : option string;
  ca_out_qr : option string;
  ca_subnets : option string;
}.

Definition ca_config_default : SelfSignedNebulaCaConfig :=
  {| ca_name := None; argon_iterations := None; argon_memory := None; argon_parallelism := None;
     ca_curve := None; ca_duration := None; ca_groups := None; ca_ips := None; ca_out_qr := None;
     ca_subnets := None |}.

Definition ca_args (ca : SelfSignedNebulaCaConfig) : list string :=
  ["-name"; default DEFAULT_NEBULA_CA_NAME (ca_name ca)] ++
  add_option_u32_arg "-argon-iterations" (argon_iterations ca) ++
  add_option_u32_arg "-argon-memory" (argon_memory ca) ++
  add_option_u32_arg "-argon-parallelism" (argon_parallelism ca) ++
  add_option_string_arg "-curve" (ca_curve ca) ++
  add_option_string_arg "-duration" (ca_duration ca) ++
  add_option_string_arg "-groups" (ca_groups ca) ++
  add_option_string_arg "-ips" (ca_ips ca) ++
  add_option_string_arg "-out-qr" (ca_out_qr ca) ++
  add_option_string_arg "-subnets" (ca_subnets ca).

Record NebulaCaPluginConfig := {
  nc_work_dir : option string;
  nc_nebula_cert_bin_path : option string;
  nc_ca_config : option SelfSignedNebulaCaConfig;
}.

(** What a process leaves behind: whether it succeeded, and its output. *)
Record Output := {
  out_success : bool;
  out_stdout : bytes;
}.

Record CredentialServiceOut := {
  node_crt : bytes;
  node_key : bytes;
  ca_crt : bytes;
}.

Class NebulaCrates := {
  (** [Command]: the program and its arguments, on the file system; an error if
      it cannot be started *)
  run_command : string -> list string -> st Fs anyhow Output;
  (** [serde_qs::from_str] *)
  credential_params_from_qs : string -> option NebulaCredentialParams;
  (** [VersionReq::parse] and [matches], on the text of a version *)
  version_satisfies : string -> string -> option bool;
  (** [serde_json::to_vec] *)
  credential_to_vec : CredentialServiceOut -> option bytes;
  (** whether [log::info!] is enabled, and then evaluates its arguments *)
  info_enabled : bool;
}.

(** [str::strip_prefix] with a text. *)
Fixpoint strip_text (prefix s : string) : option string :=
  match prefix, s with
  | EmptyString, _ => Some s
  | String.String c p, String.String c' s => if Ascii.eqb c c' then strip_text p s else None
  | _, EmptyString => None
  end.

Section Nebula.
Context `{D : Disk} `{NC : NebulaCrates}.

(** ** [NebulaCertBin] *)
Record NebulaCertBin := { bin_path : string }.

(** [cmd.status()] or [cmd.output()], with the check of the exit status. *)
Definition run_checked (b : NebulaCertBin) (args : list string) : st Fs anyhow Output :=
  output ← st_map_err (fun _ => "nebula-cert") (run_command (bin_path b) args);
  if negb (out_success output) then st_err "nebula-cert" else mret output.

Definition nebula_ca (b : NebulaCertBin) (config : SelfSignedNebulaCaConfig) (crt key : string) : st Fs anyhow unit :=
  _ ← run_checked b ("ca" :: ca_args config ++ ["-out-crt"; crt; "-out-key"; key]); mret tt.

Definition nebula_print (b : NebulaCertBin) (crt : string) : st Fs anyhow string :=
  output ← run_checked b ["print"; "-path"; crt];
  cert_details ← st_lift (ok_or "utf8" (from_utf8 (out_stdout output)));
  mret (trim_end cert_details).

Definition sign_args (params : NebulaCredentialParams) (ca_key ca_crt node_key node_crt : string) : list string :=
  params_args params ++
  ["-ca-key"; ca_key; "-ca-crt"; ca_crt; "-out-key"; node_key; "-out-crt"; node_crt].

Definition nebula_sign (b : NebulaCertBin) (params : NebulaCredentialParams)
    (ca_key ca_crt node_key node_crt : string) : st Fs anyhow unit :=
  _ ← run_checked b ("sign" :: sign_args params ca_key ca_crt node_key node_crt); mret tt.

Definition nebula_verify (b : NebulaCertBin) (ca_crt node_crt : string) : st Fs anyhow unit :=
  _ ← run_checked b ["verify"; "-ca"; ca_crt; "-crt"; node_crt]; mret tt.

Definition nebula_version (b : NebulaCertBin) : st Fs anyhow string :=
  output ← run_checked b ["--version"];
  version ← st_lift (ok_or "utf8" (from_utf8 (out_stdout output)));
  version ← st_lift (ok_or "Failed to parse Nebula version" (strip_text "Version: " version));
  mret (trim_end version).

Definition version_checked (b : NebulaCertBin) : st Fs anyhow string :=
  version ← nebula_version b;
  ok ← st_lift (ok_or "version" (version_satisfies NEBULA_CERT_VERSION_REQUIREMENT version));
  if negb ok then st_err "nebula-ca version requirement not satisfied" else mret version.

(** ** The plugin *)
Record NebulaCaPlugin := {
  nebula : NebulaCertBin;
  nb_key : string;
  nb_crt : string;
  nb_work_dir : string;
}.

(** [NebulaCaPlugin::try_from]. *)
Definition nebula_try_from (config : NebulaCaPluginConfig) : st Fs anyhow NebulaCaPlugin :=
  let work_dir := default NEBULA_DEFAULT_WORK_DIR (nc_work_dir config) in
  let crt := path_push work_dir "ca/ca.crt" in
  let key := path_push work_dir "ca/ca.key" in
  let nebula := {| bin_path := default DEFAULT_NEBULA_CERT_PATH (nc_nebula_cert_bin_path config) |} in
  _ ← version_checked nebula;
  match path_parent crt with
  | Some parent => st_map_err (fun _ => "Create dir") (create_dir_all parent)
  | None => mret tt
  end;;
  neither ← st_gets (fun fs => negb (path_exists fs crt) && negb (path_exists fs key));
  (if neither : bool then nebula_ca nebula (default ca_config_default (nc_ca_config config)) crt key else mret tt);;
  missing ← st_gets (fun fs => negb (path_exists fs crt) || negb (path_exists fs key));
  if missing : bool then st_err "Nebula CA not found"
  else
    (if info_enabled then _ ← nebula_print nebula crt; mret tt else mret tt);;
    mret {| nebula := nebula; nb_key := key; nb_crt := crt; nb_work_dir := work_dir |}.

(** [create_credential]. *)
Definition create_credential (p : NebulaCaPlugin) (key_path crt_path : string) (params : NebulaCredentialParams) :
    st Fs anyhow CredentialServiceOut :=
  st_map_err (fun _ => "Failed to create credential")
    (nebula_sign (nebula p) params (nb_key p) (nb_crt p) key_path crt_path);;
  st_map_err (fun _ => "Failed to verify credential") (nebula_verify (nebula p) (nb_crt p) crt_path);;
  crt ← st_map_err (fun _ => "read") (fs_read crt_path);
  key ← st_map_err (fun _ => "read") (fs_read key_path);
  ca ← st_map_err (fun _ => "read") (fs_read (nb_crt p));
  mret {| node_crt := crt; node_key := key; ca_crt := ca |}.

(** [ClientPlugin for NebulaCaPlugin]; [name] is the random name of the
    temporary directory. *)
Definition nebula_handle (p : NebulaCaPlugin) (name : string) (_body : bytes) (query path : string) (method : Method) :
    st Fs anyhow bytes :=
  sub_path ← st_lift (ok_or "accessed path is illegal, should start with `/`" (strip_prefix slash path));
  if negb (String.eqb (method_str method) "GET") then st_err "Illegal HTTP method. Only GET is supported"
  else if String.eqb sub_path "credential" then
    params ← st_lift (ok_or "query" (credential_params_from_qs query));
    with_tempdir id (fun fs _ => fs) (nb_work_dir p) name (fun credential_dir =>
      credential ← create_credential p (path_push credential_dir "node.key") (path_push credential_dir "node.crt") params;
      st_lift (ok_or "json" (credential_to_vec credential)))
  else st_err "not supported".

Definition nebula_validate_auth (_body : bytes) (_query _path : string) (_method : Method) : outcome anyhow bool :=
  Ok false.
Definition nebula_encrypted (_body : bytes) (_query _path : string) (_method : Method) : outcome anyhow bool :=
  Ok true.

Definition nebula_plugin (p : NebulaCaPlugin) (name : string) : ClientPlugin Fs := {|
  handle := nebula_handle p name;
  plugin_validate_auth := nebula_validate_auth;
  encrypted := nebula_encrypted;
|}.
End Nebula.
