(* ===== verification/NebulaCaProofs.v ===== *)
(** * Theorems on the Nebula CA plugin

    What a credential is, that serving one leaves nothing in the file system,
    and that start-up never touches a certificate authority that is there. *)
From S2P Require Import Prelude Types Text Metrics Session Attestation Fs Json Resource ApiServer NebulaCa.

(** The options of a command line, after the name of the command. *)
Fixpoint flag_pairs (l : list string) : list (string * string) :=
  match l with
  | f :: v :: l => (f, v) :: flag_pairs l
  | _ => []
  end.

Definition is_output (f : string) : bool :=
  bool_decide (f ∈ ["-out-key"; "-out-crt"; "-out-qr"]).

(** The files a command line names as outputs. *)
Definition outputs (args : list string) : list (list string) :=
  omap (M := list) (fun fv : string * string => if is_output fv.1 then Some (resolve fv.2) else None) (flag_pairs (tail args)).

(** [nebula-cert] writes no file but the ones its options name as outputs, and
    makes no directory. *)
Class NebulaSpec (NC : NebulaCrates) : Prop := {
  run_command_spec : forall bin args fs fs' r, run_command bin args fs = (fs', r) ->
    r <> Panic /\ dirs fs' = dirs fs /\ forall p, p ∉ outputs args -> files fs' !! p = files fs !! p;
}.

Section NebulaProofs.
Context `{D : Disk} `{NC : NebulaCrates}.

(** ** What the commands write *)
Lemma run_checked_spec (Spec : NebulaSpec NC) b args fs fs' r :
  run_checked b args fs = (fs', r) ->
  r <> Panic /\ dirs fs' = dirs fs /\ forall p, p ∉ outputs args -> files fs' !! p = files fs !! p.
Proof.
  unfold run_checked, mbind, st_bind, st_map_err.
  destruct (run_command _ _ fs) as [fs1 r1] eqn:E. apply run_command_spec in E as (Hp & Hd & Hf).
  destruct r1 as [o|e|]; cbn [map_err]; [destruct (out_success o); cbn [negb]|..]; intros [= <- <-]; done.
Qed.

Lemma sign_outputs params ck cc nk nc :
  outputs ("sign" :: sign_args params ck cc nk nc) = [resolve nk; resolve nc].
Proof. destruct params as [n i [] [] []]; reflexivity. Qed.

Lemma nebula_sign_spec (Spec : NebulaSpec NC) b params ck cc nk nc fs fs' r :
  nebula_sign b params ck cc nk nc fs = (fs', r) ->
  r <> Panic /\ dirs fs' = dirs fs /\
  forall p, p <> resolve nk -> p <> resolve nc -> files fs' !! p = files fs !! p.
Proof.
  unfold nebula_sign, mbind, st_bind. destruct (run_checked _ _ fs) as [fs1 r1] eqn:E.
  apply run_checked_spec in E as (Hp & Hd & Hf); [|done].
  assert (Hgoal : dirs fs1 = dirs fs /\ forall p, p <> resolve nk -> p <> resolve nc -> files fs1 !! p = files fs !! p).
  { split; [done|]. intros p H1 H2. apply Hf. rewrite sign_outputs. set_solver. }
  destruct r1; intros [= <- <-]; done.
Qed.

(** A command without outputs. *)
Lemma run_silent (Spec : NebulaSpec NC) b args fs fs' r :
  outputs args = [] -> run_checked b args fs = (fs', r) -> r <> Panic /\ fs' = fs.
Proof.
  intros Ho E. apply run_checked_spec in E as (Hp & Hd & Hf); [|done]. split; [done|].
  destruct fs as [fm ds], fs' as [fm' ds']. cbn in *. subst. f_equal. apply map_eq. intros p. apply Hf.
  rewrite Ho. apply not_elem_of_nil.
Qed.

Lemma nebula_verify_spec (Spec : NebulaSpec NC) b cc nc fs fs' r :
  nebula_verify b cc nc fs = (fs', r) -> r <> Panic /\ fs' = fs.
Proof.
  unfold nebula_verify, mbind, st_bind. destruct (run_checked _ _ fs) as [fs1 r1] eqn:E.
  apply run_silent in E as (Hp & ->); [|done..]. destruct r1; intros [= <- <-]; done.
Qed.

Lemma create_credential_spec (Spec : NebulaSpec NC) p kp cp params fs fs' r :
  create_credential p kp cp params fs = (fs', r) -> r <> Panic /\ forall q, below q (resolve kp) -> below q (resolve cp) -> changes_below q fs fs'.
Proof.
  unfold create_credential, mbind, st_bind, st_map_err.
  destruct (nebula_sign _ _ _ _ _ _ fs) as [fs1 r1] eqn:E1. apply nebula_sign_spec in E1 as (H1 & Hs); [|done].
  assert (Ha : forall q, below q (resolve kp) -> below q (resolve cp) -> changes_below q fs fs1).
  { intros q Hk Hc x Hx. destruct Hs as [Hd Hf]. split; [apply Hf; intros ->; tauto|]. unfold is_dir. now rewrite Hd. }
  clear Hs.
  destruct r1; cbn [map_err]; [|intros [= <- <-]; done..].
  destruct (nebula_verify _ _ _ fs1) as [fs2 r2] eqn:E2. apply nebula_verify_spec in E2 as (H2 & ->); [|done].
  destruct r2; cbn [map_err]; [|intros [= <- <-]; done..].
  destruct (fs_read cp fs1) as [fs2 r2] eqn:E3. apply fs_read_same in E3 as [-> H3].
  destruct r2; cbn [map_err]; [|intros [= <- <-]; done..].
  destruct (fs_read kp fs1) as [fs2 r2] eqn:E4. apply fs_read_same in E4 as [-> H4].
  destruct r2; cbn [map_err]; [|intros [= <- <-]; done..].
  destruct (fs_read (nb_crt p) fs1) as [fs2 r2] eqn:E5. apply fs_read_same in E5 as [-> H5].
  destruct r2; cbn [map_err]; intros [= <- <-]; done.
Qed.

Lemma run_checked_Ok b args fs fs' o :
  run_checked b args fs = (fs', Ok o) -> run_command (bin_path b) args fs = (fs', Ok o) /\ out_success o = true.
Proof.
  unfold run_checked. intros H. inv_st. destruct (out_success a) eqn:E; cbn [negb] in H; [|discriminate]. now inv_st.
Qed.

Lemma create_credential_Ok p kp cp params fs fs' c :
  create_credential p kp cp params fs = (fs', Ok c) ->
  exists fs1 o1 o2,
    run_command (bin_path (nebula p)) ("sign" :: sign_args params (nb_key p) (nb_crt p) kp cp) fs = (fs1, Ok o1) /\
    out_success o1 = true /\
    run_command (bin_path (nebula p)) ["verify"; "-ca"; nb_crt p; "-crt"; cp] fs1 = (fs', Ok o2) /\
    out_success o2 = true /\
    files fs' !! resolve cp = Some (node_crt c) /\ files fs' !! resolve kp = Some (node_key c) /\
    files fs' !! resolve (nb_crt p) = Some (ca_crt c).
Proof.
  unfold create_credential, nebula_sign, nebula_verify. intros H. inv_st.
  repeat match goal with
    | E : fs_read _ _ = (_, Ok _) |- _ => apply fs_read_Ok in E as [? ?]; subst
    | E : run_checked _ _ _ = (_, Ok _) |- _ => apply run_checked_Ok in E as [? ?]
    end. eauto 12.
Qed.


(** ** Properties *)

(** C36: the Nebula CA plugin keeps no state.  If temporary directories can be
    removed and [nebula-cert] writes only the outputs it is given, then after
    any request, successful or not, every file and directory is as before: in
    particular the private key of the node is not left on disk.  No request
    panics. *)
Theorem nebula_request_leaves_nothing (Spec : NebulaSpec NC) p name body query path method fs fs' r :
  fs_tree fs -> plain_component name = true -> (forall q, disk_fault "rmdir" q = false) ->
  nebula_handle p name body query path method fs = (fs', r) ->
  fs_equiv fs fs' /\ r <> Panic.
Proof.
  intros Ht Hn Hr. unfold nebula_handle, mbind, st_bind, st_lift.
  destruct (strip_prefix slash path) as [sub|]; cbn [ok_or]; [|now intros [= <- <-]].
  destruct (negb _); [now intros [= <- <-]|]. destruct (String.eqb sub "credential"); [|now intros [= <- <-]].
  destruct (credential_params_from_qs query) as [params|]; cbn [ok_or]; [|now intros [= <- <-]].
  apply with_tempdir_restores; [done..|]. intros d fs2 r2 Hd _ _ E.
  destruct (create_credential _ _ _ _ _) as [fs3 r3] eqn:E2. apply create_credential_spec in E2 as (Hp & Ha); [|done].
  rewrite !resolve_push, Hd in Ha by done. specialize (Ha _ (below_app _ _) (below_app _ _)).
  destruct r3; injection E as <- <-; (split; [done|]); [|done..]. now destruct (credential_to_vec _).
Qed.

(** What a credential is.  A request is answered only if it is a GET of
    [/credential] with well-formed parameters; then [nebula-cert sign] was run
    with exactly these parameters, each as the argument after its own option,
    and the certificate authority of the plugin, [nebula-cert verify] accepted
    the new certificate against that authority, and the answer holds the
    certificate, the key and the certificate of the authority as they then were
    on disk. *)
Theorem nebula_credential_sound p name body query path method fs fs' out :
  plain_component name = true ->
  nebula_handle p name body query path method fs = (fs', Ok out) ->
  method_str method = "GET" /\ path = "/credential" /\
  exists params dir fs1 fs2 fs3 o1 o2 c,
    let kp := path_push dir "node.key" in let cp := path_push dir "node.crt" in
    credential_params_from_qs query = Some params /\ resolve dir = resolve (nb_work_dir p) ++ [name] /\
    run_command (bin_path (nebula p)) ("sign" :: params_args params ++
      ["-ca-key"; nb_key p; "-ca-crt"; nb_crt p; "-out-key"; kp; "-out-crt"; cp]) fs1 = (fs2, Ok o1) /\
    out_success o1 = true /\
    run_command (bin_path (nebula p)) ["verify"; "-ca"; nb_crt p; "-crt"; cp] fs2 = (fs3, Ok o2) /\
    out_success o2 = true /\
    files fs3 !! resolve cp = Some (node_crt c) /\ files fs3 !! resolve kp = Some (node_key c) /\
    files fs3 !! resolve (nb_crt p) = Some (ca_crt c) /\ credential_to_vec c = Some out.
Proof.
  intros Hn H. unfold nebula_handle in H. inv_st.
  match goal with E : ok_or _ (strip_prefix _ _) = _ |- _ => apply ok_or_Ok, strip_prefix_slash in E as -> end.
  destruct (String.eqb_spec (method_str method) "GET") as [Hm|]; cbn [negb] in H; [|discriminate].
  destruct (String.eqb_spec a "credential") as [Ha|]; [rewrite Ha in *; clear Ha|discriminate]. inv_st.
  match goal with E : ok_or _ (credential_params_from_qs _) = _ |- _ => apply ok_or_Ok in E end.
  split; [done|]. split; [done|]. unfold with_tempdir in H.
  match type of H with context [tempdir_in _ _ ?f] => destruct (tempdir_in (nb_work_dir p) name f) as [fs1 [d|e|]] eqn:E1 end;
    try discriminate.
  destruct (tempdir_in_spec _ _ _ _ _ Hn E1) as (_ & Hok & _). destruct (Hok d eq_refl) as (Hd & _).
  match type of H with (let '(_, _) := ?m fs1 in _) = _ => destruct (m fs1) as [fs2 r2] eqn:E2 end.
  injection H as <- ->. inv_st.
  match goal with E : ok_or _ (credential_to_vec _) = _ |- _ => apply ok_or_Ok in E end.
  match goal with E : create_credential _ _ _ _ _ = _ |- _ =>
    apply create_credential_Ok in E as (? & ? & ? & ? & ? & ? & ? & ? & ? & ?) end.
  do 8 eexists. split_and!; eassumption.
Qed.

(** ** Start-up *)
Lemma version_checked_spec (Spec : NebulaSpec NC) b fs fs' r :
  version_checked b fs = (fs', r) -> fs' = fs /\ r <> Panic.
Proof.
  unfold version_checked, nebula_version, mbind, st_bind, st_lift.
  destruct (run_checked _ _ fs) as [fs1 r1] eqn:E. apply run_silent in E as (Hp & ->); [|done..].
  destruct r1 as [o|e|]; [|intros [= <- <-]; done..].
  destruct (from_utf8 _) as [t|]; cbn [ok_or]; [|intros [= <- <-]; done].
  destruct (strip_text _ _) as [v|]; cbn [ok_or mret st_ret]; [|intros [= <- <-]; done].
  destruct (version_satisfies _ _) as [[]|]; intros [= <- <-]; done.
Qed.

Lemma nebula_print_spec (Spec : NebulaSpec NC) b crt fs fs' r :
  nebula_print b crt fs = (fs', r) -> fs' = fs /\ r <> Panic.
Proof.
  unfold nebula_print, mbind, st_bind, st_lift.
  destruct (run_checked _ _ fs) as [fs1 r1] eqn:E. apply run_silent in E as (Hp & ->); [|done..].
  destruct r1 as [o|e|]; [|intros [= <- <-]; done..].
  destruct (from_utf8 _) as [t|]; intros [= <- <-]; done.
Qed.

Lemma create_dir_all_exists d fs fs' r p :
  create_dir_all d fs = (fs', r) -> path_exists fs p = true -> path_exists fs' p = true.
Proof.
  unfold create_dir_all, path_exists. rewrite !orb_true_iff, !is_dir_spec, !is_file_spec.
  intros H. repeat case_match; simplify_eq; cbn; set_solver.
Qed.

(** A certificate authority that is there is kept.  If the certificate or
    the key of the authority exists when the plugin starts, start-up changes no
    file, whatever its outcome; and the plugin starts only if, in the end, both
    exist.  Start-up does not panic. *)
Theorem nebula_ca_kept (Spec : NebulaSpec NC) config fs fs' r :
  nebula_try_from config fs = (fs', r) ->
  let work_dir := default NEBULA_DEFAULT_WORK_DIR (nc_work_dir config) in
  let crt := path_push work_dir "ca/ca.crt" in let key := path_push work_dir "ca/ca.key" in
  r <> Panic /\
  (path_exists fs crt = true \/ path_exists fs key = true -> files fs' = files fs) /\
  (is_ok r = true -> path_exists fs' crt = true /\ path_exists fs' key = true).
Proof.
  intros H work_dir crt key. unfold nebula_try_from in H. fold work_dir crt key in H.
  set (b := {| bin_path := _ |}) in H. unfold mbind, st_bind, st_gets, st_map_err in H.
  destruct (version_checked b fs) as [fs0 r0] eqn:E0. apply version_checked_spec in E0 as [-> H0]; [|done].
  destruct r0; [|simplify_eq; done..].
  set (mk := match path_parent crt with Some _ => _ | None => _ end) in H.
  assert (Hmk : forall fs1 r1, mk fs = (fs1, r1) -> r1 <> Panic /\ files fs1 = files fs /\
    forall p, path_exists fs p = true -> path_exists fs1 p = true).
  { intros fs1 r1 E. subst mk. destruct (path_parent crt) as [d|]; [|injection E as <- <-; done].
    destruct (create_dir_all d fs) as [fs2 r2] eqn:E2. injection E as <- <-.
    destruct (create_dir_all_files _ _ _ _ E2) as [Hf Hp]. split; [now destruct r2|]. eauto using create_dir_all_exists. }
  destruct (mk fs) as [fs1 r1]. destruct (Hmk _ _ eq_refl) as (H1 & Hf & He). clear Hmk mk.
  destruct r1; [|simplify_eq; done..].
  set (ca := (if _ : bool then _ else _) : st Fs anyhow unit) in H.
  assert (Hca : forall fs2 r2, ca fs1 = (fs2, r2) -> r2 <> Panic /\
    (path_exists fs crt = true \/ path_exists fs key = true -> files fs2 = files fs)).
  { intros fs2 r2 E. subst ca. destruct (negb (path_exists fs1 crt) && negb (path_exists fs1 key)) eqn:En.
    - unfold nebula_ca, mbind, st_bind in E. destruct (run_checked _ _ fs1) as [fs3 r3] eqn:E3.
      apply run_checked_spec in E3 as (H3 & _ & _); [|done]. split; [destruct r3; injection E as <- <-; done|].
      intros [Hx|Hx]; apply He in Hx; rewrite Hx in En; [discriminate|now rewrite andb_false_r in En].
    - injection E as <- <-. done. }
  destruct (ca fs1) as [fs2 r2]. destruct (Hca _ _ eq_refl) as (H2 & Hk). clear Hca ca.
  destruct r2; [|simplify_eq; done..].
  destruct (path_exists fs2 crt) eqn:Ec, (path_exists fs2 key) eqn:Ek; cbn [negb orb] in H;
    try (unfold st_err in H; simplify_eq; done).
  destruct info_enabled; [|unfold mret, st_ret in H; simplify_eq; done].
  destruct (nebula_print b crt fs2) as [fs3 r3] eqn:E3. apply nebula_print_spec in E3 as [-> H3]; [|done].
  destruct r3; unfold mret, st_ret in H; simplify_eq; done.
Qed.
End NebulaProofs.

(** ** A concrete run *)
Module NebulaDemo.
#[export] Instance good_disk : Disk := {| disk_fault _ _ := false; made _ := 0%nat; written _ _ := None |}.

(** A program that writes its name into every output, and a version. *)
Definition write_all (l : list (list string)) (fs : Fs) : Fs :=
  {| files := foldr (fun p m => <[p := str_bytes "made"]> m) (files fs) l; dirs := dirs fs |}.

#[export] Instance nebula_crates : NebulaCrates := {|
  run_command _ args fs :=
    (write_all (outputs args) fs, Ok {| out_success := true; out_stdout := str_bytes "Version: 1.9.5" |});
  credential_params_from_qs q :=
    Some {| np_name := q; np_ip := "10.0.0.1/8"; np_duration := None; np_groups := Some "ssh"; np_subnets := None |};
  version_satisfies _ v := Some (String.eqb v "1.9.5");
  credential_to_vec c := Some (node_crt c ++ ca_crt c);
  info_enabled := true;
|}.

Lemma write_all_other l fs p : p ∉ l -> files (write_all l fs) !! p = files fs !! p.
Proof.
  induction l as [|q l IH]; cbn; [done|]. intros H. apply not_elem_of_cons in H as [Hp Hl].
  rewrite lookup_insert_ne by congruence. now apply IH.
Qed.

#[export] Instance nebula_laws : NebulaSpec nebula_crates.
Proof. split. intros bin args fs fs' r [= <- <-]. split; [done|]. split; [done|]. intros p. apply write_all_other. Qed.

Definition fs0 : Fs := {| files := {[ ["w"; "ca"; "ca.crt"] := str_bytes "ca"; ["w"; "ca"; "ca.key"] := str_bytes "k" ]};
                          dirs := {[ []; ["w"]; ["w"; "ca"] ]} |}.
Definition neb_config : NebulaCaPluginConfig :=
  {| nc_work_dir := Some "/w"; nc_nebula_cert_bin_path := None; nc_ca_config := None |}.
Definition neb : NebulaCaPlugin :=
  {| nebula := {| bin_path := "nebula-cert" |}; nb_key := "/w/ca/ca.key"; nb_crt := "/w/ca/ca.crt"; nb_work_dir := "/w" |}.

Lemma fs0_tree : fs_tree fs0.
Proof.
  intros q x H. unfold fs0 in H. cbn [files dirs] in H.
  assert (Hq : q = ["w"; "ca"] \/ q = [] \/ q = ["w"]).
  { pose proof (pred_snoc q x) as Hq. destruct H as [[v Hv]|Hd].
    - apply lookup_insert_Some in Hv as [[E _]|[_ [E _]%lookup_singleton_Some]]; rewrite <- E in Hq; auto.
    - apply elem_of_union in Hd as [[E|E]%elem_of_union|E]; apply elem_of_singleton in E; rewrite E in Hq; auto. }
  destruct Hq as [->|[->| ->]]; reflexivity.
Qed.

Lemma nebula_request_leaves_nothing_witness :
  nebula_handle neb "tmp" [] "pod" "/credential" GET fs0 = (fs0, Ok (str_bytes "madeca")) /\ fs_equiv fs0 fs0.
Proof.
  assert (E : nebula_handle neb "tmp" [] "pod" "/credential" GET fs0 = (fs0, Ok (str_bytes "madeca")))
    by (vm_compute; reflexivity).
  split; [exact E|].
  apply (nebula_request_leaves_nothing nebula_laws neb "tmp" [] "pod" "/credential" GET fs0 fs0 (Ok (str_bytes "madeca"))).
  - exact fs0_tree.
  - reflexivity.
  - reflexivity.
  - exact E.
Defined.

Lemma nebula_credential_sound_witness :
  nebula_handle neb "tmp" [] "pod" "/credential" GET fs0 = (fs0, Ok (str_bytes "madeca")) /\
  exists fs1 fs2 o, run_command "nebula-cert" ["verify"; "-ca"; "/w/ca/ca.crt"; "-crt"; "/w/tmp/node.crt"] fs1 = (fs2, Ok o).
Proof.
  assert (E : nebula_handle neb "tmp" [] "pod" "/credential" GET fs0 = (fs0, Ok (str_bytes "madeca")))
    by (vm_compute; reflexivity).
  split; [exact E|].
  destruct (nebula_credential_sound neb "tmp" [] "pod" "/credential" GET fs0 fs0 (str_bytes "madeca") eq_refl E)
    as (_ & _ & params & dir & fs1 & fs2 & fs3 & o1 & o2 & c & Hp & _ & _ & _ & Hv & _).
  exists fs2. do 2 eexists. reflexivity.
Defined.

Lemma nebula_ca_kept_witness :
  nebula_try_from neb_config fs0 = (fs0, Ok neb) /\ path_exists fs0 "/w/ca/ca.key" = true.
Proof.
  assert (E : nebula_try_from neb_config fs0 = (fs0, Ok neb)) by (vm_compute; reflexivity).
  split; [exact E|].
  destruct (nebula_ca_kept nebula_laws neb_config fs0 fs0 (Ok neb) E) as (_ & _ & H).
  apply H. reflexivity.
Defined.
End NebulaDemo.
