(* ===== verification/InToto.v ===== *)
(** * The in-toto extractor ([rvps/src/extractors/in_toto/])

    An extractor that is built on demand: it unpacks the metadata of a message
    into a temporary directory, changes into it and has the metadata verified
    by a Go function ([rvps/cgo/intoto.go]), which calls the in-toto library.
    That library runs the commands that the layout names as inspections, so what
    it does to the process is not known; it, the path cleaner and the decoders
    are parameters. *)
From S2P Require Import Prelude Types Text Fs Json Rvps.

Definition INTOTO_VERSION : string := "0.9".

Record Provenance := {
  pv_version : string;
  pv_line_normalization : bool;
  (** the entries of the map, in the order of its iteration *)
  pv_files : list (string * string);
}.

(** The file system and the working directory of the process. *)
Record Process := {
  ps_fs : Fs;
  ps_cwd : string;
}.

Definition set_ps_fs (fs : Fs) (p : Process) : Process := {| ps_fs := fs; ps_cwd := ps_cwd p |}.

Class InTotoCrates := {
  (** [serde_json::from_str] at [Provenance], with its default version *)
  provenance_from_str : string -> option Provenance;
  (** [base64], standard alphabet *)
  it_base64_decode : string -> option bytes;
  (** [path_clean::clean] *)
  path_clean : string -> string;
  (** [serde_json] at [Value] *)
  it_json_from_slice : bytes -> option Value;
  (** [str::parse::<DateTime<Utc>>] *)
  datetime_parse : string -> option Z;
  (** [env::temp_dir] *)
  temp_dir : string;
}.

(** The Go library [in_toto], and JSON in Go. *)
Class InTotoGo := {
  Metadata : Type;
  GoKey : Type;
  KeyID : GoKey -> string;
  LoadMetadata : string -> Process -> option Metadata;
  LoadKeyDefaults : string -> Process -> option GoKey;
  (** layout, its keys, link directory, step name, parameters, intermediate
      certificates and line normalization.  It reads the links, and runs the
      inspection commands of the layout in the working directory: they may do
      anything to the process and its files. *)
  InTotoVerify : Metadata -> gmap string GoKey -> string -> string -> gmap string string -> list bytes -> bool ->
    Process -> Process * option Metadata;
  json_Marshal : Metadata -> option string;
}.

(** The path cleaner, on absolute paths: the shortest path to the same file. *)
Class InTotoSpec (C : InTotoCrates) : Prop := {
  path_clean_spec : forall p, is_absolute p = true ->
    path_clean p = String.String slash (join_with slash (resolve p));
}.

(** [str::rsplit_once] with a character, and [ends_with]. *)
Fixpoint rsplit_once (c : ascii) (s : string) : option (string * string) :=
  match s with
  | EmptyString => None
  | String.String c' s =>
      match rsplit_once c s with
      | Some (a, b) => Some (String.String c' a, b)
      | None => if Ascii.eqb c c' then Some ("", s) else None
      end
  end.

Fixpoint ends_with (suffix s : string) : bool :=
  String.eqb s suffix ||
  match s with
  | EmptyString => false
  | String.String _ s => ends_with suffix s
  end.

(** [C.CString] and [CStr]: the text up to its first zero. *)
Fixpoint c_string (s : string) : string :=
  match s with
  | EmptyString => EmptyString
  | String.String c s => if Ascii.eqb c Ascii.zero then EmptyString else String.String c (c_string s)
  end.

Section InToto.
Context `{D : Disk} `{IC : InTotoCrates} `{G : InTotoGo}.

(** ** [verifyGo] *)

(** The loop over the key files: each key under its id. *)
Fixpoint go_keys (pubKeyPaths : list string) (s : Process) (layoutKeys : gmap string GoKey) :
    string + gmap string GoKey :=
  match pubKeyPaths with
  | [] => inr layoutKeys
  | p :: ps =>
      match LoadKeyDefaults p s with
      | None => inl "Error:: invalid key"
      | Some pubKey => go_keys ps s (<[KeyID pubKey := pubKey]> layoutKeys)
      end
  end.

(** [os.Open] and [io.ReadAll], relative to the working directory. *)
Definition go_read (p : string) (s : Process) : option bytes :=
  match fs_read (path_push (ps_cwd s) p) (ps_fs s) with
  | (_, Ok b) => Some b
  | _ => None
  end.

(** The loop over the intermediate certificates. *)
Fixpoint go_intermediates (paths : list string) (s : Process) : string + list bytes :=
  match paths with
  | [] => inr []
  | p :: ps =>
      match go_read p s with
      | None => inl "Error:: failed to open intermediate"
      | Some pemBytes =>
          match go_intermediates ps s with
          | inl e => inl e
          | inr l => inr (pemBytes :: l)
          end
      end
  end.

Definition verifyGo (layoutPath : string) (pubKeyPaths intermediatePaths : list string) (linkDir : string)
    (lineNormalizationInt : Z) (s : Process) : Process * string :=
  match LoadMetadata layoutPath s with
  | None => (s, "Error:: failed to load layout")
  | Some layoutMb =>
      match go_keys pubKeyPaths s ∅ with
      | inl e => (s, e)
      | inr layoutKeys =>
          match go_intermediates intermediatePaths s with
          | inl e => (s, e)
          | inr intermediatePems =>
              let lineNormalization := negb (lineNormalizationInt =? 0) in
              match InTotoVerify layoutMb layoutKeys linkDir "" ∅ intermediatePems lineNormalization s with
              | (s', None) => (s', "Error:: inspection failed")
              | (s', Some summaryLink) => (s', default "Error:: json failed" (json_Marshal summaryLink))
              end
          end
      end
  end.

Definition on_ps {A} : st Fs anyhow A -> st Process anyhow A := st_on ps_fs set_ps_fs.

(** [get_file_path]. *)
Definition get_file_path (tempdir relative_file_path : string) : string * string :=
  let abs_path := path_clean (tempdir +:+ "/" +:+ relative_file_path) in
  (abs_path, (default (abs_path, "") (rsplit_once slash abs_path)).1).

(** The loop that puts the files. *)
Fixpoint put_files (tempdir : string) (l : list (string * string)) : st Fs anyhow (list string) :=
  match l with
  | [] => mret []
  | (relative_path, content_base64) :: l =>
      let '(file_path, dir) := get_file_path tempdir relative_path in
      create_dir_all dir;;
      fs_write file_path [];;
      bytes ← st_lift (ok_or "base64" (it_base64_decode content_base64));
      fs_write file_path bytes;;
      file_paths ← put_files tempdir l;
      mret (file_path :: file_paths)
  end.

(** The expiration time of the layout. *)
Definition layout_expires (content : bytes) : outcome anyhow Z :=
  envelope ← ok_or "json" (it_json_from_slice content);
  let layout_base64 := default VNull (value_get "payload" envelope) in
  let payload_type := default VNull (value_get "payloadType" envelope) in
  (if match payload_type with VString t => String.eqb t "application/vnd.in-toto+json" | _ => false end
   then Ok tt else Err "Unsupported payload type, only support `application/vnd.in-toto+json` now");;
  layout ← match layout_base64 with
           | VString inner => ok_or "base64" (it_base64_decode inner)
           | _ => Err "Unexpected payload, expected a base64 encoded string"
           end;
  layout ← ok_or "parse layout" (it_json_from_slice layout);
  expire_str ← ok_or "failed to get expired time" (as_str (default VNull (value_get "expires" layout)));
  ok_or "time" (datetime_parse expire_str).

(** [env::set_current_dir]. *)
Definition set_current_dir (p : string) : st Process anyhow unit := fun s =>
  if is_dir (ps_fs s) (resolve p) then ({| ps_fs := ps_fs s; ps_cwd := p |}, Ok tt) else (s, Err "io").

(** [shim::verify]. *)
Definition shim_verify (layout_path : string) (pub_key_paths intermediate_paths : list string) (link_dir : string)
    (line_normalization : bool) : st Process anyhow unit := fun s =>
  let line_normalization_c := if line_normalization then 1 else 0 in
  let '(s', result_buf) := verifyGo layout_path pub_key_paths intermediate_paths link_dir line_normalization_c s in
  match from_utf8 (str_bytes (c_string result_buf)) with
  | None => (s', Err "utf8")
  | Some res => if String.prefix "Error::" res then (s', Err res) else (s', Ok tt)
  end.

(** The verification, in the temporary directory, and the way back. *)
Definition verify_in (cwd tempdir layout_path : string) (pub_key_paths : list string) (line_normalization : bool) :
    st Process anyhow unit :=
  set_current_dir tempdir;;
  (fun s => match shim_verify layout_path pub_key_paths [] "" line_normalization s with
            | (s', Err e) => (set_current_dir cwd;; st_err e) s'
            | r => r
            end);;
  set_current_dir cwd.

(** What happens in the temporary directory. *)
Definition in_toto_body (payload : Provenance) (tempdir : string) : st Process anyhow (list ReferenceValue) :=
  file_paths ← on_ps (put_files tempdir (pv_files payload));
  layout_path ← st_lift (ok_or "Layout file not found." (List.find (ends_with ".layout") file_paths));
  let pub_key_paths := List.filter (ends_with ".pub") file_paths in
  cwd ← st_gets ps_cwd;
  content ← on_ps (fs_read layout_path);
  _ ← st_lift (layout_expires content);
  verify_in cwd tempdir layout_path pub_key_paths (pv_line_normalization payload);;
  mret [].

(** [InTotoExtractor::verify_and_extract]; [name] is the random name of the
    temporary directory. *)
Definition in_toto_verify_and_extract (name : string) (provenance : string) : st Process anyhow (list ReferenceValue) :=
  payload ← st_lift (ok_or "json" (provenance_from_str provenance));
  if negb (String.eqb (pv_version payload) INTOTO_VERSION) then st_err "Version unmatched!"
  else with_tempdir ps_fs set_ps_fs temp_dir name (in_toto_body payload).
End InToto.
