(* ===== verification/InTotoProofs.v ===== *)
(** * Theorems on the in-toto extractor

    What the extraction leaves behind: nothing but what the inspections of the
    layout did, unless a file name of the message leads out of the temporary
    directory. *)
From S2P Require Import Prelude Types Text Fs Json Rvps InToto.

#[local] Arguments String.append !_ _ / : simpl nomatch.

(** ** Paths *)
Lemma resolve_step_plain_all acc c :
  Forall (fun x => plain_component x = true) acc -> no_char slash c = true ->
  Forall (fun x => plain_component x = true) (resolve_step acc c).
Proof.
  intros Ha Hc. unfold resolve_step.
  destruct (String.eqb c "") eqn:E1; [done|]. destruct (String.eqb c ".") eqn:E2; [done|].
  destruct (String.eqb c "..") eqn:E3; [now apply Forall_take|].
  apply Forall_app. split; [done|]. repeat constructor. unfold plain_component. now rewrite E1, E2, E3, Hc.
Qed.

Lemma resolve_plain p : Forall (fun x => plain_component x = true) (resolve p).
Proof.
  unfold resolve. pose proof (split_on_no_char slash p) as H. revert H.
  generalize (split_on slash p) as l. intros l Hl.
  assert (Hg : forall acc, Forall (fun x => plain_component x = true) acc ->
                 Forall (fun x => plain_component x = true) (foldl resolve_step acc l)); [|now apply Hg].
  induction Hl as [|c l Hc Hl IH]; intros acc Ha; cbn; [done|]. apply IH. now apply resolve_step_plain_all.
Qed.

Lemma rsplit_once_none c s : no_char c s = true -> rsplit_once c s = None.
Proof.
  induction s as [|c' s IH]; cbn; [done|]. intros [Hc Hs]%andb_prop. rewrite IH by done.
  apply negb_true_iff in Hc. now rewrite Hc.
Qed.

Lemma rsplit_once_app c a b : no_char c b = true -> rsplit_once c (a +:+ String.String c b) = Some (a, b).
Proof.
  intros Hb. induction a as [|c' a IH]; cbn.
  - now rewrite (rsplit_once_none c b Hb), Ascii.eqb_refl.
  - now rewrite IH.
Qed.

(** The absolute path with given components. *)
Definition abs_of (l : list string) : string := String.String slash (join_with slash l).

Lemma join_snoc l x : l <> [] -> join_with slash (l ++ [x]) = join_with slash l +:+ String.String slash x.
Proof.
  induction l as [|y l IH]; [done|]. intros _. destruct l as [|z l]; [done|].
  change (join_with slash ((y :: z :: l) ++ [x])) with (y +:+ String.String slash (join_with slash ((z :: l) ++ [x]))).
  rewrite IH by done. change (join_with slash (y :: z :: l)) with (y +:+ String.String slash (join_with slash (z :: l))).
  now rewrite app_string_assoc.
Qed.

(** The path of the directory of a path. *)
Definition abs_parent (l : list string) : string := match l with [] => "" | _ => abs_of l end.

Lemma abs_snoc l x : abs_of (l ++ [x]) = abs_parent l +:+ String.String slash x.
Proof.
  unfold abs_of, abs_parent. destruct l as [|y l]; [done|].
  now rewrite join_snoc by done.
Qed.

Lemma resolve_abs l : Forall (fun x => plain_component x = true) l -> resolve (abs_of l) = l.
Proof.
  induction l as [|x l IH] using rev_ind; intros Hl; [done|]. apply Forall_app in Hl as [Hl Hx].
  apply Forall_inv in Hx. rewrite abs_snoc, resolve_snoc by done. f_equal.
  unfold abs_parent. destruct l; [done|]. now apply IH.
Qed.

Lemma split_on_sep c p q : split_on c (p +:+ String.String c q) = split_on c p ++ split_on c q.
Proof.
  induction p as [|a p IH]; cbn; [now rewrite Ascii.eqb_refl|]. rewrite IH.
  destruct (Ascii.eqb c a); [done|]. now destruct (split_on_cons c p) as (x & l & ->).
Qed.

(** A path without a parent component leads down. *)
Definition no_parent (p : string) : Prop := ".." ∉ split_on slash p.

Lemma resolve_down p q : no_parent q -> exists r, resolve (p +:+ String.String slash q) = resolve p ++ r.
Proof.
  unfold no_parent, resolve. rewrite split_on_sep, foldl_app. generalize (foldl resolve_step [] (split_on slash p)) as acc.
  induction (split_on slash q) as [|c l IH]; intros acc Hq; cbn; [exists []; now rewrite app_nil_r|].
  apply not_elem_of_cons in Hq as [Hc Hl]. unfold resolve_step at 2.
  destruct (String.eqb c ""); [now apply IH|]. destruct (String.eqb c "."); [now apply IH|].
  destruct (String.eqb_spec c ".."); [congruence|].
  destruct (IH (acc ++ [c]) Hl) as [r Hr]. exists (c :: r). now rewrite Hr, <- app_assoc.
Qed.

(** ** File operations below a directory *)
Definition dir_chain (q : list string) (fs : Fs) : Prop := forall n, is_dir fs (take n q) = true.

Section InTotoProofs.
Context `{D : Disk} `{IC : InTotoCrates} `{G : InTotoGo}.

Lemma dir_chain_changes q fs fs' :
  dir_chain q fs -> is_dir fs' q = true -> changes_below q fs fs' -> dir_chain q fs'.
Proof.
  intros Hq Hd Hc n. destruct (decide (length q <= n)%nat); [now rewrite take_ge by lia|].
  destruct (Hc (take n q)) as [_ ->]; [|done]. unfold below. rewrite take_take. intros E.
  apply (f_equal length) in E. rewrite length_take in E. lia.
Qed.

Lemma create_dir_all_below q d k fs fs' r :
  dir_chain q fs -> resolve d = take k q \/ (exists x, resolve d = q ++ x) -> create_dir_all d fs = (fs', r) ->
  changes_below q fs fs' /\ dir_chain q fs' /\ r <> Panic.
Proof.
  intros Hq Hd. unfold create_dir_all. destruct (existsb _ _); [now intros [= <- <-]|].
  assert (Hadd : forall n, changes_below q fs (add_dirs (take n (resolve d)) fs) /\
    dir_chain q (add_dirs (take n (resolve d)) fs)).
  { intros n. set (fs1 := add_dirs _ _).
    assert (Hup : forall p, is_dir fs p = true -> is_dir fs1 p = true).
    { intros p. rewrite !is_dir_spec. subst fs1. cbn. set_solver. }
    assert (Hc : changes_below q fs fs1).
    { intros p Hp. split; [done|]. apply eq_iff_eq_true. split; [|apply Hup]. rewrite !is_dir_spec.
      change (dirs fs1) with (dirs fs ∪ list_to_set (prefixes (take n (resolve d)))).
      intros [->|[Hin|Hin]%elem_of_union]; [now left|now right|].
      apply elem_of_list_to_set, elem_of_prefixes in Hin as [m ->]. rewrite take_take in *. rewrite <- is_dir_spec.
      destruct Hd as [E|[x E]]; rewrite E in *; [rewrite take_take; apply Hq|].
      destruct (decide (Nat.min m n <= length q)%nat); [rewrite take_app_le by done; apply Hq|].
      destruct Hp. unfold below. rewrite take_take, Nat.min_l by lia. now rewrite take_app_length. }
    split; [done|]. apply (dir_chain_changes q fs); [done| |done].
    specialize (Hq (length q)). rewrite take_ge in Hq by lia. now apply Hup. }
  destruct (disk_fault _ _); intros [= <- <-].
  - destruct (Hadd (Nat.min (made (resolve d)) (pred (length (resolve d))))). done.
  - destruct (Hadd (length (resolve d))) as [H1 H2]. now rewrite take_ge in H1, H2.
Qed.

Lemma fs_write_below q p x data fs fs' r :
  resolve p = q ++ x -> dir_chain q fs -> fs_write p data fs = (fs', r) ->
  changes_below q fs fs' /\ dir_chain q fs' /\ r <> Panic.
Proof.
  intros Hp Hq E. destruct (fs_write_touches _ _ _ _ _ E) as [Hd Hf].
  assert (Hdir : forall y, is_dir fs' y = is_dir fs y) by (intros y; unfold is_dir; now rewrite Hd).
  split; [|split].
  - intros y Hy. split; [|apply Hdir]. apply Hf. intros ->. apply Hy. rewrite Hp. apply below_app.
  - intros n. rewrite Hdir. apply Hq.
  - intros ->. now destruct (fs_write_fail _ _ _ _ _ E eq_refl).
Qed.

Lemma get_file_path_down (Spec : InTotoSpec IC) p rel f d :
  is_absolute p = true -> resolve p <> [] -> no_parent rel -> get_file_path p rel = (f, d) ->
  (exists x, resolve f = resolve p ++ x) /\
  exists k, resolve d = take k (resolve p) \/ exists y, resolve d = resolve p ++ y.
Proof.
  intros Ha Hp Hr. unfold get_file_path.
  rewrite path_clean_spec by (destruct p; [done|exact Ha]).
  change ("/" +:+ rel) with (String.String slash rel). destruct (resolve_down p rel Hr) as [x Hx].
  fold (abs_of (resolve (p +:+ String.String slash rel))). pose proof (resolve_plain (p +:+ String.String slash rel)) as Hpl.
  rewrite Hx in *. intros [<- <-]%pair_equal_spec. split; [exists x; now apply resolve_abs|].
  destruct (exists_last (l := resolve p ++ x)) as (l' & b & E); [now destruct (resolve p)|]. rewrite E in *.
  apply Forall_app in Hpl as [Hl' Hb]. apply Forall_inv in Hb.
  rewrite abs_snoc, rsplit_once_app by now apply plain_no_slash. cbn [from_option id fst].
  assert (Hl : resolve (abs_parent l') = l').
  { unfold abs_parent. destruct l'; [done|]. now apply resolve_abs. }
  rewrite Hl. destruct x as [|y x _] using rev_ind.
  - exists (length l'). left. rewrite app_nil_r in E. now rewrite E, take_app_length.
  - exists 0%nat. right. exists x. rewrite app_assoc in E. now apply app_inj_tail in E as [<- _].
Qed.

Lemma put_files_below (Spec : InTotoSpec IC) p l fs fs' r :
  is_absolute p = true -> resolve p <> [] -> Forall (fun kv => no_parent kv.1) l -> dir_chain (resolve p) fs ->
  put_files p l fs = (fs', r) -> changes_below (resolve p) fs fs' /\ r <> Panic.
Proof.
  intros Ha Hp Hl. revert fs fs' r. induction Hl as [|[rel b64] l Hr Hl IH]; intros fs fs' r Hq; cbn [put_files].
  { intros [= <- <-]. split; [apply changes_below_refl|done]. }
  destruct (get_file_path p rel) as [f d] eqn:E. destruct (get_file_path_down _ _ _ _ _ Ha Hp Hr E) as [[x Hf] (k & Hd)].
  unfold mbind, st_bind, st_lift.
  destruct (create_dir_all d fs) as [fs1 r1] eqn:E1.
  destruct (create_dir_all_below _ _ k _ _ _ Hq Hd E1) as (C1 & Q1 & P1).
  destruct r1; [|intros [= <- <-]; done..].
  destruct (fs_write f [] fs1) as [fs2 r2] eqn:E2. destruct (fs_write_below _ _ _ _ _ _ _ Hf Q1 E2) as (C2 & Q2 & P2).
  pose proof (changes_below_trans _ _ _ _ C1 C2) as C12. destruct r2; [|intros [= <- <-]; done..].
  destruct (it_base64_decode b64) as [data|]; cbn [ok_or]; [|intros [= <- <-]; done].
  destruct (fs_write f data fs2) as [fs3 r3] eqn:E3. destruct (fs_write_below _ _ _ _ _ _ _ Hf Q2 E3) as (C3 & Q3 & P3).
  pose proof (changes_below_trans _ _ _ _ C12 C3) as C123. destruct r3; [|intros [= <- <-]; done..].
  destruct (put_files p l fs3) as [fs4 r4] eqn:E4. destruct (IH _ _ _ Q3 E4) as (C4 & P4).
  pose proof (changes_below_trans _ _ _ _ C123 C4). destruct r4; intros [= <- <-]; done.
Qed.

Lemma tree_chain fs q : fs_tree fs -> is_dir fs q = true -> dir_chain q fs.
Proof.
  intros Ht. induction q as [|x q IH] using rev_ind; intros Hd n; [now rewrite take_nil|].
  destruct (decide (length (q ++ [x]) <= n)%nat); [now rewrite take_ge|].
  rewrite length_app in *. cbn in *. rewrite take_app_le by lia. apply IH.
  apply is_dir_spec in Hd as [E|Hd]; [now destruct q|]. apply (Ht q x). now right.
Qed.

Lemma tempdir_chain fs d x :
  fs_tree fs -> is_dir fs d = true -> dir_chain (d ++ [x]) {| files := files fs; dirs := {[ d ++ [x] ]} ∪ dirs fs |}.
Proof.
  intros Ht Hd n. apply is_dir_spec. cbn [dirs]. destruct (decide (length (d ++ [x]) <= n)%nat).
  - right. rewrite take_ge by done. set_solver.
  - rewrite length_app in *. cbn in *. rewrite take_app_le by lia.
    pose proof (tree_chain fs d Ht Hd n) as [->|]%is_dir_spec; set_solver.
Qed.

Lemma push_absolute p q : is_absolute p = true -> plain_component q = true -> is_absolute (path_push p q) = true.
Proof.
  intros Hp Hq. unfold path_push. rewrite (plain_not_absolute _ Hq). destruct p as [|c p]; [done|].
  destruct (last_char _) eqn:E; [case_match; done|]. now apply last_char_None in E.
Qed.

(** The working directory after the work in the temporary directory. *)
Lemma set_current_dir_spec p s s' r :
  set_current_dir p s = (s', r) ->
  ps_fs s' = ps_fs s /\ r <> Panic /\
  (is_dir (ps_fs s) (resolve p) = true -> ps_cwd s' = p /\ r = Ok tt) /\ (is_ok r = false -> s' = s).
Proof. unfold set_current_dir. destruct (is_dir _ _); intros [= <- <-]; naive_solver. Qed.

(** What the library did to the process when it was called, if it was: on a
    layout and keys loaded from files, with no links, parameters or intermediate
    certificates. *)
Definition library_ran (s1 s2 : Process) : Prop :=
  s2 = s1 \/ exists lp layout ks keys ln r,
    LoadMetadata lp s1 = Some layout /\ go_keys ks s1 ∅ = inr keys /\
    InTotoVerify layout keys "" "" ∅ [] ln s1 = (s2, r).

Lemma shim_verify_spec lp ks ln s s' r :
  shim_verify lp ks [] "" ln s = (s', r) -> library_ran s s' /\ r <> Panic.
Proof.
  unfold shim_verify. destruct (verifyGo _ _ _ _ _ s) as [s1 res] eqn:E. intros H.
  assert (s' = s1 /\ r <> Panic) as [-> Hp] by (destruct (from_utf8 _); [case_match|]; now injection H as <- <-).
  split; [|done]. unfold verifyGo in E. destruct (LoadMetadata lp s) as [md|] eqn:El; [|left; now injection E as <- _].
  destruct (go_keys ks s ∅) as [e|keys] eqn:Ek; [left; now injection E as <- _|]. cbn in E.
  destruct (InTotoVerify _ _ _ _ _ _ _ s) as [s2 o] eqn:Ev. right. exists lp, md, ks, keys. do 2 eexists.
  do 2 (split; [done|]). destruct o; injection E as <- _; exact Ev.
Qed.

Lemma verify_in_spec p lp ks ln s s' r :
  verify_in (ps_cwd s) p lp ks ln s = (s', r) ->
  r <> Panic /\ exists s2, library_ran {| ps_fs := ps_fs s; ps_cwd := p |} s2 /\ ps_fs s' = ps_fs s2 /\
    (is_dir (ps_fs s') (resolve (ps_cwd s)) = true -> ps_cwd s' = ps_cwd s).
Proof.
  unfold verify_in, mbind, st_bind, st_err, set_current_dir at 1.
  destruct (is_dir (ps_fs s) (resolve p)); cbn [ps_fs ps_cwd].
  2: { intros [= <- <-]. split; [done|]. eexists. split; [now left|]. done. }
  destruct (shim_verify _ _ _ _ _ _) as [s2 r2] eqn:E2. apply shim_verify_spec in E2 as [Hl P2].
  destruct (set_current_dir (ps_cwd s) s2) as [s3 r3] eqn:E3.
  destruct (set_current_dir_spec _ _ _ _ E3) as (F3 & P3 & D3 & _). rewrite <- F3 in D3.
  destruct r2; [rewrite E3| |done]; destruct r3; intros E; simplify_eq/=;
    (split; [done|]); exists s2; (split; [done|]); (split; [done|]); intros Hd; now apply D3.
Qed.

Lemma layout_expires_total content : layout_expires content <> Panic.
Proof.
  unfold layout_expires. intros H.
  repeat (apply bind_Panic in H as [H|(? & _ & H)]); repeat (case_match; try done); now apply ok_or_Panic in H.
Qed.

Lemma in_toto_body_spec payload p s s' r :
  in_toto_body payload p s = (s', r) ->
  exists fs1 r1 s2, put_files p (pv_files payload) (ps_fs s) = (fs1, r1) /\
    (r1 <> Panic -> r <> Panic) /\ (forall rvs, r = Ok rvs -> rvs = []) /\
    library_ran {| ps_fs := fs1; ps_cwd := p |} s2 /\ ps_fs s' = ps_fs s2 /\
    (is_dir (ps_fs s') (resolve (ps_cwd s)) = true -> ps_cwd s' = ps_cwd s).
Proof.
  unfold in_toto_body, mbind, st_bind, st_lift, st_gets, on_ps, st_on.
  destruct (put_files _ _ _) as [fs1 r1] eqn:E1. intros H.
  exists fs1, r1. destruct r1 as [fps|e|]; [|injection H as <- <-; eexists; (split; [done|]);
    (split; [done|]); (split; [done|]); (split; [now left|]); done..].
  assert (Hstop : forall r0 : outcome anyhow (list ReferenceValue), r0 <> Panic -> is_ok r0 = false ->
    (set_ps_fs fs1 s, r0) = (s', r) -> exists s2, Ok (E := anyhow) fps = Ok fps /\ (Ok (E := anyhow) fps <> Panic -> r <> Panic) /\
      (forall rvs, r = Ok rvs -> rvs = []) /\ library_ran {| ps_fs := fs1; ps_cwd := p |} s2 /\ ps_fs s' = ps_fs s2 /\
      (is_dir (ps_fs s') (resolve (ps_cwd s)) = true -> ps_cwd s' = ps_cwd s)).
  { intros r0 Hp Hr [= <- <-]. exists {| ps_fs := fs1; ps_cwd := p |}. split; [done|]. split; [done|].
    split; [now intros rvs ->|]. split; [now left|done]. }
  enough (exists s2, Ok (E := anyhow) fps = Ok fps /\ (Ok (E := anyhow) fps <> Panic -> r <> Panic) /\
      (forall rvs, r = Ok rvs -> rvs = []) /\ library_ran {| ps_fs := fs1; ps_cwd := p |} s2 /\ ps_fs s' = ps_fs s2 /\
      (is_dir (ps_fs s') (resolve (ps_cwd s)) = true -> ps_cwd s' = ps_cwd s)) as (s2 & _ & Hs2) by (exists s2; now split).
  destruct (List.find _ fps) as [lp|]; cbn [ok_or] in H; [|now apply Hstop in H].
  destruct (fs_read lp _) as [fs2 r2] eqn:E2. apply fs_read_same in E2 as [-> H2].
  destruct r2 as [content|e|]; [|now apply Hstop in H|done].
  pose proof (layout_expires_total content) as Hl.
  destruct (layout_expires content) as [t|e|]; [|now apply Hstop in H|done].
  destruct (verify_in _ _ _ _ _ _) as [s3 r3] eqn:E3. apply verify_in_spec in E3 as (P3 & s2 & L3 & F3 & D3).
  assert (Hs : s' = s3) by (destruct r3; now injection H as <- _). subst s'. cbn [set_ps_fs ps_fs ps_cwd] in *.
  exists s2. split; [done|]. split; [destruct r3; injection H as <-; done|].
  split; [destruct r3; injection H as <-; naive_solver|]. done.
Qed.

(** ** Properties *)
Section Message.
Context (Spec : InTotoSpec IC) (name provenance : string) (s : Process).
Context (Ht : fs_tree (ps_fs s)) (Ha : is_absolute temp_dir = true) (Hn : plain_component name = true).
Context (Hr : forall q, disk_fault "rmdir" q = false).
Context (Hp : forall payload, provenance_from_str provenance = Some payload -> Forall (fun kv => no_parent kv.1) (pv_files payload)).

(** The temporary directory. *)
Definition work_dir : list string := resolve temp_dir ++ [name].

Lemma in_toto_effects s' r :
  in_toto_verify_and_extract name provenance s = (s', r) ->
  r <> Panic /\ (forall rvs, r = Ok rvs -> rvs = []) /\
  (s' = s /\ is_ok r = false \/
   is_dir (ps_fs s) work_dir = false /\ files (ps_fs s) !! work_dir = None /\
   exists s1 s2, resolve (ps_cwd s1) = work_dir /\ changes_below work_dir (ps_fs s) (ps_fs s1) /\
     library_ran s1 s2 /\ changes_below work_dir (ps_fs s2) (ps_fs s') /\
     (forall p, below work_dir p -> files (ps_fs s') !! p = None /\ is_dir (ps_fs s') p = false) /\
     (is_dir (ps_fs s') (resolve (ps_cwd s)) = true -> ps_cwd s' = ps_cwd s)).
Proof.
  unfold in_toto_verify_and_extract, mbind, st_bind, st_lift.
  destruct (provenance_from_str provenance) as [payload|]; cbn [ok_or]; [|intros [= <- <-]; naive_solver].
  specialize (Hp _ eq_refl). destruct (negb _); [intros [= <- <-]; naive_solver|]. unfold with_tempdir.
  destruct (tempdir_in temp_dir name (ps_fs s)) as [fs0 r0] eqn:E0.
  destruct (tempdir_in_spec _ _ _ _ _ Hn E0) as (Hp0 & Hok & Hfail). fold work_dir in Hok.
  destruct r0 as [d|e|]; [|intros [= <- <-]; rewrite Hfail by done; destruct s; naive_solver|done].
  destruct (Hok d eq_refl) as (Hd & Hdp & Hpar & Hnd & Hnf & ->).
  destruct (in_toto_body payload d _) as [s3 r3] eqn:E3. intros [= <- <-].
  apply in_toto_body_spec in E3 as (fs1 & r1 & s2 & Hput & Hpan & Hrv & Hl & Hfs & Hcw). cbn [set_ps_fs ps_fs ps_cwd] in *.
  assert (Hne : work_dir <> []) by (unfold work_dir; now destruct (resolve temp_dir)).
  assert (Hab : is_absolute d = true) by (subst d; now apply push_absolute).
  assert (Hch : dir_chain (resolve d) {| files := files (ps_fs s); dirs := {[work_dir]} ∪ dirs (ps_fs s) |})
    by (rewrite Hd; now apply tempdir_chain).
  destruct (put_files_below Spec d _ _ _ _ Hab ltac:(congruence) Hp Hch Hput) as [Hc Hp1]. rewrite Hd in Hc.
  destruct (drop_tempdir_spec (ps_fs s3) work_dir d Hne Hd (Hr _)) as [Hdrop Hgone].
  split; [auto|]. split; [done|]. right. split; [done|]. split; [done|].
  exists {| ps_fs := fs1; ps_cwd := d |}, s2. split; [done|]. split; [|split; [done|split; [|split; [done|]]]].
  - eapply changes_below_trans; [apply tempdir_changes|exact Hc].
  - now rewrite <- Hfs.
  - intros Hcd. apply Hcw. destruct (decide (below work_dir (resolve (ps_cwd s)))) as [Hb|Hb].
    + destruct (Hgone _ Hb) as [_ E]. congruence.
    + destruct (Hdrop _ Hb) as [_ E]. congruence.
Qed.

(** C38: all that an in-toto message leaves behind is what the inspections of
    its layout did.  If the paths of the message have no parent component, then
    whatever the outcome, either nothing has changed, or the extractor has worked
    in its temporary directory only, called the verification library at most
    once, with that directory as the working directory, removed the directory
    with all below it, and left everything else as the library left it; the
    process is back in its working directory if that still exists.  The extractor
    does not panic, and a message that is verified yields no reference value. *)
Theorem in_toto_confined s' r :
  in_toto_verify_and_extract name provenance s = (s', r) ->
  r <> Panic /\ (forall rvs, r = Ok rvs -> rvs = []) /\
  (s' = s /\ is_ok r = false \/
   exists s1 s2, resolve (ps_cwd s1) = work_dir /\ changes_below work_dir (ps_fs s) (ps_fs s1) /\
     library_ran s1 s2 /\ changes_below work_dir (ps_fs s2) (ps_fs s') /\
     (forall p, below work_dir p -> files (ps_fs s') !! p = None /\ is_dir (ps_fs s') p = false) /\
     (is_dir (ps_fs s') (resolve (ps_cwd s)) = true -> ps_cwd s' = ps_cwd s)).
Proof using All.
  intros (H1 & H2 & H3)%in_toto_effects. split; [done|]. split; [done|].
  destruct H3 as [H3|(_ & _ & H3)]; [now left|now right].
Qed.

(** With a layout whose inspections touch only the directory they run in, an
    in-toto message changes no file at all. *)
Theorem in_toto_restores s' r :
  (forall s1 s2, resolve (ps_cwd s1) = work_dir -> library_ran s1 s2 -> changes_below work_dir (ps_fs s1) (ps_fs s2)) ->
  in_toto_verify_and_extract name provenance s = (s', r) ->
  fs_equiv (ps_fs s) (ps_fs s').
Proof using All.
  intros Hin (_ & _ & H)%in_toto_effects. destruct H as [[-> _]|(Hnd & Hnf & s1 & s2 & Hc & C1 & L & C2 & Hg & _)]; [done|].
  pose proof (changes_below_trans _ _ _ _ (changes_below_trans _ _ _ _ C1 (Hin _ _ Hc L)) C2) as C.
  assert (Hne : work_dir <> []) by (unfold work_dir; now destruct (resolve temp_dir)).
  assert (Hb : forall x, below work_dir x -> files (ps_fs s) !! x = None /\ is_dir (ps_fs s) x = false).
  { intros x Hx. rewrite <- (take_drop (length work_dir) x), Hx.
    destruct (nothing_below (ps_fs s) work_dir (drop (length work_dir) x)) as [H1 H2]; try done.
    split; [done|]. apply not_true_iff_false. intros [E|E]%is_dir_spec; [|done]. now apply app_eq_nil in E as []. }
  split.
  - apply map_eq. intros x. destruct (decide (below work_dir x)) as [Hx|Hx]; [|now apply C].
    destruct (Hg x Hx) as [-> _], (Hb x Hx) as [-> _]. done.
  - intros x. destruct (decide (below work_dir x)) as [Hx|Hx]; [|now apply C].
    destruct (Hg x Hx) as [_ ->], (Hb x Hx) as [_ ->]. done.
Qed.
End Message.
End InTotoProofs.

(** ** Concrete runs *)
Module InTotoDemo.
#[export] Instance good_disk : Disk := {| disk_fault _ _ := false; made _ := 0%nat; written _ _ := None |}.

Definition envelope : Value :=
  VObject [("payloadType", VString "application/vnd.in-toto+json"); ("payload", VString "x")].

(** A message is the path of one file besides the layout. *)
#[export] Instance in_toto_crates : InTotoCrates := {|
  provenance_from_str s :=
    Some {| pv_version := "0.9"; pv_line_normalization := true; pv_files := [(s, "data"); ("demo.layout", "e")] |};
  it_base64_decode s := Some (str_bytes s);
  path_clean p := String.String slash (join_with slash (resolve p));
  it_json_from_slice b :=
    if bool_decide (b = str_bytes "e") then Some envelope else Some (VObject [("expires", VString "2030")]);
  datetime_parse _ := Some 0;
  temp_dir := "/tmp";
|}.

#[export] Instance in_toto_laws : InTotoSpec in_toto_crates.
Proof. now split. Qed.

(** Metadata are the names of files.  The inspection of the layout touches the
    file [/etc/x]; that of any other metadata does nothing. *)
Definition touched (s : Process) : Process := set_ps_fs (put ["etc"; "x"] [] (ps_fs s)) s.

#[export] Instance go : InTotoGo := {|
  Metadata := string;
  GoKey := string;
  KeyID k := k;
  LoadMetadata p _ := Some p;
  LoadKeyDefaults p _ := Some p;
  InTotoVerify layout keys _ _ _ _ _ s :=
    if bool_decide (is_Some (keys !! "/tmp/t1/owner.pub")) then (touched s, Some layout) else (s, Some layout);
  json_Marshal _ := Some "{}";
|}.

Definition ps0 : Process := {| ps_fs := {| files := ∅; dirs := {[ []; ["tmp"] ]} |}; ps_cwd := "/" |}.

Lemma ps0_tree : fs_tree (ps_fs ps0).
Proof.
  intros q x [[v Hv]|Hd]; [now apply (lookup_empty_Some (M := gmap (list string)) (q ++ [x]) v) in Hv|]. pose proof (pred_snoc q x) as Hq.
  apply elem_of_union in Hd as [E|E]; apply elem_of_singleton in E; rewrite E in Hq; cbn in Hq; now rewrite <- Hq.
Qed.

Lemma in_toto_confined_witness :
  exists s', in_toto_verify_and_extract "t1" "keys/a.pub" ps0 = (s', Ok []) /\
    files (ps_fs s') !! ["tmp"; "t1"; "keys"; "a.pub"] = None.
Proof.
  destruct (in_toto_verify_and_extract "t1" "keys/a.pub" ps0) as [s' r] eqn:E.
  assert (Hr : (in_toto_verify_and_extract "t1" "keys/a.pub" ps0).2 = Ok []) by (vm_compute; reflexivity).
  rewrite E in Hr. cbn in Hr. subst r. exists s'. split; [reflexivity|].
  destruct (in_toto_confined (D := good_disk) in_toto_laws "t1" "keys/a.pub" ps0 ps0_tree eq_refl eq_refl (fun _ => eq_refl)
    ltac:(intros payload [= <-]; repeat constructor; unfold no_parent; apply (bool_decide_eq_false_1 _); reflexivity)
    s' (Ok []) E) as (_ & _ & [[_ H]|(s1 & s2 & _ & _ & _ & _ & H & _)]); [discriminate H|].
  apply H. reflexivity.
Defined.

(** The keys a layout is verified with are those of its own message, and its
    inspections are run: whoever may send a message can have commands run, here
    one that creates [/etc/x]. *)
Theorem in_toto_runs_inspections :
  exists s', in_toto_verify_and_extract "t1" "owner.pub" ps0 = (s', Ok []) /\
    files (ps_fs ps0) !! ["etc"; "x"] = None /\ files (ps_fs s') !! ["etc"; "x"] = Some [].
Proof. eexists. split; [vm_compute; reflexivity|]. vm_compute. auto. Qed.

(** The in-toto extractor writes outside of its temporary directory.  A
    message whose file is named [../evil] is verified, and after that the file
    [/tmp/evil], outside of the temporary directory that has been removed, holds
    the content given in the message. *)
Theorem in_toto_escapes :
  exists s', in_toto_verify_and_extract "t1" "../evil" ps0 = (s', Ok []) /\
    files (ps_fs ps0) !! ["tmp"; "evil"] = None /\
    files (ps_fs s') !! ["tmp"; "evil"] = Some (str_bytes "data") /\
    is_dir (ps_fs s') ["tmp"; "t1"] = false.
Proof. eexists. split; [vm_compute; reflexivity|]. vm_compute. auto. Qed.
End InTotoDemo.
