(* ===== verification/Ita.v ===== *)
(** * Intel Trust Authority as the attestation service of the KBS

    [kbs/src/attestation/intel_trust_authority/mod.rs]: the evidence of a guest
    is turned into one request to the remote service, whose answer is a token
    that is verified before it is handed out; [generate_challenge] selects the
    hash algorithm of the guest.  The remote service is a parameter. *)
From S2P Require Import Prelude Types Text Fs Json Token Session Attestation AsService.

(** ** Constants *)
Definition SUPPORTED_HASH_ALGORITHMS_JSON_KEY : string := "supported-hash-algorithms".
Definition SELECTED_HASH_ALGORITHM_JSON_KEY : string := "selected-hash-algorithm".
Definition ERR_NO_TEE_ALGOS : string := "ITA: TEE does not support any hash algorithms".
Definition ERR_INVALID_TEE : string := "ITA: Unknown TEE specified".
Definition BASE_AS_ADDR : string := "/appraisal/v2/attest".
Definition AZURE_ADDR_SUFFIX : string := "/azure".
Definition TRUSTEE_USER_AGENT : string := "Confidential-containers-trustee".

(** ** Data *)
Record DcapTeeEvidence := {
  dcap_quote : string;
  dcap_runtime_data : string;
  dcap_user_data : option string;
  dcap_event_log : option string;
}.

Record AzItaTeeEvidence := {
  az_hcl_report : bytes;
  az_td_quote : bytes;
}.

Record ItaDevice := {
  dev_evidence : string;
  dev_gpu_nonce : string;
  dev_certificate : string;
  dev_arch : string;
}.

Record AttestReqData := {
  rq_policy_ids : list string;
  rq_policy_must_match : bool;
  rq_tdx : option DcapTeeEvidence;
  rq_sgx : option DcapTeeEvidence;
  rq_nvgpu : option ItaDevice;
}.

Record IntelTrustAuthorityConfig := {
  ita_base_url : string;
  ita_api_key : string;
  ita_certs_file : string;
  ita_allow_unmatched_policy : option bool;
  ita_policy_ids : list string;
}.

(** The request that is posted, and the answer. *)
Record AttestPost := {
  post_url : string;
  post_user_agent : string;
  post_content_type : string;
  post_accept : string;
  post_api_key : string;
  post_body : string;
}.

Record AttestReply := {
  reply_status : Z;
  reply_body : bytes;
}.

Class ItaCrates := {
  (** [serde_json::from_value] at the three kinds of evidence; a field that is
      skipped comes out empty *)
  dcap_from_value : Value -> option DcapTeeEvidence;
  az_ita_from_value : Value -> option AzItaTeeEvidence;
  nv_devices_from_value : Value -> option (list ItaDevice);
  (** [HclReport::new] with [var_data] *)
  hcl_report_var_data : bytes -> option bytes;
  (** [Sha512::digest] *)
  ita_sha512 : bytes -> bytes;
  (** [HashAlgorithm::as_ref] of [kbs_types] *)
  hash_algorithm_as_ref : HashAlgorithm -> string;
  (** [serde_json::to_string] of the request, and the two answers *)
  attest_req_to_string : AttestReqData -> option string;
  attest_resp_token : bytes -> option string;
  error_response_text : bytes -> option string;
  (** [reqwest]: the answer of the service, if there is one *)
  ita_post : AttestPost -> option AttestReply;
  (** [CARGO_PKG_NAME] and [CARGO_PKG_VERSION] *)
  cargo_pkg_name : string;
  cargo_pkg_version : string;
}.

Class ItaCratesSpec (C : ItaCrates) : Prop := {
  ita_sha512_length : forall b, len (ita_sha512 b) = 64;
}.

Section Ita.
Context `{D : Disk} `{TC : TokenCrates} `{KC : KbsCrates} `{IC : ItaCrates}.

Record IntelTrustAuthority := {
  ita_config : IntelTrustAuthorityConfig;
  ita_token_verifier : JwkAttestationTokenVerifier;
}.

(** [IntelTrustAuthority::new]. *)
Definition ita_new (config : IntelTrustAuthorityConfig) : st Fs anyhow IntelTrustAuthority :=
  token_verifier ← st_map_err (fun _ => "Failed to initialize token verifier")
    (jwk_verifier_new {| cfg_extra_teekey_paths := []; trusted_certs_paths := [];
                         cfg_trusted_jwk_sets := [ita_certs_file config]; cfg_insecure_key := true |});
  mret {| ita_config := config; ita_token_verifier := token_verifier |}.

(** [Value::to_string]. *)
Definition ita_value_text (v : Value) : string := default "" (value_to_string v).

Definition set_tdx (r : AttestReqData) (e : DcapTeeEvidence) : AttestReqData :=
  {| rq_policy_ids := rq_policy_ids r; rq_policy_must_match := rq_policy_must_match r;
     rq_tdx := Some e; rq_sgx := rq_sgx r; rq_nvgpu := rq_nvgpu r |}.
Definition set_sgx (r : AttestReqData) (e : DcapTeeEvidence) : AttestReqData :=
  {| rq_policy_ids := rq_policy_ids r; rq_policy_must_match := rq_policy_must_match r;
     rq_tdx := rq_tdx r; rq_sgx := Some e; rq_nvgpu := rq_nvgpu r |}.
Definition set_nvgpu (r : AttestReqData) (d : ItaDevice) : AttestReqData :=
  {| rq_policy_ids := rq_policy_ids r; rq_policy_must_match := rq_policy_must_match r;
     rq_tdx := rq_tdx r; rq_sgx := rq_sgx r; rq_nvgpu := Some d |}.

(** The evidence of a TD of Azure, of a TD or an enclave, and of the first GPU. *)
Definition az_dcap_evidence (e : IndependentEvidence) : outcome anyhow DcapTeeEvidence :=
  evidence ← ok_or "Failed to deserialize TEE Evidence" (az_ita_from_value (tee_evidence e));
  var_data ← ok_or "hcl report" (hcl_report_var_data (az_hcl_report evidence));
  Ok {| dcap_quote := base64_standard_encode (az_td_quote evidence);
        dcap_runtime_data := base64_standard_encode var_data;
        dcap_user_data := Some (base64_standard_encode (str_bytes (ita_value_text (runtime_data e))));
        dcap_event_log := None |}.

Definition dcap_evidence (e : IndependentEvidence) : outcome anyhow DcapTeeEvidence :=
  evidence ← ok_or "Failed to deserialize TEE Evidence" (dcap_from_value (tee_evidence e));
  Ok {| dcap_quote := dcap_quote evidence;
        dcap_runtime_data := base64_standard_encode (str_bytes (ita_value_text (runtime_data e)));
        dcap_user_data := dcap_user_data evidence;
        dcap_event_log := dcap_event_log evidence |}.

Definition gpu_evidence (e : IndependentEvidence) : outcome anyhow (option ItaDevice) :=
  devices ← ok_or "Failed to deserialize TEE Evidence" (nv_devices_from_value (tee_evidence e));
  match devices with
  | [] => Ok None
  | nvgpu :: _ =>
      let runtime_data_hash := ita_sha512 (str_bytes (ita_value_text (runtime_data e))) in
      h ← slice runtime_data_hash 0 32;
      Ok (Some {| dev_evidence := base64_standard_encode (str_bytes (dev_evidence nvgpu));
                  dev_gpu_nonce := hex_encode h;
                  dev_certificate := dev_certificate nvgpu; dev_arch := dev_arch nvgpu |})
  end.

(** One round of the loop of [verify], over the request and the URL. *)
Definition ita_step (acc : AttestReqData * string) (e : IndependentEvidence) :
    outcome anyhow (AttestReqData * string) :=
  let '(req_data, att_url) := acc in
  match tee e with
  | AzTdxVtpm =>
      let att_url := att_url +:+ AZURE_ADDR_SUFFIX in
      evidence ← az_dcap_evidence e; Ok (set_tdx req_data evidence, att_url)
  | Tdx => evidence ← dcap_evidence e; Ok (set_tdx req_data evidence, att_url)
  | Sgx => evidence ← dcap_evidence e; Ok (set_sgx req_data evidence, att_url)
  | Nvidia =>
      nvgpu ← gpu_evidence e;
      Ok (match nvgpu with Some d => set_nvgpu req_data d | None => req_data end, att_url)
  | _ => Err "Intel Trust Authority: TEE is not supported."
  end.

Fixpoint ita_requests (acc : AttestReqData * string) (l : list IndependentEvidence) :
    outcome anyhow (AttestReqData * string) :=
  match l with
  | [] => Ok acc
  | e :: l => acc ← ita_step acc e; ita_requests acc l
  end.

(** The request before the loop. *)
Definition initial_request (config : IntelTrustAuthorityConfig) : AttestReqData :=
  {| rq_policy_ids := ita_policy_ids config;
     rq_policy_must_match :=
       match ita_policy_ids config with
       | [] => false
       | _ => negb (default false (ita_allow_unmatched_policy config))
       end;
     rq_tdx := None; rq_sgx := None; rq_nvgpu := None |}.

Definition attest_post (config : IntelTrustAuthorityConfig) (att_url body : string) : AttestPost :=
  {| post_url := att_url;
     post_user_agent := TRUSTEE_USER_AGENT +:+ " " +:+ cargo_pkg_name +:+ "/" +:+ cargo_pkg_version;
     post_content_type := "application/json"; post_accept := "application/json";
     post_api_key := ita_api_key config; post_body := body |}.

(** [verify]. *)
Definition ita_verify (ita : IntelTrustAuthority) (now : Z) (evidence_to_verify : list IndependentEvidence) :
    outcome anyhow string :=
  r ← ita_requests (initial_request (ita_config ita), ita_base_url (ita_config ita) +:+ BASE_AS_ADDR)
        evidence_to_verify;
  let '(req_data, att_url) := r in
  attest_req_body ← ok_or "Failed to serialize attestation request body" (attest_req_to_string req_data);
  resp ← ok_or "Failed to POST attestation HTTP request" (ita_post (attest_post (ita_config ita) att_url attest_req_body));
  if negb (reply_status resp =? 200) then
    match error_response_text (reply_body resp) with
    | Some _ => Err "Attestation request failed: response status, message"
    | None => Err "Attestation request failed: response status"
    end
  else
    token ← ok_or "Failed to deserialize attestation response" (attest_resp_token (reply_body resp));
    map_err (fun _ => "Failed to verify attestation token") (jwk_verify (ita_token_verifier ita) now token);;
    Ok token.

(** The name of an algorithm, in lower case. *)
Definition algorithm_text (a : HashAlgorithm) : string := to_lowercase (hash_algorithm_as_ref a).

(** The choice of the algorithm: the last part of [generate_challenge]. *)
Definition select_algorithm (t : Tee) (supported : list string) : outcome anyhow string :=
  match t with
  | Sgx | AzTdxVtpm =>
      if bool_decide (algorithm_text Sha256 ∈ supported) then Ok (algorithm_text Sha256)
      else Err "ITA: SGX TEE does not support sha256"
  | Tdx =>
      if bool_decide (algorithm_text AsService.Sha512 ∈ supported) then Ok (algorithm_text AsService.Sha512)
      else Err "ITA: TDX TEE does not support sha512"
  | _ => Err ERR_INVALID_TEE
  end.

(** [generate_challenge]. *)
Definition ita_generate_challenge (rng : nat -> option bytes) (t : Tee) (tee_parameters : Value) :
    outcome anyhow Challenge :=
  match tee_parameters with
  | VNull => generic_generate_challenge rng t tee_parameters
  | _ =>
      match value_get SUPPORTED_HASH_ALGORITHMS_JSON_KEY tee_parameters with
      | None => generic_generate_challenge rng t tee_parameters
      | Some hash_algorithms_found =>
          algorithms ← ok_or "ITA: expected array" (as_array hash_algorithms_found);
          let supported_hash_algorithms := omap (fun s => to_lowercase <$> as_str s) algorithms in
          match supported_hash_algorithms with
          | [] => Err ERR_NO_TEE_ALGOS
          | _ =>
              hash_algorithm ← select_algorithm t supported_hash_algorithms;
              nonce ← make_nonce rng;
              Ok {| nonce := nonce;
                    ch_extra_params := VObject [(SELECTED_HASH_ALGORITHM_JSON_KEY, VString hash_algorithm)] |}
          end
      end
  end.

(** The service as the KBS uses it: nothing else of the trait is implemented. *)
Definition ita_attest {I} (ita : IntelTrustAuthority) (now : Z) (rng : nat -> option bytes) : Attest I := {|
  attest_set_policy := default_set_policy;
  attest_verify := fun l => st_lift (ita_verify ita now l);
  attest_generate_challenge := fun t p => st_lift (ita_generate_challenge rng t p);
  attest_register_reference_value := default_register_reference_value;
  attest_query_reference_values := default_query_reference_values;
|}.
End Ita.
