(* ===== verification/ItaProofs.v ===== *)
(** * Theorems on the Intel Trust Authority client

    Which request the evidence of a guest becomes, under which key the token of
    the answer was checked, and how the hash algorithm of a challenge is
    chosen. *)
From S2P Require Import Prelude Types Text Fs Json Token Session Attestation Handshake AsService Ita.

Definition ok_val {E A} (m : outcome E A) : option A :=
  match m with
  | Ok a => Some a
  | _ => None
  end.

Section ItaProofs.
Context `{D : Disk} `{TC : TokenCrates} `{KC : KbsCrates} `{IC : ItaCrates}.

(** ** The request *)

(** What one piece of evidence puts in the slots of the request. *)
Definition tdx_slot (e : IndependentEvidence) : option DcapTeeEvidence :=
  match tee e with
  | AzTdxVtpm => ok_val (az_dcap_evidence e)
  | Tdx => ok_val (dcap_evidence e)
  | _ => None
  end.

Definition sgx_slot (e : IndependentEvidence) : option DcapTeeEvidence :=
  match tee e with
  | Sgx => ok_val (dcap_evidence e)
  | _ => None
  end.

Definition gpu_slot (e : IndependentEvidence) : option ItaDevice :=
  match tee e with
  | Nvidia => d ← ok_val (gpu_evidence e); d
  | _ => None
  end.

(** Evidence the client takes: of a kind it knows, and well-formed. *)
Definition accepted (e : IndependentEvidence) : bool :=
  match tee e with
  | AzTdxVtpm => is_ok (az_dcap_evidence e)
  | Tdx | Sgx => is_ok (dcap_evidence e)
  | Nvidia => is_ok (gpu_evidence e)
  | _ => false
  end.

Definition azure_part (l : list IndependentEvidence) : string :=
  fold_right (fun e s => if bool_decide (tee e = AzTdxVtpm) then AZURE_ADDR_SUFFIX +:+ s else s) "" l.

(** The last one wins. *)
Definition slot {A} (f : IndependentEvidence -> option A) (old : option A) (l : list IndependentEvidence) : option A :=
  match list.last (omap f l) with
  | Some a => Some a
  | None => old
  end.

Lemma slot_cons {A} (f : IndependentEvidence -> option A) old e l :
  slot f old (e :: l) = slot f (match f e with Some a => Some a | None => old end) l.
Proof.
  unfold slot. cbn. destruct (f e); [rewrite list.last_cons|done]. now destruct (list.last _).
Qed.

Definition filled (r : AttestReqData) (l : list IndependentEvidence) : AttestReqData :=
  {| rq_policy_ids := rq_policy_ids r; rq_policy_must_match := rq_policy_must_match r;
     rq_tdx := slot tdx_slot (rq_tdx r) l; rq_sgx := slot sgx_slot (rq_sgx r) l;
     rq_nvgpu := slot gpu_slot (rq_nvgpu r) l |}.

Lemma azure_one e :
  azure_part [e] = match tee e with AzTdxVtpm => AZURE_ADDR_SUFFIX | _ => "" end.
Proof. cbn. now destruct (tee e). Qed.

Lemma ita_step_spec r u e acc :
  ita_step (r, u) e = Ok acc <->
  accepted e = true /\ acc = (filled r [e], u +:+ azure_part [e]).
Proof.
  rewrite azure_one. pose proof (app_string_nil u) as Hu.
  unfold ita_step, accepted, filled, slot. cbn. unfold tdx_slot, sgx_slot, gpu_slot.
  destruct (tee e); cbn [mbind outcome_bind option_bind]; rewrite ?Hu;
    repeat match goal with
      | |- context [az_dcap_evidence ?x] => destruct (az_dcap_evidence x)
      | |- context [dcap_evidence ?x] => destruct (dcap_evidence x)
      | |- context [gpu_evidence ?x] => destruct (gpu_evidence x) as [[]| |]
      end; destruct r; cbn; naive_solver.
Qed.

Lemma ita_requests_spec l r u acc :
  ita_requests (r, u) l = Ok acc <->
  Forall (fun e => accepted e = true) l /\ acc = (filled r l, u +:+ azure_part l).
Proof.
  revert r u. induction l as [|e l IH]; intros r u; cbn [ita_requests].
  - change (azure_part []) with EmptyString. rewrite app_string_nil.
    destruct r. unfold filled, slot. cbn. naive_solver.
  - rewrite bind_Ok, list.Forall_cons. setoid_rewrite ita_step_spec.
    assert (Hf : filled (filled r [e]) l = filled r (e :: l)).
    { unfold filled. cbn [rq_policy_ids rq_policy_must_match rq_tdx rq_sgx rq_nvgpu]. rewrite !slot_cons. reflexivity. }
    assert (Ha : (u +:+ azure_part [e]) +:+ azure_part l = u +:+ azure_part (e :: l)).
    { cbn. case_bool_decide; now rewrite ?app_string_assoc, ?app_string_nil. }
    split.
    + intros (a & [H1 ->] & H). apply IH in H as [H2 ->]. now rewrite Hf, Ha.
    + intros [[H1 H2] ->]. eexists. split; [split; [done|reflexivity]|]. apply IH. now rewrite Hf, Ha.
Qed.

(** ** The challenge *)

(** The algorithm a kind of guest must support. *)
Definition needed (t : Tee) : option HashAlgorithm :=
  match t with
  | Sgx | AzTdxVtpm => Some AsService.Sha256
  | Tdx => Some AsService.Sha512
  | _ => None
  end.

Lemma select_algorithm_Ok t supported name :
  select_algorithm t supported = Ok name <->
  exists a, needed t = Some a /\ name = algorithm_text a /\ algorithm_text a ∈ supported.
Proof.
  unfold select_algorithm, needed. destruct t; try case_bool_decide; naive_solver.
Qed.

Lemma supported_spec (l : list Value) (name : string) :
  name ∈ omap (fun s => to_lowercase <$> as_str s) l <-> exists s, VString s ∈ l /\ to_lowercase s = name.
Proof.
  rewrite list_elem_of_omap. split.
  - intros ([] & Hin & H); try discriminate. injection H as <-. eauto.
  - intros (s & Hin & <-). now exists (VString s).
Qed.

(** ** Properties *)

(** The challenge of Intel Trust Authority.  A challenge is produced
    exactly if there is a nonce and either the parameters of the guest name no
    hash algorithms, and then it is the generic one, or they name an array that
    holds, in any case, the algorithm its kind of guest needs (SHA-256 for SGX
    and Azure TDX, SHA-512 for TDX), and then the challenge selects that one. *)
Theorem ita_challenge_spec rng t params ch :
  ita_generate_challenge rng t params = Ok ch <->
  make_nonce rng = Ok (nonce ch) /\
  (value_get SUPPORTED_HASH_ALGORITHMS_JSON_KEY params = None /\ ch_extra_params ch = VString "" \/
   exists l s a, value_get SUPPORTED_HASH_ALGORITHMS_JSON_KEY params = Some (VArray l) /\
     needed t = Some a /\ VString s ∈ l /\ to_lowercase s = algorithm_text a /\
     ch_extra_params ch = VObject [(SELECTED_HASH_ALGORITHM_JSON_KEY, VString (algorithm_text a))]).
Proof.
  transitivity (match value_get SUPPORTED_HASH_ALGORITHMS_JSON_KEY params with
    | None => generic_generate_challenge rng t params
    | Some found =>
        algorithms ← ok_or "ITA: expected array" (as_array found);
        hash_algorithm ← select_algorithm t (omap (fun s => to_lowercase <$> as_str s) algorithms);
        nonce ← make_nonce rng;
        Ok {| nonce := nonce;
              ch_extra_params := VObject [(SELECTED_HASH_ALGORITHM_JSON_KEY, VString hash_algorithm)] |}
    end = Ok ch).
  { unfold ita_generate_challenge. destruct params; try done.
    destruct (value_get _ _) as [found|]; [|done]. destruct (as_array found) as [l|]; [|done].
    cbn [ok_or mbind outcome_bind]. destruct (omap _ l) eqn:E; [|done]. split; [discriminate|].
    intros H. inv_ok. apply select_algorithm_Ok in Hok as (a' & _ & _ & []%not_elem_of_nil). }
  destruct ch as [n x]. destruct (value_get _ _) as [found|].
  - cbn [nonce ch_extra_params]. split.
    + intros H. inv_ok. destruct found; try discriminate. injection Hok as ->.
      apply select_algorithm_Ok in Hok0 as (a' & Hn & -> & (s & Hs & Hl)%supported_spec). split; [done|]. right. eauto 10.
    + intros [Hr [[]|(l & s & a & [= ->] & Hn & Hin & Hl & ->)]]; [discriminate|]. cbn [as_array ok_or mbind outcome_bind].
      rewrite (proj2 (select_algorithm_Ok t _ (algorithm_text a))); [|exists a; rewrite supported_spec; eauto].
      cbn [mbind outcome_bind]. now rewrite Hr.
  - unfold generic_generate_challenge. rewrite bind_Ok. cbn [nonce ch_extra_params]. naive_solver.
Qed.


(** The request sent to Intel Trust Authority, on every input.  The loop
    over the evidence succeeds exactly if every piece is well-formed evidence of
    an Intel or NVIDIA kind; then the request carries the configured policies,
    and in its TDX slot the last piece of (Azure) TDX evidence, in its SGX slot
    the last piece of SGX evidence and in its GPU slot the first device of the
    last NVIDIA evidence with a device: earlier pieces of the same kind are not
    sent.  The URL gets the Azure suffix once for every piece of Azure TDX
    evidence. *)
Theorem ita_request_contents config l req url :
  ita_requests (initial_request config, ita_base_url config +:+ BASE_AS_ADDR) l = Ok (req, url) <->
  Forall (fun e => accepted e = true) l /\
  rq_policy_ids req = ita_policy_ids config /\
  (rq_policy_must_match req = true <-> ita_policy_ids config <> [] /\ ita_allow_unmatched_policy config <> Some true) /\
  rq_tdx req = list.last (omap tdx_slot l) /\
  rq_sgx req = list.last (omap sgx_slot l) /\
  rq_nvgpu req = list.last (omap gpu_slot l) /\
  url = (ita_base_url config +:+ BASE_AS_ADDR) +:+ azure_part l.
Proof.
  rewrite ita_requests_spec. unfold filled, initial_request, slot.
  cbn [rq_policy_ids rq_policy_must_match rq_tdx rq_sgx rq_nvgpu].
  assert (Hm : forall b, (b = true <-> ita_policy_ids config <> [] /\ ita_allow_unmatched_policy config <> Some true) <->
     b = match ita_policy_ids config with [] => false | _ :: _ => negb (default false (ita_allow_unmatched_policy config)) end).
  { intros b. destruct b, (ita_policy_ids config), (ita_allow_unmatched_policy config) as [[]|]; cbn; naive_solver. }
  rewrite Hm. destruct req as [ids mm t s g].
  cbn [rq_policy_ids rq_policy_must_match rq_tdx rq_sgx rq_nvgpu].
  destruct (list.last (omap tdx_slot l)), (list.last (omap sgx_slot l)), (list.last (omap gpu_slot l)); naive_solver.
Qed.

(** C35: the token of Intel Trust Authority.  A token is handed to the guest
    only if it is the token of a 200 answer to a request with the configured
    key, built from the evidence, and if it decodes under the key of its own
    header, or, when its header carries none, under a key of the configured
    certificate file with the identifier of the header.  A key in the header is
    not checked against anything. *)
Theorem ita_token_sound (Spec : TokenCratesSpec TC) config fs fs' ita now l token :
  ita_new config fs = (fs', Ok ita) ->
  ita_verify ita now l = Ok token ->
  exists keys req url body reply header key alg claims,
    get_jwks_from_file_or_url (ita_certs_file config) fs = (fs', Ok keys) /\
    ita_requests (initial_request config, ita_base_url config +:+ BASE_AS_ADDR) l = Ok (req, url) /\
    attest_req_to_string req = Some body /\
    ita_post (attest_post config url body) = Some reply /\ reply_status reply = 200 /\
    attest_resp_token (reply_body reply) = Some token /\
    decode_header token = Some header /\ jwt_decode now token key alg = Some claims /\
    key_algorithm key = Some alg /\
    (h_jwk header = Some key \/
     h_jwk header = None /\ key ∈ keys /\ exists kid, h_kid header = Some kid /\ key_id key = Some kid).
Proof.
  intros Hn Hv. unfold ita_new, jwk_verifier_new in Hn. cbn [cfg_trusted_jwk_sets trusted_certs_paths st_collect] in Hn.
  inv_st. rename a2 into keys. unfold ita_verify in Hv. cbn [ita_config ita_token_verifier] in Hv. inv_ok.
  destruct a as [req url]. inv_ok.
  destruct (Z.eqb_spec (reply_status a0) 200) as [Hs|]; cbn [negb] in Hv; [|case_match; discriminate]. inv_ok.
  apply jwk_verify_Ok in Hok3 as (header & key & alg & H1 & H2 & H3 & _ & _ & H4).
  exists keys, req, url, a, a0, header, key, alg, a2. split_and!; try done.
  apply get_verification_jwk_Ok in H2; [|done]. unfold trusted_key in H2.
  cbn [trusted_jwk_sets concat] in H2. rewrite app_nil_r in H2. destruct (h_jwk header); naive_solver.
Qed.
End ItaProofs.

(** ** A concrete run *)
Module ItaDemo.
#[export] Existing Instance TokenDemo.good_disk.
#[export] Existing Instance TokenDemo.crates.
#[export] Existing Instance Demo.demo_crates.

#[export] Instance ita_crates : ItaCrates := {|
  dcap_from_value v := match v with
    | VString q => Some {| dcap_quote := q; dcap_runtime_data := ""; dcap_user_data := None; dcap_event_log := None |}
    | _ => None
    end;
  az_ita_from_value _ := None;
  nv_devices_from_value _ := Some [];
  hcl_report_var_data _ := None;
  ita_sha512 _ := replicate 64 Byte.x00;
  hash_algorithm_as_ref a := match a with AsService.Sha256 => "Sha256" | AsService.Sha384 => "Sha384" | AsService.Sha512 => "Sha512" end;
  attest_req_to_string r := Some (from_option dcap_quote "" (rq_tdx r));
  attest_resp_token b := Some (string_of_list_byte b);
  error_response_text _ := None;
  ita_post p := Some {| reply_status := 200; reply_body := str_bytes (post_body p) |};
  cargo_pkg_name := "kbs"; cargo_pkg_version := "0.1.0";
|}.

Definition ita_conf : IntelTrustAuthorityConfig :=
  {| ita_base_url := "https://ita"; ita_api_key := "k"; ita_certs_file := "/jwks";
     ita_allow_unmatched_policy := None; ita_policy_ids := ["p"] |}.
Definition ita0 : IntelTrustAuthority :=
  {| ita_config := ita_conf;
     ita_token_verifier := {| trusted_jwk_sets := [TokenDemo.key]; trusted_certs := []; insecure_key := true |} |}.
Definition td (q : string) : IndependentEvidence :=
  {| tee := Tdx; tee_evidence := VString q; runtime_data := VNull; init_data := None |}.

(** Of two pieces of TDX evidence only the second one is sent. *)
Example ita_last_evidence_wins :
  option_map (fun r => option_map dcap_quote (rq_tdx (fst r)))
    (ok_val (ita_requests (initial_request ita_conf, "u") [td "first"; td "second"])) = Some (Some "second").
Proof. vm_compute. reflexivity. Qed.

Lemma ita_token_sound_witness :
  ita_verify ita0 0 [td "good"] = Ok "good" /\
  exists reply key alg, ita_post (attest_post ita_conf "https://ita/appraisal/v2/attest" "good") = Some reply /\
    jwt_decode 0 "good" key alg = Some TokenDemo.claims.
Proof.
  split; [vm_compute; reflexivity|].
  destruct (ita_token_sound TokenDemo.crates_spec ita_conf TokenDemo.fs0 TokenDemo.fs0 ita0 0 [td "good"] "good")
    as (keys & req & url & body & reply & header & key & alg & claims & _ & Hr & Hb & Hp & _ & _ & _ & Hd & _).
  - vm_compute; reflexivity.
  - vm_compute; reflexivity.
  - vm_compute in Hr. injection Hr as <- <-. vm_compute in Hb. injection Hb as <-.
    exists reply, key, alg. split; [exact Hp|]. pose proof Hd as Hd'. vm_compute in Hd'. injection Hd' as <-. exact Hd.
Defined.
End ItaDemo.
