(* ===== verification/AsFrontends.v ===== *)
(** * Network front-ends of the attestation service and its remote clients

    The gRPC server ([attestation-service/src/bin/grpc/mod.rs]) and the RESTful
    server ([bin/restful/mod.rs], [restful-as.rs]) around the attestation service,
    the gRPC client of the KBS ([kbs/src/attestation/coco/grpc.rs]), and the
    reference value service behind gRPC ([rvps/src/server/mod.rs],
    [attestation-service/src/rvps/grpc.rs]).  The transport hands a message over,
    or fails; a handler that panics ends its connection, which the client sees as
    an error. *)
From S2P Require Import Prelude Types Text Session Attestation Brokers Rvps Verifier AsService.

(** The crates of the front-ends. *)
Class FrontCrates := {
  (** [base64], URL-safe without padding *)
  url_no_pad_encode : bytes -> string;
  url_no_pad_decode : string -> option bytes;
  (** [serde_json::from_slice] and [from_str] at [Value] *)
  json_value_from_slice : bytes -> option Value;
  (** reference values as JSON text *)
  refs_to_string : gmap string Value -> option string;
  refs_from_str : string -> option (gmap string Value);
  (** [HashAlgorithm::try_from] of [kbs_types] *)
  hash_algorithm_try_from : string -> option HashAlgorithm;
  (** a list of policies as JSON text *)
  values_to_string : list Value -> option string;
}.

(** ** Messages *)
Inductive RpcRuntimeData :=
| RawRuntimeData (raw : string)
| StructuredRuntimeData (structured : string).

Inductive RpcInitData :=
| InitDataDigest (raw : string)
| InitDataToml (structured : string).

Record IndividualAttestationRequest := {
  ia_tee : string;
  ia_evidence : string;
  ia_runtime_data : option RpcRuntimeData;
  ia_init_data : option RpcInitData;
  ia_runtime_data_hash_algorithm : string;
}.

(** ** The gRPC server *)
Definition to_kbs_tee (tee : string) : outcome anyhow Tee :=
  match tee with
  | "sev" => Ok Sev
  | "sgx" => Ok Sgx
  | "snp" => Ok Snp
  | "tdx" => Ok Tdx
  | "csv" => Ok Csv
  | "sample" => Ok Sample
  | "az-snp-vtpm" => Ok AzSnpVtpm
  | "cca" => Ok Cca
  | "az-tdx-vtpm" => Ok AzTdxVtpm
  | "se" => Ok Se
  | "hygondcu" => Ok HygonDcu
  | "nvidia" => Ok Nvidia
  | "tpm" => Ok Tpm
  | _ => Err "Unsupported TEE type"
  end%string.

Section Frontends.
Context {S : Type} `{TB : AttestationTokenBroker S} `{R : RvpsApi S} `{AC : AsCrates} `{FC : FrontCrates}.
Context (verifier_for : Tee -> outcome anyhow Verifier).

(** One request of the loop of [attestation_evaluate]. *)
Definition grpc_request (r : IndividualAttestationRequest) : outcome anyhow VerificationRequest :=
  tee ← map_err (fun _ => "parse TEE type") (to_kbs_tee (ia_tee r));
  evidence ← ok_or "Illegal input Evidence" (url_no_pad_decode (ia_evidence r));
  evidence ← ok_or "failed to parse tee evidence" (json_value_from_slice evidence);
  runtime_data ← match ia_runtime_data r with
    | Some (RawRuntimeData raw) =>
        b ← ok_or "base64 decode runtime data" (url_no_pad_decode raw); Ok (Some (Raw b))
    | Some (StructuredRuntimeData s) =>
        v ← ok_or "parse structured runtime data" (json_value_from_slice (str_bytes s)); Ok (Some (Structured v))
    | None => Ok None
    end;
  init_data ← match ia_init_data r with
    | Some (InitDataDigest raw) => b ← ok_or "base64 decode init data" (url_no_pad_decode raw); Ok (Some (Digest b))
    | Some (InitDataToml s) => Ok (Some (Toml s))
    | None => Ok None
    end;
  alg ← (if String.eqb (ia_runtime_data_hash_algorithm r) "" then Ok AsService.Sha384
         else ok_or "parse runtime data HashAlgorithm failed"
                (hash_algorithm_try_from (ia_runtime_data_hash_algorithm r)));
  Ok {| vr_evidence := evidence; vr_tee := tee; vr_runtime_data := runtime_data;
        vr_runtime_data_hash_algorithm := alg; vr_init_data := init_data |}.

Fixpoint grpc_requests (l : list IndividualAttestationRequest) : outcome anyhow (list VerificationRequest) :=
  match l with
  | [] => Ok []
  | r :: l => v ← grpc_request r; vs ← grpc_requests l; Ok (v :: vs)
  end.

Definition grpc_attestation_evaluate (env : AsEnv) (requests : list IndividualAttestationRequest)
    (policy_ids : list string) : st S anyhow string :=
  verification_requests ← st_lift (grpc_requests requests);
  let policy_ids := match policy_ids with [] => ["default"] | _ => policy_ids end in
  st_map_err (fun _ => "Attestation evaluation failed")
    (svc_evaluate verifier_for env verification_requests policy_ids).

Definition grpc_set_attestation_policy (policy_id policy : string) : st S anyhow unit :=
  st_map_err (fun _ => "Set Attestation Policy Failed") (svc_set_policy policy_id policy).

Definition grpc_get_attestation_challenge (inner : gmap string string) : st S anyhow string :=
  inner_tee ← st_lift (ok_or "Error parse inner_tee tee" (inner !! "tee"));
  tee_params ← st_lift (ok_or "Error parse inner_tee tee_params" (inner !! "tee_params"));
  tee ← st_lift (map_err (fun _ => "Error parse TEE type") (to_kbs_tee inner_tee));
  st_map_err (fun _ => "Challenge") (svc_generate_supplemental_challenge verifier_for tee tee_params).

Definition grpc_query_reference_value (env : AsEnv) : st S anyhow string :=
  values ← st_map_err (fun _ => "Failed to query reference values") (svc_query_reference_values env);
  st_lift (ok_or "Failed to serialize reference values" (refs_to_string values)).

Definition grpc_register_reference_value (env : AsEnv) (message : string) : st S anyhow unit :=
  st_map_err (fun _ => "Register reference value") (svc_register_reference_value env message).

(** ** The gRPC client of the KBS *)

(** A remote call: the server's state changes, its errors and panics come back
    as a status. *)
Definition rpc {A} (m : st S anyhow A) : st S anyhow A := fun s =>
  match m s with
  | (s', Panic) => (s', Err "status: transport error")
  | r => r
  end.

Definition COCO_AS_HASH_ALGORITHM : string := "sha384".

Context `{KC : KbsCrates}.
(** [self.pool.get()]: a connection, or an error. *)
Context (pool_get : outcome anyhow unit).

(** [Value::to_string]. *)
Definition value_text (v : Value) : string := default "" (value_to_string v).

Definition client_request (e : IndependentEvidence) : outcome anyhow IndividualAttestationRequest :=
  t ← ok_or "CoCo AS client: serialize tee type failed." (tee_to_string (tee e));
  let t := trim_start_matches double_quote (trim_end_matches double_quote t) in
  init ← match init_data e with
         | Some i => if negb (String.eqb (format i) "toml") then Err "Unsupported initdata format"
                     else Ok (Some (InitDataToml (body i)))
         | None => Ok None
         end;
  Ok {| ia_tee := t; ia_evidence := url_no_pad_encode (str_bytes (value_text (tee_evidence e)));
        ia_runtime_data := Some (StructuredRuntimeData (value_text (runtime_data e)));
        ia_init_data := init; ia_runtime_data_hash_algorithm := COCO_AS_HASH_ALGORITHM |}.

Fixpoint client_requests (l : list IndependentEvidence) : outcome anyhow (list IndividualAttestationRequest) :=
  match l with
  | [] => Ok []
  | e :: l => r ← client_request e; rs ← client_requests l; Ok (r :: rs)
  end.

Definition client_verify (env : AsEnv) (evidence_to_verify : list IndependentEvidence) : st S anyhow string :=
  verification_requests ← st_lift (client_requests evidence_to_verify);
  st_lift pool_get;;
  rpc (grpc_attestation_evaluate env verification_requests ["default"]).

Definition client_set_policy (policy_id policy : string) : st S anyhow unit :=
  st_lift pool_get;;
  st_map_err (fun _ => "Set Policy Failed") (rpc (grpc_set_attestation_policy policy_id policy)).

Definition client_generate_challenge (env : AsEnv) (t : Tee) (tee_parameters : Value) : st S anyhow Challenge :=
  nonce ← match t with
          | Se => st_lift pool_get;;
                  rpc (grpc_get_attestation_challenge
                         {["tee" := "se"; "tee_params" := value_text tee_parameters]})
          | _ => st_lift (make_nonce (rng env))
          end;
  mret {| nonce := nonce; ch_extra_params := VString "" |}.

Definition client_register_reference_value (env : AsEnv) (message : string) : st S anyhow unit :=
  st_lift pool_get;;
  st_map_err (fun _ => "Failed to set reference values") (rpc (grpc_register_reference_value env message)).

Definition client_query_reference_values (env : AsEnv) : st S anyhow (list (string * Value)) :=
  st_lift pool_get;;
  results ← st_map_err (fun _ => "Failed to get reference values") (rpc (grpc_query_reference_value env));
  m ← st_lift (ok_or "json" (refs_from_str results));
  mret (map_to_list m).

Definition grpc_client_pool (env : AsEnv) : Attest S := {|
  attest_set_policy := client_set_policy;
  attest_verify := client_verify env;
  attest_generate_challenge := client_generate_challenge env;
  attest_register_reference_value := client_register_reference_value env;
  attest_query_reference_values := client_query_reference_values env;
|}.
End Frontends.

(** ** The RESTful server *)
Inductive RestRuntimeData :=
| RestRaw (raw : string)
| RestStructured (structured : Value).

Record RestIndividualRequest := {
  ra_tee : string;
  ra_evidence : string;
  ra_runtime_data : option RestRuntimeData;
  ra_init_data : option RpcInitData;
  ra_runtime_data_hash_algorithm : option string;
}.

Record RestAttestationRequest := {
  ra_verification_requests : list RestIndividualRequest;
  ra_policy_ids : list string;
}.

Definition to_tee (tee : string) : outcome anyhow Tee :=
  match tee with
  | "az-snp-vtpm" => Ok AzSnpVtpm
  | "sev" => Ok Sev
  | "sgx" => Ok Sgx
  | "snp" => Ok Snp
  | "tdx" => Ok Tdx
  | "cca" => Ok Cca
  | "csv" => Ok Csv
  | "sample" => Ok Sample
  | "sampledevice" => Ok SampleDevice
  | "az-tdx-vtpm" => Ok AzTdxVtpm
  | "se" => Ok Se
  | "hygondcu" => Ok HygonDcu
  | _ => Err "tee not supported"
  end%string.

(** The JSON extractors, and the text of an error. *)
Class RestCrates := {
  rest_attestation_from_json : bytes -> option RestAttestationRequest;
  rest_policy_from_json : bytes -> option (string * string);
  rest_challenge_from_json : bytes -> option (gmap string string);
  rest_error_text : anyhow -> bytes;
}.

Section Restful.
Context {S : Type} `{TB : AttestationTokenBroker S} `{R : RvpsApi S} `{AC : AsCrates} `{FC : FrontCrates} `{RC : RestCrates}.
Context (verifier_for : Tee -> outcome anyhow Verifier).

Definition rest_parse_runtime_data (data : RestRuntimeData) : outcome anyhow AsRuntimeData :=
  match data with
  | RestRaw raw => b ← ok_or "base64 decode raw runtime data" (url_no_pad_decode raw); Ok (Raw b)
  | RestStructured v => Ok (Structured v)
  end.

Definition rest_parse_init_data (data : RpcInitData) : outcome anyhow InitDataInput :=
  match data with
  | InitDataDigest raw => b ← ok_or "base64 decode raw init data" (url_no_pad_decode raw); Ok (Digest b)
  | InitDataToml t => Ok (Toml t)
  end.

(** [Option::map] with [transpose]. *)
Definition transpose {A B} (f : A -> outcome anyhow B) (o : option A) : outcome anyhow (option B) :=
  match o with
  | Some a => b ← f a; Ok (Some b)
  | None => Ok None
  end.

(** One request of the loop of [attestation]. *)
Definition rest_request (r : RestIndividualRequest) : outcome anyhow VerificationRequest :=
  evidence ← ok_or "base64 decode evidence" (url_no_pad_decode (ra_evidence r));
  evidence ← ok_or "failed to parse evidence as JSON" (json_value_from_slice evidence);
  tee ← to_tee (ra_tee r);
  runtime_data ← map_err (fun _ => "decode given Runtime Data") (transpose rest_parse_runtime_data (ra_runtime_data r));
  init_data ← map_err (fun _ => "decode given Init Data") (transpose rest_parse_init_data (ra_init_data r));
  alg ← match ra_runtime_data_hash_algorithm r with
        | Some a => ok_or "parse runtime data HashAlgorithm failed" (hash_algorithm_try_from a)
        | None => Ok AsService.Sha384
        end;
  Ok {| vr_evidence := evidence; vr_tee := tee; vr_runtime_data := runtime_data;
        vr_runtime_data_hash_algorithm := alg; vr_init_data := init_data |}.

Fixpoint rest_requests (l : list RestIndividualRequest) : outcome anyhow (list VerificationRequest) :=
  match l with
  | [] => Ok []
  | r :: l => v ← rest_request r; vs ← rest_requests l; Ok (v :: vs)
  end.

Definition text_response (text : string) : HttpResponse :=
  {| status := 200; set_cookie := None; content_type := None; res_body := str_bytes text |}.

Definition rest_attestation (env : AsEnv) (request : RestAttestationRequest) : st S anyhow HttpResponse :=
  verification_requests ← st_lift (rest_requests (ra_verification_requests request));
  let policy_ids := match ra_policy_ids request with [] => ["default"] | l => l end in
  token ← st_map_err (fun _ => "attestation report evaluate")
    (svc_evaluate verifier_for env verification_requests policy_ids);
  mret (text_response token).

Definition rest_set_policy (input : string * string) : st S anyhow HttpResponse :=
  st_map_err (fun _ => "set policy") (svc_set_policy input.1 input.2);;
  mret (text_response "").

Definition rest_get_challenge (inner : gmap string string) : st S anyhow HttpResponse :=
  inner_tee ← st_lift (ok_or "Failed to get inner tee" (inner !! "tee"));
  tee_params ← st_lift (ok_or "Failed to get inner tee_params" (inner !! "tee_params"));
  tee ← st_lift (to_tee inner_tee);
  challenge ← st_map_err (fun _ => "generate challenge")
    (svc_generate_supplemental_challenge verifier_for tee tee_params);
  mret (text_response challenge).

(** [get_policies], with the [policy_id] of the path, if there is one. *)
Definition rest_get_policies (policy_id : option string) : st S anyhow HttpResponse :=
  match policy_id with
  | Some policy_id =>
      policy ← st_map_err (fun _ => "get policy") (svc_get_policy policy_id);
      mret (text_response policy)
  | None =>
      policy_list ← st_map_err (fun _ => "get policies") svc_list_policies;
      text ← st_lift (ok_or "serialize response body"
        (values_to_string (map (fun kv => VObject [("policy-id", VString kv.1); ("policy-hash", VString kv.2)])
                             (map_to_list policy_list))));
      mret (text_response text)
  end.

(** The routes of [main]: a resource matches its whole path and has no
    parameters. *)
Inductive WebApi := ApiAttestation | ApiPolicy | ApiChallenge.

Definition web_api_path (a : WebApi) : string :=
  match a with
  | ApiAttestation => "/attestation"
  | ApiPolicy => "/policy"
  | ApiChallenge => "/challenge"
  end.

Inductive RestCall :=
| CallAttestation (request : RestAttestationRequest)
| CallSetPolicy (input : string * string)
| CallGetPolicies (policy_id : option string)
| CallChallenge (inner : gmap string string)
| CallNone (status : Z).

(** What the extractors make of a body. *)
Definition extracted {A} (f : A -> RestCall) (o : option A) : RestCall :=
  match o with
  | Some a => f a
  | None => CallNone 400
  end.

Definition rest_route (m : Method) (path : string) (body : bytes) : RestCall :=
  if String.eqb path (web_api_path ApiAttestation) then
    match m with
    | POST => extracted CallAttestation (rest_attestation_from_json body)
    | _ => CallNone 405
    end
  else if String.eqb path (web_api_path ApiPolicy) then
    match m with
    | POST => extracted CallSetPolicy (rest_policy_from_json body)
    | GET => CallGetPolicies None
    | _ => CallNone 405
    end
  else if String.eqb path (web_api_path ApiChallenge) then
    match m with
    | POST => extracted CallChallenge (rest_challenge_from_json body)
    | _ => CallNone 405
    end
  else CallNone 404.

(** [Error::error_response]. *)
Definition rest_error_response (e : anyhow) : HttpResponse :=
  {| status := 500; set_cookie := None; content_type := None; res_body := rest_error_text e |}.

Definition rest_answer (m : st S anyhow HttpResponse) : st S anyhow HttpResponse := fun s =>
  match m s with
  | (s', Err e) => (s', Ok (rest_error_response e))
  | r => r
  end.

Definition rest_serve (env : AsEnv) (m : Method) (path : string) (body : bytes) : st S anyhow HttpResponse :=
  match rest_route m path body with
  | CallAttestation r => rest_answer (rest_attestation env r)
  | CallSetPolicy i => rest_answer (rest_set_policy i)
  | CallGetPolicies id => rest_answer (rest_get_policies id)
  | CallChallenge inner => rest_answer (rest_get_challenge inner)
  | CallNone st => mret {| status := st; set_cookie := None; content_type := None; res_body := [] |}
  end.
End Restful.

(** ** The reference value service behind gRPC *)
Section RemoteRvps.
Context {S : Type} {R : RvpsApi S} `{FC : FrontCrates}.

(** [RvpsServer]. *)
Definition rvps_server_query (now : Z) : st S anyhow string :=
  rvs ← st_map_err (fun _ => "Query reference value") (rvps_get_digests now);
  st_lift (ok_or "Serde reference value" (refs_to_string rvs)).

Definition rvps_server_register (now : Z) (message : string) : st S anyhow unit :=
  st_map_err (fun _ => "Register reference value") (rvps_verify_and_extract now message).

(** [Agent]. *)
Definition agent_verify_and_extract (now : Z) (message : string) : st S anyhow unit :=
  rpc (rvps_server_register now message).

Definition agent_get_digests (now : Z) : st S anyhow (gmap string Value) :=
  res ← rpc (rvps_server_query now);
  st_lift (ok_or "json" (refs_from_str res)).

Definition agent_rvps : RvpsApi S :=
  {| rvps_verify_and_extract := agent_verify_and_extract; rvps_get_digests := agent_get_digests |}.
End RemoteRvps.
