(* ===== verification/AsFrontendsProofs.v ===== *)
(** * Properties of the network front-ends

    The remote attestation service behaves as the built-in one, for the TEEs its
    front-end knows by name; which names those are; and the remote reference value
    service behaves as the built-in one. *)
From S2P Require Import Prelude Types Text Session Attestation Handshake Brokers Rvps Verifier AsService AsServiceProofs AsFrontends.

(** The same state, and the same result up to the text of an error; a panic and
    an error count as the same failure. *)
Definition same_answer {S A} (x y : S * outcome anyhow A) : Prop :=
  x.1 = y.1 /\
  match x.2, y.2 with
  | Ok a, Ok b => a = b
  | Ok _, _ | _, Ok _ => False
  | _, _ => True
  end.

#[global] Instance same_answer_equivalence {S A} : Equivalence (@same_answer S A).
Proof.
  split.
  - intros [s [a|e|]]; done.
  - intros [s [a|e|]] [s' [b|e'|]] [H H']; cbn in *; subst; done.
  - intros [s [a|e|]] [s' [b|e'|]] [s'' [c|e''|]] [H H'] [K K']; cbn in *; subst; done.
Qed.

Section Answers.
Context {S : Type}.

Lemma st_map_err_same {A} (f : anyhow -> anyhow) (m : st S anyhow A) s : same_answer (st_map_err f m s) (m s).
Proof. unfold st_map_err. destruct (m s) as [s' [a|e|]]; done. Qed.

Lemma rpc_same {A} (m : st S anyhow A) s : same_answer (rpc m s) (m s).
Proof. unfold rpc. destruct (m s) as [s' [a|e|]]; done. Qed.

(** Answers that agree continue to agree. *)
Lemma bind_same {A B} (m m' : st S anyhow A) (f f' : A -> st S anyhow B) s :
  same_answer (m s) (m' s) -> (forall a s', m' s = (s', Ok a) -> same_answer (f a s') (f' a s')) ->
  same_answer ((m ≫= f) s) ((m' ≫= f') s).
Proof.
  unfold mbind, st_bind. destruct (m s) as [s1 [a|e|]], (m' s) as [s2 [a'|e'|]]; intros [H1 H2] Hf; cbn in *; subst;
    try done. now apply Hf.
Qed.

Lemma st_lift_same {A} (m m' : outcome anyhow A) (s : S) :
  match m, m' with
  | Ok a, Ok b => a = b
  | Ok _, _ | _, Ok _ => False
  | _, _ => True
  end -> same_answer (st_lift m s) (st_lift m' s).
Proof. intros H. split; [done|]. exact H. Qed.
End Answers.

(** ** Names of TEEs *)

(** The text of a TEE in JSON, without its quotes. *)
Definition tee_name (t : Tee) : string :=
  match t with
  | Sev => "sev" | AzSnpVtpm => "az-snp-vtpm" | AzTdxVtpm => "az-tdx-vtpm" | Tdx => "tdx" | Snp => "snp"
  | Sample => "sample" | SampleDevice => "sampledevice" | Sgx => "sgx" | Csv => "csv" | Cca => "cca" | Se => "se"
  | HygonDcu => "hygondcu" | Nvidia => "nvidia" | Tpm => "tpm"
  end.

Definition quoted (s : string) : string := String.String double_quote (s +:+ String.String double_quote "").

Lemma to_kbs_tee_name t : t <> SampleDevice -> to_kbs_tee (tee_name t) = Ok t.
Proof. now destruct t. Qed.

(** The TEEs the front-ends know.  Of the names the KBS and other clients send
    for a TEE, the gRPC server accepts all but that of the sample device, and the
    RESTful server all but those of NVIDIA devices and of the TPM; an accepted
    name stands for its TEE. *)
Theorem frontend_tee_names t :
  (to_kbs_tee (tee_name t) = Ok t <-> t <> SampleDevice) /\
  (to_tee (tee_name t) = Ok t <-> t <> Nvidia /\ t <> Tpm) /\
  (is_ok (to_kbs_tee (tee_name t)) = true -> to_kbs_tee (tee_name t) = Ok t) /\
  (is_ok (to_tee (tee_name t)) = true -> to_tee (tee_name t) = Ok t).
Proof. destruct t; cbn; repeat split; intros; try done; naive_solver. Qed.

(** ** The remote service *)
Section Remote.
Context {S : Type} `{TB : AttestationTokenBroker S} `{R : RvpsApi S} `{AC : AsCrates} `{FC : FrontCrates} `{KC : KbsCrates}.
Context (verifier_for : Tee -> outcome anyhow Verifier).

(** What the codecs between client and server promise. *)
Class WireLaws : Prop := {
  wire_tee : forall t, tee_to_string t = Some (quoted (tee_name t));
  wire_sha384 : hash_algorithm_try_from "sha384" = Some AsService.Sha384;
  wire_base64 : forall b, url_no_pad_decode (url_no_pad_encode b) = Some b;
}.

(** A JSON value that survives being written and read. *)
Definition json_roundtrip (v : Value) : Prop := json_value_from_slice (str_bytes (value_text v)) = Some v.

Definition sendable (e : IndependentEvidence) : Prop :=
  json_roundtrip (tee_evidence e) /\ json_roundtrip (runtime_data e) /\ tee e <> SampleDevice.

Context `{W : !WireLaws}.

Lemma trim_quoted t : trim_start_matches double_quote (trim_end_matches double_quote (quoted (tee_name t))) = tee_name t.
Proof. now destruct t. Qed.

(** The server reads the request the built-in client would make. *)
Lemma client_request_same e :
  sendable e ->
  match client_request e, builtin_request e with
  | Ok q, Ok r => grpc_request q = Ok r
  | Err _, Err _ => True
  | _, _ => False
  end.
Proof.
  intros (Hev & Hrt & Ht). unfold client_request, builtin_request. rewrite wire_tee. cbn [ok_or mbind outcome_bind].
  rewrite trim_quoted. destruct (init_data e) as [i|].
  - destruct (String.eqb (format i) "toml"); [|done]. cbn [negb mbind outcome_bind].
    unfold grpc_request. cbn [ia_tee ia_evidence ia_runtime_data ia_init_data ia_runtime_data_hash_algorithm].
    rewrite to_kbs_tee_name by done. rewrite wire_base64. cbn [map_err ok_or mbind outcome_bind].
    rewrite Hev. cbn [ok_or mbind outcome_bind]. rewrite Hrt. cbn [ok_or mbind outcome_bind].
    unfold COCO_AS_HASH_ALGORITHM. cbn [String.eqb Ascii.eqb Bool.eqb]. now rewrite wire_sha384.
  - cbn [mbind outcome_bind].
    unfold grpc_request. cbn [ia_tee ia_evidence ia_runtime_data ia_init_data ia_runtime_data_hash_algorithm].
    rewrite to_kbs_tee_name by done. rewrite wire_base64. cbn [map_err ok_or mbind outcome_bind].
    rewrite Hev. cbn [ok_or mbind outcome_bind]. rewrite Hrt. cbn [ok_or mbind outcome_bind].
    unfold COCO_AS_HASH_ALGORITHM. cbn [String.eqb Ascii.eqb Bool.eqb]. now rewrite wire_sha384.
Qed.

Lemma client_requests_same evs :
  Forall sendable evs ->
  match client_requests evs, builtin_requests evs with
  | Ok qs, Ok rs => grpc_requests qs = Ok rs
  | Err _, Err _ => True
  | _, _ => False
  end.
Proof.
  induction 1 as [|e evs He _ IH]; [done|]. cbn [client_requests builtin_requests].
  pose proof (client_request_same e He) as H1.
  destruct (client_request e) as [q|?|], (builtin_request e) as [r|?|]; try done. cbn [mbind outcome_bind].
  destruct (client_requests evs) as [qs|?|], (builtin_requests evs) as [rs|?|]; try done. cbn [mbind outcome_bind].
  cbn [grpc_requests]. rewrite H1. cbn [mbind outcome_bind]. now rewrite IH.
Qed.

Lemma client_verify_same env evs s :
  Forall sendable evs ->
  same_answer (client_verify verifier_for (Ok tt) env evs s) (builtin_verify verifier_for env evs s).
Proof.
  intros Hs. pose proof (client_requests_same evs Hs) as H. unfold client_verify, builtin_verify.
  destruct (client_requests evs) as [qs|e|] eqn:Eq, (builtin_requests evs) as [rs|e'|] eqn:Er; try done.
  change (same_answer (rpc (grpc_attestation_evaluate verifier_for env qs ["default"]) s)
    (svc_evaluate verifier_for env rs ["default"] s)).
  rewrite rpc_same. unfold grpc_attestation_evaluate, mbind, st_bind, st_lift. rewrite H. apply st_map_err_same.
Qed.

Lemma client_query_same env s :
  (forall s' m, rvps_get_digests (t_digests env) s = (s', Ok m) ->
     exists text, refs_to_string m = Some text /\ refs_from_str text = Some m) ->
  same_answer (client_query_reference_values (Ok tt) env s)
    (attest_query_reference_values (Attest := builtin_coco_as verifier_for env) s).
Proof.
  intros Hr. cbn [attest_query_reference_values builtin_coco_as].
  change (same_answer ((results ← st_map_err (fun _ => "Failed to get reference values") (rpc (grpc_query_reference_value env));
    m ← st_lift (ok_or "json" (refs_from_str results)); mret (map_to_list m)) s)
    ((m ← svc_query_reference_values env; mret (map_to_list m)) s)).
  unfold grpc_query_reference_value, svc_query_reference_values.
  unfold mbind, st_bind, st_map_err, rpc. destruct (rvps_get_digests (t_digests env) s) as [s' [m|e|]] eqn:E; [|done..].
  destruct (Hr _ _ eq_refl) as (text & Ht & Hf). cbn. rewrite Ht. cbn. now rewrite Hf.
Qed.

(** C18: the remote attestation service is the built-in one.  Seen from the KBS,
    the gRPC client with the gRPC server behaves in every operation as the
    built-in client of the same attestation service: the same state, the same
    token, challenge or reference values, and a failure exactly when the other
    fails (a panic of the service reaches the KBS as an error).  For evidence
    this needs JSON that survives the wire and a TEE other than the sample
    device. *)
Theorem grpc_client_equals_builtin env s :
  let remote := grpc_client_pool verifier_for (Ok tt) env in
  let builtin := builtin_coco_as verifier_for env in
  (forall evs, Forall sendable evs ->
     same_answer (attest_verify (Attest := remote) evs s) (attest_verify (Attest := builtin) evs s)) /\
  (forall t params, same_answer (attest_generate_challenge (Attest := remote) t params s)
     (attest_generate_challenge (Attest := builtin) t params s)) /\
  (forall id p, same_answer (attest_set_policy (Attest := remote) id p s) (attest_set_policy (Attest := builtin) id p s)) /\
  (forall msg, same_answer (attest_register_reference_value (Attest := remote) msg s)
     (attest_register_reference_value (Attest := builtin) msg s)) /\
  ((forall s' m, rvps_get_digests (t_digests env) s = (s', Ok m) ->
     exists text, refs_to_string m = Some text /\ refs_from_str text = Some m) ->
   same_answer (attest_query_reference_values (Attest := remote) s) (attest_query_reference_values (Attest := builtin) s)).
Proof.
  intros remote builtin. split; [|split; [|split; [|split]]].
  - intros evs He. now apply client_verify_same.
  - intros t params. cbn [attest_generate_challenge remote builtin grpc_client_pool builtin_coco_as].
    unfold client_generate_challenge, builtin_generate_challenge. apply bind_same; [|done]. destruct t; try done.
    change (same_answer (rpc (grpc_get_attestation_challenge verifier_for
      {["tee" := "se"; "tee_params" := value_text params]}) s)
      (svc_generate_supplemental_challenge verifier_for Se (value_text params) s)).
    rewrite rpc_same. unfold grpc_get_attestation_challenge, mbind, st_bind, st_lift.
    rewrite lookup_insert_eq, lookup_insert_ne, lookup_singleton_eq by done. cbn [ok_or to_kbs_tee map_err].
    apply st_map_err_same.
  - intros id p. cbn [attest_set_policy remote builtin grpc_client_pool builtin_coco_as].
    change (same_answer (st_map_err (fun _ => "Set Policy Failed") (rpc (grpc_set_attestation_policy id p)) s) (svc_set_policy id p s)).
    rewrite st_map_err_same, rpc_same. apply st_map_err_same.
  - intros msg. cbn [attest_register_reference_value remote builtin grpc_client_pool builtin_coco_as].
    change (same_answer (st_map_err (fun _ => "Failed to set reference values") (rpc (grpc_register_reference_value env msg)) s)
      (svc_register_reference_value env msg s)).
    rewrite st_map_err_same, rpc_same. apply st_map_err_same.
  - intros Hr. now apply client_query_same.
Qed.
End Remote.

(** ** The remote reference value service *)
Section RemoteRvpsProofs.
Context {S : Type} {R : RvpsApi S} `{FC : FrontCrates}.

(** The agent with its server answers as the service itself. *)
Lemma agent_rvps_same now msg s :
  same_answer (rvps_verify_and_extract (RvpsApi := agent_rvps) now msg s) (rvps_verify_and_extract now msg s) /\
  ((forall s' m, rvps_get_digests now s = (s', Ok m) ->
      exists text, refs_to_string m = Some text /\ refs_from_str text = Some m) ->
   same_answer (rvps_get_digests (RvpsApi := agent_rvps) now s) (rvps_get_digests now s)).
Proof.
  split.
  - cbn. unfold agent_verify_and_extract. rewrite rpc_same. apply st_map_err_same.
  - intros Hr. cbn. unfold agent_get_digests, rvps_server_query, mbind, st_bind, st_map_err, rpc.
    destruct (rvps_get_digests now s) as [s' [m|e|]]; [|done..].
    destruct (Hr _ _ eq_refl) as (text & Ht & Hf). cbn. rewrite Ht. cbn. now rewrite Hf.
Qed.
End RemoteRvpsProofs.

(** ** The RESTful server *)
Section RestfulProofs.
Context {S : Type} `{TB : AttestationTokenBroker S} `{R : RvpsApi S} `{AC : AsCrates} `{FC : FrontCrates} `{RC : RestCrates}.
Context (verifier_for : Tee -> outcome anyhow Verifier).

(** The handler of a single policy is never called: its path has no route. *)
Lemma single_policy_unreachable m path body id : rest_route m path body <> CallGetPolicies (Some id).
Proof. unfold rest_route, extracted. repeat case_match; done. Qed.

Lemma single_policy_not_found id body : rest_route GET ("/policy/" +:+ id) body = CallNone 404.
Proof. reflexivity. Qed.

(** Every error of a handler is answered with status 500. *)
Lemma rest_serve_answers env m path body s s' e : rest_serve verifier_for env m path body s <> (s', Err e).
Proof.
  assert (H : forall (x : st S anyhow HttpResponse), rest_answer x s <> (s', Err e)).
  { intros x. unfold rest_answer. destruct (x s) as [? [?|?|]]; done. }
  unfold rest_serve. case_match; try apply H. done.
Qed.

(** A request that the RESTful server accepts is evaluated as the request it
    stands for, under the default policy if none is named. *)
Lemma rest_attestation_spec env request s s' resp :
  rest_attestation verifier_for env request s = (s', Ok resp) ->
  exists rs tok, rest_requests (ra_verification_requests request) = Ok rs /\ resp = text_response tok /\
    svc_evaluate verifier_for env rs
      (if bool_decide (ra_policy_ids request = []) then ["default"] else ra_policy_ids request) s = (s', Ok tok).
Proof.
  intros H. unfold rest_attestation in H. inv_st. do 2 eexists. split; [done|]. split; [done|].
  destruct (ra_policy_ids request); [rewrite bool_decide_eq_true_2 by done|rewrite bool_decide_eq_false_2 by done]; done.
Qed.
End RestfulProofs.

(** ** A concrete instance *)
Module FrontDemo.
#[export] Existing Instance AsDemo.broker.
#[export] Existing Instance AsDemo.rvps.
#[export] Existing Instance AsDemo.crates.
#[export] Existing Instance AsDemo.verifier_crates.

#[export] Instance front_kbs : KbsCrates := {
  parse_request _ := None; parse_attestation _ := None; parse_set_policy_input _ := None;
  parse_additional_evidence _ := None;
  value_to_string _ := Some "null";
  tee_to_string t := Some (quoted (tee_name t));
  attestation_to_string_pretty _ := None; challenge_json _ := []; pubkey_value _ := VNull;
  version_parse _ := None; version_req_matches _ _ := false;
  Attestation.base64_standard_encode b := string_of_list_byte b;
}.

#[export] Instance front_crates : FrontCrates := {|
  url_no_pad_encode b := string_of_list_byte b;
  url_no_pad_decode s := Some (str_bytes s);
  json_value_from_slice _ := Some VNull;
  refs_to_string _ := Some "{}";
  refs_from_str _ := Some ∅;
  hash_algorithm_try_from s := if String.eqb s "sha384" then Some AsService.Sha384 else None;
  values_to_string _ := Some "[]";
|}.

#[export] Instance front_laws : WireLaws.
Proof. split; [done|done|]. intros b. cbn. f_equal. apply list_byte_of_string_of_list_byte. Qed.

Definition front_evidence : IndependentEvidence :=
  {| tee := Sample; tee_evidence := VNull; runtime_data := VNull; init_data := None |}.

Lemma grpc_client_equals_builtin_witness :
  let remote := grpc_client_pool AsDemo.verifier (Ok tt) AsDemo.env in
  let builtin := builtin_coco_as AsDemo.verifier AsDemo.env in
  attest_verify (Attest := builtin) [front_evidence] tt = (tt, Ok "token") /\
  same_answer (attest_verify (Attest := remote) [front_evidence] tt) (attest_verify (Attest := builtin) [front_evidence] tt).
Proof.
  split; [vm_compute; reflexivity|].
  apply (grpc_client_equals_builtin AsDemo.verifier AsDemo.env tt). constructor; [|constructor].
  split; [reflexivity|]. split; [reflexivity|discriminate].
Defined.
End FrontDemo.
