(* ===== verification/Plugins.v ===== *)
(** * The plugin manager with every feature ([kbs/src/plugins/plugin_manager.rs])

    [ApiServer] has the plugins of the default build.  Here are the optional
    ones as well: the Vault and Aliyun backends of the resource plugin, the
    Nebula certificate authority and the PKCS 11 plugin, each on the part of the
    server's world it works on; the configuration that chooses among them; and
    the manager built from it.  The properties say that no plugin runs
    unguarded, which plugin answers to a name, and that with the default
    features this is the manager of [ApiServer]. *)
From S2P Require Import Prelude Types Text Metrics Session Attestation Fs Json Policy Resource Token Jwe ApiServer Handshake Access RemoteStores Pkcs11 Pkcs11Proofs NebulaCa NebulaCaProofs.

(** ** No plugin runs unguarded *)

Section Guard.
Context {I X : Type} `{A : Attest I} `{T : TimeCrate} `{KC : KbsCrates} `{D : Disk}
  `{PC : PolicyCrates} `{HA : HttpAuth} `{J : JwtSimple} `{TC : TokenCrates} `{JC : JweCrates}
  `{AC : ApiCrates}.
Abbreviation world := (World (I := I) (X := X)).
Implicit Types w : world.

(** The request was authorised for plugin [p]: by the administrator where the
    plugin asks for that, otherwise by a verified token whose claims the policy in
    force accepts for the path of the request. *)
Definition authorized (env : CallEnv) (core : ApiServer (I := I) (X := X)) (rq : HttpRequest) (body : bytes)
    (bp ap : string) (p : ClientPlugin world) w : Prop :=
  (plugin_validate_auth p body (query_string rq) ap (http_method rq) = Ok true /\
   validate_auth (admin_auth core) (now env) rq = Ok tt) \/
  (plugin_validate_auth p body (query_string rq) ap (http_method rq) = Ok false /\
   exists token claims cs m data input,
     token_source (now env) rq w token /\
     token_verify (token_verifier core) (now env) token = Ok claims /\
     claims_to_string claims = Some cs /\ rego_from_json cs = Some input /\
     policy_in_force (policy_engine core) (w_fs w) = Some m /\
     rego_from_json (resource_path_json (bp +:+ ap)) = Some data /\
     rego_eval_bool m data input "data.policy.allow" = Some true).

(** The token branch ends before the plugin is called, or the policy said yes. *)
Lemma serve_token_guard env core p rq body ap ep w w' r :
  serve_token env core p rq body ap ep w = (w', r) ->
  (same_world w w' /\ is_ok r = false) \/
  exists token claims cs m data input,
    token_source (now env) rq w token /\
    token_verify (token_verifier core) (now env) token = Ok claims /\
    claims_to_string claims = Some cs /\ rego_from_json cs = Some input /\
    policy_in_force (policy_engine core) (w_fs w) = Some m /\
    rego_from_json (resource_path_json ep) = Some data /\
    rego_eval_bool m data input "data.policy.allow" = Some true.
Proof.
  unfold serve_token. unfold mbind at 1, st_bind at 1, st_map_err at 1.
  destruct (get_attestation_token env rq w) as [w1 rt] eqn:Et.
  pose proof (get_attestation_token_same _ _ _ _ _ Et) as ->.
  destruct rt as [token|e|]; cbn [map_err]; [|intros [= <- <-]; left; now split..].
  apply get_attestation_token_Ok in Et. exec.
  destruct (token_verify _ _ token) as [claims|e|] eqn:Ev; cbn; [|intros [= <- <-]; left; now split..].
  destruct (claims_to_string claims) as [cs|] eqn:Ec; [|intros [= <- <-]; left; now split].
  cbn. unfold on_fs. exec.
  destruct (engine_evaluate _ _ _ _) as [fs re] eqn:Ee.
  pose proof (engine_evaluate_same _ _ _ _ _ _ Ee) as ->.
  destruct re as [b|e|]; cbn; [|intros [= <- <-]; left; now split..].
  destruct b; cbn; [|intros [= <- <-]; left; now split].
  intros _. right. apply engine_evaluate_Ok in Ee as (m & data & input & ? & ? & ? & ?).
  exists token, claims, cs, m, data, input. now repeat split.
Qed.

(** C14: whatever plugins are installed, none is called for a request that was
    not authorised for it.  A request for a plugin that is answered, or that
    changes anything but metrics, was authorised by the administrator or by an
    accepted token, as the plugin demands. *)
Theorem plugins_guarded env core rq body w w' r bp ap name :
  match_info rq "base_path" = Some bp -> match_info rq "additional_path" = Some ap ->
  route bp (http_method rq) = R_Plugin name ->
  api env core rq body w = (w', r) ->
  (same_world w w' /\ is_ok r = false) \/
  exists p, plugin_get (plugin_manager core) name = Some p /\ authorized env core rq body bp ap p w.
Proof.
  intros Hb Ha Hr H.
  destruct (api_dispatch env core rq body w) as [[_ [?|?]]|(bp' & ap' & Hb' & Ha' & He)]; [congruence..|].
  rewrite Hb in Hb'. rewrite Ha in Ha'. injection Hb' as <-. injection Ha' as <-. rewrite He in H.
  apply (dispatch_plugin env core rq body bp ap name w w' r Hr) in H
    as [[-> [[_ ->]|[->|[e ->]]]]|(p & b & Hp & Hv & Hs)]; [left; now split..|].
  destruct b.
  - unfold serve_admin in Hs. destruct (validate_auth (admin_auth core) (now env) rq) as [[]|e|] eqn:Ead.
    + right. exists p. split; [done|]. now left.
    + left. unfold mbind, st_bind, st_map_err, st_lift in Hs. cbn in Hs. injection Hs as <- <-. now split.
    + left. unfold mbind, st_bind, st_map_err, st_lift in Hs. cbn in Hs. injection Hs as <- <-. now split.
  - apply serve_token_guard in Hs as [Hs|Hs]; [now left|]. right. exists p. split; [done|]. now right.
Qed.
End Guard.

(** ** What the optional plugins work on

    The key-value server, the key management service and the security module,
    and the names drawn at random so far. *)
Record Externals (V K H : Type) := {
  ext_vault : V;
  ext_kms : K;
  ext_hsm : H;
  ext_names : nat -> string;
  ext_drawn : nat;
}.
Arguments ext_vault {V K H} _.
Arguments ext_kms {V K H} _.
Arguments ext_hsm {V K H} _.
Arguments ext_names {V K H} _ _.
Arguments ext_drawn {V K H} _.

(** [RepositoryConfig] and [PluginsConfig] with all features. *)
Inductive FullRepositoryConfig :=
| FR_LocalFs (desc : LocalFsRepoDesc)
| FR_Aliyun (config : AliyunKmsBackendConfig)
| FR_Vault (config : VaultKvBackendConfig).

Inductive FullPluginsConfig :=
| FP_Sample (c : SampleConfig)
| FP_ResourceStorage (c : FullRepositoryConfig)
| FP_NebulaCaPlugin (c : NebulaCaPluginConfig)
| FP_Pkcs11 (c : Pkcs11Config).

Definition full_repository_config_default : FullRepositoryConfig := FR_LocalFs local_fs_repo_desc_default.

(** [Display for PluginsConfig]. *)
Definition full_plugins_config_display (c : FullPluginsConfig) : string :=
  match c with
  | FP_Sample _ => "sample"
  | FP_ResourceStorage _ => "resource"
  | FP_NebulaCaPlugin _ => "nebula-ca"
  | FP_Pkcs11 _ => "pkcs11"
  end.

Section AllPlugins.
Context {I V K M : Type} `{A : Attest I} `{T : TimeCrate} `{KC : KbsCrates} `{D : Disk}
  `{PC : PolicyCrates} `{HA : HttpAuth} `{J : JwtSimple} `{TC : TokenCrates} `{JC : JweCrates}
  `{AC : ApiCrates} `{VC : VaultCrates V} `{AL : AliyunCrates K} `{CK : Cryptoki M} `{NC : NebulaCrates}.
Abbreviation externals := (Externals V K M).
Abbreviation world := (World (I := I) (X := externals)).
Implicit Types (w : world) (x : externals).

Definition set_vault (v : V) x : externals :=
  {| ext_vault := v; ext_kms := ext_kms x; ext_hsm := ext_hsm x; ext_names := ext_names x; ext_drawn := ext_drawn x |}.
Definition set_kms (k : K) x : externals :=
  {| ext_vault := ext_vault x; ext_kms := k; ext_hsm := ext_hsm x; ext_names := ext_names x; ext_drawn := ext_drawn x |}.
Definition set_hsm (h : M) x : externals :=
  {| ext_vault := ext_vault x; ext_kms := ext_kms x; ext_hsm := h; ext_names := ext_names x; ext_drawn := ext_drawn x |}.

Definition on_hsm {E B} (m : st M E B) : st world E B := on_ext (st_on ext_hsm set_hsm m).

(** A fresh random name. *)
Definition draw_name {E} : st world E string := on_ext (fun x =>
  ({| ext_vault := ext_vault x; ext_kms := ext_kms x; ext_hsm := ext_hsm x; ext_names := ext_names x;
      ext_drawn := S (ext_drawn x) |}, Ok (ext_names x (ext_drawn x)))).

(** The resource plugin over a backend that works on a part of the world. *)
Definition storage_plugin {S} (get : world -> S) (put : S -> world -> world) (B : StorageBackend S) :
    ClientPlugin world := {|
  handle body q p m := st_on
    (fun w => {| backend := get w; resource_metrics := w_metrics w |})
    (fun s w => count_in (fun _ => resource_metrics s) (put (backend s) w))
    (@resource_handle S B body q p m);
  plugin_validate_auth := resource_validate_auth;
  encrypted := resource_encrypted;
|}.

(** [ResourceStorage::try_from] and the plugin it becomes. *)
Definition full_resource_storage_try_from (value : FullRepositoryConfig) : st world anyhow (ClientPlugin world) :=
  match value with
  | FR_LocalFs desc =>
      l ← st_map_err (fun _ => "Failed to initialize Resource Storage") (on_fs (local_fs_new desc));
      mret (resource_plugin l)
  | FR_Aliyun config =>
      client ← st_lift (aliyun_new config);
      mret (storage_plugin (fun w => ext_kms (w_ext w)) (fun k w => set_ext (set_kms k (w_ext w)) w)
              (aliyun_backend client))
  | FR_Vault config =>
      client ← st_lift (vault_new config);
      mret (storage_plugin (fun w => ext_vault (w_ext w)) (fun v w => set_ext (set_vault v (w_ext w)) w)
              (vault_backend client))
  end.

(** The Nebula plugin draws the name of its temporary directory when it is called. *)
Definition full_nebula_plugin (p : NebulaCaPlugin) : ClientPlugin world := {|
  handle body q path m := name ← draw_name; on_fs (nebula_handle p name body q path m);
  plugin_validate_auth := nebula_validate_auth;
  encrypted := nebula_encrypted;
|}.

Definition full_pkcs11_plugin (b : Pkcs11Backend) : ClientPlugin world := {|
  handle body q path m := on_hsm (pkcs11_handle b body q path m);
  plugin_validate_auth := pkcs11_validate_auth;
  encrypted := pkcs11_encrypted;
|}.

(** [TryInto<ClientPluginInstance>]. *)
Definition full_plugin_try_into (c : FullPluginsConfig) : st world anyhow (ClientPlugin world) :=
  match c with
  | FP_Sample cfg =>
      _ ← st_map_err (fun _ => "Initialize 'Sample' plugin failed") (st_lift (sample_try_from cfg));
      mret sample_plugin
  | FP_ResourceStorage repository_config =>
      st_map_err (fun _ => "Initialize 'Resource' plugin failed") (full_resource_storage_try_from repository_config)
  | FP_NebulaCaPlugin nebula_ca_config =>
      p ← st_map_err (fun _ => "Initialize 'nebula-ca-plugin' failed") (on_fs (nebula_try_from nebula_ca_config));
      mret (full_nebula_plugin p)
  | FP_Pkcs11 pkcs11_config =>
      uuid ← draw_name;
      b ← st_map_err (fun _ => "Initialize 'pkcs11' plugin failed") (on_hsm (pkcs11_try_from pkcs11_config uuid));
      mret (full_pkcs11_plugin b)
  end.

(** [PluginManager::try_from]. *)
Fixpoint full_manager_from (acc : gmap string (ClientPlugin world)) (value : list FullPluginsConfig) :
    st world anyhow (gmap string (ClientPlugin world)) :=
  match value with
  | [] => mret acc
  | cfg :: value =>
      plugin ← full_plugin_try_into cfg;
      full_manager_from (<[full_plugins_config_display cfg := plugin]> acc) value
  end.

Definition full_manager_try_from (value : list FullPluginsConfig) :
    st world anyhow (gmap string (ClientPlugin world)) := full_manager_from ∅ value.

(** ** What each plugin demands *)
Lemma full_guards_spec c w w' p body q path m :
  full_plugin_try_into c w = (w', Ok p) ->
  plugin_validate_auth p body q path m =
  match c with
  | FP_Sample _ => Ok true
  | FP_ResourceStorage _ => Ok (String.eqb (method_str m) "POST")
  | FP_NebulaCaPlugin _ => Ok false
  | FP_Pkcs11 _ => pkcs11_validate_auth body q path m
  end.
Proof.
  assert (Hv : resource_validate_auth body q path m = Ok (String.eqb (method_str m) "POST"))
    by (unfold resource_validate_auth; now destruct (String.eqb _ _)).
  destruct c as [|[]| |]; cbn; intros H; inv_st; try done; exact Hv.
Qed.

(** ** The names plugins answer to *)
Lemma full_manager_from_Ok cfgs : forall acc w w' pm,
  full_manager_from acc cfgs w = (w', Ok pm) ->
  forall n,
    (n ∉ map full_plugins_config_display cfgs -> pm !! n = acc !! n) /\
    (n ∈ map full_plugins_config_display cfgs ->
     exists l cfg rest w1 w2 p, cfgs = l ++ cfg :: rest /\ full_plugins_config_display cfg = n /\
       n ∉ map full_plugins_config_display rest /\ full_plugin_try_into cfg w1 = (w2, Ok p) /\ pm !! n = Some p).
Proof.
  induction cfgs as [|c cfgs IH]; cbn; intros acc w w' pm H n.
  - injection H as _ <-. split; [done|]. now intros ?%elem_of_nil.
  - inv_st. destruct (IH _ _ _ _ H n) as [Hno Hin]. rewrite not_elem_of_cons, elem_of_cons. split.
    + intros [Hne Hn]. rewrite (Hno Hn). now apply lookup_insert_ne.
    + intros Hc. destruct (decide (n ∈ map full_plugins_config_display cfgs)) as [Hi|Hi].
      * destruct (Hin Hi) as (l & cfg & rest & w1 & w2 & p & -> & ?). exists (c :: l). naive_solver.
      * destruct Hc as [->|]; [|done]. exists [], c, cfgs. do 3 eexists.
        do 3 (split; [done|]). split; [exact Hst|]. rewrite (Hno Hi). apply lookup_insert_eq.
Qed.

(** A name is served exactly if some configuration entry has it, and then
    by the plugin built from the last such entry. *)
Theorem plugin_names_last cfgs w w' pm n :
  full_manager_try_from cfgs w = (w', Ok pm) ->
  (is_Some (plugin_get pm n) <-> n ∈ map full_plugins_config_display cfgs) /\
  forall p, plugin_get pm n = Some p ->
    exists l cfg rest w1 w2, cfgs = l ++ cfg :: rest /\ full_plugins_config_display cfg = n /\
      n ∉ map full_plugins_config_display rest /\ full_plugin_try_into cfg w1 = (w2, Ok p).
Proof.
  intros H. destruct (full_manager_from_Ok _ _ _ _ _ H n) as [Hno Hin]. unfold plugin_get.
  destruct (decide (n ∈ map full_plugins_config_display cfgs)) as [Hi|Hi].
  - destruct (Hin Hi) as (l & cfg & rest & w1 & w2 & p & ? & ? & ? & ? & Hp). rewrite Hp.
    split; [now split|]. intros p' [= <-]. eauto 10.
  - rewrite (Hno Hi), lookup_empty. split; [|done]. split; [now intros []|done].
Qed.

(** ** The default build *)
Definition with_all_features (c : PluginsConfig) : FullPluginsConfig :=
  match c with
  | PC_Sample c => FP_Sample c
  | PC_ResourceStorage (RC_LocalFs desc) => FP_ResourceStorage (FR_LocalFs desc)
  end.

Lemma full_plugin_try_into_default c w : full_plugin_try_into (with_all_features c) w = plugin_try_into c w.
Proof.
  destruct c as [c|[desc]]; [done|]. cbn. exec. now destruct (on_fs _ _) as [w1 []].
Qed.

(** On a configuration of the default features, the manager with every feature
    is the manager of the default build: the same plugins under the same names,
    and the same effects and errors while they are created. *)
Theorem full_manager_conservative cfgs w :
  full_manager_try_from (map with_all_features cfgs) w = plugin_manager_try_from cfgs w.
Proof.
  unfold full_manager_try_from, plugin_manager_try_from. generalize (∅ : gmap string (ClientPlugin world)).
  revert w. induction cfgs as [|c cfgs IH]; intros w acc; [done|]. cbn [map full_manager_from plugin_manager_from].
  unfold mbind, st_bind. rewrite full_plugin_try_into_default.
  destruct (plugin_try_into c w) as [w1 [p|e|]]; [|done..].
  rewrite IH. now destruct c as [|[]].
Qed.
End AllPlugins.

(** ** Witnesses *)
Module PluginsDemo.
#[export] Existing Instances Handshake.Demo.demo_attest Handshake.Demo.demo_time
  Handshake.Demo.demo_crates PolicyDemo.good_disk PolicyDemo.crates TokenDemo.http_auth
  TokenDemo.jwt_simple TokenDemo.crates JweDemo.crates AccessDemo.api_crates
  StoresDemo.kv StoresDemo.kms HsmDemo.hsm NebulaDemo.nebula_crates.

Abbreviation demo_world := (World (I := nat) (X := Externals (gmap (string * string) (gmap string string)) unit
  (list (list Attribute)))).

Definition world0 : demo_world := {|
  w_fs := AccessDemo.fs0; w_as := Handshake.Demo.svc0;
  w_ext := {| ext_vault := ∅; ext_kms := tt; ext_hsm := []; ext_names := fun _ => "name"; ext_drawn := 0 |} |}.

(** Two entries for the resource plugin: the second one wins. *)
Definition vault_config : VaultKvBackendConfig :=
  {| vault_url := "http://v"; vault_token := "t"; vault_mount_path := "secret"; vault_verify_ssl := false;
     vault_ca_certs := None |}.
Definition two_stores : list FullPluginsConfig :=
  [FP_ResourceStorage (FR_Aliyun {| client_key := "k"; kms_instance_id := "i"; kms_password := "p"; cert_pem := "c" |});
   FP_ResourceStorage (FR_Vault vault_config)].
Definition manager : gmap string (ClientPlugin demo_world) :=
  match full_manager_try_from two_stores world0 with (_, Ok pm) => pm | _ => ∅ end.
End PluginsDemo.

Import PluginsDemo.

Lemma plugin_names_last_witness :
  exists p w1 w2, plugin_get PluginsDemo.manager "resource" = Some p /\
    full_plugin_try_into (FP_ResourceStorage (FR_Vault PluginsDemo.vault_config)) w1 = (w2, Ok p).
Proof.
  destruct (plugin_names_last PluginsDemo.two_stores PluginsDemo.world0 PluginsDemo.world0 PluginsDemo.manager "resource")
    as [Hd Hp]; [reflexivity|].
  destruct (proj2 Hd) as [p Hpl]; [apply list_elem_of_further, list_elem_of_here|]. exists p.
  destruct (Hp p Hpl) as ([|c1 [|c2 l]] & cfg & rest & w1 & w2 & E & Hn & Hr & Ht).
  - injection E as <- <-. destruct Hr. apply list_elem_of_here.
  - injection E as _ <- _. exists w1, w2. now split.
  - destruct l; discriminate.
Defined.

Lemma plugins_guarded_witness :
  exists token claims, token_source 0 AccessDemo.get_secret AccessDemo.w0 token /\
    token_verify (token_verifier AccessDemo.core) 0 token = Ok claims.
Proof.
  destruct (plugins_guarded AccessDemo.env AccessDemo.core AccessDemo.get_secret [] AccessDemo.w0 AccessDemo.w1
    (Ok AccessDemo.answer) "resource" "/default/key/1" "resource") as [[_ H]|(p & Hp & [[Hv _]|[_ H]])].
  - reflexivity.
  - reflexivity.
  - reflexivity.
  - vm_compute; reflexivity.
  - discriminate.
  - assert (E : plugin_get (plugin_manager AccessDemo.core) "resource" = Some (resource_plugin AccessDemo.repo))
      by apply lookup_insert_eq.
    rewrite E in Hp. injection Hp as <-. discriminate.
  - destruct H as (token & claims & cs & m & data & input & Hs & Hv & _). exists token, claims. now split.
Defined.
