(* ===== verification/HttpServer.v ===== *)
(** * The HTTP server of the KBS ([kbs/src/api_server.rs], [http.rs], [config.rs])

    [ApiServer::server] puts the request handler behind routes, a limit on the
    size of bodies and the metrics middleware, and opens plain or TLS sockets.
    The web framework and OpenSSL are parameters; of the framework, the meaning of
    the routes [server] registers is written out. *)
From S2P Require Import Prelude Types Text Metrics Session Attestation Fs Json Policy Resource Token Jwe ApiServer Handshake Access.

#[local] Arguments String.append !_ _ / : simpl nomatch.

(** ** Configuration ([HttpServerConfig]); a socket address is kept as its text *)
Definition DEFAULT_INSECURE_HTTP : bool := false.
Definition DEFAULT_SOCKET : string := "127.0.0.1:8080".
Definition DEFAULT_PAYLOAD_REQUEST_SIZE : Z := 2.

Record HttpServerConfig := {
  sockets : list string;
  private_key : option string;
  certificate : option string;
  insecure_http : bool;
  payload_request_size : Z;
}.

Definition http_server_config_default : HttpServerConfig := {|
  sockets := [DEFAULT_SOCKET];
  private_key := None;
  certificate := None;
  insecure_http := DEFAULT_INSECURE_HTTP;
  payload_request_size := DEFAULT_PAYLOAD_REQUEST_SIZE;
|}.

(** ** TLS ([http.rs])

    OpenSSL: an acceptor with the Mozilla settings, and the loading of the key
    and of the certificate chain from files. *)
Class TlsCrates := {
  SslAcceptorBuilder : Type;
  mozilla_modern : option SslAcceptorBuilder;
  set_private_key_file : SslAcceptorBuilder -> string -> Fs -> option SslAcceptorBuilder;
  set_certificate_chain_file : SslAcceptorBuilder -> string -> Fs -> option SslAcceptorBuilder;
  (** binding sockets: whether the addresses are free *)
  bind_sockets : list string -> bool;
}.

(** ** Routes

    What the resource ["/kbs/v0/{base_path}{additional_path:.*}"] matches: after
    the prefix, [base_path] is a non-empty text without a slash, as long as
    possible, and [additional_path] the rest. *)
Definition KBS_PREFIX : string := "/kbs/v0".

Fixpoint until_slash (s : string) : string * string :=
  match s with
  | EmptyString => ("", "")
  | String.String c s' =>
      if Ascii.eqb slash c then ("", s)
      else let '(a, b) := until_slash s' in (String.String c a, b)
  end.

Fixpoint strip_string (prefix s : string) : option string :=
  match prefix, s with
  | EmptyString, _ => Some s
  | String.String c p, String.String c' s => if Ascii.eqb c c' then strip_string p s else None
  | _, EmptyString => None
  end.

Definition kbs_pattern (path : string) : option (string * string) :=
  rest ← strip_string (KBS_PREFIX +:+ "/") path;
  let '(base, additional) := until_slash rest in
  if String.eqb base "" then None else Some (base, additional).

Inductive Endpoint :=
| EP_Api (base_path additional_path : string)
| EP_Metrics
| EP_MethodNotAllowed
| EP_NotFound.

Definition endpoint (m : Method) (path : string) : Endpoint :=
  match kbs_pattern path with
  | Some (b, a) =>
      match m with
      | GET | POST => EP_Api b a
      | OtherMethod _ => EP_MethodNotAllowed
      end
  | None =>
      if String.eqb path "/metrics" then
        match m with
        | GET => EP_Metrics
        | _ => EP_MethodNotAllowed
        end
      else EP_NotFound
  end.

(** A request as it arrives. *)
Record RawRequest := {
  raw_method : Method;
  raw_path : string;
  raw_query : string;
  raw_cookie : string -> option string;
  raw_headers : string -> option string;
  raw_content_length : option (option Z);
  raw_body : bytes;
}.

(** What the handler sees of it. *)
Definition matched_request (r : RawRequest) (base_path additional_path : string) : HttpRequest := {|
  http_method := raw_method r;
  http_path := raw_path r;
  query_string := raw_query r;
  match_info k := if String.eqb k "base_path" then Some base_path
                  else if String.eqb k "additional_path" then Some additional_path else None;
  cookie := raw_cookie r;
  headers := raw_headers r;
|}.

Definition plain_response (s : Z) : HttpResponse :=
  {| status := s; set_cookie := None; content_type := None; res_body := [] |}.

Section HttpServer.
Context {I X : Type} `{A : Attest I} `{T : TimeCrate} `{KC : KbsCrates} `{D : Disk}
  `{PC : PolicyCrates} `{HA : HttpAuth} `{J : JwtSimple} `{TC : TokenCrates} `{JC : JweCrates}
  `{AC : ApiCrates} `{TL : TlsCrates} `{P : Profile}.
Abbreviation world := (World (I := I) (X := X)).
Implicit Types (w : world) (core : ApiServer (I := I) (X := X)).

(** [tls_config]. *)
Definition tls_config (config : HttpServerConfig) (fs : Fs) : outcome anyhow SslAcceptorBuilder :=
  cert_file ← ok_or "Missing certificate" (certificate config);
  key_file ← ok_or "Missing private key" (private_key config);
  builder ← ok_or "openssl" mozilla_modern;
  builder ← ok_or "openssl" (set_private_key_file builder key_file fs);
  ok_or "openssl" (set_certificate_chain_file builder cert_file fs).

Inductive Server :=
| TlsServer (builder : SslAcceptorBuilder) (addresses : list string)
| PlainServer (addresses : list string).

(** [ApiServer::server]: the sockets it opens. *)
Definition server (config : HttpServerConfig) (fs : Fs) : outcome Error Server :=
  if negb (insecure_http config) then
    builder ← map_err HTTPSFailed (tls_config config fs);
    if bind_sockets (sockets config) then Ok (TlsServer builder (sockets config)) else Err (HTTPSFailed "bind")
  else if bind_sockets (sockets config) then Ok (PlainServer (sockets config)) else Err (HTTPFailed "bind").

(** The limit of the [PayloadConfig]: a product of [u32]s, computed when a worker
    builds the application. *)
Definition payload_limit (config : HttpServerConfig) : outcome Error Z :=
  limit ← uint 32 (1024 * 1024);
  uint 32 (limit * payload_request_size config).

(** A request to the handler [api]: the extractor of the body refuses one that
    is longer than the limit. *)
Definition limited_api (env : CallEnv) core (limit : Z) (r : RawRequest) (base additional : string) :
    st world Error HttpResponse :=
  if limit <? len (raw_body r) then mret (plain_response 413)
  else respond env core (matched_request r base additional) (raw_body r).

Definition metrics_response : st world Error HttpResponse := fun w =>
  match prometheus_metrics_handler w with
  | (w', Err e) => (w', error_response e)
  | r => r
  end.

Definition routed (env : CallEnv) core (limit : Z) (r : RawRequest) : st world Error HttpResponse :=
  match endpoint (raw_method r) (raw_path r) with
  | EP_Api base additional => limited_api env core limit r base additional
  | EP_Metrics => metrics_response
  | EP_MethodNotAllowed => mret (plain_response 405)
  | EP_NotFound => mret (plain_response 404)
  end.

(** The application: the middleware around the routes. *)
Definition app (env : CallEnv) core (limit elapsed : Z) (r : RawRequest) : st world Error HttpResponse :=
  prometheus_metrics_middleware (raw_path r) (raw_content_length r) elapsed (routed env core limit r).

(** ** Properties *)

(** C39: the size limit.  Up to 4095 MB the limit is the configured size.  From
    4096 on the product leaves 32 bits: a build with overflow checks panics in
    every worker; otherwise the limit is the remainder, so that a server
    configured for 4096 MB refuses every body. *)
Theorem payload_limit_spec config :
  0 <= payload_request_size config < 2 ^ 32 ->
  (payload_request_size config < 4096 -> payload_limit config = Ok (payload_request_size config * 1048576)) /\
  (4096 <= payload_request_size config ->
   payload_limit config =
     if overflow_checks then Panic else Ok (payload_request_size config mod 4096 * 1048576)).
Proof.
  intros H. unfold payload_limit. change (1024 * 1024) with 1048576.
  rewrite uint_small by lia. cbn [mbind outcome_bind]. split; intros Hs.
  - rewrite uint_small by lia. f_equal. lia.
  - unfold uint. destruct (Z.leb_spec 0 (1048576 * payload_request_size config)); [|lia].
    destruct (Z.ltb_spec (1048576 * payload_request_size config) (2 ^ 32)); [lia|].
    cbn [andb]. destruct overflow_checks; [done|].
    f_equal. change (2 ^ 32) with (1048576 * 4096). rewrite Z.mul_mod_distr_l by lia. lia.
Qed.

Lemma until_slash_spec s a b :
  until_slash s = (a, b) <->
  s = a +:+ b /\ no_char slash a = true /\ (b = "" \/ exists b', b = String.String slash b').
Proof.
  revert a b. induction s as [|c s IH]; intros a b; cbn [until_slash].
  - split; [intros [= <- <-]; cbn; auto|]. intros (H & _ & _). now destruct a; [destruct b|].
  - destruct (Ascii.eqb_spec slash c) as [<-|Hne].
    + split; [intros [= <- <-]; cbn; eauto|]. intros (H & Ha & Hb).
      destruct a as [|c' a]; [cbn in H; congruence|]. injection H as <- H. unfold no_char in Ha. cbn [all_chars] in Ha. now rewrite Ascii.eqb_refl in Ha.
    + destruct (until_slash s) as [x y]. destruct (proj1 (IH x y) eq_refl) as (-> & Hx & Hy). split.
      * intros [= <- <-]. split; [done|]. split; [|done]. unfold no_char in *. cbn [all_chars].
        rewrite Hx. destruct (Ascii.eqb_spec slash c); done.
      * intros (H & Ha & Hb). destruct a as [|c' a].
        { cbn in H. destruct Hb as [->|[b' ->]]; [done|]. exfalso. apply Hne. now injection H. }
        injection H as <- H. unfold no_char in Ha. cbn [all_chars] in Ha.
        apply andb_prop in Ha as [_ Ha].
        assert (E : (x, y) = (a, b)) by (apply IH; split; [done|]; now split).
        now injection E as <- <-.
Qed.

Lemma strip_string_spec p s r : strip_string p s = Some r <-> s = p +:+ r.
Proof.
  revert s. induction p as [|c p IH]; intros s; cbn; [naive_solver|].
  destruct s as [|c' s]; [done|]. destruct (Ascii.eqb_spec c c') as [<-|].
  - rewrite IH. naive_solver.
  - naive_solver.
Qed.

Lemma kbs_pattern_iff path b a :
  kbs_pattern path = Some (b, a) <->
  path = KBS_PREFIX +:+ "/" +:+ b +:+ a /\ b <> "" /\ no_char slash b = true /\
  (a = "" \/ exists a', a = String.String slash a').
Proof.
  unfold kbs_pattern. unfold mbind, option_bind.
  destruct (strip_string _ path) as [rest|] eqn:E.
  - apply strip_string_spec in E as ->. destruct (until_slash rest) as [x y] eqn:Eu.
    pose proof Eu as (-> & Hx & Hy)%until_slash_spec. destruct (String.eqb_spec x "") as [->|Hne].
    + split; [done|]. intros (H & Hb & Hn & Ha). cbn in H. exfalso.
      assert (E' : until_slash y = (b, a)) by (apply until_slash_spec; split; [congruence|]; done).
      cbn [String.append] in Eu. rewrite Eu in E'. injection E' as <- _. done.
    + split; [intros [= <- <-]; done|]. intros (H & Hb & Hn & Ha). cbn in H.
      assert (E' : until_slash (x +:+ y) = (b, a)) by (apply until_slash_spec; split; [congruence|]; done).
      rewrite Eu in E'. now injection E' as <- <-.
  - split; [done|]. intros (-> & _). cbn in E. done.
Qed.

Lemma kbs_pattern_of b a :
  b <> "" -> no_char slash b = true -> (a = "" \/ exists a', a = String.String slash a') ->
  kbs_pattern (KBS_PREFIX +:+ "/" +:+ b +:+ a) = Some (b, a).
Proof. intros. now apply kbs_pattern_iff. Qed.

(** Which paths reach the handler, and as what.  A path is matched exactly
    when it is the prefix followed by a base path (not empty, no slash) and an
    additional path that is empty or starts with a slash; the two are uniquely
    determined. *)
Theorem kbs_pattern_spec path b a :
  kbs_pattern path = Some (b, a) <->
  path = KBS_PREFIX +:+ "/" +:+ b +:+ a /\ b <> "" /\ no_char slash b = true /\
  (a = "" \/ exists a', a = String.String slash a').
Proof. exact (kbs_pattern_iff path b a). Qed.

(** No plain sockets by accident.  Unless [insecure_http] is set, a server
    that starts has TLS, with the configured key and certificate; without
    either of them it does not start.  A server never panics here. *)
Theorem server_tls config fs :
  server config fs <> Panic /\
  (insecure_http config = false -> private_key config = None \/ certificate config = None ->
   exists e, server config fs = Err (HTTPSFailed e)) /\
  forall s, server config fs = Ok s ->
    (insecure_http config = true /\ s = PlainServer (sockets config)) \/
    (insecure_http config = false /\ exists b0 b1 b2 key cert,
       s = TlsServer b2 (sockets config) /\ private_key config = Some key /\ certificate config = Some cert /\
       mozilla_modern = Some b0 /\ set_private_key_file b0 key fs = Some b1 /\
       set_certificate_chain_file b1 cert fs = Some b2).
Proof.
  unfold server, tls_config, ok_or, mbind, outcome_bind.
  destruct (insecure_http config); cbn [negb];
    [destruct (bind_sockets _); split_and!; try done; intros s [= <-]; left; done|].
  destruct (certificate config) as [cert|]; cbn; [|naive_solver].
  destruct (private_key config) as [key|]; cbn; [|naive_solver].
  destruct mozilla_modern as [b0|]; cbn; [|naive_solver].
  destruct (set_private_key_file b0 key fs) as [b1|] eqn:E1; cbn; [|naive_solver].
  destruct (set_certificate_chain_file b1 cert fs) as [b2|] eqn:E2; cbn; [|naive_solver].
  destruct (bind_sockets _); split_and!; try done; try naive_solver.
Qed.

(** A request that the application answers and that does not reach the handler
    changes nothing but metrics. *)
Lemma routed_same env core limit r w w' resp :
  (forall b a, endpoint (raw_method r) (raw_path r) = EP_Api b a -> limit < len (raw_body r)) ->
  routed env core limit r w = (w', resp) -> w' = w.
Proof.
  unfold routed, limited_api. intros Hn.
  destruct (endpoint _ _) as [b a| | |] eqn:E.
  - rewrite (proj2 (Z.ltb_lt _ _) (Hn b a eq_refl)). now intros [= <- _].
  - unfold metrics_response, prometheus_metrics_handler. exec.
    destruct (export_metrics _); cbn; now intros [= <- _].
  - now intros [= <- _].
  - now intros [= <- _].
Qed.
End HttpServer.

(** ** Witness *)
Lemma payload_limit_spec_witness :
  payload_limit (P := false) {| sockets := []; private_key := None; certificate := None; insecure_http := true;
    payload_request_size := 4096 |} = Ok 0.
Proof.
  refine (proj2 (payload_limit_spec (P := false) {| sockets := []; private_key := None; certificate := None;
    insecure_http := true; payload_request_size := 4096 |} _) _); cbn; lia.
Defined.
