(* ===== verification/Config.v ===== *)
(** * Configuration of the services

    The records a configuration file is read into, with their defaults:
    [kbs/src/config.rs], [kbs/src/attestation/config.rs] and [coco/grpc.rs],
    [attestation-service/src/config.rs] and [rvps/mod.rs], and [rvps/src/config.rs]
    with [storage]; how a file is loaded; and the start of the RVPS.  Reading a
    record from a text ([config], [serde]) is a parameter. *)
From S2P Require Import Prelude Types Text Fs Json Policy Resource Token Rvps Brokers AsPolicy Verifier AsService Nvidia Tpm Verifiers ApiServer RemoteStores Pkcs11 NebulaCa Plugins HttpServer Ita.

(** ** The reference value provider service *)
Inductive ReferenceValueStorageConfig :=
| StorageLocalFs (file_path : string)
| StorageLocalJson (file_path : string).

Definition storage_config_default : ReferenceValueStorageConfig := StorageLocalFs SLED_FILE_PATH.

(** [rvps::Config]; the configuration of the SWID extractor has no fields. *)
Record RvpsCrateConfig := {
  storage : ReferenceValueStorageConfig;
  extractors : option (option unit);
}.

Definition rvps_crate_config_default : RvpsCrateConfig :=
  {| storage := storage_config_default; extractors := None |}.

(** ** The attestation service *)
Inductive RvpsConfig :=
| BuiltIn (config : RvpsCrateConfig)
| GrpcRemote (address : string).

Definition rvps_config_default : RvpsConfig := BuiltIn rvps_crate_config_default.

Section Config.
Context `{DA : DeviceArchitectures}.
(** The environment variable [AS_WORK_DIR], and the name of the build. *)
Context (as_work_dir : option string) (build : string).

Record AsConfig := {
  work_dir : string;
  rvps_config : RvpsConfig;
  attestation_token_broker : AttestationTokenConfig;
  verifier_config : option VerifierConfig;
}.

Definition default_work_dir : string := default Brokers.DEFAULT_WORK_DIR as_work_dir.

Definition as_config_default : AsConfig := {|
  work_dir := default_work_dir;
  rvps_config := rvps_config_default;
  attestation_token_broker := attestation_token_config_default build;
  verifier_config := None;
|}.

(** ** The key broker service *)
Definition DEFAULT_AS_ADDR : string := "http://127.0.0.1:50004".
Definition DEFAULT_POOL_SIZE : Z := 100.

Record GrpcConfig := {
  as_addr : string;
  pool_size : Z;
}.

Definition grpc_config_default : GrpcConfig := {| as_addr := DEFAULT_AS_ADDR; pool_size := DEFAULT_POOL_SIZE |}.

Definition DEFAULT_TIMEOUT : Z := 5.

Inductive AttestationServiceConfig :=
| CoCoASBuiltIn (config : AsConfig)
| CoCoASGrpc (config : GrpcConfig)
| IntelTA (config : IntelTrustAuthorityConfig).

(** With the default features the built-in service is the default. *)
Definition attestation_service_config_default : AttestationServiceConfig := CoCoASBuiltIn as_config_default.

Record AttestationConfig := {
  attestation_service : AttestationServiceConfig;
  timeout : Z;
}.

Definition attestation_config_default : AttestationConfig :=
  {| attestation_service := attestation_service_config_default; timeout := DEFAULT_TIMEOUT |}.

Record KbsConfig := {
  attestation_token : AttestationTokenVerifierConfig;
  kc_attestation_service : AttestationConfig;
  http_server : HttpServerConfig;
  admin : AdminConfig;
  policy_engine : PolicyEngineConfig;
  plugins : list FullPluginsConfig;
}.

(** The derived [Default]: the default of every field. *)
Definition kbs_config_default : KbsConfig := {|
  attestation_token := {| cfg_extra_teekey_paths := []; trusted_certs_paths := []; cfg_trusted_jwk_sets := [];
                          cfg_insecure_key := false |};
  kc_attestation_service := attestation_config_default;
  http_server := http_server_config_default;
  admin := admin_config_default;
  policy_engine := policy_engine_config_default;
  plugins := [];
|}.

(** ** Loading *)
Class ConfigCrates := {
  (** [config::Config]: the sources of a file, in any supported format *)
  RawConfig : Type;
  config_build : string -> Fs -> option RawConfig;
  (** the derived deserializers *)
  kbs_config_deserialize : RawConfig -> option KbsConfig;
  rvps_config_deserialize : RawConfig -> option RvpsCrateConfig;
  as_config_from_reader : bytes -> option AsConfig;
}.

Context `{D : Disk} `{CF : ConfigCrates}.

(** [KbsConfig::try_from]. *)
Definition kbs_config_try_from (config_path : string) (fs : Fs) : outcome anyhow KbsConfig :=
  c ← ok_or "config" (config_build config_path fs);
  ok_or "invalid config" (kbs_config_deserialize c).

(** [rvps::Config::from_file]. *)
Definition rvps_config_from_file (config_path : string) (fs : Fs) : outcome anyhow RvpsCrateConfig :=
  c ← ok_or "config" (config_build config_path fs);
  ok_or "invalid config" (rvps_config_deserialize c).

(** [attestation_service::Config::try_from]. *)
Inductive ConfigError := IO | JsonFileParse.

Definition as_config_try_from (config_path : string) : st Fs ConfigError AsConfig :=
  file ← st_map_err (fun _ => IO) (fs_read config_path);
  st_lift (ok_or JsonFileParse (as_config_from_reader file)).

(** The configuration the binaries of the attestation service start with. *)
Definition as_start_config (config_file : option string) : st Fs ConfigError AsConfig :=
  match config_file with
  | Some path => as_config_try_from path
  | None => mret as_config_default
  end.

(** [main] of the RVPS: a configuration that cannot be read is replaced by the
    default. *)
Definition rvps_start_config (path : string) (fs : Fs) : RvpsCrateConfig :=
  match rvps_config_from_file path fs with
  | Ok c => c
  | _ => rvps_crate_config_default
  end.
End Config.
