(* ===== verification/StartUp.v ===== *)
(** * Starting the services from their configuration

    The reference value service ([rvps/src/lib.rs], [server], [bin/rvps.rs]) with
    its storage and extractors, and its command-line client ([client],
    [bin/rvps-tool.rs]); the attestation service ([attestation-service/src/lib.rs])
    behind gRPC ([bin/grpc/mod.rs]) and REST ([bin/restful-as.rs]); and the KBS
    ([kbs/src/attestation/backend.rs], [api_server.rs], [bin/kbs.rs]).  Here the
    components the other files model are put together the way a configuration
    says. *)
From S2P Require Import Prelude Types Text Metrics Session Attestation Fs Json Policy Resource Token Jwe AsPolicy Brokers Rvps TcgEvents EventParsers EventLog Verifier Spdm Nvidia IntelDcap TdxQuote Tdx Sgx Snp AzVtpm Tpm Hygon Cca Se AsService Verifiers ApiServer RemoteStores Pkcs11 NebulaCa Ita AsFrontends Plugins HttpServer Config.

(** ** A component of a larger state *)
Section Lift.
Context {S T : Type} (get : S -> T) (set : T -> S -> S).

Definition storage_on (B : ReferenceValueStorage T) : ReferenceValueStorage S := {|
  rvs_set n rv := st_on get set (rvs_set n rv);
  rvs_get n := st_on get set (rvs_get n);
  rvs_get_values := st_on get set rvs_get_values;
|}.

Definition rvps_on (R : RvpsApi T) : RvpsApi S := {|
  rvps_verify_and_extract now m := st_on get set (rvps_verify_and_extract now m);
  rvps_get_digests now := st_on get set (rvps_get_digests now);
|}.

Definition broker_on (B : AttestationTokenBroker T) : AttestationTokenBroker S := {|
  issue now id claims ids refs := st_on get set (issue now id claims ids refs);
  broker_set_policy id p := st_on get set (broker_set_policy id p);
  broker_list_policies := st_on get set broker_list_policies;
  broker_get_policy id := st_on get set (broker_get_policy id);
|}.

Definition attest_on (A : Attest T) : Attest S := {|
  attest_set_policy id p := st_on get set (attest_set_policy id p);
  attest_verify l := st_on get set (attest_verify l);
  attest_generate_challenge t p := st_on get set (attest_generate_challenge t p);
  attest_register_reference_value m := st_on get set (attest_register_reference_value m);
  attest_query_reference_values := st_on get set attest_query_reference_values;
|}.
End Lift.

(** ** What the services work on

    The files, the database at the configured path, and the machines reached
    over the network. *)
Record Services (DB R : Type) := {
  sv_fs : Fs;
  sv_db : DB;
  sv_remote : R;
}.
Arguments sv_fs {DB R} _.
Arguments sv_db {DB R} _.
Arguments sv_remote {DB R} _.

Section Parts.
Context {DB R : Type}.
Implicit Types s : Services DB R.

Definition set_sv_fs (fs : Fs) s : Services DB R := {| sv_fs := fs; sv_db := sv_db s; sv_remote := sv_remote s |}.
Definition set_sv_db (db : DB) s : Services DB R := {| sv_fs := sv_fs s; sv_db := db; sv_remote := sv_remote s |}.
Definition set_sv_remote (r : R) s : Services DB R := {| sv_fs := sv_fs s; sv_db := sv_db s; sv_remote := r |}.

Definition on_sv_fs {E A} : st Fs E A -> st (Services DB R) E A := st_on sv_fs set_sv_fs.
Definition on_sv_db {E A} : st DB E A -> st (Services DB R) E A := st_on sv_db set_sv_db.
Definition on_sv_remote {E A} : st R E A -> st (Services DB R) E A := st_on sv_remote set_sv_remote.
End Parts.

(** [sled::open], which creates a database that does not exist. *)
Class SledOpen (DB : Type) := sled_open : string -> st DB anyhow unit.

Class SledOpenSpec {DB} (O : SledOpen DB) (entries : DB -> gmap string bytes) : Prop := {
  open_sled : forall path d d' r, sled_open path d = (d', r) -> r <> Panic /\ entries d' = entries d;
}.

(** The services at the addresses of the network. *)
Class Network (R : Type) := {
  rvps_connect : string -> st R anyhow unit;
  rvps_at : string -> RvpsApi R;
  as_pool_get : string -> Z -> outcome anyhow unit;
  as_broker_at : string -> AttestationTokenBroker R;
  as_rvps_at : string -> RvpsApi R;
  as_verifiers_at : string -> Tee -> outcome anyhow Verifier;
}.

(** ** The reference value provider service *)
Abbreviation Extractor := (Z -> string -> option (outcome anyhow (list ReferenceValue))).

Section Extractors.
Context `{C : RvpsCrates}.

(** [SampleExtractor] and [SwidExtractor::new]. *)
Definition sample_extractor : Extractor := fun now provenance => Some (sample_verify_and_extract now provenance).
Definition swid_extractor_new (_config : option unit) : outcome anyhow Extractor := Ok swid_verify_and_extract.

(** [Extractors::new] and [process]. *)
Definition extractors_new (config : option (option unit)) : outcome anyhow (gmap string Extractor) :=
  let extractor_map : gmap string Extractor := <["sample" := sample_extractor]> ∅ in
  let swid_config := match config with Some c => c | None => None end in
  swid ← swid_extractor_new swid_config;
  Ok (<["swid" := swid]> extractor_map).

Definition extractors_process (extractor_map : gmap string Extractor) (now : Z) (message : Message) :
    option (outcome anyhow (list ReferenceValue)) :=
  match extractor_map !! type_ message with
  | Some extractor => extractor now (payload message)
  | None => Some (Err "Could not find extractor")
  end.
End Extractors.

(** [Rvps]. *)
Record Rvps (S : Type) := {
  rvps_extractors : gmap string Extractor;
  rvps_storage : ReferenceValueStorage S;
}.
Arguments rvps_extractors {S} _.
Arguments rvps_storage {S} _.

Section RvpsStart.
Context {DB R : Type} `{D : Disk} `{C : RvpsCrates} `{B : Sled DB} `{O : !SledOpen DB} `{N : !Network R} `{FC : FrontCrates}.
Abbreviation services := (Services DB R).

(** [ReferenceValueStorageConfig::to_storage]. *)
Definition to_storage (config : ReferenceValueStorageConfig) : st services anyhow (ReferenceValueStorage services) :=
  match config with
  | StorageLocalFs file_path =>
      on_sv_db (sled_open file_path);;
      mret (storage_on sv_db set_sv_db local_fs_storage)
  | StorageLocalJson file_path =>
      l ← on_sv_fs (local_json_new file_path);
      mret (storage_on sv_fs set_sv_fs (local_json_storage l))
  end.

(** [Rvps::new]. *)
Definition rvps_new (config : RvpsCrateConfig) : st services anyhow (Rvps services) :=
  extractors ← st_lift (extractors_new (extractors config));
  storage ← to_storage (storage config);
  mret {| rvps_extractors := extractors; rvps_storage := storage |}.

(** [Rvps::verify_and_extract] with the extractors of the service, and
    [BuiltinRvps]. *)
Definition rvps_verify {S} (r : Rvps S) (now : Z) (message : string) : st S anyhow unit :=
  m ← st_lift (ok_or "parse message" (message_from_str message));
  let '(v, p, t) := m in
  let message := Build_Message v p t in
  if negb (String.eqb (Rvps.version message) MESSAGE_VERSION) then st_err "Version unmatched!"
  else
    rv ← st_lift (default Panic (extractors_process (rvps_extractors r) now message));
    store_all (B := rvps_storage r) rv.

Definition rvps_instance {S} (r : Rvps S) : RvpsApi S := {|
  rvps_verify_and_extract := rvps_verify r;
  rvps_get_digests := get_digests (B := rvps_storage r);
|}.

(** [Agent::new]. *)
Definition agent_new (addr : string) : st services anyhow (RvpsApi services) :=
  on_sv_remote (rvps_connect addr);;
  mret (rvps_on sv_remote set_sv_remote (agent_rvps (R := rvps_at addr))).

(** [initialize_rvps_client]. *)
Definition initialize_rvps_client (config : RvpsConfig) : st services anyhow (RvpsApi services) :=
  match config with
  | BuiltIn config => r ← rvps_new config; mret (rvps_instance r)
  | GrpcRemote address => agent_new address
  end.

(** [main] of the RVPS and [server::start]: the socket it serves on, and the
    service. *)
Context `{DA : DeviceArchitectures} `{CF : !ConfigCrates} (parse_socket : string -> option string).

Definition rvps_main (config address : string) : st services anyhow (string * Rvps services) :=
  fs ← st_gets sv_fs;
  let config := rvps_start_config config fs in
  socket ← st_lift (ok_or "parse socket addr failed" (parse_socket address));
  service ← rvps_new config;
  mret (socket, service).

(** ** The command-line client: [client::register], [client::query], [rvps-tool] *)
Definition rvps_client_register (now : Z) (address message : string) : st R anyhow unit :=
  rvps_connect address;;
  rpc (rvps_server_register (R := rvps_at address) now message).

Definition rvps_client_query (now : Z) (address : string) : st R anyhow string :=
  rvps_connect address;;
  rpc (rvps_server_query (R := rvps_at address) now).

Definition DEFAULT_RVPS_ADDR : string := "http://127.0.0.1:50003".

Inductive RvpsCli :=
| RvpsRegister (addr path : string)
| RvpsQuery (addr : string).

(** What is logged: nothing, or the reference values. *)
Definition rvps_tool (now : Z) (cli : RvpsCli) : st services anyhow (option string) :=
  match cli with
  | RvpsRegister addr provenance_path =>
      message ← on_sv_fs (fs_read provenance_path);
      message ← st_lift (ok_or "read provenance" (from_utf8 message));
      on_sv_remote (rvps_client_register now addr message);;
      mret None
  | RvpsQuery addr =>
      rvs ← on_sv_remote (rvps_client_query now addr);
      mret (Some rvs)
  end.
End RvpsStart.

(** ** The attestation service *)

(** [ServiceError] and [GrpcError]. *)
Inductive ServiceError :=
| SE_IO (e : anyhow)
| SE_CreateDir (e : anyhow)
| SE_UnsupportedPolicy (e : anyhow)
| SE_Rvps (e : anyhow)
| SE_Anyhow (e : anyhow).

Definition service_error_display (e : ServiceError) : anyhow :=
  match e with
  | SE_IO e => "io error: " +:+ e
  | SE_CreateDir e => "Create AS work dir failed: " +:+ e
  | SE_UnsupportedPolicy e => "Policy Engine is not supported: " +:+ e
  | SE_Rvps e => "Create rvps failed: " +:+ e
  | SE_Anyhow e => e
  end.

Inductive GrpcError :=
| GE_Config (e : ConfigError)
| GE_Service (e : ServiceError)
| GE_TonicTransport (e : anyhow).

(** [AttestationService]: the reference value service, the token broker and the
    verifiers of the configuration. *)
Record AsService (S : Type) := {
  as_rvps : RvpsApi S;
  as_broker : AttestationTokenBroker S;
  as_verifiers : Tee -> outcome anyhow Verifier;
}.
Arguments as_rvps {S} _.
Arguments as_broker {S} _.
Arguments as_verifiers {S} _ _.

(** [configure_cors]: what is allowed to whom. *)
Record Cors := {
  cors_allowed_origins : list string;
  cors_allowed_methods : list string;
  cors_allowed_headers : list string;
  cors_max_age : Z;
}.

Definition valid_origin (ori : string) : bool := String.prefix "http://" ori || String.prefix "https://" ori.

Definition configure_cors (allowed_origin : list string) : Cors :=
  let origins := List.filter (fun s => negb (String.eqb s "")) (map trim (concat (map (split_on ",") allowed_origin))) in
  {| cors_allowed_origins := List.filter valid_origin origins;
     cors_allowed_methods := ["POST"; "GET"; "OPTIONS"];
     cors_allowed_headers := ["content-type"; "authorization"];
     cors_max_age := 86400 |}.

(** [RestfulError], and the command line. *)
Inductive RestfulError :=
| RE_Service (e : ServiceError)
| RE_Config (e : ConfigError)
| RE_Openssl
| RE_ReadHttpsKey (e : anyhow)
| RE_ReadHttpsKeyFromPem
| RE_SetPrivateKey
| RE_SetHttpsCert
| RE_IO.

Record RestCli := {
  rest_config_file : option string;
  rest_socket : string;
  rest_https_pubkey_cert : option string;
  rest_https_prikey : option string;
  rest_allowed_origin : list string;
}.

Class RestTls `{TlsCrates} := {
  RestPKey : Type;
  private_key_from_pem : bytes -> option RestPKey;
  set_private_key : SslAcceptorBuilder -> RestPKey -> option SslAcceptorBuilder;
}.

Section AsStart.
Context {DB R : Type} `{D : Disk} `{C : RvpsCrates} `{B : Sled DB} `{O : !SledOpen DB} `{N : !Network R} `{FC : FrontCrates}.
Context `{P : Profile} `{EVC : EventCrates} `{DC : DcapCrates} `{VC : VerifierCrates}.
Context `{TDC : TdxCrates} `{SGX : SgxCrates} `{AZ : AzCrates} `{TP : !TpmCrates} `{CC : CsvCrates} `{CS : !CsvSerde}.
Context `{CA : CcaCrates} `{SE : SeCrates} `{SS : !SeSerde} `{DA : DeviceArchitectures} `{NC : !NvidiaCrates}.
Context `{AP : AsPolicyCrates} `{BC : BrokerCrates} `{T : TimeCrate} `{EC : EarCrate} `{CF : !ConfigCrates}.
Context `{TL : TlsCrates} `{RT : !RestTls}.
Context (ear_sign : Ear -> EarJwk -> EcKey -> option string).
Context (simple_default_policy ear_default_policy_cpu ear_default_policy_gpu : string).
(** What the verifiers find: the features of the build, the environment, the
    files of the verifiers, and the cell of the IBM verifier. *)
Context (feature : string -> bool) (env_var : string -> option string) (verifier_files : Fs)
  (se_cell : option SeVerifierImpl).
Context (as_work_dir : option string) (build : string).
Abbreviation services := (Services DB R).

(** [AttestationService::new]. *)
Definition svc_new (config : AsConfig) : st services ServiceError (AsService services) :=
  there ← st_gets (fun s => path_exists (sv_fs s) (work_dir config));
  (if there : bool then mret tt
   else st_map_err SE_CreateDir (on_sv_fs (create_dir_all (work_dir config))));;
  rvps ← st_map_err SE_Rvps (initialize_rvps_client (rvps_config config));
  token_broker ← st_map_err SE_Anyhow
    (on_sv_fs (to_token_broker ear_sign simple_default_policy ear_default_policy_cpu ear_default_policy_gpu
                 (attestation_token_broker config)));
  mret {| as_rvps := rvps; as_broker := broker_on sv_fs set_sv_fs token_broker;
          as_verifiers := trustee_verifier feature (verifier_config config) env_var verifier_files se_cell |}.

(** [grpc::start] up to serving: [AttestationServer::new]. *)
Definition grpc_as_start (config_path : option string) : st services GrpcError (AsService services) :=
  config ← st_map_err GE_Config (on_sv_fs (as_start_config as_work_dir build config_path));
  st_map_err GE_Service (svc_new config).

(** [main] of the RESTful server. *)
Definition rest_listen (cli : RestCli) (fs : Fs) : outcome RestfulError Server :=
  match rest_https_prikey cli, rest_https_pubkey_cert cli with
  | Some prikey, Some pubkey_cert =>
      builder ← ok_or RE_Openssl mozilla_modern;
      prikey ← map_err RE_ReadHttpsKey (fs_read prikey fs).2;
      prikey ← ok_or RE_ReadHttpsKeyFromPem (private_key_from_pem prikey);
      builder ← ok_or RE_SetPrivateKey (set_private_key builder prikey);
      builder ← ok_or RE_SetHttpsCert (set_certificate_chain_file builder pubkey_cert fs);
      if bind_sockets [rest_socket cli] then Ok (TlsServer builder [rest_socket cli]) else Err RE_IO
  | _, _ => if bind_sockets [rest_socket cli] then Ok (PlainServer [rest_socket cli]) else Err RE_IO
  end.

Definition rest_as_main (cli : RestCli) : st services RestfulError (AsService services * Cors * Server) :=
  config ← st_map_err RE_Config (on_sv_fs (as_start_config as_work_dir build (rest_config_file cli)));
  attestation_service ← st_map_err RE_Service (svc_new config);
  fs ← st_gets sv_fs;
  server ← st_lift (rest_listen cli fs);
  mret (attestation_service, configure_cors (rest_allowed_origin cli), server).

(** ** The KBS *)
Context `{KC : KbsCrates} `{AC : AsCrates} `{TC : TokenCrates} `{IC : !ItaCrates}.

(** The attestation module of [AttestationService::new]; it draws the clock and
    the random source of each call. *)
Definition attestation_module (config : AttestationServiceConfig) :
    st services AttestationError (AsEnv -> Attest services) :=
  match config with
  | CoCoASBuiltIn cfg =>
      built_in_as ← st_map_err (fun e => AttestationServiceInitialization (service_error_display e)) (svc_new cfg);
      mret (fun env => builtin_coco_as (TB := as_broker built_in_as) (R := as_rvps built_in_as)
                         (as_verifiers built_in_as) env)
  | CoCoASGrpc cfg =>
      mret (fun env => attest_on sv_remote set_sv_remote
              (grpc_client_pool (TB := as_broker_at (as_addr cfg)) (R := as_rvps_at (as_addr cfg))
                 (as_verifiers_at (as_addr cfg)) (as_pool_get (as_addr cfg) (pool_size cfg)) env))
  | IntelTA cfg =>
      intel_ta ← st_map_err AttestationServiceInitialization (on_sv_fs (ita_new cfg));
      mret (fun env => ita_attest intel_ta (t_issue env) (rng env))
  end.

(** [AttestationService::new]: no sessions, the configured time-out. *)
Definition attestation_service_new (config : AttestationConfig) :
    st (AttestationService services) AttestationError (AsEnv -> Attest services) :=
  module ← st_on inner set_inner (attestation_module (attestation_service config));
  st_modify (fun s => service_new (inner s) (timeout config) (metrics s));;
  mret module.
End AsStart.

Section KbsStart.
Context {DB R V K M : Type} `{D : Disk} `{C : RvpsCrates} `{B : Sled DB} `{O : !SledOpen DB} `{N : !Network R} `{FC : FrontCrates}.
Context `{P : Profile} `{EVC : EventCrates} `{DC : DcapCrates} `{VC : VerifierCrates}.
Context `{TDC : TdxCrates} `{SGX : SgxCrates} `{AZ : AzCrates} `{TP : !TpmCrates} `{CC : CsvCrates} `{CS : !CsvSerde}.
Context `{CA : CcaCrates} `{SE : SeCrates} `{SS : !SeSerde} `{DA : DeviceArchitectures} `{NC : !NvidiaCrates}.
Context `{PC : PolicyCrates} `{AP : !AsPolicyCrates} `{BC : BrokerCrates} `{T : TimeCrate} `{EC : EarCrate} `{CF : !ConfigCrates}.
Context `{TL : TlsCrates} `{KC : KbsCrates} `{AC : AsCrates} `{TC : TokenCrates} `{IC : !ItaCrates}.
Context `{HA : HttpAuth} `{J : JwtSimple} `{VLT : VaultCrates V} `{ALI : AliyunCrates K}
  `{CK : Cryptoki M} `{NEB : NebulaCrates}.
Context (ear_sign : Ear -> EarJwk -> EcKey -> option string).
Context (simple_default_policy ear_default_policy_cpu ear_default_policy_gpu : string).
Context (feature : string -> bool) (env_var : string -> option string) (verifier_files : Fs)
  (se_cell : option SeVerifierImpl).
Abbreviation world := (World (I := Services DB R) (X := Externals V K M)).

(** [ApiServer::new]. *)
Definition kbs_new (config : KbsConfig) :
    st world Error (ApiServer (I := Services DB R) (X := Externals V K M) * (AsEnv -> Attest (Services DB R))) :=
  plugin_manager ← st_map_err PluginManagerInitialization (full_manager_try_from (plugins config));
  token_verifier ← st_map_err TokenVerifierError (on_fs (token_verifier_from_config (attestation_token config)));
  policy_engine ← st_map_err E_PolicyEngine (on_fs (engine_new (policy_engine config)));
  admin_auth ← st_map_err AdminAuth (on_fs (admin_try_from (admin config)));
  attestation_service ← st_map_err E_AttestationError
    (on_as (attestation_service_new ear_sign simple_default_policy ear_default_policy_cpu ear_default_policy_gpu
              feature env_var verifier_files se_cell (kc_attestation_service config)));
  st_modify (count_in (inc BUILD_INFO));;
  mret ({| plugin_manager := plugin_manager; ApiServer.policy_engine := policy_engine;
           admin_auth := admin_auth; token_verifier := token_verifier |}, attestation_service).

(** [main] of the KBS up to serving. *)
Definition kbs_main (config_file : string) :
    st world anyhow (ApiServer (I := Services DB R) (X := Externals V K M) * (AsEnv -> Attest (Services DB R)) * Server) :=
  fs ← st_gets w_fs;
  kbs_config ← st_lift (kbs_config_try_from config_file fs);
  '(api_server, attestation_service) ← st_map_err error_display (kbs_new kbs_config);
  fs ← st_gets w_fs;
  server ← st_map_err error_display (st_lift (server (http_server kbs_config) fs));
  mret (api_server, attestation_service, server).
End KbsStart.
