(* ===== verification/StartUpProofs.v ===== *)
(** * Properties of the start-up

    Whichever storage a configuration chooses, the reference value service that
    starts is the one of [RvpsProofs]; what its command-line client registers is
    what it prints; a KBS that starts is guarded the way its configuration says;
    and the RESTful server opens plain sockets unless it has both TLS files. *)
From S2P Require Import Prelude Types Text Metrics Session Attestation Handshake Fs Json Policy Resource Token Jwe AsPolicy Brokers BrokersProofs Rvps RvpsProofs TcgEvents EventParsers EventLog Verifier Spdm Nvidia NvidiaProofs IntelDcap TdxQuote Tdx TdxProofs Sgx SgxProofs Snp SnpProofs AzVtpm AzVtpmProofs Tpm TpmProofs Hygon HygonProofs Cca CcaProofs Se SeProofs AsService AsServiceProofs Verifiers ApiServer Access RemoteStores Pkcs11 Pkcs11Proofs NebulaCa NebulaCaProofs Ita ItaProofs AsFrontends AsFrontendsProofs Plugins HttpServer Config StartUp.

(** ** A storage that is part of a larger state *)
Lemma storage_on_spec {S T} (get : S -> T) (set : T -> S -> S) (B : ReferenceValueStorage T) ok contents :
  (forall t s, get (set t s) = t) -> (forall s, set (get s) s = s) ->
  StorageSpec B ok contents ->
  StorageSpec (storage_on get set B) (fun s => ok (get s)) (fun s => contents (get s)).
Proof.
  intros Hgs Hsg H.
  assert (set_set : forall t s, set t (set t s) = set t s).
  { intros t s. rewrite <- (Hgs t s) at 1. apply Hsg. }
  constructor; cbn; unfold st_on.
  - intros rv s s' r Hok Hrv E. destruct (rvs_set (rv_name rv) rv (get s)) as [t r0] eqn:Es.
    injection E as <- <-. rewrite Hgs. destruct (set_spec _ _ _ _ Hok Hrv Es) as (H1 & H2 & H3).
    split; [done|]. split; [|done]. destruct H2 as [H2|[H2 Hs]]; [now left|right]. split; [done|].
    constructor; cbn; unfold st_on; rewrite ?Hgs.
    + intros n v. destruct (stuck_set _ _ Hs n v) as [e ->]. rewrite set_set. eauto.
    + intros n. destruct (stuck_get _ _ Hs n) as [e ->]. rewrite set_set. eauto.
    + destruct (stuck_get_values _ _ Hs) as [e ->]. rewrite set_set. eauto.
  - intros n s s' r Hok E. destruct (rvs_get n (get s)) as [t r0] eqn:Es. injection E as <- <-.
    destruct (get_spec _ _ _ _ Hok Es) as (-> & ? & ?). now rewrite Hsg.
  - intros s s' r Hok E. destruct (rvs_get_values (get s)) as [t r0] eqn:Es. injection E as <- <-.
    destruct (get_values_spec _ _ _ Hok Es) as (-> & ? & ?). now rewrite Hsg.
Qed.

(** ** The reference value service *)
Section Extraction.
Context `{C : RvpsCrates}.

Lemma extractors_process_same config m now message :
  extractors_new config = Ok m -> extractors_process m now message = process now message.
Proof.
  intros [= <-]. unfold extractors_process, process.
  destruct (String.eqb_spec (type_ message) "sample") as [->|Hs]; [done|].
  destruct (String.eqb_spec (type_ message) "swid") as [->|Hw]; [done|].
  now rewrite !lookup_insert_ne by congruence.
Qed.

(** With the extractors of a configuration, the service is the one of [Rvps]. *)
Lemma rvps_verify_same {S} config (r : Rvps S) now message s :
  extractors_new config = Ok (rvps_extractors r) ->
  rvps_verify r now message s = verify_and_extract (B := rvps_storage r) now message s.
Proof.
  intros He. unfold rvps_verify, verify_and_extract, mbind, st_bind.
  destruct (st_lift _ s) as [s1 [[[v p] t]|e|]]; [|done..].
  now rewrite (extractors_process_same _ _ _ _ He).
Qed.
End Extraction.

Section RvpsStarted.
Context {DB R : Type} `{D : Disk} `{C : RvpsCrates} (Spec : RvpsCratesSpec C).
Context `{B : Sled DB} {entries : DB -> gmap string bytes} (HB : SledSpec B entries).
Context `{O : !SledOpen DB} (HO : SledOpenSpec O entries).
Abbreviation services := (Services DB R).
Implicit Types s : services.

(** The part of the state a storage keeps its values in, and what it holds. *)
Definition store_ok (config : ReferenceValueStorageConfig) s : Prop :=
  match config with
  | StorageLocalFs _ => sled_ok (entries := entries) (sv_db s)
  | StorageLocalJson p => json_ok {| file_path := p |} (sv_fs s)
  end.

Definition store_contents (config : ReferenceValueStorageConfig) s : gmap string ReferenceValue :=
  match config with
  | StorageLocalFs _ => sled_contents (entries := entries) (sv_db s)
  | StorageLocalJson p => json_contents {| file_path := p |} (sv_fs s)
  end.

(** Nothing is stored yet, and there is room for the store. *)
Definition store_fresh (config : ReferenceValueStorageConfig) s s' : Prop :=
  match config with
  | StorageLocalFs _ => entries (sv_db s) = ∅
  | StorageLocalJson p => files (sv_fs s) !! resolve p = None /\ is_dir (sv_fs s') (resolve p) = false
  end.

Lemma sled_state_entries (d d' : DB) :
  entries d' = entries d ->
  (sled_ok (entries := entries) d -> sled_ok (entries := entries) d') /\
  sled_contents (entries := entries) d' = sled_contents (entries := entries) d.
Proof. intros E. unfold sled_ok, sled_contents. now rewrite E. Qed.

Lemma to_storage_spec config s s' (st : ReferenceValueStorage services) :
  to_storage config s = (s', Ok st) ->
  StorageSpec st (store_ok config) (store_contents config) /\ sv_remote s' = sv_remote s /\
  (store_ok config s -> store_ok config s' /\ store_contents config s' = store_contents config s) /\
  (store_fresh config s s' -> store_ok config s' /\ store_contents config s' = ∅).
Proof.
  intros H. destruct config as [p|p]; cbn in H.
  - unfold on_sv_db in H. inv_st. cbn. split; [|split; [done|]].
    + apply (storage_on_spec sv_db set_sv_db); [done|now intros []|]. exact (sled_storage_correct HB Spec).
    + match goal with Ho : sled_open _ _ = _ |- _ => apply open_sled in Ho as [_ Ho] end.
      destruct (sled_state_entries _ _ Hst0) as [Hk He]. split; [auto|].
      intros Hf. rewrite Hf in Hst0. unfold sled_ok, sled_contents. rewrite Hst0. split; [|now rewrite omap_empty].
      intros k v Hkv. now rewrite lookup_empty in Hkv.
  - unfold on_sv_fs in H. inv_st. cbn.
    match goal with Hn : local_json_new _ _ = (_, Ok ?l) |- _ =>
      apply (local_json_new_ok Spec {| file_path := p |}) in Hn as (-> & Hk & Hf) end.
    split; [|split; [done|split; [exact Hk|]]].
    + apply (storage_on_spec sv_fs set_sv_fs); [done|now intros []|].
      exact (json_storage_correct Spec {| file_path := p |}).
    + intros [Hn Hd]. auto.
Qed.

(** C25: whatever its configuration, a reference value service that starts is
    the specified one.  Its storage, a database or a JSON file, is a map from
    names to reference values; it processes messages as the service of [Rvps]
    over that map; starting keeps the values of a store that was there and makes
    an empty one otherwise, and touches no other machine. *)
Theorem rvps_started config s s' (r : Rvps services) :
  rvps_new config s = (s', Ok r) ->
  StorageSpec (rvps_storage r) (store_ok (storage config)) (store_contents (storage config)) /\
  (forall now message t, rvps_verify r now message t = verify_and_extract (B := rvps_storage r) now message t) /\
  sv_remote s' = sv_remote s /\
  (store_ok (storage config) s ->
     store_ok (storage config) s' /\ store_contents (storage config) s' = store_contents (storage config) s) /\
  (store_fresh (storage config) s s' ->
     store_ok (storage config) s' /\ store_contents (storage config) s' = ∅).
Proof.
  intros H. unfold rvps_new in H. inv_st. cbn [rvps_storage].
  match goal with Hs : to_storage _ _ = _ |- _ => apply to_storage_spec in Hs as (Hspec & Hr & Hk & Hf) end.
  split; [done|]. split; [|done]. intros now message t. now apply (rvps_verify_same (extractors config)).
Qed.
End RvpsStarted.

(** ** The command-line client *)
Section RvpsTool.
Context {DB R : Type} `{D : Disk} `{C : RvpsCrates} (Spec : RvpsCratesSpec C) `{N : !Network R} `{FC : FrontCrates}.
Context {r : Rvps R} {ok : R -> Prop} {contents : R -> gmap string ReferenceValue}.
Context (HS : StorageSpec (rvps_storage r) ok contents) (cfg : option (option unit)).
Context (He : extractors_new cfg = Ok (rvps_extractors r)).
Implicit Types s : Services DB R.

Lemma rpc_Ok {S A} (m : st S anyhow A) x x' a : rpc m x = (x', Ok a) <-> m x = (x', Ok a).
Proof. unfold rpc. destruct (m x) as [x1 [b|e|]]; naive_solver. Qed.

(** What the tool does to the service behind an address. *)
Lemma rvps_client_register_Ok now addr message x x' :
  rvps_at addr = rvps_instance r ->
  rvps_client_register now addr message x = (x', Ok tt) ->
  exists x1, rvps_connect addr x = (x1, Ok tt) /\
    verify_and_extract (B := rvps_storage r) now message x1 = (x', Ok tt).
Proof.
  intros Ha H. unfold rvps_client_register in H. inv_st. rewrite Ha in H. apply (proj1 (rpc_Ok _ _ _ _)) in H.
  unfold rvps_server_register in H. inv_st. cbn in H. rewrite (rvps_verify_same cfg) in H by done.
  destruct a. eauto.
Qed.

Lemma rvps_client_query_Ok now addr x x' text :
  rvps_at addr = rvps_instance r ->
  rvps_client_query now addr x = (x', Ok text) ->
  exists x1 m, rvps_connect addr x = (x1, Ok tt) /\
    get_digests (B := rvps_storage r) now x1 = (x', Ok m) /\ refs_to_string m = Some text.
Proof.
  intros Ha H. unfold rvps_client_query in H. inv_st. rewrite Ha in H. apply (proj1 (rpc_Ok _ _ _ _)) in H.
  unfold rvps_server_query in H. inv_st. inv_ok. cbn in Hst0. destruct a. eauto.
Qed.

(** What [rvps-tool register] sends, [rvps-tool query] prints.  After a
    registration that succeeds, a query that succeeds prints the reference values
    of the service: those it held, overwritten by the values the service's
    extractor found in the registered file, less the expired ones. *)
Theorem rvps_tool_roundtrip now later addr path s s1 s2 o text :
  (forall d xml, xml_parse d = Some xml -> Forall attrs_sized (descendants xml)) -> clock_ok now ->
  (forall a x x' c, rvps_connect a x = (x', c) -> x' = x) ->
  rvps_at addr = rvps_instance r -> ok (sv_remote s) ->
  rvps_tool now (RvpsRegister addr path) s = (s1, Ok o) ->
  rvps_tool later (RvpsQuery addr) s1 = (s2, Ok (Some text)) ->
  exists content message p t rvs,
    files (sv_fs s) !! resolve path = Some content /\ from_utf8 content = Some message /\
    message_from_str message = Some (MESSAGE_VERSION, p, t) /\
    process now (Build_Message MESSAGE_VERSION p t) = Some (Ok rvs) /\
    refs_to_string (current_digests later (register_all (contents (sv_remote s)) rvs)) = Some text.
Proof.
  intros Hx Hc Hconn Ha Hok Hreg Hq. cbn [rvps_tool] in Hreg, Hq.
  unfold on_sv_fs, on_sv_remote in Hreg, Hq. inv_st. inv_ok. simplify_eq. cbn [sv_fs sv_remote set_sv_fs set_sv_remote] in *.
  match goal with Hf : fs_read path _ = _ |- _ => apply fs_read_Ok in Hf as [-> Hf] end.
  repeat match goal with u : () |- _ => destruct u end.
  match goal with Hr : rvps_client_register _ _ _ _ = _ |- _ => pose proof (rvps_client_register_Ok _ _ _ _ _ Ha Hr) as (x1 & Hc1 & Hv) end.
  match goal with Hr : rvps_client_query _ _ _ = _ |- _ => pose proof (rvps_client_query_Ok _ _ _ _ _ Ha Hr) as (x2 & m & Hc2 & Hg & Ht) end.
  apply Hconn in Hc1 as ->. apply Hconn in Hc2 as ->.
  destruct (registration_updates_store (B := rvps_storage r) HS Spec _ _ _ _ _ Hx Hc Hok Hv)
    as (_ & Hok' & p & t & rvs & Hm & Hp & Hcont).
  destruct (get_digests_spec (B := rvps_storage r) HS _ _ _ _ Hok' Hg) as (_ & _ & Hdig).
  rewrite (Hdig m eq_refl), Hcont in Ht. eauto 12.
Qed.
End RvpsTool.

(** ** The RESTful server *)
Section Rest.
Context `{D : Disk} `{TL : TlsCrates} `{RT : !RestTls}.

(** Only web origins are ever allowed, each one trimmed text of the command line. *)
Lemma cors_origins_spec l o :
  o ∈ cors_allowed_origins (configure_cors l) <->
  valid_origin o = true /\ exists arg part, arg ∈ l /\ part ∈ split_on "," arg /\ o = trim part.
Proof.
  unfold configure_cors. cbn [cors_allowed_origins]. rewrite !list_elem_of_In, !List.filter_In. split.
  - intros [[Hin Hne] Hv]. split; [done|]. apply in_map_iff in Hin as (part & <- & Hin).
    apply in_concat in Hin as (parts & Hparts & Hpart). apply in_map_iff in Hparts as (arg & <- & Harg).
    exists arg, part. now rewrite !list_elem_of_In.
  - intros (Hv & arg & part & Harg & Hpart & ->). split; [|done]. rewrite list_elem_of_In in Harg, Hpart. split.
    + apply in_map, in_concat. exists (split_on "," arg). split; [|done]. now apply in_map.
    + destruct (String.eqb_spec (trim part) "") as [E|]; [|done]. now rewrite E in Hv.
Qed.

(** The transport of the RESTful server.  It has TLS exactly when both the
    key and the certificate are given; with only one of them it serves plain
    HTTP, without an error; a file that cannot be used stops it. *)
Theorem rest_listen_spec cli fs :
  rest_listen cli fs <> Panic /\
  (rest_https_prikey cli = None \/ rest_https_pubkey_cert cli = None ->
   rest_listen cli fs = if bind_sockets [rest_socket cli] then Ok (PlainServer [rest_socket cli]) else Err RE_IO) /\
  (forall l, rest_listen cli fs = Ok (PlainServer l) ->
     rest_https_prikey cli = None \/ rest_https_pubkey_cert cli = None) /\
  (forall b l, rest_listen cli fs = Ok (TlsServer b l) ->
     exists key_path cert content key b0 b1,
       rest_https_prikey cli = Some key_path /\ rest_https_pubkey_cert cli = Some cert /\
       files fs !! resolve key_path = Some content /\ private_key_from_pem content = Some key /\
       mozilla_modern = Some b0 /\ set_private_key b0 key = Some b1 /\
       set_certificate_chain_file b1 cert fs = Some b).
Proof.
  unfold rest_listen, ok_or, mbind, outcome_bind.
  destruct (rest_https_prikey cli) as [kp|]; [|destruct (bind_sockets _); naive_solver].
  destruct (rest_https_pubkey_cert cli) as [cert|]; [|destruct (bind_sockets _); naive_solver].
  destruct mozilla_modern as [b0|]; cbn; [|naive_solver].
  destruct (fs_read kp fs) as [fs' rd] eqn:Er. pose proof (fs_read_same _ _ _ _ Er) as [-> Hnp]. cbn.
  destruct rd as [content|e|]; cbn; [|naive_solver|done].
  apply fs_read_Ok in Er as [_ Ef].
  destruct (private_key_from_pem content) as [key|] eqn:Ek; cbn; [|naive_solver].
  destruct (set_private_key b0 key) as [b1|] eqn:E1; cbn; [|naive_solver].
  destruct (set_certificate_chain_file b1 cert fs) as [b2|] eqn:E2; cbn; [|naive_solver].
  destruct (bind_sockets _); naive_solver eauto 12.
Qed.
End Rest.

(** ** The KBS *)
Lemma opa_new_exists `{D : Disk} p fs fs' o : opa_new p fs = (fs', Ok o) -> path_exists fs' p = true.
Proof.
  intros H. unfold opa_new in H. inv_st.
  match goal with Hw : (if ?b then _ else _) _ = _ |- _ => destruct b eqn:Eb end.
  - now inv_st.
  - inv_st. match goal with Hw : fs_write _ _ _ = _ |- _ => apply fs_write_Ok in Hw as -> end.
    unfold path_exists. apply orb_true_iff. right. apply is_file_spec. cbn. rewrite lookup_insert_eq. eauto.
Qed.

Lemma server_plain `{TL : TlsCrates} config fs l :
  server config fs = Ok (PlainServer l) -> insecure_http config = true.
Proof.
  unfold server. destruct (insecure_http config); [done|]. cbn [negb]. intros H. inv_ok.
  now destruct (bind_sockets _).
Qed.

Section KbsStarted.
Context {DB R V K M : Type} `{D : Disk} `{C : RvpsCrates} `{B : Sled DB} `{O : !SledOpen DB} `{N : !Network R} `{FC : FrontCrates}.
Context `{P : Profile} `{EVC : EventCrates} `{DC : DcapCrates} `{VC : VerifierCrates}.
Context `{TDC : TdxCrates} `{SGX : SgxCrates} `{AZ : AzCrates} `{TP : !TpmCrates} `{CC : CsvCrates} `{CS : !CsvSerde}.
Context `{CA : CcaCrates} `{SE : SeCrates} `{SS : !SeSerde} `{DA : DeviceArchitectures} `{NC : !NvidiaCrates}.
Context `{PC : PolicyCrates} `{AP : !AsPolicyCrates} `{BC : BrokerCrates} `{T : TimeCrate} `{EC : EarCrate} `{CF : !ConfigCrates}.
Context `{TL : TlsCrates} `{KC : KbsCrates} `{AC : AsCrates} `{TC : TokenCrates} `{IC : !ItaCrates}.
Context `{HA : HttpAuth} `{J : JwtSimple} `{VLT : VaultCrates V} `{ALI : AliyunCrates K}
  `{CK : Cryptoki M} `{NEB : NebulaCrates}.
Context (ear_sign : Ear -> EarJwk -> EcKey -> option string).
Context (simple_default_policy ear_default_policy_cpu ear_default_policy_gpu : string).
Context (feature : string -> bool) (env_var : string -> option string) (verifier_files : Fs)
  (se_cell : option SeVerifierImpl).
Abbreviation world := (World (I := Services DB R) (X := Externals V K M)).
Implicit Types w : world.
Abbreviation kbs_new' := (kbs_new ear_sign simple_default_policy ear_default_policy_cpu ear_default_policy_gpu
  feature env_var verifier_files se_cell).
Abbreviation kbs_main' := (kbs_main ear_sign simple_default_policy ear_default_policy_cpu ear_default_policy_gpu
  feature env_var verifier_files se_cell).

(** Who passes the admin check of a server: anyone, or the holders of tokens
    under the key in the configured file. *)
Definition admin_as_configured (config : AdminConfig) (fs : Fs) (a : Admin) : Prop :=
  if insecure_api config then forall now rq, validate_auth a now rq = Ok tt
  else exists path content pem key,
    auth_public_key config = Some path /\ files fs !! resolve path = Some content /\
    from_utf8 content = Some pem /\ ed25519_from_pem pem = Some key /\
    forall now rq, validate_auth a now rq = Ok tt <->
      exists token, bearer_token rq = Some token /\ ed25519_verify_token key now token = true.

Lemma admin_try_from_Ok config fs fs' a :
  admin_try_from config fs = (fs', Ok a) -> fs' = fs /\ admin_as_configured config fs a.
Proof.
  intros H. unfold admin_as_configured. destruct (insecure_api config) eqn:Hi.
  - unfold admin_try_from in H. rewrite Hi in H. now inv_st.
  - destruct (admin_requires_key config fs fs' a 0 {| http_method := GET; http_path := ""; query_string := "";
      match_info _ := None; cookie _ := None; headers _ := None |} Hi H) as (-> & path & content & pem & key & H1 & H2 & H3 & H4 & _).
    split; [done|]. exists path, content, pem, key. do 4 (split; [done|]). intros now rq.
    destruct (admin_requires_key config fs fs a now rq Hi H) as (_ & path' & content' & pem' & key' & H1' & H2' & H3' & H4' & Hv).
    rewrite H1 in H1'. injection H1' as <-. rewrite H2 in H2'. injection H2' as <-.
    rewrite H3 in H3'. injection H3' as <-. rewrite H4 in H4'. injection H4' as <-. exact Hv.
Qed.

Lemma kbs_new_Ok config w w' core module :
  kbs_new' config w = (w', Ok (core, module)) ->
  admin_as_configured (Config.admin config) (w_fs w') (admin_auth core) /\
  (forall n, is_Some (plugin_get (plugin_manager core) n) <-> n ∈ map full_plugins_config_display (Config.plugins config)) /\
  path_exists (w_fs w') (policy_path (Config.policy_engine config)) = true /\
  opa_policy_path (ApiServer.policy_engine core) = policy_path (Config.policy_engine config) /\
  session_map (w_as w') = session_map_new /\
  Attestation.timeout (w_as w') = Config.timeout (kc_attestation_service config).
Proof.
  intros H. unfold kbs_new, on_fs, on_as, attestation_service_new in H. inv_st. simplify_eq. cbn -[plugin_get] in *.
  match goal with Ha : admin_try_from _ _ = _ |- _ => apply admin_try_from_Ok in Ha as [-> Ha] end.
  split; [done|]. split.
  { intros n. unfold plugin_get. match goal with Hm : full_manager_try_from _ _ = _ |- _ =>
      destruct (full_manager_from_Ok _ _ _ _ _ Hm n) as [Hno Hin] end.
    split; [|intros Hi; destruct (Hin Hi) as (? & ? & ? & ? & ? & ? & ? & ? & ? & ? & ->); eauto].
    intros [p Hp]. destruct (decide (n ∈ map full_plugins_config_display (Config.plugins config))) as [|Hn]; [done|].
    rewrite (Hno Hn), lookup_empty in Hp. done. }
  match goal with He : engine_new _ _ = _ |- _ => unfold engine_new in He; pose proof (opa_new_exists _ _ _ _ He);
    apply policy_new_preserves in He as [_ He]; destruct (He _ eq_refl) as [Hpath _] end.
  now repeat split.
Qed.

(** C17: a KBS that starts is guarded the way its configuration says.  Without
    [insecure_http] it has TLS sockets only; without [insecure_api] its admin
    interface is open exactly to tokens under the key in the configured file;
    its plugins are those of the configuration; there is a policy at the
    configured path; there are no sessions, and new ones have the configured
    time-out. *)
Theorem kbs_started config_file w w' core module srv :
  kbs_main' config_file w = (w', Ok (core, module, srv)) ->
  exists config, kbs_config_try_from config_file (w_fs w) = Ok config /\
    (forall l, srv = PlainServer l -> insecure_http (http_server config) = true) /\
    admin_as_configured (Config.admin config) (w_fs w') (admin_auth core) /\
    (forall n, is_Some (plugin_get (plugin_manager core) n) <-> n ∈ map full_plugins_config_display (Config.plugins config)) /\
    path_exists (w_fs w') (policy_path (Config.policy_engine config)) = true /\
    opa_policy_path (ApiServer.policy_engine core) = policy_path (Config.policy_engine config) /\
    session_map (w_as w') = session_map_new /\
    Attestation.timeout (w_as w') = Config.timeout (kc_attestation_service config).
Proof.
  intros H. unfold kbs_main in H. inv_st.
  match goal with Hc : kbs_config_try_from _ _ = Ok ?c |- _ => exists c; split; [done|] end.
  destruct a1 as [core' module']. inv_st. simplify_eq.
  match goal with Hk : kbs_new _ _ _ _ _ _ _ _ _ _ = _ |- _ => apply kbs_new_Ok in Hk end.
  split; [|done]. intros l ->.
  eauto using server_plain.
Qed.
End KbsStarted.

(** ** Witnesses *)
Module StartDemo.
#[export] Existing Instances RvpsDemo.crates RvpsDemo.crates_spec RvpsDemo.disk RvpsDemo.sled RvpsDemo.sled_spec
  FrontDemo.front_crates.

#[export] Instance opened : SledOpen (gmap string bytes) := fun _ d => (d, Ok tt).
#[export] Instance opened_spec : SledOpenSpec opened id.
Proof. constructor. intros path d d' r [= <- <-]. done. Qed.

(** A network with one reference value service, on the file of [RvpsDemo]. *)
Definition extractors0 : gmap string Extractor := <["swid" := swid_verify_and_extract]> (<["sample" := sample_extractor]> ∅).
Definition service0 : Rvps Fs := {| rvps_extractors := extractors0; rvps_storage := local_json_storage RvpsDemo.l |}.
#[export] Instance net : Network Fs := {|
  rvps_connect _ := mret tt;
  rvps_at _ := rvps_instance service0;
  as_pool_get _ _ := Ok tt;
  as_broker_at _ := {| issue _ _ _ _ _ := st_err "none"; broker_set_policy _ _ := mret tt; broker_list_policies := mret ∅;
                       broker_get_policy _ := st_err "none" |};
  as_rvps_at _ := rvps_instance service0;
  as_verifiers_at _ _ := Err "no verifier";
|}.

Definition disk0 : Fs := {| files := {[ ["m"] := str_bytes "alpha" ]}; dirs := ∅ |}.
Definition s0 : Services (gmap string bytes) Fs := {| sv_fs := disk0; sv_db := ∅; sv_remote := RvpsDemo.fs0 |}.
Definition s1 : Services (gmap string bytes) Fs := (rvps_tool 0 (RvpsRegister "http://r" "/m") s0).1.

Definition in_json : RvpsCrateConfig := {| storage := StorageLocalJson "/d/rv.json"; extractors := None |}.
Definition started : Services (gmap string bytes) Fs * outcome anyhow (Rvps (Services (gmap string bytes) Fs)) :=
  rvps_new in_json s0.
End StartDemo.

Import StartDemo.

Lemma rvps_started_witness :
  exists r, started.2 = Ok r /\ store_contents (entries := id) (StorageLocalJson "/d/rv.json") started.1 = ∅.
Proof.
  assert (Hok : is_ok started.2 = true) by (vm_compute; reflexivity).
  assert (Hd : is_dir started.1.(sv_fs) (resolve "/d/rv.json") = false) by (vm_compute; reflexivity).
  unfold started in *. destruct (rvps_new in_json s0) as [s r] eqn:E. destruct r as [r|e|]; [|discriminate Hok..].
  exists r. split; [reflexivity|].
  destruct (rvps_started RvpsDemo.crates_spec RvpsDemo.sled_spec opened_spec in_json s0 s r E) as (_ & _ & _ & _ & H).
  apply H. split; [reflexivity|exact Hd].
Defined.

Lemma rvps_tool_roundtrip_witness :
  rvps_tool 0 (RvpsRegister "http://r" "/m") s0 = (s1, Ok None) /\
  refs_to_string (current_digests 0 (register_all (json_contents RvpsDemo.l RvpsDemo.fs0) [RvpsDemo.rv "alpha"])) = Some "{}".
Proof.
  assert (E : rvps_tool 0 (RvpsRegister "http://r" "/m") s0 = (s1, Ok None)) by (vm_compute; reflexivity).
  split; [exact E|].
  destruct (rvps_tool_roundtrip RvpsDemo.crates_spec (r := service0)
    (json_storage_correct RvpsDemo.crates_spec RvpsDemo.l) None eq_refl 0 0 "http://r" "/m" s0 s1
    (rvps_tool 0 (RvpsQuery "http://r") s1).1 None "{}")
    as (content & message & p & t & rvs & Hf & Hu & Hm & Hp & Ht).
  - exact RvpsDemo.no_xml.
  - exact RvpsDemo.clock_0.
  - intros a x x' c [= <- _]. reflexivity.
  - reflexivity.
  - exact RvpsDemo.fs0_ok.
  - exact E.
  - vm_compute; reflexivity.
  - vm_compute in Hf. injection Hf as <-. vm_compute in Hu. injection Hu as <-. vm_compute in Hm. injection Hm as <- <-.
    vm_compute in Hp. injection Hp as <-. exact Ht.
Defined.

(** A KBS with the sample plugin, in front of a remote attestation service. *)
Module KbsStartDemo.
Export VerifiersDemo BrokersDemo.
#[export] Existing Instances AccessDemo.api_crates TokenDemo.http_auth TokenDemo.jwt_simple TokenDemo.crates
  ItaDemo.ita_crates StoresDemo.kv StoresDemo.kms HsmDemo.hsm NebulaDemo.nebula_crates Handshake.Demo.demo_crates
  PolicyDemo.crates TokenDemo.good_disk.

#[export] Instance tls : TlsCrates := {|
  SslAcceptorBuilder := unit; mozilla_modern := Some tt;
  set_private_key_file b _ _ := Some b; set_certificate_chain_file b _ _ := Some b; bind_sockets _ := true |}.

Definition demo_config : KbsConfig := {|
  attestation_token := {| cfg_extra_teekey_paths := []; trusted_certs_paths := []; cfg_trusted_jwk_sets := [];
                          cfg_insecure_key := true |};
  kc_attestation_service := {| attestation_service := CoCoASGrpc grpc_config_default; timeout := DEFAULT_TIMEOUT |};
  http_server := {| sockets := ["127.0.0.1:8080"]; private_key := Some "/tls.key"; certificate := Some "/tls.pem";
                    insecure_http := false; payload_request_size := DEFAULT_PAYLOAD_REQUEST_SIZE |};
  Config.admin := {| auth_public_key := Some "/admin.pub"; insecure_api := false |};
  Config.policy_engine := {| policy_path := "/p" |};
  Config.plugins := [FP_Sample {| item := "i" |}];
|}.
#[export] Instance one_config : ConfigCrates := {|
  RawConfig := unit; config_build _ _ := Some tt; kbs_config_deserialize _ := Some demo_config;
  rvps_config_deserialize _ := None; as_config_from_reader _ := None |}.

Abbreviation demo_world := (World (I := Services (gmap string bytes) Fs)
  (X := Externals (gmap (string * string) (gmap string string)) unit (list (list Attribute)))).
Definition kw0 : demo_world := {|
  w_fs := {| files := {[ ["admin.pub"] := str_bytes "pem" ]}; dirs := ∅ |};
  w_as := service_new s0 1 no_metrics;
  w_ext := {| ext_vault := ∅; ext_kms := tt; ext_hsm := []; ext_names := fun _ => "name"; ext_drawn := 0 |} |}.
Definition boot := kbs_main (N := net) (DA := NvidiaDemo.demo_architectures) (NC := all_nvidia) BrokersDemo.sign "" "" ""
  (fun _ => true) (fun _ => None) SeDemo.demo_fs None "kbs.toml" kw0.
End KbsStartDemo.

Import KbsStartDemo.

Lemma kbs_started_witness :
  exists w' core module srv, boot = (w', Ok (core, module, srv)) /\
    (forall l, srv <> PlainServer l) /\
    (forall rq, bearer_token rq = None -> validate_auth (admin_auth core) 0 rq <> Ok tt).
Proof.
  assert (Hok : is_ok boot.2 = true) by (vm_compute; reflexivity).
  destruct boot as [w' [[[core module] srv]|e|]] eqn:E; [|discriminate Hok..].
  exists w', core, module, srv. split; [reflexivity|].
  destruct (kbs_started (N := net) (DA := NvidiaDemo.demo_architectures) (NC := all_nvidia) BrokersDemo.sign "" "" ""
    (fun _ => true) (fun _ => None) SeDemo.demo_fs None "kbs.toml" kw0 w' core module srv E)
    as (config & [= <-] & Hs & Ha & _).
  split; [intros l Hl; discriminate (Hs l Hl)|]. destruct Ha as (path & content & pem & key & _ & _ & _ & _ & Hv).
  intros rq Hn H. apply Hv in H as (token & Ht & _). congruence.
Defined.
