(* ===== verification/KbsClient.v ===== *)
(** * The KBS client ([tools/kbs-client/src/lib.rs], [main.rs])

    The requests an administrator and a guest make of the KBS, and the command
    line that chooses among them.  The HTTP client is the function [send] on
    the state of the world outside; the guest's protocol library
    ([kbs_protocol]), key pairs, certificates and JSON texts are parameters. *)
From S2P Require Import Prelude Types Text Fs Json Attestation Policy.

#[local] Arguments String.append !_ _ / : simpl nomatch.

(** ** HTTP *)
Record ClientRequest := {
  cr_method : Method;
  cr_url : string;
  cr_content_type : option string;
  cr_bearer : option string;
  cr_body : bytes;
}.

Record ClientReply := {
  reply_status : Z;
  reply_body : bytes;
}.

(** The crates of the client. *)
Class ClientCrates := {
  (** [jwt_simple]: a key pair, and a signed token with claims made at a time
      for a number of seconds *)
  Ed25519KeyPair : Type;
  keypair_from_pem : string -> option Ed25519KeyPair;
  keypair_sign : Ed25519KeyPair -> Z -> Z -> option string;
  (** [reqwest]: a certificate is PEM, a client can be built, a value is written
      as JSON, the text of a body *)
  certificate_from_pem : string -> bool;
  http_client_build : list string -> bool;
  request_json : Value -> option bytes;
  response_text : bytes -> option string;
  (** [Value::to_string] *)
  json_text : Value -> string;
}.

(** [kbs_protocol]: the guest's side of the protocol, over the world [W]. *)
Class KbsProtocol (W : Type) := {
  EvidenceProvider : Type;
  native_evidence_provider : option EvidenceProvider;
  ProtocolClient : Type;
  ResourceUri : Type;
  resource_uri_from_json : string -> option ResourceUri;
  (** builders with an evidence provider and with a token: the URL, the TEE key
      and the root certificates *)
  build_with_evidence : EvidenceProvider -> string -> option string -> list string -> option ProtocolClient;
  build_with_token : string -> string -> string -> list string -> option ProtocolClient;
  protocol_get_token : ProtocolClient -> st W anyhow string;
  protocol_get_resource : ProtocolClient -> ResourceUri -> st W anyhow bytes;
}.

Definition KBS_URL_PREFIX : string := "kbs/v0".

(** [Duration::from_hours(2)]. *)
Definition TOKEN_SECONDS : Z := 2 * 3600.

Section Client.
Context {W : Type} `{CC : ClientCrates} `{KC : KbsCrates} `{PC : PolicyCrates} `{KP : KbsProtocol W}.
Context (send : ClientRequest -> st W anyhow ClientReply) (now : Z).

(** The admin token every administrative request starts with. *)
Definition admin_token (auth_key : string) : st W anyhow string :=
  auth_private_key ← st_lift (ok_or "key" (keypair_from_pem auth_key));
  st_lift (ok_or "sign" (keypair_sign auth_private_key now TOKEN_SECONDS)).

Definition build_http_client (kbs_root_certs_pem : list string) : st W anyhow unit :=
  (if forallb certificate_from_pem kbs_root_certs_pem then mret tt else st_err "certificate");;
  if http_client_build kbs_root_certs_pem then mret tt else st_err "Build KBS http client failed".

(** The answer to a request: its text if the status is 200. *)
Definition request_failed {A} (reply : ClientReply) : st W anyhow A :=
  _ ← st_lift (ok_or "text" (response_text (reply_body reply)));
  st_err "Request Failed".

Definition expect_ok (reply : ClientReply) : st W anyhow unit :=
  if reply_status reply =? 200 then mret tt else request_failed reply.

(** [attestation]. *)
Definition attestation (url : string) (tee_key_pem : option string) (kbs_root_certs_pem : list string) :
    st W anyhow string :=
  evidence_provider ← st_lift (ok_or "evidence provider" native_evidence_provider);
  client ← st_lift (ok_or "build" (build_with_evidence evidence_provider url tee_key_pem kbs_root_certs_pem));
  protocol_get_token client.

(** [format!("\"kbs:///{path}\"")], read as JSON. *)
Definition resource_uri (path : string) : st W anyhow ResourceUri :=
  st_lift (ok_or "resource uri" (resource_uri_from_json (dquote +:+ "kbs:///" +:+ path +:+ dquote))).

Definition get_resource_with_token (url path tee_key_pem token : string) (kbs_root_certs_pem : list string) :
    st W anyhow bytes :=
  client ← st_lift (ok_or "build" (build_with_token url token tee_key_pem kbs_root_certs_pem));
  uri ← resource_uri path;
  protocol_get_resource client uri.

Definition get_resource_with_attestation (url path : string) (tee_key_pem : option string)
    (kbs_root_certs_pem : list string) : st W anyhow bytes :=
  evidence_provider ← st_lift (ok_or "evidence provider" native_evidence_provider);
  client ← st_lift (ok_or "build" (build_with_evidence evidence_provider url tee_key_pem kbs_root_certs_pem));
  uri ← resource_uri path;
  protocol_get_resource client uri.

(** [set_attestation_policy], with the JSON of [SetPolicyInput]. *)
Definition set_policy_input (policy_type policy_id policy : string) : Value :=
  VObject [("type", VString policy_type); ("policy_id", VString policy_id); ("policy", VString policy)].

Definition set_attestation_policy (url auth_key : string) (policy_bytes : bytes)
    (policy_type policy_id : option string) (kbs_root_certs_pem : list string) : st W anyhow unit :=
  token ← admin_token auth_key;
  build_http_client kbs_root_certs_pem;;
  let set_policy_url := url +:+ "/" +:+ KBS_URL_PREFIX +:+ "/attestation-policy" in
  let post_input := set_policy_input (default "rego" policy_type) (default "default" policy_id)
                      (base64_url_encode policy_bytes) in
  json ← st_lift (ok_or "json" (request_json post_input));
  res ← send {| cr_method := POST; cr_url := set_policy_url; cr_content_type := Some "application/json";
                cr_bearer := Some token; cr_body := json |};
  expect_ok res.

(** [set_resource_policy], with the JSON of [ResourcePolicyData]. *)
Definition resource_policy_data (policy : string) : Value := VObject [("policy", VString policy)].

Definition set_resource_policy (url auth_key : string) (policy_bytes : bytes) (kbs_root_certs_pem : list string) :
    st W anyhow unit :=
  token ← admin_token auth_key;
  build_http_client kbs_root_certs_pem;;
  let set_policy_url := url +:+ "/" +:+ KBS_URL_PREFIX +:+ "/resource-policy" in
  let post_input := resource_policy_data (base64_url_encode policy_bytes) in
  json ← st_lift (ok_or "json" (request_json post_input));
  res ← send {| cr_method := POST; cr_url := set_policy_url; cr_content_type := Some "application/json";
                cr_bearer := Some token; cr_body := json |};
  expect_ok res.

(** [set_resource]. *)
Definition set_resource (url auth_key : string) (resource_bytes : bytes) (path : string)
    (kbs_root_certs_pem : list string) : st W anyhow unit :=
  token ← admin_token auth_key;
  build_http_client kbs_root_certs_pem;;
  let resource_url := url +:+ "/" +:+ KBS_URL_PREFIX +:+ "/resource/" +:+ path in
  res ← send {| cr_method := POST; cr_url := resource_url; cr_content_type := Some "application/octet-stream";
                cr_bearer := Some token; cr_body := resource_bytes |};
  expect_ok res.

(** [set_sample_rv]: the provenance and the message that carries it. *)
Definition sample_provenance (key : string) (value : Value) : string :=
  base64_standard_encode (str_bytes (json_text (VObject [(key, value)]))).

Definition sample_message (provenance : string) : string :=
  json_text (VObject [("version", VString "0.1.0"); ("type", VString "sample"); ("payload", VString provenance)]).

Definition set_sample_rv (url key : string) (value : Value) (auth_key : string) (kbs_root_certs_pem : list string) :
    st W anyhow unit :=
  token ← admin_token auth_key;
  build_http_client kbs_root_certs_pem;;
  let reference_value_url := url +:+ "/" +:+ KBS_URL_PREFIX +:+ "/reference-value" in
  let message := sample_message (sample_provenance key value) in
  res ← send {| cr_method := POST; cr_url := reference_value_url; cr_content_type := Some "application/json";
                cr_bearer := Some token; cr_body := str_bytes message |};
  expect_ok res.

(** [get_rvs]. *)
Definition get_rvs (url auth_key : string) (kbs_root_certs_pem : list string) : st W anyhow string :=
  token ← admin_token auth_key;
  build_http_client kbs_root_certs_pem;;
  let reference_value_url := url +:+ "/" +:+ KBS_URL_PREFIX +:+ "/reference-value" in
  res ← send {| cr_method := GET; cr_url := reference_value_url; cr_content_type := Some "application/json";
                cr_bearer := Some token; cr_body := [] |};
  if reply_status res =? 200 then st_lift (ok_or "text" (response_text (reply_body res))) else request_failed res.

(** ** The command line ([main.rs]) *)
Inductive ConfigCommands :=
| SetAttestationPolicy (type_ id : option string) (policy_file : string)
| SetResourcePolicy (policy_file : option string) (allow_all deny_all affirming default_ : bool)
| SetResource (path resource_file : string)
| GetReferenceValues
| SetSampleReferenceValue (name value : string) (as_integer as_bool as_single_value : bool).

Inductive Commands :=
| Config (auth_private_key : string) (command : ConfigCommands)
| GetResource (path : string) (tee_key_file attestation_token : option string)
| Attest (tee_key_file : option string).

Record Cli := {
  command : Commands;
  url : string;
  cert_file : option string;
}.

(** What is printed on success. *)
Inductive Printed :=
| PrintedToken (token : string)
| PrintedResource (base64 : string)
| AttestationPolicySet (base64 : string)
| ResourcePolicySet (base64 : string)
| ResourceSet (base64 : string)
| ReferenceValuesUpdated
| ReferenceValues (values : string).

(** The built-in policies, files of [kbs/sample_policies]; a caret stands for
    the double quote. *)
Definition nl : string := String.String "010" "".
Definition allow_all_policy : string := nl +:+ "package policy" +:+ nl +:+ nl +:+ "default allow = true" +:+ nl.
Definition deny_all_policy : string := nl +:+ "package policy" +:+ nl +:+ nl +:+ "default allow = false" +:+ nl.
Definition affirming_policy : string := replace_char "^" dquote
"package policy
import rego.v1

default allow = false

allow if {
    not any_not_affirming
    count(input.submods) > 0

}

any_not_affirming if {
    some _, submod in input.submods
    submod[^ear.status^] != ^affirming^
}
".

(** [str::parse::<i32>] and [parse::<bool>]. *)
Definition digit (c : ascii) : option Z :=
  let n := Z.of_N (N_of_ascii c) in
  if (48 <=? n) && (n <=? 57) then Some (n - 48) else None.

Fixpoint parse_digits (acc : Z) (s : string) : option Z :=
  match s with
  | EmptyString => Some acc
  | String.String c s => d ← digit c; parse_digits (acc * 10 + d) s
  end.

Definition parse_nat (s : string) : option Z :=
  match s with
  | EmptyString => None
  | _ => parse_digits 0 s
  end.

Definition parse_i32 (s : string) : option Z :=
  z ← match s with
      | String.String c r =>
          if Ascii.eqb c "-" then Z.opp <$> parse_nat r
          else if Ascii.eqb c "+" then parse_nat r
          else parse_nat s
      | EmptyString => None
      end;
  if (- 2 ^ 31 <=? z) && (z <? 2 ^ 31) then Some z else None.

Definition parse_bool (s : string) : option bool :=
  if String.eqb s "true" then Some true else if String.eqb s "false" then Some false else None.

(** The value of [set-sample-reference-value]. *)
Definition sample_value (value : string) (as_integer as_bool as_single_value : bool) : outcome anyhow Value :=
  parsed_value ←
    (if as_integer then z ← ok_or "i32" (parse_i32 value); Ok (VNumber (if 0 <=? z then PosInt z else NegInt z))
     else if as_bool then b ← ok_or "bool" (parse_bool value); Ok (VBool b)
     else Ok (VString value));
  Ok (if as_single_value then parsed_value else VArray [parsed_value]).

Context `{D : Disk}.

(** The client's own files beside the world outside. *)
Abbreviation client_state := (Fs * W)%type.
Definition on_disk {A} : st Fs anyhow A -> st client_state anyhow A := st_on fst (fun f s => (f, snd s)).
Definition on_net {A} : st W anyhow A -> st client_state anyhow A := st_on snd (fun w s => (fst s, w)).

Definition read_to_string (p : string) : st Fs anyhow string :=
  content ← fs_read p;
  st_lift (ok_or "utf8" (from_utf8 content)).

Definition read_optional (p : option string) : st Fs anyhow (option string) :=
  match p with
  | Some f => text ← read_to_string f; mret (Some text)
  | None => mret None
  end.

(** The policy [set-resource-policy] sends. *)
Definition chosen_policy (policy_file : option string) (allow_all deny_all affirming default_ : bool) :
    st Fs anyhow bytes :=
  match policy_file with
  | Some file => fs_read file
  | None =>
      if allow_all then mret (str_bytes allow_all_policy)
      else if deny_all then mret (str_bytes deny_all_policy)
      else if affirming then mret (str_bytes affirming_policy)
      else if default_ then mret (str_bytes default_policy)
      else st_err "No policy specified"
  end.

Definition run_config (u : string) (kbs_cert : list string) (auth_key : string) (c : ConfigCommands) :
    st client_state anyhow Printed :=
  match c with
  | SetAttestationPolicy type_ id policy_file =>
      policy_bytes ← on_disk (fs_read policy_file);
      on_net (set_attestation_policy u auth_key policy_bytes type_ id kbs_cert);;
      mret (AttestationPolicySet (base64_standard_encode policy_bytes))
  | SetResourcePolicy policy_file allow_all deny_all affirming default_ =>
      policy_bytes ← on_disk (chosen_policy policy_file allow_all deny_all affirming default_);
      on_net (set_resource_policy u auth_key policy_bytes kbs_cert);;
      mret (ResourcePolicySet (base64_standard_encode policy_bytes))
  | SetResource path resource_file =>
      resource_bytes ← on_disk (fs_read resource_file);
      on_net (set_resource u auth_key resource_bytes path kbs_cert);;
      mret (ResourceSet (base64_standard_encode resource_bytes))
  | SetSampleReferenceValue name value as_integer as_bool as_single_value =>
      rv ← st_lift (sample_value value as_integer as_bool as_single_value);
      on_net (set_sample_rv u name rv auth_key kbs_cert);;
      mret ReferenceValuesUpdated
  | GetReferenceValues =>
      values ← on_net (get_rvs u auth_key kbs_cert);
      mret (ReferenceValues values)
  end.

(** [main]. *)
Definition main (cli : Cli) : st client_state anyhow Printed :=
  kbs_cert ← on_disk (read_optional (cert_file cli));
  let kbs_cert := option_list kbs_cert in
  match command cli with
  | Attest tee_key_file =>
      tee_key ← on_disk (read_optional tee_key_file);
      token ← on_net (attestation (url cli) tee_key kbs_cert);
      mret (PrintedToken token)
  | GetResource path tee_key_file attestation_token =>
      tee_key ← on_disk (read_optional tee_key_file);
      token ← on_disk (read_optional attestation_token);
      match trim <$> token with
      | Some token =>
          tee_key ← st_lift (ok_or "if `--attestation-token` is set, `--tee_key_file` argument should also be set"
                               tee_key);
          resource_bytes ← on_net (get_resource_with_token (url cli) path tee_key token kbs_cert);
          mret (PrintedResource (base64_standard_encode resource_bytes))
      | None =>
          resource_bytes ← on_net (get_resource_with_attestation (url cli) path tee_key kbs_cert);
          mret (PrintedResource (base64_standard_encode resource_bytes))
      end
  | Config auth_private_key c =>
      auth_key ← on_disk (read_to_string auth_private_key);
      run_config (url cli) kbs_cert auth_key c
  end.
End Client.
