(* ===== verification/KbsClientProofs.v ===== *)
(** * The KBS client against the KBS

    The requests of [KbsClient] delivered to the server of [HttpServer]: what
    has happened to the server when a command of the client reports success, and
    that a command whose key the server trusts does succeed. *)
From S2P Require Import KbsClient Prelude Types Text Metrics Session Attestation Fs Json Policy Resource Token Jwe ApiServer Handshake Access HttpServer Rvps RvpsProofs AsPolicy Brokers Verifier AsService.

#[local] Arguments String.append !_ _ / : simpl nomatch.

(** ** The wire: what arrives of a request *)
Class Wire := wire : ClientRequest -> option RawRequest.

(** A path that every URL parser leaves alone: segments of letters, digits,
    hyphens, underscores and dots, none of them empty or a dot segment. *)
Definition plain_segment (c : string) : bool := plain_component c && all_chars word_dot_char c.
Definition plain_path (p : string) : bool :=
  match p with
  | String.String c q => Ascii.eqb slash c && forallb plain_segment (split_on slash q)
  | EmptyString => false
  end.

Record arrives `{HA : HttpAuth} (rq : ClientRequest) (p : string) (raw : RawRequest) : Prop := {
  ar_method : raw_method raw = cr_method rq;
  ar_path : raw_path raw = p;
  ar_body : raw_body raw = cr_body rq;
  ar_bearer : forall b a, bearer_token (matched_request raw b a) = cr_bearer rq;
}.

(** HTTP: a request to a plain path of the server at [root] arrives as it was
    sent. *)
Class WireSpec `{HA : HttpAuth} (Wi : Wire) (root : string) : Prop :=
  wire_spec : forall rq p, cr_url rq = root +:+ p -> plain_path p = true ->
    exists raw, wire rq = Some raw /\ arrives rq p raw.

(** The JSON and text crates of the client write what those of the server read. *)
Class ClientCratesSpec (CC : ClientCrates) (KC : KbsCrates) (PC : PolicyCrates) : Prop := {
  request_json_read : forall v b, request_json v = Some b -> json_from_slice b = Some v;
  response_text_utf8 : forall b s, from_utf8 b = Some s -> response_text b = Some s;
}.

Section Against.
Context {I X : Type} `{A : Attest I} `{T : TimeCrate} `{KC : KbsCrates} `{D : Disk}
  `{PC : PolicyCrates} `{HA : HttpAuth} `{J : JwtSimple} `{TC : TokenCrates} `{JC : JweCrates}
  `{AC : ApiCrates} `{CC : ClientCrates} {Wi : Wire}.
Abbreviation world := (World (I := I) (X := X)).
Implicit Types (w : world) (core : ApiServer (I := I) (X := X)).

(** The client's requests delivered to the application of the server; a
    worker that fails closes the connection. *)
Definition answered (env : CallEnv) core (limit elapsed : Z) (raw : RawRequest) : st world anyhow ClientReply :=
  fun w => match app env core limit elapsed raw w with
           | (w', Ok res) => (w', Ok {| reply_status := status res; reply_body := res_body res |})
           | (w', _) => (w', Err "connection closed")
           end.

Definition deliver (env : CallEnv) core (limit elapsed : Z) (rq : ClientRequest) : st world anyhow ClientReply :=
  raw ← st_lift (ok_or "connect" (wire rq));
  answered env core limit elapsed raw.

(** ** From the application to the handler *)
Lemma middleware_Ok path cl elapsed (next : st world Error HttpResponse) w w' res :
  prometheus_metrics_middleware path cl elapsed next w = (w', Ok res) ->
  exists wb w2, same_world w wb /\ next wb = (w2, Ok res) /\ same_world w2 w'.
Proof.
  unfold prometheus_metrics_middleware. destruct (String.prefix "/kbs" path).
  - intros H. apply st_bind_Ok in H as (wb & [] & Hb & H). apply st_bind_Ok in H as (w2 & r2 & Hn & H).
    apply st_bind_Ok in H as (w3 & [] & Ha & H). injection H as <- <-.
    exists wb, w2. split; [|split; [exact Hn|]].
    + run_st Hb; now repeat split.
    + run_st Ha; now repeat split.
  - intros H. apply st_bind_Ok in H as (wb & [] & Hb & H). injection Hb as <-.
    apply st_bind_Ok in H as (w2 & r2 & Hn & H). exists w, w2.
    split; [done|]. injection H as <- <-. now split.
Qed.

(** A request that was answered with status 200 was handled. *)
Lemma respond_200 env core rq body w w' res :
  respond env core rq body w = (w', Ok res) -> status res = 200 -> api env core rq body w = (w', Ok res).
Proof.
  unfold respond. destruct (api env core rq body w) as [w1 [r|e|]]; [done| |done].
  unfold error_response. intros H Hs. injection H as -> H. apply bind_Ok in H as (t & _ & H).
  injection H as <-. cbn in Hs. destruct e; discriminate.
Qed.

Context (root : string) {WS : WireSpec Wi root}.

(** What became of a client's request to [base ++ rest] that was answered 200. *)
Lemma deliver_200 env core limit elapsed rq base rest w w' reply :
  cr_url rq = root +:+ KBS_PREFIX +:+ "/" +:+ base +:+ rest ->
  plain_path (KBS_PREFIX +:+ "/" +:+ base +:+ rest) = true ->
  base <> "" -> no_char slash base = true -> (rest = "" \/ exists r, rest = String.String slash r) ->
  deliver env core limit elapsed rq w = (w', Ok reply) -> reply_status reply = 200 ->
  exists raw wb w2 res, arrives rq (KBS_PREFIX +:+ "/" +:+ base +:+ rest) raw /\
    same_world w wb /\ same_world w2 w' /\
    len (cr_body rq) <= limit /\
    api env core (matched_request raw base rest) (cr_body rq) wb = (w2, Ok res) /\
    reply = {| reply_status := status res; reply_body := res_body res |}.
Proof.
  intros Hu Hp Hb Hn Hr H Hs. unfold deliver in H. apply st_bind_Ok in H as (w0 & raw & Hraw & H). unfold answered in H.
  destruct (wire_spec rq _ Hu Hp) as (raw' & Hw & Har). rewrite Hw in Hraw. injection Hraw as <- <-.
  destruct (app env core limit elapsed raw' w) as [wa [res|e|]] eqn:Happ; [|done..].
  injection H as <- <-. unfold app in Happ. apply middleware_Ok in Happ as (wb & w2 & H1 & H2 & H3).
  unfold routed, endpoint in H2. rewrite (ar_path _ _ _ Har) in H2.
  assert (Hk : kbs_pattern (KBS_PREFIX +:+ "/" +:+ base +:+ rest) = Some (base, rest))
    by (apply kbs_pattern_of; done).
  rewrite Hk in H2. unfold limited_api in H2. rewrite (ar_body _ _ _ Har) in H2. cbn [reply_status] in Hs.
  destruct (raw_method raw'); [| |injection H2 as <- <-; discriminate].
  all: destruct (Z.ltb_spec limit (len (cr_body rq))); [injection H2 as <- <-; discriminate|].
  all: exists raw', wb, w2, res; do 4 (split; [done|]); split; [now apply respond_200|done].
Qed.

(** ** The parts of a command *)
Definition signed_token (auth_key : string) (at_ : Z) (token : string) : Prop :=
  exists kp, keypair_from_pem auth_key = Some kp /\ keypair_sign kp at_ TOKEN_SECONDS = Some token.

Lemma admin_request_Ok {B} auth_key at_ certs (k : string -> st world anyhow B) w w' b :
  (token ← admin_token at_ auth_key; build_http_client certs;; k token) w = (w', Ok b) ->
  exists token, signed_token auth_key at_ token /\ k token w = (w', Ok b).
Proof.
  intros H. apply st_bind_Ok in H as (w1 & token & Ht & H). apply st_bind_Ok in H as (w2 & [] & Hc & H).
  unfold admin_token in Ht. apply st_bind_Ok in Ht as (w3 & kp & Hk & Ht).
  injection Hk as -> Hk%ok_or_Ok. injection Ht as -> Ht%ok_or_Ok. unfold build_http_client in Hc.
  assert (w2 = w1) as -> by (run_st Hc; done).
  exists token. split; [unfold signed_token; eauto|]. exact H.
Qed.

Lemma send_expect_Ok (send : ClientRequest -> st world anyhow ClientReply) rq w w' u :
  (res ← send rq; expect_ok res) w = (w', Ok u) ->
  exists reply, send rq w = (w', Ok reply) /\ reply_status reply = 200.
Proof.
  intros H. apply st_bind_Ok in H as (w1 & reply & Hs & H). unfold expect_ok, request_failed in H.
  destruct (Z.eqb_spec (reply_status reply) 200) as [E|]; [|run_st H]. injection H as <- _. eauto.
Qed.

(** The administrator's request was let through. *)
Definition admitted env core (token : string) : Prop :=
  match public_key (admin_auth core) with
  | Some key => ed25519_verify_token key (now env) token = true
  | None => True
  end.

Lemma validate_admitted env core rq token :
  bearer_token rq = Some token ->
  validate_auth (admin_auth core) (now env) rq = Ok tt <-> admitted env core token.
Proof.
  intros Hb. unfold validate_auth, admitted. destruct (public_key _) as [key|]; [|done].
  rewrite Hb. cbn. now destruct (ed25519_verify_token _ _ _).
Qed.

Lemma plain_path_resource d : desc_ok d ->
  plain_path (KBS_PREFIX +:+ "/" +:+ "resource" +:+ String.String slash (resource_desc_display d)) = true.
Proof.
  intros (H1 & H2 & H3). unfold plain_path, KBS_PREFIX. cbn [String.append].
  change (forallb plain_segment (split_on slash ("kbs" +:+ String.String slash ("v0" +:+ String.String slash
    ("resource" +:+ String.String slash (repository_name d +:+ String.String slash
      (resource_type d +:+ String.String slash (resource_tag d))))))) = true).
  rewrite !split_on_app by (done || now apply group_no_slash).
  rewrite split_on_none by now apply group_no_slash. cbn [forallb].
  assert (Hg : forall s, group_matches s = true -> plain_segment s = true).
  { intros s Hs. unfold plain_segment. rewrite (group_plain _ Hs). destruct s as [|c s]; [done|].
    cbn in Hs |- *. apply andb_prop in Hs as [Hc Hs]. now rewrite (word_char_dot _ Hc). }
  rewrite !Hg by done. done.
Qed.

Lemma api_post_resource env core rq body ap w w' res l :
  plugin_get (plugin_manager core) "resource" = Some (resource_plugin l) ->
  match_info rq "base_path" = Some "resource" -> match_info rq "additional_path" = Some ap ->
  http_method rq = POST ->
  api env core rq body w = (w', Ok res) ->
  validate_auth (admin_auth core) (now env) rq = Ok tt /\
  exists d, ap = String.String slash (resource_desc_display d) /\ desc_ok d /\
    local_fs_write l d body (w_fs w) = (w_fs w', Ok tt) /\
    w_ext w' = w_ext w /\ same_but_metrics (w_as w) (w_as w').
Proof.
  intros Hp Hb Ha Hm H.
  destruct (api_plugin_Ok _ _ _ _ _ _ _ _ Hb ltac:(now rewrite Hm) H) as (ap' & p & b & Hap & Hp' & Hv & Hs).
  rewrite Ha in Hap. injection Hap as <-. rewrite Hp in Hp'. injection Hp' as <-.
  cbn in Hv. rewrite Hm in Hv. injection Hv as <-. unfold serve_admin in Hs.
  apply st_bind_Ok in Hs as (w1 & [] & Ha1 & Hs). unfold st_map_err, st_lift in Ha1.
  destruct (validate_auth _ _ _) as [[]|e|]; [|done..]. injection Ha1 as <-. split; [done|].
  apply st_bind_Ok in Hs as (w2 & r & Hh & Hs). injection Hs as <- _.
  unfold st_map_err in Hh. destruct (handle _ _ _ _ _ _) as [w3 x] eqn:Eh. injection Hh as -> Hx.
  apply map_err_Ok in Hx as ->. cbn in Eh. rewrite Hm in Eh. apply st_on_Ok in Eh as (s' & Eh & ->).
  apply handle_POST_Ok in Eh as (_ & d & -> & Hd & Hw). exists d. do 2 (split; [done|]).
  split; [exact Hw|]. split; [done|]. now repeat split.
Qed.

(** ** Storing a secret *)
Lemma set_resource_stores env core limit elapsed at_ auth_key data d certs w w' l :
  plugin_get (plugin_manager core) "resource" = Some (resource_plugin l) ->
  repo_ok (resolve (repo_dir_path l)) (w_fs w) -> desc_ok d ->
  set_resource (deliver env core limit elapsed) at_ root auth_key data (resource_desc_display d) certs w = (w', Ok tt) ->
  let stored w := local_stored (resolve (repo_dir_path l)) (w_fs w) in
  (exists token, signed_token auth_key at_ token /\ admitted env core token) /\
  len data <= limit /\
  stored w' d = Some data /\
  (forall d', desc_ok d' -> d' <> d -> stored w' d' = stored w d') /\
  repo_ok (resolve (repo_dir_path l)) (w_fs w') /\ same_but_metrics (w_as w) (w_as w').
Proof.
  intros Hp Hro Hd H stored. unfold set_resource in H.
  apply admin_request_Ok in H as (token & Ht & H). apply send_expect_Ok in H as (reply & H & Hs).
  eapply (deliver_200 env core limit elapsed _ "resource" (String.String slash (resource_desc_display d))) in H
    as (raw & wb & w2 & res & Har & Hwb & Hw2 & Hlen & Hapi & Hr);
    [|reflexivity|now apply plain_path_resource|done|done|eauto|done].
  apply api_post_resource with (ap := String.String slash (resource_desc_display d)) (l := l) in Hapi
    as (Hv & d' & Hdd & Hd' & Hw & _ & Hsm); [|done|done|done|exact (ar_method _ _ _ Har)].
  injection Hdd as Hdd. apply display_inj in Hdd as <-; [|done..].
  destruct Hwb as (Hf1 & _ & Hm1), Hw2 as (Hf2 & _ & Hm2). rewrite Hf1 in Hw.
  destruct (local_fs_write_spec l d data _ _ _ Hro Hd Hw) as (Hro' & _ & Hfs & _). specialize (Hfs eq_refl).
  unfold stored, local_stored. rewrite Hf2, Hfs. split.
  { exists token. split; [done|]. pose proof (ar_bearer _ _ _ Har "resource"
      (String.String slash (resource_desc_display d))) as Hbr.
    now apply (validate_admitted env core _ token Hbr). }
  do 2 (split; [done || apply lookup_insert_eq|]). split.
  { intros d' Hd'0 Hne. apply lookup_insert_ne. intros E. apply Hne. symmetry. now apply desc_path_inj in E. }
  split; [done|]. destruct Hm1 as (? & ? & ?), Hm2 as (? & ? & ?), Hsm as (? & ? & ?). repeat split; congruence.
Qed.

(** A secret the client reports as set is set.  If [set_resource] succeeds,
    the server admitted the token signed with the client's key, the body was
    within the size limit, the server holds exactly the client's bytes under the
    resource, every other resource is as it was, and sessions, attestation
    policies and reference values did not change. *)
Theorem client_set_resource env core limit elapsed at_ auth_key data d certs w w' l :
  plugin_get (plugin_manager core) "resource" = Some (resource_plugin l) ->
  repo_ok (resolve (repo_dir_path l)) (w_fs w) -> desc_ok d ->
  set_resource (deliver env core limit elapsed) at_ root auth_key data (resource_desc_display d) certs w = (w', Ok tt) ->
  let stored w := local_stored (resolve (repo_dir_path l)) (w_fs w) in
  (exists token, signed_token auth_key at_ token /\ admitted env core token) /\
  len data <= limit /\
  stored w' d = Some data /\
  (forall d', desc_ok d' -> d' <> d -> stored w' d' = stored w d') /\
  repo_ok (resolve (repo_dir_path l)) (w_fs w') /\ same_but_metrics (w_as w) (w_as w').
Proof. exact (set_resource_stores env core limit elapsed at_ auth_key data d certs w w' l). Qed.

(** ** A command that must succeed *)
Lemma middleware_answers path cl elapsed (next : st world Error HttpResponse) w res :
  (forall wb, same_world w wb -> exists w2, next wb = (w2, Ok res)) ->
  exists w', prometheus_metrics_middleware path cl elapsed next w = (w', Ok res).
Proof.
  intros Hn. unfold prometheus_metrics_middleware. destruct (String.prefix "/kbs" path).
  - assert (Hb : exists wb, same_world w wb /\
      (st_modify (count_in (inc ACTIVE_CONNECTIONS));; st_modify (count_in (inc REQUEST_TOTAL));;
       match cl with
       | Some (Some n) => st_modify (count_in (observe REQUEST_SIZES n))
       | Some None => mret tt
       | None => st_modify (count_in (observe REQUEST_SIZES 0))
       end : st world Error unit) w = (wb, Ok tt)).
    { exec. destruct cl as [[n|]|]; (eexists; split; [|reflexivity]; now repeat split). }
    destruct Hb as (wb & Hs & Hb). destruct (Hn wb Hs) as (w2 & E).
    unfold mbind at 1, st_bind at 1. rewrite Hb. unfold mbind at 1, st_bind at 1. rewrite E. exec. eauto.
  - destruct (Hn w ltac:(reflexivity)) as (w2 & E). exec. rewrite E. eauto.
Qed.

Lemma api_post_resource_answers env core rq d data w l :
  (forall op p, disk_fault op p = false) ->
  plugin_get (plugin_manager core) "resource" = Some (resource_plugin l) ->
  repo_ok (resolve (repo_dir_path l)) (w_fs w) -> desc_ok d ->
  match_info rq "base_path" = Some "resource" ->
  match_info rq "additional_path" = Some (String.String slash (resource_desc_display d)) ->
  http_method rq = POST -> validate_auth (admin_auth core) (now env) rq = Ok tt ->
  exists w', api env core rq data w = (w', Ok (ok_body "text/xml" [])).
Proof.
  intros Hf Hp Hro Hd Hb Ha Hm Hv.
  assert (Ht : resource_desc_try_from (resource_desc_display d) = Ok d) by now apply try_from_Ok.
  destruct (local_fs_write l d data (w_fs w)) as [fs1 r] eqn:Hw.
  destruct (local_fs_write_spec l d data _ _ _ Hro Hd Hw) as (_ & _ & _ & _ & Hok). rewrite (Hok Hf) in Hw.
  unfold api. rewrite Hb, Ha. unfold dispatch. rewrite Hm. exec. rewrite Hp. cbn.
  unfold serve_admin. exec. rewrite Hv. cbn. rewrite Hm. unfold resource_handle. cbn. exec. rewrite Ht.
  unfold set_secret_resource, on_backend. exec. rewrite Hw. cbn. eauto.
Qed.

(** The command does succeed.  With a key the server trusts, good certificates,
    a body within the limit and a working disk, [set_resource] reports success. *)
Theorem client_set_resource_succeeds env core limit elapsed at_ auth_key kp token data d certs w l :
  (forall op p, disk_fault op p = false) ->
  plugin_get (plugin_manager core) "resource" = Some (resource_plugin l) ->
  repo_ok (resolve (repo_dir_path l)) (w_fs w) -> desc_ok d ->
  keypair_from_pem auth_key = Some kp -> keypair_sign kp at_ TOKEN_SECONDS = Some token ->
  admitted env core token ->
  forallb certificate_from_pem certs = true -> http_client_build certs = true -> len data <= limit ->
  exists w', set_resource (deliver env core limit elapsed) at_ root auth_key data (resource_desc_display d) certs w = (w', Ok tt).
Proof.
  intros Hf Hp Hro Hd Hk Hs Hadm Hc Hb Hl. unfold set_resource, admin_token, build_http_client.
  rewrite Hk, Hc, Hb. exec. rewrite Hs. cbn. unfold deliver.
  set (rq := {| cr_method := POST; cr_url := _; cr_content_type := _; cr_bearer := _; cr_body := _ |}).
  destruct (wire_spec rq (KBS_PREFIX +:+ "/" +:+ "resource" +:+ String.String slash (resource_desc_display d))
    eq_refl (plain_path_resource d Hd)) as (raw & Hw & Har). rewrite Hw. exec. unfold answered, app.
  set (next := routed env core limit raw).
  destruct (middleware_answers (raw_path raw) (raw_content_length raw) elapsed next w (ok_body "text/xml" []))
    as (w' & E).
  - intros wb [Hfs _]. unfold next, routed, endpoint. rewrite (ar_path _ _ _ Har), (ar_method _ _ _ Har).
    rewrite kbs_pattern_of by (done || eauto). cbn [cr_method rq]. unfold limited_api.
    rewrite (ar_body _ _ _ Har). cbn [cr_body rq]. rewrite (proj2 (Z.ltb_ge _ _) Hl). unfold respond.
    destruct (api_post_resource_answers env core
      (matched_request raw "resource" (String.String slash (resource_desc_display d))) d data wb l) as (w2 & E);
      try done; [now rewrite Hfs|exact (ar_method _ _ _ Har)|
        apply (validate_admitted env core _ token (ar_bearer _ _ _ Har _ _)); exact Hadm|].
    rewrite E. eauto.
  - rewrite E. cbn. eauto.
Qed.

(** The requests the server has handled since, one after the other. *)
Fixpoint after_requests core (rs : list (CallEnv * HttpRequest * bytes)) w : world :=
  match rs with
  | [] => w
  | (env, rq, body) :: rs => after_requests core rs (fst (api env core rq body w))
  end.

Lemma after_requests_keep cfgs w0 w1 core rs w l d :
  plugin_manager_try_from cfgs w0 = (w1, Ok (plugin_manager core)) ->
  plugin_get (plugin_manager core) "resource" = Some (resource_plugin l) -> desc_ok d ->
  policy_apart core l d -> Forall (fun r => ~ overwrites r.1.1 core d r.1.2) rs ->
  local_stored (resolve (repo_dir_path l)) (w_fs (after_requests core rs w)) d =
  local_stored (resolve (repo_dir_path l)) (w_fs w) d.
Proof.
  intros Hpm Hp Hd Hpol. revert w. induction rs as [|[[env rq] body] rs IH]; [done|].
  intros w Hall. inversion_clear Hall as [|? ? Hno Hrs]. cbn in *. rewrite IH by done.
  destruct (api env core rq body w) as [w2 r] eqn:E. exact (api_keeps_resource _ _ _ _ _ _ _ _ _ _ _ _ Hpm Hp Hd Hpol Hno E).
Qed.

(** C15: from the administrator's file to the guest.  After [set_resource] has
    reported success, let the server handle any requests whatever, of guests
    and of the administrator, among them replacements of the policies and of
    other resources, but no admitted POST to this one.  Then every GET of the
    resource that is answered releases exactly the bytes of the
    administrator's file, encrypted to the key in the claims of a token the
    server verified.  The server runs the plugins of the default features, and
    the file of the resource policy is not the file of the resource. *)
Theorem client_secret_reaches_guest (PS : PolicyCratesSpec PC) cfgs w0 w1 env core limit elapsed at_ auth_key data d certs w w' l
    rs env2 rq body v v' resp :
  plugin_manager_try_from cfgs w0 = (w1, Ok (plugin_manager core)) ->
  plugin_get (plugin_manager core) "resource" = Some (resource_plugin l) ->
  repo_ok (resolve (repo_dir_path l)) (w_fs w) -> desc_ok d -> policy_apart core l d ->
  set_resource (deliver env core limit elapsed) at_ root auth_key data (resource_desc_display d) certs w = (w', Ok tt) ->
  Forall (fun r => ~ overwrites r.1.1 core d r.1.2) rs -> w_fs v = w_fs (after_requests core rs w') ->
  match_info rq "base_path" = Some "resource" ->
  match_info rq "additional_path" = Some (String.String slash (resource_desc_display d)) ->
  http_method rq = GET -> api env2 core rq body v = (v', Ok resp) ->
  exists token claims key jr out,
    token_source (now env2) rq v token /\
    token_verify (token_verifier core) (now env2) token = Ok claims /\
    extract_tee_public_key (token_verifier core) claims = Ok key /\
    jwe (rnd env2) key data = Ok jr /\ response_to_string jr = Some out /\
    resp = ok_body "application/json" (str_bytes out).
Proof.
  intros Hpm Hp Hro Hd Hpol H Hrs Hfs Hb Ha Hg Hapi.
  destruct (set_resource_stores env core limit elapsed at_ auth_key data d certs w w' l Hp Hro Hd H)
    as (_ & _ & Hst & _).
  destruct (resource_get_Ok PS env2 core rq body v v' resp l Hp Hb Hg Hapi)
    as (d' & token & claims & cs & m & input & secret & key & jr & out & Ha' & Hd' & H1 & H2 & _ & _ & _ & _ & Hs & H3 & H4 & H5 & H6 & _).
  rewrite Ha in Ha'. injection Ha' as Ha'. apply display_inj in Ha' as <-; [|done..].
  rewrite Hfs, (after_requests_keep _ _ _ _ _ _ _ _ Hpm Hp Hd Hpol Hrs), Hst in Hs. injection Hs as <-.
  exists token, claims, key, jr, out. now repeat split.
Qed.

(** ** Replacing the resource policy *)
Lemma plain_path_policy : plain_path (KBS_PREFIX +:+ "/" +:+ "resource-policy" +:+ "") = true.
Proof. vm_compute. reflexivity. Qed.
Lemma plain_path_as_policy : plain_path (KBS_PREFIX +:+ "/" +:+ "attestation-policy" +:+ "") = true.
Proof. vm_compute. reflexivity. Qed.
Lemma plain_path_rv : plain_path (KBS_PREFIX +:+ "/" +:+ "reference-value" +:+ "") = true.
Proof. vm_compute. reflexivity. Qed.

(** An administrative endpoint that answers: the token was admitted and the
    endpoint's own computation ran. *)
Lemma api_admin env core rq body base w w' res (k : st world Error HttpResponse) :
  match_info rq "base_path" = Some base -> match_info rq "additional_path" = Some "" ->
  dispatch env core rq body base "" =
    (st_map_err AdminAuth (st_lift (validate_auth (admin_auth core) (now env) rq));; k) ->
  api env core rq body w = (w', Ok res) ->
  validate_auth (admin_auth core) (now env) rq = Ok tt /\ k w = (w', Ok res).
Proof.
  intros Hb Ha Hd H. unfold api in H. rewrite Hb, Ha in H. cbn in H.
  change (dispatch env core rq body base "" w = (w', Ok res)) in H. rewrite Hd in H.
  apply st_bind_Ok in H as (w1 & [] & Hv & H). unfold st_map_err, st_lift in Hv.
  destruct (validate_auth _ _ _) as [[]|e|]; [|done..]. now injection Hv as <-.
Qed.

(** The policy the client reports as set is the policy in force.  If
    [set_resource_policy] succeeds, the token was admitted, the client's file is a
    Rego policy, it is from then on the policy every release is decided by, and
    nothing else on the server has changed. *)
Theorem client_set_resource_policy {CS : ClientCratesSpec CC KC PC} (PS : PolicyCratesSpec PC)
    env core limit elapsed at_ auth_key policy_bytes certs w w' :
  set_resource_policy (deliver env core limit elapsed) at_ root auth_key policy_bytes certs w = (w', Ok tt) ->
  exists token text m,
    signed_token auth_key at_ token /\ admitted env core token /\
    from_utf8 policy_bytes = Some text /\ rego_parse text = Some m /\
    policy_in_force (policy_engine core) (w_fs w') = Some m /\
    files (w_fs w') = <[resolve (opa_policy_path (policy_engine core)) := policy_bytes]> (files (w_fs w)) /\
    w_ext w' = w_ext w /\ same_but_metrics (w_as w) (w_as w').
Proof.
  intros H. unfold set_resource_policy in H.
  apply admin_request_Ok in H as (token & Ht & H). apply st_bind_Ok in H as (w1 & json & Hj & H).
  injection Hj as -> Hj%ok_or_Ok. apply send_expect_Ok in H as (reply & H & Hs).
  eapply (deliver_200 env core limit elapsed _ "resource-policy" "") in H
    as (raw & wb & w2 & res & Har & Hwb & Hw2 & _ & Hapi & _);
    [|reflexivity|exact plain_path_policy|done|done|now left|done].
  eapply api_admin in Hapi as [Hv Hk]; [|done|done|unfold dispatch; cbn [http_method matched_request];
    rewrite (ar_method _ _ _ Har); reflexivity].
  apply st_bind_Ok in Hk as (w3 & [] & Hset & Hk). injection Hk as -> _.
  unfold st_map_err in Hset. destruct (on_fs _ wb) as [w4 x] eqn:E. injection Hset as -> Hx.
  apply map_err_Ok in Hx as ->. apply st_on_Ok in E as (fs' & E & ->).
  apply engine_set_policy_Ok in E as (v & policy & b & text & m & Hjs & Hptr & Hb & Htx & Hm & ->).
  rewrite (request_json_read _ _ Hj) in Hjs. injection Hjs as <-. cbn in Hptr. injection Hptr as <-.
  rewrite base64_url_roundtrip in Hb. injection Hb as <-.
  destruct Hwb as (Hf1 & He1 & Hm1), Hw2 as (Hf2 & He2 & Hm2).
  exists token, text, m. split; [done|]. split.
  { pose proof (ar_bearer _ _ _ Har "resource-policy" "") as Hbr. now apply (validate_admitted env core _ token Hbr). }
  do 2 (split; [done|]). rewrite Hf2, He2. unfold policy_in_force. cbn [files w_fs w_ext set_fs].
  unfold put; cbn [files]; rewrite lookup_insert_eq. cbn. rewrite Htx. split; [done|]. split; [now rewrite Hf1|]. split; [done|].
  destruct Hm1 as (? & ? & ?), Hm2 as (? & ? & ?). cbn in *. repeat split; congruence.
Qed.
End Against.

(** ** Reference values, from the administrator to the policies *)

(** The texts the client writes for a value are read back by the sample
    extractor. *)
Record sample_read {CC : ClientCrates} {KC : KbsCrates} {RC : RvpsCrates} (key : string) (value : Value) : Prop := {
  message_read : message_from_str (sample_message (sample_provenance key value)) =
                 Some (MESSAGE_VERSION, sample_provenance key value, "sample");
  message_utf8 : from_utf8 (str_bytes (sample_message (sample_provenance key value))) =
                 Some (sample_message (sample_provenance key value));
  provenance_decoded : rv_base64_decode (sample_provenance key value) =
                 Some (str_bytes (json_text (VObject [(key, value)])));
  provenance_read : provenance_from_slice (str_bytes (json_text (VObject [(key, value)]))) = Some [(key, value)];
}.

Section SampleValues.
Context {S X : Type} `{TB : AttestationTokenBroker S} `{ASC : AsCrates} `{KC : KbsCrates}
  {B : ReferenceValueStorage S} {ok : S -> Prop} {contents : S -> gmap string ReferenceValue}
  {HS : StorageSpec B ok contents} `{RC : RvpsCrates} {Spec : RvpsCratesSpec RC}.
Context (verifier_for : Tee -> outcome anyhow Verifier) (as_env : AsEnv).

(** The KBS with the built-in attestation service and its built-in RVPS. *)
#[local] Instance service_rvps : RvpsApi S := builtin_rvps.
#[local] Instance service : Attest S := builtin_coco_as verifier_for as_env.

Context `{T : TimeCrate} `{D : Disk} `{PC : PolicyCrates} `{HA : HttpAuth} `{J : JwtSimple} `{TC : TokenCrates}
  `{JC : JweCrates} `{AC : ApiCrates} `{CC : ClientCrates} {Wi : Wire}.
Context (root : string) {WS : WireSpec Wi root} {CS : ClientCratesSpec CC KC PC}.
Abbreviation world := (World (I := S) (X := X)).
Implicit Types (w : world) (core : ApiServer (I := S) (X := X)).

(** The reference value a sample entry becomes. *)
Definition sample_rv (key : string) (value : Value) (e : Z) : ReferenceValue :=
  {| rv_version := REFERENCE_VALUE_VERSION; rv_name := key; expiration := e; rv_value := value |}.

Lemma sample_registration at_ key value s s' e :
  sample_read key value ->
  clock_ok at_ -> checked_add_months (with_nanosecond_0 at_) MONTHS_BEFORE_EXPIRATION = Some e -> ok s ->
  verify_and_extract at_ (sample_message (sample_provenance key value)) s = (s', Ok tt) ->
  contents s' = <[key := sample_rv key value e]> (contents s) /\ ok s' /\
  expired at_ (sample_rv key value e) = false.
Proof.
  intros Hsr Hc He Hok H.
  assert (Hp : process at_ {| version := MESSAGE_VERSION; payload := sample_provenance key value; type_ := "sample" |}
               = Some (Ok [sample_rv key value e])).
  { unfold process. cbn [type_ payload]. rewrite String.eqb_refl. unfold sample_verify_and_extract.
    rewrite (provenance_decoded _ _ Hsr). cbn. rewrite (provenance_read _ _ Hsr). cbn. unfold rv_new. now rewrite He. }
  unfold verify_and_extract in H. unfold mbind, st_bind, st_lift, ok_or in H. rewrite (message_read _ _ Hsr) in H.
  cbn [version] in H. rewrite String.eqb_refl in H. cbn [negb] in H. rewrite Hp in H.
  change (store_all [sample_rv key value e] s = (s', Ok tt)) in H.
  assert (Hn : rv_new at_ = Ok {| rv_version := REFERENCE_VALUE_VERSION; rv_name := ""; expiration := e; rv_value := VNull |})
    by (unfold rv_new; now rewrite He).
  destruct (rv_new_readable Spec _ _ Hc Hn) as [Hr Hx].
  destruct (store_all_spec HS [sample_rv key value e] s s' (Ok tt) Hok) as (_ & _ & Hf);
    [now constructor|exact H|]. destruct (Hf eq_refl) as [Hok' Hcont]. split; [exact Hcont|]. now split.
Qed.

Lemma client_register env core limit elapsed at_ key value auth_key certs w w' e :
  sample_read key value -> clock_ok (t_register as_env) ->
  checked_add_months (with_nanosecond_0 (t_register as_env)) MONTHS_BEFORE_EXPIRATION = Some e ->
  ok (inner (w_as w)) ->
  set_sample_rv (deliver env core limit elapsed) at_ root key value auth_key certs w = (w', Ok tt) ->
  contents (inner (w_as w')) = <[key := sample_rv key value e]> (contents (inner (w_as w))) /\
  ok (inner (w_as w')) /\ expired (t_register as_env) (sample_rv key value e) = false /\ w_fs w' = w_fs w.
Proof.
  intros Hsr Hc He Hok H. unfold set_sample_rv in H.
  apply admin_request_Ok in H as (token & Ht & H). apply send_expect_Ok in H as (reply & H & Hs).
  eapply (deliver_200 root env core limit elapsed _ "reference-value" "") in H
    as (raw & wb & w2 & res & Har & Hwb & Hw2 & _ & Hapi & _);
    [|reflexivity|exact plain_path_rv|done|done|now left|done].
  eapply api_admin in Hapi as [Hv Hk]; [|done|done|unfold dispatch; cbn [http_method matched_request];
    rewrite (ar_method _ _ _ Har); reflexivity].
  apply st_bind_Ok in Hk as (w3 & msg & Hmsg & Hk). injection Hmsg as <- Hmsg%ok_or_Ok. cbn [cr_body] in Hmsg.
  rewrite (message_utf8 _ _ Hsr) in Hmsg. injection Hmsg as <-.
  apply st_bind_Ok in Hk as (w4 & [] & Hreg & Hk). injection Hk as -> _.
  unfold st_map_err in Hreg. destruct (on_as _ wb) as [w5 x] eqn:E. injection Hreg as -> Hx.
  apply map_err_Ok in Hx as ->. apply st_on_Ok in E as (a' & E & ->).
  unfold register_reference_value, call_inner in E. apply st_on_Ok in E as (i' & E & ->).
  cbn in E. unfold svc_register_reference_value, st_map_err in E. cbn [rvps_verify_and_extract service_rvps builtin_rvps] in E.
  destruct (verify_and_extract _ _ _) as [i2 y] eqn:Ev. injection E as -> Hy. apply map_err_Ok in Hy as ->.
  destruct Hwb as (Hf1 & _ & Hi1 & _), Hw2 as (Hf2 & _ & Hi2 & _). rewrite Hi1 in Ev.
  destruct (sample_registration _ _ _ _ _ _ Hsr Hc He Hok Ev) as (Hcont & Hok' & Hexp).
  rewrite Hi2, Hf2. cbn. now rewrite Hf1.
Qed.

Lemma client_query env core limit elapsed at_ auth_key certs w w' text :
  ok (inner (w_as w)) ->
  get_rvs (deliver env core limit elapsed) at_ root auth_key certs w = (w', Ok text) ->
  exists t, reference_values_to_string (map_to_list (current_digests (t_digests as_env) (contents (inner (w_as w))))) = Some t /\
    response_text (str_bytes t) = Some text /\ same_world w w'.
Proof.
  intros Hok H. unfold get_rvs in H. apply admin_request_Ok in H as (token & Ht & H).
  apply st_bind_Ok in H as (w1 & reply & H & Hs).
  destruct (Z.eqb_spec (reply_status reply) 200) as [Es|]; [|unfold request_failed in Hs; run_st Hs].
  injection Hs as -> Hs%ok_or_Ok.
  eapply (deliver_200 root env core limit elapsed _ "reference-value" "") in H
    as (raw & wb & w2 & res & Har & Hwb & Hw2 & _ & Hapi & ->);
    [|reflexivity|exact plain_path_rv|done|done|now left|done].
  eapply api_admin in Hapi as [Hv Hk]; [|done|done|unfold dispatch; cbn [http_method matched_request];
    rewrite (ar_method _ _ _ Har); reflexivity].
  apply st_bind_Ok in Hk as (w3 & rvs & Hq & Hk). apply st_bind_Ok in Hk as (w4 & t & Hjs & Hk).
  injection Hjs as <- Hjs%ok_or_Ok. injection Hk as -> <-.
  unfold st_map_err in Hq. destruct (on_as _ wb) as [w5 x] eqn:E. injection Hq as -> Hx.
  apply map_err_Ok in Hx as ->. apply st_on_Ok in E as (a' & E & ->).
  unfold query_reference_values, call_inner in E. apply st_on_Ok in E as (i' & E & ->).
  cbn [attest_query_reference_values service builtin_coco_as] in E.
  apply st_bind_Ok in E as (i2 & m & Hg & E). injection E as -> <-.
  unfold svc_query_reference_values, st_map_err in Hg. cbn [rvps_get_digests service_rvps builtin_rvps] in Hg.
  destruct (get_digests _ _) as [i3 y] eqn:Eg. injection Hg as -> Hy. apply map_err_Ok in Hy as ->.
  destruct Hwb as (Hf1 & He1 & Hi1 & Hs1 & Ht1), Hw2 as (Hf2 & He2 & Hi2 & Hs2 & Ht2). rewrite Hi1 in Eg.
  destruct (get_digests_spec HS _ _ _ _ Hok Eg) as (-> & _ & Hm). rewrite (Hm m eq_refl) in Hjs.
  exists t. split; [exact Hjs|]. split; [exact Hs|]. cbn in *. repeat split; congruence.
Qed.

(** A reference value set with the client is the value policies see.  When
    [set_sample_rv] has succeeded against a KBS with the built-in attestation
    service, the store holds that value under its name and otherwise what it held
    before; and a following [get_rvs] prints the JSON of a map that has the value
    under the name, with every other value that has not expired. *)
Theorem client_sample_value_reported env core limit elapsed at_ key value auth_key certs w w1
    env2 limit2 elapsed2 at2 auth_key2 certs2 w2 text :
  sample_read key value -> clock_ok (t_register as_env) ->
  is_Some (checked_add_months (with_nanosecond_0 (t_register as_env)) MONTHS_BEFORE_EXPIRATION) ->
  t_digests as_env <= t_register as_env ->
  ok (inner (w_as w)) ->
  set_sample_rv (deliver env core limit elapsed) at_ root key value auth_key certs w = (w1, Ok tt) ->
  get_rvs (deliver env2 core limit2 elapsed2) at2 root auth_key2 certs2 w1 = (w2, Ok text) ->
  exists rv m t, rv_name rv = key /\ rv_value rv = value /\
    contents (inner (w_as w1)) = <[key := rv]> (contents (inner (w_as w))) /\
    m = current_digests (t_digests as_env) (<[key := rv]> (contents (inner (w_as w)))) /\
    m !! key = Some value /\
    reference_values_to_string (map_to_list m) = Some t /\ response_text (str_bytes t) = Some text.
Proof.
  intros Hsr Hc [e He] Hle Hok H1 H2.
  destruct (client_register _ _ _ _ _ _ _ _ _ _ _ _ Hsr Hc He Hok H1) as (Hcont & Hok1 & Hexp & _).
  destruct (client_query _ _ _ _ _ _ _ _ _ _ Hok1 H2) as (t & Hjs & Htx & _). rewrite Hcont in Hjs.
  exists (sample_rv key value e). eexists _, t. do 3 (split; [done|]). split; [reflexivity|].
  split; [|split; [exact Hjs|exact Htx]].
  unfold current_digests. rewrite lookup_omap, lookup_insert_eq. cbn. unfold expired in *. cbn in *.
  apply Z.ltb_ge in Hexp. rewrite (proj2 (Z.ltb_ge _ _)) by lia. done.
Qed.
End SampleValues.

(** ** Witnesses *)
Module ClientDemo.
#[export] Existing Instances PolicyDemo.good_disk PolicyDemo.crates TokenDemo.http_auth
  TokenDemo.jwt_simple TokenDemo.crates JweDemo.crates AccessDemo.api_crates
  Handshake.Demo.demo_time Handshake.Demo.demo_crates.

Definition root : string := "http://kbs".

(** Connections to one server. *)
#[export] Instance demo_wire : Wire := fun rq =>
  path ← strip_string root (cr_url rq);
  Some {| raw_method := cr_method rq; raw_path := path; raw_query := ""; raw_cookie _ := None;
          raw_headers h := if String.eqb h "Authorization" then cr_bearer rq else None;
          raw_content_length := None; raw_body := cr_body rq |}.

#[export] Instance demo_wire_spec : WireSpec demo_wire root.
Proof.
  intros rq p Hu _. unfold wire, demo_wire. rewrite (proj2 (strip_string_spec root _ p) Hu). cbn.
  eexists. split; [reflexivity|]. now constructor.
Qed.

#[export] Instance client_crates : ClientCrates := {|
  Ed25519KeyPair := string; keypair_from_pem := Some; keypair_sign k _ _ := Some k;
  certificate_from_pem _ := true; http_client_build _ := true;
  request_json v :=
    match v with
    | VObject [(k, VString s)] =>
        if String.eqb k "policy" && bool_decide (from_utf8 (str_bytes s) = Some s) then Some (str_bytes s) else None
    | _ => None
    end;
  response_text := from_utf8;
  json_text v :=
    match v with
    | VObject [_; _; (_, VString p)] => p
    | VObject [(k, _)] => k
    | _ => ""
    end;
|}.

#[export] Instance client_laws : ClientCratesSpec client_crates Handshake.Demo.demo_crates PolicyDemo.crates.
Proof.
  constructor; [|done]. intros v b. cbn. destruct v as [| | | | |[|[k [| | |s| |]] [|]]]; try done.
  destruct (String.eqb_spec k "policy") as [->|]; [|done]. case_bool_decide as E; [|done].
  intros [= <-]. now rewrite E.
Qed.

(** The administrator's secret, stored and fetched. *)
Definition desc : ResourceDesc :=
  {| repository_name := "default"; resource_type := "key"; resource_tag := "2" |}.
Definition secret : bytes := str_bytes "secret".
Definition limit : Z := 2 * 1048576.
Definition sent := deliver AccessDemo.env AccessDemo.core limit 7
  (I := nat) (X := unit) (A := Handshake.Demo.demo_attest).
Definition w1 : World (I := nat) (X := unit) :=
  (set_resource sent 0 root "adm" secret (resource_desc_display desc) [] AccessDemo.w0).1.

Lemma repo0 : repo_ok (resolve (repo_dir_path AccessDemo.repo)) (w_fs AccessDemo.w0).
Proof.
  constructor.
  - intros xs [b Hb]. cbn in Hb. rewrite lookup_insert_Some, lookup_singleton_Some in Hb.
    destruct Hb as [[E _]|[_ [E _]]]; [discriminate|]. now injection E as <-.
  - intros n. destruct n as [|[|n]]; [reflexivity..|]. destruct n; reflexivity.
  - intros xs Hx. cbn in Hx. rewrite !elem_of_union, !elem_of_singleton in Hx.
    destruct Hx as [[E|E]|E]; injection E as ->; cbn; lia.
Qed.
End ClientDemo.

Import ClientDemo.

(** A run is determined by its result and the state it is said to reach. *)
Lemma run_result {S R : Type} (run : S * R) r : run.2 = r -> run = (run.1, r).
Proof. destruct run. cbn. now intros ->. Qed.

Lemma client_set_resource_witness :
  local_stored ["r"] (w_fs w1) desc = Some secret.
Proof.
  refine (proj1 (proj2 (proj2 (client_set_resource (A := Handshake.Demo.demo_attest) (X := unit) root AccessDemo.env AccessDemo.core limit 7 0 "adm" secret desc []
    AccessDemo.w0 w1 AccessDemo.repo _ repo0 _ _)))).
  - apply lookup_insert_eq.
  - repeat split.
  - apply run_result. vm_compute. reflexivity.
Defined.

(** Between the two: the administrator denies everything and allows it again,
    stores another resource, somebody else tries to overwrite this one, and a
    guest reads a third. *)
Definition meanwhile : list (CallEnv * HttpRequest * bytes) :=
  map (fun r => (AccessDemo.env, r.1, r.2))
    [ (AccessDemo.request "resource-policy" "" "adm" POST, str_bytes (PolicyDemo.enc (str_bytes "deny")));
      (AccessDemo.request "resource" "/default/key/3" "adm" POST, str_bytes "other");
      (AccessDemo.request "resource" "/default/key/2" "good" POST, str_bytes "forged");
      (AccessDemo.request "resource-policy" "" "adm" POST, str_bytes (PolicyDemo.enc (str_bytes "allow")));
      (AccessDemo.get_secret, []) ].

Lemma client_secret_reaches_guest_witness :
  let v := after_requests (A := Handshake.Demo.demo_attest) AccessDemo.core meanwhile w1 in
  local_stored ["r"] (w_fs v) {| repository_name := "default"; resource_type := "key"; resource_tag := "3" |} =
    Some (str_bytes "other") /\
  exists key jr, jwe JweDemo.rnd key secret = Ok jr.
Proof.
  set (get := AccessDemo.request "resource" (String.String slash (resource_desc_display desc)) "good" GET).
  intros v. split; [vm_compute; reflexivity|].
  destruct (client_secret_reaches_guest (A := Handshake.Demo.demo_attest) (X := unit) root PolicyDemo.crates_spec
    AccessDemo.configs AccessDemo.w0 AccessDemo.w_managed
    AccessDemo.env AccessDemo.core limit 7 0 "adm" secret desc [] AccessDemo.w0 w1 AccessDemo.repo meanwhile
    AccessDemo.env get [] v (api (A := Handshake.Demo.demo_attest) AccessDemo.env AccessDemo.core get [] v).1
    AccessDemo.answer)
    as (token & claims & key & jr & out & _ & Hv & Hk & Hj & _).
  - exact AccessDemo.managed.
  - apply lookup_insert_eq.
  - exact repo0.
  - repeat split.
  - intros H. vm_compute in H. discriminate.
  - apply run_result. vm_compute. reflexivity.
  - repeat constructor; intros (H1 & H2 & H3 & H4); vm_compute in H1, H2, H3, H4; discriminate.
  - reflexivity.
  - reflexivity.
  - reflexivity.
  - reflexivity.
  - apply run_result. vm_compute. reflexivity.
  - exists key, jr. exact Hj.
Defined.

Lemma client_set_resource_succeeds_witness :
  exists w', set_resource sent 0 root "adm" secret (resource_desc_display desc) [] AccessDemo.w0 = (w', Ok tt).
Proof.
  apply (client_set_resource_succeeds (CC := client_crates) (A := Handshake.Demo.demo_attest) (X := unit) root AccessDemo.env AccessDemo.core limit 7 0
    "adm" "adm" "adm" secret desc [] AccessDemo.w0 AccessDemo.repo); try reflexivity.
  - exact repo0.
  - repeat split.
  - vm_compute. discriminate.
Defined.

Lemma client_set_resource_policy_witness :
  let w := (set_resource_policy sent 0 root "adm" (str_bytes "deny") [] AccessDemo.w0).1 in
  policy_in_force (policy_engine AccessDemo.core) (w_fs w) = Some false.
Proof.
  intros w.
  destruct (client_set_resource_policy (A := Handshake.Demo.demo_attest) (X := unit) root PolicyDemo.crates_spec
    AccessDemo.env AccessDemo.core limit 7 0 "adm" (str_bytes "deny") [] AccessDemo.w0 w)
    as (token & text & m & _ & _ & Ht & Hp & Hf & _); [apply run_result; vm_compute; reflexivity|].
  rewrite Hf. vm_compute in Ht. injection Ht as <-. vm_compute in Hp. symmetry. exact Hp.
Defined.

(** The same with the built-in attestation service over a JSON file of
    reference values. *)
Module SampleDemo.
#[export] Existing Instances RvpsDemo.crates RvpsDemo.crates_spec.

#[export] Instance no_broker : AttestationTokenBroker Fs := {|
  issue _ _ _ _ _ := st_err "no broker";
  broker_set_policy _ _ := st_err "no broker";
  broker_list_policies := st_err "no broker";
  broker_get_policy _ := st_err "no broker";
|}.
#[export] Instance no_as_crates : AsCrates := {|
  serialize_canon_json _ := None; hash_digest _ _ := []; initdata_from_toml _ := None;
|}.
#[export] Instance storage : ReferenceValueStorage Fs := local_json_storage (D := RvpsDemo.disk) RvpsDemo.l.
#[export] Instance storage_laws : StorageSpec storage (json_ok RvpsDemo.l) (json_contents RvpsDemo.l) :=
  json_storage_correct RvpsDemo.crates_spec RvpsDemo.l.

Definition as_env : AsEnv := {| t_register := 0; t_digests := 0; t_issue := 0; jti := ""; AsService.rng _ := None |}.
Definition no_verifier (_ : Tee) : outcome anyhow Verifier := Err "no verifier".
Definition core : ApiServer (I := Fs) (X := unit) := {|
  plugin_manager := ∅; policy_engine := {| opa_policy_path := "/p" |};
  admin_auth := @Build_Admin TokenDemo.jwt_simple (Some "adm"); token_verifier := TokenDemo.t0 |}.
Abbreviation sent := (deliver (A := service no_verifier as_env) (X := unit) AccessDemo.env core limit 7).
Definition w0 : World (I := Fs) (X := unit) :=
  {| w_fs := AccessDemo.fs0; w_as := service_new RvpsDemo.fs0 5 no_metrics; w_ext := tt |}.
Definition w1 : World (I := Fs) (X := unit) := (set_sample_rv sent 0 root "alpha" VNull "adm" [] w0).1.
Definition w2 : World (I := Fs) (X := unit) := (get_rvs sent 0 root "adm" [] w1).1.

Lemma alpha_read : sample_read "alpha" VNull.
Proof. constructor; vm_compute; reflexivity. Qed.
End SampleDemo.

Import SampleDemo.

Lemma client_sample_value_reported_witness :
  exists rv, rv_value rv = VNull /\
    json_contents RvpsDemo.l (inner (w_as SampleDemo.w1)) =
    <["alpha" := rv]> (json_contents RvpsDemo.l (inner (w_as SampleDemo.w0))).
Proof.
  destruct (client_sample_value_reported (HS := SampleDemo.storage_laws) (X := unit) no_verifier SampleDemo.as_env root
    AccessDemo.env SampleDemo.core limit 7 0 "alpha" VNull "adm" [] SampleDemo.w0 SampleDemo.w1
    AccessDemo.env limit 7 0 "adm" [] SampleDemo.w2 "[]" SampleDemo.alpha_read RvpsDemo.clock_0)
    as (rv & m & t & _ & Hv & Hc & _).
  - exists (12 * NANOS). reflexivity.
  - reflexivity.
  - exact RvpsDemo.fs0_ok.
  - unfold SampleDemo.w1. apply run_result. vm_compute. reflexivity.
  - unfold SampleDemo.w2. apply run_result. vm_compute. reflexivity.
  - exists rv. split; [exact Hv|exact Hc].
Defined.
