(* ===== verification/TrusteeCli.v ===== *)
(** * The trustee command ([tools/trustee/src/main.rs], [run.rs], [keygen.rs])

    [trustee keygen] writes a key pair; [trustee run] completes a configuration
    (directories below the home of trustee, keys, a certificate, a policy) and
    starts the server with it.  OpenSSL is a parameter. *)
From S2P Require Import Prelude Types Text Fs Json Policy Resource Token Rvps Brokers Verifier AsService Nvidia Tpm ApiServer RemoteStores Pkcs11 NebulaCa Plugins HttpServer Ita KbsClient Config.

#[local] Arguments String.append !_ _ / : simpl nomatch.

(** ** Paths *)

(** [Path::strip_prefix] and [starts_with], on the components of paths; the
    result is kept up to redundant separators. *)
Fixpoint strip_components (prefix l : list string) : option (list string) :=
  match prefix, l with
  | [], l => Some l
  | p :: prefix, c :: l => if String.eqb p c then strip_components prefix l else None
  | _ :: _, [] => None
  end.

Definition path_strip_prefix (p base : string) : option string :=
  if Bool.eqb (is_absolute p) (is_absolute base) then
    join_with slash <$> strip_components (path_components base) (path_components p)
  else None.

(** [Path::with_extension]: the name of the file up to its extension, if any. *)
Definition with_extension (p ext : string) : string :=
  match list.last (path_components p), path_parent p with
  | Some name, Some parent =>
      if String.eqb name ".." then p
      else path_push parent (fst (file_stem_extension name) +:+ "." +:+ ext)
  | _, _ => p
  end.

Definition OLD_BASE : string := "/opt/confidential-containers/".

(** [replace_base_dir]. *)
Definition replace_base_dir (path new_base : string) : string :=
  match path_strip_prefix path OLD_BASE with
  | Some suffix => path_push new_base suffix
  | None => if is_absolute path then path else path_push new_base path
  end.

(** [default_home]. *)
Definition default_home (is_root : bool) (home_dir : option string) : string :=
  if is_root then "/opt/confidential-containers" else path_push (default "" home_dir) ".trustee".

(** [get_key_paths]. *)
Definition get_key_paths (base_dir key_name : string) : string * string :=
  let private_path := path_push base_dir key_name in
  (private_path, with_extension private_path "pub").

(** OpenSSL: new keys, their PEM encodings, and a self-signed certificate for
    [localhost] made at a time, valid for a number of days. *)
Class KeyCrates := {
  PKeyPrivate : Type;
  generate_ed25519 : nat -> option PKeyPrivate;
  generate_rsa : nat -> Z -> option PKeyPrivate;
  private_key_to_pem_pkcs8 : PKeyPrivate -> option bytes;
  public_key_to_pem : PKeyPrivate -> option bytes;
  private_key_from_pem : bytes -> option PKeyPrivate;
  X509Cert : Type;
  self_signed_certificate : PKeyPrivate -> Z -> Z -> option X509Cert;
  certificate_to_pem : X509Cert -> option bytes;
}.

Section Trustee.
Context `{D : Disk} `{KY : KeyCrates} `{DA : DeviceArchitectures} `{CF : ConfigCrates}.
(** The clock and the source of random keys. *)
Context (now : Z) (seed : nat).

(** ** Files *)

(** [File::create_new]: an empty file that was not there, in an existing
    directory. *)
Definition create_new (p : string) : st Fs anyhow unit := fun fs =>
  if path_exists fs p then (fs, Err "exists") else fs_write p [] fs.

(** [set_permissions] on an open file. *)
Definition set_permissions (p : string) : st Fs anyhow unit := fun fs =>
  if disk_fault "chmod" (resolve p) then (fs, Err "io") else (fs, Ok tt).

(** [try_exists]. *)
Definition try_exists (p : string) : st Fs anyhow bool := fun fs =>
  if disk_fault "stat" (resolve p) then (fs, Err "io") else (fs, Ok (path_exists fs p)).

(** [write_private], [write_pem] and [write_new_auth_key_pair]. *)
Definition write_private (path : string) (key : PKeyPrivate) : st Fs anyhow unit :=
  create_new path;;
  set_permissions path;;
  pem ← st_lift (ok_or "pem" (private_key_to_pem_pkcs8 key));
  fs_write path pem.

Definition write_pem (private_path public_path : string) (private_key : PKeyPrivate) : st Fs anyhow unit :=
  write_private private_path private_key;;
  create_new public_path;;
  pem ← st_lift (ok_or "pem" (public_key_to_pem private_key));
  fs_write public_path pem.

Definition write_new_auth_key_pair (private_path public_path : string) : st Fs anyhow unit :=
  private_key ← st_lift (ok_or "ed25519" (generate_ed25519 seed));
  write_pem private_path public_path private_key.

(** [trustee_keygen]. *)
Definition trustee_keygen (private_path : string) : st Fs anyhow unit :=
  write_new_auth_key_pair private_path (with_extension private_path "pub").

(** ** Keys and certificate *)
Definition ensure_auth_key_pair (home_dir : string) : st Fs anyhow (string * string) :=
  let '(private_path, public_path) := get_key_paths home_dir "auth_key" in
  there ← try_exists private_path;
  (if there : bool then mret tt else write_new_auth_key_pair private_path public_path);;
  mret (private_path, public_path).

Definition ensure_https_key_pair (home_dir : string) : st Fs anyhow (string * string) :=
  let '(private_path, public_path) := get_key_paths home_dir "https_key" in
  there ← try_exists private_path;
  (if there : bool then mret tt
   else private_key ← st_lift (ok_or "rsa" (generate_rsa seed 2048));
        write_pem private_path public_path private_key);;
  mret (private_path, public_path).

Definition write_new_https_cert (certificate_path private_path : string) : st Fs anyhow unit :=
  private_key_data ← fs_read private_path;
  private_key ← st_lift (ok_or "pem" (private_key_from_pem private_key_data));
  certificate ← st_lift (ok_or "x509" (self_signed_certificate private_key now 365));
  create_new certificate_path;;
  pem ← st_lift (ok_or "pem" (certificate_to_pem certificate));
  fs_write certificate_path pem.

Definition ensure_https_cert (home_dir private_path : string) : st Fs anyhow string :=
  let certificate_path := path_push home_dir "https_cert.pem" in
  there ← try_exists certificate_path;
  (if there : bool then mret tt else write_new_https_cert certificate_path private_path);;
  mret certificate_path.

(** ** [get_config] *)
Definition relocate_plugin (home : string) (c : FullPluginsConfig) : FullPluginsConfig :=
  match c with
  | FP_ResourceStorage (FR_LocalFs repo_desc) =>
      FP_ResourceStorage (FR_LocalFs {| dir_path := replace_base_dir (dir_path repo_desc) home |})
  | _ => c
  end.

Definition relocate_rvps (home : string) (c : RvpsConfig) : RvpsConfig :=
  match c with
  | BuiltIn {| storage := StorageLocalFs file_path; extractors := e |} =>
      BuiltIn {| storage := StorageLocalFs (replace_base_dir file_path home); extractors := e |}
  | _ => c
  end.

Definition relocate_broker (home : string) (c : AttestationTokenConfig) : AttestationTokenConfig :=
  match c with
  | EarToken e => EarToken {|
      ec_duration_min := ec_duration_min e; ec_issuer_name := ec_issuer_name e;
      ec_developer_name := ec_developer_name e; ec_build_name := ec_build_name e;
      ec_profile_name := ec_profile_name e; ec_signer := ec_signer e;
      ec_policy_dir := replace_base_dir (ec_policy_dir e) home |}
  | _ => c
  end.

Definition relocate_as (home : string) (c : AttestationServiceConfig) : AttestationServiceConfig :=
  match c with
  | CoCoASBuiltIn a => CoCoASBuiltIn {|
      work_dir := replace_base_dir (work_dir a) home;
      rvps_config := relocate_rvps home (rvps_config a);
      attestation_token_broker := relocate_broker home (attestation_token_broker a);
      verifier_config := verifier_config a |}
  | _ => c
  end.

Definition relocate (home : string) (c : KbsConfig) : KbsConfig := {|
  attestation_token := attestation_token c;
  kc_attestation_service := {|
    attestation_service := relocate_as home (attestation_service (kc_attestation_service c));
    timeout := timeout (kc_attestation_service c) |};
  http_server := http_server c;
  admin := admin c;
  policy_engine := {| policy_path := replace_base_dir (policy_path (policy_engine c)) home |};
  plugins := map (relocate_plugin home) (plugins c);
|}.

Definition with_admin (a : AdminConfig) (c : KbsConfig) : KbsConfig := {|
  attestation_token := attestation_token c; kc_attestation_service := kc_attestation_service c;
  http_server := http_server c; admin := a; policy_engine := policy_engine c; plugins := plugins c |}.
Definition with_http (h : HttpServerConfig) (c : KbsConfig) : KbsConfig := {|
  attestation_token := attestation_token c; kc_attestation_service := kc_attestation_service c;
  http_server := h; admin := admin c; policy_engine := policy_engine c; plugins := plugins c |}.
Definition with_policy (p : string) (c : KbsConfig) : KbsConfig := {|
  attestation_token := attestation_token c; kc_attestation_service := kc_attestation_service c;
  http_server := http_server c; admin := admin c; policy_engine := {| policy_path := p |}; plugins := plugins c |}.

Definition with_key (key : string) (h : HttpServerConfig) : HttpServerConfig := {|
  sockets := sockets h; private_key := Some key; certificate := certificate h;
  insecure_http := insecure_http h; payload_request_size := payload_request_size h |}.
Definition with_cert (cert : string) (h : HttpServerConfig) : HttpServerConfig := {|
  sockets := sockets h; private_key := private_key h; certificate := Some cert;
  insecure_http := insecure_http h; payload_request_size := payload_request_size h |}.

(** A key pair for administrators. *)
Definition complete_admin (home : string) (c : KbsConfig) : st Fs anyhow KbsConfig :=
  match auth_public_key (admin c) with
  | Some _ => mret c
  | None =>
      paths ← ensure_auth_key_pair home;
      mret (with_admin {| auth_public_key := Some (snd paths); insecure_api := insecure_api (admin c) |} c)
  end.

(** A key and a self-signed certificate for HTTPS. *)
Definition complete_https_key (home : string) (h : HttpServerConfig) : st Fs anyhow HttpServerConfig :=
  match private_key h with
  | Some _ => mret h
  | None => paths ← ensure_https_key_pair home; mret (with_key (fst paths) h)
  end.

Definition complete_https (home : string) (c : KbsConfig) : st Fs anyhow KbsConfig :=
  if insecure_http (http_server c) then mret c
  else
    h ← complete_https_key home (http_server c);
    match certificate h with
    | Some _ => mret (with_http h c)
    | None =>
        key ← st_lift (unwrap (private_key h));
        cert ← ensure_https_cert home key;
        mret (with_http (with_cert cert h) c)
    end.

(** The policy: everything is allowed on demand, and nothing when no policy is
    configured. *)
Definition complete_policy (home : string) (allow_all : bool) (c : KbsConfig) : st Fs anyhow KbsConfig :=
  if allow_all then
    let p := path_push home "allow_all.rego" in
    fs_write p (str_bytes allow_all_policy);;
    mret (with_policy p c)
  else
    there ← st_gets (fun fs => path_exists fs (policy_path (policy_engine c)));
    if there : bool then mret c
    else
      let p := path_push home "deny_all.rego" in
      fs_write p (str_bytes deny_all_policy);;
      mret (with_policy p c).

Definition get_config (build : string) (as_work_dir : option string) (config_file : option string) (allow_all : bool)
    (trustee_home_dir : string) : st Fs anyhow KbsConfig :=
  config ← match config_file with
           | Some path => fun fs => (fs, kbs_config_try_from path fs)
           | None => mret (kbs_config_default as_work_dir build)
           end;
  config ← complete_admin trustee_home_dir (relocate trustee_home_dir config);
  config ← complete_https trustee_home_dir config;
  complete_policy trustee_home_dir allow_all config.

(** ** [main] *)
Inductive Commands :=
| Keygen (output_file : option string)
| Run (config_file : option string) (allow_all : bool).

(** What [run] starts the server with. *)
Definition trustee_main (build : string) (as_work_dir : option string) (home : string) (command : Commands) :
    st Fs anyhow (option KbsConfig) :=
  create_dir_all home;;
  match command with
  | Keygen output_file =>
      trustee_keygen (default (path_push home "key") output_file);; mret None
  | Run config_file allow_all =>
      config ← get_config build as_work_dir config_file allow_all home; mret (Some config)
  end.
End Trustee.

(** ** Properties *)
Section TrusteeProofs.
Context `{D : Disk} `{KY : KeyCrates} `{DA : DeviceArchitectures} `{CF : ConfigCrates}.
Context (now : Z) (seed : nat).

(** The files that were there are still there. *)
Definition keeps_files (fs fs' : Fs) : Prop := files fs ⊆ files fs'.

#[local] Instance keeps_preorder : PreOrder keeps_files.
Proof. unfold keeps_files. split; [intros fs; reflexivity|intros x y z; apply transitivity]. Qed.

Lemma keeps_new fs p data :
  files fs !! resolve p = None ->
  keeps_files fs {| files := <[resolve p := data]> (files fs); dirs := dirs fs |}.
Proof. intros H. unfold keeps_files. cbn. now apply insert_subseteq. Qed.

Lemma create_new_spec p fs fs' r :
  create_new p fs = (fs', r) ->
  r <> Panic /\
  (is_ok r = false -> fs' = fs) /\
  (is_ok r = true -> files fs !! resolve p = None /\
     fs' = {| files := <[resolve p := []]> (files fs); dirs := dirs fs |}).
Proof.
  unfold create_new, path_exists. destruct (is_dir fs (resolve p)) eqn:Ed; cbn; [now intros [= <- <-]|].
  destruct (is_file fs (resolve p)) eqn:Ef; cbn; [now intros [= <- <-]|]. intros H.
  assert (Hno : files fs !! resolve p = None).
  { apply eq_None_not_Some. intros Hs. apply is_file_spec in Hs. congruence. }
  destruct r as [[]|e|].
  - apply fs_write_Ok in H as ->. split_and!; try done.
  - now destruct (fs_write_empty _ _ _ _ H eq_refl) as [-> ?].
  - now destruct (fs_write_empty _ _ _ _ H eq_refl).
Qed.

(** Creating a file and writing it: the old files are kept whatever happens. *)
Lemma fill_new p data fs fs1 fs2 fs3 r :
  create_new p fs = (fs1, Ok tt) -> fs2 = fs1 -> fs_write p data fs2 = (fs3, r) ->
  keeps_files fs fs3 /\ r <> Panic /\
  (is_ok r = true -> files fs !! resolve p = None /\ files fs3 = <[resolve p := data]> (files fs)).
Proof.
  intros Hc -> Hw. destruct (create_new_spec _ _ _ _ Hc) as (_ & _ & Hn). destruct (Hn eq_refl) as [Hno ->].
  destruct r as [[]|e|].
  - apply fs_write_Ok in Hw as ->. unfold put. cbn. rewrite insert_insert_eq. split; [now apply (keeps_new fs p data)|done].
  - destruct (fs_write_fail _ _ _ _ _ Hw eq_refl) as [? [-> |(n & _ & ->)]];
      [split; [now apply (keeps_new fs p [])|done]|].
    cbn. unfold put. cbn. rewrite insert_insert_eq. split; [now apply (keeps_new fs p (take n data))|done].
  - now destruct (fs_write_fail _ _ _ _ _ Hw eq_refl).
Qed.

Lemma write_private_spec p key fs fs' r :
  write_private p key fs = (fs', r) ->
  keeps_files fs fs' /\ r <> Panic /\
  (is_ok r = true -> exists pem, private_key_to_pem_pkcs8 key = Some pem /\
     files fs !! resolve p = None /\ files fs' = <[resolve p := pem]> (files fs)).
Proof.
  unfold write_private. unfold mbind at 1, st_bind at 1.
  destruct (create_new p fs) as [fs1 [[]|e|]] eqn:E1;
    pose proof (create_new_spec _ _ _ _ E1) as (Hn & Hf & Ht);
    [|intros [= <- <-]; rewrite (Hf eq_refl); done|done].
  assert (Hk : keeps_files fs fs1) by (destruct (Ht eq_refl) as [? ->]; now apply (keeps_new fs p [])).
  unfold mbind at 1, st_bind at 1, set_permissions.
  destruct (disk_fault _ _); [intros [= <- <-]; done|].
  unfold mbind at 1, st_bind at 1, st_lift, ok_or.
  destruct (private_key_to_pem_pkcs8 key) as [pem|]; [|intros [= <- <-]; done].
  intros Hw. destruct (fill_new _ _ _ _ _ _ _ E1 eq_refl Hw) as (? & ? & H). split; [done|]. split; [done|].
  intros Hr. destruct (H Hr). eauto.
Qed.

Lemma write_pem_spec p q key fs fs' r :
  write_pem p q key fs = (fs', r) ->
  keeps_files fs fs' /\ r <> Panic /\
  (is_ok r = true -> exists priv pub, private_key_to_pem_pkcs8 key = Some priv /\ public_key_to_pem key = Some pub /\
     files fs !! resolve p = None /\ files fs !! resolve q = None /\ resolve p <> resolve q /\
     files fs' = <[resolve q := pub]> (<[resolve p := priv]> (files fs))).
Proof.
  unfold write_pem. unfold mbind at 1, st_bind at 1.
  destruct (write_private p key fs) as [fs1 [[]|e|]] eqn:E1;
    pose proof (write_private_spec _ _ _ _ _ E1) as (Hk1 & Hn1 & H1); [|intros [= <- <-]; done|done].
  destruct (H1 eq_refl) as (priv & Hp & Hno & Hf1).
  unfold mbind at 1, st_bind at 1.
  destruct (create_new q fs1) as [fs2 [[]|e|]] eqn:E2;
    pose proof (create_new_spec _ _ _ _ E2) as (Hn2 & Hf2 & H2);
    [|intros [= <- <-]; rewrite (Hf2 eq_refl); done|done].
  unfold mbind at 1, st_bind at 1, st_lift, ok_or.
  destruct (H2 eq_refl) as [Hq Hfs2].
  destruct (public_key_to_pem key) as [pub|].
  2: { intros [= <- <-]. split; [|done]. etrans; [exact Hk1|]. rewrite Hfs2. now apply (keeps_new fs1 q []). }
  intros Hw. destruct (fill_new _ _ _ _ _ _ _ E2 eq_refl Hw) as (Hk & Hn & H).
  split; [etrans; [exact Hk1|exact Hk]|]. split; [done|]. intros Hr. destruct (H Hr) as [_ Hfin].
  rewrite Hf1 in Hq, Hfin. apply lookup_insert_None in Hq as [Hq Hne]. exists priv, pub. now repeat split.
Qed.

(** [trustee keygen] never destroys a file.  Whatever happens, every file
    that existed is unchanged; and if it succeeds, neither of the two files
    existed, the private key is under the chosen name, its public key under the
    name with the extension [pub], and nothing else was written. *)
Theorem keygen_spec p fs fs' r :
  trustee_keygen seed p fs = (fs', r) ->
  keeps_files fs fs' /\ r <> Panic /\
  (is_ok r = true -> exists key priv pub,
     generate_ed25519 seed = Some key /\ private_key_to_pem_pkcs8 key = Some priv /\ public_key_to_pem key = Some pub /\
     let q := with_extension p "pub" in
     files fs !! resolve p = None /\ files fs !! resolve q = None /\ resolve p <> resolve q /\
     files fs' = <[resolve q := pub]> (<[resolve p := priv]> (files fs))).
Proof.
  unfold trustee_keygen, write_new_auth_key_pair. unfold mbind at 1, st_bind at 1, st_lift, ok_or.
  destruct (generate_ed25519 seed) as [key|]; [|intros [= <- <-]; done].
  intros H. apply write_pem_spec in H as (Hk & Hn & H). split; [done|]. split; [done|].
  intros Hr. destruct (H Hr) as (priv & pub & H1 & H2 & H3). exists key, priv, pub. now repeat split.
Qed.

(** A name that ends in [.pub] is its own public name: the key pair cannot be
    written, and a private key is left behind. *)
Theorem keygen_pub_name p key priv fs fs1 :
  with_extension p "pub" = p -> generate_ed25519 seed = Some key -> private_key_to_pem_pkcs8 key = Some priv ->
  write_private p key fs = (fs1, Ok tt) ->
  trustee_keygen seed p fs = (fs1, Err "exists") /\ files fs1 !! resolve p = Some priv.
Proof.
  intros Hp Hg Hpem Hw. destruct (write_private_spec _ _ _ _ _ Hw) as (_ & _ & H).
  destruct (H eq_refl) as (priv' & Hpem' & _ & Hf). assert (priv' = priv) as -> by congruence.
  assert (Hl : files fs1 !! resolve p = Some priv) by (rewrite Hf; apply lookup_insert_eq). split; [|done].
  unfold trustee_keygen, write_new_auth_key_pair, write_pem. rewrite Hp.
  unfold mbind at 1, st_bind at 1, st_lift, ok_or. rewrite Hg.
  unfold mbind at 1, st_bind at 1. rewrite Hw. unfold mbind at 1, st_bind at 1, create_new, path_exists.
  rewrite (proj2 (is_file_spec fs1 (resolve p))) by eauto. now rewrite orb_true_r.
Qed.

(** ** [get_config] *)
Lemma complete_admin_Ok home c fs fs' c' :
  complete_admin seed home c fs = (fs', Ok c') ->
  is_Some (auth_public_key (admin c')) /\ http_server c' = http_server c /\ policy_engine c' = policy_engine c /\
  plugins c' = plugins c /\ kc_attestation_service c' = kc_attestation_service c /\
  insecure_api (admin c') = insecure_api (admin c).
Proof.
  unfold complete_admin. destruct (auth_public_key (admin c)) as [k|] eqn:E.
  - intros [= <- <-]. rewrite E. split_and!; eauto.
  - intros H. apply st_bind_Ok in H as (f & ps & _ & H). injection H as <- <-. cbn. split_and!; eauto.
Qed.

Lemma complete_https_Ok home c fs fs' c' :
  complete_https now seed home c fs = (fs', Ok c') ->
  insecure_http (http_server c') = insecure_http (http_server c) /\
  (insecure_http (http_server c) = false ->
   is_Some (private_key (http_server c')) /\ is_Some (certificate (http_server c'))) /\
  admin c' = admin c /\ policy_engine c' = policy_engine c /\
  plugins c' = plugins c /\ kc_attestation_service c' = kc_attestation_service c.
Proof.
  unfold complete_https. destruct (insecure_http (http_server c)) eqn:Ei.
  { intros [= <- <-]. rewrite Ei. now split_and!. }
  intros H. apply st_bind_Ok in H as (f & h & Hh & H).
  assert (Hk : is_Some (private_key h) /\ insecure_http h = insecure_http (http_server c)).
  { unfold complete_https_key in Hh. destruct (private_key (http_server c)) as [k|] eqn:Ek.
    - injection Hh as <- <-. rewrite Ek. eauto.
    - apply st_bind_Ok in Hh as (f2 & ps & _ & Hh). injection Hh as <- <-. cbn. eauto. }
  destruct Hk as [Hk Hi]. destruct (certificate h) as [cert|] eqn:Ec.
  - injection H as <- <-. cbn. rewrite Ec, Hi. split_and!; eauto.
  - apply st_bind_Ok in H as (f2 & k & _ & H). apply st_bind_Ok in H as (f3 & cert & _ & H).
    injection H as <- <-. cbn. rewrite Hi. split_and!; eauto.
Qed.

Lemma complete_policy_Ok home allow_all c fs fs' c' :
  complete_policy home allow_all c fs = (fs', Ok c') ->
  admin c' = admin c /\ http_server c' = http_server c /\
  plugins c' = plugins c /\ kc_attestation_service c' = kc_attestation_service c /\
  let q := policy_path (policy_engine c') in
  if allow_all then q = path_push home "allow_all.rego" /\ files fs' !! resolve q = Some (str_bytes allow_all_policy)
  else (q = policy_path (policy_engine c) /\ path_exists fs q = true /\ fs' = fs) \/
       (path_exists fs (policy_path (policy_engine c)) = false /\ q = path_push home "deny_all.rego" /\
        files fs' !! resolve q = Some (str_bytes deny_all_policy)).
Proof.
  unfold complete_policy. destruct allow_all.
  - intros H. apply st_bind_Ok in H as (f & [] & Hw & H). injection H as <- <-. apply fs_write_Ok in Hw as ->.
    unfold put. cbn. now rewrite lookup_insert_eq.
  - intros H. apply st_bind_Ok in H as (f & b & Hb & H). injection Hb as <- <-.
    destruct (path_exists fs _) eqn:E.
    + injection H as <- <-. split_and!; auto.
    + apply st_bind_Ok in H as (f2 & [] & Hw & H). injection H as <- <-. apply fs_write_Ok in Hw as ->.
      unfold put. cbn. rewrite lookup_insert_eq. split_and!; auto.
Qed.

(** The configuration [get_config] starts from. *)
Definition base_config (build : string) (as_work_dir : option string) (config_file : option string) (fs : Fs) :
    outcome anyhow KbsConfig :=
  match config_file with
  | Some path => kbs_config_try_from path fs
  | None => Ok (kbs_config_default as_work_dir build)
  end.

Lemma get_config_Ok build awd cf allow_all home fs fs' c :
  get_config now seed build awd cf allow_all home fs = (fs', Ok c) ->
  exists c0 c1 c2 fs1 fs2, base_config build awd cf fs = Ok c0 /\
    complete_admin seed home (relocate home c0) fs = (fs1, Ok c1) /\
    complete_https now seed home c1 fs1 = (fs2, Ok c2) /\
    complete_policy home allow_all c2 fs2 = (fs', Ok c).
Proof.
  intros H. unfold get_config in H. apply st_bind_Ok in H as (f & c0 & H0 & H).
  apply st_bind_Ok in H as (fs1 & c1 & H1 & H). apply st_bind_Ok in H as (fs2 & c2 & H2 & H).
  assert (f = fs /\ base_config build awd cf fs = Ok c0) as [-> Hb].
  { unfold base_config. destruct cf; now injection H0 as <- <-. }
  eauto 10.
Qed.

(** A server started by [trustee run] is locked by default.  Whatever the
    configuration, when [get_config] succeeds there is a key for administrators;
    unless plain HTTP was asked for there is a key and a certificate for TLS;
    the directories are those of the configuration moved below the home
    directory; and the policy is the built-in one that allows everything if that
    was asked for, otherwise the configured policy if it exists, and otherwise
    the one that denies everything. *)
Theorem get_config_spec build awd cf allow_all home fs fs' c :
  get_config now seed build awd cf allow_all home fs = (fs', Ok c) ->
  exists c0, base_config build awd cf fs = Ok c0 /\
    is_Some (auth_public_key (admin c)) /\ insecure_api (admin c) = insecure_api (admin c0) /\
    insecure_http (http_server c) = insecure_http (http_server c0) /\
    (insecure_http (http_server c) = false ->
     is_Some (private_key (http_server c)) /\ is_Some (certificate (http_server c))) /\
    plugins c = plugins (relocate home c0) /\
    kc_attestation_service c = kc_attestation_service (relocate home c0) /\
    let q := policy_path (policy_engine c) in
    if allow_all then files fs' !! resolve q = Some (str_bytes allow_all_policy)
    else (q = replace_base_dir (policy_path (policy_engine c0)) home /\ path_exists fs' q = true) \/
         files fs' !! resolve q = Some (str_bytes deny_all_policy).
Proof.
  intros H. apply get_config_Ok in H as (c0 & c1 & c2 & fs1 & fs2 & H0 & H1 & H2 & H3).
  apply complete_admin_Ok in H1 as (K1 & K2 & K3 & K4 & K5 & K6).
  apply complete_https_Ok in H2 as (L1 & L2 & L3 & L4 & L5 & L6).
  apply complete_policy_Ok in H3 as (M1 & M2 & M3 & M4 & M5).
  exists c0. split; [done|]. rewrite M1, L3, M2, L1, K2. split; [done|]. split; [exact K6|]. split; [done|].
  split; [intros Hi; apply L2; now rewrite K2|]. split; [congruence|]. split; [congruence|].
  cbn in M5 |- *. destruct allow_all; [exact (proj2 M5)|].
  destruct M5 as [(M5 & M6 & ->)|(_ & _ & M5)]; [left|right; exact M5].
  split; [|exact M6]. rewrite M5, L4, K3. reflexivity.
Qed.

End TrusteeProofs.

(** A policy set through the API does not survive a restart.  A server
    started without its configured policy file keeps its policy in
    [deny_all.rego].  The administrator replaces it through the API; the next
    start, still without the configured file, uses the same path and writes the
    policy that denies everything over it. *)
Theorem restart_resets_policy `{D : Disk} `{KY : KeyCrates} `{DA : DeviceArchitectures} `{CF : ConfigCrates}
    `{PC : PolicyCrates} now seed now2 seed2 build awd cf home fs fs1 c req fs2 fs3 c3 :
  get_config now seed build awd cf false home fs = (fs1, Ok c) ->
  policy_path (policy_engine c) = path_push home "deny_all.rego" ->
  engine_set_policy {| opa_policy_path := policy_path (policy_engine c) |} req fs1 = (fs2, Ok tt) ->
  get_config now2 seed2 build awd cf false home fs2 = (fs3, Ok c3) ->
  (forall c0, base_config build awd cf fs2 = Ok c0 ->
     policy_path (policy_engine c3) <> replace_base_dir (policy_path (policy_engine c0)) home) ->
  policy_path (policy_engine c3) = policy_path (policy_engine c) /\
  (exists v policy b, json_from_slice req = Some v /\ pointer "/policy" v = Some (VString policy) /\
     base64_url_decode policy = Some b /\ files fs2 !! resolve (policy_path (policy_engine c)) = Some b) /\
  files fs3 !! resolve (policy_path (policy_engine c)) = Some (str_bytes deny_all_policy).
Proof.
  intros _ Hq Hset H2 Hne. apply get_config_Ok in H2 as (c0 & c1 & c2 & f1 & f2 & H0 & H1 & H2 & H3).
  specialize (Hne _ H0).
  apply complete_admin_Ok in H1 as (_ & _ & K3 & _). apply complete_https_Ok in H2 as (_ & _ & _ & L4 & _).
  apply complete_policy_Ok in H3 as (_ & _ & _ & _ & [(M5 & _)|(_ & M4 & M5)]).
  { exfalso. apply Hne. rewrite M5, L4, K3. reflexivity. }
  rewrite Hq, <- M4. split; [done|]. split; [|exact M5].
  apply engine_set_policy_Ok in Hset as (v & policy & b & text & m & ? & ? & ? & _ & _ & ->).
  exists v, policy, b. do 3 (split; [done|]). cbn. rewrite M4, <- Hq. apply lookup_insert_eq.
Qed.

(** A key pair of which only the private half was written is never completed:
    the next starts take it for complete, and the server does not find the
    public key. *)
Theorem half_written_key `{D : Disk} `{KY : KeyCrates} `{J : JwtSimple} seed home fs :
  let '(private_path, public_path) := get_key_paths home "auth_key" in
  disk_fault "stat" (resolve private_path) = false -> path_exists fs private_path = true ->
  files fs !! resolve public_path = None ->
  ensure_auth_key_pair seed home fs = (fs, Ok (private_path, public_path)) /\
  exists e, admin_try_from {| auth_public_key := Some public_path; insecure_api := false |} fs = (fs, Err (ReadPublicKey e)).
Proof.
  unfold get_key_paths. intros Hd Hp Hq. split.
  - unfold ensure_auth_key_pair, get_key_paths. unfold mbind at 1, st_bind at 1, try_exists.
    rewrite Hd, Hp. reflexivity.
  - set (q := with_extension _ _) in *. clearbody q. unfold admin_try_from, fs_read. exec. destruct (disk_fault "read" _); [cbn; eauto|].
    rewrite Hq. cbn. eauto.
Qed.

(** ** Moving directories *)
Lemma split_on_join_app c p q : split_on c (p +:+ String.String c q) = split_on c p ++ split_on c q.
Proof.
  induction p as [|a p IH]; cbn [String.append split_on].
  - now rewrite Ascii.eqb_refl.
  - rewrite IH. destruct (Ascii.eqb c a); [done|]. destruct (split_on_cons c p) as (x & l & ->). done.
Qed.

Lemma foldl_plain acc cs : Forall (fun c => plain_component c = true) cs -> foldl resolve_step acc cs = acc ++ cs.
Proof.
  revert acc. induction cs as [|c cs IH]; intros acc H; cbn; [now rewrite app_nil_r|].
  apply Forall_cons_iff in H as [Hc H]. rewrite (resolve_step_plain _ _ Hc), IH by done. now rewrite <- app_assoc.
Qed.

(** A relative path of plain components. *)
Definition plain_relative (q : string) : Prop := Forall (fun c => plain_component c = true) (split_on slash q).

Lemma plain_relative_head q : plain_relative q -> is_absolute q = false /\ q <> "".
Proof.
  unfold plain_relative. intros H. destruct q as [|c q]; [now inversion H|]. split; [|done].
  cbn [is_absolute split_on] in *. destruct (Ascii.eqb_spec c slash) as [->|]; [|done].
  rewrite Ascii.eqb_refl in H. now inversion H.
Qed.

Lemma resolve_push_relative p q : plain_relative q -> resolve (path_push p q) = resolve p ++ split_on slash q.
Proof.
  intros Hq. destruct (plain_relative_head q Hq) as [Ha _]. unfold path_push. rewrite Ha.
  assert (Hs : forall p', resolve (p' +:+ String.String slash q) = resolve p' ++ split_on slash q).
  { intros p'. unfold resolve. rewrite split_on_join_app, foldl_app. now apply foldl_plain. }
  destruct (last_char p) as [c|] eqn:Hp.
  - destruct (Ascii.eqb_spec c slash) as [->|_]; [|apply Hs].
    destruct (last_char_snoc _ _ Hp) as (p' & ->). rewrite app_string_assoc. cbn. rewrite Hs.
    now rewrite <- (resolve_trailing p').
  - apply last_char_None in Hp as ->. unfold resolve. now apply foldl_plain.
Qed.

Lemma path_components_plain cs :
  Forall (fun c => plain_component c = true) cs ->
  base.filter (fun c => negb (String.eqb c "") && negb (String.eqb c ".")) cs = cs.
Proof.
  induction cs as [|c cs IH]; intros H; [done|]. apply Forall_cons_iff in H as [Hc H].
  rewrite filter_cons_True; [now rewrite IH|]. unfold plain_component in Hc.
  destruct (String.eqb c ""), (String.eqb c "."); done.
Qed.

(** Where [replace_base_dir] leads: a path below the old base directory to the
    same path below the new one, any other absolute path to itself, and a
    relative path below the new base. *)
Theorem replace_base_dir_spec q home :
  plain_relative q ->
  resolve (replace_base_dir (OLD_BASE +:+ q) home) = resolve home ++ split_on slash q /\
  (hd "" (split_on slash q) <> "opt" ->
   replace_base_dir (String.String slash q) home = String.String slash q) /\
  resolve (replace_base_dir q home) = resolve home ++ split_on slash q.
Proof.
  intros Hq. pose proof (plain_relative_head q Hq) as [Ha Hne].
  assert (Hc : path_components (OLD_BASE +:+ q) = ["opt"; "confidential-containers"] ++ split_on slash q).
  { unfold path_components.
    change (OLD_BASE +:+ q)%string with ("" +:+ String.String slash ("opt" +:+ String.String slash
      ("confidential-containers" +:+ String.String slash q)))%string.
    rewrite !split_on_join_app. change (split_on slash "") with [""]. change (split_on slash "opt") with ["opt"].
    change (split_on slash "confidential-containers") with ["confidential-containers"].
    change ([""] ++ ["opt"] ++ ["confidential-containers"] ++ split_on slash q) with
      ("" :: "opt" :: "confidential-containers" :: split_on slash q). cbn iota.
    change (String.eqb "" ".") with false. cbn iota. rewrite filter_cons_False by (cbn; tauto).
    rewrite path_components_plain; [reflexivity|]. do 2 (constructor; [reflexivity|]). exact Hq. }
  split; [|split].
  - unfold replace_base_dir, path_strip_prefix. change (is_absolute (OLD_BASE +:+ q)) with true.
    change (is_absolute OLD_BASE) with true. cbn [Bool.eqb]. rewrite Hc.
    change (path_components OLD_BASE) with ["opt"; "confidential-containers"].
    change (strip_components ["opt"; "confidential-containers"] (["opt"; "confidential-containers"] ++ split_on slash q))
      with (Some (split_on slash q)). cbn [fmap option_fmap option_map].
    rewrite join_split. now apply resolve_push_relative.
  - intros Hh. unfold replace_base_dir, path_strip_prefix. change (is_absolute (String.String slash q)) with true.
    change (is_absolute OLD_BASE) with true. cbn [Bool.eqb].
    assert (Hc2 : path_components (String.String slash q) = split_on slash q).
    { unfold path_components. cbn [split_on]. rewrite Ascii.eqb_refl. change (String.eqb "" ".") with false. cbn iota.
      rewrite filter_cons_False by (cbn; tauto). now apply path_components_plain. }
    rewrite Hc2. change (path_components OLD_BASE) with ["opt"; "confidential-containers"].
    destruct (split_on slash q) as [|c l]; [done|]. cbn [strip_components hd] in *.
    destruct (String.eqb_spec "opt" c); [congruence|done].
  - unfold replace_base_dir, path_strip_prefix. rewrite Ha. change (is_absolute OLD_BASE) with true.
    cbn [Bool.eqb]. now apply resolve_push_relative.
Qed.

(** Not every directory is moved: reference values in a JSON file and the
    policies of the simple token broker stay where the configuration has them. *)
Theorem relocate_leaves home file e s :
  relocate_rvps home (BuiltIn {| storage := StorageLocalJson file; extractors := e |}) =
    BuiltIn {| storage := StorageLocalJson file; extractors := e |} /\
  relocate_broker home (Simple s) = Simple s.
Proof. split; reflexivity. Qed.

(** ** Witnesses *)
Module TrusteeDemo.
#[export] Existing Instances PolicyDemo.good_disk PolicyDemo.crates.
#[export] Instance keys : KeyCrates := {|
  PKeyPrivate := nat; generate_ed25519 := Some; generate_rsa s _ := Some s;
  private_key_to_pem_pkcs8 _ := Some (str_bytes "private"); public_key_to_pem _ := Some (str_bytes "public");
  private_key_from_pem _ := Some 0%nat; X509Cert := unit; self_signed_certificate _ _ _ := Some tt;
  certificate_to_pem _ := Some (str_bytes "certificate");
|}.
#[export] Instance no_devices : DeviceArchitectures := {|
  DeviceArchitecture := unit; Hopper := tt; arch_to_string _ := "hopper"; |}.
#[export] Instance no_files : ConfigCrates := {|
  RawConfig := unit; config_build _ _ := None; kbs_config_deserialize _ := None;
  rvps_config_deserialize _ := None; as_config_from_reader _ := None; |}.

Definition fs0 : Fs := {| files := ∅; dirs := {[ ["h"] ]} |}.
Definition start (fs : Fs) := get_config 0 7 "trustee" None None false "/h" fs.
Definition fs1 : Fs := (start fs0).1.
Definition c1 : KbsConfig :=
  match (start fs0).2 with Ok c => c | _ => kbs_config_default None "trustee" end.
Definition req : bytes := str_bytes (PolicyDemo.enc (str_bytes "allow")).
Definition fs2 : Fs := (engine_set_policy {| opa_policy_path := "/h/deny_all.rego" |} req fs1).1.
Definition fs3 : Fs := (start fs2).1.
Definition c3 : KbsConfig :=
  match (start fs2).2 with Ok c => c | _ => kbs_config_default None "trustee" end.
End TrusteeDemo.

Import TrusteeDemo.

Lemma keygen_spec_witness : files (trustee_keygen 7 "/h/key" fs0).1 !! ["h"; "key"] = Some (str_bytes "private").
Proof.
  destruct (keygen_spec 7 "/h/key" fs0 (trustee_keygen 7 "/h/key" fs0).1 (Ok tt)) as (_ & _ & H).
  - vm_compute. reflexivity.
  - destruct (H eq_refl) as (key & priv & pub & _ & Hp & _ & _ & _ & _ & Hf). rewrite Hf.
    injection Hp as <-. rewrite lookup_insert_ne by (vm_compute; discriminate).
    change ["h"; "key"] with (resolve "/h/key"). apply lookup_insert_eq.
Defined.

Lemma get_config_spec_witness :
  is_Some (auth_public_key (admin c1)) /\ is_Some (certificate (http_server c1)).
Proof.
  destruct (get_config_spec 0 7 "trustee" None None false "/h" fs0 fs1 c1) as (c0 & _ & Ha & _ & _ & Hs & _).
  - vm_compute. reflexivity.
  - split; [exact Ha|]. apply Hs. vm_compute. reflexivity.
Defined.

Lemma restart_resets_policy_witness :
  files fs2 !! ["h"; "deny_all.rego"] = Some (str_bytes "allow") /\
  files fs3 !! ["h"; "deny_all.rego"] = Some (str_bytes deny_all_policy).
Proof.
  split; [vm_compute; reflexivity|].
  refine (proj2 (proj2 (restart_resets_policy 0 7 0 7 "trustee" None None "/h" fs0 fs1 c1 req fs2 fs3 c3 _ _ _ _ _))).
  - vm_compute. reflexivity.
  - vm_compute. reflexivity.
  - vm_compute. reflexivity.
  - vm_compute. reflexivity.
  - intros c0 [= <-]. vm_compute. discriminate.
Defined.
