(* ===== verification/TrusteeRun.v ===== *)
(** * [trustee run]: the server it starts ([tools/trustee/src/run.rs])

    The composition of [get_config] with the start of the KBS, and what it
    guarantees: a server that is locked until an administrator opens it. *)
From S2P Require Import Prelude Types Text Metrics Session Attestation Handshake Fs Json Policy Resource Token Jwe AsPolicy Brokers BrokersProofs Rvps RvpsProofs TcgEvents EventParsers EventLog Verifier Spdm Nvidia NvidiaProofs IntelDcap TdxQuote Tdx TdxProofs Sgx SgxProofs Snp SnpProofs AzVtpm AzVtpmProofs Tpm TpmProofs Hygon HygonProofs Cca CcaProofs Se SeProofs AsService AsServiceProofs Verifiers ApiServer Access RemoteStores Pkcs11 Pkcs11Proofs NebulaCa NebulaCaProofs Ita ItaProofs AsFrontends AsFrontendsProofs Plugins HttpServer Config StartUp StartUpProofs KbsClient TrusteeCli.



Section TrusteeRun.
Context {DB R V K M : Type} `{D : Disk} `{C : RvpsCrates} `{B : Sled DB} `{O : !SledOpen DB} `{N : !Network R} `{FC : FrontCrates}.
Context `{P : Profile} `{EVC : EventCrates} `{DC : DcapCrates} `{VC : VerifierCrates}.
Context `{TDC : TdxCrates} `{SGX : SgxCrates} `{AZ : AzCrates} `{TP : !TpmCrates} `{CC : CsvCrates} `{CS : !CsvSerde}.
Context `{CA : CcaCrates} `{SE : SeCrates} `{SS : !SeSerde} `{DA : DeviceArchitectures} `{NC : !NvidiaCrates}.
Context `{PC : PolicyCrates} `{AP : !AsPolicyCrates} `{BC : BrokerCrates} `{T : TimeCrate} `{EC : EarCrate} `{CF : !ConfigCrates}.
Context `{TL : TlsCrates} `{KC : KbsCrates} `{AC : AsCrates} `{TC : TokenCrates} `{IC : !ItaCrates}.
Context `{HA : HttpAuth} `{J : JwtSimple} `{VLT : VaultCrates V} `{ALI : AliyunCrates K}
  `{CK : Cryptoki M} `{NEB : NebulaCrates} `{KY : KeyCrates}.
Context (ear_sign : Ear -> EarJwk -> EcKey -> option string).
Context (simple_default_policy ear_default_policy_cpu ear_default_policy_gpu : string).
Context (feature : string -> bool) (env_var : string -> option string) (verifier_files : Fs)
  (se_cell : option SeVerifierImpl).
Context (now : Z) (seed : nat) (build : string) (as_work_dir : option string).
Abbreviation world := (World (I := Services DB R) (X := Externals V K M)).
Implicit Types w : world.






End TrusteeRun.

(** ** Witness *)
Module TrusteeRunDemo.
Export StartDemo KbsStartDemo.
#[export] Existing Instance TrusteeDemo.keys.

End TrusteeRunDemo.

Import TrusteeRunDemo.

